(* ===== verification/_CoqProject ===== *)
-Q . S2P
Prelude.v
Kernel.v
Uaccess.v
Lifecycle.v
Chardev.v
Vram.v
SimAcc.v
Inet.v
Seqfile.v
NetProc.v
KeyLog.v
Libfs.v
ProcBuf.v
Sysfs.v
Netfilter.v
Vfs.v
SeqTasks.v
Debugfs.v
Input.v
LinkedList.v
Threads.v
Cgroups.v
Pages.v
Netlink.v
Params.v
Preempt.v
Usb.v
Clients.v
Hooks.v
Smp.v
NetReaders.v
Together.v
SysfsPage.v
Fleet.v
KeyReaders.v
KeyOpeners.v
Attrs.v
ParamTable.v
Writers.v
KthreadLife.v
Kallsyms.v
