(* ===== verification/Prelude.v ===== *)
(** * Verification of the kernel-modules playground

    The repository is a collection of small Linux kernel modules.  Each module
    has an init and an exit function, global variables, and handlers that the
    kernel calls: file operations, interrupt handlers, netfilter hooks,
    sysfs and debugfs attributes.  The modules do not call each other (but
    for one that looks a function of another up by its name); what they
    share is the kernel.  This library models the modules as functions
    over an explicit state and proves what they do, on every branch.
    A theorem's comment states the conditions it needs of the kernel.

    ** How code is modelled

    [Prelude.v] (this file) has C integers of fixed width (a [Z] with its wrap
    written out), arrays with checked indices, C strings and decimal numerals.
    [Kernel.v] has the state a handler runs on ([world]: heap blocks, the
    memory of the calling process, the trace of kernel calls, the module's
    globals) and the monad [K] with faults: a run ends in [Done a] or in
    [Oops f] (NULL dereference, freed or wild pointer, index out of bounds,
    missing terminator, or a loop that used up its fuel).  [lines] reads
    from a trace what was printed with a given format, and [preserves]
    states what a handler leaves alone.  The results of kernel calls are chosen by an arbitrary environment [Env], so a theorem
    without hypotheses on it holds for every answer of the kernel.  A fault
    ends a run: nothing is said of what the machine does after, for instance,
    a store past the end of an array.
    [Lifecycle.v] computes from a trace which resources are held ([ledger],
    [holds]), and has the module loader as a step relation ([mstep]) and the
    interface [CleanModule] with its consequence for every reachable state (a
    state reached before the first fault).

    Code outside the repository that the modules rely on is an interface with
    its documented laws and an instance that meets them: [Uaccess.v]
    (copy_from_user, copy_to_user), [Libfs.v] (simple_read_from_buffer,
    simple_write_to_buffer), [Inet.v] (the format %pI4), [Slab] in KeyLog.v
    (kmalloc rounds sizes up), [FileSystem] in Vfs.v (what reading a file
    delivers), [ListHead] in LinkedList.v (the kernel's circular lists),
    [NetlinkBus] in Netlink.v (which groups can be joined, and who of their
    members a broadcast may reach), [ParamArray] in Params.v (array
    parameters), [Spawn] in Threads.v (where a new thread is linked into the
    lists of tasks), [SysfsAccess] in Attrs.v (who may open an attribute),
    [UsbCore] in Usb.v (matching devices) and [NfCore] in Hooks.v (the chain of
    hooks that follows from the registrations made, and calling it in order).
    [Seqfile.v] has one pass of the seq_file layer over its operations: start,
    then show and next as long as there is room, then stop.  At what position
    a pass starts, how many lines it has room for and how many passes a reader
    makes is the layer's choice, so the theorems hold for any.  The device
    memory of Vram.v is taken as RAM: ioread8 gives what iowrite8 last put
    there.  What a module needs of the kernel's answers to be clean is a
    class of its own where it needs anything: [HooksRegister] in Netfilter.v,
    [DebugfsRoom] in Debugfs.v, [SysfsRoom] in SysfsPage.v, [PutFits] in Netlink.v, [ProcNames] in Fleet.v.

    ** The components

    - [Chardev.v], src/chardev_fops.c: a device of one byte.  Reading gives
      the last byte written; loads, unloads and file operations in any order
      leave nothing behind.
    - [Vram.v], src/hardware_map.c: video memory as a file, with its
      byte-by-byte copy loops.  Reads and writes move exactly the window, a
      write followed by a read is the identity; a failed load leaks.
    - [SimAcc.v], src/file_proc.c: /proc/simacc adds the numbers written to
      it.  The scanning loop computes the 64-bit sum; the source's malformed
      NUL constant makes it read on into old text.
    - [NetProc.v], src/network_procfs.c: per-source packet statistics.  The
      linked list of slab objects refines a table ([record], [clear]); the
      whole module refines [spec_ops] for any sequence of packets, clears and
      reads; the counts are exact; the unload order is wrong.
    - [KeyLog.v], src/keyboard_interrupt_misc_device.c: a key logger with a
      sleeping reader.  Interrupts, signals and wake-ups that happen while it
      sleeps are an explicit schedule.  What the reader gets, and the faults
      of the handler's index arithmetic and of the unload.
    - [ProcBuf.v], src/procfs.c and src/misc_char_dev.c: the same file twice;
      both handlers refine [write_spec] and so are equivalent.  Password
      check, overflow, reading to the end, life cycle.
    - [Sysfs.v], src/kobjects.c and src/sysfs_example.c: attributes.  Integers
      survive a store and a show; bounds and termination of the text ones.
    - [Attrs.v]: the tables of the same two files, which make the attributes
      files with names and permissions.  The directory of kobjects.c refines
      three independent variables, for requests of any bytes, those included
      that overflow the text or store an uninitialised int.
    - [Netfilter.v], src/packet_filter.c, src/packet_block_protocol.c and
      src/packet_hello.c: three hooks.  The ICMP filter drops exactly ICMP.
    - [Vfs.v], src/vfs_basic.c and src/read_write_vfs.c: files read from the
      kernel.  The lifted address limit is always restored on return.
    - [SeqTasks.v], src/seq_file_procfs.c: the process list as a sequence
      file; a pass goes round the ring as long as there is room, and every
      pass begins at the same task.  Its life cycle.
    - [Debugfs.v], src/debugfs_basic.c and src/debugfs_jiffies.c: a 32-bit
      accumulator, exact modulo 2^32.
    - [Input.v], src/keyboard_interrupt.c and src/mouse_driver.c: what the
      keyboard handler reports and its life cycle; the mouse test that never
      holds, and when the polling loop ends.
    - [LinkedList.v], src/kernel_linked_list.c: five structures in a circular
      list.  What is printed, the shape of the ring, and the leak at unload.
    - [Threads.v], src/thread_tree.c ([Tree]) and src/kernel_thread.c
      ([Kthread]): the walk over all processes, each reported once; starting
      and stopping a kernel thread.
    - [Cgroups.v], src/cgroups_iterate.c: the subsystems of a css_set, with
      every way the survey can end.
    - [Pages.v], src/high_low_memory.c: two pages taken and given back, and
      what happens without them.
    - [Netlink.v], src/netlink_module.c: the answer to a message, who gets it,
      and the life cycle of the socket.
    - [ParamTable.v], src/parameters.c: the table of parameters with their
      names, types and permissions.
    - [Params.v], src/parameters.c; [Preempt.v], src/preempt_schedule.c;
      [Usb.v], src/usb_basic.c: what the small modules print and register, and
      the contexts in which [schedule] is called.

    - [KthreadLife.v]: src/kernel_thread.c under any sequence of loads,
      unloads and turns of the scheduler, against a specification with the
      phases of its thread.
    - [Kallsyms.v], src/kallsyms.c: calling a function by its name.  The source
      tests a variable it does not declare; the model takes the value of that
      name as an argument, and shows that a value that does not depend
      on the lookup will not do.

    ** Components together

    - [Hooks.v]: the packet statistics (NetProc.v) and the ICMP filter
      (Netfilter.v) share a hook.  [on_fst] and [on_snd] run a module beside
      another one on one kernel; the order of loading decides what the
      statistics mean; both are loaded by their own init functions.
    - [Smp.v]: the hooks of src/packet_block_protocol.c and
      src/network_procfs.c on several processors, statement by statement, with
      the global variables they share and packets that are freed.  What holds
      under every schedule ([smp_run_ok] for any hook of this shape), and the
      races.  One processor alone behaves as the sequential handler.
    - [NetReaders.v]: a reader of /proc/net_proc with other operations between
      its steps, and a reader that meets a node which is linked and not yet
      filled.
    - [Writers.v]: several writers of the password files of src/procfs.c and
      src/misc_char_dev.c, statement by statement; what every schedule keeps,
      and how two writers can get past the password.
    - [KeyReaders.v]: two readers of the key logger, and one interrupted by a
      signal.
    - [KeyOpeners.v]: any number of processes open and close the key logger's
      file before it is unloaded; when the unload waits, and what it leaves.
    - [Together.v]: [LocalModule] is the promise to write only to blocks of
      one's own.  Fourteen modules are shown to make it here,
      and in [SysfsPage.v] src/sysfs_example.c, which owns a page.
    - [Fleet.v]: any number of modules on one machine.  A [system] is a set of
      modules; [beside] puts two systems on one kernel, and keeps the promise
      [CleanSystem], so that the fifteen modules can be loaded, used and
      unloaded in any order without disturbing each other ([fleet], where the
      kernel makes the files and hooks they ask for; eight of them,
      [cautious], need no such promise).  Two of them want the same name in /proc and exclude each other.
    - [Clients.v]: the test programs.  src/manager.c opens /dev/mem, a node no
      module of the repository makes: what is behind a node is an argument of
      its model, and it is run with the device of Chardev.v there.
      src/keyboard_interrupt_misc_device_test.c runs on the driver of KeyLog.v.

    ** Loops and fuel

    A loop with a bound in the source recurses on the iterations left.  The
    walks over NetProc's list take the number of allocated nodes plus one as
    fuel, the walk over the process ring the number of tasks, the iteration
    over the list demo the number of structures plus one, the survey of
    subsystems their number plus one; the theorems show that none of these is
    used up on a well-formed structure.  A reader of NetProc's list with
    operations between its steps takes the number of nodes and of operations
    plus one.  The polling loop of the mouse takes its fuel as an argument,
    since it ends only if the hardware answers; a hundred times the longest
    silence is enough.  The counting loop in front of it takes its ten thousand
    turns.

    ** What is not modelled

    kallsyms.c is modelled up to the value of the name it does not declare;
    the symbol table and the code it could call are not.  How the kernel parses
    the parameters of parameters.c is not.  Include lines and licence macros have no
    counterpart; a table of function pointers has one where something goes
    through it (the seq_file operations, the device files, the sysfs
    attributes, the parameters, the modules of the loader).
    Concurrency is modelled where a module's own code depends on it: the
    packet hooks on several processors (Smp.v, where the body of
    [add_to_list_network] is one step, as it runs under its spinlock),
    readers beside the hook (NetReaders.v), writers of the password files
    (Writers.v), KeyLog's schedule and its readers,
    the windows during an unload, the css_sets released after a read-side
    section, the kernel thread that runs before or after the unload.  Other
    handlers run one at a time; processors see each other's writes in program
    order, and copying a text to or from a process is one step.  The texts of log messages
    are kept, with the pointers they print where the code uses them. *)

From stdpp Require Import base list numbers list_numbers strings.
From Stdlib Require Import ZArith Lia Ascii.

#[global] Open Scope Z_scope.

(** ** Machine integers

    A [w]-bit C integer is a [Z] kept in range by an explicit wrap:
    [wrapU] for unsigned types, [wrapS] for two's-complement signed types. *)

Definition wrapU (w z : Z) : Z := z mod 2 ^ w.

Definition wrapS (w z : Z) : Z := (z + 2 ^ (w - 1)) mod 2 ^ w - 2 ^ (w - 1).

Abbreviation u8 := (wrapU 8).
Abbreviation u32 := (wrapU 32).
Abbreviation u64 := (wrapU 64).
Abbreviation s8 := (wrapS 8).
Abbreviation s32 := (wrapS 32).
Abbreviation s64 := (wrapS 64).

Create Rewrite HintDb cint.
Create HintDb ckern.

Lemma wrapU_range w z : 0 <= w -> 0 <= wrapU w z < 2 ^ w.
Proof. intros Hw. apply Z.mod_pos_bound. by apply Z.pow_pos_nonneg. Qed.

Lemma wrapU_small w z : 0 <= z < 2 ^ w -> wrapU w z = z.
Proof. apply Z.mod_small. Qed.

Lemma wrapU_add_l w a b : 0 <= w -> wrapU w (wrapU w a + b) = wrapU w (a + b).
Proof. intros Hw. unfold wrapU. by rewrite Zplus_mod_idemp_l. Qed.

Lemma wrapU_idemp w a : wrapU w (wrapU w a) = wrapU w a.
Proof. apply Zmod_mod. Qed.

Lemma wrapS_small w z : 0 < w -> - 2 ^ (w - 1) <= z < 2 ^ (w - 1) -> wrapS w z = z.
Proof.
  intros Hw Hz. unfold wrapS. rewrite Z.mod_small; [lia|].
  replace (2 ^ w) with (2 * 2 ^ (w - 1)); [lia|].
  rewrite <- Z.pow_succ_r by lia. f_equal. lia.
Qed.

(** Wrapping is insensitive to intermediate wraps. *)
Lemma wrapS_add_l w a b : 0 < w -> wrapS w (wrapS w a + b) = wrapS w (a + b).
Proof.
  intros Hw. unfold wrapS.
  replace ((a + 2 ^ (w - 1)) mod 2 ^ w - 2 ^ (w - 1) + b + 2 ^ (w - 1))
    with ((a + 2 ^ (w - 1)) mod 2 ^ w + b) by lia.
  rewrite Zplus_mod_idemp_l. do 2 f_equal. lia.
Qed.

Lemma wrapS_range w z : 0 < w -> - 2 ^ (w - 1) <= wrapS w z < 2 ^ (w - 1).
Proof.
  intros Hw. unfold wrapS.
  assert (2 ^ w = 2 * 2 ^ (w - 1)) by (rewrite <- Z.pow_succ_r by lia; f_equal; lia).
  pose proof (Z.mod_pos_bound (z + 2 ^ (w - 1)) (2 ^ w)). lia.
Qed.

#[export] Hint Rewrite wrapU_idemp : cint.

Definition is_byte (c : Z) : Prop := 0 <= c < 256.

#[export] Instance is_byte_dec c : Decision (is_byte c).
Proof. unfold is_byte. apply _. Defined.

(** ** C arrays and C strings

    An array (or the contents of an allocated block) is the list of its
    bytes.  Indexing is by a signed [Z]; an access outside the array is
    [None], which the components turn into a fault. *)

Definition in_bounds (a : list Z) (i : Z) : bool :=
  (0 <=? i) && (i <? Z.of_nat (length a)).

Definition aget (a : list Z) (i : Z) : option Z :=
  if in_bounds a i then a !! Z.to_nat i else None.

Definition aset (a : list Z) (i v : Z) : option (list Z) :=
  if in_bounds a i then Some (<[Z.to_nat i := v]> a) else None.

(** Overwriting a whole range of an array, from index [i] on. *)
Definition asets (a : list Z) (i : Z) (vs : list Z) : option (list Z) :=
  if (0 <=? i) && (i + Z.of_nat (length vs) <=? Z.of_nat (length a))
  then Some (take (Z.to_nat i) a ++ vs ++ drop (Z.to_nat i + length vs) a)
  else None.

(** A literal of the source, as its characters (without the final NUL). *)
Definition str (s : string) : list Z :=
  map (fun c => Z.of_N (N_of_ascii c)) (String.list_ascii_of_string s).

(** The C string an array holds: its bytes up to the first NUL, [None] when
    the array has no terminator (a reader would run past its end). *)
Fixpoint cstr (a : list Z) : option (list Z) :=
  match a with
  | [] => None
  | c :: a' => if c =? 0 then Some [] else (fun s => c :: s) <$> cstr a'
  end.

(** [strcmp] on two terminated strings, by the sign of the first difference. *)
Fixpoint strcmp (a b : list Z) : Z :=
  match a, b with
  | [], [] => 0
  | [], _ :: _ => -1
  | _ :: _, [] => 1
  | x :: a', y :: b' => if x =? y then strcmp a' b' else if x <? y then -1 else 1
  end.

Definition no_nul (s : list Z) : Prop := Forall (fun c => c <> 0) s.

Lemma strcmp_eq a b : strcmp a b = 0 <-> a = b.
Proof.
  revert b. induction a as [|x a IH]; intros [|y b]; simpl; try done.
  destruct (Z.eqb_spec x y) as [->|Hne].
  - rewrite IH. split; [by intros ->|by intros [=]].
  - destruct (x <? y); split; intros ?; simplify_eq.
Qed.

Lemma cstr_app_nul s t : no_nul s -> cstr (s ++ 0 :: t) = Some s.
Proof.
  induction 1 as [|c s Hc Hs IH]; simpl; [done|].
  by rewrite (proj2 (Z.eqb_neq c 0) Hc), IH.
Qed.

Lemma cstr_no_nul a : no_nul a -> cstr a = None.
Proof.
  induction 1 as [|c s Hc Hs IH]; simpl; [done|].
  by rewrite (proj2 (Z.eqb_neq c 0) Hc), IH.
Qed.

Lemma cstr_Some a s : cstr a = Some s -> no_nul s /\ exists t, a = s ++ 0 :: t.
Proof.
  revert s. induction a as [|c a IH]; simpl; intros s; [done|].
  destruct (Z.eqb_spec c 0) as [->|Hc].
  - intros [= <-]. split; [constructor|by exists a].
  - destruct (cstr a) as [s'|]; simpl; [|done]. intros [= <-].
    destruct (IH s' eq_refl) as [Hn [t ->]]. split; [by constructor|by exists t].
Qed.

Lemma in_bounds_spec a i : in_bounds a i = true <-> 0 <= i < Z.of_nat (length a).
Proof. unfold in_bounds. lia. Qed.

Lemma aget_lookup a i : 0 <= i < Z.of_nat (length a) -> aget a i = a !! Z.to_nat i.
Proof. intros H. unfold aget. by rewrite (proj2 (in_bounds_spec a i) H). Qed.

Lemma aget_out a i : ~ (0 <= i < Z.of_nat (length a)) -> aget a i = None.
Proof. intros H. unfold aget. destruct (in_bounds a i) eqn:E; [|done]. by apply in_bounds_spec in E. Qed.

Lemma aset_in a i v :
  0 <= i < Z.of_nat (length a) -> aset a i v = Some (<[Z.to_nat i := v]> a).
Proof. intros H. unfold aset. by rewrite (proj2 (in_bounds_spec a i) H). Qed.

Lemma aset_out a i v : ~ (0 <= i < Z.of_nat (length a)) -> aset a i v = None.
Proof. intros H. unfold aset. destruct (in_bounds a i) eqn:E; [|done]. by apply in_bounds_spec in E. Qed.

Lemma asets_in a i vs :
  0 <= i -> i + Z.of_nat (length vs) <= Z.of_nat (length a) ->
  asets a i vs = Some (take (Z.to_nat i) a ++ vs ++ drop (Z.to_nat i + length vs) a).
Proof. intros Hi Hl. unfold asets. by rewrite !(proj2 (Z.leb_le _ _)) by done. Qed.

Lemma asets_0 a vs :
  (length vs <= length a)%nat -> asets a 0 vs = Some (vs ++ drop (length vs) a).
Proof. intros H. by rewrite asets_in by lia. Qed.

Lemma asets_out a i vs :
  Z.of_nat (length a) < i + Z.of_nat (length vs) -> asets a i vs = None.
Proof. intros H. unfold asets. by rewrite (proj2 (Z.leb_gt _ _) H), andb_false_r. Qed.

Lemma asets_length a i vs a' : asets a i vs = Some a' -> length a' = length a.
Proof.
  unfold asets. destruct ((0 <=? i) && _) eqn:E; [|done]. intros [= <-].
  rewrite !length_app, length_take, length_drop. lia.
Qed.

(** ** Decimal notation

    What [%lu], [%u] and the non-negative case of [%d] print, and the digit
    accumulation [num = num * 10 + c - '0'] that reads it back.  The fuel of
    [dec_fuel] bounds the number of digits; [dec] gives it one unit per bit,
    which [dec_unfold] shows to be enough. *)

Definition is_digit (c : Z) : bool := (48 <=? c) && (c <=? 57).

Fixpoint dec_fuel (f : nat) (n : Z) : list Z :=
  match f with
  | O => []
  | S f' => if n <? 10 then [48 + n] else dec_fuel f' (n / 10) ++ [48 + n mod 10]
  end.

Definition dec (n : Z) : list Z := dec_fuel (S (Z.to_nat (Z.log2 n))) n.

(** [%d] of a signed value. *)
Definition sdec (n : Z) : list Z := if n <? 0 then 45 :: dec (- n) else dec n.

Definition undec (l : list Z) : Z := fold_left (fun a c => a * 10 + (c - 48)) l 0.

Lemma dec_fuel_enough f g n :
  0 <= n < 10 ^ Z.of_nat f -> (0 < f)%nat -> (f <= g)%nat -> dec_fuel g n = dec_fuel f n.
Proof.
  revert g n. induction f as [|f IH]; intros g n Hn Hf Hg; [lia|].
  destruct g as [|g]; [lia|]. simpl.
  destruct (Z.ltb_spec n 10); [done|]. f_equal.
  destruct f as [|f]; [simpl in Hn; lia|].
  apply IH; [|lia..]. split; [apply Z.div_pos; lia|].
  apply Z.div_lt_upper_bound; [lia|].
  rewrite <- Z.pow_succ_r, <- Nat2Z.inj_succ by lia. lia.
Qed.

Lemma log2_fuel n : 0 <= n -> n < 10 ^ Z.of_nat (S (Z.to_nat (Z.log2 n))).
Proof.
  intros Hn. rewrite Nat2Z.inj_succ, Z2Nat.id by apply Z.log2_nonneg.
  destruct (Z.eq_dec n 0) as [->|Hne]; [simpl; lia|].
  apply Z.lt_le_trans with (2 ^ Z.succ (Z.log2 n)); [apply Z.log2_spec; lia|].
  apply Z.pow_le_mono_l. lia.
Qed.

Lemma dec_unfold n :
  0 <= n -> dec n = if n <? 10 then [48 + n] else dec (n / 10) ++ [48 + n mod 10].
Proof.
  intros Hn. unfold dec at 1. cbn [dec_fuel].
  destruct (Z.ltb_spec n 10) as [|Hge]; [done|]. f_equal. unfold dec.
  assert (Hlog : (S (Z.to_nat (Z.log2 (n / 10))) <= Z.to_nat (Z.log2 n))%nat).
  { enough (Z.log2 (n / 10) < Z.log2 n) by (pose proof (Z.log2_nonneg (n / 10)); lia).
    apply Z.lt_le_trans with (Z.log2 (n / 2)).
    - apply Z.lt_le_trans with (Z.log2 (2 * (n / 10))).
      + rewrite Z.log2_double by (apply Z.div_str_pos; lia). lia.
      + apply Z.log2_le_mono. Z.to_euclidean_division_equations; lia.
    - apply Z.log2_le_mono. Z.to_euclidean_division_equations; lia. }
  apply dec_fuel_enough; [|lia|exact Hlog].
  split; [apply Z.div_pos; lia|]. apply log2_fuel. apply Z.div_pos; lia.
Qed.

Lemma dec_ind (P : Z -> Prop) :
  (forall n, 0 <= n < 10 -> P n) -> (forall n, 10 <= n -> P (n / 10) -> P n) ->
  forall n, 0 <= n -> P n.
Proof.
  intros Hb Hs n Hn. revert n Hn. apply Zlt_0_ind. intros n IH Hn.
  destruct (Z.lt_ge_cases n 10); [by apply Hb|]. apply Hs; [done|]. apply IH.
  split; [apply Z.div_pos; lia|apply Z.div_lt; lia].
Qed.

Lemma undec_app l c : undec (l ++ [c]) = undec l * 10 + (c - 48).
Proof. unfold undec. by rewrite fold_left_app. Qed.

Lemma undec_dec n : 0 <= n -> undec (dec n) = n.
Proof.
  revert n. apply dec_ind.
  - intros n Hn. rewrite dec_unfold by lia. destruct (Z.ltb_spec n 10); [|lia].
    unfold undec. simpl. lia.
  - intros n Hn IH. rewrite dec_unfold by lia. destruct (Z.ltb_spec n 10); [lia|].
    rewrite undec_app, IH. pose proof (Z.div_mod n 10). lia.
Qed.

Lemma dec_digits n : 0 <= n -> Forall (fun c => is_digit c = true) (dec n).
Proof.
  revert n. apply dec_ind.
  - intros n Hn. rewrite dec_unfold by lia. destruct (Z.ltb_spec n 10); [|lia].
    repeat constructor. unfold is_digit. lia.
  - intros n Hn IH. rewrite dec_unfold by lia. destruct (Z.ltb_spec n 10); [lia|].
    apply Forall_app. split; [done|]. repeat constructor.
    pose proof (Z.mod_pos_bound n 10). unfold is_digit. lia.
Qed.

Lemma dec_length n k : 0 <= n < 10 ^ Z.of_nat k -> (0 < k)%nat -> (length (dec n) <= k)%nat.
Proof.
  intros [Hn Hk] Hpos. revert k Hk Hpos. revert n Hn. apply (dec_ind (fun n => forall k,
    n < 10 ^ Z.of_nat k -> (0 < k)%nat -> (length (dec n) <= k)%nat)).
  - intros n Hn k _ Hk. rewrite dec_unfold by lia. destruct (Z.ltb_spec n 10); simpl; lia.
  - intros n Hn IH k Hk Hpos. rewrite dec_unfold by lia. destruct (Z.ltb_spec n 10); [lia|].
    rewrite length_app. destruct k as [|[|k]]; simpl; [lia|simpl in Hk; lia|].
    enough (length (dec (n / 10)) <= S k)%nat by lia. apply IH; [|lia].
    apply Z.div_lt_upper_bound; [lia|]. rewrite <- Z.pow_succ_r, <- Nat2Z.inj_succ by lia. lia.
Qed.

Lemma dec_nonempty n : 0 <= n -> dec n <> [].
Proof.
  intros Hn. rewrite dec_unfold by done. destruct (n <? 10); [done|].
  intros H%app_eq_nil. naive_solver.
Qed.

Lemma digits_no_nul l : Forall (fun c => is_digit c = true) l -> no_nul l.
Proof. intros H. eapply Forall_impl; [exact H|]. intros c. unfold is_digit. lia. Qed.

Lemma dec_inj n m : 0 <= n -> 0 <= m -> dec n = dec m -> n = m.
Proof. intros Hn Hm H. rewrite <- (undec_dec n), <- (undec_dec m), H by done. done. Qed.
