(* ===== verification/Kernel.v ===== *)
(** * The kernel the modules run in

    None of the kernel's code is part of the repository, so this file does not
    model it: it fixes the interface.  A call to a kernel function is a
    [kcall]; the value it returns is chosen by an arbitrary environment
    ([Env]), a function of the calls made so far, so that every theorem
    quantified over [Env] covers every combination of failures.  The calls a
    module makes, with their results, form a [trace].

    What the file does define is the C side of that interface: the memory
    blocks handed out by the allocator, faults, the state-and-fault monad
    [K] the handlers are written in, and the bookkeeping ([ledger]) of the
    resources a trace leaves acquired. *)

From stdpp Require Import base gmap list numbers list_numbers strings.
From Stdlib Require Import ZArith Lia.
From S2P Require Import Prelude.

(** ** Error numbers (include/uapi/asm-generic/errno-base.h) *)

Definition EPERM : Z := 1.
Definition ENOMEM : Z := 12.
Definition EFAULT : Z := 14.
Definition EINVAL : Z := 22.
Definition ENODEV : Z := 19.

(** ** What the VFS guarantees to a read or write handler

    [rw_verify_area] refuses negative positions and positions that would
    overflow, and the system calls cap the length at [MAX_RW_COUNT]. *)

Definition MAX_RW_COUNT : Z := 0x7ffff000.

Definition vfs_range (off len : Z) : Prop :=
  0 <= off /\ 0 <= len <= MAX_RW_COUNT /\ off + len < 2 ^ 63.

(** ** Calls, events, traces *)

(** An argument of a printing function: a number or a string. *)
Inductive parg :=
| PInt (z : Z)
| PStr (s : list Z).

(** The kernel functions the modules call, with the arguments that matter. *)
Inductive kcall :=
(* printing and diagnostics *)
| Printk (fmt : string) (args : list parg)
| DumpStack
(* memory *)
| Kmalloc (size : Z)
| Kfree (p : Z)
| KmemCacheCreate (name : string) (size : Z)
| KmemCacheDestroy (c : Z)
| KmemCacheAlloc (c : Z)
| KmemCacheFree (c p : Z)
| Ioremap (base size : Z)
| Iounmap (p : Z)
(* character devices *)
| RegisterChrdev (major : Z) (name : string)
| UnregisterChrdev (major : Z) (name : string)
| AllocChrdevRegion (name : string)
| UnregisterChrdevRegion
| ClassCreate (name : string)
| ClassDestroy (cl : Z)
| DeviceCreate (cl : Z) (name : string)
| DeviceDestroy (cl : Z)
| CdevInit
| CdevAdd
| CdevDel
| MiscRegister (name : string)
| MiscDeregister (name : string)
(* procfs, sysfs *)
| CreateProcEntry (name : string) (mode parent : Z)
| ProcMkdir (name : string) (parent : Z)
| ProcCreateData (name : string) (mode parent : Z)
| RemoveProcEntry (name : string) (parent : Z)
| KobjectCreateAndAdd (name : string)
| SysfsCreateGroup (kobj : Z)
| KobjectPut (kobj : Z)
(* debugfs *)
| DebugfsCreateDir (name : string)
| DebugfsCreateFile (name : string) (mode dir : Z)
| DebugfsCreateU32 (name : string) (mode dir : Z)
| DebugfsCreateU64 (name : string) (mode dir : Z)
| DebugfsRemoveRecursive (dir : Z)
(* files opened by the kernel *)
| FilpOpen (path : string) (flags mode : Z)
| FilpClose (f : Z)
| VfsRead (f size pos : Z)
| VfsWrite (f size pos : Z)
| VfsFsync (f : Z)
(* interrupts, netfilter *)
| RequestIrq (irq dev : Z)
| FreeIrq (irq dev : Z)
| NfRegisterHook (ops : string) (hooknum pf priority : Z)
| NfUnregisterHook (ops : string)
(* threads and scheduling *)
| KthreadCreate (name : string)
| SetTaskState (t state : Z)
| WakeUpProcess (t : Z)
| KthreadStop (t : Z)
| PreemptDisable | PreemptEnable
| Schedule
(* pages *)
| AllocPage (gfp : Z)
| Kmap (p : Z)
| Kunmap (p : Z)
| FreePage (p : Z)
(* netlink, USB *)
| NetlinkKernelCreate (proto : Z)
| NetlinkKernelRelease (s : Z)
| NlmsgNew (size : Z)
| NlmsgPut (skb size : Z)
| NetlinkBroadcast (s skb portid group : Z) (payload : list Z)
| UsbRegister (name : string)
| UsbDeregister (name : string)
(* synchronisation *)
| SpinLockIrq | SpinUnlockIrq
| RcuReadLock | RcuReadUnlock
| SpinLock | SpinUnlock
| ReadLock | ReadUnlock
| WriteLock | WriteUnlock
| InitCompletion | Complete | WaitForCompletion
| WakeUpInterruptible
| WaitEventInterruptible
(* the table of symbols *)
| KallsymsLookupName (name : string)
(* port and memory-mapped I/O *)
| Inb (port : Z).

Definition kevent : Type := kcall * Z.

(** Newest event first. *)
Definition trace : Type := list kevent.

(** The environment: the result of the next call, given what happened before,
    and what a freshly allocated block happens to contain. *)
Class Env := {
  kret : trace -> kcall -> Z;
  kjunk : trace -> Z -> Z;
}.

(** An environment in which nothing fails, for concrete runs: pointers are
    non-null, error codes zero, old memory cleared. *)
Definition calm_ret (c : kcall) : Z :=
  match c with
  | Kmalloc _ | KmemCacheCreate _ _ | KmemCacheAlloc _ | Ioremap _ _ | ClassCreate _
  | DeviceCreate _ _ | CreateProcEntry _ _ _ | ProcMkdir _ _ | ProcCreateData _ _ _
  | KobjectCreateAndAdd _ | DebugfsCreateDir _ | DebugfsCreateFile _ _ _ | DebugfsCreateU32 _ _ _
  | DebugfsCreateU64 _ _ _ | FilpOpen _ _ _ | KthreadCreate _ | AllocPage _ | Kmap _
  | NetlinkKernelCreate _ | NlmsgNew _ | NlmsgPut _ _ => 1
  | _ => 0
  end.

Definition calm : Env := {| kret _ c := calm_ret c; kjunk _ _ := 0 |}.

(** ** Faults and the monad *)

Inductive fault :=
| NullDeref
| BadPointer (p : Z)
| OutOfBounds (i : Z)
| Unterminated
| Diverges.

Inductive outcome (A : Type) :=
| Done (a : A)
| Oops (f : fault).
Arguments Done {A} _.
Arguments Oops {A} _.

(** The state a handler runs on: the allocated blocks, the number of the next
    block, the bytes of the calling process, the trace, the module's globals. *)
Record world (S : Type) := World {
  heap : gmap Z (list Z);
  brk : Z;
  user : gmap Z Z;
  log : trace;
  glob : S;
}.
Arguments World {S} _ _ _ _ _.
Arguments heap {S} _.
Arguments brk {S} _.
Arguments user {S} _.
Arguments log {S} _.
Arguments glob {S} _.

Definition K (S A : Type) : Type := world S -> outcome A * world S.

#[global] Instance K_ret S : MRet (K S) := fun A a w => (Done a, w).

#[global] Instance K_bind S : MBind (K S) := fun A B f c w =>
  match c w with
  | (Done a, w') => f a w'
  | (Oops e, w') => (Oops e, w')
  end.

(** Updating one field of the world. *)
Section Fields.
Context {S : Type}.

Definition with_heap (h : gmap Z (list Z)) (w : world S) : world S :=
  World h (brk w) (user w) (log w) (glob w).
Definition with_brk (b : Z) (w : world S) : world S :=
  World (heap w) b (user w) (log w) (glob w).
Definition with_user (m : gmap Z Z) (w : world S) : world S :=
  World (heap w) (brk w) m (log w) (glob w).
Definition with_event (e : kevent) (w : world S) : world S :=
  World (heap w) (brk w) (user w) (e :: log w) (glob w).
Definition with_glob (g : S) (w : world S) : world S :=
  World (heap w) (brk w) (user w) (log w) g.
End Fields.

Section Primitives.
Context {S : Type} {ENV : Env}.

Definition oops {A} (e : fault) : K S A := fun w => (Oops e, w).

Definition of_option {A} (e : fault) (o : option A) : K S A :=
  match o with Some a => mret a | None => oops e end.

Definition get : K S S := fun w => (Done (glob w), w).

Definition put (g : S) : K S unit := fun w => (Done tt, with_glob g w).

Definition modify (f : S -> S) : K S unit := fun w =>
  (Done tt, with_glob (f (glob w)) w).

Definition emit (c : kcall) (r : Z) : K S unit := fun w =>
  (Done tt, with_event (c, r) w).

(** A call whose result the environment chooses. *)
Definition call (c : kcall) : K S Z := fun w =>
  (Done (kret (log w) c), with_event (c, kret (log w) c) w).

(** A call to a function returning nothing. *)
Definition docall (c : kcall) : K S unit := emit c 0.

Definition printk (fmt : string) (args : list parg) : K S unit :=
  docall (Printk fmt args).

(** [kmalloc]: NULL when the environment says so, otherwise a new block of
    [size] bytes whose contents are whatever the memory held before. *)
Definition kmalloc (size : Z) : K S Z := fun w =>
  if kret (log w) (Kmalloc size) =? 0
  then (Done 0, with_event (Kmalloc size, 0) w)
  else (Done (brk w),
        with_event (Kmalloc size, brk w)
          (with_brk (brk w + 1)
             (with_heap (<[brk w := map (kjunk (log w)) (seqZ 0 size)]> (heap w)) w))).

(** [kfree]: NULL is ignored; freeing a block twice is a fault. *)
Definition kfree (p : Z) : K S unit := fun w =>
  if p =? 0 then docall (Kfree p) w
  else match heap w !! p with
       | None => (Oops (BadPointer p), w)
       | Some _ => (Done tt, with_event (Kfree p, 0) (with_heap (delete p (heap w)) w))
       end.

(** The block a pointer designates. *)
Definition block (p : Z) : K S (list Z) := fun w =>
  if p =? 0 then (Oops NullDeref, w)
  else match heap w !! p with
       | None => (Oops (BadPointer p), w)
       | Some b => (Done b, w)
       end.

Definition set_block (p : Z) (b : list Z) : K S unit := fun w =>
  (Done tt, with_heap (<[p := b]> (heap w)) w).

(** [p[i]] and [p[i] = v]. *)
Definition load (p i : Z) : K S Z :=
  b ← block p; of_option (OutOfBounds i) (aget b i).

Definition store (p i v : Z) : K S unit :=
  b ← block p; b' ← of_option (OutOfBounds i) (aset b i v); set_block p b'.

(** The [n] bytes from [p[i]] on, and overwriting them. *)
Definition loads (p i n : Z) : K S (list Z) :=
  b ← block p;
  if (0 <=? i) && (0 <=? n) && (i + n <=? Z.of_nat (length b))
  then mret (take (Z.to_nat n) (drop (Z.to_nat i) b))
  else oops (OutOfBounds (i + n - 1)).

Definition stores (p i : Z) (vs : list Z) : K S unit :=
  b ← block p;
  b' ← of_option (OutOfBounds (i + Z.of_nat (length vs) - 1)) (asets b i vs);
  set_block p b'.
End Primitives.

(** ** Running a handler

    One equation per primitive, in the form [(c ≫= k) w = k a w'], so that
    [krun] moves a run over every call whose outcome is known; what is left
    to a proof is the case analysis on the environment's answers. *)

Section Run.
Context {S : Type} {ENV : Env}.
Implicit Types (w : world S).

Lemma bind_done {A B} (k : A -> K S B) (c : K S A) w a w' :
  c w = (Done a, w') -> (c ≫= k) w = k a w'.
Proof. intros H. unfold mbind, K_bind. by rewrite H. Qed.

Lemma bind_oops {A B} (k : A -> K S B) (c : K S A) w e w' :
  c w = (Oops e, w') -> (c ≫= k) w = (Oops e, w').
Proof. intros H. unfold mbind, K_bind. by rewrite H. Qed.

Lemma bind_assoc {A B C} (c : K S A) (f : A -> K S B) (g : B -> K S C) w :
  ((c ≫= f) ≫= g) w = (c ≫= fun a => f a ≫= g) w.
Proof. unfold mbind, K_bind. by destruct (c w) as [[a|e] w']. Qed.

Lemma bind_ret {A B} (k : A -> K S B) (a : A) w : ((mret a : K S A) ≫= k) w = k a w.
Proof. done. Qed.

Lemma run_ret {A} (a : A) w : (mret a : K S A) w = (Done a, w).
Proof. done. Qed.

Lemma bind_get {B} (k : S -> K S B) w : (get ≫= k) w = k (glob w) w.
Proof. done. Qed.

Lemma bind_put {B} (k : unit -> K S B) g w : (put g ≫= k) w = k tt (with_glob g w).
Proof. done. Qed.

Lemma bind_modify {B} (k : unit -> K S B) f w :
  (modify f ≫= k) w = k tt (with_glob (f (glob w)) w).
Proof. done. Qed.

Lemma bind_docall {B} (k : unit -> K S B) c w :
  (docall c ≫= k) w = k tt (with_event (c, 0) w).
Proof. done. Qed.

Lemma bind_printk {B} (k : unit -> K S B) f a w :
  (printk f a ≫= k) w = k tt (with_event (Printk f a, 0) w).
Proof. done. Qed.

Lemma run_printk f a w : printk f a w = (Done tt, with_event (Printk f a, 0) w).
Proof. done. Qed.

Lemma run_docall c w : docall c w = (Done tt, with_event (c, 0) w).
Proof. done. Qed.

Lemma bind_call {B} (k : Z -> K S B) c w :
  (call c ≫= k) w = k (kret (log w) c) (with_event (c, kret (log w) c) w).
Proof. done. Qed.

Lemma run_call c w : call c w = (Done (kret (log w) c), with_event (c, kret (log w) c) w).
Proof. done. Qed.

Lemma run_kmalloc_null n w :
  kret (log w) (Kmalloc n) = 0 -> kmalloc n w = (Done 0, with_event (Kmalloc n, 0) w).
Proof. intros H. unfold kmalloc. by rewrite H. Qed.

Lemma run_kmalloc_ok n w :
  kret (log w) (Kmalloc n) <> 0 ->
  kmalloc n w =
  (Done (brk w), with_event (Kmalloc n, brk w) (with_brk (brk w + 1)
     (with_heap (<[brk w := map (kjunk (log w)) (seqZ 0 n)]> (heap w)) w))).
Proof. intros H. unfold kmalloc. by rewrite (proj2 (Z.eqb_neq _ _) H). Qed.

Lemma run_kfree p b w :
  p <> 0 -> heap w !! p = Some b ->
  kfree p w = (Done tt, with_event (Kfree p, 0) (with_heap (delete p (heap w)) w)).
Proof. intros Hp Hb. unfold kfree. by rewrite (proj2 (Z.eqb_neq _ _) Hp), Hb. Qed.

Lemma run_block p b w : p <> 0 -> heap w !! p = Some b -> block p w = (Done b, w).
Proof. intros Hp Hb. unfold block. by rewrite (proj2 (Z.eqb_neq _ _) Hp), Hb. Qed.

Lemma run_load p i b v w :
  p <> 0 -> heap w !! p = Some b -> aget b i = Some v -> load p i w = (Done v, w).
Proof.
  intros Hp Hb Hv. unfold load. rewrite (bind_done _ _ _ _ _ (run_block _ _ _ Hp Hb)).
  by rewrite Hv.
Qed.

Lemma run_store p i v b b' w :
  p <> 0 -> heap w !! p = Some b -> aset b i v = Some b' ->
  store p i v w = (Done tt, with_heap (<[p := b']> (heap w)) w).
Proof.
  intros Hp Hb Hv. unfold store. rewrite (bind_done _ _ _ _ _ (run_block _ _ _ Hp Hb)).
  by rewrite Hv.
Qed.

Lemma run_loads p i n b w :
  p <> 0 -> heap w !! p = Some b -> 0 <= i -> 0 <= n -> i + n <= Z.of_nat (length b) ->
  loads p i n w = (Done (take (Z.to_nat n) (drop (Z.to_nat i) b)), w).
Proof.
  intros Hp Hb Hi Hn Hl. unfold loads. rewrite (bind_done _ _ _ _ _ (run_block _ _ _ Hp Hb)).
  destruct (_ && _) eqn:E; [done|lia].
Qed.

Lemma run_stores p i vs b b' w :
  p <> 0 -> heap w !! p = Some b -> asets b i vs = Some b' ->
  stores p i vs w = (Done tt, with_heap (<[p := b']> (heap w)) w).
Proof.
  intros Hp Hb Hv. unfold stores. rewrite (bind_done _ _ _ _ _ (run_block _ _ _ Hp Hb)).
  by rewrite Hv.
Qed.
End Run.

Create Rewrite HintDb krun.
#[export] Hint Rewrite @bind_assoc @bind_ret @run_ret @bind_get @bind_put @bind_modify
  @bind_docall @bind_printk @run_printk @run_docall @bind_call @run_call Z.eqb_refl : krun.

(** [krun] runs the calls with a fixed outcome, [kstep l] one call by the
    equation [l] whose side conditions the context decides. *)
Ltac kcbn :=
  change (Z.to_nat 0) with 0%nat in *; change (Z.to_nat 1) with 1%nat in *;
  cbn [heap brk user log glob with_heap with_brk with_user with_event with_glob
       fst snd take drop length app negb andb orb] in *.
Ltac krun := repeat (progress (autorewrite with krun; kcbn)).
Tactic Notation "kstep" uconstr(l) :=
  erewrite bind_done by (eapply l; cbn; solve [eauto with ckern | lia | done]); kcbn.

(** ** What a module has printed

    The arguments of the messages printed with a given format, oldest first. *)

Definition line_of (fmt : string) (e : kevent) : option (list parg) :=
  match e.1 with
  | Printk f a => if String.eqb fmt f then Some a else None
  | _ => None
  end.

Definition lines (fmt : string) (tr : trace) : list (list parg) := reverse (omap (line_of fmt) tr).

Lemma lines_cons fmt e tr :
  lines fmt (e :: tr) = lines fmt tr ++ match line_of fmt e with Some a => [a] | None => [] end.
Proof.
  unfold lines. change (omap (line_of fmt) (e :: tr)) with
    (match line_of fmt e with Some a => a :: omap (line_of fmt) tr | None => omap (line_of fmt) tr end).
  destruct (line_of fmt e) as [a|]; [by rewrite reverse_cons|by rewrite app_nil_r].
Qed.

(** Computes [lines] over the explicit events at the head of a trace. *)
Ltac klines :=
  repeat (rewrite lines_cons; cbn [line_of fst]);
  repeat match goal with |- context [String.eqb ?a ?b] =>
    let v := eval vm_compute in (String.eqb a b) in
    lazymatch v with true => idtac | false => idtac end; change (String.eqb a b) with v; cbv iota end;
  rewrite ?app_nil_r.

(** ** What a handler leaves alone

    [preserves T c]: if the module's globals satisfy [T] before [c] runs, they
    do afterwards, also when [c] ends in a fault.  The database of the same
    name decides it by the structure of [c], down to the assignments. *)

Definition preserves {S A} (T : S -> Prop) (c : K S A) : Prop :=
  forall w o w', c w = (o, w') -> T (glob w) -> T (glob w').

Section Preserves.
Context {S : Type} {ENV : Env} (T : S -> Prop).

Lemma preserves_bind {A B} (c : K S A) (k : A -> K S B) :
  preserves T c -> (forall a, preserves T (k a)) -> preserves T (c ≫= k).
Proof.
  intros Hc Hk w o w' H HT. unfold mbind, K_bind in H. destruct (c w) as [[a|e] w1] eqn:E.
  - apply (Hk _ _ _ _ H). by apply (Hc _ _ _ E).
  - simplify_eq. by apply (Hc _ _ _ E).
Qed.

Lemma preserves_pure {A} (c : K S A) : (forall w, glob (c w).2 = glob w) -> preserves T c.
Proof. intros H w o w' E HT. specialize (H w). rewrite E in H. cbn in H. by rewrite H. Qed.

Lemma preserves_modify f : (forall g, T g -> T (f g)) -> preserves T (modify f).
Proof. intros H w o w' [= <- <-]. apply H. Qed.

Lemma preserves_block p : preserves T (block p).
Proof. apply preserves_pure. intros w. unfold block. destruct (p =? 0); [done|]. by destruct (heap w !! p). Qed.

Lemma preserves_of_option {A} e (o : option A) : preserves T (of_option e o).
Proof. apply preserves_pure. by destruct o. Qed.

Lemma preserves_kfree p : preserves T (kfree p).
Proof.
  apply preserves_pure. intros w. unfold kfree. destruct (p =? 0); [done|]. by destruct (heap w !! p).
Qed.

Lemma preserves_kmalloc n : preserves T (kmalloc n).
Proof. apply preserves_pure. intros w. unfold kmalloc. by destruct (_ =? 0). Qed.
End Preserves.

Create HintDb preserves.
#[export] Hint Extern 1 (preserves _ (mret _)) => apply preserves_pure; reflexivity : preserves.
#[export] Hint Extern 1 (preserves _ get) => apply preserves_pure; reflexivity : preserves.
#[export] Hint Extern 1 (preserves _ (call _)) => apply preserves_pure; reflexivity : preserves.
#[export] Hint Extern 1 (preserves _ (docall _)) => apply preserves_pure; reflexivity : preserves.
#[export] Hint Extern 1 (preserves _ (printk _ _)) => apply preserves_pure; reflexivity : preserves.
#[export] Hint Extern 1 (preserves _ (oops _)) => apply preserves_pure; reflexivity : preserves.
#[export] Hint Extern 1 (preserves _ (set_block _ _)) => apply preserves_pure; reflexivity : preserves.
#[export] Hint Extern 2 (preserves _ (if ?b then _ else _)) => destruct b eqn:? : preserves.
#[export] Hint Extern 2 (preserves _ (match ?o with Some _ => _ | None => _ end)) =>
  destruct o eqn:? : preserves.
#[export] Hint Resolve preserves_bind preserves_block preserves_of_option preserves_kfree
  preserves_kmalloc : preserves.
