(* ===== verification/Uaccess.v ===== *)
(** * Access to the memory of the calling process

    [copy_from_user] and [copy_to_user] as the modules rely on them: they
    return the number of bytes they could not copy, zero when the whole range
    is mapped.  The interface [Uaccess] states that contract; the components
    are proved against it, and [uaccess_bytewise] shows that it can be met. *)

From stdpp Require Import base gmap list numbers list_numbers strings.
From Stdlib Require Import ZArith Lia.
From S2P Require Import Prelude Kernel.

(** The [n] bytes at address [a], [None] when one of them is not mapped. *)
Fixpoint ubytes (m : gmap Z Z) (a : Z) (n : nat) : option (list Z) :=
  match n with
  | O => Some []
  | S n' => b ← m !! a; bs ← ubytes m (a + 1) n'; Some (b :: bs)
  end.

Fixpoint uwrite (m : gmap Z Z) (a : Z) (bs : list Z) : gmap Z Z :=
  match bs with
  | [] => m
  | b :: bs' => uwrite (<[a := b]> m) (a + 1) bs'
  end.

Class Uaccess := {
  (** new contents of the destination, bytes left uncopied *)
  copy_from_user : gmap Z Z -> list Z -> Z -> list Z * Z;
  copy_to_user : gmap Z Z -> Z -> list Z -> gmap Z Z * Z;
  copy_from_user_ok : forall m old a bs,
    ubytes m a (length old) = Some bs -> copy_from_user m old a = (bs, 0);
  copy_from_user_fault : forall m old a,
    ubytes m a (length old) = None ->
    length (copy_from_user m old a).1 = length old /\ 0 < (copy_from_user m old a).2;
  copy_to_user_ok : forall m a bs old,
    ubytes m a (length bs) = Some old -> copy_to_user m a bs = (uwrite m a bs, 0);
  copy_to_user_fault : forall m a bs,
    ubytes m a (length bs) = None ->
    0 < (copy_to_user m a bs).2 /\
    forall x, ~ (a <= x < a + Z.of_nat (length bs)) \/ m !! x = None ->
      (copy_to_user m a bs).1 !! x = m !! x;
}.

(** The two calls as a handler makes them. *)
Section Calls.
Context {S : Type} {UA : Uaccess}.

(** Reads a user range the size of [old] over the bytes [old]. *)
Definition fetch_user (old : list Z) (src : Z) : K S (list Z * Z) := fun w =>
  (Done (copy_from_user (user w) old src), w).

(** Copies [bs] to the user address [dst]; the result is what was left. *)
Definition send_user (dst : Z) (bs : list Z) : K S Z := fun w =>
  (Done (copy_to_user (user w) dst bs).2,
   with_user (copy_to_user (user w) dst bs).1 w).

Lemma bind_fetch_user {B} (k : list Z * Z -> K S B) old src (w : world S) :
  (fetch_user old src ≫= k) w = k (copy_from_user (user w) old src) w.
Proof. done. Qed.

Lemma bind_send_user {B} (k : Z -> K S B) dst bs (w : world S) :
  (send_user dst bs ≫= k) w =
  k (copy_to_user (user w) dst bs).2 (with_user (copy_to_user (user w) dst bs).1 w).
Proof. done. Qed.
End Calls.

#[export] Hint Rewrite @bind_fetch_user @bind_send_user : krun.

Lemma ubytes_length m a n bs : ubytes m a n = Some bs -> length bs = n.
Proof.
  revert a bs. induction n as [|n IH]; intros a bs; simpl; [by intros [= <-]|].
  destruct (m !! a); simpl; [|done]. destruct (ubytes m (a + 1) n) eqn:E; simpl; [|done].
  intros [= <-]. simpl. f_equal. by eapply IH.
Qed.

Lemma ubytes_lookup m a n bs :
  ubytes m a n = Some bs -> forall i, (i < n)%nat -> m !! (a + Z.of_nat i) = bs !! i.
Proof.
  revert a bs. induction n as [|n IH]; intros a bs; simpl; [lia|].
  destruct (m !! a) eqn:Ea; simpl; [|done].
  destruct (ubytes m (a + 1) n) as [bs'|] eqn:E; simpl; [|done].
  intros [= <-] [|i] Hi; simpl; [by rewrite Z.add_0_r|].
  rewrite <- (IH _ _ E) by lia. f_equal. lia.
Qed.

Lemma ubytes_app m a n1 n2 :
  ubytes m a (n1 + n2) =
  (bs1 ← ubytes m a n1; bs2 ← ubytes m (a + Z.of_nat n1) n2; Some (bs1 ++ bs2)).
Proof.
  revert a. induction n1 as [|n1 IH]; intros a; simpl.
  - rewrite Z.add_0_r. by destruct (ubytes m a n2).
  - destruct (m !! a); simpl; [|done]. rewrite IH.
    replace (a + 1 + Z.of_nat n1) with (a + Z.of_nat (S n1)) by lia.
    destruct (ubytes m (a + 1) n1); simpl; [|done].
    by destruct (ubytes m (a + Z.of_nat (S n1)) n2).
Qed.

Lemma uwrite_outside m a bs x :
  ~ (a <= x < a + Z.of_nat (length bs)) -> uwrite m a bs !! x = m !! x.
Proof.
  revert m a. induction bs as [|b bs IH]; intros m a Hx; simpl in *; [done|].
  rewrite IH by lia. apply lookup_insert_ne. lia.
Qed.

Lemma uwrite_inside m a bs i :
  (i < length bs)%nat -> uwrite m a bs !! (a + Z.of_nat i) = bs !! i.
Proof.
  revert m a i. induction bs as [|b bs IH]; intros m a i Hi; simpl in *; [lia|].
  destruct i as [|i]; simpl.
  - rewrite Z.add_0_r, uwrite_outside by lia. apply lookup_insert_eq.
  - replace (a + Z.of_nat (S i)) with (a + 1 + Z.of_nat i) by lia. apply IH. lia.
Qed.

Lemma uwrite_app m a bs1 bs2 :
  uwrite m a (bs1 ++ bs2) = uwrite (uwrite m a bs1) (a + Z.of_nat (length bs1)) bs2.
Proof.
  revert m a. induction bs1 as [|b bs1 IH]; intros m a; simpl.
  - by rewrite Z.add_0_r.
  - rewrite IH. f_equal. lia.
Qed.

Lemma ubytes_ext m m' a n :
  (forall x, a <= x < a + Z.of_nat n -> m !! x = m' !! x) -> ubytes m a n = ubytes m' a n.
Proof.
  revert a. induction n as [|n IH]; intros a H; simpl; [done|].
  rewrite (H a), (IH (a + 1)); [done| |lia]. intros x Hx. apply H. lia.
Qed.

Lemma ubytes_uwrite m a bs : ubytes (uwrite m a bs) a (length bs) = Some bs.
Proof.
  revert m a. induction bs as [|b bs IH]; intros m a; simpl; [done|].
  rewrite uwrite_outside, lookup_insert_eq by lia. simpl. by rewrite IH.
Qed.

(** Mapped-ness is not changed by writing to mapped bytes. *)
Lemma ubytes_uwrite_mapped m a bs n old b k :
  ubytes m a n = Some old -> ubytes m b k = Some bs -> forall vs, length vs = k ->
  exists old', ubytes (uwrite m b vs) a n = Some old'.
Proof.
  revert a old. induction n as [|n IH]; intros a old Ha Hb vs Hv; simpl in *; [by eexists|].
  destruct (m !! a) eqn:Ea; simpl in Ha; [|done].
  destruct (ubytes m (a + 1) n) eqn:E; simpl in Ha; [|done].
  destruct (IH _ _ E Hb vs Hv) as [o' ->].
  destruct (decide (b <= a < b + Z.of_nat (length vs))) as [Hin|Hout].
  - replace a with (b + Z.of_nat (Z.to_nat (a - b))) by lia.
    rewrite uwrite_inside by lia.
    destruct (lookup_lt_is_Some_2 vs (Z.to_nat (a - b))) as [v ->]; [lia|]. by eexists.
  - rewrite uwrite_outside, Ea by done. by eexists.
Qed.

(** The bytes at [a] up to the first unmapped address. *)
Fixpoint uprefix (m : gmap Z Z) (a : Z) (n : nat) : list Z :=
  match n with
  | O => []
  | S n' => match m !! a with Some b => b :: uprefix m (a + 1) n' | None => [] end
  end.

Lemma uprefix_length_le m a n : (length (uprefix m a n) <= n)%nat.
Proof.
  revert a. induction n as [|n IH]; intros a; simpl; [lia|].
  destruct (m !! a); simpl; [|lia]. specialize (IH (a + 1)). lia.
Qed.

Lemma uprefix_ok m a n bs : ubytes m a n = Some bs -> uprefix m a n = bs.
Proof.
  revert a bs. induction n as [|n IH]; intros a bs; simpl; [by intros [= <-]|].
  destruct (m !! a); simpl; [|done]. destruct (ubytes m (a + 1) n) eqn:E; simpl; [|done].
  intros [= <-]. f_equal. by apply IH.
Qed.

Lemma uprefix_fault m a n : ubytes m a n = None -> (length (uprefix m a n) < n)%nat.
Proof.
  revert a. induction n as [|n IH]; intros a; simpl; [done|].
  destruct (m !! a); simpl; [|lia]. destruct (ubytes m (a + 1) n) eqn:E; simpl; [done|].
  specialize (IH _ E). lia.
Qed.

Lemma uprefix_mapped m a n i :
  (i < length (uprefix m a n))%nat -> exists v, m !! (a + Z.of_nat i) = Some v.
Proof.
  revert a i. induction n as [|n IH]; intros a i; simpl; [lia|].
  destruct (m !! a) as [v|] eqn:E; simpl; [|lia]. intros Hi.
  destruct i as [|i]; [exists v; by rewrite Z.add_0_r|].
  destruct (IH (a + 1) i) as [v' Hv]; [lia|]. exists v'. rewrite <- Hv. f_equal. lia.
Qed.

Lemma uprefix_cons m a n b :
  m !! a = Some b -> uprefix m a (S n) = b :: uprefix m (a + 1) n.
Proof. intros H. simpl. by rewrite H. Qed.

Lemma uprefix_below m a n x v : x < a -> uprefix (<[x := v]> m) a n = uprefix m a n.
Proof.
  revert a. induction n as [|n IH]; intros a Hx; simpl; [done|].
  rewrite lookup_insert_ne by lia. destruct (m !! a); [|done]. by rewrite IH by lia.
Qed.

Definition mapped (m : gmap Z Z) (a : Z) (n : nat) : bool :=
  match ubytes m a n with Some _ => true | None => false end.

Lemma mapped_below m a n x v : x < a -> mapped (<[x := v]> m) a n = mapped m a n.
Proof.
  intros Hx. unfold mapped. erewrite ubytes_ext; [done|].
  intros y Hy. apply lookup_insert_ne. lia.
Qed.

Lemma mapped_S m a n b : m !! a = Some b -> mapped m a (S n) = mapped m (a + 1) n.
Proof. intros H. unfold mapped. simpl. rewrite H. simpl. by destruct (ubytes m (a + 1) n). Qed.

Lemma mapped_S_None m a n : m !! a = None -> mapped m a (S n) = false.
Proof. intros H. unfold mapped. simpl. by rewrite H. Qed.

Lemma uprefix_mapped_length m a n : mapped m a n = true -> length (uprefix m a n) = n.
Proof.
  unfold mapped. destruct (ubytes m a n) eqn:E; [|done]. intros _.
  rewrite (uprefix_ok _ _ _ _ E). by eapply ubytes_length.
Qed.

(** One byte at a time, as the loops of the repository copy. *)
Section OneByte.
Context {UA : Uaccess}.

Lemma fetch_byte m a b v : m !! a = Some v -> copy_from_user m [b] a = ([v], 0).
Proof. intros H. apply copy_from_user_ok. simpl. by rewrite H. Qed.

Lemma fetch_byte_fault m a b : m !! a = None -> 0 < (copy_from_user m [b] a).2.
Proof. intros H. apply copy_from_user_fault. simpl. by rewrite H. Qed.

Lemma fetch_byte_some m a b : exists b' n, copy_from_user m [b] a = ([b'], n).
Proof.
  destruct (m !! a) as [v|] eqn:Ha.
  { exists v, 0. by apply fetch_byte. }
  destruct (copy_from_user_fault m [b] a) as [Hl _]; [simpl; by rewrite Ha|].
  destruct (copy_from_user m [b] a) as [[|b' [|]] n]; simplify_eq/=. eauto.
Qed.

Lemma send_byte m a b v : m !! a = Some v -> copy_to_user m a [b] = (<[a := b]> m, 0).
Proof. intros H. exact (copy_to_user_ok m a [b] [v] ltac:(simpl; by rewrite H)). Qed.

Lemma send_byte_fault m a b :
  m !! a = None -> (copy_to_user m a [b]).1 = m /\ 0 < (copy_to_user m a [b]).2.
Proof.
  intros H. destruct (copy_to_user_fault m a [b]) as [Hn Hx]; [simpl; by rewrite H|].
  split; [|done]. apply map_eq. intros x. apply Hx. simpl.
  destruct (decide (x = a)) as [->|]; [by right|left; lia].
Qed.
End OneByte.

(** ** An implementation of the contract

    Byte by byte up to the first unmapped address; what is left of the
    destination of [copy_from_user] is cleared. *)

Definition cfu_bytewise (m : gmap Z Z) (old : list Z) (a : Z) : list Z * Z :=
  let got := uprefix m a (length old) in
  (got ++ replicate (length old - length got) 0, Z.of_nat (length old - length got)).

Definition ctu_bytewise (m : gmap Z Z) (a : Z) (bs : list Z) : gmap Z Z * Z :=
  let n := length (uprefix m a (length bs)) in
  (uwrite m a (take n bs), Z.of_nat (length bs - n)).

#[export] Instance uaccess_bytewise : Uaccess.
Proof.
  refine {| copy_from_user := cfu_bytewise; copy_to_user := ctu_bytewise |}.
  - intros m old a bs H. unfold cfu_bytewise. rewrite (uprefix_ok _ _ _ _ H).
    rewrite (ubytes_length _ _ _ _ H), Nat.sub_diag. simpl. by rewrite app_nil_r.
  - intros m old a H. simpl. apply uprefix_fault in H.
    rewrite length_app, length_replicate. lia.
  - intros m a bs old H. unfold ctu_bytewise. rewrite (uprefix_ok _ _ _ _ H).
    by rewrite (ubytes_length _ _ _ _ H), firstn_all, Nat.sub_diag.
  - intros m a bs H. simpl. apply uprefix_fault in H. split; [lia|].
    intros x Hx. unfold ctu_bytewise. simpl.
    destruct (decide (a <= x < a + Z.of_nat (length (uprefix m a (length bs))))) as [Hin|Hout].
    + exfalso. destruct Hx as [Hx|Hx]; [lia|].
      pose proof (uprefix_mapped m a (length bs) (Z.to_nat (x - a))) as [v Hv]; [lia|].
      replace (a + Z.of_nat (Z.to_nat (x - a))) with x in Hv by lia. congruence.
    + apply uwrite_outside. rewrite length_take. lia.
Defined.
