(* ===== verification/Lifecycle.v ===== *)
(** * Loading and unloading: the resources a module holds

    Every module of the repository acquires kernel resources in its init
    function and gives them back in its exit function.  [ledger] computes from
    a trace which resources are still held, and rejects a trace that releases
    something it does not hold.  [CleanModule] is the promise a well-behaved
    module makes; [reachable_clean] is what the module loader may conclude
    from it for every sequence of loads, unloads and handler calls. *)

From stdpp Require Import base gmap list numbers strings relations.
From Stdlib Require Import ZArith Lia.
From S2P Require Import Prelude Kernel.

Inductive resource :=
| RMem (p : Z)
| RCache (c : Z)
| RObj (c p : Z)
| RMapping (p : Z)
| RChrdev (major : Z) (name : string)
| RRegion
| RClass (cl : Z)
| RDevice (cl : Z)
| RCdev
| RMisc (name : string)
| RProc (name : string) (parent : Z)
| RKobj (p : Z)
| RIrq (irq dev : Z)
| RHook (ops : string)
| RDebugDir (d : Z)
| RFile (f : Z)
| RPage (p : Z)
| RKmap (p : Z)
| RSkb (p : Z)
| RSock (p : Z)
| RUsb (name : string).

Definition resource_eqb (a b : resource) : bool :=
  match a, b with
  | RMem p, RMem q => p =? q
  | RCache p, RCache q => p =? q
  | RObj c p, RObj d q => (c =? d) && (p =? q)
  | RMapping p, RMapping q => p =? q
  | RChrdev m n, RChrdev m' n' => (m =? m') && String.eqb n n'
  | RRegion, RRegion => true
  | RClass p, RClass q => p =? q
  | RDevice p, RDevice q => p =? q
  | RCdev, RCdev => true
  | RMisc n, RMisc n' => String.eqb n n'
  | RProc n p, RProc n' p' => String.eqb n n' && (p =? p')
  | RKobj p, RKobj q => p =? q
  | RIrq i d, RIrq i' d' => (i =? i') && (d =? d')
  | RHook o, RHook o' => String.eqb o o'
  | RDebugDir d, RDebugDir d' => d =? d'
  | RFile f, RFile f' => f =? f'
  | RPage p, RPage q => p =? q
  | RKmap p, RKmap q => p =? q
  | RSkb p, RSkb q => p =? q
  | RSock p, RSock q => p =? q
  | RUsb n, RUsb n' => String.eqb n n'
  | _, _ => false
  end.

Lemma resource_eqb_eq a b : resource_eqb a b = true <-> a = b.
Proof.
  destruct a, b; simpl;
    rewrite ?andb_true_iff, ?Z.eqb_eq, ?String.eqb_eq; try done;
    split; intros ?; destruct_and?; simplify_eq; done.
Qed.

#[global] Instance resource_eq_dec : EqDecision resource.
Proof.
  intros a b. destruct (resource_eqb a b) eqn:E; [left|right].
  - by apply resource_eqb_eq.
  - intros H%resource_eqb_eq. congruence.
Defined.

(** [IS_ERR]: the last page of the address space encodes an error number. *)
Definition is_err (p : Z) : bool := (-4095 <=? p) && (p <? 0).

Inductive effect := Acquire (r : resource) | Release (r : resource) | Nothing.

Definition acquire_if (b : bool) (r : resource) : effect := if b then Acquire r else Nothing.

(** The effect of an event on the resources held, by the conventions of the
    kernel's interface: pointers are NULL (or an error pointer) on failure,
    integers negative. *)
Definition effect_of (e : kevent) : effect :=
  let (c, r) := e in
  match c with
  | Kmalloc _ => acquire_if (negb (r =? 0)) (RMem r)
  | Kfree p => if p =? 0 then Nothing else Release (RMem p)
  | KmemCacheCreate _ _ => acquire_if (negb (r =? 0)) (RCache r)
  | KmemCacheDestroy c => Release (RCache c)
  | KmemCacheAlloc c => acquire_if (negb (r =? 0)) (RObj c r)
  | KmemCacheFree c p => Release (RObj c p)
  | Ioremap _ _ => acquire_if (negb (r =? 0)) (RMapping r)
  | Iounmap p => Release (RMapping p)
  | RegisterChrdev m n => acquire_if (0 <=? r) (RChrdev m n)
  | UnregisterChrdev m n => Release (RChrdev m n)
  | AllocChrdevRegion _ => acquire_if (0 <=? r) RRegion
  | UnregisterChrdevRegion => Release RRegion
  | ClassCreate _ => acquire_if (negb (r =? 0) && negb (is_err r)) (RClass r)
  | ClassDestroy cl => if (cl =? 0) || is_err cl then Nothing else Release (RClass cl)
  | DeviceCreate cl _ => acquire_if (negb (r =? 0) && negb (is_err r)) (RDevice cl)
  | DeviceDestroy cl => Release (RDevice cl)
  | CdevAdd => acquire_if (0 <=? r) RCdev
  | CdevDel => Release RCdev
  | MiscRegister n => acquire_if (r =? 0) (RMisc n)
  | MiscDeregister n => Release (RMisc n)
  | CreateProcEntry n _ d => acquire_if (negb (r =? 0)) (RProc n d)
  | ProcMkdir n d => acquire_if (negb (r =? 0)) (RProc n d)
  | ProcCreateData n _ d => acquire_if (negb (r =? 0)) (RProc n d)
  | RemoveProcEntry n d => Release (RProc n d)
  | KobjectCreateAndAdd _ => acquire_if (negb (r =? 0)) (RKobj r)
  | KobjectPut p => if p =? 0 then Nothing else Release (RKobj p)
  | RequestIrq i d => acquire_if (r =? 0) (RIrq i d)
  | FreeIrq i d => Release (RIrq i d)
  | NfRegisterHook o _ _ _ => acquire_if (r =? 0) (RHook o)
  | NfUnregisterHook o => Release (RHook o)
  | DebugfsCreateDir _ => acquire_if (negb (r =? 0) && negb (is_err r)) (RDebugDir r)
  | DebugfsRemoveRecursive d => if (d =? 0) || is_err d then Nothing else Release (RDebugDir d)
  | FilpOpen _ _ _ => acquire_if (negb (r =? 0) && negb (is_err r)) (RFile r)
  | FilpClose f => Release (RFile f)
  | AllocPage _ => acquire_if (negb (r =? 0)) (RPage r)
  | FreePage p => Release (RPage p)
  | Kmap p => acquire_if (negb (r =? 0)) (RKmap p)
  | Kunmap p => Release (RKmap p)
  | NlmsgNew _ => acquire_if (negb (r =? 0)) (RSkb r)
  | NetlinkBroadcast _ p _ _ _ => Release (RSkb p)
  | NetlinkKernelCreate _ => acquire_if (negb (r =? 0)) (RSock r)
  | NetlinkKernelRelease p => Release (RSock p)
  | UsbRegister n => acquire_if (r =? 0) (RUsb n)
  | UsbDeregister n => Release (RUsb n)
  | _ => Nothing
  end.

Fixpoint rem (r : resource) (L : list resource) : option (list resource) :=
  match L with
  | [] => None
  | x :: L' => if resource_eqb r x then Some L' else (fun M => x :: M) <$> rem r L'
  end.

Fixpoint ledger (tr : trace) : option (list resource) :=
  match tr with
  | [] => Some []
  | e :: tr' =>
      L ← ledger tr';
      match effect_of e with
      | Acquire r => Some (r :: L)
      | Release r => rem r L
      | Nothing => Some L
      end
  end.

(** The trace releases only what it holds, and holds exactly [L] at its end. *)
Definition holds (tr : trace) (L : list resource) : Prop :=
  exists L', ledger tr = Some L' /\ L' ≡ₚ L.

#[global] Instance holds_proper tr : Proper ((≡ₚ) ==> iff) (holds tr).
Proof. intros L1 L2 H. unfold holds. by setoid_rewrite H. Qed.

Lemma rem_Permutation r L M : rem r L = Some M -> L ≡ₚ r :: M.
Proof.
  revert M. induction L as [|x L IH]; intros M; simpl; [done|].
  destruct (resource_eqb r x) eqn:E.
  - apply resource_eqb_eq in E as ->. by intros [= ->].
  - destruct (rem r L) as [M'|]; simpl; [|done]. intros [= <-].
    rewrite (IH M') by done. apply Permutation_swap.
Qed.

Lemma rem_elem r L : r ∈ L -> exists M, rem r L = Some M.
Proof.
  rewrite list_elem_of_In. induction L as [|x L IH]; simpl; [done|].
  intros [->|H]; [rewrite (proj2 (resource_eqb_eq r r) eq_refl); by eexists|].
  destruct (IH H) as [M ->]. destruct (resource_eqb r x); by eexists.
Qed.

Lemma holds_acquire e r tr L :
  effect_of e = Acquire r -> holds tr L -> holds (e :: tr) (r :: L).
Proof.
  intros He [L' [H HL]]. exists (r :: L'). simpl. rewrite H, He. simpl.
  split; [done|]. by rewrite HL.
Qed.

Lemma holds_release e r tr L :
  effect_of e = Release r -> holds tr (r :: L) -> holds (e :: tr) L.
Proof.
  intros He [L' [H HL]]. destruct (rem_elem r L') as [M HM]; [rewrite HL, elem_of_cons; by left|].
  exists M. simpl. rewrite H, He. simpl. split; [done|].
  apply rem_Permutation in HM. apply (Permutation_cons_inv (a := r)). by rewrite <- HM, HL.
Qed.

Lemma holds_nothing e tr L : effect_of e = Nothing -> holds tr L -> holds (e :: tr) L.
Proof. intros He [L' [H HL]]. exists L'. simpl. by rewrite H, He. Qed.

Lemma holds_acquire_rem e r tr L M :
  effect_of e = Acquire r -> rem r L = Some M -> holds tr M -> holds (e :: tr) L.
Proof. intros He HM H. rewrite (rem_Permutation _ _ _ HM). by apply holds_acquire. Qed.

(** Releasing what is not held makes the trace invalid for good. *)
Lemma ledger_bad_release e r tr L :
  effect_of e = Release r -> holds tr L -> r ∉ L -> ledger (e :: tr) = None.
Proof.
  intros He [L' [H HL]] Hr. cbn [ledger]. rewrite H, He. simpl.
  destruct (rem r L') as [M|] eqn:E; [|done]. apply rem_Permutation in E.
  exfalso. apply Hr. rewrite <- HL, E. set_solver.
Qed.

Lemma ledger_nothing e tr : effect_of e = Nothing -> ledger (e :: tr) = ledger tr.
Proof. intros He. cbn [ledger]. rewrite He. by destruct (ledger tr). Qed.

Lemma ledger_stays_bad e tr : ledger tr = None -> ledger (e :: tr) = None.
Proof. intros H. cbn [ledger]. by rewrite H. Qed.

Lemma holds_unique tr L1 L2 : holds tr L1 -> holds tr L2 -> L1 ≡ₚ L2.
Proof. intros [A [HA <-]] [B [HB <-]]. by simplify_eq. Qed.

(** Rearranges explicit lists of resources up to permutation. *)
Ltac perm_split x pre r :=
  lazymatch r with
  | x :: ?post => constr:((pre, post))
  | ?y :: ?r' => let pre' := eval cbn [app] in (pre ++ [y]) in perm_split x pre' r'
  end.

Ltac perm_solve :=
  cbn [app];
  lazymatch goal with
  | |- ?l ≡ₚ ?l => reflexivity
  | |- ?x :: ?l ≡ₚ ?r =>
      let pp := perm_split x (@nil resource) r in
      lazymatch pp with
      | (?pre, ?post) =>
          transitivity (x :: (pre ++ post));
          [apply perm_skip; perm_solve | exact (Permutation_middle pre post x)]
      end
  end.

(** Decides [effect_of e = ...] from the sign conditions in the context. *)
Ltac keffect :=
  cbn [effect_of]; unfold acquire_if, is_err;
  repeat match goal with
  | |- context [?a =? ?b] => destruct (Z.eqb_spec a b); [try congruence; try lia|try congruence; try lia]
  | |- context [?a <=? ?b] => destruct (Z.leb_spec a b); [try lia|try lia]
  | |- context [?a <? ?b] => destruct (Z.ltb_spec a b); [try lia|try lia]
  end; reflexivity.

(** Solves [holds (e1 :: ... :: en :: tr) L] from what [tr] holds, reading the
    trace backwards: a release asks for its resource, an acquisition pays. *)
Ltac ledger_step :=
  lazymatch goal with
  | |- holds (_ :: _) _ =>
      first
        [ eapply holds_nothing; [keffect|]
        | eapply holds_release; [keffect|]
        | eapply holds_acquire; [keffect|]
        | eapply holds_acquire_rem;
          [keffect|cbn; rewrite ?Z.eqb_refl, ?String.eqb_refl; cbn; reflexivity|] ]
  | H : holds ?tr _ |- holds ?tr _ => eapply holds_proper; [|exact H]; perm_solve
  end.

(** A result with a fixed error number decides which branch a contract takes. *)
Ltac decide_result :=
  lazymatch goal with
  | |- if ?b then _ else _ =>
      let v := eval vm_compute in b in
      lazymatch v with true => idtac | false => idtac end;
      change b with v; cbv iota
  end.

Ltac ledger_auto := try decide_result; cbn [log glob with_event with_heap with_brk with_user with_glob] in *;
  repeat ledger_step.

(** ** Worlds the allocator can be in *)

Definition wf_world {S} (w : world S) : Prop :=
  0 < brk w /\ forall p b, heap w !! p = Some b -> 0 < p < brk w.

Lemma wf_world_empty {S} b u l (g : S) : 0 < b -> wf_world (World ∅ b u l g).
Proof. intros Hb. split; [done|]. intros p c H. cbn in H. by rewrite lookup_empty in H. Qed.

(** ** Modules *)

Record kmodule (S O : Type) := KModule {
  mod_static : S;
  mod_init : K S Z;
  mod_exit : K S unit;
  mod_op : O -> K S Z;
}.
Arguments KModule {S O} _ _ _ _.
Arguments mod_static {S O} _.
Arguments mod_init {S O} _.
Arguments mod_exit {S O} _.
Arguments mod_op {S O} _ _.

(** What a module promises to the loader: [clean_res] is what it holds while
    it is loaded, [clean_inv] the state its handlers leave it in. *)
Class CleanModule {S O} (m : kmodule S O) := {
  clean_res : S -> list resource;
  clean_inv : world S -> Prop;
  clean_init : forall w L,
    wf_world w -> glob w = mod_static m -> holds (log w) L ->
    exists r w', mod_init m w = (Done r, w') /\ wf_world w' /\
      (if r =? 0 then clean_inv w' /\ holds (log w') (clean_res (glob w') ++ L)
       else holds (log w') L);
  clean_exit : forall w L,
    wf_world w -> clean_inv w -> holds (log w) (clean_res (glob w) ++ L) ->
    exists w', mod_exit m w = (Done tt, w') /\ wf_world w' /\ holds (log w') L;
  clean_op : forall w o r w' L,
    wf_world w -> clean_inv w -> mod_op m o w = (Done r, w') ->
    holds (log w) (clean_res (glob w) ++ L) ->
    wf_world w' /\ clean_inv w' /\ holds (log w') (clean_res (glob w') ++ L);
}.

(** The module loader.  Loading gives the module fresh static data; a module
    whose init function returns non-zero is not
    loaded; only a loaded module can be used or unloaded.  A call that faults
    ends the run: the states reached are those before the first fault, and
    nothing is claimed about what the machine does after one. *)
Record machine (S : Type) := Machine { loaded : bool; wld : world S }.
Arguments Machine {S} _ _.
Arguments loaded {S} _.
Arguments wld {S} _.

Section Loader.
Context {S O : Type} (m : kmodule S O).

Inductive mstep : machine S -> machine S -> Prop :=
| step_insmod w r w' :
    mod_init m (with_glob (mod_static m) w) = (Done r, w') ->
    mstep (Machine false w) (Machine (r =? 0) w')
| step_rmmod w w' :
    mod_exit m w = (Done tt, w') -> mstep (Machine true w) (Machine false w')
| step_op w o r w' :
    mod_op m o w = (Done r, w') -> mstep (Machine true w) (Machine true w').

(** A condition on the globals that the static data satisfy and the handlers
    preserve holds whenever the module is loaded. *)
Lemma reachable_typed (T : S -> Prop) w0 s :
  T (mod_static m) -> preserves T (mod_init m) -> (forall o, preserves T (mod_op m o)) ->
  rtc mstep (Machine false w0) s -> loaded s = true -> T (glob (wld s)).
Proof.
  intros Hs Hi Ho H. apply rtc_ind_r with (z := s) (P := fun s => loaded s = true -> T (glob (wld s))) in H;
    [done|done|]. clear s H. intros s s' _ Hstep IH.
  destruct Hstep as [w r w' H|w w' H|w o r w' H]; simpl in *; intros Hl; [|done|].
  - by apply (Hi _ _ _ H).
  - apply (Ho _ _ _ _ H). by apply IH.
Qed.

Context `{!CleanModule m}.

Definition clean_state (L : list resource) (s : machine S) : Prop :=
  wf_world (wld s) /\
  if loaded s then clean_inv (wld s) /\ holds (log (wld s)) (clean_res (glob (wld s)) ++ L)
  else holds (log (wld s)) L.

Lemma mstep_clean L s s' : mstep s s' -> clean_state L s -> clean_state L s'.
Proof.
  destruct 1 as [w r w' H|w w' H|w o r w' H]; intros [Hwf Hs]; simpl in *.
  - destruct (clean_init (with_glob (mod_static m) w) L) as (r' & w'' & E & Hwf' & Hr);
      [done..|]. rewrite H in E. simplify_eq. by split.
  - destruct Hs as [Hi Hh]. destruct (clean_exit w L) as (w'' & E & Hwf' & Hr); [done..|].
    rewrite H in E. simplify_eq. by split.
  - destruct Hs as [Hi Hh]. destruct (clean_op w o r w' L Hwf Hi H Hh) as (? & ? & ?). by split_and!.
Qed.

Lemma reachable_clean L s s' : rtc mstep s s' -> clean_state L s -> clean_state L s'.
Proof. induction 1; eauto using mstep_clean. Qed.

(** Unloading never faults in a reachable state. *)
Lemma clean_unload L w :
  clean_state L (Machine true w) ->
  exists w', mod_exit m w = (Done tt, w') /\ holds (log w') L.
Proof.
  intros [Hwf [Hi Hh]]. destruct (clean_exit w L) as (w' & E & _ & H); eauto.
Qed.

(** What holds of a clean module in every state the loader can reach: while
    it is not loaded it holds nothing of its own, and while it is loaded it
    can be unloaded without a fault, which gives back everything. *)
Lemma clean_lifecycle w0 L s :
  wf_world w0 -> holds (log w0) L -> rtc mstep (Machine false w0) s ->
  (loaded s = false -> holds (log (wld s)) L) /\
  (loaded s = true -> exists w', mod_exit m (wld s) = (Done tt, w') /\ holds (log w') L).
Proof.
  intros Hwf Hh Hs. apply (reachable_clean L) in Hs; [|done].
  destruct s as [[] w]; (split; [intros E|intros E]); simplify_eq/=.
  - by apply clean_unload.
  - by destruct Hs.
Qed.

End Loader.
