(* ===== verification/Chardev.v ===== *)
(** * The one-byte character device (src/chardev_fops.c)

    Major 60, a buffer of one byte.  The state is the global [memory_buffer];
    [memory_op] gathers the file operations of [memory_fops]. *)

From stdpp Require Import base gmap list numbers list_numbers strings relations.
From Stdlib Require Import ZArith Lia.
From S2P Require Import Prelude Kernel Uaccess Lifecycle.

Definition memory_major : Z := 60.

(** The driver's globals: the pointer to its buffer. *)
Record memory := Memory { memory_buffer : Z }.

Section Device.
Context {ENV : Env} {UA : Uaccess}.

Definition memory_exit : K memory unit :=
  docall (UnregisterChrdev memory_major "memory");;
  g ← get;
  (if negb (memory_buffer g =? 0) then kfree (memory_buffer g) else mret tt);;
  printk "<1>Removing memory module\n" [].

Definition memory_init : K memory Z :=
  result ← call (RegisterChrdev memory_major "memory");
  if result <? 0 then
    printk "<1>memory: cannot obtain major number %d\n" [PInt memory_major];;
    mret result
  else
    p ← kmalloc 1;
    put (Memory p);;
    if p =? 0 then memory_exit;; mret (- ENOMEM)
    else store p 0 0;; printk "<1>Inserting memory module\n" [];; mret 0.

Definition memory_open : K memory Z :=
  printk "<1>Opening memory module\n" [];; mret 0.

Definition memory_release : K memory Z :=
  printk "<1>Releasing memory module\n" [];; mret 0.

(** The result and the new file position. *)
Definition memory_read (buf count f_pos : Z) : K memory (Z * Z) :=
  printk "<1>Reading Data\n" [];;
  g ← get;
  bs ← loads (memory_buffer g) 0 1;
  send_user buf bs;;
  if f_pos =? 0 then mret (1, f_pos + 1) else mret (0, f_pos).

Definition memory_write (buf count f_pos : Z) : K memory Z :=
  printk "<1>Writing Data\n" [];;
  let tmp := buf + count - 1 in
  g ← get;
  old ← loads (memory_buffer g) 0 1;
  new ← fetch_user old tmp;
  stores (memory_buffer g) 0 new.1;;
  mret 1.

Inductive memory_call :=
| MOpen | MRelease
| MRead (buf count f_pos : Z)
| MWrite (buf count f_pos : Z).

Definition memory_op (c : memory_call) : K memory Z :=
  match c with
  | MOpen => memory_open
  | MRelease => memory_release
  | MRead buf count pos => r ← memory_read buf count pos; mret r.1
  | MWrite buf count pos => memory_write buf count pos
  end.

Definition memory_module : kmodule memory memory_call :=
  KModule (Memory 0) memory_init memory_exit memory_op.
End Device.

(** ** The device keeps a one-byte block *)

Definition memory_inv (w : world memory) : Prop :=
  memory_buffer (glob w) <> 0 /\ exists b, heap w !! memory_buffer (glob w) = Some [b].

Definition memory_res (g : memory) : list resource :=
  [RMem (memory_buffer g); RChrdev memory_major "memory"].

Section Proofs.
Context {ENV : Env} {UA : Uaccess}.

Lemma memory_write_run w buf count pos :
  memory_inv w -> exists b,
  memory_write buf count pos w =
  (Done 1, with_heap (<[memory_buffer (glob w) := [b]]> (heap w))
             (with_event (Printk "<1>Writing Data\n" [], 0) w)) /\
  (forall v, user w !! (buf + count - 1) = Some v -> b = v).
Proof.
  intros [Hp [b Hb]]. destruct (fetch_byte_some (user w) (buf + count - 1) b) as (b' & n & E).
  exists b'. split.
  - unfold memory_write. krun. kstep run_loads. krun. rewrite E. by kstep run_stores.
  - intros v Hv. rewrite (fetch_byte _ _ _ _ Hv) in E.
    by simplify_eq.
Qed.

Lemma memory_read_run w b dst count pos :
  memory_buffer (glob w) <> 0 -> heap w !! memory_buffer (glob w) = Some [b] ->
  exists m,
  memory_read dst count pos w =
  (Done (if pos =? 0 then (1, pos + 1) else (0, pos)),
   with_user m (with_event (Printk "<1>Reading Data\n" [], 0) w)) /\
  (forall v, user w !! dst = Some v -> m = <[dst := b]> (user w)).
Proof.
  intros Hp Hb. exists (copy_to_user (user w) dst [b]).1. split.
  - unfold memory_read. krun. kstep run_loads. krun. by destruct (pos =? 0).
  - intros v Hv. by rewrite (send_byte _ _ _ _ Hv).
Qed.

Lemma memory_exit_run w L :
  wf_world w -> memory_inv w -> holds (log w) (memory_res (glob w) ++ L) ->
  exists w', memory_exit w = (Done tt, w') /\ wf_world w' /\ holds (log w') L.
Proof.
  intros [Hbrk Hwf] [Hp [b Hb]] Hh. eexists. unfold memory_exit. krun.
  rewrite (proj2 (Z.eqb_neq _ _) Hp). cbn [negb]. kstep run_kfree. krun.
  split; [done|]. split.
  - split; [done|]. intros p b'. kcbn. intros [_ H]%lookup_delete_Some. eauto.
  - unfold memory_res in *. ledger_auto.
Qed.

Lemma memory_init_run w L :
  wf_world w -> glob w = Memory 0 -> holds (log w) L ->
  exists r w', memory_init w = (Done r, w') /\ wf_world w' /\
    (if r =? 0 then memory_inv w' /\ holds (log w') (memory_res (glob w') ++ L)
     else holds (log w') L).
Proof.
  intros [Hbrk Hwf] Hg Hh. unfold memory_init. krun.
  set (r := kret (log w) _). destruct (Z.ltb_spec r 0) as [Hr|Hr]; krun.
  { eexists _, _. split; [done|]. split; [done|].
    rewrite (proj2 (Z.eqb_neq r 0)) by lia. ledger_auto. }
  destruct (decide (kret (log (with_event (RegisterChrdev memory_major "memory", r) w))
                      (Kmalloc 1) = 0)) as [Hk|Hk].
  { kstep run_kmalloc_null. krun. unfold memory_exit. krun.
    eexists _, _. split; [done|]. split; [done|]. ledger_auto. }
  kstep run_kmalloc_ok. krun. rewrite (proj2 (Z.eqb_neq (brk w) 0)) by lia.
  erewrite bind_done; [|eapply run_store; [lia|apply lookup_insert_eq|done]]. krun.
  eexists _, _. split; [done|]. split; [|split].
  - split; kcbn; [lia|]. intros p b. rewrite !lookup_insert. repeat case_decide; naive_solver lia.
  - split; cbn; [lia|]. rewrite !lookup_insert_eq. by eexists.
  - unfold memory_res. ledger_auto.
Qed.

Lemma memory_op_run w o r w' L :
  wf_world w -> memory_inv w -> memory_op o w = (Done r, w') ->
  holds (log w) (memory_res (glob w) ++ L) ->
  wf_world w' /\ memory_inv w' /\ holds (log w') (memory_res (glob w') ++ L).
Proof.
  intros Hwf Hi H Hh. destruct o as [| |buf count pos|buf count pos]; simpl in H.
  - unfold memory_open in H. autorewrite with krun in H. simplify_eq.
    split; [done|split; [done|]]. ledger_auto.
  - unfold memory_release in H. autorewrite with krun in H. simplify_eq.
    split; [done|split; [done|]]. ledger_auto.
  - destruct Hi as [Hp [b Hb]].
    destruct (memory_read_run w b buf count pos Hp Hb) as (m & E & _).
    rewrite (bind_done _ _ _ _ _ E), run_ret in H. simplify_eq.
    split; [done|split; [split; eauto|]]. ledger_auto.
  - destruct (memory_write_run w buf count pos Hi) as (b & E & _).
    rewrite E in H. simplify_eq. destruct Hwf as [Hbrk Hwf], Hi as [Hp [b' Hb]].
    split; [|split; [|ledger_auto]]; (split; [done|]); kcbn.
    + intros p c. rewrite lookup_insert. case_decide; naive_solver.
    + rewrite lookup_insert_eq. by eexists.
Qed.
End Proofs.

#[export] Instance memory_clean {ENV : Env} {UA : Uaccess} : CleanModule memory_module :=
  Build_CleanModule _ _ memory_module memory_res memory_inv
    memory_init_run memory_exit_run memory_op_run.

(** ** Properties of the device *)

Section Properties.
Context {ENV : Env} {UA : Uaccess}.

Lemma memory_inv_ubytes_last m buf bs b :
  ubytes m buf (length bs) = Some bs -> last bs = Some b ->
  m !! (buf + Z.of_nat (length bs) - 1) = Some b.
Proof.
  intros H Hb. rewrite last_lookup in Hb. rewrite <- Hb.
  rewrite <- (ubytes_lookup _ _ _ _ H) by (apply lookup_lt_Some in Hb; lia).
  f_equal. apply lookup_lt_Some in Hb. lia.
Qed.

(** A process that writes the bytes [bs] to the device and then reads it at
    position 0 gets back the last byte written, one byte is reported by
    each call, and the next read (at position 1) reports end of file. *)
Theorem memory_write_then_read w buf bs b dst old n1 n2 pos :
  memory_inv w ->
  ubytes (user w) buf (length bs) = Some bs -> last bs = Some b ->
  user w !! dst = Some old ->
  exists w1 w2 w3,
    memory_write buf (Z.of_nat (length bs)) pos w = (Done 1, w1) /\
    memory_read dst n1 0 w1 = (Done (1, 1), w2) /\
    user w2 = <[dst := b]> (user w) /\
    memory_read dst n2 1 w2 = (Done (0, 1), w3).
Proof.
  intros Hi Hbs Hb Hdst.
  destruct (memory_write_run w buf (Z.of_nat (length bs)) pos Hi) as (b1 & E1 & Hb1).
  apply (memory_inv_ubytes_last _ _ _ _ Hbs) in Hb. apply Hb1 in Hb as ->.
  destruct Hi as [Hp _].
  match type of E1 with _ = (_, ?w1) =>
    destruct (memory_read_run w1 b dst n1 0) as (m & E2 & Hm); [done|apply lookup_insert_eq|]
  end.
  match type of E2 with _ = (_, ?w2) =>
    destruct (memory_read_run w2 b dst n2 1) as (m' & E3 & _); [done|apply lookup_insert_eq|]
  end.
  eexists _, _, _. split; [exact E1|]. split; [exact E2|]. split; [by eapply Hm|exact E3].
Qed.

(** A write of zero bytes still fetches a byte, the one just before the
    user's buffer, stores it in the device and reports one byte written. *)
Theorem memory_write_zero w buf v pos :
  memory_inv w -> user w !! (buf - 1) = Some v ->
  exists w', memory_write buf 0 pos w = (Done 1, w') /\
    heap w' !! memory_buffer (glob w') = Some [v].
Proof.
  intros Hi Hv. destruct (memory_write_run w buf 0 pos Hi) as (b & E & Hb).
  eexists. split; [exact E|]. rewrite (Hb v) by (by rewrite Z.add_0_r).
  apply lookup_insert_eq.
Qed.

(** Whatever the kernel answers and whatever the processes do with the
    device, after any sequence of loads, unloads and file operations the
    trace releases only what it holds, an unloaded driver holds nothing
    (a failed load included), and a loaded one can be unloaded without a
    fault and then gives back everything. *)
Theorem memory_module_lifecycle (w0 : world memory) (L : list resource) s :
  wf_world w0 -> holds (log w0) L ->
  rtc (mstep memory_module) (Machine false w0) s ->
  (loaded s = false -> holds (log (wld s)) L) /\
  (loaded s = true -> exists w', memory_exit (wld s) = (Done tt, w') /\ holds (log w') L).
Proof. exact (clean_lifecycle memory_module w0 L s). Qed.
End Properties.

(** ** Concrete runs *)

(** A loaded driver, and a process with the bytes of "abc" at address 100. *)
Definition demo_world : world memory :=
  World {[1 := [0]]} 2 {[100 := 97; 101 := 98; 102 := 99; 200 := 0]}
    [(Kmalloc 1, 1); (RegisterChrdev 60 "memory", 0)] (Memory 1).

Lemma demo_inv : memory_inv demo_world.
Proof. split; [done|by exists 0]. Qed.

Lemma memory_write_then_read_witness :
  exists w1 w2 w3,
    memory_write 100 3 0 demo_world = (Done 1, w1) /\
    memory_read 200 5 0 w1 = (Done (1, 1), w2) /\
    user w2 = <[200 := 99]> (user demo_world) /\
    memory_read 200 5 1 w2 = (Done (0, 1), w3).
Proof.
  exact (memory_write_then_read demo_world 100 [97; 98; 99] 99 200 0 5 5 0
           demo_inv eq_refl eq_refl eq_refl).
Defined.

Lemma memory_write_zero_witness :
  exists w', memory_write 101 0 0 demo_world = (Done 1, w') /\
    heap w' !! memory_buffer (glob w') = Some [97].
Proof. exact (memory_write_zero demo_world 101 97 0 demo_inv eq_refl). Defined.

(** Load the driver on an empty machine. *)
Definition fresh_world : world memory := World ∅ 1 {[100 := 97]} [] (Memory 0).

Definition loaded_world : world memory := (memory_init (ENV := calm) fresh_world).2.

Lemma memory_module_lifecycle_witness :
  exists w', memory_exit loaded_world = (Done tt, w') /\ holds (log w') [].
Proof.
  apply (memory_module_lifecycle (ENV := calm) fresh_world [] (Machine true loaded_world)).
  - by apply wf_world_empty.
  - by exists [].
  - apply (rtc_l _ _ (Machine true loaded_world)); [|apply rtc_refl].
    exact (step_insmod (memory_module (ENV := calm)) fresh_world 0 loaded_world eq_refl).
  - reflexivity.
Defined.
