(* ===== verification/Vram.v ===== *)
(** * Video memory as a file (src/hardware_map.c)

    The driver maps [VRAM_SIZE] bytes of video memory and lets a process read
    and write them byte by byte through a character device.  The state is the
    driver's globals and the contents of the video memory itself. *)

From stdpp Require Import base gmap list numbers list_numbers strings relations.
From Stdlib Require Import ZArith Lia.
From S2P Require Import Prelude Kernel Uaccess Lifecycle.

Definition VRAM_BASE : Z := 0x000A0000.
Definition VRAM_SIZE : Z := 0x00020000.

Record video := Video {
  vram : Z;          (* what ioremap returned *)
  cl : Z;            (* what class_create returned *)
  vmem : list Z;     (* the bytes behind the mapping *)
}.

Definition set_vram (p : Z) (g : video) : video := Video p (cl g) (vmem g).
Definition set_cl (c : Z) (g : video) : video := Video (vram g) c (vmem g).
Definition set_vmem (b : list Z) (g : video) : video := Video (vram g) (cl g) b.

Section Driver.
Context {ENV : Env} {UA : Uaccess}.

(** [ioread8] and [iowrite8] at an offset of the mapping. *)
Definition ioread8 (i : Z) : K video Z :=
  g ← get;
  if vram g =? 0 then oops NullDeref else of_option (OutOfBounds i) (aget (vmem g) i).

Definition iowrite8 (b i : Z) : K video unit :=
  g ← get;
  if vram g =? 0 then oops NullDeref
  else m ← of_option (OutOfBounds i) (aset (vmem g) i b); put (set_vmem m g).

Definition my_open : K video Z := mret 0.

Definition my_close : K video Z := mret 0.

(** The length the handlers work with: [len] is unsigned, so the comparison
    [*off + len > VRAM_SIZE] is on 64-bit unsigned integers. *)
Definition clamp (len off : Z) : Z :=
  if VRAM_SIZE <? u64 (off + len) then u64 (VRAM_SIZE - off) else len.

(** [for (i = 0; i < len; i++)]: [n] iterations left, [false] on a fault. *)
Fixpoint read_loop (n : nat) (i buf off : Z) : K video bool :=
  match n with
  | O => mret true
  | S n' =>
      byte ← ioread8 (off + i);
      left ← send_user (buf + i) [byte];
      if negb (left =? 0) then mret false else read_loop n' (i + 1) buf off
  end.

(** The result and the new file position. *)
Definition my_read (buf len off : Z) : K video (Z * Z) :=
  if VRAM_SIZE <=? off then mret (0, off)
  else
    let len := clamp len off in
    ok ← read_loop (Z.to_nat len) 0 buf off;
    if negb ok then mret (- EFAULT, off) else mret (s64 len, s64 (off + len)).

Fixpoint write_loop (n : nat) (i byte buf off : Z) : K video bool :=
  match n with
  | O => mret true
  | S n' =>
      got ← fetch_user [byte] (buf + i);
      if negb (got.2 =? 0) then mret false
      else
        let byte := hd byte got.1 in
        iowrite8 byte (off + i);;
        write_loop n' (i + 1) byte buf off
  end.

(** [byte] is what the handler's uninitialised local variable holds. *)
Definition my_write (byte buf len off : Z) : K video (Z * Z) :=
  if VRAM_SIZE <=? off then mret (0, off)
  else
    let len := clamp len off in
    ok ← write_loop (Z.to_nat len) 0 byte buf off;
    if negb ok then mret (- EFAULT, off) else mret (s64 len, s64 (off + len)).

Definition vram_init : K video Z :=
  p ← call (Ioremap VRAM_BASE VRAM_SIZE);
  modify (set_vram p);;
  if p =? 0 then printk "Mapping video RAM failed\n" [];; mret (-1)
  else
    r ← call (AllocChrdevRegion "vram");
    if r <? 0 then mret (-1)
    else
      c ← call (ClassCreate "chardrv");
      modify (set_cl c);;
      if c =? 0 then docall UnregisterChrdevRegion;; mret (-1)
      else
        d ← call (DeviceCreate c "vram");
        if d =? 0 then
          docall (ClassDestroy c);; docall UnregisterChrdevRegion;; mret (-1)
        else
          docall CdevInit;;
          a ← call CdevAdd;
          if a =? -1 then
            docall (DeviceDestroy c);; docall (ClassDestroy c);;
            docall UnregisterChrdevRegion;; mret (-1)
          else mret 0.

Definition vram_exit : K video unit :=
  g ← get;
  docall CdevDel;;
  docall (DeviceDestroy (cl g));;
  docall (ClassDestroy (cl g));;
  docall UnregisterChrdevRegion;;
  docall (Iounmap (vram g)).
End Driver.

(** ** The copy loops *)

Section Loops.
Context {UA : Uaccess}.
Implicit Types w : world video.

Lemma with_user_id w : with_user (user w) w = w.
Proof. by destruct w. Qed.

Lemma ioread8_run w i b :
  vram (glob w) <> 0 -> aget (vmem (glob w)) i = Some b -> ioread8 i w = (Done b, w).
Proof. intros Hv Hb. unfold ioread8. krun. by rewrite (proj2 (Z.eqb_neq _ _) Hv), Hb. Qed.

Lemma iowrite8_run w i b :
  vram (glob w) <> 0 -> 0 <= i < Z.of_nat (length (vmem (glob w))) ->
  iowrite8 b i w =
  (Done tt, with_glob (set_vmem (<[Z.to_nat i := b]> (vmem (glob w))) (glob w)) w).
Proof.
  intros Hv Hi. unfold iowrite8. krun. rewrite (proj2 (Z.eqb_neq _ _) Hv).
  by rewrite (aset_in _ _ _ Hi).
Qed.

(** The bytes up to the first unmapped user address are copied, whether or
    not the whole range is mapped. *)
Lemma read_loop_run n i buf off w :
  vram (glob w) <> 0 -> 0 <= off + i ->
  off + i + Z.of_nat n <= Z.of_nat (length (vmem (glob w))) ->
  read_loop n i buf off w =
  (Done (mapped (user w) (buf + i) n),
   with_user (uwrite (user w) (buf + i)
     (take (length (uprefix (user w) (buf + i) n))
        (drop (Z.to_nat (off + i)) (vmem (glob w))))) w).
Proof.
  revert i w. induction n as [|n IH]; intros i w Hv Hlo Hhi; cbn [read_loop].
  { cbn [uprefix length]. rewrite take_0. cbn [uwrite]. by rewrite with_user_id. }
  destruct (lookup_lt_is_Some_2 (vmem (glob w)) (Z.to_nat (off + i))) as [b Hb]; [lia|].
  rewrite (drop_S _ _ _ Hb).
  erewrite bind_done by (apply ioread8_run; [done|]; rewrite aget_lookup by lia; exact Hb).
  krun. destruct (user w !! (buf + i)) as [v|] eqn:Hu.
  - rewrite (send_byte _ _ _ _ Hu), (mapped_S _ _ _ _ Hu), (uprefix_cons _ _ _ _ Hu). cbn.
    rewrite IH by (cbn; first [done|lia]). kcbn.
    replace (buf + (i + 1)) with (buf + i + 1) by lia.
    rewrite mapped_below, uprefix_below by lia.
    replace (Z.to_nat (off + (i + 1))) with (S (Z.to_nat (off + i))) by lia. done.
  - destruct (send_byte_fault _ _ b Hu) as [Hm Hn]. rewrite Hm.
    rewrite (proj2 (Z.eqb_neq _ _)) by lia. cbn. rewrite (mapped_S_None _ _ _ Hu), Hu. cbn.
    by rewrite with_user_id.
Qed.

Lemma write_loop_run n i byte buf off w :
  vram (glob w) <> 0 -> 0 <= off + i ->
  off + i + Z.of_nat n <= Z.of_nat (length (vmem (glob w))) ->
  write_loop n i byte buf off w =
  (Done (mapped (user w) (buf + i) n),
   with_glob (set_vmem (list_inserts (Z.to_nat (off + i)) (uprefix (user w) (buf + i) n)
                          (vmem (glob w))) (glob w)) w).
Proof.
  revert i byte w. induction n as [|n IH]; intros i byte w Hv Hlo Hhi; cbn [write_loop].
  { cbn. by destruct w as [? ? ? ? []]. }
  krun. destruct (user w !! (buf + i)) as [v|] eqn:Hu.
  - rewrite (fetch_byte _ _ _ _ Hu), (mapped_S _ _ _ _ Hu), (uprefix_cons _ _ _ _ Hu).
    cbn [fst snd negb hd]. rewrite Z.eqb_refl. cbn [negb].
    erewrite bind_done by (apply iowrite8_run; [done|lia]).
    rewrite IH; cbn; rewrite ?length_insert; [|done|lia|lia].
    replace (buf + (i + 1)) with (buf + i + 1) by lia.
    replace (Z.to_nat (off + (i + 1))) with (S (Z.to_nat (off + i))) by lia.
    by rewrite list_insert_inserts_lt by lia.
  - pose proof (fetch_byte_fault _ _ byte Hu). rewrite (proj2 (Z.eqb_neq _ _)) by lia. cbn.
    rewrite (mapped_S_None _ _ _ Hu), Hu. cbn. by destruct w as [? ? ? ? []].
Qed.
End Loops.

(** ** The handlers *)

(** The driver is loaded: the mapping exists and is as large as requested. *)
Definition video_ok (w : world video) : Prop :=
  vram (glob w) <> 0 /\ Z.of_nat (length (vmem (glob w))) = VRAM_SIZE.

Section Handlers.
Context {UA : Uaccess}.
Implicit Types w : world video.

Lemma clamp_min len off :
  vfs_range off len -> off < VRAM_SIZE -> clamp len off = Z.min len (VRAM_SIZE - off).
Proof.
  unfold vfs_range, MAX_RW_COUNT, clamp, VRAM_SIZE. intros (? & ? & ?) ?.
  rewrite !wrapU_small by lia. destruct (Z.ltb_spec 131072 (off + len)); lia.
Qed.

(** The number of bytes a transfer at [off] moves. *)
Definition window (len off : Z) : nat := Z.to_nat (Z.min len (VRAM_SIZE - off)).

Lemma window_range len off :
  vfs_range off len -> off < VRAM_SIZE ->
  Z.of_nat (window len off) = clamp len off /\
  off + Z.of_nat (window len off) <= VRAM_SIZE /\
  s64 (clamp len off) = Z.of_nat (window len off) /\
  s64 (off + clamp len off) = off + Z.of_nat (window len off).
Proof.
  intros Hr Ho. rewrite (clamp_min _ _ Hr Ho). unfold window.
  unfold vfs_range, MAX_RW_COUNT, VRAM_SIZE in *.
  rewrite !wrapS_small by lia. lia.
Qed.

Lemma my_read_run buf len off w :
  video_ok w -> vfs_range off len -> off < VRAM_SIZE ->
  my_read buf len off w =
  (Done (if mapped (user w) buf (window len off)
         then (Z.of_nat (window len off), off + Z.of_nat (window len off))
         else (- EFAULT, off)),
   with_user (uwrite (user w) buf
     (take (length (uprefix (user w) buf (window len off)))
        (drop (Z.to_nat off) (vmem (glob w))))) w).
Proof.
  intros [Hv Hl] Hr Ho. destruct (window_range _ _ Hr Ho) as (Hw & Hin & E1 & E2).
  unfold my_read. destruct (Z.leb_spec VRAM_SIZE off); [lia|]. cbn zeta. rewrite E1, E2, <- Hw, Nat2Z.id.
  erewrite bind_done; [|apply read_loop_run; [done|destruct Hr; lia|lia]].
  rewrite !Z.add_0_r. by destruct (mapped _ _ _).
Qed.

Lemma my_write_run byte buf len off w :
  video_ok w -> vfs_range off len -> off < VRAM_SIZE ->
  my_write byte buf len off w =
  (Done (if mapped (user w) buf (window len off)
         then (Z.of_nat (window len off), off + Z.of_nat (window len off))
         else (- EFAULT, off)),
   with_glob (set_vmem (list_inserts (Z.to_nat off) (uprefix (user w) buf (window len off))
                          (vmem (glob w))) (glob w)) w).
Proof.
  intros [Hv Hl] Hr Ho. destruct (window_range _ _ Hr Ho) as (Hw & Hin & E1 & E2).
  unfold my_write. destruct (Z.leb_spec VRAM_SIZE off); [lia|]. cbn zeta. rewrite E1, E2, <- Hw, Nat2Z.id.
  erewrite bind_done; [|apply write_loop_run; [done|destruct Hr; lia|lia]].
  rewrite !Z.add_0_r. by destruct (mapped _ _ _).
Qed.

(** Reading back what a list update inserted. *)
Lemma take_drop_inserts (l k : list Z) i :
  (i + length k <= length l)%nat -> take (length k) (drop i (list_inserts i k l)) = k.
Proof.
  intros H. apply list_eq. intros j. destruct (decide (j < length k)%nat).
  - rewrite lookup_take_lt, lookup_drop by done.
    rewrite list_lookup_inserts by lia. f_equal. lia.
  - rewrite lookup_take_ge by lia. symmetry. apply lookup_ge_None. lia.
Qed.

(** C5 Reading the device.  Under the VFS's guarantees the handler never
    faults: a position at or past the end of the video memory reads zero
    bytes; otherwise at most [len] bytes, and none past the end, are copied
    from the position on, the position advances by what was copied, and an
    unmapped user address makes the call fail with -EFAULT and leaves the
    position where it was. *)
Theorem my_read_spec buf len off w :
  video_ok w -> vfs_range off len ->
  exists m,
    my_read buf len off w =
    (Done (if VRAM_SIZE <=? off then (0, off)
           else if mapped (user w) buf (window len off)
           then (Z.of_nat (window len off), off + Z.of_nat (window len off))
           else (- EFAULT, off)), with_user m w) /\
    (mapped (user w) buf (window len off) = true -> off < VRAM_SIZE ->
     m = uwrite (user w) buf
           (take (window len off) (drop (Z.to_nat off) (vmem (glob w))))).
Proof.
  intros Hok Hr. destruct (Z.leb_spec VRAM_SIZE off) as [Ho|Ho].
  - exists (user w). unfold my_read. rewrite (proj2 (Z.leb_le _ _) Ho), with_user_id. split; [done|lia].
  - rewrite my_read_run by done. eexists. split; [done|].
    intros Hm _. by rewrite (uprefix_mapped_length _ _ _ Hm).
Qed.

(** C6 Writing the device, at any position and of any length the file layer
    passes on.  The handler never faults.  At or behind the end of the video
    memory it returns 0 and changes nothing; before it, the bytes that could be
    fetched from the process, as far as the memory reaches (all of them, or
    the ones before the first unmapped address, when the call fails with
    -EFAULT), replace the video memory from the position on, and every other
    byte keeps its value. *)
Theorem my_write_spec byte buf len off w :
  video_ok w -> vfs_range off len ->
  if VRAM_SIZE <=? off then my_write byte buf len off w = (Done (0, off), w)
  else exists m,
    my_write byte buf len off w =
    (Done (if mapped (user w) buf (window len off)
           then (Z.of_nat (window len off), off + Z.of_nat (window len off))
           else (- EFAULT, off)), with_glob (set_vmem m (glob w)) w) /\
    length m = length (vmem (glob w)) /\
    forall i, m !! i =
      if decide (Z.to_nat off <= i < Z.to_nat off + length (uprefix (user w) buf (window len off)))%nat
      then uprefix (user w) buf (window len off) !! (i - Z.to_nat off)%nat
      else vmem (glob w) !! i.
Proof.
  intros Hok Hr. destruct (Z.leb_spec VRAM_SIZE off) as [Ho|Ho].
  { unfold my_write. by rewrite (proj2 (Z.leb_le _ _) Ho). }
  destruct (window_range _ _ Hr Ho) as (_ & Hin & _), (Hok) as [_ Hl].
  rewrite my_write_run by done. eexists. split; [done|]. split; [apply length_inserts|].
  pose proof (uprefix_length_le (user w) buf (window len off)). destruct Hr as [? _].
  intros i. case_decide.
  - apply list_lookup_inserts; lia.
  - destruct (decide (i < Z.to_nat off)%nat);
      [apply list_lookup_inserts_lt|apply list_lookup_inserts_ge]; lia.
Qed.

(** C29 A process that writes bytes at a position and reads the same range back
    gets the bytes it wrote, and both calls report the same count. *)
Theorem my_write_read_roundtrip byte buf len off w bs dst :
  video_ok w -> vfs_range off len -> off + len <= VRAM_SIZE -> off < VRAM_SIZE ->
  ubytes (user w) buf (Z.to_nat len) = Some bs ->
  mapped (user w) dst (Z.to_nat len) = true ->
  exists w1 w2,
    my_write byte buf len off w = (Done (len, off + len), w1) /\
    my_read dst len off w1 = (Done (len, off + len), w2) /\
    user w2 = uwrite (user w) dst bs.
Proof.
  intros Hok Hr Hfit Ho Hbs Hdst.
  assert (Hw : window len off = Z.to_nat len) by (unfold window; f_equal; lia).
  assert (Hlen : Z.of_nat (Z.to_nat len) = len) by (destruct Hr; lia).
  assert (Hb : mapped (user w) buf (Z.to_nat len) = true) by (unfold mapped; by rewrite Hbs).
  rewrite my_write_run by done. rewrite Hw, Hb, Hlen, (uprefix_ok _ _ _ _ Hbs).
  eexists _, _. split; [done|]. rewrite my_read_run; [|split; cbn|done|done].
  - kcbn. cbn [set_vmem vmem]. rewrite Hw, Hdst, Hlen. split; [done|].
    rewrite (uprefix_mapped_length _ _ _ Hdst), <- (ubytes_length _ _ _ _ Hbs).
    cbn. rewrite take_drop_inserts; [done|].
    rewrite (ubytes_length _ _ _ _ Hbs). destruct Hok, Hr. lia.
  - apply Hok.
  - rewrite length_inserts. apply Hok.
Qed.
End Handlers.

(** ** Loading and unloading *)

Section Load.
Context {ENV : Env}.
Implicit Types w : world video.

(** The convention the code assumes of [class_create] and [device_create]:
    NULL on failure, never an error pointer. *)
Definition null_on_failure : Prop :=
  (forall tr n, is_err (kret tr (ClassCreate n)) = false) /\
  (forall tr c n, is_err (kret tr (DeviceCreate c n)) = false).

Lemma is_err_false p : is_err p = false -> ~ (-4095 <= p < 0).
Proof. unfold is_err. lia. Qed.

Ltac vram_case :=
  match goal with
  | |- context [if ?a =? ?b then _ else _] => destruct (Z.eqb_spec a b)
  | |- context [if ?a <? ?b then _ else _] => destruct (Z.ltb_spec a b)
  end; krun.

Ltac vram_done := eexists _, _; split; [reflexivity|]; cbn [glob vram cl set_vram set_cl
  with_event with_glob]; split_and!; [auto|intros ?; try lia..];
  try match goal with |- context [?p =? 0] => destruct (Z.eqb_spec p 0); try congruence end;
  ledger_auto.

Lemma vram_init_ledger w L :
  null_on_failure -> holds (log w) L ->
  exists r w', vram_init w = (Done r, w') /\ (r = 0 \/ r = -1) /\
    (r = -1 -> holds (log w') (if vram (glob w') =? 0 then L else RMapping (vram (glob w')) :: L)) /\
    (r = 0 -> (forall tr, -1 <= kret tr CdevAdd) -> vram (glob w') <> 0 /\
     cl (glob w') <> 0 /\ is_err (cl (glob w')) = false /\
     holds (log w') (RCdev :: RDevice (cl (glob w')) :: RClass (cl (glob w')) :: RRegion
                     :: RMapping (vram (glob w')) :: L)).
Proof.
  intros [Hc Hd] Hh. unfold vram_init. krun. set (p := kret (log w) _).
  vram_case; [vram_done|]. set (r := kret _ (AllocChrdevRegion _)).
  vram_case; [vram_done|]. set (c := kret _ (ClassCreate _)).
  pose proof (is_err_false _ (Hc _ _ : is_err c = false)).
  vram_case; [vram_done|]. set (d := kret _ (DeviceCreate _ _)).
  pose proof (is_err_false _ (Hd _ _ _ : is_err d = false)).
  vram_case; [vram_done|]. set (a := kret _ CdevAdd).
  vram_case; [vram_done|]. eexists _, _. split; [reflexivity|]. split; [auto|]. split; [lia|].
  intros _ Ha. pose proof (Ha _ : -1 <= a).
  split_and!; [done|done|exact (Hc _ _)|]. cbn [glob vram cl set_vram set_cl with_event with_glob].
  ledger_auto.
Qed.
(** A load that succeeds (with the failure conventions the code assumes)
    holds the mapping, the device number, the class, the device and the cdev,
    and unloading the driver afterwards releases all five. *)
Theorem vram_load_unload w L r w1 :
  null_on_failure -> (forall tr, -1 <= kret tr CdevAdd) -> holds (log w) L ->
  vram_init w = (Done r, w1) -> r = 0 ->
  exists w2, vram_exit w1 = (Done tt, w2) /\ holds (log w2) L.
Proof.
  intros Hn Ha Hh E ->. destruct (vram_init_ledger w L Hn Hh) as (r & w' & E' & _ & _ & Hok).
  rewrite E in E'. simplify_eq. destruct (Hok eq_refl Ha) as (Hp & Hc & He & Hl).
  apply is_err_false in He. eexists. unfold vram_exit. krun. split; [done|]. ledger_auto.
Qed.

(** Every failure of the load after the mapping was made leaves the mapping
    behind: the error paths never call iounmap. *)
Theorem vram_init_failure_leaks_mapping w L r w1 :
  null_on_failure -> holds (log w) L ->
  vram_init w = (Done r, w1) -> r <> 0 -> vram (glob w1) <> 0 ->
  holds (log w1) (RMapping (vram (glob w1)) :: L).
Proof.
  intros Hn Hh E Hr Hv. destruct (vram_init_ledger w L Hn Hh) as (r' & w' & E' & H01 & Hf & _).
  rewrite E in E'. simplify_eq. rewrite (proj2 (Z.eqb_neq _ _) Hv) in Hf. apply Hf. lia.
Qed.

(** When the class and the device cannot be created and the kernel says so
    with error pointers, and cdev_add fails with an error other than -1, the
    load still reports success: only the device number and the mapping are
    held. *)
Theorem vram_init_misses_errors w L :
  (forall tr b s, kret tr (Ioremap b s) <> 0) ->
  (forall tr n, 0 <= kret tr (AllocChrdevRegion n)) ->
  (forall tr n, is_err (kret tr (ClassCreate n)) = true) ->
  (forall tr c n, is_err (kret tr (DeviceCreate c n)) = true) ->
  (forall tr, kret tr CdevAdd < -1) ->
  holds (log w) L ->
  exists w', vram_init w = (Done 0, w') /\
    holds (log w') (RRegion :: RMapping (vram (glob w')) :: L).
Proof.
  intros Hp Hr Hc Hd Ha Hh.
  assert (He : forall p, is_err p = true -> -4095 <= p < 0) by (unfold is_err; lia).
  unfold vram_init. krun. set (p := kret (log w) _). pose proof (Hp _ _ _ : p <> 0).
  vram_case; [done|]. set (r := kret _ (AllocChrdevRegion _)). pose proof (Hr _ _ : 0 <= r).
  vram_case; [lia|]. set (c := kret _ (ClassCreate _)). pose proof (He _ (Hc _ _ : is_err c = true)).
  vram_case; [lia|]. set (d := kret _ (DeviceCreate _ _)).
  pose proof (He _ (Hd _ _ _ : is_err d = true)).
  vram_case; [lia|]. set (a := kret _ CdevAdd). pose proof (Ha _ : a < -1).
  vram_case; [lia|]. eexists. split; [reflexivity|].
  cbn [glob vram cl set_vram set_cl with_event with_glob]. ledger_auto.
Qed.
End Load.

(** ** Concrete runs *)

(** Four bytes of a process at 1000, four more at 2000; a loaded driver. *)
Definition demo_user : gmap Z Z := uwrite (uwrite ∅ 1000 [1; 2; 3; 4]) 2000 [0; 0; 0; 0].

Definition demo_video : world video :=
  World ∅ 1 demo_user [] (Video 1 1 (replicate (Z.to_nat VRAM_SIZE) 7)).

Lemma demo_video_ok : video_ok demo_video.
Proof.
  split; [done|]. cbn [demo_video glob vmem]. rewrite length_replicate. by rewrite Z2Nat.id.
Qed.

Lemma demo_range : vfs_range 131070 4.
Proof. unfold vfs_range, MAX_RW_COUNT. lia. Qed.

(** Reading four bytes two bytes before the end: two are delivered. *)
Lemma my_read_spec_witness :
  exists m,
    my_read 2000 4 131070 demo_video = (Done (2, 131072), with_user m demo_video) /\
    m = uwrite demo_user 2000 (take 2 (drop (Z.to_nat 131070) (vmem (glob demo_video)))).
Proof.
  destruct (my_read_spec 2000 4 131070 demo_video demo_video_ok demo_range) as (m & E & Hm).
  exists m. split; [exact E|]. exact (Hm eq_refl eq_refl).
Defined.

Lemma my_write_spec_witness :
  exists m, my_write 0 1000 4 131070 demo_video =
    (Done (2, 131072), with_glob (set_vmem m (glob demo_video)) demo_video) /\
    length m = length (vmem (glob demo_video)).
Proof.
  destruct (my_write_spec 0 1000 4 131070 demo_video demo_video_ok demo_range)
    as (m & E & Hl & _). exists m. split; [exact E|exact Hl].
Defined.

Lemma my_write_read_roundtrip_witness :
  exists w1 w2,
    my_write 0 1000 4 16 demo_video = (Done (4, 20), w1) /\
    my_read 2000 4 16 w1 = (Done (4, 20), w2) /\
    user w2 = uwrite demo_user 2000 [1; 2; 3; 4].
Proof.
  apply (my_write_read_roundtrip 0 1000 4 16 demo_video [1; 2; 3; 4] 2000);
    [exact demo_video_ok| | | |reflexivity|reflexivity]; unfold vfs_range, MAX_RW_COUNT, VRAM_SIZE; lia.
Defined.

Definition blank_video : world video := World ∅ 1 ∅ [] (Video 0 0 []).

Lemma vram_load_unload_witness :
  exists w2, vram_exit (vram_init (ENV := calm) blank_video).2 = (Done tt, w2) /\ holds (log w2) [].
Proof.
  apply (vram_load_unload (ENV := calm) blank_video [] 0 (vram_init (ENV := calm) blank_video).2).
  - split; reflexivity.
  - intros tr. cbn. lia.
  - by exists [].
  - reflexivity.
  - reflexivity.
Defined.

(** Everything works except the allocation of the device number. *)
Definition no_region : Env :=
  {| kret _ c := match c with AllocChrdevRegion _ => -16 | _ => calm_ret c end; kjunk _ _ := 0 |}.

Lemma vram_init_failure_leaks_mapping_witness :
  holds (log (vram_init (ENV := no_region) blank_video).2) [RMapping 1].
Proof.
  apply (vram_init_failure_leaks_mapping (ENV := no_region) blank_video [] (-1)
           (vram_init (ENV := no_region) blank_video).2).
  - split; reflexivity.
  - by exists [].
  - reflexivity.
  - lia.
  - vm_compute. discriminate.
Defined.

(** The class, the device and the cdev all fail with -ENOMEM. *)
Definition no_memory : Env :=
  {| kret _ c := match c with
                 | ClassCreate _ | DeviceCreate _ _ | CdevAdd => - ENOMEM
                 | _ => calm_ret c end;
     kjunk _ _ := 0 |}.

Lemma vram_init_misses_errors_witness :
  exists w', vram_init (ENV := no_memory) blank_video = (Done 0, w') /\
    holds (log w') [RRegion; RMapping (vram (glob w'))].
Proof.
  apply (vram_init_misses_errors (ENV := no_memory) blank_video []).
  - intros. cbn. lia.
  - intros. cbn. lia.
  - reflexivity.
  - reflexivity.
  - intros. cbn. unfold ENOMEM. lia.
  - by exists [].
Defined.
