(* ===== verification/SimAcc.v ===== *)
(** * The procfs accumulator (src/file_proc.c)

    Text written to /proc/simacc is scanned for decimal numbers; their sum is
    what a read of the file prints.  The state is the two static buffers.

    The source spells the NUL character as the ten-character constant
    '&#92;&#48;' (an HTML escape of '\0').  In C that is a multi-character
    constant of type [int]; [multichar] gives it the value gcc documents (the
    characters shifted in eight bits at a time, truncated to 32 bits). *)

From stdpp Require Import base gmap list numbers list_numbers strings.
From Stdlib Require Import ZArith Lia.
From S2P Require Import Prelude Kernel Uaccess Lifecycle.

Definition MAX_INPUT_SIZE : Z := 1024.

Definition multichar (s : list Z) : Z := s32 (fold_left (fun a c => a * 256 + c) s 0).

(** The constant as an [int], and as the [char] it is stored as. *)
Definition nul_const : Z := multichar (str "&#92;&#48;").
Definition nul_char : Z := u8 nul_const.

Record simacc := SimAcc { input_buf : list Z; result : list Z }.

Definition set_input (b : list Z) (g : simacc) : simacc := SimAcc b (result g).
Definition set_result (r : list Z) (g : simacc) : simacc := SimAcc (input_buf g) r.

(** Static data: all zero. *)
Definition simacc_static : simacc := SimAcc (replicate 1024 0) (replicate 16 0).

(** One turn of the scanning loop on the character [c]. *)
Definition scan_char (c num sum : Z) : Z * Z :=
  if (48 <=? c) && (c <=? 57) then (u64 (num * 10 + c - 48), sum) else (0, u64 (sum + num)).

(** [do { c = input_buf[i++]; ... } while (c != '...' && i < MAX_INPUT_SIZE)]:
    [n] is [MAX_INPUT_SIZE - i], so the body runs while it is positive. *)
Fixpoint scan (n : nat) (i num sum : Z) (buf : list Z) : option Z :=
  match n with
  | O => Some sum
  | S n' =>
      c ← aget buf i;
      let (num, sum) := scan_char (s8 c) num sum in
      if negb (s8 c =? nul_const) then scan n' (i + 1) num sum buf else Some sum
  end.

Section Module.
Context {ENV : Env} {UA : Uaccess}.

(** The length of the line and the line itself ([page] is a whole page). *)
Definition simacc_read : K simacc (Z * list Z) :=
  g ← get;
  s ← of_option Unterminated (cstr (result g));
  mret (Z.of_nat (length s) + 1, s ++ [10]).

Definition simacc_write (buffer count : Z) : K simacc Z :=
  let len := if MAX_INPUT_SIZE <? count then MAX_INPUT_SIZE else count in
  g ← get;
  got ← fetch_user (take (Z.to_nat len) (input_buf g)) buffer;
  put (set_input (got.1 ++ drop (Z.to_nat len) (input_buf g)) g);;
  if negb (got.2 =? 0) then mret (- EFAULT)
  else
    g ← get;
    buf ← of_option (OutOfBounds len) (aset (input_buf g) len nul_char);
    put (set_input buf g);;
    sum ← of_option (OutOfBounds MAX_INPUT_SIZE) (scan (Z.to_nat MAX_INPUT_SIZE) 0 0 0 buf);
    g ← get;
    res ← of_option (OutOfBounds 16) (asets (result g) 0 (dec sum ++ [0]));
    put (set_result res g);;
    mret len.

(** [current->pid] and [current->comm]. *)
Context (current_pid : Z) (current_comm : list Z).

Definition init_simacc : K simacc Z :=
  p ← call (CreateProcEntry "simacc" 438 0);
  if p =? 0 then mret (- ENOMEM)
  else
    printk "Current pid is %d : %s\n" [PInt current_pid; PStr current_comm];;
    g ← get;
    b ← of_option (OutOfBounds (MAX_INPUT_SIZE - 1)) (aset (input_buf g) (MAX_INPUT_SIZE - 1) nul_char);
    r ← of_option (OutOfBounds 0) (aset (result g) 0 48);
    r ← of_option (OutOfBounds 1) (aset r 1 nul_char);
    put (SimAcc b r);;
    printk "%s: Module Loaded.\n" [PStr (str "file_proc")];;
    mret 0.

Definition cleanup_simacc : K simacc unit :=
  docall (RemoveProcEntry "simacc" 0);;
  printk "%s: Module Unloaded.\n" [PStr (str "file_proc")].
End Module.

(** ** What the scanning loop computes *)

(** The digit runs of a text that are followed by another character; runs of
    non-digits give empty fields.  [cur] is the run read so far. *)
Fixpoint fields (cur l : list Z) : list (list Z) :=
  match l with
  | [] => []
  | c :: l' => if is_digit c then fields (cur ++ [c]) l' else cur :: fields [] l'
  end.

(** The sum of the numbers of a text. *)
Definition total (l : list Z) : Z := foldr Z.add 0 (map undec (fields [] l)).

Lemma s8_cases c : is_byte c -> s8 c = c \/ (128 <= c /\ s8 c = c - 256).
Proof.
  unfold is_byte, wrapS. change (2 ^ (8 - 1)) with 128. change (2 ^ 8) with 256. intros H.
  destruct (Z.lt_ge_cases c 128).
  - left. rewrite Z.mod_small; lia.
  - right. split; [done|]. replace (c + 128) with (c - 128 + 1 * 256) by lia.
    rewrite Z_mod_plus_full, Z.mod_small; lia.
Qed.

(** A character is never equal to the multi-character constant. *)
Lemma char_not_nul_const c : is_byte c -> (s8 c =? nul_const) = false.
Proof.
  intros H. apply Z.eqb_neq. change nul_const with 590624827.
  destruct (s8_cases c H) as [->|[_ ->]]; unfold is_byte in H; lia.
Qed.

Lemma scan_char_spec c num sum :
  is_byte c ->
  scan_char (s8 c) num sum =
  if is_digit c then (u64 (num * 10 + (c - 48)), sum) else (0, u64 (sum + num)).
Proof.
  intros H. unfold scan_char, is_digit. replace (num * 10 + s8 c - 48) with (num * 10 + (s8 c - 48)) by lia.
  destruct (s8_cases c H) as [->|[Hc ->]]; [done|]. unfold is_byte in H.
  destruct ((48 <=? c - 256) && _) eqn:E1; [lia|]. destruct ((48 <=? c) && _) eqn:E2; [lia|done].
Qed.

Lemma u64_linear a b c d : u64 a = u64 b -> u64 (a * c + d) = u64 (b * c + d).
Proof.
  unfold wrapU. intros H. rewrite <- Zplus_mod_idemp_l, <- Zmult_mod_idemp_l, H.
  by rewrite Zmult_mod_idemp_l, Zplus_mod_idemp_l.
Qed.

Lemma u64_add a b c d : u64 a = u64 b -> u64 c = u64 d -> u64 (a + c) = u64 (b + d).
Proof. unfold wrapU. intros H1 H2. by rewrite Zplus_mod, H1, H2, <- Zplus_mod. Qed.

Lemma scan_run n i num sum cur s buf :
  Forall is_byte buf -> (i + n = length buf)%nat ->
  num = u64 (undec cur) -> sum = u64 s ->
  scan n (Z.of_nat i) num sum buf =
  Some (u64 (s + foldr Z.add 0 (map undec (fields cur (drop i buf))))).
Proof.
  revert i num sum cur s. induction n as [|n IH]; intros i num sum cur s Hb Hl -> ->; simpl.
  { rewrite drop_ge by lia. simpl. by rewrite Z.add_0_r. }
  destruct (lookup_lt_is_Some_2 buf i) as [c Hc]; [lia|].
  rewrite aget_lookup, Nat2Z.id, Hc, (drop_S _ _ _ Hc) by lia. simpl.
  assert (Hbyte : is_byte c) by (eapply Forall_lookup_1; eauto).
  rewrite (scan_char_spec _ _ _ Hbyte), (char_not_nul_const _ Hbyte). simpl.
  replace (Z.of_nat i + 1) with (Z.of_nat (S i)) by lia.
  destruct (is_digit c).
  - rewrite (IH (S i) _ _ (cur ++ [c]) s); [done|done|lia| |done].
    rewrite undec_app. apply u64_linear, wrapU_idemp.
  - rewrite (IH (S i) _ _ [] (s + undec cur)); [|done|lia|done|].
    + simpl. do 2 f_equal. lia.
    + apply u64_add; apply wrapU_idemp.
Qed.

Lemma scan_total buf :
  Forall is_byte buf -> length buf = 1024%nat ->
  scan (Z.to_nat MAX_INPUT_SIZE) 0 0 0 buf = Some (u64 (total buf)).
Proof. intros Hb Hl. exact (scan_run 1024 0 0 0 [] 0 buf Hb (eq_sym Hl) eq_refl eq_refl). Qed.

(** ** Texts made of numbers *)

Lemma fields_digits cur l : Forall (fun c => is_digit c = true) l -> fields cur l = [].
Proof. intros H. revert cur. induction H as [|c l Hc Hl IH]; intros cur; simpl; [done|]. by rewrite Hc. Qed.

Lemma fields_run cur l c t :
  Forall (fun c => is_digit c = true) l -> is_digit c = false ->
  fields cur (l ++ c :: t) = (cur ++ l) :: fields [] t.
Proof.
  intros H Hc. revert cur. induction H as [|d l Hd Hl IH]; intros cur; simpl.
  - by rewrite Hc, app_nil_r.
  - by rewrite Hd, IH, <- app_assoc.
Qed.

Lemma total_run l c t :
  Forall (fun c => is_digit c = true) l -> is_digit c = false ->
  total (l ++ c :: t) = undec l + total t.
Proof. intros H Hc. unfold total. by rewrite (fields_run [] l c t H Hc). Qed.

Lemma total_zeros n : total (replicate n 0) = 0.
Proof. induction n as [|n IH]; [done|]. transitivity (undec [] + total (replicate n 0)); [by apply (total_run [])|by rewrite IH]. Qed.

(** The numbers [ns], each followed by a space. *)
Definition numerals (ns : list Z) : list Z := flat_map (fun n => dec n ++ [32]) ns.

Lemma total_numerals ns t :
  Forall (fun n => 0 <= n) ns -> total (numerals ns ++ t) = foldr Z.add 0 ns + total t.
Proof.
  induction 1 as [|n ns Hn Hns IH]; [done|].
  unfold numerals in *. simpl. rewrite <- !app_assoc. simpl.
  rewrite total_run, IH, undec_dec by (done || by apply dec_digits). lia.
Qed.

(** ** The handlers *)

Definition simacc_inv (g : simacc) : Prop :=
  length (input_buf g) = 1024%nat /\ Forall is_byte (input_buf g) /\ length (result g) = 16%nat.

(** The buffers have the sizes the source gives them. *)
Definition simacc_lengths (g : simacc) : Prop :=
  length (input_buf g) = 1024%nat /\ length (result g) = 16%nat.

(** The buffers after the text [bs] was written over the buffer [old]. *)
Definition written (bs old : list Z) : list Z := bs ++ nul_char :: drop (S (length bs)) old.

Definition shown (n : Z) (old : list Z) : list Z := dec n ++ 0 :: drop (S (length (dec n))) old.

Section Proofs.
Context {UA : Uaccess}.
Implicit Types w : world simacc.

Lemma written_length bs old :
  (length bs < length old)%nat -> length (written bs old) = length old.
Proof. intros H. unfold written. rewrite length_app. simpl. rewrite length_drop. lia. Qed.

Lemma written_bytes bs old :
  Forall is_byte bs -> Forall is_byte old -> Forall is_byte (written bs old).
Proof.
  intros H1 H2. apply Forall_app. split; [done|]. constructor; [|by apply Forall_drop].
  change nul_char with 59. unfold is_byte. lia.
Qed.

Lemma aset_written bs old :
  (length bs < length old)%nat ->
  aset (bs ++ drop (length bs) old) (Z.of_nat (length bs)) nul_char = Some (written bs old).
Proof.
  intros H. rewrite aset_in by (rewrite length_app, length_drop; lia).
  rewrite Nat2Z.id. f_equal. destruct (lookup_lt_is_Some_2 old (length bs)) as [c Hc]; [lia|].
  rewrite (drop_S _ _ _ Hc). replace (length bs) with (length bs + 0)%nat at 1 by lia.
  by rewrite insert_app_r.
Qed.

Lemma asets_shown n r :
  0 <= n < 10 ^ 15 -> length r = 16%nat -> asets r 0 (dec n ++ [0]) = Some (shown n r).
Proof.
  intros Hn Hr. pose proof (dec_length n 15 Hn ltac:(lia)).
  rewrite asets_0 by (rewrite length_app; simpl; lia). unfold shown. f_equal.
  rewrite length_app, <- app_assoc. simpl. do 3 f_equal. lia.
Qed.

Lemma undec_bound l : Forall (fun c => is_digit c = true) l -> undec l < 10 ^ Z.of_nat (length l).
Proof.
  induction l as [|c l IH] using rev_ind; intros H; [done|].
  apply Forall_app in H as [H [Hc _]%Forall_cons_1]. specialize (IH H). unfold is_digit in Hc.
  rewrite undec_app, length_app. cbn [length]. rewrite Nat2Z.inj_add, Z.pow_add_r by lia.
  change (10 ^ Z.of_nat 1) with 10. lia.
Qed.

(** A number of sixteen digits does not fit. *)
Lemma asets_too_long n r : 10 ^ 15 <= n -> length r = 16%nat -> asets r 0 (dec n ++ [0]) = None.
Proof.
  intros Hn Hr. apply asets_out. rewrite length_app, Hr. cbn [length].
  pose proof (undec_bound (dec n) (dec_digits n ltac:(lia))) as H. rewrite undec_dec in H by lia.
  assert (15 < Z.of_nat (length (dec n))) by (apply (Z.pow_lt_mono_r_iff 10); lia). lia.
Qed.

Lemma cstr_shown n r : 0 <= n -> cstr (shown n r) = Some (dec n).
Proof. intros Hn. apply cstr_app_nul, digits_no_nul, dec_digits, Hn. Qed.

Lemma shown_length n r : 0 <= n < 10 ^ 15 -> length r = 16%nat -> length (shown n r) = 16%nat.
Proof. intros Hn Hr. rewrite <- Hr. exact (asets_length _ _ _ _ (asets_shown n r Hn Hr)). Qed.

Lemma simacc_write_run buffer bs w :
  simacc_inv (glob w) -> (length bs < 1024)%nat -> Forall is_byte bs ->
  ubytes (user w) buffer (length bs) = Some bs ->
  let buf := written bs (input_buf (glob w)) in
  simacc_write buffer (Z.of_nat (length bs)) w =
  if u64 (total buf) <? 10 ^ 15 then
    (Done (Z.of_nat (length bs)),
     with_glob (SimAcc buf (shown (u64 (total buf)) (result (glob w)))) w)
  else (Oops (OutOfBounds 16), with_glob (SimAcc buf (result (glob w))) w).
Proof.
  intros (Hl & Hb & Hr) Hlen Hbs Hu buf. unfold simacc_write.
  destruct (Z.ltb_spec MAX_INPUT_SIZE (Z.of_nat (length bs))) as [H|H];
    unfold MAX_INPUT_SIZE in H; [lia|]. cbn zeta. rewrite Nat2Z.id. krun.
  rewrite (copy_from_user_ok _ _ _ bs) by (rewrite length_take; by rewrite Nat.min_l by lia).
  cbn [fst snd]. rewrite Z.eqb_refl. cbn [negb]. krun. cbn [input_buf set_input].
  rewrite aset_written by lia. cbn [of_option]. krun.
  rewrite scan_total by (by apply written_bytes) || (rewrite written_length; lia).
  cbn [of_option]. krun. cbn [result set_input]. fold buf.
  destruct (Z.ltb_spec (u64 (total buf)) (10 ^ 15)) as [Hs|Hs].
  - rewrite asets_shown; [done| |done]. split; [apply wrapU_range; lia|done].
  - by rewrite asets_too_long.
Qed.

Lemma simacc_write_fault buffer count w :
  simacc_inv (glob w) -> 0 <= count ->
  let len := Z.to_nat (Z.min count MAX_INPUT_SIZE) in
  ubytes (user w) buffer len = None ->
  exists w', simacc_write buffer count w = (Done (- EFAULT), w') /\ simacc_lengths (glob w') /\
    result (glob w') = result (glob w) /\
    drop len (input_buf (glob w')) = drop len (input_buf (glob w)).
Proof.
  intros (Hl & _ & Hr) Hc len Hu. unfold simacc_write.
  replace (if MAX_INPUT_SIZE <? count then MAX_INPUT_SIZE else count) with (Z.of_nat len)
    by (unfold len, MAX_INPUT_SIZE; destruct (Z.ltb_spec 1024 count); lia).
  cbv zeta. rewrite Nat2Z.id. krun.
  assert (Hle : (len <= 1024)%nat) by (unfold len, MAX_INPUT_SIZE; lia).
  assert (Ht : length (take len (input_buf (glob w))) = len) by (rewrite length_take; lia).
  destruct (copy_from_user_fault (user w) (take len (input_buf (glob w))) buffer) as [Hlen Hpos];
    [by rewrite Ht|]. rewrite Ht in Hlen.
  rewrite (proj2 (Z.eqb_neq _ 0)) by lia. cbn [negb]. krun. eexists. split; [reflexivity|].
  cbn [glob with_glob set_input input_buf result]. split; [|split; [done|]].
  - split; [|done]. cbn [input_buf set_input]. rewrite length_app, length_drop, Hlen. lia.
  - rewrite drop_app_ge, Hlen, Nat.sub_diag by lia. done.
Qed.

Lemma simacc_write_full buffer count bs w :
  simacc_inv (glob w) -> 1024 <= count -> ubytes (user w) buffer 1024 = Some bs ->
  exists w', simacc_write buffer count w = (Oops (OutOfBounds 1024), w').
Proof.
  intros (Hl & _ & _) Hc Hu. unfold simacc_write.
  assert ((if MAX_INPUT_SIZE <? count then MAX_INPUT_SIZE else count) = 1024) as ->.
  { unfold MAX_INPUT_SIZE in *. destruct (Z.ltb_spec 1024 count); lia. }
  cbn zeta. krun. change (Z.to_nat 1024) with 1024%nat.
  rewrite (copy_from_user_ok _ _ _ bs) by (rewrite length_take; by rewrite Nat.min_l by lia).
  cbn [fst snd]. rewrite Z.eqb_refl. cbn [negb]. krun. cbn [input_buf set_input].
  rewrite drop_ge, app_nil_r by lia.
  rewrite aset_out by (rewrite (ubytes_length _ _ _ _ Hu); lia). by eexists.
Qed.
End Proofs.

(** ** Properties *)

Section Properties.
Context {ENV : Env} {UA : Uaccess} (current_pid : Z) (current_comm : list Z).
Implicit Types w : world simacc.

Lemma simacc_read_run w n r :
  0 <= n -> result (glob w) = shown n r ->
  simacc_read w = (Done (Z.of_nat (length (dec n)) + 1, dec n ++ [10]), w).
Proof. intros Hn E. unfold simacc_read. krun. by rewrite E, cstr_shown. Qed.

Lemma static_terminated :
  aset (input_buf simacc_static) (MAX_INPUT_SIZE - 1) nul_char =
  Some (replicate 1023 0 ++ [nul_char]).
Proof. by vm_compute. Qed.

(** The buffers after loading. *)
Definition simacc_loaded : simacc :=
  SimAcc (replicate 1023 0 ++ [nul_char]) (48 :: nul_char :: replicate 14 0).

Lemma simacc_loaded_inv : simacc_inv simacc_loaded.
Proof.
  split_and!; [done| |done]. apply Forall_app. split.
  - apply Forall_replicate. unfold is_byte. lia.
  - constructor; [|constructor]. change nul_char with 59. unfold is_byte. lia.
Qed.

Lemma init_simacc_run w :
  glob w = simacc_static -> (forall tr n m d, kret tr (CreateProcEntry n m d) <> 0) ->
  exists w', init_simacc current_pid current_comm w = (Done 0, w') /\ user w' = user w /\
    glob w' = simacc_loaded.
Proof.
  intros Hg Hp. unfold init_simacc. krun.
  set (p := kret _ _). pose proof (Hp _ _ _ _ : p <> 0). rewrite (proj2 (Z.eqb_neq p 0)) by done.
  krun. rewrite Hg, static_terminated. cbn [of_option]. krun. by eexists.
Qed.

Lemma total_loaded_text bs :
  (length bs < 1023)%nat ->
  total (written bs (input_buf simacc_loaded)) = total (bs ++ [nul_char]).
Proof.
  intros H. unfold written. cbn [input_buf simacc_loaded].
  rewrite drop_app_le by (rewrite length_replicate; lia). rewrite drop_replicate.
  change nul_char with 59. generalize (1023 - S (length bs))%nat. intros k.
  unfold total. generalize (@nil Z) at 1 3 as cur. 
  induction bs as [|c bs IH]; intros cur; simpl.
  - f_equal. induction k as [|k IHk]; simpl; [done|]. exact IHk.
  - destruct (is_digit c); [apply IH; simpl in H; lia|]. simpl. f_equal. apply IH. simpl in H. lia.
Qed.
(** C13 Every write to the file, of any length from a process whose memory
    holds bytes, into buffers of the sizes the source gives them.  At most
    1024 bytes are taken.  If one of them is not mapped the call fails with
    -EFAULT and the result is kept.  If 1024 bytes or more were offered, the
    terminator is stored behind the end of the buffer.  Otherwise the text,
    followed by the code's terminator, replaces the beginning of the buffer
    and the numbers of the whole 1024-byte buffer are added up modulo 2^64,
    what earlier writes left behind the text included (the code's terminator
    test never stops the scan): a sum of at most 15 digits is what the next
    read prints, as a decimal line, and the length of the text is returned; a
    longer sum overflows the 16 bytes of the result. *)
Theorem simacc_write_spec buffer count w :
  simacc_inv (glob w) -> 0 <= count -> (forall a x, user w !! a = Some x -> is_byte x) ->
  let len := Z.to_nat (Z.min count MAX_INPUT_SIZE) in
  match ubytes (user w) buffer len with
  | None =>
      exists w', simacc_write buffer count w = (Done (- EFAULT), w') /\ simacc_lengths (glob w') /\
        result (glob w') = result (glob w) /\
        drop len (input_buf (glob w')) = drop len (input_buf (glob w))
  | Some bs =>
      let buf := written bs (input_buf (glob w)) in
      if MAX_INPUT_SIZE <=? count then
        exists w', simacc_write buffer count w = (Oops (OutOfBounds 1024), w')
      else if u64 (total buf) <? 10 ^ 15 then
        exists w', simacc_write buffer count w = (Done count, w') /\
          simacc_inv (glob w') /\ input_buf (glob w') = buf /\
          simacc_read w' =
          (Done (Z.of_nat (length (dec (u64 (total buf)))) + 1, dec (u64 (total buf)) ++ [10]), w')
      else exists w', simacc_write buffer count w = (Oops (OutOfBounds 16), w')
  end.
Proof.
  intros Hi Hc Hbytes len. destruct (ubytes (user w) buffer len) as [bs|] eqn:Hu.
  2: { by apply simacc_write_fault. }
  pose proof (ubytes_length _ _ _ _ Hu) as Hlen. cbv zeta. unfold MAX_INPUT_SIZE in *.
  destruct (Z.leb_spec 1024 count) as [Hb|Hb].
  { apply (simacc_write_full buffer count bs w Hi Hb). by replace 1024%nat with len by lia. }
  replace count with (Z.of_nat (length bs)) in * by lia.
  assert (Hbs : Forall is_byte bs).
  { apply Forall_lookup. intros i x Hx. pose proof (lookup_lt_Some _ _ _ Hx).
    eapply Hbytes. rewrite (ubytes_lookup _ _ _ _ Hu i) by lia. exact Hx. }
  replace len with (length bs) in Hu by lia.
  pose proof (simacc_write_run buffer bs w Hi ltac:(lia) Hbs Hu) as E. cbv zeta in E.
  destruct (Z.ltb_spec (u64 (total (written bs (input_buf (glob w))))) (10 ^ 15)) as [Hs|Hs].
  - eexists. split; [exact E|]. destruct Hi as (Hl & Hb' & Hr).
    pose proof (wrapU_range 64 (total (written bs (input_buf (glob w)))) ltac:(lia)).
    unfold simacc_inv. split_and!; cbn [glob with_glob input_buf result]; [|by apply written_bytes| |done|].
    + rewrite written_length; lia.
    + apply shown_length; [lia|done].
    + by eapply simacc_read_run; [lia|].
  - eexists. exact E.
Qed.

(** On a freshly loaded module the file is an adding machine: writing the
    decimal numerals of [ns], each followed by a space, and reading the file
    back gives the decimal numeral of their sum and a newline. *)
Theorem simacc_sums_numbers buffer ns w :
  glob w = simacc_loaded -> Forall (fun n => 0 <= n) ns ->
  (length (numerals ns) < 1023)%nat -> foldr Z.add 0 ns < 10 ^ 15 ->
  ubytes (user w) buffer (length (numerals ns)) = Some (numerals ns) ->
  exists w',
    simacc_write buffer (Z.of_nat (length (numerals ns))) w =
      (Done (Z.of_nat (length (numerals ns))), w') /\
    exists n, simacc_read w' = (Done (n, dec (foldr Z.add 0 ns) ++ [10]), w').
Proof.
  intros Hg Hns Hlen Hsum Hu.
  assert (Htot : total (written (numerals ns) (input_buf (glob w))) = foldr Z.add 0 ns).
  { rewrite Hg, total_loaded_text, total_numerals by done. change (total [nul_char]) with 0. lia. }
  assert (H0 : 0 <= foldr Z.add 0 ns) by (clear - Hns; induction Hns; simpl in *; lia).
  assert (Hw : u64 (foldr Z.add 0 ns) = foldr Z.add 0 ns) by (apply wrapU_small; lia).
  rewrite simacc_write_run; rewrite ?Htot, ?Hw; [|rewrite Hg; apply simacc_loaded_inv|lia| |done].
  1: rewrite (proj2 (Z.ltb_lt _ _)) by done.
  - eexists. split; [done|]. eexists. by eapply simacc_read_run.
  - unfold numerals. clear -Hns. induction Hns as [|n ns Hn Hns IH]; simpl; [constructor|].
    repeat (apply Forall_app; split); [|constructor; [unfold is_byte; lia|constructor]|done].
    eapply Forall_impl; [by apply dec_digits|]. intros c. unfold is_digit, is_byte. lia.
Qed.
(** The buffer is not cleared between writes and the scan does not stop at
    the end of the text: after "d n1 n2 ... " was written, writing the
    one-digit text "e" gives e + n1 + n2 + ..., not e. *)
Theorem simacc_counts_stale_text buffer d e ns w :
  0 <= d < 10 -> 0 <= e < 10 -> Forall (fun n => 0 <= n) ns ->
  simacc_inv (glob w) ->
  input_buf (glob w) = written (numerals (d :: ns)) (input_buf simacc_loaded) ->
  (length (numerals (d :: ns)) < 1023)%nat -> e + foldr Z.add 0 ns < 10 ^ 15 ->
  user w !! buffer = Some (48 + e) ->
  exists w', simacc_write buffer 1 w = (Done 1, w') /\
    exists n, simacc_read w' = (Done (n, dec (e + foldr Z.add 0 ns) ++ [10]), w').
Proof.
  intros Hd He Hns Hi Hb Hlen Hsum Hu.
  set (T := nul_char :: drop (S (length (numerals (d :: ns)))) (input_buf simacc_loaded)).
  assert (Hd1 : numerals (d :: ns) = [48 + d; 32] ++ numerals ns).
  { unfold numerals. simpl. rewrite dec_unfold by lia. by rewrite (proj2 (Z.ltb_lt _ _)) by lia. }
  assert (Hn : Forall (fun n => 0 <= n) (d :: ns)) by (constructor; [lia|done]).
  assert (HT : total T = 0).
  { pose proof (total_loaded_text _ Hlen) as H. unfold written in H. fold T in H.
    rewrite !total_numerals in H by done. change (total [nul_char]) with 0 in H. lia. }
  assert (Htot : total (written [48 + e] (input_buf (glob w))) = e + foldr Z.add 0 ns).
  { rewrite Hb. unfold written at 1. cbn [length app].
    unfold written. fold T. rewrite Hd1. cbn [app drop].
    transitivity (undec [48 + e] + total (numerals ns ++ T)).
    - apply (total_run [48 + e] nul_char); [|done]. constructor; [unfold is_digit; lia|constructor].
    - rewrite total_numerals, HT by done. unfold undec. simpl. lia. }
  assert (H0 : 0 <= foldr Z.add 0 ns) by (clear - Hns; induction Hns; simpl in *; lia).
  assert (Hw : u64 (e + foldr Z.add 0 ns) = e + foldr Z.add 0 ns) by (apply wrapU_small; lia).
  pose proof (simacc_write_run buffer [48 + e] w) as E. cbv zeta in E. rewrite Htot, Hw, (proj2 (Z.ltb_lt _ _)) in E by done.
  eexists. split; [apply E; [done|simpl; lia| |simpl; by rewrite Hu]|].
  - constructor; [unfold is_byte; lia|constructor].
  - eexists. eapply simacc_read_run; [lia|done].
Qed.

(** Before anything is written, reading the file prints "0;" and a newline:
    the byte stored after the digit is ';', the last character of the
    source's constant, and not NUL. *)
Theorem simacc_initial_read w :
  glob w = simacc_static -> (forall tr n m d, kret tr (CreateProcEntry n m d) <> 0) ->
  exists w', init_simacc current_pid current_comm w = (Done 0, w') /\
    simacc_read w' = (Done (3, str "0;" ++ [10]), w').
Proof.
  intros Hg Hp. destruct (init_simacc_run w Hg Hp) as (w' & E & _ & Hg').
  exists w'. split; [done|]. unfold simacc_read. krun. by rewrite Hg'.
Qed.
End Properties.

(** ** Life cycle *)

(** The calls the kernel makes for the file /proc/simacc. *)
Inductive simacc_call := AccRead | AccWrite (buffer count : Z).

Section Lifecycle.
Context {ENV : Env} {UA : Uaccess} (current_pid : Z) (current_comm : list Z).
Implicit Types w : world simacc.

Definition simacc_op (c : simacc_call) : K simacc Z :=
  match c with
  | AccRead => r ← simacc_read; mret r.1
  | AccWrite buffer count => simacc_write buffer count
  end.

Definition simacc_module : kmodule simacc simacc_call :=
  KModule simacc_static (init_simacc current_pid current_comm) cleanup_simacc simacc_op.

(** A checked access that did not fault. *)
Lemma bind_of_option {A B} (k : A -> K simacc B) f (o : option A) w r w' :
  (of_option f o ≫= k) w = (Done r, w') -> exists a, o = Some a /\ k a w = (Done r, w').
Proof. destruct o as [a|]; [by exists a|done]. Qed.

(** Reading and writing touch nothing but the two buffers. *)
Lemma simacc_op_frame c w r w' :
  simacc_op c w = (Done r, w') -> heap w' = heap w /\ brk w' = brk w /\ log w' = log w.
Proof.
  destruct c as [|buffer count]; cbn [simacc_op]; [unfold simacc_read|unfold simacc_write]; intros H;
    cbv zeta in H; autorewrite with krun in H.
  - apply bind_of_option in H as (s & _ & H). autorewrite with krun in H. by simplify_eq.
  - destruct (negb _); autorewrite with krun in H; [by simplify_eq|].
    apply bind_of_option in H as (b & _ & H). autorewrite with krun in H.
    apply bind_of_option in H as (sum & _ & H). autorewrite with krun in H.
    apply bind_of_option in H as (res & _ & H). autorewrite with krun in H. by simplify_eq.
Qed.

#[global] Instance simacc_clean : CleanModule simacc_module.
Proof.
  refine (Build_CleanModule _ _ simacc_module (fun _ => [RProc "simacc" 0]) (fun _ => True) _ _ _).
  - intros w L Hwf Hg Hh. cbn [simacc_module mod_init mod_static] in *. unfold init_simacc. krun.
    set (p := kret _ _). destruct (Z.eqb_spec p 0) as [E|E]; krun.
    { eexists _, _. split; [reflexivity|]. split; [done|]. ledger_auto. }
    rewrite Hg, static_terminated. cbn [of_option]. krun. eexists _, _. split; [reflexivity|].
    split; [done|]. cbn [Z.eqb]. split; [done|]. ledger_auto.
  - intros w L Hwf _ Hh. cbn [simacc_module mod_exit]. unfold cleanup_simacc. krun.
    eexists. split; [reflexivity|]. split; [done|]. ledger_auto.
  - intros w c r w' L Hwf _ H Hh. apply simacc_op_frame in H as (Hp & Hb & Hl).
    unfold wf_world. by rewrite Hp, Hb, Hl.
Defined.
End Lifecycle.

(** ** Concrete runs *)

(** "1 2 30 " at address 100 and "5" at 200. *)
Definition demo_text : gmap Z Z := uwrite (uwrite ∅ 100 (str "1 2 30 ")) 200 (str "5").

Definition demo_simacc : world simacc := World ∅ 1 demo_text [] simacc_loaded.

Lemma demo_text_bytes a x : user demo_simacc !! a = Some x -> is_byte x.
Proof.
  intros H. assert (Hall : map_Forall (fun _ x => is_byte x) (user demo_simacc)).
  { apply (bool_decide_unpack _). by vm_compute. }
  exact (Hall a x H).
Qed.

Lemma simacc_write_spec_witness :
  exists w', simacc_write 100 7 demo_simacc = (Done 7, w') /\
    simacc_read w' = (Done (3, str "33" ++ [10]), w').
Proof.
  destruct (simacc_write_spec 100 7 demo_simacc simacc_loaded_inv ltac:(done) demo_text_bytes)
    as (w' & E & _ & _ & R).
  exists w'. split; [exact E|]. rewrite R. by vm_compute.
Defined.

Lemma simacc_sums_numbers_witness :
  exists w', simacc_write 100 7 demo_simacc = (Done 7, w') /\
    exists n, simacc_read w' = (Done (n, dec 33 ++ [10]), w').
Proof.
  apply (simacc_sums_numbers 100 [1; 2; 30] demo_simacc).
  - reflexivity.
  - repeat constructor; done.
  - vm_compute. lia.
  - vm_compute. done.
  - reflexivity.
Defined.

(** The module after "1 2 30 " was written. *)
Definition demo_second : world simacc :=
  World ∅ 1 demo_text [] (SimAcc (written (numerals [1; 2; 30]) (input_buf simacc_loaded))
                            (shown 33 (result simacc_loaded))).

Lemma demo_second_inv : simacc_inv (glob demo_second).
Proof.
  split; [|split]; [by vm_compute| |by vm_compute].
  apply written_bytes; [apply (bool_decide_unpack _); by vm_compute|apply simacc_loaded_inv].
Qed.

Lemma simacc_counts_stale_text_witness :
  exists w', simacc_write 200 1 demo_second = (Done 1, w') /\
    exists n, simacc_read w' = (Done (n, dec 37 ++ [10]), w').
Proof.
  apply (simacc_counts_stale_text 200 1 5 [2; 30] demo_second).
  - lia.
  - lia.
  - repeat constructor; done.
  - exact demo_second_inv.
  - reflexivity.
  - vm_compute. lia.
  - vm_compute. done.
  - reflexivity.
Defined.

Definition demo_full : world simacc := World ∅ 1 (uwrite ∅ 0 (replicate 1024 65)) [] simacc_loaded.

Lemma simacc_write_full_witness :
  exists w', simacc_write 0 2000 demo_full = (Oops (OutOfBounds 1024), w').
Proof.
  apply (simacc_write_full 0 2000 (replicate 1024 65) demo_full).
  - exact simacc_loaded_inv.
  - unfold MAX_INPUT_SIZE. lia.
  - exact (ubytes_uwrite ∅ 0 (replicate 1024 65)).
Defined.

Lemma simacc_initial_read_witness :
  exists w', init_simacc (ENV := calm) 42 (str "insmod") (World ∅ 1 ∅ [] simacc_static) = (Done 0, w') /\
    simacc_read w' = (Done (3, str "0;" ++ [10]), w').
Proof.
  apply (simacc_initial_read (ENV := calm) 42 (str "insmod") (World ∅ 1 ∅ [] simacc_static)).
  - reflexivity.
  - intros. cbn. lia.
Defined.
