(* ===== verification/Inet.v ===== *)
(** * What the packet modules share

    Constants of the netfilter interface, and the printing of IPv4 addresses:
    the packet modules print addresses with the kernel's [%pI4] format.  What
    they rely on is stated as the class [FormatIPv4]: the text of an address
    fits in 15 characters, is a C string, is not empty, and tells addresses
    apart.  The dotted-quad format is an instance. *)

From stdpp Require Import base list numbers.
From Stdlib Require Import ZArith Lia.
From S2P Require Import Prelude.

Definition NF_DROP : Z := 0.
Definition NF_ACCEPT : Z := 1.
Definition PF_INET : Z := 2.
Definition NF_IP_PRI_FIRST : Z := -2147483648.

(** The four bytes of an address, in network order. *)
Definition ipv4 (a : list Z) : Prop := length a = 4%nat /\ Forall is_byte a.

Class FormatIPv4 := {
  pI4 : list Z -> list Z;
  pI4_length a : ipv4 a -> (length (pI4 a) <= 15)%nat;
  pI4_text a : ipv4 a -> no_nul (pI4 a);
  pI4_nonempty a : ipv4 a -> pI4 a <> [];
  pI4_inj a b : ipv4 a -> ipv4 b -> pI4 a = pI4 b -> a = b;
}.

(** ** The dotted quad *)

Fixpoint dotted (a : list Z) : list Z :=
  match a with
  | [] => []
  | [x] => dec x
  | x :: a' => dec x ++ 46 :: dotted a'
  end.

(** Two texts split at a dot that follows digits only. *)
Lemma split_dot u v x y :
  Forall (fun c => is_digit c = true) u -> Forall (fun c => is_digit c = true) v ->
  u ++ 46 :: x = v ++ 46 :: y -> u = v /\ x = y.
Proof.
  intros Hu. revert v. induction Hu as [|c u Hc Hu IH]; intros v Hv; destruct Hv as [|d v Hd Hv];
    simpl; intros [= E]; subst; try done.
  destruct (IH v Hv ltac:(done)) as [-> ->]. done.
Qed.

Lemma dotted_inj a b :
  Forall is_byte a -> Forall is_byte b -> length a = length b ->
  dotted a = dotted b -> a = b.
Proof.
  intros Ha. revert b. induction Ha as [|x a Hx Ha IH]; intros b Hb Hl E; destruct Hb as [|y b Hy Hb];
    try done. simplify_eq/=. destruct a as [|x' a], b as [|y' b]; try done.
  - f_equal. apply dec_inj; [apply Hx|apply Hy|done].
  - apply split_dot in E as [Ed E]; [|apply dec_digits, Hx|apply dec_digits, Hy].
    apply dec_inj in Ed as ->; [|apply Hx|apply Hy]. f_equal. by apply IH.
Qed.

Lemma dotted_text a : Forall is_byte a -> no_nul (dotted a).
Proof.
  induction 1 as [|x a Hx Ha IH]; simpl; [constructor|].
  assert (no_nul (dec x)) by (apply digits_no_nul, dec_digits, Hx).
  destruct a; [done|]. apply Forall_app. split; [done|]. by constructor.
Qed.

Lemma dotted_length a : Forall is_byte a -> (S (length (dotted a)) <= 4 * length a)%nat \/ a = [].
Proof.
  induction 1 as [|x a Hx Ha IH]; [by right|]. left.
  assert (length (dec x) <= 3)%nat by (apply dec_length; [unfold is_byte in Hx; simpl; lia|lia]).
  destruct a as [|y a]; [simpl; lia|]. destruct IH as [IH|]; [|done].
  change (dotted (x :: y :: a)) with (dec x ++ 46 :: dotted (y :: a)). rewrite length_app. cbn [length] in *. lia.
Qed.

#[refine, global] Instance dotted_quad : FormatIPv4 := {| pI4 := dotted |}.
Proof.
  - intros a [Hl Ha]. destruct (dotted_length a Ha) as [H| ->]; simpl in *; lia.
  - intros a [_ Ha]. by apply dotted_text.
  - intros [|x [|y a]] [Hl Ha]; try done. apply Forall_cons_1 in Ha as [Hx _]. cbn [dotted].
    intros H%app_eq_nil. naive_solver.
  - intros a b [Hl Ha] [Hl' Hb]. apply dotted_inj; [done..|congruence].
Defined.
