(* ===== verification/Seqfile.v ===== *)
(** * Sequence files

    Two modules serve a file through the kernel's seq_file layer: they give it
    a table of four operations, and the layer calls them to produce the text.
    [seq_operations] is that table.

    The layer is kernel code.  What it promises is the order of its calls: it
    fills a buffer with one pass [start], then [show] and [next] element by
    element, then [stop], and a reader's text is the result of as many such
    passes as its read calls take.  Where a pass begins and how many elements
    it gets to is the layer's choice: the position handed to the operations
    and the number of lines that fit are arguments of [seq_fill], and every
    theorem about readers is for all of them.  (A line that does not fit is
    dropped by the layer; that is a pass of which the reader gets one line
    less.)  No operation of either module writes [*pos], so it is passed by
    value. *)

From stdpp Require Import base list numbers.
From Stdlib Require Import ZArith Lia.
From S2P Require Import Prelude Kernel.

(** [struct seq_operations]; an element is an address, 0 when there is none,
    and [show] gives the line it prints. *)
Record seq_operations (S : Type) := SeqOps {
  start : Z -> K S Z;
  next_elem : Z -> Z -> K S Z;
  stop : K S unit;
  show : Z -> K S (list Z);
}.
Arguments SeqOps {S} _ _ _ _.
Arguments start {S} _ _.
Arguments next_elem {S} _ _ _.
Arguments stop {S} _.
Arguments show {S} _ _.

Section Read.
Context {G : Type} (ops : seq_operations G).

(** The lines of at most [room] elements from [v] on. *)
Fixpoint seq_loop (room : nat) (pos v : Z) : K G (list (list Z)) :=
  match room with
  | O => mret []
  | S room' =>
      if v =? 0 then mret []
      else
        l ← show ops v;
        v' ← next_elem ops v pos;
        ls ← seq_loop room' pos v';
        mret (l :: ls)
  end.

(** One pass at the position [pos], with room for [room] lines. *)
Definition seq_fill (pos : Z) (room : nat) : K G (list (list Z)) :=
  v ← start ops pos; ls ← seq_loop room pos v; stop ops;; mret ls.

(** The passes a reader's calls lead to. *)
Fixpoint seq_fills (fills : list (Z * nat)) : K G (list (list (list Z))) :=
  match fills with
  | [] => mret []
  | (pos, room) :: fills' =>
      x ← seq_fill pos room; xs ← seq_fills fills'; mret (x :: xs)
  end.
End Read.
