(* ===== verification/NetProc.v ===== *)
(** * Per-source packet statistics (src/network_procfs.c)

    A netfilter hook counts, for every source address, the packets and bytes
    received, in a singly linked list of slab objects; /proc/net_proc prints
    the list and a write to it clears the counters.  The state is the two
    list pointers and the heap of list nodes.  The abstract specification is
    a table of entries in order of first arrival ([record], [clear]), and the
    main theorems are refinements of it. *)

From stdpp Require Import base gmap list numbers list_numbers strings.
From Stdlib Require Import ZArith Lia.
From S2P Require Import Prelude Kernel Lifecycle Inet Seqfile.

(** [struct network_list]; [next] is the address of the next node or NULL. *)
Record network_list := NetNode {
  addr : list Z;         (* char addr[16] *)
  count : Z;             (* atomic_t *)
  data_used : Z;         (* atomic64_t *)
  next : Z;
}.

Definition set_addr (a : list Z) (n : network_list) := NetNode a (count n) (data_used n) (next n).
Definition set_count (c : Z) (n : network_list) := NetNode (addr n) c (data_used n) (next n).
Definition set_data (d : Z) (n : network_list) := NetNode (addr n) (count n) d (next n).
Definition set_next (p : Z) (n : network_list) := NetNode (addr n) (count n) (data_used n) p.

(** The module's globals that outlive a call, and the objects of its slab
    cache ([sock_buff] and [ip_header] only hold the packet in hand). *)
Record net := Net {
  root : Z;
  tail : Z;
  packet_node_cache : Z;
  nodes : gmap Z network_list;
}.

Definition set_root (p : Z) (g : net) := Net p (tail g) (packet_node_cache g) (nodes g).
Definition set_tail (p : Z) (g : net) := Net (root g) p (packet_node_cache g) (nodes g).
Definition set_cache (c : Z) (g : net) := Net (root g) (tail g) c (nodes g).
Definition set_nodes (m : gmap Z network_list) (g : net) :=
  Net (root g) (tail g) (packet_node_cache g) m.

(** The parts of a packet the hook looks at. *)
Record sk_buff := SkBuff { saddr : list Z; data_len : Z }.

Section Module.
Context {ENV : Env}.

(** The node a pointer designates. *)
Definition node (p : Z) : K net network_list :=
  if p =? 0 then oops NullDeref
  else g ← get; of_option (BadPointer p) (nodes g !! p).

(** [p->field = ...] *)
Definition upd_node (p : Z) (f : network_list -> network_list) : K net unit :=
  n ← node p; modify (fun g => set_nodes (<[p := f n]> (nodes g)) g).

(** A slab object: NULL when the environment says so, otherwise a new node
    with arbitrary contents. *)
Definition kmem_cache_alloc (c : Z) : K net Z := fun w =>
  if kret (log w) (KmemCacheAlloc c) =? 0
  then (Done 0, with_event (KmemCacheAlloc c, 0) w)
  else
    let j := kjunk (log w) in
    let n := NetNode (map j (seqZ 0 16)) (j 16) (j 17) (j 18) in
    (Done (brk w),
     with_event (KmemCacheAlloc c, brk w)
       (with_brk (brk w + 1)
          (with_glob (set_nodes (<[brk w := n]> (nodes (glob w))) (glob w)) w))).

Definition kmem_cache_free (c p : Z) : K net unit :=
  node p;;
  modify (fun g => set_nodes (delete p (nodes g)) g);;
  docall (KmemCacheFree c p).

(** [free]: the rest of the list first.  The fuel bounds the recursion. *)
Fixpoint free (fuel : nat) (p : Z) : K net unit :=
  match fuel with
  | O => oops Diverges
  | S fuel' =>
      if p =? 0 then mret tt
      else
        n ← node p;
        s ← of_option Unterminated (cstr (addr n));
        printk "free node for %s\n" [PStr s];;
        free fuel' (next n);;
        g ← get;
        kmem_cache_free (packet_node_cache g) p
  end.

(** [strcpy(node->addr, s)] *)
Definition strcpy_addr (p : Z) (s : list Z) : K net unit :=
  n ← node p;
  a ← of_option (OutOfBounds 16) (asets (addr n) 0 (s ++ [0]));
  upd_node p (set_addr a).

(** The while loop of [add_to_list_network]; [true] when a node was updated. *)
Fixpoint find_loop (fuel : nat) (temp : Z) (s : list Z) (data_size : Z) : K net bool :=
  match fuel with
  | O => oops Diverges
  | S fuel' =>
      if temp =? 0 then mret false
      else
        n ← node temp;
        a ← of_option Unterminated (cstr (addr n));
        if negb (strcmp a s =? 0) then find_loop fuel' (next n) s data_size
        else
          upd_node temp (fun n => set_count (s32 (count n + 1)) n);;
          upd_node temp (fun n => set_data (s64 (data_used n + data_size)) n);;
          mret true
  end.

(** A new node behind the tail: linked first, then filled in. *)
Definition link_node : K net Z :=
  g ← get;
  p ← kmem_cache_alloc (packet_node_cache g);
  upd_node (tail g) (set_next p);;
  modify (set_tail p);;
  mret p.

Definition fill_node (p : Z) (s : list Z) (data_size : Z) : K net unit :=
  upd_node p (set_count 1);;
  upd_node p (set_data data_size);;
  strcpy_addr p s;;
  upd_node p (set_next 0).

Definition add_to_list_network (s : list Z) (data_size : Z) : K net unit :=
  g ← get;
  docall SpinLock;;
  added ← find_loop (S (size (nodes g))) (root g) s data_size;
  (if negb added then
     printk "%pS\n" [];;
     printk "New node for source %s\n" [PStr s];;
     p ← link_node;
     fill_node p s data_size
   else mret tt);;
  docall SpinUnlock.

Context {FMT : FormatIPv4}.

(** [snprintf(source, 16, ...)] keeps at most 15 characters; [data_len] is an
    unsigned int passed as an int. *)
Definition hook_func (skb : option sk_buff) : K net Z :=
  b ← of_option NullDeref skb;
  let source := take 15 (pI4 (saddr b)) in
  printk "%s has %u data\n" [PStr source; PInt (data_len b)];;
  add_to_list_network source (s32 (data_len b));;
  mret NF_ACCEPT.

(** The position is not looked at. *)
Definition my_start (pos : Z) : K net Z :=
  printk "START\n" [];;
  g ← get; n ← node (root g); mret (next n).

Definition my_next (v pos : Z) : K net Z :=
  n ← node v; mret (next n).

Definition my_stop : K net unit := printk "STOP\n" [].

(** The line printed for a node. *)
Definition my_show (v : Z) : K net (list Z) :=
  n ← node v;
  a ← of_option Unterminated (cstr (addr n));
  mret (a ++ [9; 58; 9] ++ sdec (count n) ++ str " Packets" ++ [9; 58; 9]
          ++ sdec (Z.quot (data_used n) 1024) ++ str " KB" ++ [10]).

Definition swaps_op : seq_operations net := SeqOps my_start my_next my_stop my_show.

(** [seq_open] gives the file its operations. *)
Definition my_open : K net (seq_operations net) := mret swaps_op.

Fixpoint clear_loop (fuel : nat) (temp : Z) : K net unit :=
  match fuel with
  | O => oops Diverges
  | S fuel' =>
      if temp =? 0 then mret tt
      else
        upd_node temp (set_count 0);;
        upd_node temp (set_data 0);;
        n ← node temp;
        clear_loop fuel' (next n)
  end.

Definition my_write (len : Z) : K net Z :=
  docall SpinLock;;
  printk "TRY TO CLEAR LIST\n" [];;
  g ← get;
  clear_loop (S (size (nodes g))) (root g);;
  docall SpinUnlock;;
  mret (s32 len).

Definition init_packet : K net Z :=
  c ← call (KmemCacheCreate "kmem_packet_cache" 40);
  modify (set_cache c);;
  printk "%pS\n" [];;
  p ← kmem_cache_alloc c;
  modify (set_root p);;
  upd_node p (set_count 0);;
  upd_node p (set_data 0);;
  upd_node p (set_next 0);;
  strcpy_addr p [];;
  modify (set_tail p);;
  call (NfRegisterHook "network_procfs" 1 PF_INET NF_IP_PRI_FIRST);;
  f ← call (ProcCreateData "net_proc" 420 0);
  if f =? 0 then mret (- ENOMEM) else mret 0.

(** [cleanup_packet] up to its last call. *)
Definition cleanup_list : K net unit :=
  docall (RemoveProcEntry "net_proc" 0);;
  g ← get;
  free (S (size (nodes g))) (root g);;
  docall (KmemCacheDestroy (packet_node_cache g)).

Definition cleanup_packet : K net unit :=
  cleanup_list;;
  docall (NfUnregisterHook "network_procfs").
End Module.

(** ** The abstract table *)

Record entry := Entry { e_addr : list Z; e_count : Z; e_data : Z }.

Definition keys (es : list entry) : list (list Z) := map e_addr es.

(** One more packet of [d] bytes for the entry of source [s]. *)
Definition bump (s : list Z) (d : Z) (e : entry) : entry :=
  if decide (e_addr e = s) then Entry s (s32 (e_count e + 1)) (s64 (e_data e + d)) else e.

Definition record (s : list Z) (d : Z) (es : list entry) : list entry :=
  if decide (s ∈ keys es) then map (bump s d) es else es ++ [Entry s 1 d].

Definition clear (es : list entry) : list entry := map (fun e => Entry (e_addr e) 0 0) es.

(** ** Representation: the nodes at [ps], linked in this order, hold [es] *)

Definition node_rep (n : network_list) (e : entry) : Prop :=
  length (addr n) = 16%nat /\ cstr (addr n) = Some (e_addr e) /\
  count n = e_count e /\ data_used n = e_data e.

Fixpoint linked (m : gmap Z network_list) (ps : list Z) (es : list entry) : Prop :=
  match ps, es with
  | [], [] => True
  | p :: ps', e :: es' =>
      p <> 0 /\ (exists n, m !! p = Some n /\ node_rep n e /\ next n = hd 0 ps') /\
      linked m ps' es'
  | _, _ => False
  end.

Definition net_at (ps : list Z) (es : list entry) (w : world net) : Prop :=
  linked (nodes (glob w)) ps es /\ NoDup ps /\
  hd 0 ps = root (glob w) /\ last ps = Some (tail (glob w)) /\
  dom (nodes (glob w)) = list_to_set ps /\ NoDup (keys es) /\
  forall p, p ∈ ps -> 0 < p < brk w.

Definition net_inv (es : list entry) (w : world net) : Prop := exists ps, net_at ps es w.

(** The cache and the nodes allocated from it, and [L] besides. *)
Definition net_held (L : list resource) (w : world net) : Prop :=
  holds (log w) (map (RObj (packet_node_cache (glob w))) (elements (dom (nodes (glob w))))
                  ++ RCache (packet_node_cache (glob w)) :: L).

(** Locks held at the end of a trace. *)
Fixpoint lock_depth (tr : trace) : Z :=
  match tr with
  | [] => 0
  | (SpinLock, _) :: tr' => lock_depth tr' + 1
  | (SpinUnlock, _) :: tr' => lock_depth tr' - 1
  | _ :: tr' => lock_depth tr'
  end.

Section ListLemmas.
Implicit Types (m : gmap Z network_list) (w : world net).

Lemma linked_ext m m' ps es :
  (forall p, p ∈ ps -> m !! p = m' !! p) -> linked m ps es -> linked m' ps es.
Proof.
  revert es. induction ps as [|p ps IH]; intros [|e es] Hm; simpl; try done.
  intros (Hp & (n & Hn & Hr) & Hl). split; [done|]. split.
  - exists n. rewrite <- Hm by set_solver. done.
  - apply IH; [|done]. intros q Hq. apply Hm. set_solver.
Qed.

Lemma linked_insert m p n ps es : p ∉ ps -> linked m ps es -> linked (<[p := n]> m) ps es.
Proof. intros Hp. apply linked_ext. intros q Hq. rewrite lookup_insert_ne; [done|set_solver]. Qed.

Lemma linked_length m ps es : linked m ps es -> length ps = length es.
Proof. revert es. induction ps as [|p ps IH]; intros [|e es]; simpl; naive_solver. Qed.

Lemma linked_nonzero m ps es : linked m ps es -> forall p, p ∈ ps -> p <> 0.
Proof.
  revert es. induction ps as [|p ps IH]; intros [|e es]; simpl; try done; [set_solver|].
  intros (Hp & _ & Hl) q [->|Hq]%elem_of_cons; eauto.
Qed.

(** Appending a node behind the last one. *)
Lemma linked_snoc m ps es t p n n' e :
  linked m ps es -> NoDup ps -> last ps = Some t -> m !! t = Some n ->
  p <> 0 -> p ∉ ps -> m !! p = Some n' -> node_rep n' e -> next n' = 0 ->
  linked (<[t := set_next p n]> m) (ps ++ [p]) (es ++ [e]).
Proof.
  intros Hl Hnd Ht Hn Hp Hps Hn' Hr Hnx. revert es Hl Ht. induction ps as [|q ps IH]; [done|].
  intros [|e0 es]; [done|]. apply NoDup_cons in Hnd as [Hq Hnd].
  intros (Hq0 & (nq & Hnq & Hrq & Hxq) & Hl) Ht. simpl. split; [done|].
  destruct ps as [|q' ps].
  - destruct es; [|done]. simpl in Ht. simplify_eq. simpl. split.
    + exists (set_next p n). by rewrite lookup_insert_eq.
    + split; [done|]. split; [|done]. exists n'. rewrite lookup_insert_ne by set_solver. done.
  - assert (t ∈ q' :: ps).
    { rewrite last_cons_cons in Ht. apply last_Some_elem_of in Ht. done. }
    split.
    + exists nq. rewrite lookup_insert_ne by set_solver. done.
    + apply IH; [done|set_solver|done|]. by rewrite last_cons_cons in Ht.
Qed.
End ListLemmas.

(** ** Running the list operations *)

Definition with_nodes (m : gmap Z network_list) (w : world net) : world net :=
  with_glob (set_nodes m (glob w)) w.

Ltac ncbn :=
  cbn [with_nodes heap brk user log glob with_heap with_brk with_user with_event with_glob
       root tail packet_node_cache nodes set_root set_tail set_cache set_nodes] in *.

Section Run.
Context {ENV : Env}.
Implicit Types (w : world net).

Lemma run_node p n w : p <> 0 -> nodes (glob w) !! p = Some n -> node p w = (Done n, w).
Proof. intros Hp Hn. unfold node. rewrite (proj2 (Z.eqb_neq _ _) Hp). krun. by rewrite Hn. Qed.

Lemma run_upd_node p f n w :
  p <> 0 -> nodes (glob w) !! p = Some n ->
  upd_node p f w = (Done tt, with_nodes (<[p := f n]> (nodes (glob w))) w).
Proof. intros Hp Hn. unfold upd_node. by kstep run_node. Qed.

Lemma with_nodes_id w : with_nodes (nodes (glob w)) w = w.
Proof. by destruct w as [? ? ? ? []]. Qed.

Lemma nodes_with_nodes m w : nodes (glob (with_nodes m w)) = m.
Proof. done. Qed.

Lemma with_nodes_twice m m' w : with_nodes m (with_nodes m' w) = with_nodes m w.
Proof. done. Qed.

(** The lookup loop updates the entry of [s] when there is one, and leaves
    everything else alone. *)
Lemma find_loop_run fuel ps es s d w :
  linked (nodes (glob w)) ps es -> NoDup ps -> NoDup (keys es) -> (length ps < fuel)%nat ->
  exists m,
    find_loop fuel (hd 0 ps) s d w = (Done (bool_decide (s ∈ keys es)), with_nodes m w) /\
    linked m ps (map (bump s d) es) /\
    (forall q, q ∉ ps -> m !! q = nodes (glob w) !! q) /\
    dom m = dom (nodes (glob w)).
Proof.
  revert ps es. induction fuel as [|fuel IH]; intros ps es Hl Hnd Hk Hf; [lia|].
  destruct ps as [|p ps], es as [|e es]; try done.
  { exists (nodes (glob w)). by rewrite with_nodes_id. }
  destruct Hl as (Hp & (n & Hn & (Ha & Hs & Hc & Hd) & Hx) & Hl).
  apply NoDup_cons in Hnd as [Hps Hnd]. apply NoDup_cons in Hk as [Hke Hk].
  cbn [find_loop hd]. rewrite (proj2 (Z.eqb_neq _ _) Hp). kstep run_node. rewrite Hs. cbn [of_option].
  krun. destruct (Z.eqb_spec (strcmp (e_addr e) s) 0) as [E|E]; cbn [negb].
  - apply strcmp_eq in E as <-. kstep run_upd_node.
    erewrite bind_done; [|eapply run_upd_node; [done|apply lookup_insert_eq]]. krun.
    rewrite nodes_with_nodes, with_nodes_twice, insert_insert_eq. eexists. split; [|split; [|split]].
    + rewrite bool_decide_eq_true_2; [done|]. simpl. set_solver.
    + simpl. split; [done|]. split.
      * eexists. rewrite lookup_insert_eq. split; [done|]. split; [|done].
        unfold bump. rewrite decide_True by done. split_and!; simpl; [done|done|by rewrite Hc|by rewrite Hd].
      * apply linked_insert; [done|].
        assert (map (bump (e_addr e) d) es = es) as ->; [|done].
        rewrite <- (map_id es) at 2. apply map_ext_in. intros e' He'. unfold bump.
        rewrite decide_False; [done|]. intros Heq. apply Hke. rewrite list_elem_of_In.
        apply in_map_iff. by exists e'.
    + intros q Hq. apply lookup_insert_ne. set_solver.
    + apply dom_insert_lookup_L. by eexists.
  - rewrite Hx. destruct (IH ps es Hl Hnd Hk) as (m & -> & Hl' & Hout & Hdom); [simpl in Hf; lia|].
    assert (Hne : e_addr e <> s) by (intros Heq; apply E; by apply strcmp_eq).
    exists m. split; [|split; [|split]].
    + do 2 f_equal. apply bool_decide_ext. simpl. set_solver.
    + simpl. split; [done|]. split; [|done]. exists n. rewrite Hout by done.
      unfold bump. rewrite decide_False by done. split_and!; done.
    + intros q Hq. apply Hout. set_solver.
    + done.
Qed.
Lemma run_kmem_cache_alloc c w :
  kret (log w) (KmemCacheAlloc c) <> 0 -> exists n,
  length (addr n) = 16%nat /\
  kmem_cache_alloc c w =
  (Done (brk w), with_event (KmemCacheAlloc c, brk w)
     (with_brk (brk w + 1) (with_nodes (<[brk w := n]> (nodes (glob w))) w))).
Proof.
  intros H. unfold kmem_cache_alloc. rewrite (proj2 (Z.eqb_neq _ _) H). eexists. split; [|done].
  cbn [addr]. by rewrite length_map, length_seqZ.
Qed.

Lemma run_kmem_cache_alloc_null c w :
  kret (log w) (KmemCacheAlloc c) = 0 ->
  kmem_cache_alloc c w = (Done 0, with_event (KmemCacheAlloc c, 0) w).
Proof. intros H. unfold kmem_cache_alloc. by rewrite H. Qed.

Lemma asets_strcpy a s :
  length a = 16%nat -> (length s <= 15)%nat -> no_nul s ->
  exists a', asets a 0 (s ++ [0]) = Some a' /\ length a' = 16%nat /\ cstr a' = Some s.
Proof.
  intros Ha Hs Hn. eexists. rewrite asets_0 by (rewrite length_app; simpl; lia).
  split; [done|]. split.
  - rewrite length_app, length_drop, length_app. simpl. lia.
  - rewrite <- app_assoc. by apply cstr_app_nul.
Qed.

Lemma run_strcpy_addr p n s w :
  p <> 0 -> nodes (glob w) !! p = Some n -> length (addr n) = 16%nat ->
  (length s <= 15)%nat -> no_nul s ->
  exists a, length a = 16%nat /\ cstr a = Some s /\
    strcpy_addr p s w = (Done tt, with_nodes (<[p := set_addr a n]> (nodes (glob w))) w).
Proof.
  intros Hp Hn Ha Hs Hnul. destruct (asets_strcpy _ _ Ha Hs Hnul) as (a & E & Hl & Hc).
  exists a. split; [done|]. split; [done|]. unfold strcpy_addr. kstep run_node.
  rewrite E. cbn [of_option]. krun. by apply run_upd_node.
Qed.

(** Linking a node: its contents are what the memory held before. *)
Definition junk_node (j : Z -> Z) : network_list := NetNode (map j (seqZ 0 16)) (j 16) (j 17) (j 18).

Lemma link_run nt w :
  kret (log w) (KmemCacheAlloc (packet_node_cache (glob w))) <> 0 ->
  tail (glob w) <> 0 -> tail (glob w) <> brk w -> nodes (glob w) !! tail (glob w) = Some nt ->
  link_node w =
  (Done (brk w), with_event (KmemCacheAlloc (packet_node_cache (glob w)), brk w)
     (with_brk (brk w + 1) (with_glob (set_tail (brk w) (set_nodes
        (<[tail (glob w) := set_next (brk w) nt]>
           (<[brk w := junk_node (kjunk (log w))]> (nodes (glob w)))) (glob w))) w))).
Proof.
  intros Hk Ht Hne Hnt. unfold link_node. krun.
  erewrite bind_done by (unfold kmem_cache_alloc; rewrite (proj2 (Z.eqb_neq _ _) Hk); reflexivity).
  erewrite bind_done; [|eapply run_upd_node; [done|]; cbn;
    rewrite lookup_insert_ne by done; exact Hnt].
  by krun.
Qed.

Lemma fill_run p n s d w :
  p <> 0 -> nodes (glob w) !! p = Some n -> length (addr n) = 16%nat ->
  (length s <= 15)%nat -> no_nul s ->
  exists a, length a = 16%nat /\ cstr a = Some s /\
    fill_node p s d w = (Done tt, with_nodes (<[p := NetNode a 1 d 0]> (nodes (glob w))) w).
Proof.
  intros Hp Hn Ha Hs Hnul. unfold fill_node. kstep run_upd_node.
  erewrite bind_done; [|eapply run_upd_node; [done|]; cbn; apply lookup_insert_eq].
  match goal with |- context [(strcpy_addr _ _ ≫= _) ?w'] =>
    destruct (run_strcpy_addr p (set_data d (set_count 1 n)) s w') as (a & Hal & Hac & Ea);
    [done|cbn; apply lookup_insert_eq|exact Ha|exact Hs|exact Hnul|] end.
  exists a. split; [done|]. split; [done|]. rewrite (bind_done _ _ _ _ _ Ea).
  erewrite run_upd_node; [|done|cbn; apply lookup_insert_eq].
  rewrite !nodes_with_nodes, !with_nodes_twice, !insert_insert_eq. done.
Qed.

(** A linked and filled node extends the list. *)
Lemma linked_new m ps es t nt p nj a s d :
  linked m ps es -> NoDup ps -> last ps = Some t -> m !! t = Some nt -> p <> 0 -> p ∉ ps ->
  length a = 16%nat -> cstr a = Some s ->
  linked (<[p := NetNode a 1 d 0]> (<[t := set_next p nt]> (<[p := nj]> m)))
    (ps ++ [p]) (es ++ [Entry s 1 d]).
Proof.
  intros Hl Hnd Ht Hnt Hp Hps Ha Hs.
  assert (t <> p) by (intros ->; by apply Hps, last_Some_elem_of).
  rewrite (insert_insert_ne _ p t), insert_insert_eq by done.
  eapply linked_snoc; [by apply linked_insert|done|done|by rewrite lookup_insert_ne|done|done
    |apply lookup_insert_eq|by split_and!|done].
Qed.

(** The part of [add_to_list_network] that adds a new node. *)
Lemma new_node_run ps es nt s d w :
  linked (nodes (glob w)) ps es -> NoDup ps -> last ps = Some (tail (glob w)) ->
  nodes (glob w) !! tail (glob w) = Some nt -> (forall p, p ∈ ps -> 0 < p < brk w) -> 0 < brk w ->
  kret (log w) (KmemCacheAlloc (packet_node_cache (glob w))) <> 0 ->
  (length s <= 15)%nat -> no_nul s ->
  exists m,
    (p ← link_node; fill_node p s d) w =
    (Done tt, with_event (KmemCacheAlloc (packet_node_cache (glob w)), brk w)
       (with_brk (brk w + 1) (with_glob (set_tail (brk w) (set_nodes m (glob w))) w))) /\
    linked m (ps ++ [brk w]) (es ++ [Entry s 1 d]) /\
    dom m = {[brk w]} ∪ dom (nodes (glob w)).
Proof.
  intros Hl Hnd Hlast Hnt Hb Hb0 Hk Hs Hnul.
  assert (Hfresh : brk w ∉ ps) by (intros H%Hb; lia).
  assert (Ht : tail (glob w) ∈ ps) by (by apply last_Some_elem_of).
  assert (Hne : tail (glob w) <> brk w) by (intros E; rewrite E in Ht; done).
  rewrite (bind_done _ _ _ _ _ (link_run nt w Hk ltac:(by eapply linked_nonzero) Hne Hnt)).
  match goal with |- context [fill_node _ _ _ ?w'] =>
    destruct (fill_run (brk w) (junk_node (kjunk (log w))) s d w') as (a & Hal & Hac & ->);
    [lia|cbn; by rewrite lookup_insert_ne, lookup_insert_eq by done
    |cbn; by rewrite length_map, length_seqZ|done|done|] end.
  exists (<[brk w := NetNode a 1 d 0]> (<[tail (glob w) := set_next (brk w) nt]>
            (<[brk w := junk_node (kjunk (log w))]> (nodes (glob w))))).
  split; [done|]. split; [apply linked_new; (done || lia)|].
  rewrite !dom_insert_L. apply elem_of_dom_2 in Hnt. set_solver.
Qed.

Lemma linked_lookup m ps es p : linked m ps es -> p ∈ ps -> exists n, m !! p = Some n.
Proof.
  revert es. induction ps as [|q ps IH]; intros [|e es]; simpl; try done; [set_solver|].
  intros (_ & (n & Hn & _) & Hl) [->|Hp]%elem_of_cons; eauto.
Qed.

Lemma size_nodes (m : gmap Z network_list) ps :
  dom m = list_to_set ps -> NoDup ps -> size m = length ps.
Proof. intros Hd Hnd. by rewrite <- size_dom, Hd, size_list_to_set. Qed.

Lemma bump_addr s d e : e_addr (bump s d e) = e_addr e.
Proof. unfold bump. by case_decide. Qed.

Lemma keys_bump s d es : keys (map (bump s d) es) = keys es.
Proof. unfold keys. rewrite map_map. apply map_ext. intros e. apply bump_addr. Qed.

Lemma bump_absent s d es : s ∉ keys es -> map (bump s d) es = es.
Proof.
  intros Hs. rewrite <- (map_id es) at 2. apply map_ext_in. intros e He. unfold bump.
  rewrite decide_False; [done|]. intros <-. apply Hs. apply list_elem_of_In, in_map, He.
Qed.

(** The list with a node more, at its tail. *)
Lemma net_at_snoc ps es s c d w w' :
  net_at ps es w -> s ∉ keys es -> brk w' = brk w + 1 ->
  linked (nodes (glob w')) (ps ++ [brk w]) (es ++ [Entry s c d]) ->
  dom (nodes (glob w')) = {[brk w]} ∪ dom (nodes (glob w)) ->
  root (glob w') = root (glob w) -> tail (glob w') = brk w ->
  net_at (ps ++ [brk w]) (es ++ [Entry s c d]) w'.
Proof.
  intros (Hl & Hnd & Hhd & Hlast & Hdom & Hk & Hb) Hin Hbrk Hl' Hdom' Hr Ht.
  assert (Hfresh : brk w ∉ ps) by (intros H%Hb; lia). unfold net_at.
  rewrite Hbrk, Hdom', Hr, Ht. split_and!.
  - done.
  - apply NoDup_app. split_and!; [done|set_solver|]. apply NoDup_singleton.
  - by destruct ps.
  - by rewrite last_snoc.
  - rewrite Hdom, list_to_set_app_L. set_solver.
  - unfold keys. rewrite map_app. apply NoDup_app. split_and!; [done| |apply NoDup_singleton].
    simpl. set_solver.
  - assert (0 < tail (glob w) < brk w) by (by apply Hb, last_Some_elem_of).
    intros p [Hp|Hp]%elem_of_app; [apply Hb in Hp; lia|]. apply list_elem_of_singleton in Hp as ->. lia.
Qed.

(** Nodes keep their places: a new one is added at the end. *)
Lemma add_run_at ps es s d w :
  net_at ps es w -> no_nul s -> (length s <= 15)%nat ->
  (s ∉ keys es -> forall tr c, kret tr (KmemCacheAlloc c) <> 0) ->
  exists w', add_to_list_network s d w = (Done tt, w') /\
    (exists qs, net_at (ps ++ qs) (record s d es) w') /\ lock_depth (log w') = lock_depth (log w) /\
    (forall L, net_held L w -> net_held L w').
Proof.
  intros Hi Hnul Hs Halloc. pose proof Hi as (Hl & Hnd & Hhd & Hlast & Hdom & Hk & Hb).
  unfold add_to_list_network. krun.
  destruct (find_loop_run (S (size (nodes (glob w)))) ps es s d (with_event (SpinLock, 0) w))
    as (m & E & Hl' & Hout & Hdom'); [done..|rewrite (size_nodes _ ps) by done; lia|].
  rewrite Hhd in E. rewrite (bind_done _ _ _ _ _ E). clear E. cbn [glob with_event] in *.
  unfold record. case_decide as Hin.
  { rewrite bool_decide_eq_true_2 by done. cbn [negb]. krun. eexists. split; [done|].
    split; [|split; [cbn; lia|]].
    - exists []. rewrite app_nil_r. unfold net_at. rewrite keys_bump. cbn. by rewrite Hdom'.
    - intros L HL. unfold net_held. ncbn. rewrite Hdom'. do 2 (apply holds_nothing; [done|]). exact HL. }
  rewrite bool_decide_eq_false_2 by done. cbn [negb]. krun. rewrite bump_absent in Hl' by done.
  destruct (linked_lookup _ _ _ (tail (glob w)) Hl') as [nt Hnt]; [by apply last_Some_elem_of|].
  assert (Hb0 : 0 < brk w) by (assert (0 < tail (glob w) < brk w) by (by apply Hb, last_Some_elem_of); lia).
  match goal with |- context [(link_node ≫= _) ?w1] =>
    destruct (new_node_run ps es nt s d w1) as (m2 & E & Hl2 & Hdom2);
    [done..|apply Halloc, Hin|done|done|rewrite <- bind_assoc, (bind_done _ _ _ _ _ E)] end.
  krun. eexists. split; [done|]. clear E. ncbn.
  assert (Hfresh : brk w ∉ ps) by (intros H%Hb; lia).
  split; [|split; [cbn; lia|]]; cycle 1.
  { intros L HL. unfold net_held. ncbn. rewrite Hdom2, Hdom'.
    rewrite elements_union_singleton by (rewrite Hdom; set_solver). cbn [map app].
    apply holds_nothing; [done|]. apply holds_acquire; [keffect|].
    do 3 (apply holds_nothing; [done|]). exact HL. }
  exists [brk w]. apply (net_at_snoc ps es s 1 d w); ncbn; try done. by rewrite Hdom2, Hdom'.
Qed.

Lemma add_run es s d w :
  net_inv es w -> no_nul s -> (length s <= 15)%nat ->
  (s ∉ keys es -> forall tr c, kret tr (KmemCacheAlloc c) <> 0) ->
  exists w', add_to_list_network s d w = (Done tt, w') /\
    net_inv (record s d es) w' /\ lock_depth (log w') = lock_depth (log w) /\
    (forall L, net_held L w -> net_held L w').
Proof.
  intros [ps Hi] Hnul Hs Halloc. destruct (add_run_at ps es s d w Hi Hnul Hs Halloc)
    as (w' & E & [qs Hi'] & Hl & Hh). exists w'. split_and!; [done|by eexists|done..].
Qed.

Lemma clear_loop_run fuel ps es w :
  linked (nodes (glob w)) ps es -> NoDup ps -> (length ps < fuel)%nat ->
  exists m,
    clear_loop fuel (hd 0 ps) w = (Done tt, with_nodes m w) /\ linked m ps (clear es) /\
    (forall q, q ∉ ps -> m !! q = nodes (glob w) !! q) /\ dom m = dom (nodes (glob w)).
Proof.
  revert ps es w. induction fuel as [|fuel IH]; intros ps es w Hl Hnd Hf; [lia|].
  destruct ps as [|p ps], es as [|e es]; try done.
  { exists (nodes (glob w)). by rewrite with_nodes_id. }
  destruct Hl as (Hp & (n & Hn & (Ha & Hs & Hc & Hd) & Hx) & Hl).
  apply NoDup_cons in Hnd as [Hps Hnd].
  cbn [clear_loop hd]. rewrite (proj2 (Z.eqb_neq _ _) Hp). kstep run_upd_node.
  erewrite bind_done; [|eapply run_upd_node; [done|apply lookup_insert_eq]].
  erewrite bind_done; [|eapply run_node; [done|apply lookup_insert_eq]].
  rewrite nodes_with_nodes, with_nodes_twice, insert_insert_eq. cbn [next set_data set_count].
  set (n' := set_data 0 (set_count 0 n)). rewrite Hx.
  destruct (IH ps es (with_nodes (<[p := n']> (nodes (glob w))) w)) as (m & -> & Hl' & Hout & Hdom).
  { by apply linked_insert. } { done. } { simpl in Hf. lia. }
  rewrite nodes_with_nodes in Hout, Hdom. exists m. split; [done|]. split; [|split].
  - simpl. split; [done|]. split; [|done]. exists n'. rewrite Hout, lookup_insert_eq by done.
    by split_and!.
  - intros q Hq. rewrite Hout by set_solver. apply lookup_insert_ne. set_solver.
  - rewrite Hdom. apply dom_insert_lookup_L. by eexists.
Qed.

(** Freeing the list gives back every node exactly once. *)
Lemma free_run fuel ps es w L :
  linked (nodes (glob w)) ps es -> NoDup ps -> (length ps < fuel)%nat ->
  holds (log w) (map (RObj (packet_node_cache (glob w))) ps ++ L) ->
  exists w', free fuel (hd 0 ps) w = (Done tt, w') /\ holds (log w') L /\
    glob w' = set_nodes (nodes (glob w')) (glob w) /\
    (forall q, nodes (glob w') !! q = if decide (q ∈ ps) then None else nodes (glob w) !! q).
Proof.
  revert ps es w L. induction fuel as [|fuel IH]; intros ps es w L Hl Hnd Hf Hh; [lia|].
  destruct ps as [|p ps], es as [|e es]; try done.
  { exists w. split; [done|]. split; [done|]. split; [by destruct w as [? ? ? ? []]|].
    intros q. rewrite decide_False by set_solver. done. }
  destruct Hl as (Hp & (n & Hn & (Ha & Hs & Hc & Hd) & Hx) & Hl).
  apply NoDup_cons in Hnd as [Hps Hnd].
  cbn [free hd]. rewrite (proj2 (Z.eqb_neq _ _) Hp). kstep run_node. rewrite Hs. cbn [of_option].
  krun. rewrite Hx.
  edestruct (IH ps es (with_event (Printk "free node for %s\n" [PStr (e_addr e)], 0) w)
               (RObj (packet_node_cache (glob w)) p :: L)) as (w1 & E & Hh1 & Hg & Hm);
    [done|done|simpl in Hf; lia| |].
  { apply holds_nothing; [done|]. cbn [glob with_event]. simpl in Hh.
    by rewrite <- Permutation_middle. }
  rewrite (bind_done _ _ _ _ _ E). krun. unfold kmem_cache_free.
  assert (Hcache : packet_node_cache (glob w1) = packet_node_cache (glob w)) by (by rewrite Hg).
  erewrite bind_done; [|eapply run_node; [done|]; rewrite Hm, decide_False by done; exact Hn].
  krun. eexists. split; [done|]. cbn [log glob with_event with_glob nodes set_nodes]. split; [|split].
  - eapply holds_release; [done|]. by rewrite Hcache.
  - by rewrite Hg.
  - intros q. rewrite lookup_delete. case_decide as Hq.
    + subst. rewrite decide_True by set_solver. done.
    + rewrite Hm. cbn [glob with_event]. repeat case_decide; set_solver.
Qed.
End Run.

(** ** A reader's passes over the list *)

Section Session.
Context {ENV : Env}.
Implicit Types w : world net.

(** The line of an entry. *)
Definition line (e : entry) : list Z :=
  e_addr e ++ [9; 58; 9] ++ sdec (e_count e) ++ str " Packets" ++ [9; 58; 9]
    ++ sdec (Z.quot (e_data e) 1024) ++ str " KB" ++ [10].

Lemma seq_loop_run room pos ps es w :
  linked (nodes (glob w)) ps es ->
  seq_loop swaps_op room pos (hd 0 ps) w = (Done (map line (take room es)), w).
Proof.
  revert ps es. induction room as [|room IH]; intros ps es Hl; [by rewrite firstn_O|].
  destruct ps as [|p ps], es as [|e es]; try done.
  destruct Hl as (Hp & (n & Hn & (Ha & Hs & Hc & Hd) & Hx) & Hl).
  cbn [seq_loop hd]. rewrite (proj2 (Z.eqb_neq _ _) Hp). cbn [swaps_op show next_elem].
  unfold my_show, my_next. krun.
  kstep run_node. rewrite Hs. cbn [of_option]. krun. kstep run_node. krun. rewrite Hx.
  rewrite (bind_done _ _ _ _ _ (IH ps es Hl)). krun.
  by rewrite Hc, Hd.
Qed.

Lemma seq_fill_run pos room e0 es w :
  net_inv (e0 :: es) w ->
  exists w', seq_fill swaps_op pos room w = (Done (map line (take room es)), w') /\
    glob w' = glob w /\ brk w' = brk w /\ lock_depth (log w') = lock_depth (log w) /\
    (forall L, net_held L w -> net_held L w').
Proof.
  intros (ps & Hl & Hnd & Hhd & Hlast & Hdom & _).
  destruct ps as [|p ps]; [done|]. destruct Hl as (Hp & (n & Hn & _ & Hx) & Hl).
  unfold seq_fill. cbn [swaps_op start stop]. fold swaps_op.
  unfold my_start. krun. simpl in Hhd. rewrite <- Hhd. kstep run_node.
  krun. rewrite Hx. erewrite bind_done; [|by eapply (seq_loop_run room pos ps es)].
  unfold my_stop. krun. eexists. split_and!; [done..|]. intros L HL.
  do 2 (apply holds_nothing; [done|]). exact HL.
Qed.
End Session.

(** ** Counting packets *)

Definition lookup_entry (s : list Z) (es : list entry) : option entry :=
  List.find (fun e => bool_decide (e_addr e = s)) es.

Lemma lookup_entry_None s es : lookup_entry s es = None <-> s ∉ keys es.
Proof.
  induction es as [|e es IH]; simpl; [set_solver|].
  case_bool_decide; set_solver.
Qed.

Lemma lookup_map_bump s d s' es :
  lookup_entry s' (map (bump s d) es) =
  (if decide (s' = s) then bump s d else id) <$> lookup_entry s' es.
Proof.
  unfold lookup_entry. induction es as [|e es IH]; simpl; [done|].
  rewrite bump_addr. case_bool_decide as He; [|done]. simpl. f_equal. clear IH.
  unfold bump, id. repeat case_decide; congruence.
Qed.

Lemma lookup_record s d s' es :
  lookup_entry s' (record s d es) =
  if decide (s' = s)
  then Some (match lookup_entry s es with
             | Some e => Entry s (s32 (e_count e + 1)) (s64 (e_data e + d))
             | None => Entry s 1 d
             end)
  else lookup_entry s' es.
Proof.
  unfold record. case_decide as Hin.
  - rewrite lookup_map_bump. destruct (decide (s' = s)) as [->|Hne].
    + destruct (lookup_entry s es) as [e|] eqn:E; [|by apply lookup_entry_None in E].
      simpl. f_equal. unfold bump. apply List.find_some in E as [_ E].
      apply bool_decide_eq_true in E. by rewrite decide_True.
    + by destruct (lookup_entry s' es).
  - apply lookup_entry_None in Hin. unfold lookup_entry in *.
    assert (Happ : forall l e, List.find (fun e => bool_decide (e_addr e = s')) (l ++ [e]) =
      match List.find (fun e => bool_decide (e_addr e = s')) l with
      | Some x => Some x | None => if bool_decide (e_addr e = s') then Some e else None end).
    { induction l as [|x l IH]; intros e; simpl; [done|]. by destruct (bool_decide _). }
    rewrite Happ. simpl. destruct (decide (s' = s)) as [->|Hne].
    + rewrite Hin. by rewrite bool_decide_eq_true_2.
    + rewrite bool_decide_eq_false_2 by done.
      by destruct (List.find (fun e => bool_decide (e_addr e = s')) es).
Qed.

Section Packets.
Context {ENV : Env} {FMT : FormatIPv4}.
Implicit Types (w : world net) (b : sk_buff).

(** A packet as the network delivers it. *)
Definition ip_packet b : Prop := ipv4 (saddr b).

(** The hook called on packets one after the other. *)
Fixpoint receive (bs : list sk_buff) : K net unit :=
  match bs with
  | [] => mret tt
  | b :: bs' => hook_func (Some b);; receive bs'
  end.

Definition account (es : list entry) b : list entry := record (pI4 (saddr b)) (s32 (data_len b)) es.

Definition table (bs : list sk_buff) (es : list entry) : list entry := fold_left account bs es.

(** Packets and bytes of one source among the packets received. *)
Definition from (a : list Z) (bs : list sk_buff) : list sk_buff :=
  filter (fun b => saddr b = a) bs.

Definition volume (bs : list sk_buff) : Z := foldr (fun b s => s32 (data_len b) + s) 0 bs.

Lemma volume_snoc bs b : volume (bs ++ [b]) = volume bs + s32 (data_len b).
Proof. induction bs as [|x bs IH]; simpl; [lia|]. rewrite IH. lia. Qed.

Lemma from_snoc a bs b :
  from a (bs ++ [b]) = from a bs ++ (if decide (saddr b = a) then [b] else []).
Proof. unfold from. rewrite filter_app, filter_cons, filter_nil. done. Qed.

Lemma hook_run_at ps es b w :
  net_at ps es w -> ip_packet b ->
  (pI4 (saddr b) ∉ keys es -> forall tr c, kret tr (KmemCacheAlloc c) <> 0) ->
  exists w', hook_func (Some b) w = (Done NF_ACCEPT, w') /\
    (exists qs, net_at (ps ++ qs) (account es b) w') /\ lock_depth (log w') = lock_depth (log w) /\
    (forall L, net_held L w -> net_held L w').
Proof.
  intros Hi Hb Ha. unfold hook_func. cbn [of_option]. krun. rewrite take_ge by (by apply pI4_length).
  match goal with |- context [(add_to_list_network _ _ ≫= _) ?w1] =>
    destruct (add_run_at ps es (pI4 (saddr b)) (s32 (data_len b)) w1) as (w' & E & Hi' & Hl & Hh);
    [done|by apply pI4_text|by apply pI4_length|done|] end.
  rewrite (bind_done _ _ _ _ _ E). krun. eexists. split_and!; [done..|].
  intros L HL. apply Hh. by apply holds_nothing.
Qed.

Lemma hook_run es b w :
  net_inv es w -> ip_packet b ->
  (pI4 (saddr b) ∉ keys es -> forall tr c, kret tr (KmemCacheAlloc c) <> 0) ->
  exists w', hook_func (Some b) w = (Done NF_ACCEPT, w') /\
    net_inv (account es b) w' /\ lock_depth (log w') = lock_depth (log w) /\
    (forall L, net_held L w -> net_held L w').
Proof.
  intros [ps Hi] Hb Ha. destruct (hook_run_at ps es b w Hi Hb Ha) as (w' & E & [qs Hi'] & Hl & Hh).
  exists w'. split_and!; [done|by eexists|done..].
Qed.

Lemma receive_run bs es w :
  net_inv es w -> Forall ip_packet bs -> (forall tr c, kret tr (KmemCacheAlloc c) <> 0) ->
  exists w', receive bs w = (Done tt, w') /\ net_inv (table bs es) w' /\
    lock_depth (log w') = lock_depth (log w).
Proof.
  intros Hi Hbs Ha. revert es w Hi. induction Hbs as [|b bs Hb Hbs IH]; intros es w Hi; simpl.
  { by eexists. }
  destruct (hook_run es b w) as (w1 & E & Hi1 & Hl1 & _); [done..|].
  rewrite (bind_done _ _ _ _ _ E). destruct (IH _ _ Hi1) as (w2 & E2 & Hi2 & Hl2).
  exists w2. by rewrite Hl2.
Qed.

(** The table after [bs]: exact totals of every source, modulo the width of
    the counters. *)
Lemma table_counts bs a :
  Forall ip_packet bs -> ipv4 a ->
  lookup_entry (pI4 a) (table bs [Entry [] 0 0]) =
  if decide (from a bs = []) then None
  else Some (Entry (pI4 a) (s32 (Z.of_nat (length (from a bs)))) (s64 (volume (from a bs)))).
Proof.
  intros Hbs Ha. induction bs as [|b bs IH] using rev_ind.
  { simpl. rewrite bool_decide_eq_false_2; [done|]. simpl. intros E. by apply (pI4_nonempty a). }
  apply Forall_app in Hbs as [Hbs [Hb _]%Forall_cons_1]. specialize (IH Hbs).
  unfold table. rewrite fold_left_app. fold (table bs [Entry [] 0 0]). cbn [fold_left]. unfold account.
  rewrite lookup_record, from_snoc. destruct (decide (saddr b = a)) as [<-|Hne].
  - rewrite decide_True by done. rewrite IH.
    rewrite (decide_False (P := _ ++ [b] = [])) by (intros H%app_eq_nil; naive_solver).
    rewrite length_app, volume_snoc. f_equal. case_decide as Hf.
    + rewrite Hf. cbn [length app Nat.add volume foldr]. pose proof (wrapS_range 32 (data_len b)).
      rewrite (wrapS_small 64) by lia. done.
    + cbn [e_count e_data]. rewrite !wrapS_add_l by lia. do 2 f_equal. simpl. lia.
  - assert (Hp : pI4 a <> pI4 (saddr b)) by (intros E; apply Hne, eq_sym; exact (pI4_inj a _ Ha Hb E)).
    by rewrite (decide_False (P := pI4 a = _)), app_nil_r.
Qed.
End Packets.

(** ** Loading and unloading *)

Section Load.
Context {ENV : Env} {FMT : FormatIPv4}.
Implicit Types w : world net.

Definition net_static : net := Net 0 0 0 ∅.

(** The table of a module that has seen no packet: the head node only. *)
Definition empty_table : list entry := [Entry [] 0 0].

Lemma init_run w L :
  0 < brk w -> glob w = net_static ->
  (forall tr c, kret tr (KmemCacheAlloc c) <> 0) ->
  (forall tr n s, kret tr (KmemCacheCreate n s) <> 0) ->
  (forall tr o hn pf pr, kret tr (NfRegisterHook o hn pf pr) = 0) ->
  exists w' f, init_packet w = (Done (if f =? 0 then - ENOMEM else 0), w') /\
    net_inv empty_table w' /\ lock_depth (log w') = lock_depth (log w) /\
    (holds (log w) L ->
     net_held ((if f =? 0 then [] else [RProc "net_proc" 0]) ++ RHook "network_procfs" :: L) w') /\
    (exists tr, f = kret tr (ProcCreateData "net_proc" 420 0)) /\
    exists c, log w' =
      (ProcCreateData "net_proc" 420 0, f) :: (NfRegisterHook "network_procfs" 1 PF_INET NF_IP_PRI_FIRST, 0)
        :: (KmemCacheAlloc c, brk w) :: (Printk "%pS\n" [], 0)
        :: (KmemCacheCreate "kmem_packet_cache" 40, c) :: log w.
Proof.
  intros Hb Hg Hal Hcr Hhk. destruct w as [h b u l g]. cbn in Hb, Hg. subst g.
  unfold init_packet. krun. set (c := kret _ (KmemCacheCreate _ _)).
  pose proof (Hcr _ _ _ : c <> 0) as Hc. ncbn.
  match goal with |- context [(kmem_cache_alloc _ ≫= _) ?w1] =>
    destruct (run_kmem_cache_alloc c w1 (Hal _ _)) as (n & Hn & E); rewrite (bind_done _ _ _ _ _ E)
  end.
  clear E. krun. ncbn.
  do 3 (erewrite bind_done; [|eapply run_upd_node; [lia|apply lookup_insert_eq]]).
  match goal with |- context [(strcpy_addr _ _ ≫= _) ?w'] =>
    destruct (run_strcpy_addr b (set_next 0 (set_data 0 (set_count 0 n))) [] w') as (a & Hal' & Hac & Ea);
    [lia|cbn; apply lookup_insert_eq|done|simpl; lia|constructor|] end.
  rewrite (bind_done _ _ _ _ _ Ea). clear Ea. krun. ncbn. rewrite !insert_insert_eq.
  set (f := kret _ (ProcCreateData _ _ _)). set (r := kret _ (NfRegisterHook _ _ _ _)).
  pose proof (Hhk _ _ _ _ _ : r = 0) as Hr. assert (Hf : exists tr, f = kret tr (ProcCreateData "net_proc" 420 0)) by (by eexists).
  clearbody r f.
  exists (World h (b + 1) u
    ((ProcCreateData "net_proc" 420 0, f) :: (NfRegisterHook "network_procfs" 1 PF_INET NF_IP_PRI_FIRST, r)
       :: (KmemCacheAlloc c, b) :: (Printk "%pS\n" [], 0) :: (KmemCacheCreate "kmem_packet_cache" 40, c) :: l)
    (Net b b c {[b := NetNode a 0 0 0]})), f.
  split_and!.
  - by destruct (f =? 0).
  - exists [b]. unfold net_at. ncbn. split_and!; try done.
    + simpl. split; [lia|]. split; [|done]. eexists. rewrite lookup_singleton_eq. by split_and!.
    + apply NoDup_singleton.
    + by rewrite dom_singleton_L, list_to_set_singleton_L.
    + apply NoDup_singleton.
    + intros p ->%list_elem_of_singleton. lia.
  - done.
  - intros Hh. cbn in Hh. unfold net_held. ncbn. rewrite dom_singleton_L, elements_singleton. cbn [map app].
    destruct (Z.eqb_spec f 0); ledger_auto.
  - done.
  - exists c. by rewrite Hr.
Qed.
End Load.

(** ** The module as an object: packets, clears and reads in any order

    A reader's calls to the file become passes over the list, each at a
    position and with room for a number of lines that are the kernel's choice:
    a reader is any number of [Read]s among the other operations. *)

Inductive net_op :=
| Packet (b : sk_buff)
| Clear (len : Z)
| Read (pos : Z) (room : nat).

Definition op_ok (o : net_op) : Prop :=
  match o with Packet b => ip_packet b | _ => True end.

Section Object.
Context {ENV : Env} {FMT : FormatIPv4}.
Implicit Types w : world net.

(** What an operation returns: the lines a pass delivers. *)
Definition run_op (o : net_op) : K net (list (list Z)) :=
  match o with
  | Packet b => hook_func (Some b);; mret []
  | Clear len => my_write len;; mret []
  | Read pos room => ops ← my_open; seq_fill ops pos room
  end.

Fixpoint run_ops (os : list net_op) : K net (list (list (list Z))) :=
  match os with
  | [] => mret []
  | o :: os' => x ← run_op o; xs ← run_ops os'; mret (x :: xs)
  end.

(** The specification: the table changes, and every pass of a reader delivers
    the first entries behind the head, as many as there is room for. *)
Definition spec_op (o : net_op) (es : list entry) : list entry * list (list Z) :=
  match o with
  | Packet b => (account es b, [])
  | Clear _ => (clear es, [])
  | Read _ room => (es, map line (take room (List.tl es)))
  end.

Fixpoint spec_ops (os : list net_op) (es : list entry) : list entry * list (list (list Z)) :=
  match os with
  | [] => (es, [])
  | o :: os' =>
      let (es1, x) := spec_op o es in
      let (es2, xs) := spec_ops os' es1 in (es2, x :: xs)
  end.

Lemma keys_clear es : keys (clear es) = keys es.
Proof. unfold keys, clear. by rewrite map_map. Qed.

Lemma net_write_at len ps es w :
  net_at ps es w ->
  exists w', my_write len w = (Done (s32 len), w') /\ net_at ps (clear es) w' /\
    lock_depth (log w') = lock_depth (log w) /\
    (forall L, net_held L w -> net_held L w').
Proof.
  intros (Hl & Hnd & Hhd & Hlast & Hdom & Hk & Hb). unfold my_write. krun. ncbn.
  match goal with |- context [(clear_loop ?f _ ≫= _) ?w1] =>
    destruct (clear_loop_run f ps es w1) as (m & E & Hl' & Hout & Hdom');
    [done|done|rewrite (size_nodes _ ps) by done; lia|] end.
  rewrite Hhd in E. rewrite (bind_done _ _ _ _ _ E). krun. ncbn. eexists. split; [done|].
  split; [|split; [cbn; lia|]].
  - unfold net_at. ncbn. rewrite keys_clear. by rewrite Hdom'.
  - intros L HL. unfold net_held. ncbn. rewrite Hdom'. do 3 (apply holds_nothing; [done|]). exact HL.
Qed.

Lemma run_op_at o ps es w :
  net_at ps es w -> op_ok o -> (forall tr c, kret tr (KmemCacheAlloc c) <> 0) ->
  exists w', run_op o w = (Done (spec_op o es).2, w') /\
    (exists qs, net_at (ps ++ qs) (spec_op o es).1 w') /\
    lock_depth (log w') = lock_depth (log w) /\
    (forall L, net_held L w -> net_held L w').
Proof.
  intros Hi Ho Ha. destruct o as [b|len|pos room]; cbn [run_op spec_op fst snd].
  - destruct (hook_run_at ps es b w) as (w1 & E & H); [done..|]. rewrite (bind_done _ _ _ _ _ E). by eexists.
  - destruct (net_write_at len ps es w) as (w1 & E & Hi1 & H); [done|]. rewrite (bind_done _ _ _ _ _ E).
    eexists. split; [done|]. split; [exists []; by rewrite app_nil_r|done].
  - destruct es as [|e0 es]; [by destruct ps, Hi as (? & ? & ? & ? & _)|].
    unfold my_open. krun.
    destruct (seq_fill_run pos room e0 es w (ex_intro _ ps Hi)) as (w' & E & Hg & Hb & Hlk). rewrite E.
    exists w'. split; [done|]. split; [|done]. exists []. rewrite app_nil_r. unfold net_at. by rewrite Hg, Hb.
Qed.

Lemma run_ops_at os ps es w :
  net_at ps es w -> Forall op_ok os -> (forall tr c, kret tr (KmemCacheAlloc c) <> 0) ->
  exists w', run_ops os w = (Done (spec_ops os es).2, w') /\
    (exists qs, net_at (ps ++ qs) (spec_ops os es).1 w') /\
    lock_depth (log w') = lock_depth (log w) /\
    (forall L, net_held L w -> net_held L w').
Proof.
  intros Hi Hos Ha. revert ps es w Hi. induction Hos as [|o os Ho Hos IH]; intros ps es w Hi.
  { eexists. split; [done|]. split; [exists []; by rewrite app_nil_r|done]. }
  cbn [run_ops spec_ops]. destruct (run_op_at o ps es w) as (w1 & E & [qs Hi1] & Hl1 & Hh1); [done..|].
  rewrite (bind_done _ _ _ _ _ E). destruct (spec_op o es) as [es1 x].
  destruct (IH _ _ _ Hi1) as (w2 & E2 & [qs2 Hi2] & Hl2 & Hh2). rewrite (bind_done _ _ _ _ _ E2).
  cbn [fst snd] in *. destruct (spec_ops os es1) as [es2 xs]. rewrite <- app_assoc in Hi2.
  exists w2. split_and!; [done|by eexists|congruence|]. eauto.
Qed.

Lemma run_ops_refine os es w :
  net_inv es w -> Forall op_ok os -> (forall tr c, kret tr (KmemCacheAlloc c) <> 0) ->
  exists w', run_ops os w = (Done (spec_ops os es).2, w') /\ net_inv (spec_ops os es).1 w' /\
    lock_depth (log w') = lock_depth (log w) /\
    (forall L, net_held L w -> net_held L w').
Proof.
  intros [ps Hi] Hos Ha. destruct (run_ops_at os ps es w Hi Hos Ha) as (w' & E & [qs Hi'] & H).
  exists w'. split_and!; [done|by eexists|apply H..].
Qed.
End Object.

(** ** Properties *)

Section Properties.
Context {ENV : Env} {FMT : FormatIPv4}.
Implicit Types (w : world net) (b : sk_buff).

(** Freeing a well-formed list gives back every node. *)
Lemma cleanup_list_run es w L :
  net_inv es w ->
  net_held (RProc "net_proc" 0 :: L) w ->
  exists w', cleanup_list w = (Done tt, w') /\ holds (log w') L /\
    nodes (glob w') = ∅ /\ root (glob w') = root (glob w) /\ root (glob w) <> 0.
Proof.
  intros (ps & Hl & Hnd & Hhd & Hlast & Hdom & Hk & Hb) Hh. unfold net_held in Hh.
  rewrite Hdom in Hh. rewrite (elements_list_to_set (C := gset Z) ps Hnd) in Hh.
  unfold cleanup_list. krun. ncbn.
  match goal with |- context [(free ?f _ ≫= _) ?w1] =>
    destruct (free_run f ps es w1 (RCache (packet_node_cache (glob w)) :: L)) as (w2 & E & Hh2 & Hg2 & Hm);
    [done|done|rewrite (size_nodes _ ps) by done; lia| |] end.
  { ncbn. eapply holds_release; [done|]. eapply holds_proper; [|exact Hh].
    rewrite !Permutation_middle. f_equiv. apply Permutation_swap. }
  rewrite Hhd in E. rewrite (bind_done _ _ _ _ _ E). krun. eexists. split; [done|]. ncbn.
  split; [by eapply holds_release|]. split; [|split].
  - apply map_eq. intros q. rewrite Hm, lookup_empty. case_decide as Hq; [done|].
    apply not_elem_of_dom. rewrite Hdom. by rewrite elem_of_list_to_set.
  - by rewrite Hg2.
  - rewrite <- Hhd. destruct ps as [|p ps], es; try done. apply Hl.
Qed.

(** C1 The module implements its table: loaded on a machine where the
    allocations of the cache and of its nodes, the registration of the hook
    and the creation of the proc entry succeed, then given any sequence of IPv4
    packets (loopback ones included: the test that would skip them is
    commented out), clears and passes of readers, at any positions and with
    room for any number of lines, no handler faults or runs forever, every
    pass delivers the first lines of the specified table, as many as there is
    room for, the spinlock is released after each operation, and unloading
    gives back every resource the module took, all list nodes included. *)
Theorem net_module_refines w L :
  0 < brk w -> glob w = net_static -> holds (log w) L ->
  (forall tr c, kret tr (KmemCacheAlloc c) <> 0) ->
  (forall tr n s, kret tr (KmemCacheCreate n s) <> 0) ->
  (forall tr o hn pf pr, kret tr (NfRegisterHook o hn pf pr) = 0) ->
  (forall tr n m p, kret tr (ProcCreateData n m p) <> 0) ->
  exists w1, init_packet w = (Done 0, w1) /\
    forall os, Forall op_ok os ->
    exists w2, run_ops os w1 = (Done (spec_ops os empty_table).2, w2) /\
      lock_depth (log w2) = lock_depth (log w) /\
      exists w3, cleanup_packet w2 = (Done tt, w3) /\ holds (log w3) L.
Proof.
  intros Hb Hg Hh Hal Hcr Hhk Hpr.
  destruct (init_run w L) as (w1 & f & E & Hi & Hl & Hh1 & Hhd & _); [done..|]. specialize (Hh1 Hh).
  destruct Hhd as [tr ->]. rewrite (proj2 (Z.eqb_neq _ _) (Hpr tr _ _ _)) in E, Hh1.
  exists w1. split; [done|]. intros os Hos.
  destruct (run_ops_refine os empty_table w1) as (w2 & E2 & Hi2 & Hl2 & Hh2); [done..|].
  exists w2. split; [done|]. split; [congruence|]. unfold cleanup_packet.
  destruct (cleanup_list_run _ w2 (RHook "network_procfs" :: L) Hi2 (Hh2 _ Hh1)) as (w3 & E3 & Hh3 & _).
  rewrite (bind_done _ _ _ _ _ E3). krun. eexists. split; [done|]. by eapply holds_release.
Qed.

(** Adding one packet refines the table operation: from a well-formed list
    that represents [es], [add_to_list_network] ends in a well-formed list
    that represents [record s d es], with the lock released.  Memory is needed
    only for a source not yet in the table. *)
Theorem add_refines_record es s d w :
  net_inv es w -> no_nul s -> (length s <= 15)%nat ->
  (s ∉ keys es -> forall tr c, kret tr (KmemCacheAlloc c) <> 0) ->
  exists w', add_to_list_network s d w = (Done tt, w') /\ net_inv (record s d es) w' /\
    lock_depth (log w') = lock_depth (log w).
Proof.
  intros Hi Hn Hl Ha. destruct (add_run es s d w) as (w' & E & Hi' & Hk & _); [done..|]. by exists w'.
Qed.

(** C2 The statistics are exact, as long as the allocations of nodes succeed:
    from an empty table, after any sequence of IPv4 packets, the entry of a
    source, a loopback address like any other, holds the number of its packets
    (as an int) and the sum of their lengths (as a 64-bit integer), and a
    source without packets has no entry. *)
Theorem net_counts_sources bs w :
  net_inv empty_table w -> Forall ip_packet bs ->
  (forall tr c, kret tr (KmemCacheAlloc c) <> 0) ->
  exists es w', receive bs w = (Done tt, w') /\ net_inv es w' /\
    forall a, ipv4 a -> lookup_entry (pI4 a) es =
      if decide (from a bs = []) then None
      else Some (Entry (pI4 a) (s32 (Z.of_nat (length (from a bs)))) (s64 (volume (from a bs)))).
Proof.
  intros Hi Hbs Ha. destruct (receive_run bs empty_table w) as (w' & E & Hi' & _); [done..|].
  exists (table bs empty_table), w'. split; [done|]. split; [done|]. intros a. by apply table_counts.
Qed.

(** C23 [my_start] does not look at the position it is given: whatever the
    positions and the sizes of a reader's passes, each starts over at the
    first source of the table and delivers the first sources again, as many as
    there is room for.  Once a source is known no pass with room for a line is
    empty, so the reader meets no end of file, and a source behind the first
    ones that fit is never delivered. *)
Theorem net_read_never_ends fills e0 e1 es w :
  net_inv (e0 :: e1 :: es) w ->
  exists w', (ops ← my_open; seq_fills ops fills) w =
    (Done (map (fun f => map line (take f.2 (e1 :: es))) fills), w') /\
    net_inv (e0 :: e1 :: es) w' /\
    forall f, f ∈ fills -> f.2 <> O -> map line (take f.2 (e1 :: es)) <> [].
Proof.
  unfold my_open. krun. intros Hi.
  enough (exists w', seq_fills swaps_op fills w =
    (Done (map (fun f => map line (take f.2 (e1 :: es))) fills), w') /\
    net_inv (e0 :: e1 :: es) w') as (w' & E & Hi').
  { exists w'. split_and!; [done..|]. intros [pos [|room]] _; [done|]. by cbn. }
  revert w Hi. induction fills as [|[pos room] fills IH]; intros w Hi; [by exists w|].
  cbn [seq_fills map snd].
  destruct (seq_fill_run pos room e0 (e1 :: es) w Hi) as (w1 & E1 & Hg & Hb & _).
  destruct (IH w1) as (w2 & E2 & Hi2); [destruct Hi as [ps Hi]; exists ps; unfold net_at; by rewrite Hg, Hb|].
  exists w2. by rewrite (bind_done _ _ _ _ _ E1), (bind_done _ _ _ _ _ E2).
Qed.

(** C39 The unload order is wrong: when [cleanup_packet] has freed the list and
    destroyed the cache, the hook is still registered, and a packet that
    arrives then reads the freed head of the list and faults with the
    spinlock held. *)
Theorem net_unload_race es w L :
  net_inv es w -> net_held (RProc "net_proc" 0 :: RHook "network_procfs" :: L) w ->
  exists w1, cleanup_list w = (Done tt, w1) /\ holds (log w1) (RHook "network_procfs" :: L) /\
    forall b, exists w2,
      hook_func (Some b) w1 = (Oops (BadPointer (root (glob w))), w2) /\
      lock_depth (log w2) = lock_depth (log w1) + 1.
Proof.
  intros Hi Hh. destruct (cleanup_list_run es w _ Hi Hh) as (w1 & E & Hh1 & Hn & Hr & Hr0).
  exists w1. split; [done|]. split; [done|]. intros b. unfold hook_func, add_to_list_network.
  cbn [of_option]. krun. rewrite Hr, Hn, map_size_empty. cbn [find_loop].
  rewrite (proj2 (Z.eqb_neq _ _) Hr0). unfold node. rewrite (proj2 (Z.eqb_neq _ _) Hr0).
  krun. rewrite Hn, lookup_empty. cbn [of_option]. unfold oops.
  eexists. split; [reflexivity|]. cbn. lia.
Qed.

(** When no memory is left for a new source, the packet's handler
    dereferences NULL while it holds the spinlock. *)
Theorem net_alloc_failure_oops es b w :
  net_inv es w -> ip_packet b -> pI4 (saddr b) ∉ keys es ->
  (forall tr c, kret tr (KmemCacheAlloc c) = 0) ->
  exists w', hook_func (Some b) w = (Oops NullDeref, w') /\
    lock_depth (log w') = lock_depth (log w) + 1 /\ tail (glob w') = 0.
Proof.
  intros (ps & Hl & Hnd & Hhd & Hlast & Hdom & Hk & Hb) Hp Hin Ha.
  unfold hook_func, add_to_list_network. cbn [of_option]. krun. rewrite take_ge by (by apply pI4_length).
  match goal with |- context [(find_loop ?f _ _ _ ≫= _) ?w1] =>
    destruct (find_loop_run f ps es (pI4 (saddr b)) (s32 (data_len b)) w1) as (m & E & Hl' & _);
    [done..|ncbn; rewrite (size_nodes _ ps) by done; lia|] end.
  rewrite Hhd in E. cbn [glob with_event] in E. rewrite (bind_done _ _ _ _ _ E). clear E.
  rewrite bool_decide_eq_false_2 by done. cbn [negb]. unfold link_node, fill_node. krun. ncbn.
  assert (Ht : tail (glob w) ∈ ps) by (by apply last_Some_elem_of).
  destruct (linked_lookup _ _ _ _ Hl' Ht) as [nt Hnt].
  erewrite bind_done by (apply run_kmem_cache_alloc_null, Ha). krun.
  erewrite bind_done; [|eapply run_upd_node; [by eapply linked_nonzero|exact Hnt]].
  krun. eexists. split; [reflexivity|]. ncbn. cbn. split; [lia|done].
Qed.

(** When the proc entry cannot be created, [init_packet] returns -ENOMEM
    and leaves the hook registered and the cache and head node allocated. *)
Theorem net_init_failure_leaks w L :
  0 < brk w -> glob w = net_static -> holds (log w) L ->
  (forall tr c, kret tr (KmemCacheAlloc c) <> 0) ->
  (forall tr n s, kret tr (KmemCacheCreate n s) <> 0) ->
  (forall tr o hn pf pr, kret tr (NfRegisterHook o hn pf pr) = 0) ->
  (forall tr n m p, kret tr (ProcCreateData n m p) = 0) ->
  exists w', init_packet w = (Done (- ENOMEM), w') /\
    net_inv empty_table w' /\ net_held (RHook "network_procfs" :: L) w'.
Proof.
  intros Hb Hg Hh Hal Hcr Hhk Hpr.
  destruct (init_run w L) as (w1 & f & E & Hi & _ & Hh1 & [tr ->] & _); [done..|]. specialize (Hh1 Hh).
  rewrite Hpr in E, Hh1. by exists w1.
Qed.
End Properties.

(** ** Concrete runs *)

Definition idle_net : world net := World ∅ 1 ∅ [] net_static.

(** 10.0.0.1 sends 100 and 1948 bytes, 8.8.8.8 sends 5. *)
Definition demo_packets : list sk_buff :=
  [SkBuff [10; 0; 0; 1] 100; SkBuff [8; 8; 8; 8] 5; SkBuff [10; 0; 0; 1] 1948].

Lemma demo_packets_ok : Forall ip_packet demo_packets.
Proof. repeat constructor; cbn; unfold is_byte; lia. Qed.

Definition demo_net : world net := (init_packet (ENV := calm) idle_net).2.

(** A loaded module that has not seen a packet. *)
Lemma demo_net_inv : net_inv empty_table demo_net.
Proof.
  exists [1]. vm_compute. split_and!; try done.
  - eexists. split; [reflexivity|]. split_and!; reflexivity.
  - repeat constructor. set_solver.
  - repeat constructor. set_solver.
  - intros p Hp. apply list_elem_of_singleton in Hp as ->. done.
Qed.

Lemma net_module_refines_witness :
  exists w1, init_packet (ENV := calm) idle_net = (Done 0, w1) /\
    exists w2, run_ops (ENV := calm) (map Packet demo_packets ++ [Read 0 8; Clear 1; Read 2 1; Read 7 9]) w1 =
      (Done [[]; []; [];
             [line (Entry (str "10.0.0.1") 2 2048); line (Entry (str "8.8.8.8") 1 5)]; [];
             [line (Entry (str "10.0.0.1") 0 0)];
             [line (Entry (str "10.0.0.1") 0 0); line (Entry (str "8.8.8.8") 0 0)]], w2) /\
      lock_depth (log w2) = 0 /\
      exists w3, cleanup_packet w2 = (Done tt, w3) /\ holds (log w3) [].
Proof.
  destruct (net_module_refines (ENV := calm) idle_net []) as (w1 & E & H);
    [done|done|by exists []|done..|].
  exists w1. split; [exact E|]. apply (H (map Packet demo_packets ++ [Read 0 8; Clear 1; Read 2 1; Read 7 9])).
  repeat constructor; cbn; unfold is_byte; lia.
Defined.

Lemma demo_text : no_nul (str "10.0.0.1").
Proof. unfold no_nul. cbn. repeat (constructor; [lia|]). constructor. Qed.

Lemma add_refines_record_witness :
  exists w', add_to_list_network (ENV := calm) (str "10.0.0.1") 7 demo_net = (Done tt, w') /\
    net_inv [Entry [] 0 0; Entry (str "10.0.0.1") 1 7] w' /\ lock_depth (log w') = 0.
Proof.
  apply (add_refines_record (ENV := calm) empty_table (str "10.0.0.1") 7 demo_net demo_net_inv).
  - exact demo_text.
  - cbn. lia.
  - done.
Defined.

Lemma net_counts_sources_witness :
  exists es w', receive (ENV := calm) demo_packets demo_net = (Done tt, w') /\ net_inv es w' /\
    lookup_entry (str "10.0.0.1") es = Some (Entry (str "10.0.0.1") 2 2048).
Proof.
  destruct (net_counts_sources (ENV := calm) demo_packets demo_net demo_net_inv demo_packets_ok)
    as (es & w' & E & Hi & H); [done|].
  exists es, w'. split; [exact E|]. split; [exact Hi|].
  exact (H [10; 0; 0; 1] ltac:(split; [done|repeat constructor; cbn; unfold is_byte; lia])).
Defined.

(** One packet has been seen. *)
Definition seen_net : world net :=
  (add_to_list_network (ENV := calm) (str "10.0.0.1") 7 demo_net).2.

Lemma seen_net_inv : net_inv [Entry [] 0 0; Entry (str "10.0.0.1") 1 7] seen_net.
Proof.
  destruct (add_run (ENV := calm) empty_table (str "10.0.0.1") 7 demo_net demo_net_inv)
    as (w' & E & Hi & _); [exact demo_text|cbn; lia|done|].
  unfold seen_net. by rewrite E.
Qed.

Lemma net_read_never_ends_witness :
  exists w', (ops ← my_open; seq_fills ops [(0, 4%nat); (1, 4%nat); (2, 1%nat)]) seen_net =
    (Done (replicate 3 [line (Entry (str "10.0.0.1") 1 7)]), w').
Proof.
  destruct (net_read_never_ends [(0, 4%nat); (1, 4%nat); (2, 1%nat)] _ _ _ seen_net seen_net_inv)
    as (w' & E & _). by exists w'.
Defined.

Lemma demo_net_held : net_held [RProc "net_proc" 0; RHook "network_procfs"] demo_net.
Proof. eexists. split; [vm_compute; reflexivity|]. vm_compute. perm_solve. Qed.

Lemma net_unload_race_witness :
  exists w1, cleanup_list demo_net = (Done tt, w1) /\ holds (log w1) [RHook "network_procfs"] /\
    exists w2, hook_func (ENV := calm) (Some (SkBuff [10; 0; 0; 1] 100)) w1 = (Oops (BadPointer 1), w2).
Proof.
  destruct (net_unload_race (ENV := calm) empty_table demo_net [] demo_net_inv demo_net_held)
    as (w1 & E & Hh & H). exists w1. split; [exact E|]. split; [exact Hh|].
  destruct (H (SkBuff [10; 0; 0; 1] 100)) as (w2 & E2 & _). by exists w2.
Defined.

(** The slab allocator is out of memory. *)
Definition no_slab : Env :=
  {| kret _ c := match c with KmemCacheAlloc _ => 0 | _ => calm_ret c end; kjunk _ _ := 0 |}.

Lemma net_alloc_failure_oops_witness :
  exists w', hook_func (ENV := no_slab) (Some (SkBuff [10; 0; 0; 1] 100)) demo_net = (Oops NullDeref, w') /\
    lock_depth (log w') = lock_depth (log demo_net) + 1 /\ tail (glob w') = 0.
Proof.
  apply (net_alloc_failure_oops (ENV := no_slab) empty_table (SkBuff [10; 0; 0; 1] 100) demo_net demo_net_inv).
  - split; [done|]. repeat constructor; cbn; unfold is_byte; lia.
  - cbn. set_solver.
  - done.
Defined.

(** No proc entry can be created. *)
Definition no_proc : Env :=
  {| kret _ c := match c with ProcCreateData _ _ _ => 0 | _ => calm_ret c end; kjunk _ _ := 0 |}.

Lemma net_init_failure_leaks_witness :
  exists w', init_packet (ENV := no_proc) idle_net = (Done (- ENOMEM), w') /\
    net_inv empty_table w' /\ net_held [RHook "network_procfs"] w'.
Proof.
  apply (net_init_failure_leaks (ENV := no_proc) idle_net []); [done|done|by exists []|done..].
Defined.
