(* ===== verification/KeyLog.v ===== *)
(** * The key logger (src/keyboard_interrupt_misc_device.c)

    /dev/keylog: [keylog_open] installs an interrupt handler, [keylog_read]
    allocates a buffer and sleeps until the handler has stored as many scan
    codes as the reader asked for, [keylog_close] removes the handler and
    unloading waits for it.

    Three agents share the globals: the reader, the interrupt handler and the
    unloading task.  What happens while the reader sleeps is an explicit
    schedule of interrupts, signals and moments at which the scheduler gives
    the reader the processor; [wait_event] runs it. *)

From stdpp Require Import base gmap list numbers list_numbers strings.
From Stdlib Require Import ZArith Lia.
From S2P Require Import Prelude Kernel Uaccess Lifecycle.

Definition ERESTARTSYS : Z := 512.
Definition IRQ_NONE : Z := 0.
Definition IRQ_HANDLED : Z := 1.

Inductive intr_cause := NO_EVENT | INCOMING_DATA | OUT_OF_BAND.

(** The globals: the module parameter, the buffer and the keys still wanted,
    the ports of [struct my_device], the interrupt count, the counter of the
    completion, and whether the sleeping reader has been woken. *)
Record keylog := Keylog {
  irq : Z;
  kbuf : Z;
  keys : Z;
  data_port : Z;
  status_port : Z;
  intr_registered : Z;
  kbd_complete : Z;
  woken : bool;
}.

Definition set_kbuf (p : Z) (g : keylog) :=
  Keylog (irq g) p (keys g) (data_port g) (status_port g) (intr_registered g) (kbd_complete g) (woken g).
Definition set_keys (n : Z) (g : keylog) :=
  Keylog (irq g) (kbuf g) n (data_port g) (status_port g) (intr_registered g) (kbd_complete g) (woken g).
Definition set_ports (d s : Z) (g : keylog) :=
  Keylog (irq g) (kbuf g) (keys g) d s (intr_registered g) (kbd_complete g) (woken g).
Definition set_registered (n : Z) (g : keylog) :=
  Keylog (irq g) (kbuf g) (keys g) (data_port g) (status_port g) n (kbd_complete g) (woken g).
Definition set_complete (n : Z) (g : keylog) :=
  Keylog (irq g) (kbuf g) (keys g) (data_port g) (status_port g) (intr_registered g) n (woken g).
Definition set_woken (b : bool) (g : keylog) :=
  Keylog (irq g) (kbuf g) (keys g) (data_port g) (status_port g) (intr_registered g) (kbd_complete g) b.

Definition keylog_static : keylog := Keylog 1 0 0 0 0 0 0 false.

(** The address of the static [device], the cookie of the handler. *)
Definition device : Z := 1.

(** The slab allocator hands out at least what was asked for. *)
Class Slab := {
  ksize : Z -> Z;
  ksize_enough n : 0 <= n -> n <= ksize n;
}.

(** What may happen while the reader sleeps. *)
Inductive happening := Interrupt | Signal | Resume.

Section Driver.
Context {ENV : Env} {UA : Uaccess} {SLAB : Slab}.

Definition testirq_read_intr_cause_register : intr_cause := INCOMING_DATA.

Definition testirq_handler (irq : Z) : K keylog Z :=
  printk "Got interrupt on IRQ %d\n" [PInt irq];;
  match testirq_read_intr_cause_register with
  | NO_EVENT => mret IRQ_NONE
  | INCOMING_DATA =>
      g ← get;
      st ← call (Inb (status_port g));
      sc ← call (Inb (data_port g));
      let status := u8 st in
      let scancode := u8 sc in
      printk "handler called for IRQ %d, status = %x\n" [PInt irq; PInt status];;
      printk "Scan Code %x %s.\n"
        [PInt (Z.land scancode 127);
         PStr (str (if Z.land scancode 128 =? 0 then "Pressed" else "Released"))];;
      g ← get;
      (if negb (kbuf g =? 0) then
         store (kbuf g) (keys g) scancode;;
         modify (fun g => set_keys (s32 (keys g - 1)) g);;
         g ← get;
         if keys g =? 0 then docall WakeUpInterruptible;; modify (set_woken true) else mret tt
       else mret tt);;
      mret IRQ_HANDLED
  | OUT_OF_BAND =>
      printk "Got an out of band event.\n" [];; mret IRQ_HANDLED
  end.

Definition keylog_open : K keylog Z :=
  g ← get;
  printk "Installing IRQ handler for %d\n" [PInt (irq g)];;
  modify (set_ports 96 100);;
  ret ← call (RequestIrq (irq g) device);
  (if negb (ret =? 0) then printk "failed to register interrupt handler\n" []
   else printk "interrupt handler registered.\n" []);;
  modify (fun g => set_registered (s32 (intr_registered g + 1)) g);;
  docall InitCompletion;;
  modify (set_complete 0);;
  mret 0.

Definition keylog_close : K keylog Z :=
  g ← get;
  printk "Freeing interrupt handler on IRQ %d\n" [PInt (irq g)];;
  docall (FreeIrq (irq g) device);;
  modify (fun g => set_registered (s32 (intr_registered g - 1)) g);;
  docall Complete;;
  modify (fun g => set_complete (kbd_complete g + 1) g);;
  mret 0.

(** [kmalloc] with the size the allocator really hands out. *)
Definition kmalloc_slab (len : Z) : K keylog Z := fun w =>
  if kret (log w) (Kmalloc len) =? 0
  then (Done 0, with_event (Kmalloc len, 0) w)
  else (Done (brk w),
        with_event (Kmalloc len, brk w)
          (with_brk (brk w + 1)
             (with_heap (<[brk w := map (kjunk (log w)) (seqZ 0 (ksize len))]> (heap w)) w))).

(** The sleeping reader: [None] when it still sleeps at the end of the
    schedule. *)
Fixpoint sleep (sched : list happening) : K keylog (option Z) :=
  match sched with
  | [] => mret None
  | Interrupt :: s => g ← get; testirq_handler (irq g);; sleep s
  | Signal :: s => mret (Some (- ERESTARTSYS))
  | Resume :: s =>
      g ← get;
      if woken g then
        modify (set_woken false);;
        if keys g =? 0 then mret (Some 0) else sleep s
      else sleep s
  end.

(** [wait_event_interruptible(key_wait, keys == 0)] *)
Definition wait_event (sched : list happening) : K keylog (option Z) :=
  g ← get;
  if keys g =? 0 then mret (Some 0) else modify (set_woken false);; sleep sched.

(** [keylog_read] after the wait: the result and the new file position, [None]
    while the call sleeps. *)
Definition read_finish (buf len off : Z) (r : option Z) : K keylog (option (Z * Z)) :=
  match r with
  | None => mret None
  | Some ret =>
      if negb (ret =? 0) then mret (Some (ret, off))
      else
        g ← get;
        bs ← loads (kbuf g) 0 len;
        left ← send_user buf bs;
        if negb (s32 left =? 0) then mret (Some (- EFAULT, off))
        else kfree (kbuf g);; mret (Some (s32 len, off + len))
  end.

(** [keylog_read] before the wait. *)
Definition read_start (len : Z) : K keylog unit :=
  p ← kmalloc_slab len;
  modify (set_kbuf p);;
  modify (set_keys (s32 len)).

Definition keylog_read (sched : list happening) (buf len off : Z) : K keylog (option (Z * Z)) :=
  read_start len;;
  wait_event sched ≫= read_finish buf len off.

Definition keylog_driver_init : K keylog Z :=
  ret ← call (MiscRegister "keylog");
  (if negb (ret =? 0) then printk "failed to register keylog device\n" []
   else printk "keylog device driver registered.\n" []);;
  mret ret.

(** [None] while [wait_for_completion] blocks. *)
Definition keylog_driver_exit : K keylog (option unit) :=
  g ← get;
  if negb (intr_registered g =? 0) && (kbd_complete g <=? 0) then
    docall WaitForCompletion;; mret None
  else
    (if negb (intr_registered g =? 0) then
       docall WaitForCompletion;; modify (set_complete (kbd_complete g - 1))
     else mret tt);;
    docall (MiscDeregister "keylog");;
    printk "keylog device driver unregistered.\n" [];;
    mret (Some tt).
End Driver.

(** ** Runs *)

(** The scan codes read from the keyboard's data port so far, newest first. *)
Definition scancodes (tr : trace) : list Z :=
  omap (fun e => match e.1 with Inb p => if p =? 96 then Some (u8 e.2) else None | _ => None end) tr.

(** The handler is installed and [b] is the reader's buffer. *)
Definition logging (b : list Z) (w : world keylog) : Prop :=
  kbuf (glob w) <> 0 /\ heap w !! kbuf (glob w) = Some b /\
  data_port (glob w) = 96 /\ status_port (glob w) = 100.

Ltac lcbn := cbn [irq kbuf keys data_port status_port intr_registered kbd_complete woken
  set_kbuf set_keys set_ports set_registered set_complete set_woken
  heap brk user log glob with_heap with_brk with_user with_event with_glob] in *.

Section Runs.
Context {ENV : Env} {UA : Uaccess} {SLAB : Slab}.
Implicit Types w : world keylog.

(** One key: its code goes to slot [keys] of the buffer. *)
Lemma handler_run b w i :
  logging b w -> 0 <= keys (glob w) < Z.of_nat (length b) -> keys (glob w) < 2 ^ 31 ->
  exists c w', testirq_handler i w = (Done IRQ_HANDLED, w') /\
    logging (<[Z.to_nat (keys (glob w)) := c]> b) w' /\
    scancodes (log w') = c :: scancodes (log w) /\
    keys (glob w') = keys (glob w) - 1 /\
    woken (glob w') = (if keys (glob w) =? 1 then true else woken (glob w)) /\
    kbuf (glob w') = kbuf (glob w) /\ user w' = user w /\
    (forall L, holds (log w) L -> holds (log w') L).
Proof.
  intros (Hp & Hb & Hd & Hs) Hk Hk31. unfold testirq_handler. cbn [testirq_read_intr_cause_register].
  krun. rewrite (proj2 (Z.eqb_neq _ _) Hp). cbn [negb]. rewrite Hd, Hs. krun.
  erewrite bind_done; [|eapply run_store; [done|exact Hb|by apply aset_in]]. krun. lcbn.
  rewrite (wrapS_small 32) by lia.
  destruct (Z.eqb_spec (keys (glob w) - 1) 0) as [E|E]; krun;
    [rewrite (proj2 (Z.eqb_eq (keys (glob w)) 1)) by lia
    |rewrite (proj2 (Z.eqb_neq (keys (glob w)) 1)) by lia];
    (eexists _, _; split; [reflexivity|]; unfold logging; lcbn; rewrite lookup_insert_eq;
     split_and!; try done; intros L HL; ledger_auto).
Qed.

(** [n] keys, written downwards from slot [keys]. *)
Lemma keys_run n b w s :
  logging b w -> Z.of_nat n <= keys (glob w) < Z.of_nat (length b) -> keys (glob w) < 2 ^ 31 ->
  exists ks w', sleep (replicate n Interrupt ++ s) w = sleep s w' /\ length ks = n /\
    logging (take (Z.to_nat (keys (glob w)) + 1 - n) b ++ ks ++ drop (Z.to_nat (keys (glob w)) + 1) b) w' /\
    scancodes (log w') = ks ++ scancodes (log w) /\
    keys (glob w') = keys (glob w) - Z.of_nat n /\
    woken (glob w') = (if (keys (glob w) =? Z.of_nat n) && negb (n =? 0)%nat then true else woken (glob w)) /\
    kbuf (glob w') = kbuf (glob w) /\ user w' = user w /\
    (forall L, holds (log w) L -> holds (log w') L).
Proof.
  revert b w. induction n as [|n IH]; intros b w Hl Hk Hk31.
  { exists [], w. split; [done|]. split_and!; try done.
    - rewrite Nat.sub_0_r. by rewrite app_nil_l, take_drop.
    - lia.
    - by rewrite andb_false_r. }
  destruct (handler_run b w (irq (glob w)) Hl) as (c & w1 & E & Hl1 & Hs1 & Hk1 & Hw1 & Hp1 & Hu1 & Hh1);
    [lia|lia|].
  set (i := Z.to_nat (keys (glob w))) in *.
  destruct (IH (<[i := c]> b) w1) as (ks & w2 & E2 & Hlen & Hl2 & Hs2 & Hk2 & Hw2 & Hp2 & Hu2 & Hh2);
    [done|rewrite length_insert; lia|lia|].
  exists (ks ++ [c]), w2. cbn [replicate app sleep]. krun. rewrite (bind_done _ _ _ _ _ E), E2.
  split; [done|]. split; [rewrite length_app; simpl; lia|]. split_and!.
  - rewrite Hk1 in Hl2. replace (Z.to_nat (keys (glob w) - 1) + 1)%nat with i in Hl2 by lia.
    rewrite take_insert_ge in Hl2 by lia. replace (i + 1 - S n)%nat with (i - n)%nat by lia.
    assert (drop i (<[i := c]> b) = c :: drop (i + 1) b) as Hd.
    { rewrite (drop_S _ c) by (apply list_lookup_insert_eq; lia).
      rewrite drop_insert_lt by lia. f_equal. f_equal. lia. }
    rewrite Hd in Hl2. by rewrite <- app_assoc.
  - rewrite Hs2, Hs1, <- app_assoc. done.
  - lia.
  - rewrite Hw2, Hw1, Hk1. destruct n as [|n]; simpl.
    + rewrite andb_false_r, andb_true_r. done.
    + destruct (Z.eqb_spec (keys (glob w)) 1); [lia|].
      destruct (Z.eqb_spec (keys (glob w) - 1) (Z.of_nat (S n)));
      destruct (Z.eqb_spec (keys (glob w)) (Z.of_nat (S (S n)))); try lia; done.
  - congruence.
  - congruence.
  - eauto.
Qed.

Lemma take_shifted n (x : Z) ks r :
  (0 < n)%nat -> length ks = n -> take n (x :: ks ++ r) = x :: take (n - 1) ks.
Proof.
  intros Hn Hk. destruct n as [|n]; [lia|]. cbn [take]. f_equal.
  rewrite take_app_le by lia. f_equal. lia.
Qed.

(** The reader before it sleeps: a fresh buffer, [len] keys wanted. *)
Lemma start_run len w sched :
  0 < brk w -> data_port (glob w) = 96 -> status_port (glob w) = 100 ->
  0 < len < 2 ^ 31 -> kret (log w) (Kmalloc len) <> 0 ->
  exists w1, logging (map (kjunk (log w)) (seqZ 0 (ksize len))) w1 /\
    keys (glob w1) = len /\ kbuf (glob w1) = brk w /\ woken (glob w1) = false /\
    user w1 = user w /\ scancodes (log w1) = scancodes (log w) /\
    (forall L, holds (log w) L -> holds (log w1) (RMem (brk w) :: L)) /\
    brk w1 = brk w + 1 /\ log w1 = (Kmalloc len, brk w) :: log w /\
    (read_start len;; wait_event sched) w = sleep sched w1.
Proof.
  intros Hb Hd Hs Hlen Hk. unfold read_start, kmalloc_slab. krun.
  erewrite bind_done by (rewrite (proj2 (Z.eqb_neq _ _) Hk); reflexivity).
  unfold wait_event. krun. lcbn. rewrite (wrapS_small 32) by lia.
  rewrite (proj2 (Z.eqb_neq len 0)) by lia. krun.
  eexists. split_and!; cycle -1; [reflexivity|..]; lcbn; try done.
  - split; lcbn; [lia|]. by rewrite lookup_insert_eq.
  - intros L HL. ledger_auto.
Qed.

Lemma read_begin len w sched buf off :
  0 < brk w -> data_port (glob w) = 96 -> status_port (glob w) = 100 ->
  0 < len < 2 ^ 31 -> kret (log w) (Kmalloc len) <> 0 ->
  exists w1, logging (map (kjunk (log w)) (seqZ 0 (ksize len))) w1 /\
    keys (glob w1) = len /\ kbuf (glob w1) = brk w /\ woken (glob w1) = false /\
    user w1 = user w /\ scancodes (log w1) = scancodes (log w) /\
    (forall L, holds (log w) L -> holds (log w1) (RMem (brk w) :: L)) /\
    keylog_read sched buf len off w =
    (sleep sched ≫= read_finish buf len off) w1.
Proof.
  intros Hb Hd Hs Hlen Hk. destruct (start_run len w sched Hb Hd Hs Hlen Hk)
    as (w1 & Hl1 & Hk1 & Hp1 & Hw1 & Hu1 & Hs1 & Hh1 & _ & _ & E).
  exists w1. split_and!; [done..|]. unfold keylog_read. rewrite <- bind_assoc.
  unfold mbind at 1, K_bind at 1. by rewrite E.
Qed.

(** The whole call, when the allocator leaves room for one more byte. *)
Lemma keylog_read_run len w buf off old :
  0 < brk w -> data_port (glob w) = 96 -> status_port (glob w) = 100 ->
  0 < len < 2 ^ 31 -> kret (log w) (Kmalloc len) <> 0 -> len < ksize len ->
  ubytes (user w) buf (Z.to_nat len) = Some old ->
  exists ks w',
    keylog_read (replicate (Z.to_nat len) Interrupt ++ [Resume]) buf len off w =
      (Done (Some (len, off + len)), w') /\
    length ks = Z.to_nat len /\ scancodes (log w') = ks ++ scancodes (log w) /\
    user w' = uwrite (user w) buf (kjunk (log w) 0 :: take (Z.to_nat len - 1) ks) /\
    kbuf (glob w') = brk w /\ heap w' !! brk w = None /\ keys (glob w') = 0 /\
    (forall L, holds (log w) L -> holds (log w') L).
Proof.
  intros Hb Hd Hs Hlen Hk Hroom Hmap.
  destruct (read_begin len w (replicate (Z.to_nat len) Interrupt ++ [Resume]) buf off)
    as (w1 & Hl1 & Hk1 & Hp1 & Hw1 & Hu1 & Hs1 & Hh1 & ->); [done..|].
  set (b := map _ _) in Hl1. assert (Hblen : length b = Z.to_nat (ksize len)).
  { unfold b. by rewrite length_map, length_seqZ. }
  destruct (keys_run (Z.to_nat len) b w1 [Resume]) as (ks & w2 & E & Hn & Hl2 & Hs2 & Hk2 & Hw2 & Hp2 & Hu2 & Hh2);
    [done|lia|lia|].
  assert (Hbuf : take (Z.to_nat (keys (glob w1)) + 1 - Z.to_nat len) b = [kjunk (log w) 0]).
  { rewrite Hk1. replace (Z.to_nat len + 1 - Z.to_nat len)%nat with 1%nat by lia.
    unfold b. rewrite seqZ_cons by lia. done. }
  rewrite Hbuf in Hl2. destruct Hl2 as (Hp & Hbl & _). cbn [app] in Hbl.
  rewrite Hk1, Z2Nat.id in Hk2, Hw2 by lia. rewrite Z.eqb_refl in Hw2.
  replace (Z.to_nat len =? 0)%nat with false in Hw2 by (symmetry; apply Nat.eqb_neq; lia).
  cbn [andb negb] in Hw2.
  erewrite bind_done; [|rewrite E; cbn [sleep]; krun; rewrite Hw2; krun;
    rewrite Hk2, Z.sub_diag; reflexivity].
  cbn [read_finish]. krun. lcbn. erewrite bind_done; [|eapply run_loads; [done|exact Hbl|lia|lia|]]; cycle 1.
  { cbn [length]. rewrite length_app. lia. }
  change (Z.to_nat 0) with 0%nat. rewrite drop_0, take_shifted by lia. krun. lcbn. set (out := _ :: take _ _).
  rewrite Hu2, Hu1. rewrite (copy_to_user_ok (user w) buf out old); cycle 1.
  { unfold out. cbn [length]. rewrite length_take, Hn. rewrite <- Hmap. f_equal. lia. }
  cbn [fst snd]. rewrite (wrapS_small 32 0) by lia. krun.
  erewrite bind_done; [|eapply run_kfree; [done|exact Hbl]]. krun.
  rewrite (wrapS_small 32 len) by lia. eexists ks, _. split; [reflexivity|]. lcbn. split_and!.
  - done.
  - rewrite <- Hs1. cbn. exact Hs2.
  - done.
  - congruence.
  - rewrite Hp2, Hp1. apply lookup_delete_eq.
  - lia.
  - intros L HL. apply Hh1, Hh2 in HL. eapply holds_release; [|exact HL].
    cbn [effect_of]. rewrite (proj2 (Z.eqb_neq _ _) Hp). by rewrite Hp2, Hp1.
Qed.
(** A key when [keys] is not an index of the buffer. *)
Lemma handler_overrun b w i :
  logging b w -> ~ (0 <= keys (glob w) < Z.of_nat (length b)) ->
  exists w', testirq_handler i w = (Oops (OutOfBounds (keys (glob w))), w').
Proof.
  intros (Hp & Hb & _ & _) Hk. unfold testirq_handler. cbn [testirq_read_intr_cause_register]. krun.
  rewrite (proj2 (Z.eqb_neq _ _) Hp). cbn [negb]. krun. unfold store. krun. kstep run_block.
  rewrite aset_out by done. by eexists.
Qed.

(** One key too many before the reader runs. *)
Lemma late_run len w buf off t :
  0 < brk w -> data_port (glob w) = 96 -> status_port (glob w) = 100 ->
  0 < len < 2 ^ 31 -> kret (log w) (Kmalloc len) <> 0 -> len < ksize len ->
  exists w3 b, logging b w3 /\ keys (glob w3) = -1 /\
    keylog_read (replicate (Z.to_nat len) Interrupt ++ Interrupt :: Resume :: t) buf len off w =
    (sleep t ≫= read_finish buf len off) w3.
Proof.
  intros Hb Hd Hs Hlen Hk Hroom.
  destruct (read_begin len w (replicate (Z.to_nat len) Interrupt ++ Interrupt :: Resume :: t) buf off)
    as (w1 & Hl1 & Hk1 & Hp1 & Hw1 & _ & _ & _ & ->); [done..|].
  destruct (keys_run (Z.to_nat len) _ w1 (Interrupt :: Resume :: t) Hl1)
    as (ks & w2 & E & Hn & Hl2 & _ & Hk2 & Hw2 & _); [rewrite length_map, length_seqZ; lia|lia|].
  rewrite Hk1 in Hk2. replace (len - Z.of_nat (Z.to_nat len)) with 0 in Hk2 by lia.
  destruct (handler_run _ w2 (irq (glob w2)) Hl2) as (c & w3 & E3 & Hl3 & _ & Hk3 & Hw3 & _);
    [rewrite Hk2, !length_app, length_take, length_map, length_seqZ; lia|lia|].
  rewrite Hk2 in Hw3, Hk3. cbn in Hw3. rewrite Hw2, Hk1, Z2Nat.id, Z.eqb_refl in Hw3 by lia.
  replace (Z.to_nat len =? 0)%nat with false in Hw3 by (symmetry; apply Nat.eqb_neq; lia).
  cbn [negb andb] in Hw3.
  eexists (with_glob (set_woken false (glob w3)) w3), _. split; [exact Hl3|]. split; [exact Hk3|].
  unfold mbind at 1, K_bind at 1. rewrite E. cbn [sleep]. krun. rewrite (bind_done _ _ _ _ _ E3).
  krun. rewrite Hw3. krun. by rewrite Hk3.
Qed.
End Runs.

(** ** Properties *)

Section Properties.
Context {ENV : Env} {UA : Uaccess} {SLAB : Slab}.
Implicit Types w : world keylog.

(** The driver is open and can allocate a buffer of [len] bytes. *)
Definition ready (len : Z) w : Prop :=
  0 < brk w /\ data_port (glob w) = 96 /\ status_port (glob w) = 100 /\
  0 < len < 2 ^ 31 /\ kret (log w) (Kmalloc len) <> 0.

(** C18 What a reader of [len] keys gets, when the allocator's rounding hides
    the write past the end of the buffer: the codes arrive in reverse order
    (here [ks] is newest first), the first key typed is missing, and the first
    byte is whatever the allocated memory held before.  The call returns
    [len], and gives its buffer back. *)
Theorem keylog_read_reversed len w buf off old L :
  ready len w -> len < ksize len -> ubytes (user w) buf (Z.to_nat len) = Some old ->
  holds (log w) L ->
  exists ks w',
    keylog_read (replicate (Z.to_nat len) Interrupt ++ [Resume]) buf len off w =
      (Done (Some (len, off + len)), w') /\
    length ks = Z.to_nat len /\ scancodes (log w') = ks ++ scancodes (log w) /\
    user w' = uwrite (user w) buf (kjunk (log w) 0 :: take (Z.to_nat len - 1) ks) /\
    holds (log w') L.
Proof.
  intros (Hb & Hd & Hs & Hlen & Hk) Hroom Hmap HL.
  destruct (keylog_read_run len w buf off old) as (ks & w' & E & Hn & Hsc & Hu & _ & _ & _ & Hh); [done..|].
  exists ks, w'. split_and!; eauto.
Qed.

(** The first key is stored one past the end of the buffer: when the
    allocator hands out exactly the bytes that were asked for, it is an
    out-of-bounds write at index [len]. *)
Theorem keylog_first_key_overflows len w buf off s :
  ready len w -> ksize len = len ->
  exists w', keylog_read (Interrupt :: s) buf len off w = (Oops (OutOfBounds len), w').
Proof.
  intros (Hb & Hd & Hs & Hlen & Hk) Hx.
  destruct (read_begin len w (Interrupt :: s) buf off)
    as (w1 & Hl1 & Hk1 & _ & _ & _ & _ & _ & ->); [done..|].
  destruct (handler_overrun _ w1 (irq (glob w1)) Hl1) as [w' E].
  { rewrite Hk1, length_map, length_seqZ, Hx. lia. }
  exists w'. rewrite Hk1 in E. cbn [sleep]. krun. by rewrite (bind_oops _ _ _ _ _ E).
Qed.

(** [kbuf] is not cleared when a read has freed the buffer: the next key
    after a completed read is written through the dangling pointer. *)
Theorem keylog_use_after_free len w buf off old :
  ready len w -> len < ksize len -> ubytes (user w) buf (Z.to_nat len) = Some old ->
  exists r w', keylog_read (replicate (Z.to_nat len) Interrupt ++ [Resume]) buf len off w = (Done (Some r), w') /\
    exists w'', testirq_handler (irq (glob w')) w' = (Oops (BadPointer (brk w)), w'').
Proof.
  intros (Hb & Hd & Hs & Hlen & Hk) Hroom Hmap.
  destruct (keylog_read_run len w buf off old) as (ks & w' & E & _ & _ & _ & Hp & Hfree & _); [done..|].
  eexists _, w'. split; [exact E|]. unfold testirq_handler. cbn [testirq_read_intr_cause_register]. krun.
  rewrite Hp, (proj2 (Z.eqb_neq (brk w) 0)) by lia. cbn [negb]. krun. unfold store, block. krun.
  rewrite (proj2 (Z.eqb_neq (brk w) 0)) by lia.
  erewrite bind_oops by (kcbn; rewrite Hfree; reflexivity). by eexists.
Qed.

(** One more key between the wake-up and the moment the reader runs again
    makes it sleep on: the counter is -1 by then, and the key after that
    is written in front of the buffer. *)
Theorem keylog_late_key len w buf off s :
  ready len w -> len < ksize len ->
  let late := replicate (Z.to_nat len) Interrupt ++ [Interrupt; Resume] in
  (exists w', keylog_read late buf len off w = (Done None, w') /\ keys (glob w') = -1) /\
  (exists w', keylog_read (late ++ Interrupt :: s) buf len off w = (Oops (OutOfBounds (-1)), w')).
Proof.
  intros (Hb & Hd & Hs & Hlen & Hk) Hroom.
  split.
  - destruct (late_run len w buf off []) as (w3 & b & _ & Hk3 & E); [done..|]. by exists w3.
  - destruct (late_run len w buf off (Interrupt :: s)) as (w3 & b & Hl3 & Hk3 & E); [done..|].
    destruct (handler_overrun b w3 (irq (glob w3)) Hl3) as [w' E']; [lia|]. rewrite Hk3 in E'.
    exists w'. rewrite <- app_assoc. cbn [app]. rewrite E. cbn [sleep]. krun.
    by rewrite (bind_oops _ _ _ _ _ E').
Qed.

Lemma open_run w :
  intr_registered (glob w) + 1 < 2 ^ 31 -> 0 <= intr_registered (glob w) ->
  exists w', keylog_open w = (Done 0, w') /\ irq (glob w') = irq (glob w) /\
    intr_registered (glob w') = intr_registered (glob w) + 1 /\ kbd_complete (glob w') = 0 /\
    exists tr r, r = kret tr (RequestIrq (irq (glob w)) device) /\
      forall L, holds (log w) L ->
        holds (log w') ((if r =? 0 then [RIrq (irq (glob w)) device] else []) ++ L).
Proof.
  intros Hi Hi0. unfold keylog_open. krun. lcbn. set (r := kret _ (RequestIrq _ _)).
  destruct (Z.eqb_spec r 0) as [E|E]; cbn [negb]; krun; lcbn; rewrite (wrapS_small 32) by lia;
    (eexists; split; [reflexivity|]; lcbn; split_and!; try done;
     eexists _, r; split; [reflexivity|]; intros L HL;
     destruct (Z.eqb_spec r 0); [try done|try done]; cbn [app]; ledger_auto).
Qed.

Lemma close_run w :
  0 < intr_registered (glob w) < 2 ^ 31 ->
  exists w', keylog_close w = (Done 0, w') /\
    intr_registered (glob w') = intr_registered (glob w) - 1 /\
    kbd_complete (glob w') = kbd_complete (glob w) + 1 /\ irq (glob w') = irq (glob w) /\
    (forall L, holds (log w) (RIrq (irq (glob w)) device :: L) -> holds (log w') L) /\
    (ledger (log w') = ledger ((FreeIrq (irq (glob w)) device, 0) ::
       (Printk "Freeing interrupt handler on IRQ %d\n" [PInt (irq (glob w))], 0) :: log w)).
Proof.
  intros Hi. unfold keylog_close. krun. lcbn. rewrite (wrapS_small 32) by lia.
  eexists. split; [reflexivity|]. lcbn. split_and!; try done.
  - intros L HL. ledger_auto.
  - by rewrite ledger_nothing.
Qed.

(** *** The interrupt line never changes *)

Definition on_line (i : Z) (g : keylog) : Prop := irq g = i.

#[local] Hint Extern 1 (preserves _ (send_user _ _)) => apply preserves_pure; reflexivity : preserves.
#[local] Hint Extern 1 (preserves (on_line _) (modify _)) =>
  apply preserves_modify; let H := fresh in intros ? H; exact H : preserves.

Lemma handler_line l i : preserves (on_line l) (testirq_handler i).
Proof. unfold testirq_handler, store. cbn [testirq_read_intr_cause_register]. eauto 30 with preserves. Qed.
#[local] Hint Resolve handler_line : preserves.

Lemma sleep_line l s : preserves (on_line l) (sleep s).
Proof. induction s as [|[] s IH]; cbn [sleep]; eauto 30 with preserves. Qed.
#[local] Hint Resolve sleep_line : preserves.

Lemma kmalloc_slab_line l n : preserves (on_line l) (kmalloc_slab n).
Proof. apply preserves_pure. intros w. unfold kmalloc_slab. by destruct (_ =? 0). Qed.
#[local] Hint Resolve kmalloc_slab_line : preserves.

Lemma read_line l sched buf len off : preserves (on_line l) (keylog_read sched buf len off).
Proof. unfold keylog_read, wait_event, read_finish, loads. eauto 40 with preserves. Qed.

(** What opening and closing leave alone. *)
Lemma open_frame w r w' :
  keylog_open w = (Done r, w') ->
  data_port (glob w') = 96 /\ status_port (glob w') = 100 /\ brk w' = brk w /\ user w' = user w /\
  scancodes (log w') = scancodes (log w).
Proof.
  unfold keylog_open. autorewrite with krun. lcbn. destruct (negb _); autorewrite with krun;
    intros [= <- <-]; done.
Qed.

Lemma close_frame w :
  exists w', keylog_close w = (Done 0, w') /\ user w' = user w /\
    scancodes (log w') = scancodes (log w) /\
    forall L, holds (log w) (RIrq (irq (glob w)) device :: L) -> holds (log w') L.
Proof.
  unfold keylog_close. krun. eexists. split; [reflexivity|]. split; [done|]. split; [done|].
  intros L HL. ledger_auto.
Qed.

(** Unloading is safe for a single opener: while the file is open the
    unload blocks, once it is closed the unload goes through, and then neither
    the interrupt handler nor the device is left. *)
Theorem keylog_exit_waits w L :
  intr_registered (glob w) = 0 -> holds (log w) (RMisc "keylog" :: L) ->
  (forall tr i d, kret tr (RequestIrq i d) = 0) ->
  exists w1 w2 w3,
    keylog_open w = (Done 0, w1) /\
    (exists w', keylog_driver_exit w1 = (Done None, w')) /\
    keylog_close w1 = (Done 0, w2) /\
    keylog_driver_exit w2 = (Done (Some tt), w3) /\ holds (log w3) L.
Proof.
  intros Hi HL Hr. destruct (open_run w) as (w1 & E1 & Hq1 & Hi1 & Hc1 & tr & r & -> & Hh1); [lia|lia|].
  rewrite Hr in Hh1. apply Hh1 in HL. cbn [Z.eqb app] in HL. clear Hh1.
  destruct (close_run w1) as (w2 & E2 & Hi2 & Hc2 & _ & Hh2 & _); [lia|]. rewrite Hq1 in Hh2.
  apply Hh2 in HL. clear Hh2. eexists w1, w2, _. split; [exact E1|]. split; [|split; [exact E2|]].
  - eexists. unfold keylog_driver_exit. krun. rewrite Hi1, Hi, Hc1. cbn. krun. reflexivity.
  - unfold keylog_driver_exit. krun. rewrite Hi2, Hi1, Hi. cbn. krun. split; [reflexivity|].
    ledger_auto.
Qed.

(** With two openers the wait is for the wrong event: after one of them has
    closed the file, unloading goes through although the other's interrupt
    handler is still installed. *)
Theorem keylog_exit_too_early w L :
  intr_registered (glob w) = 0 -> holds (log w) (RMisc "keylog" :: L) ->
  (forall tr i d, kret tr (RequestIrq i d) = 0) ->
  exists w1 w2 w3 w4,
    keylog_open w = (Done 0, w1) /\ keylog_open w1 = (Done 0, w2) /\ keylog_close w2 = (Done 0, w3) /\
    keylog_driver_exit w3 = (Done (Some tt), w4) /\ holds (log w4) (RIrq (irq (glob w)) device :: L).
Proof.
  intros Hi HL Hr. destruct (open_run w) as (w1 & E1 & Hq1 & Hi1 & Hc1 & tr & r & -> & Hh1); [lia|lia|].
  rewrite Hr in Hh1. apply Hh1 in HL. cbn [Z.eqb app] in HL. clear Hh1.
  destruct (open_run w1) as (w2 & E2 & Hq2 & Hi2 & Hc2 & tr2 & r & -> & Hh2); [lia|lia|].
  rewrite Hr in Hh2. apply Hh2 in HL. cbn [Z.eqb app] in HL. clear Hh2.
  destruct (close_run w2) as (w3 & E3 & Hi3 & Hc3 & _ & Hh3 & _); [lia|]. rewrite Hq2 in Hh3.
  apply Hh3 in HL. clear Hh3. eexists w1, w2, w3, _.
  split; [exact E1|]. split; [exact E2|]. split; [exact E3|].
  unfold keylog_driver_exit. krun. rewrite Hi3, Hi2, Hi1, Hi, Hc3, Hc2. cbn. krun. split; [reflexivity|].
  ledger_auto.
Qed.

(** When the interrupt cannot be obtained, the open still reports success,
    and the close then frees a handler that was never installed. *)
Theorem keylog_open_hides_failure w L :
  intr_registered (glob w) = 0 -> holds (log w) L -> RIrq (irq (glob w)) device ∉ L ->
  (forall tr i d, kret tr (RequestIrq i d) <> 0) ->
  exists w1 w2, keylog_open w = (Done 0, w1) /\ holds (log w1) L /\
    keylog_close w1 = (Done 0, w2) /\ ledger (log w2) = None.
Proof.
  intros Hi HL Hn Hr. destruct (open_run w) as (w1 & E1 & Hq1 & Hi1 & Hc1 & tr & r & -> & Hh1); [lia|lia|].
  rewrite (proj2 (Z.eqb_neq _ _) (Hr _ _ _)) in Hh1. apply Hh1 in HL. cbn [app] in HL.
  destruct (close_run w1) as (w2 & E2 & _ & _ & _ & _ & Hl2); [lia|]. exists w1, w2.
  split; [done|]. split; [done|]. split; [done|]. rewrite Hl2, Hq1.
  eapply ledger_bad_release; [reflexivity| |exact Hn]. by apply holds_nothing.
Qed.
End Properties.

(** ** Concrete runs *)

(** The allocator's classes near the sizes used here: multiples of 16. *)
Definition slab16 : Slab.
Proof.
  refine {| ksize n := 16 * ((n + 15) / 16) |}.
  intros n Hn. pose proof (Z.div_mod (n + 15) 16). pose proof (Z.mod_pos_bound (n + 15) 16). lia.
Defined.

Definition slab_exact : Slab := {| ksize n := n; ksize_enough n _ := Z.le_refl n |}.

(** Successive keys have successive codes. *)
Definition keyboard : Env :=
  {| kret tr c := match c with
                  | Inb 96 => 30 + Z.of_nat (length (scancodes tr))
                  | _ => calm_ret c
                  end;
     kjunk _ _ := 170 |}.

(** The file is open; the process has three bytes at address 500. *)
Definition open_keylog : world keylog :=
  World ∅ 1 (uwrite ∅ 500 [0; 0; 0]) [] (Keylog 1 0 0 96 100 1 0 false).

Lemma open_ready : ready (ENV := keyboard) 3 open_keylog.
Proof. unfold ready. split_and!; done. Qed.

(** Three keys 30, 31, 32: the process sees 170, 32, 31. *)
Lemma keylog_read_reversed_witness :
  exists w', keylog_read (ENV := keyboard) (SLAB := slab16)
      [Interrupt; Interrupt; Interrupt; Resume] 500 3 0 open_keylog = (Done (Some (3, 3)), w') /\
    user w' = uwrite ∅ 500 [170; 32; 31].
Proof.
  destruct (keylog_read_reversed (ENV := keyboard) (SLAB := slab16) 3 open_keylog 500 0 [0; 0; 0] []
              open_ready) as (ks & w' & E & Hn & Hs & Hu & _); [done|done|by exists []|].
  exists w'. split; [exact E|]. rewrite Hu.
  assert (w' = (keylog_read (ENV := keyboard) (SLAB := slab16)
     [Interrupt; Interrupt; Interrupt; Resume] 500 3 0 open_keylog).2) as -> by (exact (f_equal snd (eq_sym E))).
  change (scancodes (log open_keylog)) with (@nil Z) in Hs. rewrite app_nil_r in Hs.
  rewrite <- Hs. vm_compute. reflexivity.
Defined.

Lemma keylog_first_key_overflows_witness :
  exists w', keylog_read (ENV := keyboard) (SLAB := slab_exact) [Interrupt] 500 3 0 open_keylog =
    (Oops (OutOfBounds 3), w').
Proof.
  exact (keylog_first_key_overflows (ENV := keyboard) (SLAB := slab_exact) 3 open_keylog 500 0 []
           open_ready eq_refl).
Defined.

Lemma keylog_use_after_free_witness :
  exists r w', keylog_read (ENV := keyboard) (SLAB := slab16)
      [Interrupt; Interrupt; Interrupt; Resume] 500 3 0 open_keylog = (Done (Some r), w') /\
    exists w'', testirq_handler (ENV := keyboard) (irq (glob w')) w' = (Oops (BadPointer 1), w'').
Proof.
  exact (keylog_use_after_free (ENV := keyboard) (SLAB := slab16) 3 open_keylog 500 0 [0; 0; 0]
           open_ready eq_refl eq_refl).
Defined.

Lemma keylog_late_key_witness :
  exists w', keylog_read (ENV := keyboard) (SLAB := slab16)
    [Interrupt; Interrupt; Interrupt; Interrupt; Resume] 500 3 0 open_keylog = (Done None, w').
Proof.
  destruct (keylog_late_key (ENV := keyboard) (SLAB := slab16) 3 open_keylog 500 0 [] open_ready eq_refl)
    as [(w' & E & _) _]. by exists w'.
Defined.

(** A loaded driver nobody has opened. *)
Definition loaded_keylog : world keylog := World ∅ 1 ∅ [(MiscRegister "keylog", 0)] keylog_static.

Lemma keylog_exit_waits_witness :
  exists w1 w2 w3,
    keylog_open (ENV := calm) loaded_keylog = (Done 0, w1) /\
    (exists w', keylog_driver_exit w1 = (Done None, w')) /\
    keylog_close w1 = (Done 0, w2) /\
    keylog_driver_exit w2 = (Done (Some tt), w3) /\ holds (log w3) [].
Proof.
  apply (keylog_exit_waits (ENV := calm) loaded_keylog []); [done|by eexists|done].
Defined.

Lemma keylog_exit_too_early_witness :
  exists w1 w2 w3 w4,
    keylog_open (ENV := calm) loaded_keylog = (Done 0, w1) /\ keylog_open (ENV := calm) w1 = (Done 0, w2) /\
    keylog_close w2 = (Done 0, w3) /\
    keylog_driver_exit w3 = (Done (Some tt), w4) /\ holds (log w4) [RIrq 1 device].
Proof.
  apply (keylog_exit_too_early (ENV := calm) loaded_keylog []); [done|by eexists|done].
Defined.

Definition irq_busy : Env :=
  {| kret _ c := match c with RequestIrq _ _ => -16 | _ => calm_ret c end; kjunk _ _ := 0 |}.

Lemma keylog_open_hides_failure_witness :
  exists w1 w2, keylog_open (ENV := irq_busy) loaded_keylog = (Done 0, w1) /\
    holds (log w1) [RMisc "keylog"] /\
    keylog_close w1 = (Done 0, w2) /\ ledger (log w2) = None.
Proof.
  apply (keylog_open_hides_failure (ENV := irq_busy) loaded_keylog [RMisc "keylog"]);
    [done|by eexists|set_solver|done].
Defined.
