(* ===== verification/Libfs.v ===== *)
(** * The buffer helpers of the virtual file system

    [simple_read_from_buffer] and [simple_write_to_buffer], which procfs.c and
    misc_char_dev.c call to move data between a process and a kernel array.
    The class states their documented contract: nothing happens at a negative
    position (-EINVAL), at the end of the array or for an empty request (0);
    otherwise as much as fits is copied and the position advances; -EFAULT
    when not a single byte can be copied.  [libfs_bytewise] meets it. *)

From stdpp Require Import base gmap list numbers list_numbers strings.
From Stdlib Require Import ZArith Lia.
From S2P Require Import Prelude Kernel Uaccess.

Class Libfs := {
  (** user memory, kernel array, its size, position, user address, count;
      returns the result, the new position and the new array *)
  simple_write_to_buffer : gmap Z Z -> list Z -> Z -> Z -> Z -> Z -> Z * Z * list Z;
  swb_neg m to avail pos from count :
    pos < 0 -> simple_write_to_buffer m to avail pos from count = (- EINVAL, pos, to);
  swb_end m to avail pos from count :
    0 <= pos -> avail <= pos \/ count = 0 ->
    simple_write_to_buffer m to avail pos from count = (0, pos, to);
  swb_ok m to avail pos from count n bs :
    0 <= pos < avail -> 0 < count -> n = Z.min count (avail - pos) ->
    ubytes m from (Z.to_nat n) = Some bs ->
    simple_write_to_buffer m to avail pos from count =
    (n, pos + n, take (Z.to_nat pos) to ++ bs ++ drop (Z.to_nat (pos + n)) to);
  swb_fault m to avail pos from count :
    0 <= pos < avail -> 0 < count -> m !! from = None -> avail <= Z.of_nat (length to) ->
    exists to', simple_write_to_buffer m to avail pos from count = (- EFAULT, pos, to') /\
      length to' = length to;
  (** user memory, user address, count, position, kernel bytes; returns the
      result, the new position and the new user memory *)
  simple_read_from_buffer : gmap Z Z -> Z -> Z -> Z -> list Z -> Z * Z * gmap Z Z;
  srb_neg m to count pos from :
    pos < 0 -> simple_read_from_buffer m to count pos from = (- EINVAL, pos, m);
  srb_end m to count pos from :
    0 <= pos -> Z.of_nat (length from) <= pos \/ count = 0 ->
    simple_read_from_buffer m to count pos from = (0, pos, m);
  srb_ok m to count pos from n old :
    0 <= pos < Z.of_nat (length from) -> 0 < count ->
    n = Z.min count (Z.of_nat (length from) - pos) ->
    ubytes m to (Z.to_nat n) = Some old ->
    simple_read_from_buffer m to count pos from =
    (n, pos + n, uwrite m to (take (Z.to_nat n) (drop (Z.to_nat pos) from)));
}.

(** The two calls as a handler makes them. *)
Section Calls.
Context {S : Type} {FS : Libfs}.

Definition read_buffer (buf len off : Z) (from : list Z) : K S (Z * Z) := fun w =>
  (Done (simple_read_from_buffer (user w) buf len off from).1,
   with_user (simple_read_from_buffer (user w) buf len off from).2 w).

Definition write_buffer (to : list Z) (avail off buf len : Z) : K S (Z * Z * list Z) := fun w =>
  (Done (simple_write_to_buffer (user w) to avail off buf len), w).

Lemma bind_write_buffer {B} (k : Z * Z * list Z -> K S B) to avail off buf len (w : world S) :
  (write_buffer to avail off buf len ≫= k) w =
  k (simple_write_to_buffer (user w) to avail off buf len) w.
Proof. done. Qed.

Lemma bind_read_buffer {B} (k : Z * Z -> K S B) buf len off from (w : world S) :
  (read_buffer buf len off from ≫= k) w =
  k (simple_read_from_buffer (user w) buf len off from).1
    (with_user (simple_read_from_buffer (user w) buf len off from).2 w).
Proof. done. Qed.
End Calls.

#[export] Hint Rewrite @bind_write_buffer @bind_read_buffer : krun.

(** ** An implementation *)

Definition swb_bytewise (m : gmap Z Z) (to : list Z) (avail pos from count : Z) : Z * Z * list Z :=
  if pos <? 0 then (- EINVAL, pos, to)
  else if (avail <=? pos) || (count =? 0) then (0, pos, to)
  else
    let n := Z.min count (avail - pos) in
    let got := uprefix m from (Z.to_nat n) in
    match got with
    | [] => (- EFAULT, pos, to)
    | _ =>
        let k := Z.of_nat (length got) in
        (k, pos + k, take (Z.to_nat pos) to ++ got ++ drop (Z.to_nat (pos + k)) to)
    end.

Definition srb_bytewise (m : gmap Z Z) (to count pos : Z) (from : list Z) : Z * Z * gmap Z Z :=
  let avail := Z.of_nat (length from) in
  if pos <? 0 then (- EINVAL, pos, m)
  else if (avail <=? pos) || (count =? 0) then (0, pos, m)
  else
    let n := Z.min count (avail - pos) in
    let k := Z.of_nat (length (uprefix m to (Z.to_nat n))) in
    if k =? 0 then (- EFAULT, pos, m)
    else (k, pos + k, uwrite m to (take (Z.to_nat k) (drop (Z.to_nat pos) from))).

(** Decides the guards of the two functions from the arithmetic hypotheses. *)
Ltac guards :=
  repeat match goal with
  | |- context [?a <? ?b] => destruct (Z.ltb_spec a b); try lia
  | |- context [?a <=? ?b] => destruct (Z.leb_spec a b); try lia
  | |- context [?a =? ?b] => destruct (Z.eqb_spec a b); try lia
  end; cbn [orb].

#[refine, global] Instance libfs_bytewise : Libfs :=
  {| simple_write_to_buffer := swb_bytewise; simple_read_from_buffer := srb_bytewise |}.
Proof.
  - intros. unfold swb_bytewise. by guards.
  - intros ? ? ? ? ? ? ? [?|?]; unfold swb_bytewise; by guards.
  - intros m to avail pos from count n bs Hpos Hc Hn Hbs. unfold swb_bytewise. guards.
    rewrite <- Hn, (uprefix_ok _ _ _ _ Hbs). apply ubytes_length in Hbs.
    destruct bs as [|b bs]; [simpl in Hbs; lia|]. rewrite Hbs, Z2Nat.id by lia. done.
  - intros m to avail pos from count Hpos Hc Hm Hl. exists to. unfold swb_bytewise. guards.
    destruct (Z.to_nat (Z.min count (avail - pos))) eqn:E; [lia|]. simpl. by rewrite Hm.
  - intros. unfold srb_bytewise. by guards.
  - intros ? ? ? ? ? ? [?|?]; unfold srb_bytewise; by guards.
  - intros m to count pos from n old Hpos Hc Hn Hold. unfold srb_bytewise. guards;
      rewrite <- Hn, (uprefix_ok _ _ _ _ Hold), (ubytes_length _ _ _ _ Hold), Z2Nat.id in * by lia;
      [lia|done].
Defined.
