(* ===== verification/ProcBuf.v ===== *)
(** * The password files (src/procfs.c and src/misc_char_dev.c)

    Two modules offer the same file, once as /proc/example/first and once as
    the misc device "ritsz": reading gives a fixed text, writing stores the
    data in [kern_buff] and succeeds only for the word "linux".  The module
    [Procfs] and the module [MiscDev] translate the two sources;
    [write_spec] and [read_spec] say what the shared logic computes, and both
    handlers are proved to refine them. *)

From stdpp Require Import base gmap list numbers list_numbers strings relations.
From Stdlib Require Import ZArith Lia.
From S2P Require Import Prelude Kernel Uaccess Lifecycle Libfs.

Definition MAXBUFF : Z := 128.

(** The two static arrays. *)
Record buffers := Buffers {
  kern_buff : list Z;
  my_eud_id : list Z;
}.

Definition buffers_static : buffers :=
  Buffers (replicate 128 0) (str "HELLO WORLD" ++ [0]).

Definition set_kern_buff (b : list Z) (g : buffers) : buffers := Buffers b (my_eud_id g).

Module Procfs.

Record state := State {
  bufs : buffers;
  example_dir : Z;
  first_file : Z;
}.

Definition set_bufs (b : buffers) (g : state) : state := State b (example_dir g) (first_file g).
Definition set_dir (p : Z) (g : state) : state := State (bufs g) p (first_file g).
Definition set_file (p : Z) (g : state) : state := State (bufs g) (example_dir g) p.

Section Handlers.
Context {ENV : Env} {FS : Libfs}.

(** The result and the new file position. *)
Definition my_read (buf len off : Z) : K state (Z * Z) :=
  docall DumpStack;;
  g ← get;
  s ← of_option Unterminated (cstr (my_eud_id (bufs g)));
  read_buffer buf len off s.

Definition my_write (buf len off : Z) : K state (Z * Z) :=
  docall DumpStack;;
  g ← get;
  r ← write_buffer (kern_buff (bufs g)) MAXBUFF off buf len;
  let ret := s32 r.1.1 in
  modify (set_bufs (set_kern_buff r.2 (bufs g)));;
  b ← of_option (OutOfBounds ret) (aset r.2 ret 0);
  modify (set_bufs (set_kern_buff b (bufs g)));;
  s ← of_option Unterminated (cstr b);
  if negb (strcmp s (str "linux") =? 0) then mret (- EINVAL, r.1.2)
  else mret (ret, r.1.2).

Definition procexample_module_init : K state Z :=
  d ← call (ProcMkdir "example" 0);
  modify (set_dir d);;
  if d =? 0 then mret (- ENOMEM)
  else
    f ← call (ProcCreateData "first" 420 d);
    modify (set_file f);;
    if f =? 0 then docall (RemoveProcEntry "example" 0);; mret (- ENOMEM)
    else mret 0.

Definition procexample_module_exit : K state unit :=
  g ← get;
  docall (RemoveProcEntry "first" (example_dir g));;
  docall (RemoveProcEntry "example" 0).
End Handlers.
End Procfs.

Module MiscDev.
Section Handlers.
Context {ENV : Env} {FS : Libfs}.

Definition my_read (buf len off : Z) : K buffers (Z * Z) :=
  docall DumpStack;;
  docall ReadLock;;
  g ← get;
  s ← of_option Unterminated (cstr (my_eud_id g));
  r ← read_buffer buf len off s;
  docall ReadUnlock;;
  mret (s32 r.1, r.2).

Definition my_write (buf len off : Z) : K buffers (Z * Z) :=
  docall DumpStack;;
  docall WriteLock;;
  g ← get;
  r ← write_buffer (kern_buff g) MAXBUFF off buf len;
  let ret := s32 r.1.1 in
  modify (set_kern_buff r.2);;
  b ← of_option (OutOfBounds ret) (aset r.2 ret 0);
  modify (set_kern_buff b);;
  docall WriteUnlock;;
  s ← of_option Unterminated (cstr b);
  if negb (strcmp s (str "linux") =? 0) then mret (- EINVAL, r.1.2)
  else mret (ret, r.1.2).

Definition task1_init : K buffers Z := call (MiscRegister "ritsz").

Definition task1_exit : K buffers unit := docall (MiscDeregister "ritsz").
End Handlers.
End MiscDev.

(** ** What the handlers compute *)

(** A C string of an array that has a NUL at index [i]. *)
Lemma cstr_of_nul b i : b !! i = Some 0 -> exists s, cstr b = Some s.
Proof.
  revert i. induction b as [|c b IH]; intros [|i] H; simplify_eq/=; [by eexists|].
  destruct (c =? 0); [by eexists|]. destruct (IH _ H) as [s ->]. by eexists.
Qed.

Section Spec.
Context {FS : Libfs}.

(** Writing: the outcome and the new contents of [kern_buff]. *)
Definition write_spec (m : gmap Z Z) (kb : list Z) (buf len off : Z) : outcome (Z * Z) * list Z :=
  let r := simple_write_to_buffer m kb MAXBUFF off buf len in
  let ret := s32 r.1.1 in
  match aset r.2 ret 0 with
  | None => (Oops (OutOfBounds ret), r.2)
  | Some b =>
      (Done (if bool_decide (cstr b = Some (str "linux")) then ret else - EINVAL, r.1.2), b)
  end.

Definition read_spec (m : gmap Z Z) (id : list Z) (buf len off : Z) : Z * Z * gmap Z Z :=
  simple_read_from_buffer m buf len off (default [] (cstr id)).

(** The comparison with the password. *)
Lemma password_check {A} b i (x y : A) :
  b !! i = Some 0 -> exists s, cstr b = Some s /\
  (if negb (strcmp s (str "linux") =? 0) then x else y) =
  (if bool_decide (cstr b = Some (str "linux")) then y else x).
Proof.
  intros H. destruct (cstr_of_nul _ _ H) as [s Hs]. exists s. split; [done|]. rewrite Hs.
  destruct (Z.eqb_spec (strcmp s (str "linux")) 0) as [E|E]; simpl.
  - apply strcmp_eq in E as ->. by rewrite bool_decide_eq_true_2.
  - rewrite bool_decide_eq_false_2; [done|]. intros [= ->]. apply E. by apply strcmp_eq.
Qed.

Lemma aset_nul b i b' : aset b i 0 = Some b' -> b' !! Z.to_nat i = Some 0.
Proof.
  unfold aset. destruct (in_bounds b i) eqn:E; [|done]. intros [= <-].
  apply in_bounds_spec in E. apply list_lookup_insert_eq. lia.
Qed.
End Spec.

Section Refinement.
Context {FS : Libfs}.

(** The handlers of the two modules compute the specification; they differ in
    the lock calls they record and in the rest of their state. *)
Lemma procfs_write_run buf len off w :
  exists w', Procfs.my_write buf len off w =
    ((write_spec (user w) (kern_buff (Procfs.bufs (glob w))) buf len off).1, w') /\
  kern_buff (Procfs.bufs (glob w')) =
    (write_spec (user w) (kern_buff (Procfs.bufs (glob w))) buf len off).2 /\
  my_eud_id (Procfs.bufs (glob w')) = my_eud_id (Procfs.bufs (glob w)) /\
  log w' = (DumpStack, 0) :: log w /\ user w' = user w /\ heap w' = heap w /\ brk w' = brk w /\
  Procfs.example_dir (glob w') = Procfs.example_dir (glob w).
Proof.
  unfold Procfs.my_write, write_spec. krun. set (r := simple_write_to_buffer _ _ _ _ _ _).
  destruct (aset r.2 (s32 r.1.1) 0) as [b|] eqn:E; cbn [of_option].
  - krun. destruct (password_check (A := K Procfs.state (Z * Z)) b _ (mret (- EINVAL, r.1.2))
      (mret (s32 r.1.1, r.1.2)) (aset_nul _ _ _ E)) as (s & Hs & Hc).
    rewrite Hs. cbn [of_option]. krun. rewrite Hc, <- Hs. case_bool_decide; by eexists.
  - by eexists.
Qed.

Lemma misc_write_run buf len off w :
  exists w', MiscDev.my_write buf len off w =
    ((write_spec (user w) (kern_buff (glob w)) buf len off).1, w') /\
  kern_buff (glob w') = (write_spec (user w) (kern_buff (glob w)) buf len off).2 /\
  my_eud_id (glob w') = my_eud_id (glob w) /\ user w' = user w /\
  heap w' = heap w /\ brk w' = brk w /\
  log w' = match aset (simple_write_to_buffer (user w) (kern_buff (glob w)) MAXBUFF off buf len).2
                   (s32 (simple_write_to_buffer (user w) (kern_buff (glob w)) MAXBUFF off buf len).1.1) 0 with
           | Some _ => (WriteUnlock, 0) :: (WriteLock, 0) :: (DumpStack, 0) :: log w
           | None => (WriteLock, 0) :: (DumpStack, 0) :: log w
           end.
Proof.
  unfold MiscDev.my_write, write_spec. krun. set (r := simple_write_to_buffer _ _ _ _ _ _).
  destruct (aset r.2 (s32 r.1.1) 0) as [b|] eqn:E; cbn [of_option].
  - krun. destruct (password_check (A := K buffers (Z * Z)) b _ (mret (- EINVAL, r.1.2))
      (mret (s32 r.1.1, r.1.2)) (aset_nul _ _ _ E)) as (s & Hs & Hc).
    rewrite Hs. cbn [of_option]. krun. rewrite Hc, <- Hs. case_bool_decide; by eexists.
  - by eexists.
Qed.
End Refinement.

(** ** Loading and unloading *)

Inductive file_call :=
| FRead (buf len off : Z)
| FWrite (buf len off : Z).

Section Modules.
Context {ENV : Env} {FS : Libfs}.

Definition procfs_op (c : file_call) : K Procfs.state Z :=
  match c with
  | FRead buf len off => r ← Procfs.my_read buf len off; mret r.1
  | FWrite buf len off => r ← Procfs.my_write buf len off; mret r.1
  end.

Definition procfs_module : kmodule Procfs.state file_call :=
  KModule (Procfs.State buffers_static 0 0) Procfs.procexample_module_init
    Procfs.procexample_module_exit procfs_op.

Definition misc_op (c : file_call) : K buffers Z :=
  match c with
  | FRead buf len off => r ← MiscDev.my_read buf len off; mret r.1
  | FWrite buf len off => r ← MiscDev.my_write buf len off; mret r.1
  end.

Definition misc_module : kmodule buffers file_call :=
  KModule buffers_static MiscDev.task1_init MiscDev.task1_exit misc_op.

Definition procfs_res (g : Procfs.state) : list resource :=
  [RProc "first" (Procfs.example_dir g); RProc "example" 0].

Lemma procfs_init_run w L :
  wf_world w -> glob w = Procfs.State buffers_static 0 0 -> holds (log w) L ->
  exists r w', Procfs.procexample_module_init w = (Done r, w') /\ wf_world w' /\
    (if r =? 0 then True /\ holds (log w') (procfs_res (glob w') ++ L) else holds (log w') L).
Proof.
  intros Hwf Hg Hh. unfold Procfs.procexample_module_init. krun. set (d := kret (log w) _).
  destruct (Z.eqb_spec d 0) as [E|E]; krun.
  { eexists _, _. split; [done|]. split; [done|]. ledger_auto. }
  set (f := kret _ (ProcCreateData _ _ _)). destruct (Z.eqb_spec f 0) as [Ef|Ef]; krun;
    (eexists _, _; split; [done|]; split; [done|]).
  - ledger_auto.
  - split; [done|]. unfold procfs_res. cbn [glob with_glob Procfs.example_dir Procfs.set_file Procfs.set_dir].
    ledger_auto.
Qed.

Lemma procfs_exit_run w L :
  wf_world w -> True -> holds (log w) (procfs_res (glob w) ++ L) ->
  exists w', Procfs.procexample_module_exit w = (Done tt, w') /\ wf_world w' /\ holds (log w') L.
Proof.
  intros Hwf _ Hh. unfold Procfs.procexample_module_exit, procfs_res in *. krun.
  eexists. split; [done|]. split; [done|]. ledger_auto.
Qed.

Lemma procfs_op_run w o r w' L :
  wf_world w -> True -> procfs_op o w = (Done r, w') -> holds (log w) (procfs_res (glob w) ++ L) ->
  wf_world w' /\ True /\ holds (log w') (procfs_res (glob w') ++ L).
Proof.
  intros Hwf _ H Hh. destruct o as [buf len off|buf len off]; cbn [procfs_op] in H.
  - unfold Procfs.my_read in H. destruct (cstr (my_eud_id (Procfs.bufs (glob w)))) as [s|] eqn:E;
      autorewrite with krun in H; kcbn; rewrite E in H; cbn [of_option] in H; [|done].
    autorewrite with krun in H. simplify_eq. split; [done|]. split; [done|]. ledger_auto.
  - destruct (procfs_write_run buf len off w) as (w1 & E & _ & _ & Hl & Hu & Hp & Hb & Hd).
    destruct (write_spec _ _ _ _ _) as [[x|f] kb]; cbn [fst] in E;
      [rewrite (bind_done _ _ _ _ _ E), run_ret in H|rewrite (bind_oops _ _ _ _ _ E) in H]; simplify_eq.
    split; [unfold wf_world; by rewrite Hp, Hb|]. split; [done|].
    unfold procfs_res in *. rewrite Hl, Hd. ledger_auto.
Qed.

#[global] Instance procfs_clean : CleanModule procfs_module :=
  Build_CleanModule _ _ procfs_module procfs_res (fun _ => True)
    procfs_init_run procfs_exit_run procfs_op_run.

Definition misc_res (g : buffers) : list resource := [RMisc "ritsz"].

#[global] Instance misc_clean : CleanModule misc_module.
Proof.
  refine (Build_CleanModule _ _ misc_module misc_res (fun _ => True) _ _ _).
  - intros w L Hwf Hg Hh. unfold misc_module, mod_init, MiscDev.task1_init. krun.
    eexists _, _. split; [done|]. split; [done|]. set (r := kret _ _).
    destruct (Z.eqb_spec r 0); [split; [done|]|]; unfold misc_res; ledger_auto.
  - intros w L Hwf _ Hh. unfold misc_module, mod_exit, MiscDev.task1_exit, misc_res in *. krun.
    eexists. split; [done|]. split; [done|]. ledger_auto.
  - intros w [buf len off|buf len off] r w' L Hwf _ H Hh; cbn [misc_module mod_op misc_op] in H;
      unfold misc_res in *.
    + unfold MiscDev.my_read in H. destruct (cstr (my_eud_id (glob w))) as [s|] eqn:E;
        autorewrite with krun in H; kcbn; rewrite E in H; cbn [of_option] in H; [|done].
      autorewrite with krun in H. simplify_eq. split; [done|]. split; [done|]. ledger_auto.
    + destruct (misc_write_run buf len off w) as (w1 & E & _ & _ & Hu & Hp & Hb & Hl).
      destruct (write_spec _ _ _ _ _) as [[x|f] kb]; cbn [fst] in E;
        [rewrite (bind_done _ _ _ _ _ E), run_ret in H|rewrite (bind_oops _ _ _ _ _ E) in H]; simplify_eq.
      split; [unfold wf_world; by rewrite Hp, Hb|]. split; [done|].
      rewrite Hl. destruct (aset _ _ _); ledger_auto.
Defined.
End Modules.

(** ** Properties *)

Section Properties.
Context {ENV : Env} {FS : Libfs}.

(** What a write of mapped bytes leaves in the buffer. *)
Lemma write_spec_ok m kb buf len off n bs :
  length kb = 128%nat -> 0 <= off < 128 -> 0 < len -> n = Z.min len (128 - off) ->
  ubytes m buf (Z.to_nat n) = Some bs ->
  write_spec m kb buf len off =
  let b := take (Z.to_nat off) kb ++ bs ++ drop (Z.to_nat (off + n)) kb in
  match aset b n 0 with
  | None => (Oops (OutOfBounds n), b)
  | Some b' => (Done (if bool_decide (cstr b' = Some (str "linux")) then n else - EINVAL, off + n), b')
  end.
Proof.
  intros Hkb Hoff Hlen Hn Hbs. unfold write_spec.
  rewrite (swb_ok m kb MAXBUFF off buf len n bs) by (unfold MAXBUFF; done || lia).
  cbn [fst snd]. rewrite (wrapS_small 32) by lia. done.
Qed.

(** C15 Both files implement the same device: on the same process memory and
    the same buffers, a write to /proc/example/first and a write to the misc
    device end in the same way (result, position or fault) and leave the same
    data; the misc device releases its lock unless it faults. *)
Theorem procfs_misc_equivalent buf len off w1 w2 :
  user w1 = user w2 -> Procfs.bufs (glob w1) = glob w2 ->
  exists o w1' w2',
    Procfs.my_write buf len off w1 = (o, w1') /\
    MiscDev.my_write buf len off w2 = (o, w2') /\
    Procfs.bufs (glob w1') = glob w2' /\
    (forall r, o = Done r -> log w2' = (WriteUnlock, 0) :: (WriteLock, 0) :: (DumpStack, 0) :: log w2).
Proof.
  intros Hu Hg. destruct (procfs_write_run buf len off w1) as (w1' & E1 & Hk1 & Hi1 & _).
  destruct (misc_write_run buf len off w2) as (w2' & E2 & Hk2 & Hi2 & _ & _ & _ & Hl2).
  rewrite Hu, Hg in E1, Hk1. rewrite Hg in Hi1. eexists _, w1', w2'.
  split; [exact E1|]. split; [exact E2|]. split.
  - destruct (Procfs.bufs (glob w1')), (glob w2'). simpl in *. congruence.
  - intros r. unfold write_spec. destruct (aset _ _ _) in *; [done|]. cbn [fst]. done.
Qed.

(** The password check: a write of fewer than 128 mapped bytes at the start
    of the file stores them as a C string, and succeeds (reporting [len]) if
    that string is "linux" and fails with -EINVAL otherwise. *)
Theorem procfs_write_checks_password buf len bs w :
  length (kern_buff (Procfs.bufs (glob w))) = 128%nat -> 0 < len < 128 ->
  ubytes (user w) buf (Z.to_nat len) = Some bs ->
  exists w', Procfs.my_write buf len 0 w =
    (Done (if bool_decide (cstr (bs ++ [0]) = Some (str "linux")) then len else - EINVAL, len), w') /\
  length (kern_buff (Procfs.bufs (glob w'))) = 128%nat /\
  cstr (kern_buff (Procfs.bufs (glob w'))) = cstr (bs ++ [0]).
Proof.
  intros Hk Hlen Hbs. destruct (procfs_write_run buf len 0 w) as (w' & E & Hk' & _).
  exists w'. rewrite E, Hk'. clear E Hk'. set (kb := kern_buff _) in *.
  rewrite (write_spec_ok _ kb buf len 0 len bs) by (done || lia). cbv zeta.
  change (Z.to_nat 0) with 0%nat. rewrite take_0. cbn [app].
  rewrite Z.add_0_l. pose proof (ubytes_length _ _ _ _ Hbs) as Hl.
  rewrite aset_in by (rewrite length_app, length_drop; lia).
  destruct (drop (Z.to_nat len) kb) as [|x t] eqn:Et; [apply (f_equal length) in Et; rewrite length_drop in Et; simpl in Et; lia|].
  rewrite insert_app_r_alt, Hl, Nat.sub_diag by lia. cbn [insert list_insert fst snd].
  assert (Hc : cstr (bs ++ 0 :: t) = cstr (bs ++ [0])).
  { clear. induction bs as [|c bs IH]; [done|]. simpl. rewrite IH. done. }
  split; [by rewrite Hc|]. split; [|exact Hc].
  apply (f_equal length) in Et. rewrite length_drop in Et. rewrite length_app. simpl in *. lia.
Qed.

(** C38 Where the misc device puts the terminator: at the index the helper
    returned, whatever that is, in the 128-byte buffer.  At a negative
    position that is -22, and for a first byte that is not mapped -14: the
    store is out of bounds and the write lock is never released.  Behind the
    end of the buffer, or for an empty write, the first byte of the buffer is
    cleared and the call fails with -EINVAL.  Otherwise, with the bytes that
    fit mapped, the index is their number, not the position behind them: it is
    out of bounds exactly for a write of 128 bytes or more at position 0; in
    all other cases the byte at that index of the new contents is cleared, the
    lock is released and the position advances. *)
Theorem misc_write_overflows buf len off w :
  length (kern_buff (glob w)) = 128%nat -> 0 <= len ->
  let kb := kern_buff (glob w) in
  let locked := (WriteLock, 0) :: (DumpStack, 0) :: log w in
  exists o w', MiscDev.my_write buf len off w = (o, w') /\
    (off < 0 -> o = Oops (OutOfBounds (-22)) /\ log w' = locked) /\
    (0 <= off < 128 -> 0 < len -> user w !! buf = None ->
     o = Oops (OutOfBounds (-14)) /\ log w' = locked) /\
    (0 <= off -> 128 <= off \/ len = 0 ->
     o = Done (- EINVAL, off) /\ log w' = (WriteUnlock, 0) :: locked /\ kern_buff (glob w') = <[O := 0]> kb) /\
    (forall bs, 0 <= off < 128 -> 0 < len ->
     let n := Z.min len (128 - off) in
     ubytes (user w) buf (Z.to_nat n) = Some bs ->
     if decide (off = 0 /\ 128 <= len) then o = Oops (OutOfBounds 128) /\ log w' = locked
     else (exists r, o = Done (r, off + n)) /\ log w' = (WriteUnlock, 0) :: locked /\
       kern_buff (glob w') =
         <[Z.to_nat n := 0]> (take (Z.to_nat off) kb ++ bs ++ drop (Z.to_nat (off + n)) kb)).
Proof.
  intros Hk Hlen kb locked. destruct (misc_write_run buf len off w) as (w' & E & Hkb & _ & _ & _ & _ & Hl).
  fold kb in E, Hkb, Hl, Hk. eexists _, w'. split; [exact E|]. clear E. unfold write_spec in Hkb |- *. split_and!.
  - intros Ho. rewrite swb_neg in Hl |- * by done. cbn [fst snd] in *. unfold EINVAL in *.
    rewrite (wrapS_small 32) in * by lia. by rewrite aset_out in Hl |- * by lia.
  - intros Ho Hl0 Hm. destruct (swb_fault (user w) kb MAXBUFF off buf len) as (to' & Et & Hto);
      [unfold MAXBUFF; lia|done|done|unfold MAXBUFF; lia|]. rewrite Et in Hl |- *. cbn [fst snd] in *.
    unfold EFAULT in *. rewrite (wrapS_small 32) in * by lia. by rewrite aset_out in Hl |- * by lia.
  - intros Ho Hend. rewrite swb_end in Hl, Hkb |- * by (unfold MAXBUFF; done). cbn [fst snd] in *.
    rewrite (wrapS_small 32) in * by lia. rewrite aset_in in Hl, Hkb |- * by lia. cbn [fst snd] in *.
    rewrite bool_decide_eq_false_2; [done|]. by destruct kb.
  - intros bs Ho Hl0 Hbs. set (n := Z.min len (128 - off)) in *. pose proof (ubytes_length _ _ _ _ Hbs) as Hb.
    rewrite (swb_ok _ _ _ _ _ _ n bs) in Hl, Hkb |- * by (unfold MAXBUFF; done || lia). cbn [fst snd] in *.
    rewrite (wrapS_small 32) in * by lia.
    assert (Hall : length (take (Z.to_nat off) kb ++ bs ++ drop (Z.to_nat (off + n)) kb) = 128%nat).
    { rewrite !length_app, length_drop, length_take. lia. }
    case_decide as Hd.
    + replace n with 128 in * by lia. by rewrite aset_out in Hl |- * by lia.
    + rewrite aset_in in Hl, Hkb |- * by lia. cbn [fst snd] in *. split; [by eexists|done].
Qed.

(** The check looks at the start of the buffer while the data goes to the
    file position: once "linux" has been stored, any five bytes written
    further on are accepted as the password. *)
Theorem procfs_accepts_stale_password buf off t bs w :
  kern_buff (Procfs.bufs (glob w)) = str "linux" ++ 0 :: t -> length t = 122%nat ->
  6 <= off <= 123 -> ubytes (user w) buf 5 = Some bs ->
  exists w', Procfs.my_write buf 5 off w = (Done (5, off + 5), w').
Proof.
  intros Hk Ht Hoff Hbs. destruct (procfs_write_run buf 5 off w) as (w' & E & _). exists w'. rewrite E, Hk.
  rewrite (write_spec_ok _ _ buf 5 off 5 bs); [|rewrite length_app; simpl; lia|lia|lia|lia|done].
  rewrite take_app_ge by (simpl length; lia).
  replace (Z.to_nat off - length (str "linux"))%nat with (S (Z.to_nat off - 6)) by (simpl length; lia).
  cbn [take]. rewrite <- app_assoc. cbn [app].
  rewrite aset_in by (rewrite length_app; cbn [length]; simpl (length (str "linux")); lia).
  rewrite insert_app_r_alt by (simpl; lia). cbn [str].
  rewrite bool_decide_eq_true_2; [done|]. done.
Qed.

(** A process that reads the file in pieces of at most [len] bytes until it
    gets none, and collects what it was given. *)
Fixpoint read_all (fuel : nat) (buf len off : Z) : K Procfs.state (list Z) :=
  match fuel with
  | O => oops Diverges
  | S fuel' =>
      r ← Procfs.my_read buf len off;
      if r.1 <=? 0 then mret []
      else
        bs ← (fun w => (Done (uprefix (user w) buf (Z.to_nat r.1)), w) : outcome (list Z) * world Procfs.state);
        rest ← read_all fuel' buf len r.2;
        mret (bs ++ rest)
  end.

Lemma read_all_run id fuel buf len off w old :
  my_eud_id (Procfs.bufs (glob w)) = id ++ [0] -> no_nul id ->
  0 < len -> 0 <= off <= Z.of_nat (length id) ->
  ubytes (user w) buf (Z.to_nat len) = Some old ->
  (length id - Z.to_nat off < fuel)%nat ->
  exists w', read_all fuel buf len off w = (Done (drop (Z.to_nat off) id), w').
Proof.
  intros Hid Hn Hlen. revert off w old Hid.
  induction fuel as [|fuel IH]; intros off w old Hid Hoff Hold Hf; [lia|].
  cbn [read_all]. unfold Procfs.my_read. krun. rewrite Hid, cstr_app_nul by done. cbn [of_option]. krun.
  destruct (decide (off = Z.of_nat (length id))) as [->|Hne].
  { rewrite srb_end by (lia || auto with lia). cbn [fst snd]. rewrite Z.leb_refl, drop_ge by lia.
    by eexists. }
  set (n := Z.min len (Z.of_nat (length id) - off)).
  assert (Hmap : exists old', ubytes (user w) buf (Z.to_nat n) = Some old').
  { replace (Z.to_nat len) with (Z.to_nat n + Z.to_nat (len - n))%nat in Hold by lia.
    rewrite ubytes_app in Hold. destruct (ubytes (user w) buf (Z.to_nat n)); [by eexists|done]. }
  destruct Hmap as [old' Hold'].
  rewrite (srb_ok _ _ _ _ _ n old') by (done || lia). cbn [fst snd].
  rewrite (proj2 (Z.leb_gt n 0)) by lia. set (bs := take (Z.to_nat n) (drop (Z.to_nat off) id)).
  assert (Hbs : length bs = Z.to_nat n) by (unfold bs; rewrite length_take, length_drop; lia).
  erewrite bind_done by reflexivity. cbn [user with_user].
  destruct (ubytes_uwrite_mapped _ _ _ _ _ _ _ Hold Hold' bs Hbs) as [old'' Hold''].
  edestruct (IH (off + n) (with_user (uwrite (user w) buf bs) (with_event (DumpStack, 0) w)))
    as [w' E]; [exact Hid|lia|exact Hold''|lia|].
  rewrite (bind_done _ _ _ _ _ E). krun. exists w'. do 3 f_equal.
  rewrite (uprefix_ok _ _ _ bs) by (rewrite <- Hbs; apply ubytes_uwrite).
  rewrite Z2Nat.inj_add by lia. rewrite <- drop_drop. apply take_drop.
Qed.

(** C31 Reading the proc file to its end, in pieces of any size, delivers
    exactly the text and terminates: twelve calls are always enough. *)
Theorem procfs_read_delivers_text buf len w old :
  my_eud_id (Procfs.bufs (glob w)) = my_eud_id buffers_static ->
  0 < len -> ubytes (user w) buf (Z.to_nat len) = Some old ->
  exists w', read_all 12 buf len 0 w = (Done (str "HELLO WORLD"), w').
Proof.
  intros Hid Hlen Hold. apply (read_all_run (str "HELLO WORLD") 12 buf len 0 w old); try done.
  - unfold no_nul. cbn. repeat (constructor; [lia|]). constructor.
  - simpl. lia.
Qed.

(** Loading and unloading the proc module is clean: in every state the
    loader can reach, with every answer of the kernel, an unloaded module
    holds no proc entry (a failed load included), and a loaded one can be
    unloaded without a fault, which removes both. *)
Theorem procfs_module_lifecycle (w0 : world Procfs.state) (L : list resource) s :
  wf_world w0 -> holds (log w0) L ->
  rtc (mstep procfs_module) (Machine false w0) s ->
  (loaded s = false -> holds (log (wld s)) L) /\
  (loaded s = true -> exists w', Procfs.procexample_module_exit (wld s) = (Done tt, w') /\ holds (log w') L).
Proof. exact (clean_lifecycle procfs_module w0 L s). Qed.
End Properties.

(** ** Concrete runs *)

(** "linux" at address 100, "abcde" at 200. *)
Definition demo_user : gmap Z Z := uwrite (uwrite ∅ 100 (str "linux")) 200 (str "abcde").

Definition demo_proc : world Procfs.state := World ∅ 1 demo_user [] (Procfs.State buffers_static 1 1).

Definition demo_misc : world buffers := World ∅ 1 demo_user [] buffers_static.

Lemma procfs_misc_equivalent_witness :
  exists o w1' w2',
    Procfs.my_write 100 5 0 demo_proc = (o, w1') /\ MiscDev.my_write 100 5 0 demo_misc = (o, w2') /\
    Procfs.bufs (glob w1') = glob w2'.
Proof.
  destruct (procfs_misc_equivalent 100 5 0 demo_proc demo_misc eq_refl eq_refl)
    as (o & w1 & w2 & E1 & E2 & H & _). by exists o, w1, w2.
Defined.

Lemma procfs_write_checks_password_witness :
  (exists w', Procfs.my_write 100 5 0 demo_proc = (Done (5, 5), w')) /\
  (exists w', Procfs.my_write 200 5 0 demo_proc = (Done (- EINVAL, 5), w')).
Proof.
  split.
  - destruct (procfs_write_checks_password 100 5 (str "linux") demo_proc) as (w' & E & _);
      [done|lia|done|]. by exists w'.
  - destruct (procfs_write_checks_password 200 5 (str "abcde") demo_proc) as (w' & E & _);
      [done|lia|done|]. by exists w'.
Defined.

(** A process with 200 mapped bytes at address 1000. *)
Definition big_misc : world buffers :=
  World ∅ 1 (uwrite ∅ 1000 (replicate 200 65)) [] buffers_static.

Lemma misc_write_overflows_witness :
  (exists w', MiscDev.my_write 1000 200 0 big_misc = (Oops (OutOfBounds 128), w')) /\
  (exists w', MiscDev.my_write 0 1 0 big_misc = (Oops (OutOfBounds (-14)), w')).
Proof.
  split.
  - destruct (misc_write_overflows 1000 200 0 big_misc eq_refl ltac:(lia)) as (o & w' & E & _ & _ & _ & H).
    destruct (H (replicate 128 65)) as [-> _]; [lia|lia|vm_compute; reflexivity|]. by exists w'.
  - destruct (misc_write_overflows 0 1 0 big_misc eq_refl ltac:(lia)) as (o & w' & E & _ & H & _).
    destruct H as [-> _]; [lia|lia|vm_compute; reflexivity|]. by exists w'.
Defined.

(** The password has been written before. *)
Definition unlocked_proc : world Procfs.state :=
  World ∅ 1 demo_user []
    (Procfs.State (Buffers (str "linux" ++ 0 :: replicate 122 0) (my_eud_id buffers_static)) 1 1).

Lemma procfs_accepts_stale_password_witness :
  exists w', Procfs.my_write 200 5 10 unlocked_proc = (Done (5, 15), w').
Proof.
  apply (procfs_accepts_stale_password 200 10 (replicate 122 0) (str "abcde") unlocked_proc);
    [done|done|lia|done].
Defined.

Lemma procfs_read_delivers_text_witness :
  exists w', read_all 12 200 5 0 demo_proc = (Done (str "HELLO WORLD"), w').
Proof.
  apply (procfs_read_delivers_text 200 5 demo_proc (str "abcde")); [done|lia|done].
Defined.

Definition fresh_proc : world Procfs.state := World ∅ 1 ∅ [] (Procfs.State buffers_static 0 0).

Definition loaded_proc : world Procfs.state :=
  (Procfs.procexample_module_init (ENV := calm) fresh_proc).2.

Lemma procfs_module_lifecycle_witness :
  exists w', Procfs.procexample_module_exit loaded_proc = (Done tt, w') /\ holds (log w') [].
Proof.
  apply (procfs_module_lifecycle (ENV := calm) fresh_proc [] (Machine true loaded_proc)).
  - by apply wf_world_empty.
  - by exists [].
  - apply (rtc_l _ _ (Machine true loaded_proc)); [|apply rtc_refl].
    exact (step_insmod (procfs_module (ENV := calm)) fresh_proc 0 loaded_proc eq_refl).
  - reflexivity.
Defined.
