(* ===== verification/Sysfs.v ===== *)
(** * Attributes in sysfs (src/kobjects.c and src/sysfs_example.c)

    Both modules create a directory under /sys/kernel with attribute files.
    [Kobjects] keeps a ten-byte text "foo" and two integers "baz" and "bar";
    [Example] keeps a fixed identifier, a password buffer and a page of text.
    Sysfs hands a store function the written bytes with a NUL behind them and
    a show function a page to print to. *)

From stdpp Require Import base gmap list numbers list_numbers strings relations.
From Stdlib Require Import ZArith Lia.
From S2P Require Import Prelude Kernel Lifecycle.

Definition PAGE_SIZE : Z := 4096.

(** ** The library functions the attributes use *)

(** The kernel's character classes count the non-breaking space as space. *)
Definition isspace (c : Z) : bool := ((9 <=? c) && (c <=? 13)) || (c =? 32) || (c =? 160).

Fixpoint skip_spaces (s : list Z) : list Z :=
  match s with
  | [] => []
  | c :: s' => if isspace c then skip_spaces s' else s
  end.

Fixpoint while_ok (p : Z -> bool) (s : list Z) : list Z :=
  match s with
  | [] => []
  | c :: s' => if p c then c :: while_ok p s' else []
  end.

(** [sscanf(s, "%s", ...)]: the word that is stored, [None] when the text is
    empty and nothing is. *)
Definition scan_s (s : list Z) : option (list Z) :=
  match s with
  | [] => None
  | _ => Some (while_ok (fun c => negb (isspace c)) (skip_spaces s))
  end.

(** [sscanf(s, "%d", ...)]: the integer, [None] when there is no number. *)
Definition scan_d (s : list Z) : option Z :=
  match skip_spaces s with
  | [] => None
  | c :: t =>
      if c =? 45 then
        match t with
        | [] => None
        | d :: _ => if is_digit d then Some (s32 (- undec (while_ok is_digit t))) else None
        end
      else if is_digit c then Some (s32 (undec (while_ok is_digit (c :: t)))) else None
  end.

(** [strncpy(dst, src, n)]: the [n] bytes it writes. *)
Fixpoint strncpy (src : list Z) (n : nat) : list Z :=
  match n with
  | O => []
  | S n' =>
      match src with
      | [] => replicate (S n') 0
      | c :: src' => if c =? 0 then replicate (S n') 0 else c :: strncpy src' n'
      end
  end.

(** [sprintf] to the page of a show function: the length and the text. *)
Definition show_text {S} (text : list Z) : K S (Z * list Z) :=
  if Z.of_nat (length text) + 1 <=? PAGE_SIZE then mret (Z.of_nat (length text), text)
  else oops (OutOfBounds PAGE_SIZE).

Module Kobjects.

Record state := State {
  foo : list Z;          (* char foo[10] *)
  baz : Z;
  bar : Z;
  example_kobj : Z;
}.

Definition set_foo (b : list Z) (g : state) := State b (baz g) (bar g) (example_kobj g).
Definition set_baz (z : Z) (g : state) := State (foo g) z (bar g) (example_kobj g).
Definition set_bar (z : Z) (g : state) := State (foo g) (baz g) z (example_kobj g).
Definition set_kobj (p : Z) (g : state) := State (foo g) (baz g) (bar g) p.

Definition static : state := State (replicate 10 0) 0 0 0.

Section Handlers.
Context {ENV : Env}.

Definition foo_show : K state (Z * list Z) :=
  g ← get;
  s ← of_option Unterminated (cstr (foo g));
  show_text (s ++ [10]).

Definition foo_store (buf : list Z) (count : Z) : K state Z :=
  s ← of_option Unterminated (cstr buf);
  g ← get;
  match scan_s s with
  | None => mret count
  | Some word =>
      b ← of_option (OutOfBounds (Z.of_nat (length word))) (asets (foo g) 0 (word ++ [0]));
      modify (set_foo b);;
      mret count
  end.

Definition b_show (name : list Z) : K state (Z * list Z) :=
  g ← get;
  let var := if strcmp name (str "baz") =? 0 then baz g else bar g in
  show_text (sdec var ++ [10]).

(** [var] is not initialised: without a number it keeps what the stack held. *)
Definition b_store (name buf : list Z) (count : Z) : K state Z :=
  s ← of_option Unterminated (cstr buf);
  junk ← (fun w => (Done (s32 (kjunk (log w) 0)), w) : outcome Z * world state);
  let var := default junk (scan_d s) in
  (if strcmp name (str "baz") =? 0 then modify (set_baz var) else modify (set_bar var));;
  mret count.

Definition example_init : K state Z :=
  k ← call (KobjectCreateAndAdd "kobject_example");
  modify (set_kobj k);;
  if k =? 0 then mret (- ENOMEM)
  else
    retval ← call (SysfsCreateGroup k);
    (if negb (retval =? 0) then docall (KobjectPut k) else mret tt);;
    mret retval.

Definition example_exit : K state unit :=
  g ← get; docall (KobjectPut (example_kobj g)).
End Handlers.
End Kobjects.

Module Example.

Record state := State {
  kern_buff : list Z;         (* char kern_buff[128] *)
  my_eud_id : list Z;         (* char my_eud_id[13] *)
  my_page_buffer : Z;
  my_sysfs_kobj : Z;
}.

Definition set_kern_buff (b : list Z) (g : state) :=
  State b (my_eud_id g) (my_page_buffer g) (my_sysfs_kobj g).
Definition set_page (p : Z) (g : state) := State (kern_buff g) (my_eud_id g) p (my_sysfs_kobj g).
Definition set_kobj (p : Z) (g : state) := State (kern_buff g) (my_eud_id g) (my_page_buffer g) p.

(** The initialiser has thirteen characters: no room for a terminator. *)
Definition static : state := State (replicate 128 0) (str "HELLO  WORLD" ++ [10]) 0 0.

Section Handlers.
Context {ENV : Env}.

Definition id_show : K state (Z * list Z) :=
  g ← get;
  s ← of_option Unterminated (cstr (my_eud_id g));
  show_text (s ++ [10]).

Definition id_store (buf : list Z) (count : Z) : K state Z :=
  s ← of_option Unterminated (cstr buf);
  g ← get;
  b ← match scan_s s with
      | None => mret (kern_buff g)
      | Some word => of_option (OutOfBounds (Z.of_nat (length word))) (asets (kern_buff g) 0 (word ++ [0]))
      end;
  modify (set_kern_buff b);;
  k ← of_option Unterminated (cstr b);
  printk "%s string from userspace\n" [PStr k];;
  if negb (strcmp k (str "ritsz") =? 0) then mret (- EINVAL) else mret count.

(** [jiffies] is the kernel's clock. *)
Definition jiffies_show (jiffies : Z) : K state (Z * list Z) := show_text (dec jiffies ++ [10]).

(** The string at a heap address. *)
Definition heap_str (p : Z) : K state (list Z) :=
  b ← block p; of_option Unterminated (cstr b).

Definition foo_show : K state (Z * list Z) :=
  docall ReadLock;;
  g ← get;
  s ← heap_str (my_page_buffer g);
  r ← show_text (s ++ [10]);
  docall ReadUnlock;;
  mret r.

Definition foo_store (buf : list Z) (count : Z) : K state Z :=
  docall WriteLock;;
  g ← get;
  stores (my_page_buffer g) 0 (strncpy buf (Z.to_nat count));;
  s ← heap_str (my_page_buffer g);
  printk "GOT %s from USER\n" [PStr s];;
  docall WriteUnlock;;
  mret count.

Definition my_sysfs_init : K state Z :=
  p ← kmalloc PAGE_SIZE;
  modify (set_page p);;
  if p =? 0 then mret (- ENOMEM)
  else
    k ← call (KobjectCreateAndAdd "my_sysfs");
    modify (set_kobj k);;
    if k =? 0 then mret (- ENOMEM)
    else
      retval ← call (SysfsCreateGroup k);
      (if negb (retval =? 0) then docall (KobjectPut k) else mret tt);;
      mret retval.

Definition my_sysfs_exit : K state unit :=
  g ← get;
  kfree (my_page_buffer g);;
  docall (KobjectPut (my_sysfs_kobj g)).
End Handlers.
End Example.

(** ** Scanning *)

(** [r] does not continue a run of characters with property [p]. *)
Definition stops (p : Z -> bool) (r : list Z) : Prop :=
  match r with [] => True | c :: _ => p c = false end.

Lemma while_ok_app p l r :
  Forall (fun c => p c = true) l -> stops p r -> while_ok p (l ++ r) = l.
Proof.
  induction 1 as [|c l Hc Hl IH]; simpl; intros Hr.
  - destruct r as [|c r]; simpl in *; [done|by rewrite Hr].
  - by rewrite Hc, IH.
Qed.

Lemma digit_not_space c : is_digit c = true -> isspace c = false.
Proof. unfold is_digit, isspace. lia. Qed.

Lemma skip_spaces_none c s : isspace c = false -> skip_spaces (c :: s) = c :: s.
Proof. intros H. simpl. by rewrite H. Qed.

Lemma dec_cons n : 0 <= n -> exists d ds, dec n = d :: ds /\ is_digit d = true.
Proof.
  intros Hn. pose proof (dec_digits n Hn) as Hd. pose proof (dec_nonempty n Hn) as Hne.
  destruct (dec n) as [|d ds]; [done|]. apply Forall_cons_1 in Hd as [Hd _]. eauto.
Qed.

(** Scanning what [%d] printed gives the number back. *)
Lemma scan_d_sdec z r :
  - 2 ^ 31 <= z < 2 ^ 31 -> stops is_digit r -> scan_d (sdec z ++ r) = Some z.
Proof.
  intros Hz Hr. unfold sdec, scan_d. destruct (Z.ltb_spec z 0) as [Hneg|Hpos].
  - destruct (dec_cons (- z)) as (d & ds & E & Hd); [lia|]. rewrite E. cbn [app].
    rewrite skip_spaces_none by done. cbn [Z.eqb Pos.eqb]. rewrite Hd.
    change (d :: ds ++ r) with ((d :: ds) ++ r). rewrite <- E, while_ok_app by (done || apply dec_digits; lia).
    rewrite undec_dec by lia. f_equal. rewrite Z.opp_involutive. apply wrapS_small; lia.
  - destruct (dec_cons z) as (d & ds & E & Hd); [lia|]. rewrite E. cbn [app].
    rewrite skip_spaces_none by (by apply digit_not_space).
    rewrite (proj2 (Z.eqb_neq d 45)) by (intros ->; done). rewrite Hd.
    change (d :: ds ++ r) with ((d :: ds) ++ r). rewrite <- E, while_ok_app by (done || apply dec_digits; lia).
    by rewrite undec_dec, wrapS_small by lia.
Qed.

Lemma sdec_text z : no_nul (sdec z).
Proof.
  unfold sdec, no_nul. destruct (Z.ltb_spec z 0).
  - constructor; [done|]. apply digits_no_nul, dec_digits. lia.
  - apply digits_no_nul, dec_digits. lia.
Qed.

Lemma sdec_length z : - 2 ^ 31 <= z < 2 ^ 31 -> (length (sdec z) <= 11)%nat.
Proof.
  intros Hz. assert (H : forall n, 0 <= n <= 2 ^ 31 -> (length (dec n) <= 10)%nat).
  { intros n Hn. apply dec_length; [|lia]. split; [lia|]. simpl. lia. }
  unfold sdec. destruct (Z.ltb_spec z 0); simpl; [specialize (H (- z)); lia|specialize (H z); lia].
Qed.

Lemma scan_s_word word r :
  word <> [] -> Forall (fun c => isspace c = false) word -> stops (fun c => negb (isspace c)) r ->
  scan_s (word ++ r) = Some word.
Proof.
  intros Hne Hw Hr. destruct word as [|c word]; [done|]. cbn [app scan_s].
  rewrite skip_spaces_none by (by apply Forall_cons_1 in Hw as [? _]).
  f_equal. change (c :: word ++ r) with ((c :: word) ++ r). apply while_ok_app; [|done].
  eapply Forall_impl; [exact Hw|]. intros x Hx. by rewrite Hx.
Qed.

Lemma run_show_text {S} text (w : world S) :
  Z.of_nat (length text) + 1 <= PAGE_SIZE ->
  show_text text w = (Done (Z.of_nat (length text), text), w).
Proof. intros H. unfold show_text. by rewrite (proj2 (Z.leb_le _ _) H). Qed.

(** ** Loading and unloading kobjects.c *)

Inductive attr_call :=
| FooShow | FooStore (buf : list Z) (count : Z)
| BShow (name : list Z) | BStore (name buf : list Z) (count : Z).

Section KobjectsModule.
Context {ENV : Env}.

Definition kobjects_op (c : attr_call) : K Kobjects.state Z :=
  match c with
  | FooShow => r ← Kobjects.foo_show; mret r.1
  | FooStore buf count => Kobjects.foo_store buf count
  | BShow name => r ← Kobjects.b_show name; mret r.1
  | BStore name buf count => Kobjects.b_store name buf count
  end.

Definition kobjects_module : kmodule Kobjects.state attr_call :=
  KModule Kobjects.static Kobjects.example_init Kobjects.example_exit kobjects_op.

Definition kobjects_res (g : Kobjects.state) : list resource := [RKobj (Kobjects.example_kobj g)].

Definition kobjects_inv (w : world Kobjects.state) : Prop := Kobjects.example_kobj (glob w) <> 0.

(** The attribute functions touch nothing but the three variables. *)
Lemma kobjects_op_frame c w r w' :
  kobjects_op c w = (Done r, w') ->
  heap w' = heap w /\ brk w' = brk w /\ log w' = log w /\
  Kobjects.example_kobj (glob w') = Kobjects.example_kobj (glob w).
Proof.
  destruct c as [|buf count|name|name buf count]; cbn [kobjects_op];
    unfold Kobjects.foo_show, Kobjects.foo_store, Kobjects.b_show, Kobjects.b_store, show_text,
      of_option, oops, get, modify, mbind, K_bind, mret, K_ret;
    intros H; repeat (case_match; simplify_eq/=); done.
Qed.

#[global] Instance kobjects_clean : CleanModule kobjects_module.
Proof.
  refine (Build_CleanModule _ _ kobjects_module kobjects_res kobjects_inv _ _ _).
  - intros w L Hwf Hg Hh. unfold kobjects_module, mod_init, Kobjects.example_init. krun.
    set (k := kret (log w) _). destruct (Z.eqb_spec k 0) as [E|E]; krun.
    { eexists _, _. split; [done|]. split; [done|]. ledger_auto. }
    set (r := kret _ (SysfsCreateGroup _)). destruct (Z.eqb_spec r 0) as [Er|Er]; cbn [negb]; krun;
      (eexists _, _; split; [done|]; split; [done|]).
    + rewrite Er. cbn [Z.eqb]. split; [done|]. unfold kobjects_res.
      cbn [glob with_event with_glob Kobjects.example_kobj Kobjects.set_kobj]. ledger_auto.
    + rewrite (proj2 (Z.eqb_neq _ _) Er). ledger_auto.
  - intros w L Hwf Hi Hh. unfold kobjects_module, mod_exit, Kobjects.example_exit, kobjects_res, kobjects_inv in *.
    krun. eexists. split; [done|]. split; [done|]. ledger_auto.
  - intros w o r w' L Hwf Hi H Hh. apply kobjects_op_frame in H as (Hp & Hb & Hl & Hk).
    unfold wf_world, kobjects_inv, kobjects_res in *. by rewrite Hp, Hb, Hl, Hk.
Defined.
End KobjectsModule.

(** ** Well-typed attributes

    The text fits its array and is terminated, the integers are ints. *)

Definition is_int (z : Z) : Prop := - 2 ^ 31 <= z < 2 ^ 31.

Definition kobjects_typed (g : Kobjects.state) : Prop :=
  length (Kobjects.foo g) = 10%nat /\ is_Some (cstr (Kobjects.foo g)) /\
  is_int (Kobjects.baz g) /\ is_int (Kobjects.bar g).

Section Typing.
Context {ENV : Env}.
Implicit Types w : world Kobjects.state.

Lemma while_ok_no_nul p s : no_nul s -> no_nul (while_ok p s).
Proof.
  induction 1 as [|c s Hc Hs IH]; cbn [while_ok]; [constructor|].
  destruct (p c); [by constructor|constructor].
Qed.

Lemma skip_spaces_no_nul s : no_nul s -> no_nul (skip_spaces s).
Proof. induction 1 as [|c s Hc Hs IH]; cbn [skip_spaces]; [constructor|]. destruct (isspace c); [done|by constructor]. Qed.

Lemma scan_s_no_nul s t : no_nul s -> scan_s s = Some t -> no_nul t.
Proof.
  intros Hs%skip_spaces_no_nul%(while_ok_no_nul (fun c => negb (isspace c))).
  unfold scan_s. destruct s; [done|]. by intros [= <-].
Qed.

Lemma scan_d_int s z : scan_d s = Some z -> is_int z.
Proof.
  unfold scan_d. intros H. repeat case_match; simplify_eq; apply (wrapS_range 32); lia.
Qed.

Ltac fault_kept := unfold oops, mbind, K_bind in *; simplify_eq; split_and!.

Lemma foo_store_typed buf count : preserves kobjects_typed (Kobjects.foo_store buf count).
Proof.
  intros w o w' H (Hl & Hc & Hz & Hr). unfold Kobjects.foo_store in H.
  destruct (cstr buf) as [s|] eqn:Es; cbn [of_option] in H; autorewrite with krun in H; [|by fault_kept].
  apply cstr_Some in Es as [Hs _].
  destruct (scan_s s) as [word|] eqn:Ew; autorewrite with krun in H; [|by simplify_eq].
  apply (scan_s_no_nul _ _ Hs) in Ew.
  destruct (asets (Kobjects.foo (glob w)) 0 (word ++ [0])) as [b|] eqn:Eb; cbn [of_option] in H;
    autorewrite with krun in H; [|by fault_kept].
  simplify_eq. unfold kobjects_typed. cbn [glob with_glob Kobjects.foo Kobjects.baz Kobjects.bar Kobjects.set_foo].
  split_and!; [| |done|done].
  - by rewrite (asets_length _ _ _ _ Eb).
  - destruct (Nat.le_gt_cases (length (word ++ [0])) (length (Kobjects.foo (glob w)))).
    + rewrite asets_0 in Eb by done. simplify_eq. rewrite <- app_assoc. cbn [app].
      exists word. by apply cstr_app_nul.
    + rewrite asets_out in Eb by lia. done.
Qed.

Lemma b_store_typed name buf count : preserves kobjects_typed (Kobjects.b_store name buf count).
Proof.
  intros w o w' H (Hl & Hc & Hz & Hr). unfold Kobjects.b_store in H.
  destruct (cstr buf) as [s|]; cbn [of_option] in H; autorewrite with krun in H; [|by fault_kept].
  unfold mbind at 1, K_bind at 1 in H.
  assert (Hv : is_int (default (s32 (kjunk (log w) 0)) (scan_d s))).
  { destruct (scan_d s) eqn:E; [by eapply scan_d_int|]. apply (wrapS_range 32). lia. }
  destruct (strcmp name (str "baz") =? 0); autorewrite with krun in H; simplify_eq; by split_and!.
Qed.

Lemma kobjects_op_typed c : preserves kobjects_typed (kobjects_op c).
Proof.
  destruct c; cbn [kobjects_op]; [|apply foo_store_typed| |apply b_store_typed];
    unfold Kobjects.foo_show, Kobjects.b_show, show_text; eauto 20 with preserves.
Qed.
Lemma cstr_short a t : cstr a = Some t -> (length t < length a)%nat.
Proof. intros (_ & r & ->)%cstr_Some. rewrite length_app. simpl. lia. Qed.

(** Which attribute calls fault: a store of a text without terminator, and a
    store of a word that does not fit the ten bytes of foo. *)
Definition attr_fault (c : attr_call) : option fault :=
  match c with
  | FooShow | BShow _ => None
  | FooStore buf _ =>
      match cstr buf with
      | None => Some Unterminated
      | Some s =>
          match scan_s s with
          | Some word => if (10 <=? length word)%nat then Some (OutOfBounds (Z.of_nat (length word))) else None
          | None => None
          end
      end
  | BStore _ buf _ => match cstr buf with None => Some Unterminated | Some _ => None end
  end.

Lemma show_typed name w :
  kobjects_typed (glob w) ->
  (exists t, Kobjects.foo_show w = (Done (Z.of_nat (length t), t), w)) /\
  exists t, Kobjects.b_show name w = (Done (Z.of_nat (length t), t), w).
Proof.
  intros (Hlen & [t Ht] & Hz & Hr). split.
  - exists (t ++ [10]). unfold Kobjects.foo_show. krun. rewrite Ht. cbn [of_option]. krun.
    apply run_show_text. apply cstr_short in Ht. rewrite length_app. unfold PAGE_SIZE. simpl. lia.
  - eexists. unfold Kobjects.b_show. krun. apply run_show_text.
    rewrite length_app. unfold PAGE_SIZE. simpl.
    destruct (_ =? 0); [apply sdec_length in Hz|apply sdec_length in Hr]; lia.
Qed.

(** On well-typed variables exactly these calls fault. *)
Lemma kobjects_op_ends c w :
  kobjects_typed (glob w) ->
  match attr_fault c with
  | Some f => exists w', kobjects_op c w = (Oops f, w')
  | None => exists r w', kobjects_op c w = (Done r, w')
  end.
Proof.
  intros Ht. destruct c as [|buf count|name|name buf count]; cbn [attr_fault kobjects_op].
  - destruct (show_typed [] w Ht) as [[t E] _]. rewrite (bind_done _ _ _ _ _ E). by eexists _, _.
  - unfold Kobjects.foo_store. destruct (cstr buf) as [s|]; cbn [of_option]; krun; [|by eexists].
    destruct (scan_s s) as [word|]; krun; [|by eexists _, _]. destruct Ht as (Hl & _).
    destruct (Nat.leb_spec 10 (length word)) as [Hw|Hw].
    + rewrite asets_out by (rewrite length_app; simpl; lia). by eexists.
    + rewrite asets_0 by (rewrite length_app; simpl; lia). cbn [of_option]. krun. by eexists _, _.
  - destruct (show_typed name w Ht) as [_ [t E]]. rewrite (bind_done _ _ _ _ _ E). by eexists _, _.
  - unfold Kobjects.b_store. destruct (cstr buf) as [s|]; cbn [of_option]; krun; [|by eexists].
    erewrite bind_done by reflexivity. destruct (_ =? 0); krun; by eexists _, _.
Qed.

(** C20 The variables behind the attributes of kobjects.c: in every state the
    loader reaches before a call faults, the text is a terminated string
    within its ten bytes and the integers are ints.  From such a state
    reading any attribute succeeds, and a store succeeds and leaves the
    variables well typed unless its text has no terminator or it stores a
    word of ten characters or more to foo, which it writes past the end of
    the array: these stores, and only these, fault, and the invariant is not
    claimed behind them. *)
Theorem kobjects_well_typed w0 s :
  rtc (mstep kobjects_module) (Machine false w0) s -> loaded s = true ->
  kobjects_typed (glob (wld s)) /\
  forall c, match attr_fault c with
    | Some f => exists w', kobjects_op c (wld s) = (Oops f, w')
    | None => exists r w', kobjects_op c (wld s) = (Done r, w') /\ kobjects_typed (glob w')
    end.
Proof.
  intros Hs Hl. assert (Ht : kobjects_typed (glob (wld s))).
  { apply (reachable_typed kobjects_module kobjects_typed w0); [by split_and!; [|exists []|..]| | |done|done].
    - unfold kobjects_module, mod_init, Kobjects.example_init.
      apply preserves_bind; [eauto with preserves|]. intros k.
      apply preserves_bind; [by apply preserves_modify|eauto 20 with preserves].
    - intros c. apply kobjects_op_typed. }
  split; [done|]. intros c. pose proof (kobjects_op_ends c (wld s) Ht) as H.
  destruct (attr_fault c); [done|]. destruct H as (r & w' & E). exists r, w'. split; [done|].
  by eapply kobjects_op_typed.
Qed.
End Typing.

(** ** Properties *)

Section Properties.
Context {ENV : Env}.

(** C40 The integer attributes of kobjects.c: whatever int is written to "baz"
    or "bar" in decimal (followed by anything that is not a digit) is what
    the next read of that attribute prints, and the other attribute keeps
    printing what it printed before. *)
Theorem kobjects_int_roundtrip name z r count w :
  - 2 ^ 31 <= z < 2 ^ 31 -> stops is_digit r -> no_nul r ->
  exists w1,
    Kobjects.b_store name (sdec z ++ r ++ [0]) count w = (Done count, w1) /\
    Kobjects.b_show name w1 = (Done (Z.of_nat (length (sdec z)) + 1, sdec z ++ [10]), w1) /\
    forall name', (strcmp name' (str "baz") =? 0) = negb (strcmp name (str "baz") =? 0) ->
      (Kobjects.b_show name' w1).1 = (Kobjects.b_show name' w).1.
Proof.
  intros Hz Hr Hn. unfold Kobjects.b_store.
  rewrite app_assoc, cstr_app_nul by (apply Forall_app; split; [apply sdec_text|done]).
  cbn [of_option]. krun. erewrite bind_done by reflexivity. rewrite scan_d_sdec by done. cbn [default].
  assert (Hs : forall g (w' : world Kobjects.state), g = z ->
    show_text (sdec g ++ [10]) w' = (Done (Z.of_nat (length (sdec z)) + 1, sdec z ++ [10]), w')).
  { intros g w' ->. pose proof (sdec_length z Hz). rewrite run_show_text; rewrite length_app; cbn [length].
    - do 3 f_equal. lia. - unfold PAGE_SIZE. lia. }
  unfold Kobjects.b_show. destruct (strcmp name (str "baz") =? 0); krun; eexists; (split; [reflexivity|]);
    (split; [krun; by apply Hs|]); intros name' Hx; rewrite Hx; krun;
    cbn [negb Kobjects.bar Kobjects.baz Kobjects.set_baz Kobjects.set_bar glob with_glob];
    unfold show_text; by destruct (_ <=? _).
Qed.

(** The text attribute of kobjects.c: a word of at most nine characters is
    printed back, a longer one is written past the end of [foo]. *)
Theorem kobjects_foo_store word r count w :
  length (Kobjects.foo (glob w)) = 10%nat ->
  word <> [] -> Forall (fun c => isspace c = false) word -> no_nul word -> no_nul r ->
  stops (fun c => negb (isspace c)) r ->
  if decide (length word <= 9)%nat then
    exists w1, Kobjects.foo_store (word ++ r ++ [0]) count w = (Done count, w1) /\
      Kobjects.foo_show w1 = (Done (Z.of_nat (length word) + 1, word ++ [10]), w1) /\
      length (Kobjects.foo (glob w1)) = 10%nat
  else
    Kobjects.foo_store (word ++ r ++ [0]) count w = (Oops (OutOfBounds (Z.of_nat (length word))), w).
Proof.
  intros Hl Hne Hsp Hw Hr Hst. unfold Kobjects.foo_store.
  rewrite app_assoc, cstr_app_nul by (by apply Forall_app). cbn [of_option].
  case_decide as Hlen; krun; rewrite scan_s_word by done.
  - rewrite asets_0 by (rewrite length_app; simpl; lia). cbn [of_option]. krun. eexists. split; [reflexivity|].
    unfold Kobjects.foo_show. krun. cbn [Kobjects.foo Kobjects.set_foo glob with_glob]. split.
    + rewrite <- app_assoc. cbn [app]. rewrite cstr_app_nul by done. cbn [of_option]. krun.
      rewrite run_show_text; rewrite length_app; cbn [length]; [|unfold PAGE_SIZE; lia].
      do 3 f_equal. lia.
    + rewrite !length_app, length_drop, ?length_app. simpl. lia.
  - rewrite asets_out; [done|]. rewrite length_app. cbn [length]. lia.
Qed.

(** A page of text, its string and the driver's pointer to it. *)
Definition page (b : list Z) (w : world Example.state) : Prop :=
  Example.my_page_buffer (glob w) <> 0 /\
  heap w !! Example.my_page_buffer (glob w) = Some b /\ Z.of_nat (length b) = PAGE_SIZE.

Lemma strncpy_text t n : no_nul t -> n = length t -> strncpy (t ++ [0]) n = t.
Proof.
  intros Ht ->. induction Ht as [|c t Hc Ht IH]; simpl; [done|].
  by rewrite (proj2 (Z.eqb_neq _ _) Hc), IH.
Qed.

(** Storing a text into "foo" of sysfs_example.c does not terminate it:
    after a shorter text [t] over an older one, the attribute shows [t]
    followed by the rest of the old text.  The lock is released. *)
Theorem sysfs_foo_keeps_old_tail t old b w :
  page b w -> cstr b = Some old -> no_nul t -> (length t <= length old)%nat ->
  Z.of_nat (length old) + 2 <= PAGE_SIZE ->
  exists w1 w2,
    Example.foo_store (t ++ [0]) (Z.of_nat (length t)) w = (Done (Z.of_nat (length t)), w1) /\
    Example.foo_show w1 =
      (Done (Z.of_nat (length old) + 1, t ++ drop (length t) old ++ [10]), w2) /\
    hd_error (log w1) = Some (WriteUnlock, 0) /\ hd_error (log w2) = Some (ReadUnlock, 0).
Proof.
  intros (Hp & Hb & Hlen) Hold Ht Hle Hmax. unfold Example.foo_store. krun.
  rewrite Nat2Z.id, strncpy_text by done. apply cstr_Some in Hold as [Hno [tl ->]].
  erewrite bind_done; [|eapply run_stores; [done|exact Hb|]]; cycle 1.
  { apply asets_0. rewrite length_app. lia. }
  rewrite drop_app_le by lia. set (new := t ++ drop (length t) old ++ 0 :: tl).
  assert (Hc : cstr new = Some (t ++ drop (length t) old)).
  { unfold new. rewrite app_assoc. apply cstr_app_nul, Forall_app. split; [done|]. by apply Forall_drop. }
  assert (Hstr : forall w' : world Example.state, heap w' !! Example.my_page_buffer (glob w) = Some new ->
    Example.heap_str (Example.my_page_buffer (glob w)) w' = (Done (t ++ drop (length t) old), w')).
  { intros w' H. unfold Example.heap_str. kstep run_block. rewrite Hc. done. }
  erewrite bind_done by (apply Hstr; apply lookup_insert_eq). krun. eexists _, _. split; [reflexivity|].
  unfold Example.foo_show. krun. erewrite bind_done by (apply Hstr; apply lookup_insert_eq).
  erewrite bind_done; [|apply run_show_text; rewrite !length_app, length_drop; cbn [length]; lia].
  krun. rewrite <- app_assoc.
  replace (Z.of_nat (length (t ++ drop (length t) old ++ [10]))) with (Z.of_nat (length old) + 1)
    by (rewrite !length_app, length_drop; cbn [length]; lia).
  split; [reflexivity|done].
Qed.

(** The identifier of sysfs_example.c has no terminating NUL: reading "id"
    runs past the array. *)
Theorem sysfs_id_show_unterminated w :
  Example.my_eud_id (glob w) = Example.my_eud_id Example.static ->
  Example.id_show w = (Oops Unterminated, w).
Proof. intros H. unfold Example.id_show. krun. by rewrite H. Qed.

(** When the directory or its files cannot be created, [my_sysfs_init]
    fails and the page it allocated is lost. *)
Theorem sysfs_init_failure_leaks_page w L r w1 :
  wf_world w -> holds (log w) L -> Example.my_sysfs_init w = (Done r, w1) ->
  r <> 0 -> Example.my_page_buffer (glob w1) <> 0 ->
  holds (log w1) (RMem (Example.my_page_buffer (glob w1)) :: L).
Proof.
  intros [Hb _] Hh H Hr Hp. unfold Example.my_sysfs_init in H.
  destruct (decide (kret (log w) (Kmalloc PAGE_SIZE) = 0)) as [Hk|Hk].
  { rewrite (bind_done _ _ _ _ _ (run_kmalloc_null _ _ Hk)) in H.
    autorewrite with krun in H. kcbn. cbn [Z.eqb] in H. autorewrite with krun in H. by simplify_eq. }
  rewrite (bind_done _ _ _ _ _ (run_kmalloc_ok _ _ Hk)) in H. autorewrite with krun in H.
  rewrite (proj2 (Z.eqb_neq (brk w) 0)) in H by lia. autorewrite with krun in H.
  match type of H with (if ?x =? 0 then _ else _) _ = _ => destruct (Z.eqb_spec x 0) as [E|E] end;
    autorewrite with krun in H.
  { simplify_eq. rewrite E. cbn [Example.my_page_buffer Example.set_page Example.set_kobj glob with_glob with_event]. ledger_auto. }
  match type of H with context [negb (?x =? 0)] => destruct (Z.eqb_spec x 0) as [Er|Er] end;
    cbn [negb] in H; autorewrite with krun in H; simplify_eq.
  cbn [Example.my_page_buffer Example.set_page Example.set_kobj glob with_glob with_event]. ledger_auto.
Qed.

(** Unloading frees the page before it removes the attributes: a process
    that reads "foo" in between uses freed memory, with the lock held. *)
Theorem sysfs_unload_race b w k L :
  page b w -> k = Example.my_sysfs_kobj (glob w) -> k <> 0 ->
  holds (log w) (RMem (Example.my_page_buffer (glob w)) :: RKobj k :: L) ->
  exists w1, kfree (Example.my_page_buffer (glob w)) w = (Done tt, w1) /\
    Example.my_sysfs_exit w = docall (KobjectPut k) w1 /\
    holds (log w1) (RKobj k :: L) /\
    exists w2, Example.foo_show w1 = (Oops (BadPointer (Example.my_page_buffer (glob w))), w2) /\
      hd_error (log w2) = Some (ReadLock, 0).
Proof.
  intros (Hp & Hb & _) -> Hk Hh. eexists. split; [by apply (run_kfree _ b)|].
  unfold Example.my_sysfs_exit. krun. rewrite (bind_done _ _ _ _ _ (run_kfree _ b _ Hp Hb)).
  split; [done|]. split; [ledger_auto|]. unfold Example.foo_show, Example.heap_str, block. krun.
  rewrite (proj2 (Z.eqb_neq _ _) Hp). erewrite bind_oops by (kcbn; rewrite lookup_delete_eq; reflexivity).
  by eexists.
Qed.
End Properties.

(** ** Concrete runs *)

Definition demo_kobj : world Kobjects.state := World ∅ 1 ∅ [] Kobjects.static.

(** echo -42 > baz *)
Lemma kobjects_int_roundtrip_witness :
  exists w1, Kobjects.b_store (ENV := calm) (str "baz") (str "-42" ++ [10; 0]) 4 demo_kobj = (Done 4, w1) /\
    Kobjects.b_show (str "baz") w1 = (Done (4, str "-42" ++ [10]), w1).
Proof.
  destruct (kobjects_int_roundtrip (ENV := calm) (str "baz") (-42) [10] 4 demo_kobj)
    as (w1 & E1 & E2 & _); [lia|done|repeat constructor; lia|].
  exists w1. split; [exact E1|exact E2].
Defined.

(** echo hello > foo, and a word of ten characters. *)
Lemma kobjects_foo_store_witness :
  (exists w1, Kobjects.foo_store (str "hello" ++ [10; 0]) 6 demo_kobj = (Done 6, w1) /\
    Kobjects.foo_show w1 = (Done (6, str "hello" ++ [10]), w1)) /\
  Kobjects.foo_store (replicate 10 65 ++ [0]) 10 demo_kobj = (Oops (OutOfBounds 10), demo_kobj).
Proof.
  split.
  - destruct (kobjects_foo_store (str "hello") [10] 6 demo_kobj) as (w1 & E1 & E2 & _); try done;
      try (cbn; repeat (constructor; [done || lia|]); constructor). by exists w1.
  - apply (kobjects_foo_store (replicate 10 65) [] 10 demo_kobj); try done;
      cbn; repeat (constructor; [done || lia|]); constructor.
Defined.

(** A page that holds "hello". *)
Definition demo_page : list Z := str "hello" ++ 0 :: replicate 4090 0.

Definition demo_sysfs : world Example.state :=
  World {[1 := demo_page]} 2 ∅ [(KobjectCreateAndAdd "my_sysfs", 7); (Kmalloc 4096, 1)]
    (Example.State (replicate 128 0) (Example.my_eud_id Example.static) 1 7).

Lemma demo_sysfs_page : page demo_page demo_sysfs.
Proof. split; [done|]. split; [reflexivity|]. vm_compute. reflexivity. Qed.

(** Storing "HE" over "hello" shows "HEllo". *)
Lemma sysfs_foo_keeps_old_tail_witness :
  exists w1 w2, Example.foo_store [72; 69; 0] 2 demo_sysfs = (Done 2, w1) /\
    Example.foo_show w1 = (Done (6, str "HEllo" ++ [10]), w2).
Proof.
  destruct (sysfs_foo_keeps_old_tail [72; 69] (str "hello") demo_page demo_sysfs demo_sysfs_page)
    as (w1 & w2 & E1 & E2 & _); [reflexivity|repeat constructor; lia|cbn; lia|unfold PAGE_SIZE; cbn; lia|].
  exists w1, w2. split; [exact E1|exact E2].
Defined.

Lemma sysfs_id_show_unterminated_witness : Example.id_show demo_sysfs = (Oops Unterminated, demo_sysfs).
Proof. exact (sysfs_id_show_unterminated demo_sysfs eq_refl). Defined.

(** The attribute group cannot be created. *)
Definition no_group : Env :=
  {| kret _ c := match c with SysfsCreateGroup _ => -12 | _ => calm_ret c end; kjunk _ _ := 0 |}.

Definition fresh_sysfs : world Example.state := World ∅ 1 ∅ [] Example.static.

Lemma sysfs_init_failure_leaks_page_witness :
  holds (log (Example.my_sysfs_init (ENV := no_group) fresh_sysfs).2) [RMem 1].
Proof.
  apply (sysfs_init_failure_leaks_page (ENV := no_group) fresh_sysfs [] (-12)
           (Example.my_sysfs_init (ENV := no_group) fresh_sysfs).2).
  - by apply wf_world_empty.
  - by exists [].
  - vm_compute. reflexivity.
  - lia.
  - vm_compute. discriminate.
Defined.

Lemma sysfs_unload_race_witness :
  exists w1, kfree 1 demo_sysfs = (Done tt, w1) /\
    holds (log w1) [RKobj 7] /\
    exists w2, Example.foo_show w1 = (Oops (BadPointer 1), w2).
Proof.
  destruct (sysfs_unload_race demo_page demo_sysfs 7 [] demo_sysfs_page eq_refl) as (w1 & E & _ & Hh & w2 & E2 & _).
  - lia.
  - eexists. split; [vm_compute; reflexivity|]. vm_compute. perm_solve.
  - exists w1. split; [exact E|]. split; [exact Hh|]. by exists w2.
Defined.

(** Loaded, and "hello" stored in foo. *)
Definition typed_kobjects : world Kobjects.state :=
  let w1 := (Kobjects.example_init (ENV := calm) (World ∅ 1 ∅ [] Kobjects.static)).2 in
  (kobjects_op (ENV := calm) (FooStore (str "hello" ++ [0]) 5) w1).2.

Lemma kobjects_well_typed_witness :
  kobjects_typed (glob typed_kobjects) /\
  (exists r w', kobjects_op (ENV := calm) FooShow typed_kobjects = (Done r, w') /\ kobjects_typed (glob w')) /\
  exists w', kobjects_op (ENV := calm) (FooStore (replicate 10 65 ++ [0]) 10) typed_kobjects =
    (Oops (OutOfBounds 10), w').
Proof.
  destruct (kobjects_well_typed (ENV := calm) (World ∅ 1 ∅ [] Kobjects.static) (Machine true typed_kobjects))
    as [Ht H].
  - eapply rtc_l; [apply (step_insmod (kobjects_module (ENV := calm))); reflexivity|].
    eapply rtc_l; [|apply rtc_refl]. apply (step_op (kobjects_module (ENV := calm)) _ (FooStore (str "hello" ++ [0]) 5) 5).
    reflexivity.
  - reflexivity.
  - split; [exact Ht|]. split; [exact (H FooShow)|exact (H (FooStore (replicate 10 65 ++ [0]) 10))].
Defined.
