(* ===== verification/Netfilter.v ===== *)
(** * The small packet modules (src/packet_filter.c, src/packet_block_protocol.c, src/packet_hello.c)

    Three modules that register one netfilter hook each: on packets leaving
    the machine, on packets for the machine (dropping ICMP), and on every
    packet that arrives. *)

From stdpp Require Import base gmap list numbers list_numbers strings.
From Stdlib Require Import ZArith Lia.
From S2P Require Import Prelude Kernel Lifecycle Inet.

(** The fields of [struct nf_hook_ops] the modules set. *)
Record nf_hook_ops := NfHookOps { hooknum : Z; pf : Z; priority : Z }.

Definition nfho_static : nf_hook_ops := NfHookOps 0 0 0.

(** The parts of a packet the hooks look at: the protocol number and the
    source address of the IP header. *)
Record packet := Pkt { protocol : Z; source : list Z }.

Module PacketFilter.
Section Handlers.
Context {ENV : Env}.

Definition hook_func (skb : option packet) : K nf_hook_ops Z :=
  printk "Packet Going out\n" [];; mret NF_ACCEPT.

Definition init_module : K nf_hook_ops Z :=
  put (NfHookOps 3 PF_INET NF_IP_PRI_FIRST);;
  call (NfRegisterHook "packet_filter" 3 PF_INET NF_IP_PRI_FIRST);;
  mret 0.

Definition cleanup_module : K nf_hook_ops unit := docall (NfUnregisterHook "packet_filter").
End Handlers.
End PacketFilter.

Module BlockProtocol.
Section Handlers.
Context {ENV : Env} {FMT : FormatIPv4}.

(** [skb_network_header] reads the buffer before it is compared with NULL. *)
Definition hook_func (skb : option packet) : K nf_hook_ops Z :=
  b ← of_option NullDeref skb;
  if protocol b =? 1 then
    printk "SOURCE ADDRESS %pI4\n" [PStr (pI4 (source b))];;
    printk "Dropping ping packet\n" [];;
    mret NF_DROP
  else mret NF_ACCEPT.

Definition init_packet : K nf_hook_ops Z :=
  put (NfHookOps 1 PF_INET NF_IP_PRI_FIRST);;
  call (NfRegisterHook "packet_block_protocol" 1 PF_INET NF_IP_PRI_FIRST);;
  mret 0.

Definition cleanup_packet : K nf_hook_ops unit := docall (NfUnregisterHook "packet_block_protocol").
End Handlers.
End BlockProtocol.

Module HelloPacket.
Section Handlers.
Context {ENV : Env}.

(** [skb->sk] is read and not used. *)
Definition my_hook (skb : option packet) : K nf_hook_ops Z :=
  b ← of_option NullDeref skb;
  printk "Hello packet!" [];;
  mret NF_ACCEPT.

Definition init_filter_if : K nf_hook_ops Z :=
  put (NfHookOps 0 PF_INET NF_IP_PRI_FIRST);;
  call (NfRegisterHook "packet_hello" 0 PF_INET NF_IP_PRI_FIRST);;
  mret 0.

Definition hello_init : K nf_hook_ops Z :=
  printk "Hello world!\n" [];; init_filter_if;; mret 0.

Definition hello_cleanup : K nf_hook_ops unit :=
  docall (NfUnregisterHook "packet_hello");; printk "Cleaning up module.\n" [].
End Handlers.
End HelloPacket.

(** ** Properties *)

Section Properties.
Context {ENV : Env} {FMT : FormatIPv4}.
Implicit Types w : world nf_hook_ops.

(** A hook applied to a stream of packets: the packets it lets through. *)
Fixpoint through (hook : option packet -> K nf_hook_ops Z) (ps : list packet) : K nf_hook_ops (list packet) :=
  match ps with
  | [] => mret []
  | p :: ps' =>
      v ← hook (Some p);
      rest ← through hook ps';
      mret (if v =? NF_ACCEPT then p :: rest else rest)
  end.

(** The sources a trace reports as dropped, newest first. *)
Definition reported (tr : trace) : list (list Z) :=
  omap (fun e => match e.1 with
                 | Printk "SOURCE ADDRESS %pI4\n"%string [PStr s] => Some s
                 | _ => None end) tr.

Definition block_world p w : world nf_hook_ops :=
  if protocol p =? 1 then
    with_event (Printk "Dropping ping packet\n" [], 0)
      (with_event (Printk "SOURCE ADDRESS %pI4\n" [PStr (pI4 (source p))], 0) w)
  else w.

Lemma block_hook_run p w :
  BlockProtocol.hook_func (Some p) w =
  (Done (if protocol p =? 1 then NF_DROP else NF_ACCEPT), block_world p w).
Proof.
  unfold BlockProtocol.hook_func, block_world. cbn [of_option]. krun. by destruct (protocol p =? 1).
Qed.

(** C16 The ICMP filter lets exactly the packets of the other protocols through,
    in their order, and logs the source address of every packet it drops. *)
Theorem block_drops_exactly_icmp ps w :
  exists w', through BlockProtocol.hook_func ps w =
    (Done (filter (fun p => protocol p <> 1) ps), w') /\
    reported (log w') =
      reverse (map (fun p => pI4 (source p)) (filter (fun p => protocol p = 1) ps)) ++ reported (log w) /\
    glob w' = glob w.
Proof.
  revert w. induction ps as [|p ps IH]; intros w; [by eexists|].
  cbn [through]. rewrite (bind_done _ _ _ _ _ (block_hook_run p w)). unfold block_world.
  destruct (Z.eqb_spec (protocol p) 1) as [E|E].
  - match goal with |- context [(through _ ps ≫= _) ?w1] => destruct (IH w1) as (w' & Ew & Hr & Hg) end.
    rewrite (bind_done _ _ _ _ _ Ew). krun. exists w'.
    rewrite filter_cons_False, filter_cons_True by auto. split; [done|]. split; [|done].
    rewrite Hr. cbn [map]. rewrite reverse_cons, <- app_assoc. done.
  - destruct (IH w) as (w' & Ew & Hr & Hg). rewrite (bind_done _ _ _ _ _ Ew). krun. exists w'.
    rewrite filter_cons_True, filter_cons_False by auto. done.
Qed.

(** The events of a load and an unload: one registration and one removal
    among calls that take nothing. *)
Lemma hook_ledger name num r pre post tr L :
  holds tr L -> RHook name ∉ L ->
  Forall (fun e => effect_of e = Nothing) pre -> Forall (fun e => effect_of e = Nothing) post ->
  let tr1 := (NfRegisterHook name num PF_INET NF_IP_PRI_FIRST, r) :: pre ++ tr in
  let tr2 := post ++ (NfUnregisterHook name, 0) :: tr1 in
  if r =? 0 then holds tr1 (RHook name :: L) /\ holds tr2 L
  else holds tr1 L /\ ledger tr2 = None.
Proof.
  intros Hh Hn Hpre Hpost tr1 tr2.
  assert (Hskip : forall l t M, Forall (fun e => effect_of e = Nothing) l -> holds t M -> holds (l ++ t) M).
  { intros l t M Hl Ht. induction Hl; [done|]. by apply holds_nothing. }
  assert (Hnone : forall l t, Forall (fun e => effect_of e = Nothing) l -> ledger t = None -> ledger (l ++ t) = None).
  { intros l t Hl Ht. induction Hl; [done|]. cbn [app]. by rewrite ledger_nothing. }
  assert (H0 : holds (pre ++ tr) L) by (by apply Hskip).
  destruct (Z.eqb_spec r 0) as [E|E].
  - assert (H1 : holds tr1 (RHook name :: L)) by (apply holds_acquire; [keffect|done]).
    split; [done|]. apply Hskip; [done|]. by eapply holds_release.
  - assert (H1 : holds tr1 L) by (apply holds_nothing; [keffect|done]).
    split; [done|]. apply Hnone; [done|]. by eapply ledger_bad_release.
Qed.

(** The three modules take exactly one hook and give it back, provided the
    registration succeeds; its result is ignored, so when it fails the load
    still reports success and the unload removes a hook that is not there. *)
Theorem packet_modules_load_unload w L init exit name num :
  In (init, exit, name, num)
    [(PacketFilter.init_module, PacketFilter.cleanup_module, "packet_filter"%string, 3);
     (BlockProtocol.init_packet, BlockProtocol.cleanup_packet, "packet_block_protocol"%string, 1);
     (HelloPacket.hello_init, HelloPacket.hello_cleanup, "packet_hello"%string, 0)] ->
  holds (log w) L -> RHook name ∉ L ->
  exists w1 w2 r tr, init w = (Done 0, w1) /\ exit w1 = (Done tt, w2) /\
    glob w1 = NfHookOps num PF_INET NF_IP_PRI_FIRST /\
    r = kret tr (NfRegisterHook name num PF_INET NF_IP_PRI_FIRST) /\
    (if r =? 0 then holds (log w1) (RHook name :: L) /\ holds (log w2) L
     else holds (log w1) L /\ ledger (log w2) = None).
Proof.
  intros Hin Hh Hn.
  destruct Hin as [H|[H|[H|[]]]]; injection H as <- <- <- <-.
  - eexists _, _, _, _. split; [unfold PacketFilter.init_module; krun; reflexivity|].
    split; [reflexivity|]. split; [reflexivity|]. split; [reflexivity|].
    by apply (hook_ledger _ _ _ [] []).
  - eexists _, _, _, _. split; [unfold BlockProtocol.init_packet; krun; reflexivity|].
    split; [reflexivity|]. split; [reflexivity|]. split; [reflexivity|].
    by apply (hook_ledger _ _ _ [] []).
  - eexists _, _, _, _. split; [unfold HelloPacket.hello_init, HelloPacket.init_filter_if; krun; reflexivity|].
    split; [unfold HelloPacket.hello_cleanup; krun; reflexivity|]. split; [reflexivity|]. split; [reflexivity|].
    by apply (hook_ledger _ _ _ [(Printk "Hello world!\n" [], 0)] [(Printk "Cleaning up module.\n" [], 0)]);
      [..|repeat constructor|repeat constructor].
Qed.
End Properties.

(** ** Life cycle *)

(** The kernel refuses no hook; the modules do not look at the result. *)
Class HooksRegister {ENV : Env} :=
  hooks_register tr o n p q : kret tr (NfRegisterHook o n p q) = 0.

Section Lifecycle.
Context {ENV : Env} {FMT : FormatIPv4}.

(** The modules as the loader sees them; what happens while one is loaded is
    that its hook is called with a packet. *)
Definition filter_module : kmodule nf_hook_ops (option packet) :=
  KModule nfho_static PacketFilter.init_module PacketFilter.cleanup_module PacketFilter.hook_func.
Definition block_module : kmodule nf_hook_ops (option packet) :=
  KModule nfho_static BlockProtocol.init_packet BlockProtocol.cleanup_packet BlockProtocol.hook_func.
Definition hello_module : kmodule nf_hook_ops (option packet) :=
  KModule nfho_static HelloPacket.hello_init HelloPacket.hello_cleanup HelloPacket.my_hook.

Context {HR : HooksRegister}.

(** A module that registers one hook, unregisters it, and in between touches
    nothing but the log. *)
Lemma hook_module_clean (m : kmodule nf_hook_ops (option packet)) name :
  (forall w L, holds (log w) L -> exists w', mod_init m w = (Done 0, w') /\
     heap w' = heap w /\ brk w' = brk w /\ holds (log w') (RHook name :: L)) ->
  (forall w L, holds (log w) (RHook name :: L) -> exists w', mod_exit m w = (Done tt, w') /\
     heap w' = heap w /\ brk w' = brk w /\ holds (log w') L) ->
  (forall w p r w' L, mod_op m p w = (Done r, w') -> holds (log w) L ->
     heap w' = heap w /\ brk w' = brk w /\ holds (log w') L) ->
  CleanModule m.
Proof.
  intros Hi He Ho. refine (Build_CleanModule _ _ m (fun _ => [RHook name]) (fun _ => True) _ _ _).
  - intros w L Hwf _ Hh. destruct (Hi w L Hh) as (w' & E & Hp & Hb & H). exists 0, w'.
    unfold wf_world. by rewrite Hp, Hb.
  - intros w L Hwf _ Hh. destruct (He w L Hh) as (w' & E & Hp & Hb & H). exists w'.
    unfold wf_world. by rewrite Hp, Hb.
  - intros w p r w' L Hwf _ H Hh. destruct (Ho w p r w' _ H Hh) as (Hp & Hb & H').
    unfold wf_world. by rewrite Hp, Hb.
Defined.

#[global] Instance filter_clean : CleanModule filter_module.
Proof.
  apply (hook_module_clean _ "packet_filter"); cbn [filter_module mod_init mod_exit mod_op].
  - intros w L Hh. unfold PacketFilter.init_module. krun. rewrite hooks_register.
    eexists. split; [reflexivity|]. split_and!; [done..|]. ledger_auto.
  - intros w L Hh. unfold PacketFilter.cleanup_module. krun.
    eexists. split; [reflexivity|]. split_and!; [done..|]. ledger_auto.
  - intros w p r w' L [= <- <-] Hh. split_and!; [done..|]. ledger_auto.
Defined.

#[global] Instance block_clean : CleanModule block_module.
Proof.
  apply (hook_module_clean _ "packet_block_protocol"); cbn [block_module mod_init mod_exit mod_op].
  - intros w L Hh. unfold BlockProtocol.init_packet. krun. rewrite hooks_register.
    eexists. split; [reflexivity|]. split_and!; [done..|]. ledger_auto.
  - intros w L Hh. unfold BlockProtocol.cleanup_packet. krun.
    eexists. split; [reflexivity|]. split_and!; [done..|]. ledger_auto.
  - intros w [p|] r w' L H Hh; [|done]. rewrite block_hook_run in H. injection H as _ <-. unfold block_world.
    destruct (_ =? 1); split_and!; try done; ledger_auto.
Defined.

#[global] Instance hello_clean : CleanModule hello_module.
Proof.
  apply (hook_module_clean _ "packet_hello"); cbn [hello_module mod_init mod_exit mod_op].
  - intros w L Hh. unfold HelloPacket.hello_init, HelloPacket.init_filter_if. krun. rewrite hooks_register.
    eexists. split; [reflexivity|]. split_and!; [done..|]. ledger_auto.
  - intros w L Hh. unfold HelloPacket.hello_cleanup. krun.
    eexists. split; [reflexivity|]. split_and!; [done..|]. ledger_auto.
  - intros w [p|] r w' L H Hh; [|done]. injection H as _ <-. split_and!; [done..|]. ledger_auto.
Defined.
End Lifecycle.

(** ** Concrete runs *)

#[global] Instance calm_hooks : HooksRegister (ENV := calm).
Proof. done. Qed.

(** The registration of hooks works, or it does not. *)
Definition no_hooks : Env :=
  {| kret _ c := match c with NfRegisterHook _ _ _ _ => -12 | _ => calm_ret c end; kjunk _ _ := 0 |}.

Definition idle_hooks : world nf_hook_ops := World ∅ 1 ∅ [] nfho_static.

Lemma packet_modules_load_unload_witness :
  (exists w1 w2, BlockProtocol.init_packet (ENV := calm) idle_hooks = (Done 0, w1) /\
     BlockProtocol.cleanup_packet w1 = (Done tt, w2) /\ holds (log w2) []) /\
  (exists w1 w2, BlockProtocol.init_packet (ENV := no_hooks) idle_hooks = (Done 0, w1) /\
     BlockProtocol.cleanup_packet w1 = (Done tt, w2) /\ ledger (log w2) = None).
Proof.
  split.
  - destruct (packet_modules_load_unload (ENV := calm) idle_hooks [] _ _ _ _ (or_intror (or_introl eq_refl)))
      as (w1 & w2 & r & tr & E1 & E2 & _ & Hr & H); [by exists []|set_solver|].
    exists w1, w2. split; [exact E1|]. split; [exact E2|]. cbn in Hr. subst r. exact (proj2 H).
  - destruct (packet_modules_load_unload (ENV := no_hooks) idle_hooks [] _ _ _ _ (or_intror (or_introl eq_refl)))
      as (w1 & w2 & r & tr & E1 & E2 & _ & Hr & H); [by exists []|set_solver|].
    exists w1, w2. split; [exact E1|]. split; [exact E2|]. cbn in Hr. subst r. exact (proj2 H).
Defined.
