(* ===== verification/Vfs.v ===== *)
(** * Files opened from the kernel (src/vfs_basic.c and src/read_write_vfs.c)

    Two modules read /etc/shadow when they are loaded.  Between [get_fs] and
    [set_fs] they lift the address limit of the thread, which the virtual file
    system checks buffers against; what must never happen is that the limit
    stays lifted. *)

From stdpp Require Import base gmap list numbers list_numbers strings.
From Stdlib Require Import ZArith Lia.
From S2P Require Import Prelude Kernel Lifecycle.

Definition O_RDONLY : Z := 0.
Definition O_RDWR : Z := 2.
Definition KERNEL_DS : Z := 2 ^ 64 - 1.

(** The thread's address limit and the module's global. *)
Record vfs := VfsState { addr_limit : Z; open_file : Z }.

Definition set_limit (l : Z) (g : vfs) : vfs := VfsState l (open_file g).
Definition set_file (f : Z) (g : vfs) : vfs := VfsState (addr_limit g) f.

(** What the file system delivers for a read, given the address limit it
    checks the buffer against: at most as many bytes as were asked for, their
    number as the result, and nothing for an error. *)
Class FileSystem := {
  contents : trace -> Z -> Z -> Z -> Z -> Z * list Z;   (* limit, file, size, position *)
  contents_fits tr l f size pos : Z.of_nat (length (contents tr l f size pos).2) <= Z.max 0 size;
  contents_result tr l f size pos :
    (contents tr l f size pos).1 = Z.of_nat (length (contents tr l f size pos).2) \/
    (contents tr l f size pos).1 < 0 /\ (contents tr l f size pos).2 = [];
}.

Section Calls.
Context {ENV : Env} {FS : FileSystem}.

(** [get_fs] and [set_fs]. *)
Definition get_fs : K vfs Z := g ← get; mret (addr_limit g).
Definition set_fs (l : Z) : K vfs unit := modify (set_limit l).

(** Reading through a file pointer: the pointer has to be one. *)
Definition deref (f : Z) : K vfs unit :=
  if f =? 0 then oops NullDeref else if is_err f then oops (BadPointer f) else mret tt.

(** What a read stores over the bytes [data]. *)
Definition transfer (f : Z) (data : list Z) (size pos : Z) : K vfs (Z * list Z) := fun w =>
  let r := contents (log w) (addr_limit (glob w)) f size pos in
  match asets data 0 r.2 with
  | Some data' => (Done (r.1, data'), with_event (VfsRead f size pos, r.1) w)
  | None => (Oops (OutOfBounds (Z.of_nat (length data))), w)
  end.

(** The result and the new bytes. *)
Definition vfs_read (f : Z) (data : list Z) (size pos : Z) : K vfs (Z * list Z) :=
  deref f;; transfer f data size pos.

Definition vfs_write (f size pos : Z) : K vfs Z := deref f;; call (VfsWrite f size pos).

Definition filp_close (f : Z) : K vfs unit := deref f;; docall (FilpClose f).
End Calls.

Module VfsBasic.
Section Handlers.
Context {ENV : Env} {FS : FileSystem}.

Definition file_open (path : string) (flags rights : Z) : K vfs Z :=
  oldfs ← get_fs;
  set_fs KERNEL_DS;;
  filp ← call (FilpOpen path flags rights);
  set_fs oldfs;;
  if is_err filp then mret 0 else mret filp.

Definition file_close (file : Z) : K vfs unit := filp_close file.

Definition file_read (file offset : Z) (data : list Z) (size : Z) : K vfs (Z * list Z) :=
  oldfs ← get_fs;
  set_fs KERNEL_DS;;
  r ← vfs_read file data size offset;
  set_fs oldfs;;
  mret (s32 r.1, r.2).

Definition file_write (file offset size : Z) : K vfs Z :=
  oldfs ← get_fs;
  set_fs KERNEL_DS;;
  ret ← vfs_write file size offset;
  set_fs oldfs;;
  mret (s32 ret).

Definition file_sync (file : Z) : K vfs Z :=
  deref file;; call (VfsFsync file);; mret 0.

(** What the uninitialised array on the stack holds. *)
Definition stack_bytes (n : Z) : K vfs (list Z) := fun w =>
  (Done (map (kjunk (log w)) (seqZ 0 n)), w).

Definition file_init : K vfs Z :=
  buffer ← stack_bytes 256;
  f ← file_open "/etc/shadow" O_RDWR 0;
  modify (set_file f);;
  if f =? 0 then printk "Error in opening the file" [];; mret 0
  else
    printk "File opened without any issue" [];;
    r ← file_read f 0 buffer 256;
    s ← of_option Unterminated (cstr r.2);
    printk "%s" [PStr s];;
    mret 0.

Definition file_exit : K vfs unit := g ← get; file_close (open_file g).
End Handlers.
End VfsBasic.

Module ReadWriteVfs.
Section Handlers.
Context {ENV : Env} {FS : FileSystem}.

(** [for (i = 0; i < buf_size; i++) buf[i] = 0]: [n] iterations left. *)
Fixpoint zero_loop (n : nat) (i : Z) (buf : list Z) : option (list Z) :=
  match n with
  | O => Some buf
  | S n' => b ← aset buf i 0; zero_loop n' (i + 1) b
  end.

(** The position is the file's own, zero after the open. *)
Definition init_module : K vfs Z :=
  buf ← VfsBasic.stack_bytes 256;
  buf ← of_option (OutOfBounds 256) (zero_loop 256 0 buf);
  printk "My module is loaded\n" [];;
  f ← call (FilpOpen "/etc/shadow" O_RDONLY 0);
  (if f =? 0 then printk "filp_open error!!.\n" []
   else
     fs ← get_fs;
     set_fs KERNEL_DS;;
     r ← vfs_read f buf 256 0;
     set_fs fs;;
     s ← of_option Unterminated (cstr r.2);
     printk "%s\n" [PStr s]);;
  filp_close f;;
  mret 0.

Definition cleanup_module : K vfs unit := printk "My module is unloaded\n" [].
End Handlers.
End ReadWriteVfs.

(** ** Running the operations *)

Section Runs.
Context {ENV : Env} {FS : FileSystem}.
Implicit Types w : world vfs.

(** A file pointer that can be used. *)
Definition file_ptr (f : Z) : Prop := f <> 0 /\ is_err f = false.

Lemma run_deref f w : file_ptr f -> deref f w = (Done tt, w).
Proof. intros [H0 He]. unfold deref. by rewrite (proj2 (Z.eqb_neq _ _) H0), He. Qed.

(** A read never runs over a buffer that is large enough. *)
Lemma run_transfer f data size pos w :
  0 <= size <= Z.of_nat (length data) ->
  exists r bs data', transfer f data size pos w = (Done (r, data'), with_event (VfsRead f size pos, r) w) /\
    (r, bs) = contents (log w) (addr_limit (glob w)) f size pos /\
    data' = bs ++ drop (length bs) data.
Proof.
  intros Hs. unfold transfer. pose proof (contents_fits (log w) (addr_limit (glob w)) f size pos).
  destruct (contents _ _ _ _ _) as [r bs]. cbn [fst snd] in *. exists r, bs. eexists.
  rewrite asets_0 by lia. done.
Qed.

Lemma run_file_read f off data size w :
  file_ptr f -> 0 <= size <= Z.of_nat (length data) ->
  exists r bs, VfsBasic.file_read f off data size w =
    (Done (s32 r, bs ++ drop (length bs) data), with_event (VfsRead f size off, r) w) /\
    (r, bs) = contents (log w) KERNEL_DS f size off.
Proof.
  intros Hf Hs. unfold VfsBasic.file_read, get_fs, set_fs, vfs_read. krun. kstep run_deref.
  match goal with |- context [(transfer _ _ _ _ ≫= _) ?w1] =>
    destruct (run_transfer f data size off w1 Hs) as (r & bs & d & E & Hr & ->) end.
  rewrite (bind_done _ _ _ _ _ E). krun. exists r, bs. split; [|done].
  cbn. by destruct w as [? ? ? ? []].
Qed.

Lemma run_file_open path flags rights w :
  exists f, f = kret (log w) (FilpOpen path flags rights) /\
  VfsBasic.file_open path flags rights w =
  (Done (if is_err f then 0 else f), with_event (FilpOpen path flags rights, f) w).
Proof.
  eexists. split; [reflexivity|]. unfold VfsBasic.file_open, get_fs, set_fs. krun. cbn.
  destruct w as [? ? ? ? []]. by destruct (is_err _).
Qed.

Lemma zero_loop_run n i buf :
  0 <= i -> i + Z.of_nat n <= Z.of_nat (length buf) ->
  ReadWriteVfs.zero_loop n i buf =
  Some (take (Z.to_nat i) buf ++ replicate n 0 ++ drop (Z.to_nat i + n) buf).
Proof.
  revert i buf. induction n as [|n IH]; intros i buf Hi Hn; simpl.
  { by rewrite Nat.add_0_r, take_drop. }
  rewrite aset_in by lia. simpl. rewrite IH by (rewrite ?length_insert; lia). f_equal.
  replace (Z.to_nat (i + 1)) with (S (Z.to_nat i)) by lia.
  rewrite (take_S_r _ _ 0) by (apply list_lookup_insert_eq; lia).
  rewrite take_insert_ge, drop_insert_lt by lia. rewrite <- app_assoc. simpl.
  do 3 f_equal. f_equal. lia.
Qed.
End Runs.

(** ** Properties *)

(** The entry points of the two modules. *)
Inductive vfs_call :=
| FileOpen (path : string) (flags rights : Z)
| FileRead (f off : Z) (data : list Z) (size : Z)
| FileWrite (f off size : Z)
| FileSync (f : Z)
| FileClose (f : Z)
| FileInit
| FileExit
| RwInit.

Section Steady.
Context {ENV : Env} {FS : FileSystem}.
Implicit Types w : world vfs.

Definition vfs_op (c : vfs_call) : K vfs Z :=
  match c with
  | FileOpen path flags rights => VfsBasic.file_open path flags rights
  | FileRead f off data size => r ← VfsBasic.file_read f off data size; mret r.1
  | FileWrite f off size => VfsBasic.file_write f off size
  | FileSync f => VfsBasic.file_sync f
  | FileClose f => VfsBasic.file_close f;; mret 0
  | FileInit => VfsBasic.file_init
  | FileExit => VfsBasic.file_exit;; mret 0
  | RwInit => ReadWriteVfs.init_module
  end.

(** A computation that, when it returns, has left the limit as it was. *)
Definition steady {A} (c : K vfs A) : Prop :=
  forall w a w', c w = (Done a, w') -> addr_limit (glob w') = addr_limit (glob w).

Lemma steady_bind {A B} (c : K vfs A) (k : A -> K vfs B) :
  steady c -> (forall a, steady (k a)) -> steady (c ≫= k).
Proof.
  intros Hc Hk w b w' H. unfold mbind, K_bind in H. destruct (c w) as [[a|e] w1] eqn:E; [|done].
  rewrite (Hk _ _ _ _ H). by apply (Hc _ _ _ E).
Qed.

Lemma steady_ret {A} (a : A) : steady (mret a).
Proof. intros w b w' H. unfold mret, K_ret in H. by simplify_eq. Qed.

Lemma steady_oops {A} e : steady (oops (A := A) e).
Proof. intros w b w' H. unfold oops in H. done. Qed.

Lemma steady_of_option {A} e (o : option A) : steady (of_option e o).
Proof. destruct o; [apply steady_ret|apply steady_oops]. Qed.

Lemma steady_if {A} (b : bool) (c1 c2 : K vfs A) :
  steady c1 -> steady c2 -> steady (if b then c1 else c2).
Proof. by destruct b. Qed.

Lemma steady_get : steady get.
Proof. intros w b w' H. unfold get in H. by simplify_eq. Qed.

Lemma steady_docall c : steady (docall c).
Proof. intros w b w' H. unfold docall, emit in H. by simplify_eq. Qed.

Lemma steady_call c : steady (call c).
Proof. intros w b w' H. unfold call in H. by simplify_eq. Qed.

Lemma steady_set_file f : steady (modify (set_file f)).
Proof. intros w b w' H. unfold modify in H. by simplify_eq. Qed.

Lemma steady_stack n : steady (VfsBasic.stack_bytes n).
Proof. intros w b w' H. unfold VfsBasic.stack_bytes in H. by simplify_eq. Qed.

Lemma steady_transfer f data size pos : steady (transfer f data size pos).
Proof. intros w b w' H. unfold transfer in H. case_match; by simplify_eq. Qed.

(** The bracket every use of the file system is put in. *)
Lemma steady_lifted {A B} (body : K vfs A) (k : A -> K vfs B) :
  (forall a, steady (k a)) ->
  steady (fs ← get_fs; set_fs KERNEL_DS;; x ← body; set_fs fs;; k x).
Proof.
  intros Hk w b w' H. unfold get_fs, set_fs in H. autorewrite with krun in H.
  unfold mbind at 1, K_bind at 1 in H. destruct (body _) as [[a|e] w1]; [|done].
  autorewrite with krun in H. by apply Hk in H.
Qed.

End Steady.

(** Walks a handler to its calls. *)
Ltac steady :=
  lazymatch goal with
  | |- steady (get_fs ≫= _) => apply steady_lifted; intros ?; steady
  | |- steady (_ ≫= _) => apply steady_bind; [steady|intros ?; steady]
  | |- steady (if _ then _ else _) => apply steady_if; steady
  | |- steady (mret _) => apply steady_ret
  | |- steady (oops _) => apply steady_oops
  | |- steady (of_option _ _) => apply steady_of_option
  | |- steady get => apply steady_get
  | |- steady (docall _) => apply steady_docall
  | |- steady (printk _ _) => apply steady_docall
  | |- steady (call _) => apply steady_call
  | |- steady (modify (set_file _)) => apply steady_set_file
  | |- steady (VfsBasic.stack_bytes _) => apply steady_stack
  | |- steady (transfer _ _ _ _) => apply steady_transfer
  | |- steady _ =>
      first [progress unfold deref | progress unfold filp_close | progress unfold vfs_read
                          | progress unfold vfs_write | progress unfold VfsBasic.file_open
                          | progress unfold VfsBasic.file_read | progress unfold VfsBasic.file_write
                          | progress unfold VfsBasic.file_sync | progress unfold VfsBasic.file_close
                          | progress unfold VfsBasic.file_init | progress unfold VfsBasic.file_exit
                          | progress unfold ReadWriteVfs.init_module ]; steady
  end.

Section Properties.
Context {ENV : Env} {FS : FileSystem}.
Implicit Types w : world vfs.

(** C14 The lifted address limit never escapes: whatever the file system and
    the kernel answer, every entry point of the two modules that returns has
    put back the limit it found. *)
Theorem vfs_limit_restored c w r w' :
  vfs_op c w = (Done r, w') -> addr_limit (glob w') = addr_limit (glob w).
Proof.
  intros H. refine ((_ : steady (vfs_op c)) _ _ _ H). clear H.
  destruct c; cbn [vfs_op]; steady.
Qed.

Lemma init_buffer w : ReadWriteVfs.zero_loop 256 0 (map (kjunk (log w)) (seqZ 0 256)) = Some (replicate 256 0).
Proof.
  rewrite zero_loop_run by (rewrite ?length_map, ?length_seqZ; lia).
  rewrite drop_ge by (rewrite length_map, length_seqZ; lia).
  by rewrite app_nil_r.
Qed.

(** When the file cannot be opened (an error pointer, as [filp_open]
    reports failures): vfs_basic.c loads successfully and crashes with a NULL
    pointer when it is unloaded; read_write_vfs.c only looks for NULL and
    crashes on the error pointer, leaving the address limit lifted. *)
Theorem vfs_missing_file_crashes w :
  (forall tr p fl m, is_err (kret tr (FilpOpen p fl m)) = true) ->
  (exists w1, VfsBasic.file_init w = (Done 0, w1) /\
    exists w2, VfsBasic.file_exit w1 = (Oops NullDeref, w2)) /\
  (exists e w3, is_err e = true /\ ReadWriteVfs.init_module w = (Oops (BadPointer e), w3) /\
    addr_limit (glob w3) = KERNEL_DS).
Proof.
  intros He. split.
  - unfold VfsBasic.file_init. erewrite bind_done by reflexivity.
    destruct (run_file_open "/etc/shadow" O_RDWR 0 w) as (f & Hf & E). rewrite (bind_done _ _ _ _ _ E).
    subst f. rewrite He. krun. eexists. split; [reflexivity|]. by eexists.
  - unfold ReadWriteVfs.init_module. erewrite bind_done by reflexivity. rewrite init_buffer.
    cbn [of_option]. krun. set (f := kret _ _). pose proof (He _ _ _ _ : is_err f = true) as Hf.
    assert (f <> 0) by (intros E; rewrite E in Hf; done).
    rewrite (proj2 (Z.eqb_neq f 0)) by done. unfold get_fs, set_fs, vfs_read, deref. krun.
    rewrite (proj2 (Z.eqb_neq f 0)) by done. rewrite Hf. eexists f, _.
    split; [done|]. split; reflexivity.
Qed.

(** read_write_vfs.c prints the start of the file: when the file opens and
    delivers fewer than 256 bytes without a NUL, exactly these are printed,
    the load succeeds, and the file is closed again. *)
Theorem rw_vfs_prints_file w L f bs :
  f = kret ((Printk "My module is loaded\n" [], 0) :: log w) (FilpOpen "/etc/shadow" O_RDONLY 0) ->
  file_ptr f ->
  contents ((FilpOpen "/etc/shadow" O_RDONLY 0, f) :: (Printk "My module is loaded\n" [], 0) :: log w)
    KERNEL_DS f 256 0 = (Z.of_nat (length bs), bs) ->
  no_nul bs -> (length bs < 256)%nat -> holds (log w) L ->
  exists w', ReadWriteVfs.init_module w = (Done 0, w') /\ holds (log w') L /\
    List.In (Printk "%s\n" [PStr bs], 0) (log w').
Proof.
  intros Hf Hp Hc Hn Hl Hh. unfold ReadWriteVfs.init_module. erewrite bind_done by reflexivity.
  rewrite init_buffer. cbn [of_option]. krun. set (x := kret _ (FilpOpen _ _ _)).
  assert (Hx : x = f) by (symmetry; exact Hf). clearbody x. subst x.
  rewrite (proj2 (Z.eqb_neq f 0)) by apply Hp. unfold get_fs, set_fs, vfs_read, filp_close. krun.
  kstep run_deref. krun.
  match goal with |- context [(transfer _ ?d _ _ ≫= _) ?w1] =>
    destruct (run_transfer f d 256 0 w1) as (r & bs' & d' & E & Hr & ->);
    [rewrite length_replicate; lia|rewrite (bind_done _ _ _ _ _ E)] end.
  cbn [log glob with_glob with_event addr_limit set_limit] in Hr. pose proof (eq_trans Hr Hc) as Heq. injection Heq as -> ->.
  rewrite drop_replicate. destruct (256 - length bs)%nat as [|k] eqn:Ek; [lia|]. cbn [replicate].
  krun. rewrite cstr_app_nul by done. cbn [of_option]. krun. kstep run_deref. krun.
  eexists. split; [reflexivity|]. destruct Hp as [Hp0 Hpe]. split; [|cbn; auto].
  cbn [log glob with_event with_glob] in *. eapply holds_release; [reflexivity|].
  apply holds_nothing; [done|]. apply holds_nothing; [done|].
  apply holds_acquire; [|apply holds_nothing; done].
  cbn [effect_of]. by rewrite Hpe, (proj2 (Z.eqb_neq f 0)) by done.
Qed.
End Properties.

(** ** Concrete runs *)

(** A file system with one file of two bytes; a kernel buffer is refused
    unless the limit has been lifted. *)
Definition one_file : FileSystem.
Proof.
  refine {| contents _ l _ size _ := if (l =? KERNEL_DS) && (2 <=? size) then (2, [104; 105]) else (- EFAULT, []) |}.
  - intros. destruct (l =? KERNEL_DS), (Z.leb_spec 2 size); simpl; lia.
  - intros. destruct ((l =? KERNEL_DS) && (2 <=? size)); simpl; unfold EFAULT; [left|right; split]; done || lia.
Defined.

Definition demo_vfs : world vfs := World ∅ 1 ∅ [] (VfsState 1000 0).

Lemma vfs_limit_restored_witness :
  addr_limit (glob (vfs_op (ENV := calm) (FS := one_file) RwInit demo_vfs).2) = 1000.
Proof.
  apply (vfs_limit_restored (ENV := calm) (FS := one_file) RwInit demo_vfs 0). vm_compute. reflexivity.
Defined.

(** No such file. *)
Definition no_file : Env :=
  {| kret _ c := match c with FilpOpen _ _ _ => -2 | _ => calm_ret c end; kjunk _ _ := 0 |}.

Lemma vfs_missing_file_crashes_witness :
  (exists w1, VfsBasic.file_init (ENV := no_file) (FS := one_file) demo_vfs = (Done 0, w1) /\
    exists w2, VfsBasic.file_exit w1 = (Oops NullDeref, w2)) /\
  (exists e w3, is_err e = true /\
    ReadWriteVfs.init_module (ENV := no_file) (FS := one_file) demo_vfs = (Oops (BadPointer e), w3) /\
    addr_limit (glob w3) = KERNEL_DS).
Proof. exact (vfs_missing_file_crashes (ENV := no_file) (FS := one_file) demo_vfs (fun _ _ _ _ => eq_refl)). Defined.

Lemma rw_vfs_prints_file_witness :
  exists w', ReadWriteVfs.init_module (ENV := calm) (FS := one_file) demo_vfs = (Done 0, w') /\
    holds (log w') [] /\ List.In (Printk "%s\n" [PStr [104; 105]], 0) (log w').
Proof.
  apply (rw_vfs_prints_file (ENV := calm) (FS := one_file) demo_vfs [] 1 [104; 105]).
  - reflexivity.
  - split; [done|reflexivity].
  - reflexivity.
  - repeat constructor; lia.
  - cbn. lia.
  - by exists [].
Defined.
