(* ===== verification/SeqTasks.v ===== *)
(** * The process list as a sequence file (src/seq_file_procfs.c)

    /proc/example/seq_proc walks the kernel's circular list of tasks through
    the four seq_file operations.  The kernel's list is part of the state: a
    map from the address of each task's list head to the address of the next
    one and the task it is embedded in. *)

From stdpp Require Import base gmap list numbers list_numbers strings relations.
From Stdlib Require Import ZArith Lia.
From S2P Require Import Prelude Kernel Lifecycle Seqfile.

Record task := Task { pid : Z; comm : list Z }.

Record tasks := Tasks {
  heads : gmap Z (Z * task);
  current : Z;                 (* &current->tasks *)
  example_dir : Z;
  first_file : Z;
}.

Definition set_dir (p : Z) (g : tasks) := Tasks (heads g) (current g) p (first_file g).
Definition set_file (p : Z) (g : tasks) := Tasks (heads g) (current g) (example_dir g) p.

Section Module.
Context {ENV : Env}.

(** The list head at an address. *)
Definition list_head (p : Z) : K tasks (Z * task) :=
  if p =? 0 then oops NullDeref
  else g ← get; of_option (BadPointer p) (heads g !! p).

(** The position is not looked at. *)
Definition my_start (pos : Z) : K tasks Z :=
  docall DumpStack;;
  printk "START\n" [];;
  g ← get; mret (current g).

Definition my_next (v pos : Z) : K tasks Z :=
  docall DumpStack;;
  printk "NEXT\n" [];;
  h ← list_head v;
  mret h.1.

Definition my_stop : K tasks unit := printk "STOP\n" [].

(** The line printed for an element: the task that follows it. *)
Definition my_show (v : Z) : K tasks (list Z) :=
  docall DumpStack;;
  h ← list_head v;
  t ← list_head h.1;
  mret (dec (u32 (pid t.2)) ++ [9; 58; 9] ++ comm t.2 ++ [10]).

Definition swaps_op : seq_operations tasks := SeqOps my_start my_next my_stop my_show.

(** [seq_open] gives the file its operations. *)
Definition my_open : K tasks (seq_operations tasks) := mret swaps_op.

Definition procexample_module_init : K tasks Z :=
  d ← call (ProcMkdir "example" 0);
  modify (set_dir d);;
  if d =? 0 then mret (- ENOMEM)
  else
    f ← call (ProcCreateData "seq_proc" 420 d);
    modify (set_file f);;
    if f =? 0 then docall (RemoveProcEntry "example" 0);; mret (- ENOMEM)
    else mret 0.

Definition procexample_module_exit : K tasks unit :=
  g ← get;
  docall (RemoveProcEntry "seq_proc" (example_dir g));;
  docall (RemoveProcEntry "example" 0).

(** A reader: the file is opened, and the layer makes the passes [fills]. *)
Definition reader (fills : list (Z * nat)) : K tasks (list (list (list Z))) :=
  ops ← my_open; seq_fills ops fills.
End Module.

(** The heads form a ring through the addresses [az], of the tasks [ts]. *)
Definition ring (m : gmap Z (Z * task)) (az : list Z) (ts : list task) : Prop :=
  length az = length ts /\
  forall i a, az !! i = Some a -> a <> 0 /\
    exists a' t, m !! a = Some (a', t) /\ ts !! i = Some t /\ az !! (S i mod length az)%nat = Some a'.

Definition line (t : task) : list Z := dec (u32 (pid t)) ++ [9; 58; 9] ++ comm t ++ [10].

Section Proofs.
Context {ENV : Env}.
Implicit Types w : world tasks.

Lemma run_list_head p h w :
  p <> 0 -> heads (glob w) !! p = Some h -> list_head p w = (Done h, w).
Proof. intros Hp Hh. unfold list_head. rewrite (proj2 (Z.eqb_neq _ _) Hp). krun. by rewrite Hh. Qed.

Lemma loop_run room pos az ts i a w :
  ring (heads (glob w)) az ts -> az !! i = Some a ->
  exists ls w', seq_loop swaps_op room pos a w = (Done ls, w') /\ length ls = room /\
    (forall j, (j < room)%nat -> ls !! j = line <$> ts !! ((S i + j) mod length ts)%nat) /\
    glob w' = glob w.
Proof.
  revert i a w. induction room as [|room IH]; intros i a w Hr Ha.
  { exists [], w. split_and!; [done|done|lia|done]. }
  destruct Hr as [Hlen Hr]. pose proof (lookup_lt_Some _ _ _ Ha) as Hi.
  destruct (Hr _ _ Ha) as (Ha0 & a1 & t & Hm & Ht & Ha1).
  destruct (Hr _ _ Ha1) as (Ha10 & a2 & t1 & Hm1 & Ht1 & Ha2).
  cbn [seq_loop]. rewrite (proj2 (Z.eqb_neq _ _) Ha0).
  cbn [swaps_op show next_elem]. fold swaps_op. unfold my_show, my_next. krun.
  erewrite bind_done by (apply (run_list_head a (a1, t)); [exact Ha0|exact Hm]). krun.
  erewrite bind_done by (apply (run_list_head a1 (a2, t1)); [exact Ha10|exact Hm1]). krun.
  erewrite bind_done by (apply (run_list_head a (a1, t)); [exact Ha0|exact Hm]). krun.
  match goal with |- context [(seq_loop _ room _ _ ≫= _) ?w1] =>
    destruct (IH (S i mod length az)%nat a1 w1) as (ls & w' & E & Hl & Hls & Hg); [done..|] end.
  rewrite (bind_done _ _ _ _ _ E). krun. eexists _, w'. split; [reflexivity|].
  split; [simpl; lia|]. split; [|done].
  intros [|j] Hj; cbn [lookup list_lookup].
  - rewrite Nat.add_0_r, <- Hlen. cbn [nth_error]. by rewrite Ht1.
  - rewrite Hls by lia. f_equal. f_equal. rewrite <- Hlen.
    replace (S (S i mod length az) + j)%nat with (S i mod length az + (1 + j))%nat by lia.
    apply Nat.Div0.add_mod_idemp_l.
Qed.

(** The lines of [n] tasks around the ring, from the one after place [i]. *)
Definition round (ts : list task) (i n : nat) : list (list Z) :=
  omap (fun j => line <$> ts !! ((S i + j) mod length ts)%nat) (seq 0 n).

Lemma omap_all {A B} (f : A -> option B) (xs : list A) (ys : list B) :
  length ys = length xs -> (forall j x, xs !! j = Some x -> ys !! j = f x) -> omap f xs = ys.
Proof.
  revert ys. induction xs as [|x xs IH]; intros [|y ys] Hl H; try done.
  cbn. pose proof (H 0%nat x eq_refl) as H0. cbn in H0. rewrite <- H0. f_equal.
  apply IH; [simpl in Hl; lia|]. intros j x' Hj. exact (H (S j) x' Hj).
Qed.

Lemma ring_fill_run pos room az ts i w :
  ring (heads (glob w)) az ts -> az !! i = Some (current (glob w)) ->
  exists w', seq_fill swaps_op pos room w = (Done (round ts i room), w') /\ glob w' = glob w.
Proof.
  intros Hr Hi. unfold seq_fill. cbn [swaps_op start stop]. fold swaps_op. unfold my_start. krun.
  match goal with |- context [(seq_loop _ room _ _ ≫= _) ?w1] =>
    destruct (loop_run room pos az ts i (current (glob w)) w1) as (ls & w' & E & Hl & Hls & Hg); [done..|] end.
  assert (round ts i room = ls) as ->.
  { apply omap_all; [by rewrite length_seq|]. intros j x [-> Hj]%lookup_seq. by apply Hls. }
  rewrite (bind_done _ _ _ _ _ E). unfold my_stop. krun. by eexists.
Qed.

Lemma round_length ts i n : (i < length ts)%nat -> length (round ts i n) = n.
Proof.
  intros Hi. unfold round. transitivity (length (seq 0 n)); [|by rewrite length_seq].
  generalize (seq 0 n). intros js. induction js as [|j js IH]; [done|]. cbn [omap list_omap].
  destruct (lookup_lt_is_Some_2 ts ((S i + j) mod length ts)%nat) as [t ->]; [apply Nat.mod_upper_bound; lia|].
  cbn [fmap option_fmap option_map length]. by rewrite IH.
Qed.

(** C24 A reader of the process list is never told that the list has ended, and
    gets no further than one buffer: the tasks form a ring, [my_next] never
    returns NULL and [my_start] does not look at the position, so whatever
    the positions and sizes of the passes, each delivers exactly as many lines
    as it has room for, those of the tasks from the one after the current task
    on, around the ring as often as it takes, and the next pass begins again
    after the current task.  No operation faults. *)
Theorem seq_tasks_goes_round fills az ts i w :
  ring (heads (glob w)) az ts -> az !! i = Some (current (glob w)) ->
  exists w', reader fills w = (Done (map (fun f => round ts i f.2) fills), w') /\ glob w' = glob w /\
    forall n, length (round ts i n) = n.
Proof.
  intros Hr Hi. unfold reader, my_open. krun.
  assert (Hlt : (i < length ts)%nat) by (destruct Hr as [<- _]; by apply lookup_lt_Some in Hi).
  enough (exists w', seq_fills swaps_op fills w = (Done (map (fun f => round ts i f.2) fills), w') /\
    glob w' = glob w) as (w' & E & Hg).
  { exists w'. split_and!; [done..|]. intros n. by apply round_length. }
  revert w Hr Hi. induction fills as [|[pos room] fills IH]; intros w Hr Hi; [by exists w|].
  cbn [seq_fills map snd].
  destruct (ring_fill_run pos room az ts i w Hr Hi) as (w1 & E1 & Hg1).
  destruct (IH w1) as (w2 & E2 & Hg2); [by rewrite Hg1..|].
  exists w2. rewrite (bind_done _ _ _ _ _ E1), (bind_done _ _ _ _ _ E2). split; [done|congruence].
Qed.
End Proofs.

(** ** Life cycle *)

(** The calls the kernel makes for a reader. *)
Inductive seq_call := SeqStart (pos : Z) | SeqNext (v pos : Z) | SeqShow (v : Z) | SeqStop.

Section Lifecycle.
Context {ENV : Env}.
Implicit Types w : world tasks.

Definition seq_op (c : seq_call) : K tasks Z :=
  match c with
  | SeqStart pos => my_start pos
  | SeqNext v pos => my_next v pos
  | SeqShow v => l ← my_show v; mret (Z.of_nat (length l))
  | SeqStop => my_stop;; mret 0
  end.

(** The module's static data; the kernel's task list is not reset by a load. *)
Definition seq_module (hs : gmap Z (Z * task)) (cur : Z) : kmodule tasks seq_call :=
  KModule (Tasks hs cur 0 0) procexample_module_init procexample_module_exit seq_op.

Definition seq_res (g : tasks) : list resource :=
  [RProc "seq_proc" (example_dir g); RProc "example" 0].

Lemma list_head_same p w : (list_head p w).2 = w.
Proof. unfold list_head. destruct (p =? 0); [done|]. krun. by destruct (heads (glob w) !! p). Qed.

(** The new world after a read of a list head is the old one. *)
Lemma bind_list_head {B} (k : Z * task -> K tasks B) p w o w' :
  (list_head p ≫= k) w = (Done o, w') -> exists h, k h w = (Done o, w').
Proof.
  intros H. unfold mbind, K_bind in H. pose proof (list_head_same p w) as Hs.
  destruct (list_head p w) as [[h|e] w1]; cbn in Hs; subst w1; [by exists h|done].
Qed.

(** A reader's call changes neither the globals nor what is held. *)
Lemma seq_op_frame c w r w' L :
  seq_op c w = (Done r, w') -> holds (log w) L ->
  heap w' = heap w /\ brk w' = brk w /\ glob w' = glob w /\ holds (log w') L.
Proof.
  destruct c; cbn [seq_op]; unfold my_start, my_next, my_show, my_stop; intros H HL;
    autorewrite with krun in H;
    repeat (apply bind_list_head in H as [? H]; autorewrite with krun in H);
    simplify_eq; split_and!; try done; ledger_auto.
Qed.

#[global] Instance seq_clean hs cur : CleanModule (seq_module hs cur).
Proof.
  refine (Build_CleanModule _ _ (seq_module hs cur) seq_res (fun _ => True) _ _ _).
  - intros w L Hwf Hg Hh. unfold seq_module, mod_init, procexample_module_init. krun.
    set (d := kret _ (ProcMkdir _ _)). destruct (Z.eqb_spec d 0) as [Ed|Ed]; krun.
    { eexists _, _. split; [reflexivity|]. split; [done|]. ledger_auto. }
    set (f := kret _ (ProcCreateData _ _ _)). destruct (Z.eqb_spec f 0) as [Ef|Ef]; krun;
      (eexists _, _; split; [reflexivity|]; split; [done|]); [ledger_auto|].
    cbn [Z.eqb]. split; [done|]. unfold seq_res. cbn [example_dir set_dir set_file]. ledger_auto.
  - intros w L Hwf _ Hh. unfold seq_module, mod_exit, procexample_module_exit. krun.
    eexists. split; [reflexivity|]. split; [done|]. unfold seq_res in Hh. ledger_auto.
  - intros w c r w' L Hwf _ H Hh. apply (seq_op_frame _ _ _ _ _ H) in Hh as (Hp & Hb & Hg & Hl).
    unfold wf_world. rewrite Hp, Hb, Hg. done.
Defined.

(** Loads, readers and unloads of the sequence file in any order leave no
    proc entry behind; a load that fails half-way removes the directory it
    made. *)
Theorem seq_module_lifecycle hs cur (w0 : world tasks) (L : list resource) s :
  wf_world w0 -> holds (log w0) L -> rtc (mstep (seq_module hs cur)) (Machine false w0) s ->
  (loaded s = false -> holds (log (wld s)) L) /\
  (loaded s = true -> exists w', procexample_module_exit (wld s) = (Done tt, w') /\ holds (log w') L).
Proof. exact (clean_lifecycle (seq_module hs cur) w0 L s). Qed.
End Lifecycle.

(** ** A concrete run: three tasks *)

Definition demo_tasks : world tasks :=
  World ∅ 1 ∅ [] (Tasks {[10 := (20, Task 0 (str "swapper")); 20 := (30, Task 1 (str "init"));
                          30 := (10, Task 42 (str "cat"))]} 30 1 1).

Lemma seq_tasks_goes_round_witness :
  exists w', reader [(0, 4%nat); (4, 1%nat)] demo_tasks =
    (Done [[line (Task 0 (str "swapper")); line (Task 1 (str "init")); line (Task 42 (str "cat"));
            line (Task 0 (str "swapper"))]; [line (Task 0 (str "swapper"))]], w').
Proof.
  destruct (seq_tasks_goes_round [(0, 4%nat); (4, 1%nat)] [10; 20; 30]
    [Task 0 (str "swapper"); Task 1 (str "init"); Task 42 (str "cat")] 2 demo_tasks) as (w' & E & _).
  - split; [done|]. intros [|[|[|i]]] a Ha; cbn in Ha; try done; injection Ha as <-;
      (split; [done|]); eexists _, _; split_and!; reflexivity.
  - reflexivity.
  - exists w'. exact E.
Defined.

Definition seq_loaded : world tasks :=
  (procexample_module_init (ENV := calm) (World ∅ 1 ∅ [] (Tasks ∅ 30 0 0))).2.

Lemma seq_module_lifecycle_witness :
  exists w', procexample_module_exit seq_loaded = (Done tt, w') /\ holds (log w') [].
Proof.
  apply (seq_module_lifecycle (ENV := calm) ∅ 30 (World ∅ 1 ∅ [] (Tasks ∅ 30 0 0)) [] (Machine true seq_loaded)).
  - by apply wf_world_empty.
  - by exists [].
  - apply (rtc_l _ _ (Machine true seq_loaded)); [|apply rtc_refl].
    exact (step_insmod (seq_module (ENV := calm) ∅ 30) (World ∅ 1 ∅ [] (Tasks ∅ 30 0 0)) 0 seq_loaded eq_refl).
  - reflexivity.
Defined.
