(* ===== verification/Debugfs.v ===== *)
(** * Files in debugfs (src/debugfs_basic.c and src/debugfs_jiffies.c)

    [Basic]: numbers written to the file "add" are added to a 32-bit variable
    that the file "sum" exports.  [Jiffies] exports the kernel's clock. *)

From stdpp Require Import base gmap list numbers list_numbers strings.
From Stdlib Require Import ZArith Lia.
From S2P Require Import Prelude Kernel Lifecycle.

Module Basic.

Record state := State { dir : Z; sum : Z }.

Definition static : state := State 0 0.

Section Handlers.
Context {ENV : Env}.

(** [sum] is a u32, [value] a u64. *)
Definition add_write (value : Z) : K state Z :=
  modify (fun g => State (dir g) (u32 (sum g + value)));; mret 0.

Definition my_debugfs_init : K state Z :=
  d ← call (DebugfsCreateDir "basics");
  modify (fun g => State d (sum g));;
  if d =? 0 then printk "debugfs failed to create directory\n" [];; mret (-1)
  else
    holder ← call (DebugfsCreateFile "add" 146 d);
    if holder =? 0 then printk "debugfs failed to create file 'add'\n" [];; mret (-1)
    else
      holder ← call (DebugfsCreateU32 "sum" 292 d);
      if holder =? 0 then printk "debugfs failed to create file 'sum'\n" [];; mret (-1)
      else mret 0.

Definition module_cleanup : K state unit :=
  g ← get; docall (DebugfsRemoveRecursive (dir g)).
End Handlers.
End Basic.

Module Jiffies.

Record state := State { dir : Z }.

Section Handlers.
Context {ENV : Env}.

Definition jiffies_init : K state Z :=
  d ← call (DebugfsCreateDir "my_time");
  put (State d);;
  if d =? 0 then mret (- ENODEV)
  else
    f ← call (DebugfsCreateU64 "time" 292 d);
    if f =? 0 then mret (-1) else mret 0.

Definition jiffies_exit : K state unit :=
  g ← get; docall (DebugfsRemoveRecursive (dir g)).
End Handlers.
End Jiffies.

Section Properties.
Context {ENV : Env}.

(** Writing a list of numbers to "add", one after the other. *)
Fixpoint adds (vs : list Z) : K Basic.state unit :=
  match vs with
  | [] => mret tt
  | v :: vs' => Basic.add_write v;; adds vs'
  end.

(** C25 The accumulator is exact modulo 2^32: after any sequence of writes the
    exported variable is the sum of all the numbers written, added to what it
    was, as a 32-bit unsigned integer. *)
Theorem debugfs_sum_exact vs w :
  0 <= Basic.sum (glob w) < 2 ^ 32 ->
  exists w', adds vs w = (Done tt, w') /\
    Basic.sum (glob w') = u32 (Basic.sum (glob w) + foldr Z.add 0 vs) /\
    Basic.dir (glob w') = Basic.dir (glob w).
Proof.
  revert w. induction vs as [|v vs IH]; intros w Hw; cbn [adds foldr].
  { eexists. split; [reflexivity|]. by rewrite Z.add_0_r, wrapU_small. }
  unfold Basic.add_write. krun.
  match goal with |- context [adds vs ?w1] => destruct (IH w1) as (w' & E & Hs & Hd) end.
  { apply wrapU_range. lia. }
  exists w'. split; [done|]. rewrite Hs, Hd. cbn [Basic.sum Basic.dir glob with_glob]. split; [|done].
  rewrite wrapU_add_l by lia. by rewrite Z.add_assoc.
Qed.

(** A failed load of debugfs_basic.c after the directory was made leaves
    the directory behind; a successful load followed by an unload removes
    it. *)
Theorem debugfs_load w L r w1 :
  (forall tr n, is_err (kret tr (DebugfsCreateDir n)) = false) -> holds (log w) L ->
  Basic.my_debugfs_init w = (Done r, w1) ->
  if Basic.dir (glob w1) =? 0 then r = -1 /\ holds (log w1) L
  else holds (log w1) (RDebugDir (Basic.dir (glob w1)) :: L) /\
    exists w2, Basic.module_cleanup w1 = (Done tt, w2) /\ holds (log w2) L.
Proof.
  intros He Hh H. unfold Basic.my_debugfs_init in H. autorewrite with krun in H. kcbn.
  set (d := kret (log w) _) in *. pose proof (He _ _ : is_err d = false) as Hd. clearbody d.
  assert (Hacq : d <> 0 -> effect_of (DebugfsCreateDir "basics", d) = Acquire (RDebugDir d)).
  { intros H0. cbn [effect_of]. by rewrite Hd, (proj2 (Z.eqb_neq _ _) H0). }
  assert (Hrel : d <> 0 -> forall r, effect_of (DebugfsRemoveRecursive d, r) = Release (RDebugDir d)).
  { intros H0 r'. cbn [effect_of]. by rewrite Hd, (proj2 (Z.eqb_neq _ _) H0). }
  assert (Hnone : effect_of (DebugfsCreateDir "basics", 0) = Nothing) by done.
  unfold Basic.module_cleanup. destruct (Z.eqb_spec d 0) as [E|E]; autorewrite with krun in H.
  { simplify_eq. split; [done|]. cbn [log with_event with_glob]. do 2 (apply holds_nothing; [done|]). done. }
  repeat match type of H with context [if ?x =? 0 then _ else _] =>
    destruct (Z.eqb_spec x 0); autorewrite with krun in H; kcbn end;
  simplify_eq; cbn [Basic.dir glob with_event with_glob log]; rewrite (proj2 (Z.eqb_neq _ _) E);
  (assert (Hh1 : holds ((DebugfsCreateDir "basics", d) :: log w) (RDebugDir d :: L)) by (apply holds_acquire; auto));
  (split; [repeat (apply holds_nothing; [done|]); done|]);
  eexists; (split; [reflexivity|]); (eapply holds_release; [by apply Hrel|]);
  repeat (apply holds_nothing; [done|]); done.
Qed.
End Properties.

(** ** Life cycle *)

(** Debugfs is compiled in and has room for files: making the directory can
    fail, but not with an error pointer, and files can be made in it.
    [debugfs_load] shows what happens when they cannot. *)
Class DebugfsRoom {ENV : Env} := {
  room_dir tr n : is_err (kret tr (DebugfsCreateDir n)) = false;
  room_file tr n m d : kret tr (DebugfsCreateFile n m d) <> 0;
  room_u32 tr n m d : kret tr (DebugfsCreateU32 n m d) <> 0;
  room_u64 tr n m d : kret tr (DebugfsCreateU64 n m d) <> 0;
}.

Section Lifecycle.
Context {ENV : Env} {ROOM : DebugfsRoom}.

(** While the module is loaded, numbers are written to its file. *)
Definition basic_module : kmodule Basic.state Z :=
  KModule Basic.static Basic.my_debugfs_init Basic.module_cleanup Basic.add_write.

(** The clock is only read, by the kernel. *)
Definition jiffies_module : kmodule Jiffies.state Empty_set :=
  KModule (Jiffies.State 0) Jiffies.jiffies_init Jiffies.jiffies_exit (fun c : Empty_set => match c with end).

(** The directory, made and removed. *)
Lemma dir_effects n d r :
  d <> 0 -> is_err d = false ->
  effect_of (DebugfsCreateDir n, d) = Acquire (RDebugDir d) /\
  effect_of (DebugfsRemoveRecursive d, r) = Release (RDebugDir d).
Proof. intros H0 He. cbn [effect_of]. by rewrite He, (proj2 (Z.eqb_neq _ _) H0). Qed.

#[global] Instance basic_clean : CleanModule basic_module.
Proof.
  refine (Build_CleanModule _ _ basic_module (fun g => [RDebugDir (Basic.dir g)])
    (fun w => Basic.dir (glob w) <> 0 /\ is_err (Basic.dir (glob w)) = false) _ _ _).
  - intros w L Hwf _ Hh. cbn [basic_module mod_init]. unfold Basic.my_debugfs_init. krun.
    set (d := kret _ (DebugfsCreateDir _)). pose proof (room_dir _ _ : is_err d = false) as Hd.
    destruct (Z.eqb_spec d 0) as [E|E]; krun.
    { eexists _, _. split; [reflexivity|]. split; [done|]. rewrite E in *. cbn. by do 2 (apply holds_nothing; [done|]). }
    rewrite (proj2 (Z.eqb_neq _ 0) (room_file _ _ _ _)). krun.
    rewrite (proj2 (Z.eqb_neq _ 0) (room_u32 _ _ _ _)). krun.
    eexists _, _. split; [reflexivity|]. split; [done|]. split; [done|].
    cbn [Basic.dir glob with_event with_glob log]. do 2 (apply holds_nothing; [done|]).
    by apply holds_acquire; [apply (dir_effects _ _ 0)|].
  - intros w L Hwf [H0 He] Hh. cbn [basic_module mod_exit]. unfold Basic.module_cleanup. krun.
    eexists. split; [reflexivity|]. split; [done|].
    eapply holds_release; [by apply (dir_effects EmptyString)|exact Hh].
  - intros w v r w' L Hwf Hi [= <- <-] Hh. done.
Defined.

#[global] Instance jiffies_clean : CleanModule jiffies_module.
Proof.
  refine (Build_CleanModule _ _ jiffies_module (fun g => [RDebugDir (Jiffies.dir g)])
    (fun w => Jiffies.dir (glob w) <> 0 /\ is_err (Jiffies.dir (glob w)) = false) _ _ _).
  - intros w L Hwf _ Hh. cbn [jiffies_module mod_init]. unfold Jiffies.jiffies_init. krun.
    set (d := kret _ (DebugfsCreateDir _)). pose proof (room_dir _ _ : is_err d = false) as Hd.
    destruct (Z.eqb_spec d 0) as [E|E]; krun.
    { eexists _, _. split; [reflexivity|]. split; [done|]. rewrite E in *. cbn. by apply holds_nothing. }
    rewrite (proj2 (Z.eqb_neq _ 0) (room_u64 _ _ _ _)). krun.
    eexists _, _. split; [reflexivity|]. split; [done|]. split; [done|].
    cbn [Jiffies.dir glob with_event with_glob log]. apply holds_nothing; [done|].
    by apply holds_acquire; [apply (dir_effects _ _ 0)|].
  - intros w L Hwf [H0 He] Hh. cbn [jiffies_module mod_exit]. unfold Jiffies.jiffies_exit. krun.
    eexists. split; [reflexivity|]. split; [done|].
    eapply holds_release; [by apply (dir_effects EmptyString)|exact Hh].
  - intros w [].
Defined.
End Lifecycle.

(** ** Concrete runs *)

#[global] Instance calm_debugfs : DebugfsRoom (ENV := calm).
Proof. by split. Qed.

Definition demo_debugfs : world Basic.state := World ∅ 1 ∅ [] Basic.static.

Lemma debugfs_sum_exact_witness :
  exists w', adds [4294967295; 3; 40] demo_debugfs = (Done tt, w') /\ Basic.sum (glob w') = 42.
Proof.
  destruct (debugfs_sum_exact [4294967295; 3; 40] demo_debugfs) as (w' & E & Hs & _); [cbn; lia|].
  exists w'. split; [exact E|]. rewrite Hs. reflexivity.
Defined.

(** The last file cannot be created. *)
Definition no_u32 : Env :=
  {| kret _ c := match c with DebugfsCreateU32 _ _ _ => 0 | _ => calm_ret c end; kjunk _ _ := 0 |}.

Lemma debugfs_load_witness :
  holds (log (Basic.my_debugfs_init (ENV := no_u32) demo_debugfs).2) [RDebugDir 1].
Proof.
  pose proof (debugfs_load (ENV := no_u32) demo_debugfs [] (-1)
                (Basic.my_debugfs_init (ENV := no_u32) demo_debugfs).2) as H.
  destruct H as [H _]; [reflexivity|by exists []|reflexivity|]. exact H.
Defined.
