(* ===== verification/Input.v ===== *)
(** * Keyboard and mouse (src/keyboard_interrupt.c and src/mouse_driver.c)

    [Keyboard] handles the keyboard interrupt and reports presses, releases
    and the escape key.  [Mouse] polls the controller when it is loaded. *)

From stdpp Require Import base gmap list numbers list_numbers strings relations.
From Stdlib Require Import ZArith Lia.
From S2P Require Import Prelude Kernel Lifecycle.

Module Keyboard.

(** The handler's static variables. *)
Record state := State { scancode : Z; status : Z }.

(** The address of the handler, the cookie of the registration. *)
Definition handler_addr : Z := 1.

Definition IRQ_HANDLED : Z := 1.

Section Handlers.
Context {ENV : Env}.

Definition irq_handler : K state Z :=
  st ← call (Inb 100);
  modify (fun g => State (scancode g) (u8 st));;
  sc ← call (Inb 96);
  modify (fun g => State (u8 sc) (status g));;
  g ← get;
  (if negb (Z.land (scancode g) 128 =? 0) then printk "KEY RELEASED\n" []
   else printk "KEY PRESSED\n" []);;
  (if (scancode g =? 1) || (scancode g =? 129) then printk "You pressed Esc !\n" [] else mret tt);;
  mret IRQ_HANDLED.

Definition keybrd_int_register : K state Z :=
  result ← call (RequestIrq 1 handler_addr);
  (if negb (result =? 0) then printk "can't get shared interrupt for keyboard\n" [] else mret tt);;
  mret result.

Definition keybrd_int_unregister : K state unit := docall (FreeIrq 1 handler_addr).
End Handlers.
End Keyboard.

Module Mouse.
Section Handlers.
Context {ENV : Env}.

(** [while (loops_for_mouse < 100)]: the fuel bounds the number of polls,
    [left] is [100 - loops_for_mouse]. *)
Fixpoint poll (fuel left : nat) : K unit unit :=
  match left with
  | O => mret tt
  | S left' =>
      match fuel with
      | O => oops Diverges
      | S fuel' =>
          sc ← call (Inb 100);
          let scan_code := s8 sc in
          if Z.land scan_code 1 =? 1 then
            printk "Data Available" [];;
            (if Z.land scan_code 32 =? 1 then printk "MOUSE\n" [] else printk "KEYBOARD\n" []);;
            keys ← call (Inb 96);
            x_mov ← call (Inb 96);
            y_mov ← call (Inb 96);
            printk "Keys : %d\nX : %d\nY : %d\n" [PInt (s8 keys); PInt (s8 x_mov); PInt (s8 y_mov)];;
            poll fuel' left'
          else poll fuel' left
      end
  end.

(** [while (loops_for_mouse < 10000) loops_for_mouse++] *)
Fixpoint spin (fuel : nat) (loops_for_mouse : Z) : K unit Z :=
  if loops_for_mouse <? 10000 then
    match fuel with
    | O => oops Diverges
    | S fuel' => spin fuel' (loops_for_mouse + 1)
    end
  else mret loops_for_mouse.

Definition mouse_init (fuel : nat) : K unit Z :=
  printk "Loading Mouse Module\n" [];;
  spin (Z.to_nat 10000) 0;;
  poll fuel 100;;
  printk "DONE. Unload now\n" [];;
  mret 0.

Definition mouse_exit : K unit unit := printk "Unloading Mouse module" [].
End Handlers.
End Mouse.

(** ** Properties *)

(** What a trace printed, oldest first. *)
Definition printed (tr : trace) : list string :=
  reverse (omap (fun e => match e.1 with Printk f _ => Some f | _ => None end) tr).

Lemma printed_cons f a r tr : printed ((Printk f a, r) :: tr) = printed tr ++ [f].
Proof. unfold printed. by rewrite <- reverse_cons. Qed.

Lemma printed_inb p r tr : printed ((Inb p, r) :: tr) = printed tr.
Proof. done. Qed.

Section Properties.
Context {ENV : Env}.

(** Bit 7 of a scan code tells a release from a press. *)
Lemma release_bit c : 0 <= c < 256 -> (Z.land c 128 =? 0) = (c <? 128).
Proof.
  intros Hc. change 128 with (2 ^ 7) at 1. destruct (Z.ltb_spec c 128) as [H|H].
  - apply Z.eqb_eq. apply Z.bits_inj'. intros n Hn. rewrite Z.land_spec, Z.pow2_bits_eqb, Z.bits_0 by lia.
    destruct (Z.eqb_spec 7 n) as [<-|]; [|apply andb_false_r]. rewrite andb_true_r.
    destruct (Z.eq_dec c 0) as [->|]; [apply Z.bits_0|]. apply Z.bits_above_log2; [lia|].
    apply Z.log2_lt_pow2; lia.
  - apply Z.eqb_neq. intros E. apply (f_equal (fun z => Z.testbit z 7)) in E.
    rewrite Z.land_spec, Z.pow2_bits_true, Z.bits_0, andb_true_r in E by lia.
    assert (Z.log2 c = 7) as Hl by (apply Z.log2_unique; lia).
    rewrite <- Hl, Z.bit_log2 in E by lia. done.
Qed.

(** The keyboard handler always claims the interrupt and reports the key:
    codes from 128 on as releases, smaller ones as presses, and the two codes
    of the escape key in addition as such. *)
Theorem keyboard_reports w :
  exists c w', Keyboard.irq_handler w = (Done Keyboard.IRQ_HANDLED, w') /\
    0 <= c < 256 /\ Keyboard.scancode (glob w') = c /\
    printed (log w') = printed (log w) ++
      (if c <? 128 then ["KEY PRESSED\n"%string] else ["KEY RELEASED\n"%string]) ++
      (if (c =? 1) || (c =? 129) then ["You pressed Esc !\n"%string] else []).
Proof.
  unfold Keyboard.irq_handler. krun. cbn [Keyboard.scancode Keyboard.status].
  set (c := u8 (kret _ (Inb 96))). assert (Hc : 0 <= c < 256) by (apply (wrapU_range 8); lia).
  rewrite release_bit by done. exists c.
  destruct (c <? 128), ((c =? 1) || (c =? 129)); cbn [negb]; krun;
    (eexists; split; [reflexivity|]; split; [done|]; split; [done|]);
    cbn [log with_event with_glob]; rewrite !printed_cons, !printed_inb, ?app_nil_r, <- ?app_assoc; done.
Qed.

(** The counting loop ends and has no effect. *)
Lemma spin_run n i w :
  i = 10000 - Z.of_nat n -> Mouse.spin n i w = (Done 10000, w).
Proof.
  revert i. induction n as [|n IH]; intros i Hi; cbn [Mouse.spin]; subst i; [done|].
  rewrite (proj2 (Z.ltb_lt _ _)) by lia. apply IH. lia.
Qed.

Lemma mouse_init_poll fuel w :
  Mouse.mouse_init fuel w =
  (Mouse.poll fuel 100;; printk "DONE. Unload now\n" [];; mret 0)
    (with_event (Printk "Loading Mouse Module\n" [], 0) w).
Proof. unfold Mouse.mouse_init. krun. by erewrite bind_done by (apply spin_run; done). Qed.

(** A masked bit 5 is never 1. *)
Lemma mouse_bit z : (Z.land z 32 =? 1) = false.
Proof.
  apply Z.eqb_neq. intros E. apply (f_equal (fun x => Z.testbit x 0)) in E.
  rewrite Z.land_spec in E. cbn in E. by rewrite andb_false_r in E.
Qed.

Lemma poll_no_mouse fuel left w u w' :
  Mouse.poll fuel left w = (Done u, w') ->
  "MOUSE\n"%string ∉ printed (log w) -> "MOUSE\n"%string ∉ printed (log w').
Proof.
  revert left w. induction fuel as [|fuel IH]; intros [|left] w H Hn; cbn [Mouse.poll] in H;
    try (unfold mret, K_ret, oops in H; by simplify_eq).
  autorewrite with krun in H. destruct (Z.land _ 1 =? 1).
  - rewrite mouse_bit in H. autorewrite with krun in H. apply IH in H; [done|].
    kcbn. rewrite ?printed_cons, ?printed_inb, ?printed_cons, ?printed_inb. set_solver.
  - apply IH in H; [done|]. kcbn. by rewrite printed_inb.
Qed.

(** The test for mouse data compares a masked bit with 1 and can never
    hold: whatever the controller delivers, a load that finishes has
    reported only keyboard data. *)
Theorem mouse_never_reports_mouse fuel w r w' :
  Mouse.mouse_init fuel w = (Done r, w') -> "MOUSE\n"%string ∉ printed (log w) ->
  "MOUSE\n"%string ∉ printed (log w').
Proof.
  intros H Hn. rewrite mouse_init_poll in H. autorewrite with krun in H.
  unfold mbind at 1, K_bind at 1 in H. destruct (Mouse.poll _ _ _) as [[u|e] w1] eqn:E; [|done].
  autorewrite with krun in H. simplify_eq. apply poll_no_mouse in E.
  - cbn [log with_event]. rewrite printed_cons. set_solver.
  - kcbn. rewrite printed_cons. set_solver.
Qed.

(** Without data the load never finishes: if the controller's status never
    shows data, no number of polls is enough. *)
Theorem mouse_waits_forever fuel w :
  (forall tr, Z.land (s8 (kret tr (Inb 100))) 1 <> 1) ->
  exists w', Mouse.mouse_init fuel w = (Oops Diverges, w').
Proof.
  intros Hk. rewrite mouse_init_poll.
  assert (Hp : forall f (w : world unit), exists w', Mouse.poll f 100 w = (Oops Diverges, w')).
  { induction f as [|f IH]; intros w1; cbn [Mouse.poll]; [by eexists|]. krun.
    rewrite (proj2 (Z.eqb_neq _ _) (Hk _)). apply IH. }
  match goal with |- context [(Mouse.poll _ _ ≫= _) ?w1] => destruct (Hp fuel w1) as [w' E] end.
  exists w'. by rewrite (bind_oops _ _ _ _ _ E).
Qed.

(** The trace after [k] polls of the status port. *)
Fixpoint polled (k : nat) (tr : trace) : trace :=
  match k with
  | O => tr
  | S k' => polled k' ((Inb 100, kret tr (Inb 100)) :: tr)
  end.

Definition data_ready (tr : trace) : Prop := Z.land (s8 (kret tr (Inb 100))) 1 = 1.

(** The controller has data at least once in any [gap] polls in a row. *)
Definition responsive (gap : nat) : Prop := forall tr, exists k, (k < gap)%nat /\ data_ready (polled k tr).

(** How often a trace printed a message. *)
Definition times (f : string) (tr : trace) : nat := length (lines f tr).

Definition available_fmt : string := "Data Available".

(** A poll with data. *)
Lemma poll_now left w :
  data_ready (log w) ->
  exists w', (forall fuel, Mouse.poll (S fuel) (S left) w = Mouse.poll fuel left w') /\
    times available_fmt (log w') = S (times available_fmt (log w)).
Proof.
  intros Hk. eexists. split.
  - intros fuel. cbn [Mouse.poll]. krun. unfold data_ready in Hk.
    rewrite (proj2 (Z.eqb_eq _ _) Hk), mouse_bit. krun. reflexivity.
  - cbn [log with_event]. unfold times. klines. rewrite length_app. simpl. lia.
Qed.

(** After [k] polls, or fewer, comes one with data. *)
Lemma poll_until k left w :
  data_ready (polled k (log w)) ->
  exists j w', (j <= k)%nat /\
    (forall fuel, Mouse.poll (S j + fuel) (S left) w = Mouse.poll fuel left w') /\
    times available_fmt (log w') = S (times available_fmt (log w)).
Proof.
  revert w. induction k as [|k IH]; intros w Hk; (destruct (decide (data_ready (log w))) as [Hnow|Hnot];
    [destruct (poll_now left w Hnow) as (w' & H); exists 0%nat, w'; split; [lia|done]|]); [done|].
  destruct (IH (with_event (Inb 100, kret (log w) (Inb 100)) w) Hk) as (j & w' & Hj & E & Ht).
  exists (S j), w'. split; [lia|]. split; [|by rewrite Ht].
  intros fuel. rewrite <- E. cbn [Nat.add]. remember (S (j + fuel)) as f. cbn [Mouse.poll]. krun.
  by rewrite (proj2 (Z.eqb_neq _ _) Hnot).
Qed.

Lemma poll_ends gap left fuel w :
  responsive gap -> (left * gap <= fuel)%nat ->
  exists w', Mouse.poll fuel left w = (Done tt, w') /\
    times available_fmt (log w') = (left + times available_fmt (log w))%nat.
Proof.
  intros Hg. revert fuel w. induction left as [|left IH]; intros fuel w Hf.
  { exists w. by destruct fuel. }
  destruct (Hg (log w)) as (k & Hk & Hd).
  destruct (poll_until k left w Hd) as (j & w1 & Hj & E & Ht).
  destruct (IH (fuel - S j)%nat w1) as (w2 & E2 & Ht2); [simpl in Hf; lia|].
  exists w2. split; [|rewrite Ht2, Ht; lia]. rewrite <- E2, <- E. f_equal. simpl in Hf. lia.
Qed.

(** C32 The load of the mouse module ends if the controller keeps delivering:
    when any [gap] polls in a row meet data at least once, a hundred times
    [gap] polls are enough, and data has been announced exactly a hundred
    times. *)
Theorem mouse_load_ends gap fuel w :
  responsive gap -> (100 * gap <= fuel)%nat ->
  exists w', Mouse.mouse_init fuel w = (Done 0, w') /\
    times available_fmt (log w') = (100 + times available_fmt (log w))%nat.
Proof.
  intros Hg Hf. rewrite mouse_init_poll.
  match goal with |- context [(Mouse.poll _ _ ≫= _) ?w1] =>
    destruct (poll_ends gap 100 fuel w1 Hg Hf) as (w' & E & Ht) end.
  rewrite (bind_done _ _ _ _ _ E). krun. eexists. split; [reflexivity|]. cbn [log with_event] in *.
  unfold times in *. klines. rewrite Ht. by klines.
Qed.
End Properties.

(** ** The keyboard module and the loader *)

Section KeyboardModule.
Context {ENV : Env}.

Definition keyboard_module : kmodule Keyboard.state unit :=
  KModule (Keyboard.State 0 0) Keyboard.keybrd_int_register Keyboard.keybrd_int_unregister
    (fun _ => Keyboard.irq_handler).

Definition keyboard_res : list resource := [RIrq 1 Keyboard.handler_addr].

#[global] Instance keyboard_clean : CleanModule keyboard_module.
Proof.
  refine (Build_CleanModule _ _ keyboard_module (fun _ => keyboard_res) (fun _ => True) _ _ _).
  - intros w L Hwf _ Hh. unfold keyboard_module, mod_init, Keyboard.keybrd_int_register. krun.
    set (r := kret _ _). destruct (Z.eqb_spec r 0) as [E|E]; cbn [negb]; krun; eexists _, _;
      (split; [reflexivity|]; split; [done|]).
    + rewrite E. cbn [Z.eqb]. split; [done|]. unfold keyboard_res. ledger_auto.
    + rewrite (proj2 (Z.eqb_neq _ _) E). ledger_auto.
  - intros w L Hwf _ Hh. unfold keyboard_module, mod_exit, Keyboard.keybrd_int_unregister, keyboard_res in *. krun.
    eexists. split; [done|]. split; [done|]. ledger_auto.
  - intros w [] r w' L Hwf _ H Hh. cbn [keyboard_module mod_op] in H. unfold Keyboard.irq_handler, keyboard_res in *.
    autorewrite with krun in H. cbn [Keyboard.scancode] in H.
    destruct (negb _), (_ || _); autorewrite with krun in H; simplify_eq;
      (split; [done|]; split; [done|]); ledger_auto.
Defined.

(** Loads, interrupts and unloads of the keyboard module in any order leave no
    handler behind; a load whose request is refused holds nothing. *)
Theorem keyboard_module_lifecycle (w0 : world Keyboard.state) (L : list resource) s :
  wf_world w0 -> holds (log w0) L -> rtc (mstep keyboard_module) (Machine false w0) s ->
  (loaded s = false -> holds (log (wld s)) L) /\
  (loaded s = true -> exists w', Keyboard.keybrd_int_unregister (wld s) = (Done tt, w') /\ holds (log w') L).
Proof. exact (clean_lifecycle keyboard_module w0 L s). Qed.
End KeyboardModule.

(** ** Concrete runs *)

(** A controller that always has mouse data, and one that never has data. *)
Definition mouse_data : Env :=
  {| kret _ c := match c with Inb 100 => 33 | _ => 7 end; kjunk _ _ := 0 |}.

Definition no_data : Env := {| kret _ c := 0; kjunk _ _ := 0 |}.

Definition idle : world unit := World ∅ 1 ∅ [] tt.

Lemma mouse_never_reports_mouse_witness :
  "MOUSE\n"%string ∉ printed (log (Mouse.mouse_init (ENV := mouse_data) 100 idle).2).
Proof.
  apply (mouse_never_reports_mouse (ENV := mouse_data) 100 idle 0).
  - vm_compute. reflexivity.
  - vm_compute. set_solver.
Defined.

Lemma mouse_waits_forever_witness :
  exists w', Mouse.mouse_init (ENV := no_data) 1000 idle = (Oops Diverges, w').
Proof. apply (mouse_waits_forever (ENV := no_data) 1000 idle). done. Defined.

(** A controller that is busy every other time. *)
Definition slow_mouse : Env :=
  {| kret tr c := match c with Inb 100 => if Nat.even (length tr) then 33 else 0 | _ => 7 end; kjunk _ _ := 0 |}.

Lemma mouse_load_ends_witness :
  exists w', Mouse.mouse_init (ENV := slow_mouse) 200 idle = (Done 0, w') /\
    times available_fmt (log w') = 100%nat.
Proof.
  apply (mouse_load_ends (ENV := slow_mouse) 2 200 idle); [|lia].
  intros tr. destruct (Nat.even (length tr)) eqn:E.
  - exists 0%nat. split; [lia|]. unfold data_ready. cbn. by rewrite E.
  - exists 1%nat. split; [lia|]. unfold data_ready. cbn [polled kret slow_mouse length].
    rewrite Nat.even_succ, <- Nat.negb_even, E. done.
Defined.
