(* ===== verification/LinkedList.v ===== *)
(** * The linked-list demo (src/kernel_linked_list.c)

    Loading the module builds a list of five structures with the kernel's
    intrusive circular lists and prints it; unloading unlinks the head.  The
    list primitives belong to the kernel: [ListHead] states what they do to
    the [next] and [prev] fields, and the module is proved against it.

    A structure is identified by its byte address; structures lie 64 bytes
    apart (the slab class of their 48 bytes), so that the address of the
    embedded list head and [container_of] are the source's arithmetic. *)

From stdpp Require Import base gmap list numbers list_numbers strings.
From Stdlib Require Import ZArith Lia.
From S2P Require Import Prelude Kernel Lifecycle.

(** ** The kernel's list primitives *)

Class ListHead := {
  links : Type;
  lnext : links -> Z -> Z;
  lprev : links -> Z -> Z;
  INIT_LIST_HEAD : Z -> links -> links;
  list_add_between : Z -> Z -> Z -> links -> links;      (* __list_add(new, prev, next) *)
  list_del : Z -> links -> links;
  init_next h l p : lnext (INIT_LIST_HEAD h l) p = if decide (p = h) then h else lnext l p;
  init_prev h l p : lprev (INIT_LIST_HEAD h l) p = if decide (p = h) then h else lprev l p;
  add_next new prev next l p : new <> prev ->
    lnext (list_add_between new prev next l) p =
    if decide (p = prev) then new else if decide (p = new) then next else lnext l p;
  add_prev new prev next l p : new <> next ->
    lprev (list_add_between new prev next l) p =
    if decide (p = next) then new else if decide (p = new) then prev else lprev l p;
  del_next e l p : p <> e ->
    lnext (list_del e l) p = if decide (p = lprev l e) then lnext l e else lnext l p;
  del_prev e l p : p <> e ->
    lprev (list_del e l) p = if decide (p = lnext l e) then lprev l e else lprev l p;
}.

(** ** The module *)

(** [struct kool_list] without the links; [list2] is never used. *)
Record kool_list := Kool { to : Z; from : Z }.

(** [offsetof(struct kool_list, list)] and [sizeof(struct kool_list)]. *)
Definition list_offset : Z := 8.
Definition kool_size : Z := 48.

(** The address of the static [mylist]. *)
Definition mylist : Z := -64.

Section Module.
Context {ENV : Env} {LH : ListHead}.

Record lists := Lists { objs : gmap Z kool_list; lk : links }.

Definition set_objs (o : gmap Z kool_list) (g : lists) : lists := Lists o (lk g).
Definition set_lk (l : links) (g : lists) : lists := Lists (objs g) l.

(** A structure from [kmalloc], with whatever the memory held. *)
Definition kmalloc_kool : K lists Z := fun w =>
  if kret (log w) (Kmalloc kool_size) =? 0
  then (Done 0, with_event (Kmalloc kool_size, 0) w)
  else
    let p := 64 * brk w in
    let j := kjunk (log w) in
    (Done p,
     with_event (Kmalloc kool_size, p)
       (with_brk (brk w + 1)
          (with_glob (set_objs (<[p := Kool (j 0) (j 1)]> (objs (glob w))) (glob w)) w))).

Definition kool (p : Z) : K lists kool_list :=
  if p =? 0 then oops NullDeref else g ← get; of_option (BadPointer p) (objs g !! p).

Definition upd_kool (p : Z) (f : kool_list -> kool_list) : K lists unit :=
  k ← kool p; modify (fun g => set_objs (<[p := f k]> (objs g)) g).

(** [for (i = 5; i != 0; --i)]: the argument is [i]. *)
Fixpoint build (i : nat) : K lists unit :=
  match i with
  | O => mret tt
  | S i' =>
      tmp ← kmalloc_kool;
      upd_kool tmp (fun k => Kool (s32 (10 + Z.of_nat i)) (from k));;
      upd_kool tmp (fun k => Kool (to k) (s32 (20 * Z.of_nat i)));;
      g ← get;
      modify (set_lk (list_add_between (tmp + list_offset) (mylist + list_offset)
                        (lnext (lk g) (mylist + list_offset)) (lk g)));;
      build i'
  end.

(** [list_for_each(pos, &mylist.list)]: the fuel bounds the elements. *)
Fixpoint print_loop (fuel : nat) (pos : Z) : K lists unit :=
  match fuel with
  | O => oops Diverges
  | S fuel' =>
      if pos =? mylist + list_offset then mret tt
      else
        k ← kool (pos - list_offset);
        printk "to= %d from= %d\n" [PInt (to k); PInt (from k)];;
        g ← get;
        print_loop fuel' (lnext (lk g) pos)
  end.

Definition hello_init : K lists Z :=
  printk "Hello World!\n" [];;
  modify (fun g => set_lk (INIT_LIST_HEAD (mylist + list_offset) (lk g)) g);;
  build 5;;
  g ← get;
  print_loop (S (size (objs g))) (lnext (lk g) (mylist + list_offset));;
  mret 0.

Definition hello_exit : K lists unit :=
  printk "Good bye!\n" [];;
  modify (fun g => set_lk (list_del (mylist + list_offset) (lk g)) g).
End Module.

(** ** Circular lists *)

Section Ring.
Context {LH : ListHead}.

(** Following [next] from [p] meets [ps] and then [h]; following [prev] from
    [h] meets them in the other order and then [p]. *)
Fixpoint fwd (l : links) (p : Z) (ps : list Z) (h : Z) : Prop :=
  match ps with
  | [] => lnext l p = h
  | q :: qs => lnext l p = q /\ fwd l q qs h
  end.

Fixpoint bwd (l : links) (p : Z) (ps : list Z) (h : Z) : Prop :=
  match ps with
  | [] => lprev l h = p
  | q :: qs => lprev l q = p /\ bwd l q qs h
  end.

Definition dring (l : links) (h : Z) (ps : list Z) : Prop :=
  fwd l h ps h /\ bwd l h ps h /\ NoDup (h :: ps).

Lemma fwd_ext l l' p ps h :
  (forall q, q ∈ p :: ps -> lnext l q = lnext l' q) -> fwd l p ps h -> fwd l' p ps h.
Proof.
  revert p. induction ps as [|q qs IH]; intros p Hx; simpl.
  - rewrite (Hx p) by set_solver. done.
  - rewrite (Hx p) by set_solver. intros [-> H]. split; [done|]. apply IH; [set_solver|done].
Qed.

Lemma bwd_ext l l' p ps h :
  (forall q, q ∈ ps ++ [h] -> lprev l q = lprev l' q) -> bwd l p ps h -> bwd l' p ps h.
Proof.
  revert p. induction ps as [|q qs IH]; intros p Hx; simpl.
  - rewrite (Hx h) by set_solver. done.
  - rewrite (Hx q) by set_solver. intros [-> H]. split; [done|]. apply IH; [set_solver|done].
Qed.

Lemma dring_init h l : dring (INIT_LIST_HEAD h l) h [].
Proof.
  split; [|split]; simpl.
  - by rewrite init_next, decide_True.
  - by rewrite init_prev, decide_True.
  - apply NoDup_singleton.
Qed.

(** Adding at the head. *)
Lemma dring_add h l ps new :
  dring l h ps -> new ∉ h :: ps -> dring (list_add_between new h (lnext l h) l) h (new :: ps).
Proof.
  intros (Hf & Hb & Hnd) Hnew. apply not_elem_of_cons in Hnew as [Hnh Hnps].
  pose proof Hnd as [Hh Hndps]%NoDup_cons.
  assert (Hfirst : lnext l h = hd h ps) by (destruct ps; simpl in Hf; [done|by destruct Hf]).
  assert (Hne : new <> hd h ps) by (destruct ps; [done|simpl; set_solver]).
  rewrite Hfirst. split; [|split].
  - simpl. split; [rewrite add_next, decide_True by done; done|].
    destruct ps as [|q qs]; simpl in *.
    + rewrite add_next, decide_False, decide_True by done. done.
    + rewrite add_next, decide_False, decide_True by done. split; [done|].
      destruct Hf as [_ Hf]. eapply fwd_ext; [|exact Hf]. intros r Hr.
      rewrite add_next by done. rewrite !decide_False; [done|set_solver|set_solver].
  - simpl. split.
    + rewrite add_prev by done. rewrite decide_False, decide_True by done. done.
    + destruct ps as [|q qs]; simpl in *.
      * rewrite add_prev, decide_True by done. done.
      * rewrite add_prev, decide_True by done. split; [done|].
        destruct Hb as [_ Hb]. eapply bwd_ext; [|exact Hb].
        apply NoDup_cons in Hndps as [Hq _]. intros r Hr.
        rewrite add_prev by done. rewrite !decide_False; [done|set_solver|set_solver].
  - apply NoDup_cons. split; [set_solver|]. apply NoDup_cons. split; done.
Qed.

Lemma fwd_close l l' p ps h h' z :
  fwd l p ps h -> last (p :: ps) = Some z -> NoDup (p :: ps) ->
  (forall q, q ∈ p :: ps -> q <> z -> lnext l' q = lnext l q) -> lnext l' z = h' -> fwd l' p ps h'.
Proof.
  revert p. induction ps as [|q qs IH]; intros p Hf Hz Hnd Hx Hend; simpl in *; [by simplify_eq|].
  destruct Hf as [Hq Hf]. apply NoDup_cons in Hnd as [Hp Hnd]. split.
  - rewrite Hx; [done|set_solver|]. intros ->. apply Hp. by apply last_Some_elem_of.
  - apply IH; [done..|set_solver|done].
Qed.

Lemma bwd_last l p ps h : bwd l p ps h -> last (p :: ps) = Some (lprev l h).
Proof.
  revert p. induction ps as [|q qs IH]; intros p; simpl; [by intros ->|].
  intros [_ H]. by apply IH.
Qed.

Lemma bwd_close l l' p ps h h' :
  bwd l p ps h -> (forall q, q ∈ ps -> lprev l' q = lprev l q) -> lprev l' h' = lprev l h ->
  bwd l' p ps h'.
Proof.
  revert p. induction ps as [|q qs IH]; intros p Hb Hx Hend; simpl in *; [congruence|].
  destruct Hb as [Hq Hb]. split; [rewrite Hx by set_solver; done|]. apply IH; [done|set_solver|done].
Qed.

(** Unlinking the head leaves the other elements as a ring of their own. *)
Lemma dring_del_head h l p ps : dring l h (p :: ps) -> dring (list_del h l) p ps.
Proof.
  intros (Hf & Hb & Hnd). simpl in Hf, Hb. destruct Hf as [Hp Hf], Hb as [Hph Hb].
  apply NoDup_cons in Hnd as [Hh Hnd]. pose proof (bwd_last _ _ _ _ Hb) as Hz.
  assert (Hzin : lprev l h ∈ p :: ps) by (by apply last_Some_elem_of).
  assert (Hnh : forall q, q ∈ p :: ps -> q <> h) by (intros q Hq ->; done).
  split; [|split].
  - eapply fwd_close; [exact Hf|exact Hz|done| |].
    + intros q Hq Hqz. rewrite del_next by auto. by rewrite decide_False.
    + rewrite del_next, decide_True by auto. done.
  - eapply bwd_close; [exact Hb| |].
    + intros q Hq. apply NoDup_cons in Hnd as [Hpq _]. rewrite del_prev by (apply Hnh; set_solver).
      rewrite Hp, decide_False; [done|set_solver].
    + rewrite del_prev by (apply Hnh; set_solver). by rewrite Hp, decide_True.
  - done.
Qed.
End Ring.

(** ** Runs *)

(** The pairs a trace printed, oldest first. *)
Definition shown (tr : trace) : list (Z * Z) :=
  reverse (omap (fun e => match e.1 with
                          | Printk "to= %d from= %d\n"%string [PInt a; PInt b] => Some (a, b)
                          | _ => None end) tr).

Lemma shown_cons a b r tr :
  shown ((Printk "to= %d from= %d\n" [PInt a; PInt b], r) :: tr) = shown tr ++ [(a, b)].
Proof. unfold shown. by rewrite <- reverse_cons. Qed.

Notation head := (mylist + list_offset).

(** The addresses of [n] structures allocated from [b] on, the last one first. *)
Definition addrs (b : Z) (n : nat) : list Z := map (fun k => 64 * (b + Z.of_nat n - k)) (seqZ 1 (Z.of_nat n)).

Lemma addrs_S b n : addrs b (S n) = addrs (b + 1) n ++ [64 * b].
Proof.
  unfold addrs. replace (Z.of_nat (S n)) with (Z.of_nat n + 1) by lia.
  rewrite seqZ_app, map_app by lia. f_equal.
  - apply map_ext. intros k. lia.
  - simpl. f_equal. lia.
Qed.

Lemma addrs_length b n : length (addrs b n) = n.
Proof. unfold addrs. rewrite length_map, length_seqZ. lia. Qed.

Lemma addrs_elem b n p : p ∈ addrs b n -> exists k, 1 <= k <= Z.of_nat n /\ p = 64 * (b + Z.of_nat n - k).
Proof.
  unfold addrs. intros H. apply list_elem_of_In, in_map_iff in H as (k & <- & Hk).
  apply list_elem_of_In, elem_of_seqZ in Hk. exists k. split; [lia|done].
Qed.

Definition kool_at (k : Z) : kool_list := Kool (10 + k) (20 * k).

Section Runs.
Context {ENV : Env} {LH : ListHead}.
Implicit Types w : world lists.

Lemma run_kool p k w : p <> 0 -> objs (glob w) !! p = Some k -> kool p w = (Done k, w).
Proof. intros Hp Hk. unfold kool. rewrite (proj2 (Z.eqb_neq _ _) Hp). krun. by rewrite Hk. Qed.

Lemma run_upd_kool p f k w :
  p <> 0 -> objs (glob w) !! p = Some k ->
  upd_kool p f w = (Done tt, with_glob (set_objs (<[p := f k]> (objs (glob w))) (glob w)) w).
Proof. intros Hp Hk. unfold upd_kool. by kstep run_kool. Qed.

(** One turn of the loop, for the value [i]. *)
Lemma build_step i w :
  0 < brk w -> kret (log w) (Kmalloc kool_size) <> 0 -> 0 < Z.of_nat i < 1000 ->
  exists w1, brk w1 = brk w + 1 /\ shown (log w1) = shown (log w) /\
    objs (glob w1) = <[64 * brk w := kool_at (Z.of_nat i)]> (objs (glob w)) /\
    lk (glob w1) = list_add_between (64 * brk w + list_offset) head (lnext (lk (glob w)) head) (lk (glob w)) /\
    (forall L, holds (log w) L -> holds (log w1) (RMem (64 * brk w) :: L)) /\
    build i w = build (pred i) w1.
Proof.
  intros Hb Hk Hi. destruct i as [|i]; [lia|]. cbn [build Nat.pred]. unfold kmalloc_kool.
  erewrite bind_done by (rewrite (proj2 (Z.eqb_neq _ _) Hk); reflexivity).
  erewrite bind_done; [|eapply run_upd_kool; [lia|cbn; apply lookup_insert_eq]].
  erewrite bind_done; [|eapply run_upd_kool; [lia|cbn; apply lookup_insert_eq]]. krun.
  eexists. split; [|split; [|split; [|split; [|split; [|reflexivity]]]]]; cbn [brk log glob objs lk
    set_objs set_lk with_glob with_event with_brk heap user].
  - done.
  - done.
  - rewrite !insert_insert_eq. f_equal. unfold kool_at. cbn [to from].
    rewrite !(wrapS_small 32) by lia. done.
  - done.
  - intros L HL. apply holds_acquire; [keffect|done].
Qed.

Lemma build_run n w ps :
  (n < 1000)%nat -> 0 < brk w -> (forall tr, kret tr (Kmalloc kool_size) <> 0) ->
  dring (lk (glob w)) head ps -> (forall p, p ∈ ps -> p < 64 * brk w) ->
  exists w', build n w = (Done tt, w') /\
    dring (lk (glob w')) head (map (fun p => p + list_offset) (addrs (brk w) n) ++ ps) /\
    (forall p, p < 64 * brk w -> objs (glob w') !! p = objs (glob w) !! p) /\
    (forall k, 1 <= k <= Z.of_nat n ->
       objs (glob w') !! (64 * (brk w + Z.of_nat n - k)) = Some (kool_at k)) /\
    dom (objs (glob w')) = list_to_set (addrs (brk w) n) ∪ dom (objs (glob w)) /\
    shown (log w') = shown (log w) /\
    (forall L, holds (log w) L -> holds (log w') (map RMem (addrs (brk w) n) ++ L)).
Proof.
  revert w ps. induction n as [|n IH]; intros w ps Hn Hb Hk Hr Hps.
  { exists w. split; [done|]. split_and!; try done; [lia|]. simpl. set_solver. }
  destruct (build_step (S n) w) as (w1 & Hb1 & Hs1 & Ho1 & Hl1 & Hh1 & E1); [done|done|lia|].
  cbn [Nat.pred] in E1. rewrite E1. clear E1.
  destruct (IH w1 (64 * brk w + list_offset :: ps)) as (w2 & E2 & Hr2 & Hold2 & Hnew2 & Hd2 & Hs2 & Hh2).
  - lia.
  - lia.
  - done.
  - rewrite Hl1. apply dring_add; [done|]. unfold list_offset, mylist.
    apply not_elem_of_cons. split; [lia|].
    intros H. apply Hps in H. lia.
  - unfold list_offset. intros p [->|H%Hps]%elem_of_cons; lia.
  - exists w2. rewrite Hb1 in *. split; [done|]. rewrite addrs_S, !map_app. split_and!.
    + rewrite <- app_assoc. exact Hr2.
    + intros p Hp. rewrite Hold2 by lia. rewrite Ho1, lookup_insert_ne by lia. done.
    + intros k Hkk. destruct (decide (k = Z.of_nat (S n))) as [->|Hne].
      * replace (64 * (brk w + Z.of_nat (S n) - Z.of_nat (S n))) with (64 * brk w) by lia.
        rewrite Hold2 by lia. rewrite Ho1. apply lookup_insert_eq.
      * rewrite <- (Hnew2 k) by lia. f_equal. lia.
    + rewrite Hd2, Ho1, dom_insert_L, list_to_set_app_L. simpl. set_solver.
    + congruence.
    + intros L HL. rewrite <- app_assoc. by apply Hh2, Hh1.
Qed.

(** Walking the ring. *)
Lemma print_loop_run fuel p ps ks w :
  fwd (lk (glob w)) p ps head -> head ∉ ps ->
  Forall2 (fun q k => q <> list_offset /\ objs (glob w) !! (q - list_offset) = Some k) ps ks ->
  (length ps < fuel)%nat ->
  exists w', print_loop fuel (lnext (lk (glob w)) p) w = (Done tt, w') /\ glob w' = glob w /\
    shown (log w') = shown (log w) ++ map (fun k => (to k, from k)) ks /\
    (forall L, holds (log w) L -> holds (log w') L).
Proof.
  revert p ps ks w. induction fuel as [|fuel IH]; intros p ps ks w Hf Hh Hks Hlen; [lia|].
  destruct Hks as [|q k ps ks [Hq Hk] Hks]; cbn [print_loop]; simpl in Hf.
  { rewrite Hf, Z.eqb_refl. exists w. split_and!; try done. by rewrite app_nil_r. }
  destruct Hf as [-> Hf]. apply not_elem_of_cons in Hh as [Hne Hh].
  rewrite (proj2 (Z.eqb_neq q head)) by done.
  erewrite bind_done by (apply (run_kool _ k); [lia|exact Hk]). krun.
  destruct (IH q ps ks (with_event (Printk "to= %d from= %d\n" [PInt (to k); PInt (from k)], 0) w))
    as (w' & E & Hg & Hs & HL); [exact Hf|done|exact Hks|simpl in Hlen; lia|].
  kcbn. rewrite E. exists w'. split; [done|]. split; [done|]. split.
  - rewrite Hs. kcbn. rewrite shown_cons, <- app_assoc. done.
  - intros L H. apply HL. kcbn. by apply holds_nothing.
Qed.
End Runs.

(** ** Properties *)

Section Properties.
Context {ENV : Env} {LH : ListHead}.
Implicit Types w : world lists.

(** What the module prints: the structures in the order of the list. *)
Definition demo_pairs : list (Z * Z) := [(11, 20); (12, 40); (13, 60); (14, 80); (15, 100)].

Lemma list_init_run w L :
  0 < brk w -> objs (glob w) = ∅ -> (forall tr, kret tr (Kmalloc kool_size) <> 0) ->
  holds (log w) L ->
  exists w', hello_init w = (Done 0, w') /\
    shown (log w') = shown (log w) ++ demo_pairs /\
    dring (lk (glob w')) head (map (fun p => p + list_offset) (addrs (brk w) 5)) /\
    Forall2 (fun q k => q <> list_offset /\ objs (glob w') !! (q - list_offset) = Some k)
      (map (fun p => p + list_offset) (addrs (brk w) 5)) (map kool_at [1; 2; 3; 4; 5]) /\
    holds (log w') (map RMem (addrs (brk w) 5) ++ L).
Proof.
  intros Hb Ho Hk Hh. unfold hello_init. krun.
  match goal with |- context [(build 5 ≫= _) ?w1] =>
    destruct (build_run 5 w1 []) as (w2 & E2 & Hr & _ & Hnew & Hd & Hs & HL);
    [lia|done|done|cbn; apply dring_init|set_solver|rewrite (bind_done _ _ _ _ _ E2)] end.
  cbn [brk log glob objs lk set_lk with_event with_glob] in *. rewrite app_nil_r in Hr. krun.
  assert (Hks : Forall2 (fun q k => q <> list_offset /\ objs (glob w2) !! (q - list_offset) = Some k)
    (map (fun p => p + list_offset) (addrs (brk w) 5)) (map kool_at [1; 2; 3; 4; 5])).
  { unfold addrs. cbn [map seqZ Z.to_nat Pos.to_nat Pos.iter_op Nat.add seq].
    assert (Hone : forall k, 1 <= k <= 5 -> 64 * (brk w + 5 - k) + list_offset <> list_offset /\
      objs (glob w2) !! (64 * (brk w + 5 - k) + list_offset - list_offset) = Some (kool_at k)).
    { intros k Hk5. split; [lia|]. rewrite <- (Hnew k) by (simpl; lia). f_equal. lia. }
    repeat (constructor; [apply Hone; lia|]). constructor. }
  destruct (print_loop_run (S (size (objs (glob w2)))) head
              (map (fun p => p + list_offset) (addrs (brk w) 5)) (map kool_at [1; 2; 3; 4; 5]) w2)
    as (w3 & E3 & Hg3 & Hs3 & HL3); [apply Hr| |exact Hks| |].
  - destruct Hr as (_ & _ & Hnd). by apply NoDup_cons in Hnd as [? _].
  - rewrite length_map, addrs_length. rewrite <- size_dom, Hd, Ho, dom_empty_L, union_empty_r_L.
    rewrite size_list_to_set, addrs_length; [lia|]. destruct Hr as (_ & _ & Hnd).
    apply NoDup_cons in Hnd as [_ Hnd]. by apply NoDup_fmap_1 in Hnd.
  - rewrite (bind_done _ _ _ _ _ E3). krun. exists w3. split; [done|]. rewrite Hs3, Hs, Hg3.
    split_and!; [done..|]. apply HL3, HL. by apply holds_nothing.
Qed.

(** C30 Loading the demo, when every allocation succeeds, prints the five
    structures, smallest first: the loop counts down and adds at the head.
    The iteration meets every structure once and stops at the head; what is
    left is a ring through the head and five list entries, each of them
    embedded in a structure that holds the pair printed at its place. *)
Theorem list_demo_prints w L :
  0 < brk w -> objs (glob w) = ∅ -> (forall tr, kret tr (Kmalloc kool_size) <> 0) ->
  holds (log w) L ->
  exists w' ps, hello_init w = (Done 0, w') /\ shown (log w') = shown (log w) ++ demo_pairs /\
    dring (lk (glob w')) head ps /\
    Forall2 (fun q pr => exists k, objs (glob w') !! (q - list_offset) = Some k /\ (to k, from k) = pr)
      ps demo_pairs.
Proof.
  intros Hb Ho Hk Hh. destruct (list_init_run w L) as (w' & E & Hs & Hr & Hks & _); [done..|].
  eexists w', _. split; [done|]. split; [done|]. split; [exact Hr|].
  change demo_pairs with (map (fun k => (to k, from k)) (map kool_at [1; 2; 3; 4; 5])).
  apply Forall2_fmap_r. eapply Forall2_impl; [exact Hks|]. intros q k [_ Hq]. by exists k.
Qed.

(** Unloading only unlinks the head: the five structures stay allocated for
    good, linked to each other in a ring nobody points to. *)
Theorem list_demo_leaks w L :
  0 < brk w -> objs (glob w) = ∅ -> (forall tr, kret tr (Kmalloc kool_size) <> 0) ->
  holds (log w) L ->
  exists w1 w2 p ps, hello_init w = (Done 0, w1) /\ hello_exit w1 = (Done tt, w2) /\
    dring (lk (glob w2)) (p + list_offset) (map (fun q => q + list_offset) ps) /\
    length ps = 4%nat /\ holds (log w2) (map RMem (p :: ps) ++ L).
Proof.
  intros Hb Ho Hk Hh. destruct (list_init_run w L) as (w1 & E & _ & Hr & _ & HL); [done..|].
  destruct (addrs (brk w) 5) as [|p ps] eqn:Ea; [done|]. exists w1. eexists _, p, ps.
  split; [done|]. unfold hello_exit. krun. split; [reflexivity|].
  cbn [brk log glob objs lk set_lk with_event with_glob]. split_and!.
  - by apply dring_del_head.
  - pose proof (addrs_length (brk w) 5) as H. rewrite Ea in H. simpl in H. lia.
  - by apply holds_nothing.
Qed.

(** Without memory the first structure is written through NULL. *)
Lemma list_demo_no_memory w :
  (forall tr, kret tr (Kmalloc kool_size) = 0) ->
  exists w', hello_init w = (Oops NullDeref, w').
Proof.
  intros Hk. unfold hello_init. krun. cbn [build]. unfold kmalloc_kool.
  krun. erewrite bind_done by (rewrite Hk; reflexivity). by eexists.
Qed.
End Properties.

(** ** An implementation of the list primitives *)

Definition upd (f : Z -> Z) (p v : Z) : Z -> Z := fun q => if decide (q = p) then v else f q.

#[refine, global] Instance list_fields : ListHead := {|
  links := (Z -> Z) * (Z -> Z);
  lnext l := l.1;
  lprev l := l.2;
  INIT_LIST_HEAD h l := (upd l.1 h h, upd l.2 h h);
  list_add_between new prev next l := (upd (upd l.1 new next) prev new, upd (upd l.2 new prev) next new);
  list_del e l := (upd l.1 (l.2 e) (l.1 e), upd l.2 (l.1 e) (l.2 e));
|}.
Proof. all: done. Defined.

Definition demo_lists : world lists := World ∅ 1 ∅ [] (Lists ∅ (fun _ => 0, fun _ => 0)).

Lemma list_demo_prints_witness :
  exists w', hello_init (ENV := calm) demo_lists = (Done 0, w') /\ shown (log w') = demo_pairs.
Proof.
  destruct (list_demo_prints (ENV := calm) demo_lists []) as (w' & ps & E & Hs & _);
    [done|done|done|by exists []|]. exists w'. split; [exact E|exact Hs].
Defined.

Lemma list_demo_leaks_witness :
  exists w1 w2 p ps, hello_init (ENV := calm) demo_lists = (Done 0, w1) /\ hello_exit w1 = (Done tt, w2) /\
    length ps = 4%nat /\ holds (log w2) (map RMem (p :: ps)).
Proof.
  destruct (list_demo_leaks (ENV := calm) demo_lists []) as (w1 & w2 & p & ps & E1 & E2 & _ & Hl & Hh);
    [done|done|done|by exists []|]. exists w1, w2, p, ps. rewrite app_nil_r in Hh.
  split; [exact E1|]. split; [exact E2|]. split; [exact Hl|exact Hh].
Defined.
