(* ===== verification/Threads.v ===== *)
(** * Walking the process tree, and kernel threads (src/thread_tree.c, src/kernel_thread.c)

    [Tree]: loading the module reports every process of the machine, starting
    with the idle task, and the children of kthreadd, and creates a kernel
    thread.  The kernel's tasks are part of the state, a map from addresses to
    task structures whose [next] fields form a ring; what creating a thread
    does to them is stated by the class [Spawn].  [Kthread]: a module that
    starts a thread when it is loaded and stops it when it is unloaded. *)

From stdpp Require Import base gmap list numbers list_numbers strings.
From Stdlib Require Import ZArith Lia.
From S2P Require Import Prelude Kernel Lifecycle.

Module Tree.

(** The first descriptor of a process, as the static array and as the
    descriptor table give it: the inode number of the file, if it is open. *)
Record files_struct := Files { fd_array0 : option Z; fdt0 : option Z }.

(** The fields of [struct task_struct] the module reads; [stack] is the
    address of the thread_info and [ti_task] the task that one points back to. *)
Record task_struct := Task {
  pid : Z;
  comm : list Z;
  nr_threads : Z;
  stack : Z;
  ti_task : Z;
  pcount : Z; run_delay : Z; last_arrival : Z; last_queued : Z;
  rt_timeout : Z;
  mm : Z;
  files : option files_struct;
  children : list Z;
  next_task : Z;
}.

Record tree := TreeState { tasks : gmap Z task_struct; init_task : Z; current : Z }.

(** What the walk needs of a task: the pointers it follows are good, and a
    process with an address space has its table of files. *)
Definition good_task (m : gmap Z task_struct) (t : task_struct) : Prop :=
  (ti_task t <> 0 /\ is_Some (m !! ti_task t)) /\
  (mm t <> 0 -> is_Some (files t)) /\
  (pid t = 2 -> Forall (fun c => c <> 0 /\ is_Some (m !! c)) (children t)).

(** Following [next_task] from the first address of [az] meets the addresses
    of [az] in order, and then [h]; the tasks there are [ts]. *)
Fixpoint chain (m : gmap Z task_struct) (az : list Z) (ts : list task_struct) (h : Z) : Prop :=
  match az, ts with
  | a :: az', t :: ts' =>
      a <> 0 /\ m !! a = Some t /\ next_task t = hd h az' /\ good_task m t /\ chain m az' ts' h
  | [], [] => True
  | _, _ => False
  end.

(** The machine's tasks form a ring that starts at the idle task. *)
Definition task_ring (g : tree) (az : list Z) (ts : list task_struct) : Prop :=
  NoDup (init_task g :: az) /\ chain (tasks g) (init_task g :: az) ts (init_task g).

(** A task before and after a thread at [t] was created: kthreadd has one
    child more, nothing else the module prints is different. *)
Definition relinked (t : Z) (a b : task_struct) : Prop :=
  pid b = pid a /\ comm b = comm a /\ nr_threads b = nr_threads a /\
  children b = children a ++ (if pid a =? 2 then [t] else []).

(** What [kthread_create] does to the machine's tasks when it succeeds: the
    new thread is a task without address space or children, at the end of the
    ring (before the idle task), and the last child of kthreadd. *)
Class Spawn := {
  spawn : string -> Z -> tree -> tree;
  spawn_init name t g : init_task (spawn name t g) = init_task g;
  spawn_ring name t g az ts :
    task_ring g az ts -> t <> 0 -> tasks g !! t = None ->
    exists ts' new,
      task_ring (spawn name t g) (az ++ [t]) (ts' ++ [new]) /\ Forall2 (relinked t) ts ts' /\
      tasks (spawn name t g) !! t = Some new /\
      comm new = str name /\ mm new = 0 /\ children new = [] /\ pid new <> 2 /\
      forall p x, tasks g !! p = Some x ->
        exists x', tasks (spawn name t g) !! p = Some x' /\ relinked t x x';
}.

Section Module.
Context {ENV : Env} {SP : Spawn} (thread_size : Z).

Definition task (p : Z) : K tree task_struct :=
  if p =? 0 then oops NullDeref else g ← get; of_option (BadPointer p) (tasks g !! p).

(** The function of the kernel thread; [current] is the thread itself. *)
Definition my_kernel_fn : K tree unit :=
  g ← get; t ← task (current g);
  printk "WE ARE RUNNING A KERNEL THREAD %s\n\n" [PStr (comm t)].

(** [list_for_each_entry(child_task, &(task->children), sibling)] *)
Fixpoint print_children (cs : list Z) : K tree unit :=
  match cs with
  | [] => mret tt
  | c :: cs' =>
      t ← task c;
      printk "		 %d 	:	%s\n" [PInt (pid t); PStr (comm t)];;
      print_children cs'
  end.

(** The body of the loop. *)
Definition visit (p : Z) : K tree unit :=
  t ← task p;
  t' ← task (ti_task t);
  printk "First Check Address %p\n" [PInt (stack t)];;
  printk "Check :: %d, %s\n" [PInt (pid t'); PStr (comm t')];;
  printk "Process %d : %s has %d threads\n" [PInt (pid t); PStr (comm t); PInt (nr_threads t)];;
  printk "%uKB Kernel Stack size, %lu time, %llu wait, %llu last run and %llu last queued\n"
    [PInt (thread_size / 1024); PInt (pcount t); PInt (run_delay t); PInt (last_arrival t);
     PInt (last_queued t)];;
  printk "%lu\n" [PInt (rt_timeout t)];;
  (if mm t =? 0 then printk "KERNEL THREAD\n\n" []
   else
     printk "USER THREAD\n\n" [];;
     f ← of_option NullDeref (files t);
     match fd_array0 f, fdt0 f with
     | Some inode, Some inode2 =>
         printk "1> FD inode : %lu\n" [PInt inode];;
         printk "2> FD inode : %lu\n" [PInt inode2]
     | _, _ => mret tt
     end);;
  (if pid t =? 2 then print_children (children t) else mret tt).

(** [do { ... task = next_task(task); } while (task != &init_task)] *)
Fixpoint walk (fuel : nat) (p : Z) : K tree unit :=
  match fuel with
  | O => oops Diverges
  | S fuel' =>
      visit p;;
      t ← task p;
      g ← get;
      if next_task t =? init_task g then mret tt else walk fuel' (next_task t)
  end.

(** The new thread is among the tasks before it is woken. *)
Definition kthread_create (name : string) : K tree Z := fun w =>
  let t := kret (log w) (KthreadCreate name) in
  (Done t, with_event (KthreadCreate name, t)
     (with_glob (if (t =? 0) || is_err t then glob w else spawn name t (glob w)) w)).

(** [wake_up_process] dereferences the thread it is given. *)
Definition wake_up_process (t : Z) : K tree unit :=
  if t =? 0 then oops NullDeref
  else if is_err t then oops (BadPointer t)
  else docall (WakeUpProcess t).

Definition hello_init : K tree Z :=
  printk "ENTERING THREAD TREE MODULE\n" [];;
  t ← kthread_create "kritsz";
  g ← get;
  walk (size (tasks g)) (init_task g);;
  wake_up_process t;;
  mret 0.

Definition hello_exit : K tree unit := printk "EXITING THREAD TREE MODULE\n" [].
End Module.

(** ** Properties *)

Section Properties.
Context {ENV : Env} {SP : Spawn} (thread_size : Z).
Implicit Types w : world tree.

(** The line of a process, and those of the children of kthreadd. *)
Definition process_fmt : string := "Process %d : %s has %d threads\n".
Definition child_fmt : string := "		 %d 	:	%s\n".

Definition process_line (t : task_struct) : list parg :=
  [PInt (pid t); PStr (comm t); PInt (nr_threads t)].
Definition child_line (t : task_struct) : list parg := [PInt (pid t); PStr (comm t)].

(** The children of a process that are listed: those of kthreadd. *)
Definition listed (m : gmap Z task_struct) (t : task_struct) : list task_struct :=
  if pid t =? 2 then omap (m !!.) (children t) else [].

Lemma run_task p t w :
  p <> 0 -> tasks (glob w) !! p = Some t -> task p w = (Done t, w).
Proof. intros Hp Ht. unfold task. rewrite (proj2 (Z.eqb_neq _ _) Hp). krun. by rewrite Ht. Qed.

Lemma print_children_run cs w :
  Forall (fun c => c <> 0 /\ is_Some (tasks (glob w) !! c)) cs ->
  exists w', print_children cs w = (Done tt, w') /\ glob w' = glob w /\
    lines process_fmt (log w') = lines process_fmt (log w) /\
    lines child_fmt (log w') =
      lines child_fmt (log w) ++ map child_line (omap (tasks (glob w) !!.) cs).
Proof.
  revert w. induction cs as [|c cs IH]; intros w Hcs; cbn [print_children].
  { exists w. by rewrite app_nil_r. }
  apply Forall_cons in Hcs as [[Hc [t Ht]] Hcs].
  rewrite (bind_done _ _ _ _ _ (run_task c t w Hc Ht)). krun.
  match goal with |- context [print_children cs ?w1] =>
    destruct (IH w1 Hcs) as (w' & E & Hg & Hp & Hl) end.
  exists w'. split; [done|]. split; [done|]. split.
  - rewrite Hp. kcbn. by klines.
  - rewrite Hl. kcbn. klines. rewrite <- app_assoc. f_equal. cbn. by rewrite Ht.
Qed.

(** One process: its line is printed once, and the children of kthreadd
    after it. *)
Lemma visit_run p t w :
  p <> 0 -> tasks (glob w) !! p = Some t -> good_task (tasks (glob w)) t ->
  exists w', visit thread_size p w = (Done tt, w') /\ glob w' = glob w /\
    lines process_fmt (log w') = lines process_fmt (log w) ++ [process_line t] /\
    lines child_fmt (log w') =
      lines child_fmt (log w) ++ map child_line (listed (tasks (glob w)) t).
Proof.
  intros Hp Ht ([Hti [t' Ht']] & Hf & Hc). unfold visit.
  rewrite (bind_done _ _ _ _ _ (run_task p t w Hp Ht)).
  rewrite (bind_done _ _ _ _ _ (run_task _ t' w Hti Ht')). krun.
  match goal with |- context [(?c ≫= _) ?w1] =>
    assert (exists w2, c w1 = (Done tt, w2) /\ glob w2 = glob w1 /\
      lines process_fmt (log w2) = lines process_fmt (log w1) /\
      lines child_fmt (log w2) = lines child_fmt (log w1)) as (w2 & E & Hg & Hpl & Hcl) end.
  { destruct (Z.eqb_spec (mm t) 0) as [Hm|Hm].
    - krun. eexists. split; [reflexivity|]. kcbn. split; [done|]. by klines.
    - destruct (Hf Hm) as [f Ef]. rewrite Ef. krun. cbn [of_option]. krun.
      destruct (fd_array0 f), (fdt0 f); krun; (eexists; split; [reflexivity|]); kcbn;
        (split; [done|]); by klines. }
  rewrite (bind_done _ _ _ _ _ E). kcbn.
  assert (Hpl' : lines process_fmt (log w2) = lines process_fmt (log w) ++ [process_line t])
    by (rewrite Hpl; by klines).
  assert (Hcl' : lines child_fmt (log w2) = lines child_fmt (log w)) by (rewrite Hcl; by klines).
  unfold listed. destruct (Z.eqb_spec (pid t) 2) as [H2|H2].
  - destruct (print_children_run (children t) w2) as (w' & E' & Hg' & Hp' & Hc').
    { rewrite Hg. by apply Hc. }
    exists w'. split; [done|]. split; [congruence|]. split; [congruence|].
    by rewrite Hc', Hcl', Hg.
  - exists w2. krun. cbn [map]. by rewrite app_nil_r.
Qed.

Lemma walk_run az ts a fuel w :
  chain (tasks (glob w)) (a :: az) ts (init_task (glob w)) ->
  init_task (glob w) ∉ az -> (length az < fuel)%nat ->
  exists w', walk thread_size fuel a w = (Done tt, w') /\ glob w' = glob w /\
    lines process_fmt (log w') = lines process_fmt (log w) ++ map process_line ts /\
    lines child_fmt (log w') = lines child_fmt (log w) ++
      map child_line (concat (map (listed (tasks (glob w))) ts)).
Proof.
  revert az ts a w. induction fuel as [|fuel IH]; intros az ts a w Hc Hi Hl; [lia|].
  destruct ts as [|t ts]; [done|]. destruct Hc as (Ha & Ht & Hn & Hgood & Hc). cbn [walk].
  destruct (visit_run a t w Ha Ht Hgood) as (w1 & E & Hg & Hp & Hcl).
  rewrite (bind_done _ _ _ _ _ E).
  erewrite bind_done by (apply (run_task a t); [exact Ha|by rewrite Hg]). krun. rewrite Hg, Hn.
  destruct az as [|b az]; cbn [hd].
  - destruct ts; [|done]. rewrite Z.eqb_refl. exists w1. krun.
    split; [done|]. split; [done|]. cbn [map concat]. by rewrite Hp, Hcl, app_nil_r.
  - rewrite (proj2 (Z.eqb_neq _ _)) by set_solver.
    destruct (IH az ts b w1) as (w' & E' & Hg' & Hp' & Hc');
      [by rewrite Hg|rewrite Hg; set_solver|simpl in Hl; lia|].
    exists w'. split; [done|]. split; [congruence|]. cbn [map concat].
    rewrite Hp', Hp, Hc', Hcl, Hg, map_app, <- !app_assoc. done.
Qed.

Lemma chain_dom m az ts h : chain m az ts h -> Forall (fun a => is_Some (m !! a)) az.
Proof.
  revert ts. induction az as [|a az IH]; intros [|t ts]; simpl; try done.
  intros (_ & Ht & _ & _ & H). constructor; [by eexists|by eapply IH].
Qed.

(** The walk is started with enough fuel. *)
Lemma chain_size m az ts h : chain m az ts h -> NoDup az -> (length az <= size m)%nat.
Proof.
  intros Hc Hnd. rewrite <- size_dom, <- (size_list_to_set (C := gset Z) az Hnd).
  apply subseteq_size. intros a. rewrite elem_of_list_to_set, elem_of_dom.
  apply chain_dom in Hc. rewrite Forall_forall in Hc. apply Hc.
Qed.

(** The pointer [kthread_create] returns to the module, and the tasks then. *)
Definition created (w : world tree) : Z :=
  kret ((Printk "ENTERING THREAD TREE MODULE\n" [], 0) :: log w) (KthreadCreate "kritsz").

Definition with_thread (w : world tree) : tree :=
  if (created w =? 0) || is_err (created w) then glob w else spawn "kritsz" (created w) (glob w).

(** Up to waking the thread, whatever [kthread_create] returned. *)
Lemma hello_init_walk az ts w :
  task_ring (with_thread w) az ts ->
  exists w1, hello_init thread_size w = (wake_up_process (created w);; mret 0) w1 /\
    glob w1 = with_thread w /\
    lines process_fmt (log w1) = lines process_fmt (log w) ++ map process_line ts /\
    lines child_fmt (log w1) = lines child_fmt (log w) ++
      map child_line (concat (map (listed (tasks (with_thread w))) ts)).
Proof.
  intros [Hnd Hc]. unfold hello_init, kthread_create. krun. erewrite bind_done by reflexivity. krun.
  match goal with |- context [(walk _ _ _ ≫= _) ?w1] =>
    change (glob w1) with (with_thread w);
    destruct (walk_run az ts (init_task (with_thread w)) (size (tasks (with_thread w))) w1)
      as (w2 & E & Hg & Hp & Hcl) end; kcbn.
  - done.
  - by apply NoDup_cons in Hnd as [? _].
  - pose proof (chain_size _ _ _ _ Hc Hnd). simpl in *. lia.
  - rewrite (bind_done _ _ _ _ _ E). exists w2. split; [done|]. split; [done|].
    rewrite Hp, Hcl. kcbn. by klines.
Qed.

Lemma relinked_lines t ts ts' :
  Forall2 (relinked t) ts ts' -> map process_line ts' = map process_line ts.
Proof.
  induction 1 as [|a b ts ts' (Hp & Hc & Hn & _) _ IH]; [done|]. cbn [map].
  unfold process_line at 1 3. by rewrite IH, Hp, Hc, Hn.
Qed.

(** The new thread is listed behind the other children of kthreadd. *)
Lemma relinked_listed t new m m' ts ts' :
  m' !! t = Some new -> (forall p x, m !! p = Some x -> exists x', m' !! p = Some x' /\ relinked t x x') ->
  Forall2 (relinked t) ts ts' -> Forall (good_task m) ts ->
  map child_line (concat (map (listed m') ts')) =
  map child_line (concat (map (fun x => listed m x ++ if pid x =? 2 then [new] else []) ts)).
Proof.
  intros Hnew Hold Hr. induction Hr as [|a b ts ts' (Hp & _ & _ & Hch) _ IH]; [done|].
  intros [(_ & _ & Hkids) Hg]%Forall_cons_1. cbn [map concat]. rewrite !map_app, (IH Hg). f_equal.
  unfold listed. rewrite Hp, Hch. destruct (Z.eqb_spec (pid a) 2) as [E|]; [|done]. specialize (Hkids E).
  rewrite omap_app, map_app. f_equal; [|by cbn; rewrite Hnew].
  clear -Hkids Hold. induction Hkids as [|c cs [_ [x Hx]] _ IH]; [done|]. cbn. rewrite Hx.
  destruct (Hold c x Hx) as (x' & Hx' & Hpx & Hcx & _). rewrite Hx'. cbn. unfold child_line at 1 3.
  by rewrite Hpx, Hcx, IH.
Qed.

Lemma chain_good m az ts h : chain m az ts h -> Forall (good_task m) ts.
Proof.
  revert ts. induction az as [|a az IH]; intros [|t ts]; simpl; try done.
  intros (_ & _ & _ & Hg & H). constructor; [done|by eapply IH].
Qed.

(** C21 Loading the module, when the thread can be created (at an address where
    there was no task): every process of the machine is reported exactly once,
    in the order of the task ring with the idle task first, the new thread
    kritsz, which is a task by then, last; under kthreadd its children are
    listed, kritsz behind the others; and then the thread is woken.  The loop
    ends: as many turns as there are tasks are enough. *)
Theorem thread_tree_reports az ts w :
  task_ring (glob w) az ts -> created w <> 0 -> is_err (created w) = false ->
  tasks (glob w) !! created w = None ->
  exists new w', hello_init thread_size w = (Done 0, w') /\
    glob w' = spawn "kritsz" (created w) (glob w) /\
    tasks (glob w') !! created w = Some new /\ comm new = str "kritsz" /\
    lines process_fmt (log w') = lines process_fmt (log w) ++ map process_line (ts ++ [new]) /\
    lines child_fmt (log w') = lines child_fmt (log w) ++
      map child_line (concat (map (fun t =>
        listed (tasks (glob w)) t ++ if pid t =? 2 then [new] else []) ts)) /\
    head (log w') = Some (WakeUpProcess (created w), 0).
Proof.
  intros Hr Hn He Hfresh.
  destruct (spawn_ring "kritsz" (created w) (glob w) az ts Hr Hn Hfresh)
    as (ts' & new & Hr' & Hrel & Hnew & Hcomm & _ & _ & Hpid & Hold).
  assert (Hw : with_thread w = spawn "kritsz" (created w) (glob w)).
  { unfold with_thread. by rewrite (proj2 (Z.eqb_neq _ _) Hn), He. }
  rewrite <- Hw in Hr', Hnew, Hold.
  destruct (hello_init_walk _ _ w Hr') as (w1 & E & Hg & Hp & Hc).
  rewrite E. unfold wake_up_process. rewrite (proj2 (Z.eqb_neq _ _) Hn), He. krun.
  exists new. eexists. split; [reflexivity|]. kcbn. rewrite Hg. split; [done|]. split; [done|]. split; [done|].
  split; [|split; [|done]]; klines.
  - by rewrite Hp, !map_app, (relinked_lines _ _ _ Hrel).
  - rewrite Hc, map_app, concat_app, map_app.
    rewrite (relinked_listed _ new (tasks (glob w)) _ ts ts' Hnew Hold Hrel)
      by (by eapply chain_good, Hr).
    cbn [map concat]. unfold listed at 2. by rewrite (proj2 (Z.eqb_neq _ _) Hpid), !app_nil_r.
Qed.

(** The result of [kthread_create] is not checked: when no thread could be
    made, every process is still reported and then the error pointer is
    dereferenced. *)
Theorem thread_tree_no_thread az ts w :
  task_ring (glob w) az ts -> is_err (created w) = true ->
  exists w', hello_init thread_size w = (Oops (BadPointer (created w)), w') /\
    lines process_fmt (log w') = lines process_fmt (log w) ++ map process_line ts.
Proof.
  intros Hr He. destruct (hello_init_walk az ts w) as (w1 & E & Hg & Hp & Hc).
  { unfold with_thread. by rewrite He, orb_true_r. }
  rewrite E. unfold wake_up_process.
  rewrite (proj2 (Z.eqb_neq _ _)) by (unfold is_err in He; lia). rewrite He. by exists w1.
Qed.
End Properties.

(** ** An implementation of [Spawn] *)

Section Linking.

Definition relink (t h : Z) (x : task_struct) : task_struct :=
  Task (pid x) (comm x) (nr_threads x) (stack x) (ti_task x) (pcount x) (run_delay x) (last_arrival x)
    (last_queued x) (rt_timeout x) (mm x) (files x)
    (children x ++ (if pid x =? 2 then [t] else []))
    (if next_task x =? h then t else next_task x).

Definition fresh_task (name : string) (t h : Z) : task_struct :=
  Task 100 (str name) 1 t t 0 0 0 0 0 0 None [] h.

Definition spawn_linked (name : string) (t : Z) (g : tree) : tree :=
  TreeState (<[t := fresh_task name t (init_task g)]> (relink t (init_task g) <$> tasks g))
    (init_task g) (current g).

Lemma relink_good t h m x new :
  good_task m x -> t <> 0 -> good_task (<[t := new]> (relink t h <$> m)) (relink t h x).
Proof.
  assert (Hin : forall p, is_Some (m !! p) -> is_Some ((<[t := new]> (relink t h <$> m)) !! p)).
  { intros p [y Hy]. rewrite lookup_insert. case_decide; [by eexists|]. rewrite lookup_fmap, Hy. by eexists. }
  intros ([Hti Hs] & Hf & Hc) Ht. cbn. split_and!; [done|by apply Hin|done|].
  intros E. cbn [pid relink] in E. cbn [children relink]. rewrite E. cbn [Z.eqb Pos.eqb].
  apply Forall_app. split.
  - eapply Forall_impl; [exact (Hc E)|]. intros c [? ?]. split; [done|by apply Hin].
  - constructor; [|constructor]. split; [done|]. rewrite lookup_insert_eq. by eexists.
Qed.

Lemma chain_linked name t h m az ts :
  chain m az ts h -> az <> [] -> h ∉ List.tl az -> t <> 0 -> m !! t = None ->
  chain (<[t := fresh_task name t h]> (relink t h <$> m)) (az ++ [t]) (map (relink t h) ts ++ [fresh_task name t h]) h.
Proof.
  intros Hc Hne Hh Ht Hm. revert ts Hc. induction az as [|a az IH]; [done|]. intros [|x ts]; [done|].
  intros (Ha & Hx & Hn & Hg & Hc). cbn [app map chain]. split; [done|]. split.
  { rewrite lookup_insert_ne by congruence. by rewrite lookup_fmap, Hx. }
  split; [|split; [by apply relink_good|]].
  - cbn [next_task relink]. rewrite Hn. destruct az as [|b az]; cbn [hd app].
    + by rewrite Z.eqb_refl.
    + rewrite (proj2 (Z.eqb_neq _ _)); [done|]. cbn in Hh. set_solver.
  - destruct az as [|b az]; cycle 1.
    { apply IH; [done|cbn in Hh |- *; set_solver|done]. }
    destruct ts; [|done]. cbn. split; [done|]. unfold good_task. cbn.
    rewrite !lookup_insert_eq. split_and!; try done.
Qed.
End Linking.

#[refine, global] Instance spawn_at_end : Spawn := {| spawn := spawn_linked |}.
Proof.
  - done.
  - intros name t g az ts [Hnd Hc] Ht Hm.
    exists (map (relink t (init_task g)) ts), (fresh_task name t (init_task g)).
    assert (Hrel : forall x, relinked t x (relink t (init_task g) x)) by done.
    split; [split|split_and!; try done].
    + change (NoDup ((init_task g :: az) ++ [t])). apply NoDup_app. split; [done|].
      split; [|apply NoDup_singleton]. intros p Hp ->%list_elem_of_singleton.
      apply chain_dom in Hc. rewrite Forall_forall in Hc. destruct (Hc _ Hp). congruence.
    + apply (chain_linked name t (init_task g) (tasks g) (init_task g :: az) ts); try done.
      by apply NoDup_cons in Hnd as [? _].
    + clear. induction ts; [constructor|]. by constructor.
    + apply lookup_insert_eq.
    + intros p x Hx. exists (relink t (init_task g) x). split; [|done]. cbn.
      rewrite lookup_insert_ne by congruence. by rewrite lookup_fmap, Hx.
Defined.

(** ** A machine with four tasks: the idle task, init, kthreadd and its child *)

Definition demo_task (p : Z) (c : string) (m : Z) (f : option files_struct) (cs : list Z) (self n : Z) :=
  Task p (str c) 1 (self + 1000) self 0 0 0 0 0 m f cs n.

Definition demo_idle := demo_task 0 "swapper" 0 None [] 10 20.
Definition demo_initp := demo_task 1 "init" 5 (Some (Files (Some 7) (Some 7))) [] 20 30.
Definition demo_kthreadd := demo_task 2 "kthreadd" 0 None [40] 30 40.
Definition demo_worker := demo_task 3 "kworker" 0 None [] 40 10.

Definition demo_tree : world tree :=
  World ∅ 1 ∅ [] (TreeState {[10 := demo_idle; 20 := demo_initp; 30 := demo_kthreadd; 40 := demo_worker]} 10 10).

Lemma demo_task_ring :
  task_ring (glob demo_tree) [20; 30; 40] [demo_idle; demo_initp; demo_kthreadd; demo_worker].
Proof.
  split; [by apply (bool_decide_unpack _)|]. repeat (split; [done|]). 
  unfold good_task; simpl; split_and!; try done; try (eexists; reflexivity); intros; try done;
    repeat constructor; try done; eexists; reflexivity.
Qed.

(** kritsz is created at address 50. *)
Definition thread_at_50 : Env :=
  {| kret _ c := match c with KthreadCreate _ => 50 | _ => calm_ret c end; kjunk _ _ := 0 |}.

Lemma thread_tree_reports_witness :
  exists new w', hello_init (ENV := thread_at_50) 8192 demo_tree = (Done 0, w') /\ comm new = str "kritsz" /\
    lines process_fmt (log w') =
      map process_line [demo_idle; demo_initp; demo_kthreadd; demo_worker; new] /\
    lines child_fmt (log w') = [child_line demo_worker; child_line new].
Proof.
  destruct (thread_tree_reports (ENV := thread_at_50) 8192 _ _ _ demo_task_ring ltac:(done) ltac:(done) ltac:(done))
    as (new & w' & E & _ & _ & Hn & Hp & Hc & _).
  exists new, w'. split; [exact E|]. split; [exact Hn|]. split; [exact Hp|exact Hc].
Defined.

(** No memory for a thread. *)
Definition no_thread : Env :=
  {| kret _ c := match c with KthreadCreate _ => - ENOMEM | _ => calm_ret c end; kjunk _ _ := 0 |}.

Lemma thread_tree_no_thread_witness :
  exists w', hello_init (ENV := no_thread) 8192 demo_tree = (Oops (BadPointer (-12)), w') /\
    length (lines process_fmt (log w')) = 4%nat.
Proof.
  destruct (thread_tree_no_thread (ENV := no_thread) 8192 _ _ _ demo_task_ring ltac:(done))
    as (w' & E & Hp). exists w'. split; [exact E|]. by rewrite Hp.
Defined.
End Tree.

Module Kthread.

(** The task states the module deals with. *)
Definition TASK_STOPPED : Z := 4.

(** The thread's pointer, and the threads that have not ended yet with their
    scheduling state ([None]: runnable). *)
Record state := State { thread1 : Z; threads : gmap Z (option Z) }.

Section Module.
Context {ENV : Env}.

(** Whether [wake_up_process] wakes a task that sleeps in a given state. *)
Context (wakes : Z -> bool).

(** A new thread sleeps until it is woken for the first time. *)
Definition kthread_create (name : string) : K state Z := fun w =>
  let t := kret (log w) (KthreadCreate name) in
  let g := glob w in
  (Done t, with_event (KthreadCreate name, t)
     (with_glob (State (thread1 g)
        (if (t =? 0) || is_err t then threads g else <[t := Some 2]> (threads g))) w)).

(** A thread structure is only there until the thread has ended. *)
Definition thread (t : Z) : K state (option Z) :=
  if t =? 0 then oops NullDeref
  else g ← get; of_option (BadPointer t) (threads g !! t).

Definition set_thread (t : Z) (s : option Z) : K state unit :=
  modify (fun g => State (thread1 g) (<[t := s]> (threads g))).

Definition set_task_state (t s : Z) : K state unit :=
  thread t;; set_thread t (Some s);; docall (SetTaskState t s).

Definition wake_up_process (t : Z) : K state unit :=
  s ← thread t;
  docall (WakeUpProcess t);;
  match s with
  | Some st => if wakes st then set_thread t None else mret tt
  | None => mret tt
  end.

(** [kthread_stop] wakes the thread and waits for its end: for ever if
    nothing wakes it. *)
Definition kthread_stop (t : Z) : K state unit :=
  s ← thread t;
  if match s with Some st => wakes st | None => true end
  then modify (fun g => State (thread1 g) (delete t (threads g)));; docall (KthreadStop t)
  else oops Diverges.

Definition thread_fn : K state Z := printk "In thread 1.0" [];; mret 0.

Definition thread_init : K state Z :=
  t ← kthread_create "my_thread";
  modify (fun g => State t (threads g));;
  set_task_state t TASK_STOPPED;;
  (if negb (t =? 0) then printk "in if" [];; wake_up_process t else mret tt);;
  mret 0.

Definition thread_exit : K state unit :=
  g ← get;
  kthread_stop (thread1 g);;
  printk "Exiting Module\n" [].

(** The scheduler runs the thread if it can: [thread_fn] returns, and the
    thread ends. *)
Definition run_thread : K state unit :=
  g ← get;
  match threads g !! thread1 g with
  | Some None => thread_fn;; modify (fun g => State (thread1 g) (delete (thread1 g) (threads g)))
  | _ => mret tt
  end.
End Module.

(** ** Properties *)

Section Properties.
Context {ENV : Env} (wakes : Z -> bool).
Implicit Types w : world state.

Definition thread_fmt : string := "In thread 1.0".

Lemma run_thread_ptr t s w :
  t <> 0 -> threads (glob w) !! t = Some s -> thread t w = (Done s, w).
Proof. intros Ht Hs. unfold thread. rewrite (proj2 (Z.eqb_neq _ _) Ht). krun. by rewrite Hs. Qed.

(** The pointer the module keeps. *)
Definition created (w : world state) : Z := kret (log w) (KthreadCreate "my_thread").

(** The thread's scheduling state once the module is loaded. *)
Definition started : option Z := if wakes TASK_STOPPED then None else Some TASK_STOPPED.

Lemma run_thread_init w :
  created w <> 0 -> is_err (created w) = false ->
  exists w', thread_init wakes w = (Done 0, w') /\ thread1 (glob w') = created w /\
    threads (glob w') = <[created w := started]> (threads (glob w)) /\
    lines thread_fmt (log w') = lines thread_fmt (log w).
Proof.
  intros Hn He. unfold thread_init.
  erewrite (bind_done _ _ _ (created w)) by reflexivity. fold (created w).
  rewrite (proj2 (Z.eqb_neq _ _) Hn), He. krun. unfold set_task_state. krun.
  erewrite bind_done by (apply (run_thread_ptr _ (Some 2)); [exact Hn|apply lookup_insert_eq]).
  unfold set_thread. krun. unfold wake_up_process. krun.
  erewrite bind_done by (apply (run_thread_ptr _ (Some TASK_STOPPED)); [exact Hn|apply lookup_insert_eq]).
  krun. unfold started. destruct (wakes TASK_STOPPED); unfold set_thread; krun;
    (eexists; split; [reflexivity|]); kcbn; (split; [done|]); cbn [threads thread1];
    rewrite ?insert_insert_eq; (split; [done|]); by klines.
Qed.

(** Loading is all or nothing: if a thread could not be made, the module has
    dereferenced the bad pointer before it tests it. *)
Lemma thread_init_bad w :
  threads (glob w) !! created w = None -> created w = 0 \/ is_err (created w) = true ->
  exists w', thread_init wakes w =
    (Oops (if created w =? 0 then NullDeref else BadPointer (created w)), w').
Proof.
  intros Hf Hb. unfold thread_init. erewrite (bind_done _ _ _ (created w)) by reflexivity.
  fold (created w).
  assert ((created w =? 0) || is_err (created w) = true) as -> by (destruct Hb as [->| ->]; [done|by rewrite orb_true_r]).
  krun. unfold set_task_state. krun. unfold thread. cbn [threads].
  destruct (created w =? 0); [by eexists|]. krun. cbn [threads]. rewrite Hf. by eexists.
Qed.

(** The test of the thread's pointer comes too late: whenever
    [kthread_create] fails, with NULL or with an error pointer, loading the
    module has dereferenced the result already; whenever loading returns, the
    test succeeds. *)
Theorem kthread_check_is_dead w :
  threads (glob w) !! created w = None ->
  if (created w =? 0) || is_err (created w)
  then exists f w', thread_init wakes w = (Oops f, w')
  else exists w', thread_init wakes w = (Done 0, w') /\ thread1 (glob w') <> 0.
Proof.
  intros Hf. destruct ((created w =? 0) || is_err (created w)) eqn:E.
  - destruct (thread_init_bad w) as [w' H]; [done| |by eauto].
    apply orb_true_iff in E as [E|E]; [left; lia|by right].
  - apply orb_false_iff in E as [E1 E2]. apply Z.eqb_neq in E1.
    destruct (run_thread_init w E1 E2) as (w' & H & Ht & _). exists w'. by rewrite Ht.
Qed.

(** On a kernel where waking also wakes a stopped task, the thread runs
    once and ends.  The module may only be unloaded before that: stopping
    the thread after its end uses a task structure that is gone. *)
Theorem kthread_stop_after_end w :
  created w <> 0 -> is_err (created w) = false -> wakes TASK_STOPPED = true ->
  exists w1 w2 w3, thread_init wakes w = (Done 0, w1) /\
    thread_exit wakes w1 = (Done tt, w3) /\ threads (glob w3) !! created w = None /\
    run_thread w1 = (Done tt, w2) /\ lines thread_fmt (log w2) = lines thread_fmt (log w) ++ [[]] /\
    run_thread w2 = (Done tt, w2) /\ thread_exit wakes w2 = (Oops (BadPointer (created w)), w2).
Proof.
  intros Hn He Hw. destruct (run_thread_init w Hn He) as (w1 & E & Ht & Hth & Hl).
  unfold started in Hth. rewrite Hw in Hth.
  assert (Hs : threads (glob w1) !! created w = Some None) by (rewrite Hth; apply lookup_insert_eq).
  exists w1. unfold thread_exit, kthread_stop, run_thread. krun. rewrite Ht.
  rewrite (bind_done _ _ _ _ _ (run_thread_ptr _ _ _ Hn Hs)), Hs. unfold thread_fn. krun.
  eexists _, _. split; [done|]. split; [reflexivity|]. kcbn. cbn [threads].
  split; [apply lookup_delete_eq|]. split; [reflexivity|]. kcbn. split; [klines; by rewrite Hl|].
  cbn [threads thread1]. rewrite Ht. krun. cbn [threads thread1]. rewrite lookup_delete_eq.
  split; [done|]. unfold thread. rewrite (proj2 (Z.eqb_neq _ _) Hn). krun. cbn [threads thread1].
  by rewrite lookup_delete_eq.
Qed.

(** On a kernel where waking leaves stopped tasks alone, the thread never
    runs, and unloading the module waits for it for ever. *)
Theorem kthread_stop_hangs w :
  created w <> 0 -> is_err (created w) = false -> wakes TASK_STOPPED = false ->
  exists w1, thread_init wakes w = (Done 0, w1) /\ run_thread w1 = (Done tt, w1) /\
    thread_exit wakes w1 = (Oops Diverges, w1).
Proof.
  intros Hn He Hw. destruct (run_thread_init w Hn He) as (w1 & E & Ht & Hth & Hl).
  unfold started in Hth. rewrite Hw in Hth.
  assert (Hs : threads (glob w1) !! created w = Some (Some TASK_STOPPED))
    by (rewrite Hth; apply lookup_insert_eq).
  exists w1. split; [done|]. unfold thread_exit, kthread_stop, run_thread. krun. rewrite Ht, Hs.
  split; [done|]. rewrite (bind_done _ _ _ _ _ (run_thread_ptr _ _ _ Hn Hs)). by rewrite Hw.
Qed.
End Properties.

Definition demo_threads : world state := World ∅ 1 ∅ [] (State 0 ∅).

(** Waking every sleeper, and only those in an (un)interruptible sleep. *)
Definition wakes_all (s : Z) : bool := true.
Definition wakes_normal (s : Z) : bool := negb (Z.land s 3 =? 0).

Lemma kthread_check_is_dead_witness :
  exists f w', thread_init (ENV := Tree.no_thread) wakes_all demo_threads = (Oops f, w').
Proof. exact (kthread_check_is_dead (ENV := Tree.no_thread) wakes_all demo_threads eq_refl). Defined.

Lemma kthread_stop_after_end_witness :
  exists w1 w2, thread_init (ENV := calm) wakes_all demo_threads = (Done 0, w1) /\
    run_thread w1 = (Done tt, w2) /\ thread_exit wakes_all w2 = (Oops (BadPointer 1), w2).
Proof.
  destruct (kthread_stop_after_end (ENV := calm) wakes_all demo_threads)
    as (w1 & w2 & w3 & E1 & _ & _ & E2 & _ & _ & E3); [done..|]. by exists w1, w2.
Defined.

Lemma kthread_stop_hangs_witness :
  exists w1, thread_init (ENV := calm) wakes_normal demo_threads = (Done 0, w1) /\
    thread_exit wakes_normal w1 = (Oops Diverges, w1).
Proof.
  destruct (kthread_stop_hangs (ENV := calm) wakes_normal demo_threads) as (w1 & E1 & _ & E2);
    [done..|]. by exists w1.
Defined.
End Kthread.
