(* ===== verification/Cgroups.v ===== *)
(** * The control groups of a task (src/cgroups_iterate.c)

    Loading the module reports the tasks that share the css_set of the
    process that loads it, and the reference count of its cgroup in every
    subsystem.  The css_sets of the kernel are part of the state; what other
    processors release once the read-side section has ended is a parameter. *)

From stdpp Require Import base gmap list numbers list_numbers strings.
From Stdlib Require Import ZArith Lia.
From S2P Require Import Prelude Kernel.

(** [struct cgroup_subsys_state]: the reference count of the cgroup, if there
    is one, and the name of the subsystem. *)
Record css := Css { cgroup_refcnt : option Z; ss_name : option (list Z) }.

(** [struct css_set]: the subsystems by index, NULL where there is none. *)
Record css_set := CssSet {
  refcount : Z;
  set_tasks : list (Z * list Z);
  subsys : list (option css);
}.

Record cgroups := Cgroups {
  css_sets : gmap Z css_set;
  cur_pid : Z;
  cur_comm : list Z;
  cur_cgroups : Z;                (* current->cgroups *)
  my_css_set : Z;
}.


Section Module.
Context {ENV : Env} (CGROUP_SUBSYS_COUNT : nat).

(** The css_sets that are released as soon as no reader is left. *)
Context (gone : Z -> bool).







Definition my_cgroup_exit : K cgroups unit := mret tt.
End Module.

(** ** Properties *)



Section Properties.
Context {ENV : Env} (CGROUP_SUBSYS_COUNT : nat) (gone : Z -> bool).
Implicit Types w : world cgroups.





End Properties.

(** ** A css_set of three subsystems, the third without a cgroup *)


