(* ===== verification/Pages.v ===== *)
(** * Pages of low and high memory (src/high_low_memory.c)

    Loading the module takes a page of each kind, maps it, prints where it is
    and gives it back.  The pages and their addresses belong to the kernel:
    what [page_address] and [virt_to_phys] return are parameters. *)

From stdpp Require Import base gmap list numbers strings.
From Stdlib Require Import ZArith Lia.
From S2P Require Import Prelude Kernel Lifecycle.

Definition GFP_USER : Z := 0x200d0.
Definition GFP_HIGHUSER : Z := 0x200d2.

Section Module.
Context {ENV : Env} (page_address virt_to_phys : Z -> Z).

(** Both functions read the page structure they are given.  (Without high
    memory [kunmap] does nothing; freeing the page then faults the same way.) *)
Definition kunmap (page : Z) : K unit unit :=
  if page =? 0 then oops NullDeref else docall (Kunmap page).

Definition free_page (page : Z) : K unit unit :=
  if page =? 0 then oops NullDeref else docall (FreePage page).

(** One page of the given kind. *)
Definition try_page (gfp : Z) : K unit unit :=
  highmem_page ← call (AllocPage gfp);
  (if highmem_page =? 0 then printk "Couldn't allocate highmem page with order : 3\n" []
   else
     highmem_page_address ← call (Kmap highmem_page);
     (if highmem_page_address =? 0 then printk "Couldn't map highmem pages.\n" []
      else printk "Address for highuser pages is : %lx. Order: %d.\n"
             [PInt highmem_page_address; PInt 0]);;
     printk "Physical Address is %lx \n" [PInt (virt_to_phys (page_address highmem_page))]);;
  kunmap highmem_page;;
  free_page highmem_page.

Definition hello_init : K unit Z :=
  try_page GFP_USER;;
  try_page GFP_HIGHUSER;;
  mret 0.

Definition hello_exit : K unit unit := printk "<1> Bye, cruel world\n" [].
End Module.

(** ** Properties *)

Section Properties.
Context {ENV : Env} (page_address virt_to_phys : Z -> Z).
Implicit Types w : world unit.

Definition phys_fmt : string := "Physical Address is %lx \n".

(** The page and the address a step gets from the kernel. *)
Definition got_page (gfp : Z) w : Z := kret (log w) (AllocPage gfp).
Definition got_addr (gfp : Z) w : Z :=
  kret ((AllocPage gfp, got_page gfp w) :: log w) (Kmap (got_page gfp w)).

(** With a page the step returns; it has taken and given back the page and its
    mapping, unless the mapping failed: then it removes one that is not there. *)
Lemma try_page_run gfp L w :
  got_page gfp w <> 0 -> holds (log w) L -> RKmap (got_page gfp w) ∉ L ->
  exists w', try_page page_address virt_to_phys gfp w = (Done tt, w') /\
    lines phys_fmt (log w') = lines phys_fmt (log w) ++
      [[PInt (virt_to_phys (page_address (got_page gfp w)))]] /\
    if got_addr gfp w =? 0 then ledger (log w') = None else holds (log w') L.
Proof.
  intros Hp Hh Hn. unfold try_page. krun. fold (got_page gfp w).
  rewrite (proj2 (Z.eqb_neq _ _) Hp). krun.
  change (kret ((AllocPage gfp, got_page gfp w) :: log w) (Kmap (got_page gfp w))) with (got_addr gfp w).
  unfold kunmap, free_page. rewrite (proj2 (Z.eqb_neq _ _) Hp).
  destruct (Z.eqb_spec (got_addr gfp w) 0) as [E|E]; krun;
    (eexists; split; [reflexivity|]); kcbn; (split; [by klines|]).
  - apply ledger_stays_bad.
    eapply (ledger_bad_release _ _ _ (RPage (got_page gfp w) :: L)); [reflexivity| |set_solver].
    rewrite E. ledger_auto.
  - ledger_auto.
Qed.

Lemma try_page_null gfp w :
  got_page gfp w = 0 -> exists w', try_page page_address virt_to_phys gfp w = (Oops NullDeref, w').
Proof.
  intros Hp. unfold try_page. krun. fold (got_page gfp w). rewrite Hp. krun. by eexists.
Qed.

(** When both pages are there and can be mapped, the load succeeds, prints two
    physical addresses and has given everything back. *)
Lemma pages_balanced L w :
  (forall tr, kret tr (AllocPage GFP_USER) <> 0) -> (forall tr, kret tr (AllocPage GFP_HIGHUSER) <> 0) -> (forall tr p, kret tr (Kmap p) <> 0) ->
  holds (log w) L -> (forall p, RKmap p ∉ L) ->
  exists w', hello_init page_address virt_to_phys w = (Done 0, w') /\ holds (log w') L /\
    exists p q, lines phys_fmt (log w') = lines phys_fmt (log w) ++
      [[PInt (virt_to_phys (page_address p))]; [PInt (virt_to_phys (page_address q))]].
Proof.
  intros Hp Hp' Hk Hh Hn. unfold hello_init.
  destruct (try_page_run GFP_USER L w) as (w1 & E1 & Hl1 & H1); [apply Hp|done|apply Hn|].
  rewrite (proj2 (Z.eqb_neq _ _) (Hk _ _ : got_addr GFP_USER w <> 0)) in H1.
  destruct (try_page_run GFP_HIGHUSER L w1) as (w2 & E2 & Hl2 & H2); [apply Hp'|done|apply Hn|].
  rewrite (proj2 (Z.eqb_neq _ _) (Hk _ _ : got_addr GFP_HIGHUSER w1 <> 0)) in H2.
  rewrite (bind_done _ _ _ _ _ E1), (bind_done _ _ _ _ _ E2). exists w2. split; [done|].
  split; [done|]. eexists _, _. rewrite Hl2, Hl1, <- app_assoc. reflexivity.
Qed.

(** A missing page is unmapped and freed all the same. *)
Lemma pages_free_null L w :
  holds (log w) L -> (forall p, RKmap p ∉ L) ->
  (forall tr, kret tr (AllocPage GFP_USER) = 0) \/
  (forall tr, kret tr (AllocPage GFP_USER) <> 0) /\ (forall tr, kret tr (AllocPage GFP_HIGHUSER) = 0) ->
  exists w', hello_init page_address virt_to_phys w = (Oops NullDeref, w').
Proof.
  intros Hh Hn [H|[H1 H2]]; unfold hello_init.
  - destruct (try_page_null GFP_USER w) as [w' E]; [apply H|]. exists w'. by apply bind_oops.
  - destruct (try_page_run GFP_USER L w) as (w1 & E1 & _); [apply H1|done|apply Hn|].
    destruct (try_page_null GFP_HIGHUSER w1) as [w' E]; [apply H2|].
    exists w'. rewrite (bind_done _ _ _ _ _ E1). by apply bind_oops.
Qed.
(** Loading the module on a kernel that can map its pages.  With a page of
    either kind it succeeds, prints the two physical addresses and has given
    everything back.  The failure of an allocation is only printed: the
    missing page is then unmapped and freed, so that loading ends in a NULL
    dereference whenever either page cannot be had. *)
Theorem pages_outcome (has_user has_high : bool) L w :
  (forall tr, (kret tr (AllocPage GFP_USER) =? 0) = negb has_user) ->
  (forall tr, (kret tr (AllocPage GFP_HIGHUSER) =? 0) = negb has_high) ->
  (forall tr p, kret tr (Kmap p) <> 0) -> holds (log w) L -> (forall p, RKmap p ∉ L) ->
  if has_user && has_high then
    exists w', hello_init page_address virt_to_phys w = (Done 0, w') /\ holds (log w') L /\
      exists p q, lines phys_fmt (log w') = lines phys_fmt (log w) ++
        [[PInt (virt_to_phys (page_address p))]; [PInt (virt_to_phys (page_address q))]]
  else exists w', hello_init page_address virt_to_phys w = (Oops NullDeref, w').
Proof.
  intros Hu Hg Hk Hh Hn. destruct has_user, has_high; cbn [andb negb] in *.
  - apply pages_balanced; try done; intros tr; by apply Z.eqb_neq.
  - apply (pages_free_null L w Hh Hn). right.
    split; intros tr; [by apply Z.eqb_neq|by apply Z.eqb_eq].
  - apply (pages_free_null L w Hh Hn). left. intros tr. by apply Z.eqb_eq.
  - apply (pages_free_null L w Hh Hn). left. intros tr. by apply Z.eqb_eq.
Qed.
End Properties.

Definition no_high : Env :=
  {| kret _ c := match c with AllocPage g => if g =? GFP_HIGHUSER then 0 else 1 | _ => calm_ret c end;
     kjunk _ _ := 0 |}.

Definition idle : world unit := World ∅ 1 ∅ [] tt.

Lemma pages_outcome_witness :
  (exists w', hello_init (ENV := calm) (fun p => 4096 * p) (fun v => v) idle = (Done 0, w') /\
     holds (log w') []) /\
  (exists w', hello_init (ENV := no_high) (fun p => 4096 * p) (fun v => v) idle = (Oops NullDeref, w')).
Proof.
  split.
  - destruct (pages_outcome (ENV := calm) (fun p => 4096 * p) (fun v => v) true true [] idle)
      as (w' & E & H & _); [done|done|done|by exists []|set_solver|]. by exists w'.
  - exact (pages_outcome (ENV := no_high) (fun p => 4096 * p) (fun v => v) true false [] idle
             ltac:(done) ltac:(done) ltac:(done) (ex_intro _ [] (conj eq_refl (Permutation_refl _)))
             ltac:(set_solver)).
Defined.
