(* ===== verification/Netlink.v ===== *)
(** * The netlink module (src/netlink_module.c)

    The module opens a netlink socket in the kernel; to every message it
    receives it answers "Hello from kernel", by a broadcast to a multicast
    group.  Who gets a broadcast is the netlink core's decision and depends on
    what the broadcast returned: [NetlinkBus] states the limits of it. *)

From stdpp Require Import base gmap list numbers list_numbers strings relations.
From Stdlib Require Import ZArith Lia.
From S2P Require Import Prelude Kernel Lifecycle.

Definition NETLINK_USER : Z := 31.
Definition MULTICAST_GROUP : Z := 0x21.

(** A message: the sender in its header (32 bits), and the bytes after it. *)
Record nlmsg := Nlmsg { nlmsg_pid : Z; nlmsg_data : list Z }.

Record nl_state := NlState { nl_sk : Z }.

(** [strncpy]: at most [n] characters, filled up with NULs. *)
Definition strncpy (s : list Z) (n : Z) : list Z :=
  take (Z.to_nat n) s ++ replicate (Z.to_nat n - length s) 0.

Section Module.
Context {ENV : Env}.

Definition hello_nl_recv_msg (skb : nlmsg) : K nl_state unit :=
  let msg := str "Hello from kernel" in
  printk "Entering: %s\n" [PStr (str "hello_nl_recv_msg")];;
  let msg_size := Z.of_nat (length msg) in
  s ← of_option Unterminated (cstr (nlmsg_data skb));
  printk "Netlink received msg payload: %s\n" [PStr s];;
  let pid := s32 (nlmsg_pid skb) in
  printk "Sending data back to task no. %d\n" [PInt pid];;
  skb_out ← call (NlmsgNew msg_size);
  if skb_out =? 0 then printk "Failed to allocate new skb\n" []
  else
    nlh ← call (NlmsgPut skb_out msg_size);
    if nlh =? 0 then printk "nlmsg_put() : No netlink message header\n" []
    else
      g ← get;
      res ← call (NetlinkBroadcast (nl_sk g) skb_out (u32 pid) MULTICAST_GROUP (strncpy msg msg_size));
      if s32 res <? 0 then printk "Error while sending back to user : %d\n" [PInt (s32 res)]
      else mret tt.

Definition hello_init : K nl_state Z :=
  printk "Entering: %s\n" [PStr (str "hello_init")];;
  s ← call (NetlinkKernelCreate NETLINK_USER);
  put (NlState s);;
  if s =? 0 then printk "Error creating socket.\n" [];; mret (-10)
  else mret 0.

Definition hello_exit : K nl_state unit :=
  printk "exiting hello module\n" [];;
  g ← get;
  docall (NetlinkKernelRelease (nl_sk g)).

Definition netlink_module : kmodule nl_state nlmsg :=
  KModule (NlState 0) hello_init hello_exit (fun m => hello_nl_recv_msg m;; mret 0).
End Module.

(** ** The netlink core *)

(** The sockets of the protocol.  A protocol made by [netlink_kernel_create]
    without a number of groups has the groups 1 to 32.  Whatever a broadcast
    returned, it was delivered only to sockets that have joined the group, and
    not to the one whose port it excludes. *)
Class NetlinkBus := {
  nsock : Type;
  bus : list nsock;
  portid : nsock -> Z;
  joined : nsock -> Z -> Prop;
  joined_range s g : joined s g -> 1 <= g <= 32;
  delivered : Z -> Z -> Z -> list nsock;   (* result, excluded port, group *)
  delivered_only r x g s : s ∈ delivered r x g -> s ∈ bus /\ joined s g /\ portid s <> x;
}.

(** The header of the answer always fits in its buffer. *)
Class PutFits {ENV : Env} := put_fits tr p n : kret tr (NlmsgPut p n) <> 0.

#[global] Instance calm_put : PutFits (ENV := calm).
Proof. done. Qed.

(** ** Properties *)

(** The broadcasts of a trace, newest first: excluded port, group, bytes. *)
Definition sent (tr : trace) : list (Z * Z * list Z) :=
  omap (fun e => match e.1 with NetlinkBroadcast _ _ x g bs => Some (x, g, bs) | _ => None end) tr.

Section Properties.
Context {ENV : Env}.
Implicit Types w : world nl_state.

(** The answer to a message. *)
Definition reply (m : nlmsg) : Z * Z * list Z :=
  (u32 (s32 (nlmsg_pid m)), MULTICAST_GROUP, str "Hello from kernel").

Lemma pid_round n : 0 <= n < 2 ^ 32 -> u32 (s32 n) = n.
Proof.
  intros Hn. unfold wrapU, wrapS. rewrite Zminus_mod_idemp_l.
  replace (n + 2 ^ (32 - 1) - 2 ^ (32 - 1)) with n by lia. by apply Z.mod_small.
Qed.

(** The skb and the header the kernel hands out for the answer. *)
Definition before_new (m : nlmsg) (s : list Z) (tr : trace) : trace :=
  (Printk "Sending data back to task no. %d\n" [PInt (s32 (nlmsg_pid m))], 0) ::
  (Printk "Netlink received msg payload: %s\n" [PStr s], 0) ::
  (Printk "Entering: %s\n" [PStr (str "hello_nl_recv_msg")], 0) :: tr.
Definition out_skb m s tr : Z := kret (before_new m s tr) (NlmsgNew 17).
Definition out_hdr m s tr : Z :=
  kret ((NlmsgNew 17, out_skb m s tr) :: before_new m s tr) (NlmsgPut (out_skb m s tr) 17).

(** What the broadcast of the answer returns, and where that is reported. *)
Definition out_res m s (g : nl_state) tr : Z :=
  s32 (kret ((NlmsgPut (out_skb m s tr) 17, out_hdr m s tr) :: (NlmsgNew 17, out_skb m s tr) :: before_new m s tr)
    (NetlinkBroadcast (nl_sk g) (out_skb m s tr) (u32 (s32 (nlmsg_pid m))) MULTICAST_GROUP (str "Hello from kernel"))).
Definition error_fmt : string := "Error while sending back to user : %d\n".
Definition no_skb_fmt : string := "Failed to allocate new skb\n".
Definition no_header_fmt : string := "nlmsg_put() : No netlink message header\n".

(** Every way a terminated message is handled: nothing else changes, and what
    is held afterwards depends on the two allocations. *)
Lemma recv_run m s w L :
  cstr (nlmsg_data m) = Some s -> holds (log w) L ->
  exists w', hello_nl_recv_msg m w = (Done tt, w') /\
    heap w' = heap w /\ brk w' = brk w /\ glob w' = glob w /\
    if out_skb m s (log w) =? 0 then
      sent (log w') = sent (log w) /\ holds (log w') L /\
      lines no_skb_fmt (log w') = lines no_skb_fmt (log w) ++ [[]]
    else if out_hdr m s (log w) =? 0 then
      sent (log w') = sent (log w) /\ holds (log w') (RSkb (out_skb m s (log w)) :: L) /\
      lines no_header_fmt (log w') = lines no_header_fmt (log w) ++ [[]]
    else
      sent (log w') = reply m :: sent (log w) /\ holds (log w') L /\
      lines error_fmt (log w') = lines error_fmt (log w) ++
        (if out_res m s (glob w) (log w) <? 0 then [[PInt (out_res m s (glob w) (log w))]] else []).
Proof.
  intros Hs Hh. unfold hello_nl_recv_msg. krun. rewrite Hs. cbn [of_option]. krun.
  change (Z.of_nat (length (str "Hello from kernel"))) with 17.
  change (strncpy (str "Hello from kernel") 17) with (str "Hello from kernel").
  unfold out_res, out_hdr, out_skb, before_new. set (a := kret _ (NlmsgNew 17)).
  destruct (Z.eqb_spec a 0) as [Ea|Ea].
  { krun. eexists. split; [reflexivity|]. repeat (split; [done|]). split; [ledger_auto|]. kcbn. by klines. }
  krun. set (h := kret _ (NlmsgPut a 17)). destruct (Z.eqb_spec h 0) as [Eh|Eh].
  { krun. eexists. split; [reflexivity|]. repeat (split; [done|]). split; [ledger_auto|]. kcbn. by klines. }
  krun. set (res := s32 _). destruct (res <? 0); krun; (eexists; split; [reflexivity|]); repeat (split; [done|]);
    (split; [ledger_auto|]); kcbn; klines; by rewrite ?app_nil_r.
Qed.

(** C26 What the handler does with a message, on every path.  A message without
    a terminator is read past its end.  If there is no memory for the answer,
    that is logged and nothing is sent; if there is no room for its header,
    that is logged, nothing is sent, and the answer's buffer is lost.
    Otherwise exactly one broadcast of the seventeen characters goes to group
    33, excluding the port of the sender, a negative result of it is logged
    and nothing else is done about it, and the handler keeps nothing. *)
Theorem netlink_replies m w L :
  0 <= nlmsg_pid m < 2 ^ 32 -> holds (log w) L ->
  match cstr (nlmsg_data m) with
  | None => exists w', hello_nl_recv_msg m w = (Oops Unterminated, w')
  | Some s =>
      exists w', hello_nl_recv_msg m w = (Done tt, w') /\ glob w' = glob w /\
        if out_skb m s (log w) =? 0 then
          sent (log w') = sent (log w) /\ holds (log w') L /\
          lines no_skb_fmt (log w') = lines no_skb_fmt (log w) ++ [[]]
        else if out_hdr m s (log w) =? 0 then
          sent (log w') = sent (log w) /\ holds (log w') (RSkb (out_skb m s (log w)) :: L) /\
          lines no_header_fmt (log w') = lines no_header_fmt (log w) ++ [[]]
        else
          sent (log w') = (nlmsg_pid m, 33, str "Hello from kernel") :: sent (log w) /\ holds (log w') L /\
          lines error_fmt (log w') = lines error_fmt (log w) ++
            (if out_res m s (glob w) (log w) <? 0 then [[PInt (out_res m s (glob w) (log w))]] else [])
  end.
Proof.
  intros Hpid Hh. destruct (cstr (nlmsg_data m)) as [s|] eqn:Hs.
  - destruct (recv_run m s w L Hs Hh) as (w' & E & _ & _ & Hg & H). exists w'. split; [done|]. split; [done|].
    destruct (_ =? 0); [done|]. destruct (_ =? 0); [done|]. unfold reply in H. by rewrite pid_round in H.
  - unfold hello_nl_recv_msg. krun. rewrite Hs. by eexists.
Qed.

(** The answer goes to group 33, which nobody can join: whatever the broadcast
    returns, it is delivered to no socket at all. *)
Theorem netlink_reply_lost {NB : NetlinkBus} m s w L :
  cstr (nlmsg_data m) = Some s -> holds (log w) L ->
  exists w', hello_nl_recv_msg m w = (Done tt, w') /\
    (sent (log w') = sent (log w) \/
     exists x g bs, sent (log w') = (x, g, bs) :: sent (log w) /\ forall r, delivered r x g = []).
Proof.
  intros Hs Hh. destruct (recv_run m s w L Hs Hh) as (w' & E & _ & _ & _ & HL).
  exists w'. split; [done|]. destruct (_ =? 0); [left; apply HL|]. destruct (_ =? 0); [left; apply HL|].
  right. eexists _, _, _. split; [apply HL|]. intros r. apply elem_of_nil_inv. intros q Hq.
  apply delivered_only in Hq as (_ & Hj & _). apply joined_range in Hj. unfold MULTICAST_GROUP in Hj. lia.
Qed.

(** When the header does not fit, the answer's buffer is neither sent nor
    freed: it is lost. *)
Theorem netlink_put_leaks m s w L :
  cstr (nlmsg_data m) = Some s -> holds (log w) L ->
  out_skb m s (log w) <> 0 -> out_hdr m s (log w) = 0 ->
  exists w', hello_nl_recv_msg m w = (Done tt, w') /\ sent (log w') = sent (log w) /\
    holds (log w') (RSkb (out_skb m s (log w)) :: L).
Proof.
  intros Hs Hh H1 H2. destruct (recv_run m s w L Hs Hh) as (w' & E & _ & _ & _ & HL).
  rewrite (proj2 (Z.eqb_neq _ _) H1), H2 in HL. exists w'. by destruct HL as (? & ? & _).
Qed.

(** ** Life cycle *)

Definition netlink_res (g : nl_state) : list resource := [RSock (nl_sk g)].

Lemma netlink_init_run w L :
  wf_world w -> glob w = NlState 0 -> holds (log w) L ->
  exists r w', hello_init w = (Done r, w') /\ wf_world w' /\
    (if r =? 0 then True /\ holds (log w') (netlink_res (glob w') ++ L) else holds (log w') L).
Proof.
  intros Hwf Hg Hh. unfold hello_init. krun. set (s := kret _ (NetlinkKernelCreate _)).
  destruct (Z.eqb_spec s 0) as [E|E]; krun; (eexists _, _; split; [reflexivity|]; split; [done|]).
  - ledger_auto.
  - cbn [Z.eqb]. split; [done|]. unfold netlink_res. cbn [nl_sk]. ledger_auto.
Qed.

Lemma netlink_exit_run w L :
  wf_world w -> True -> holds (log w) (netlink_res (glob w) ++ L) ->
  exists w', hello_exit w = (Done tt, w') /\ wf_world w' /\ holds (log w') L.
Proof.
  intros Hwf _ Hh. unfold hello_exit. krun. eexists. split; [reflexivity|]. split; [done|].
  unfold netlink_res in Hh. ledger_auto.
Qed.

Context {PF : PutFits}.

Lemma netlink_op_run w m r w' L :
  wf_world w -> True -> (hello_nl_recv_msg m;; mret 0) w = (Done r, w') ->
  holds (log w) (netlink_res (glob w) ++ L) ->
  wf_world w' /\ True /\ holds (log w') (netlink_res (glob w') ++ L).
Proof.
  intros Hwf _ H Hh. destruct (cstr (nlmsg_data m)) as [s|] eqn:Es.
  - destruct (recv_run m s w _ Es Hh) as (w1 & E & Hhp & Hb & Hg & HL).
    rewrite (bind_done _ _ _ _ _ E), run_ret in H. simplify_eq.
    split; [unfold wf_world; by rewrite Hhp, Hb|]. split; [done|]. rewrite Hg.
    destruct (_ =? 0); [apply HL|]. rewrite (proj2 (Z.eqb_neq _ _) (put_fits _ _ _ : out_hdr _ _ _ <> 0)) in HL.
    apply HL.
  - unfold hello_nl_recv_msg in H. autorewrite with krun in H. rewrite Es in H. done.
Qed.

#[global] Instance netlink_clean : CleanModule netlink_module :=
  Build_CleanModule _ _ netlink_module netlink_res (fun _ => True)
    netlink_init_run netlink_exit_run netlink_op_run.

(** Provided the header of the answer fits in its buffer, any sequence of
    loads, messages and unloads leaves nothing behind: a failed load holds no
    socket, every answer's buffer is given away, and unloading closes the
    socket. *)
Theorem netlink_module_lifecycle (w0 : world nl_state) (L : list resource) s :
  wf_world w0 -> holds (log w0) L ->
  rtc (mstep netlink_module) (Machine false w0) s ->
  (loaded s = false -> holds (log (wld s)) L) /\
  (loaded s = true -> exists w', hello_exit (wld s) = (Done tt, w') /\ holds (log w') L).
Proof. exact (clean_lifecycle netlink_module w0 L s). Qed.
End Properties.

(** ** Concrete runs *)

(** Two sockets with their groups; a broadcast that succeeds reaches the
    members, one that fails nobody. *)
#[refine, global] Instance demo_bus : NetlinkBus := {|
  nsock := Z * list Z;
  bus := [(7, [1; 32]); (9, [2])];
  portid q := q.1;
  joined q g := g ∈ q.2 /\ 1 <= g <= 32;
  delivered r x g :=
    if r <? 0 then [] else filter (fun q => (g ∈ q.2 /\ 1 <= g <= 32) /\ q.1 <> x) [(7, [1; 32]); (9, [2])];
|}.
Proof.
  - tauto.
  - intros r x g q. destruct (r <? 0); [set_solver|]. rewrite list_elem_of_filter. naive_solver.
Defined.

(** Port 7 sends "hi". *)
Definition demo_msg : nlmsg := Nlmsg 7 (str "hi" ++ [0; 0]).

Definition demo_nl : world nl_state := World ∅ 1 ∅ [] (NlState 1).

Lemma netlink_replies_witness :
  exists w', hello_nl_recv_msg (ENV := calm) demo_msg demo_nl = (Done tt, w') /\ glob w' = NlState 1 /\
    sent (log w') = [(7, 33, str "Hello from kernel")] /\ holds (log w') [] /\ lines error_fmt (log w') = [].
Proof.
  apply (netlink_replies (ENV := calm) demo_msg demo_nl []); [done|by exists []].
Defined.

Lemma netlink_reply_lost_witness :
  exists w', hello_nl_recv_msg (ENV := calm) demo_msg demo_nl = (Done tt, w') /\
    (sent (log w') = [] \/
     exists x g bs, sent (log w') = [(x, g, bs)] /\ forall r, delivered (NetlinkBus := demo_bus) r x g = []).
Proof.
  apply (netlink_reply_lost (ENV := calm) (NB := demo_bus) demo_msg (str "hi") demo_nl []).
  - done.
  - by exists [].
Defined.

Definition no_header : Env :=
  {| kret _ c := match c with NlmsgPut _ _ => 0 | _ => calm_ret c end; kjunk _ _ := 0 |}.

Lemma netlink_put_leaks_witness :
  exists w', hello_nl_recv_msg (ENV := no_header) demo_msg demo_nl = (Done tt, w') /\
    holds (log w') [RSkb 1].
Proof.
  destruct (netlink_put_leaks (ENV := no_header) demo_msg (str "hi") demo_nl [])
    as (w' & E & _ & H); [done|by exists []|done|done|]. by exists w'.
Defined.

Definition nl_loaded : world nl_state := (hello_init (ENV := calm) (with_glob (NlState 0) demo_nl)).2.

Lemma netlink_module_lifecycle_witness :
  exists w', hello_exit nl_loaded = (Done tt, w') /\ holds (log w') [].
Proof.
  apply (netlink_module_lifecycle (ENV := calm) demo_nl [] (Machine true nl_loaded)).
  - by apply wf_world_empty.
  - by exists [].
  - apply (rtc_l _ _ (Machine true nl_loaded)); [|apply rtc_refl].
    exact (step_insmod (netlink_module (ENV := calm)) demo_nl 0 nl_loaded eq_refl).
  - reflexivity.
Defined.
