(* ===== verification/Params.v ===== *)
(** * Module parameters (src/parameters.c)

    The module prints its parameters when it is loaded.  Parsing a parameter
    on the command line is the kernel's work: [ParamArray] states what it
    stores for an array. *)

From stdpp Require Import base gmap list numbers list_numbers strings.
From Stdlib Require Import ZArith Lia.
From S2P Require Import Prelude Kernel.

Record params := Params {
  myshort : Z;
  myint : Z;
  mylong : Z;
  mystring : list Z;
  myintArray : list Z;
  arr_argc : Z;
}.

Definition params_static : params := Params 1 420 9999 (str "blah") [-1; -1] 0.

(** [sizeof myintArray / sizeof (int)] *)
Definition array_size : nat := 2.

Section Module.
Context {ENV : Env}.

(** [for (i = 0; i < sizeof myintArray / sizeof (int); i++)]: [left] turns
    are left. *)
Fixpoint print_array (left : nat) (i : Z) : K params unit :=
  match left with
  | O => mret tt
  | S left' =>
      g ← get;
      v ← of_option (OutOfBounds i) (aget (myintArray g) i);
      printk "myintArray[%d] = %d\n" [PInt i; PInt v];;
      print_array left' (i + 1)
  end.

Definition hello_5_init : K params Z :=
  g ← get;
  printk "Hello, world 5\n=============\n" [];;
  printk "myshort is a short integer: %hd\n" [PInt (myshort g)];;
  printk "myint is an integer: %d\n" [PInt (myint g)];;
  printk "mylong is a long integer: %ld\n" [PInt (mylong g)];;
  printk "mystring is a string: %s\n" [PStr (mystring g)];;
  print_array array_size 0;;
  printk "got %d arguments for myintArray.\n" [PInt (arr_argc g)];;
  mret 0.

Definition hello_5_exit : K params unit := printk "Goodbye, world 5\n" [].
End Module.

(** ** Parameters from the command line *)

(** [module_param_array(name, type, &num, perm)]: [vals] are the numbers given
    to an array that holds [old]; the result is the array and the count, or
    nothing when too many numbers are given. *)
Class ParamArray := {
  param_array_set : list Z -> list Z -> option (list Z * Z);
  array_set_fits old vals : (length vals <= length old)%nat ->
    param_array_set old vals = Some (vals ++ drop (length vals) old, Z.of_nat (length vals));
  array_set_long old vals : (length old < length vals)%nat -> param_array_set old vals = None;
}.

(** Loading with "myintArray=vals": a bad parameter prevents the load. *)
Definition insmod_array {PA : ParamArray} (vals : list Z) : K params (option Z) :=
  g ← get;
  match param_array_set (myintArray g) vals with
  | None => mret None
  | Some (a, n) =>
      put (Params (myshort g) (myint g) (mylong g) (mystring g) a n);;
      r ← hello_5_init; mret (Some r)
  end.

(** ** Properties *)

Definition elem_fmt : string := "myintArray[%d] = %d\n".
Definition argc_fmt : string := "got %d arguments for myintArray.\n".

Definition elem_line (i : nat) (v : Z) : list parg := [PInt (Z.of_nat i); PInt v].

Section Properties.
Context {PA : ParamArray}.
Implicit Types w : world params.

Lemma print_array_run left i w :
  (i + left <= length (myintArray (glob w)))%nat ->
  exists w', print_array left (Z.of_nat i) w = (Done tt, w') /\ glob w' = glob w /\
    lines elem_fmt (log w') = lines elem_fmt (log w) ++
      imap (fun j v => elem_line (i + j) v) (take left (drop i (myintArray (glob w)))) /\
    lines argc_fmt (log w') = lines argc_fmt (log w).
Proof.
  revert i w. induction left as [|left IH]; intros i w Hi; cbn [print_array].
  { exists w. by rewrite app_nil_r. }
  destruct (lookup_lt_is_Some_2 (myintArray (glob w)) i) as [v Hv]; [lia|].
  krun. rewrite aget_lookup, Nat2Z.id, Hv by lia. cbn [of_option]. krun.
  replace (Z.of_nat i + 1) with (Z.of_nat (S i)) by lia.
  match goal with |- context [print_array left _ ?w1] =>
    destruct (IH (S i) w1) as (w' & E & Hg & Hl & Ha); [kcbn; lia|] end.
  exists w'. split; [done|]. split; [done|]. split.
  - rewrite Hl. kcbn. klines. rewrite <- app_assoc. f_equal. rewrite (drop_S _ _ _ Hv). cbn [take imap app].
    f_equal; [by rewrite Nat.add_0_r|]. apply imap_ext. intros j x _. unfold compose. simpl. f_equal. lia.
  - rewrite Ha. kcbn. by klines.
Qed.

(** Loading with numbers for the array prints the numbers given, then the
    compiled-in ones for the rest, and the count; with more numbers than the
    array has elements the module is not loaded. *)
Theorem params_array_printed vals w :
  length (myintArray (glob w)) = array_size ->
  if decide (length vals <= array_size)%nat then
    exists w', insmod_array vals w = (Done (Some 0), w') /\
      lines elem_fmt (log w') = lines elem_fmt (log w) ++
        imap elem_line (vals ++ drop (length vals) (myintArray (glob w))) /\
      lines argc_fmt (log w') = lines argc_fmt (log w) ++ [[PInt (Z.of_nat (length vals))]]
  else insmod_array vals w = (Done None, w).
Proof.
  intros Hlen. unfold insmod_array. krun. case_decide as Hv.
  - rewrite array_set_fits by lia. krun. unfold hello_5_init. krun. cbn [myintArray arr_argc].
    match goal with |- context [(print_array _ 0 ≫= _) ?w1] =>
      destruct (print_array_run array_size 0 w1) as (w' & E & Hg & Hl & Ha) end.
    { kcbn. cbn [myintArray]. rewrite length_app, length_drop. lia. }
    rewrite (bind_done _ _ _ _ _ E). krun. eexists. split; [reflexivity|]. kcbn. split.
    + klines. rewrite Hl. kcbn. cbn [myintArray]. klines. rewrite drop_0, take_ge; [done|].
      rewrite length_app, length_drop. lia.
    + klines. rewrite Ha. kcbn. by klines.
  - by rewrite array_set_long by lia.
Qed.
End Properties.

#[refine, global] Instance array_copy : ParamArray := {|
  param_array_set old vals :=
    if decide (length vals <= length old)%nat
    then Some (vals ++ drop (length vals) old, Z.of_nat (length vals)) else None;
|}.
Proof.
  - intros old vals H. by rewrite decide_True.
  - intros old vals H. rewrite decide_False; [done|lia].
Defined.

Definition demo_params : world params := World ∅ 1 ∅ [] params_static.

Lemma params_array_printed_witness :
  exists w', insmod_array [5] demo_params = (Done (Some 0), w') /\
    lines elem_fmt (log w') = [[PInt 0; PInt 5]; [PInt 1; PInt (-1)]].
Proof.
  destruct (params_array_printed [5] demo_params eq_refl) as (w' & E & Hl & _).
  exists w'. split; [exact E|exact Hl].
Defined.
