(* ===== verification/Preempt.v ===== *)
(** * Scheduling in atomic context (src/preempt_schedule.c)

    The module calls [schedule] with preemption disabled and while it holds a
    spin lock with interrupts off, "to see if it produces an oops or a
    warning".  The context a call is made in is computed from the trace. *)

From stdpp Require Import base gmap list numbers strings.
From Stdlib Require Import ZArith Lia.
From S2P Require Import Prelude Kernel.

Section Module.
Context {ENV : Env}.

Definition my_func : K unit Z :=
  printk "PREEMPT DISABLE\n" [];;
  docall PreemptDisable;;
  printk "SCHEDULING OUT\n" [];;
  docall Schedule;;
  printk "SCHEDULING IN\n" [];;
  docall PreemptEnable;;
  printk "PREEMPT ENABLE\n" [];;
  printk "SPINLOCK\n" [];;
  docall SpinLockIrq;;
  printk "SCHEDULING OUT 2\n" [];;
  docall Schedule;;
  printk "SCHEDULING IN 2\n" [];;
  printk "UNLOCK\n" [];;
  docall SpinUnlockIrq;;
  mret 0.

Definition init_func : K unit Z := my_func;; mret 0.

Definition exit_func : K unit unit := mret tt.
End Module.

(** ** Contexts *)

(** How deep preemption is disabled and whether interrupts are on. *)
Record ctx := Ctx { preempt_count : Z; irqs_on : bool }.

(** Taking a spin lock disables preemption as well. *)
Definition ctx_step (c : ctx) (e : kcall) : ctx :=
  match e with
  | PreemptDisable => Ctx (preempt_count c + 1) (irqs_on c)
  | PreemptEnable => Ctx (preempt_count c - 1) (irqs_on c)
  | SpinLockIrq => Ctx (preempt_count c + 1) false
  | SpinUnlockIrq => Ctx (preempt_count c - 1) true
  | _ => c
  end.

Definition context (c0 : ctx) (tr : trace) : ctx := foldr (fun e c => ctx_step c e.1) c0 tr.

(** The contexts [schedule] was called in, newest first. *)
Fixpoint scheduled (c0 : ctx) (tr : trace) : list ctx :=
  match tr with
  | [] => []
  | (Schedule, _) :: tr' => context c0 tr' :: scheduled c0 tr'
  | _ :: tr' => scheduled c0 tr'
  end.

Definition may_schedule (c : ctx) : bool := (preempt_count c =? 0) && irqs_on c.

(** Loaded from a context in which it may sleep, the module calls [schedule]
    exactly twice, both times in a context in which it may not: once with
    preemption disabled, once with interrupts off as well.  Afterwards the
    context is as before. *)
Theorem preempt_schedules_atomic (c0 : ctx) (w : world unit) :
  may_schedule (context c0 (log w)) = true ->
  exists w', init_func w = (Done 0, w') /\
    context c0 (log w') = context c0 (log w) /\
    exists c1 c2, scheduled c0 (log w') = c2 :: c1 :: scheduled c0 (log w) /\
      may_schedule c1 = false /\ may_schedule c2 = false /\
      irqs_on c1 = true /\ irqs_on c2 = false.
Proof.
  intros Hm. unfold init_func, my_func. krun. eexists. split; [reflexivity|]. kcbn.
  cbn [context foldr ctx_step scheduled]. fold (context c0 (log w)).
  destruct (context c0 (log w)) as [n b]. unfold may_schedule in *. cbn [preempt_count irqs_on] in *.
  apply andb_true_iff in Hm as [Hn Hb]. apply Z.eqb_eq in Hn as ->. subst b. split; [done|].
  eexists _, _. split; [reflexivity|]. done.
Qed.

Definition idle : world unit := World ∅ 1 ∅ [] tt.

Lemma preempt_schedules_atomic_witness :
  exists w', init_func idle = (Done 0, w') /\ length (scheduled (Ctx 0 true) (log w')) = 2%nat.
Proof.
  destruct (preempt_schedules_atomic (Ctx 0 true) idle eq_refl) as (w' & E & _ & c1 & c2 & H & _).
  exists w'. split; [exact E|]. by rewrite H.
Defined.
