(* ===== verification/Usb.v ===== *)
(** * The USB pen-drive driver (src/usb_basic.c)

    The driver registers with the USB core for one device and reports when it
    is plugged and removed.  Which driver a device is offered to is the USB
    core's decision: [UsbCore] states how it reads the driver's table. *)

From stdpp Require Import base gmap list numbers strings relations.
From Stdlib Require Import ZArith Lia.
From S2P Require Import Prelude Kernel Lifecycle.

Record usb_device_id := UsbId { idVendor : Z; idProduct : Z }.

#[global] Instance usb_device_id_eq_dec : EqDecision usb_device_id.
Proof. solve_decision. Defined.

(** Without the terminating entry. *)
Definition pen_table : list usb_device_id := [UsbId 0x058F 0x6387].

(** The core finds the entry of a driver's table a device matches, if any. *)
Class UsbCore := {
  usb_match_id : list usb_device_id -> usb_device_id -> option usb_device_id;
  match_some t d id : usb_match_id t d = Some id -> id ∈ t /\ id = d;
  match_none t d : usb_match_id t d = None -> d ∉ t;
}.

Section Module.
Context {ENV : Env} {UC : UsbCore}.

Definition pen_probe (id : usb_device_id) : K unit Z :=
  printk "Pen drive (%04X:%04X) plugged\n" [PInt (idVendor id); PInt (idProduct id)];;
  mret 0.

Definition pen_disconnect : K unit unit := printk "Pen drive removed\n" [].

Definition pen_init : K unit Z := call (UsbRegister "pen_driver").

Definition pen_exit : K unit unit := docall (UsbDeregister "pen_driver").

(** A device is plugged in, stays a while and is removed: [true] if the driver
    was asked. *)
Definition plug (d : usb_device_id) : K unit bool :=
  match usb_match_id pen_table d with
  | Some id => r ← pen_probe id; if r =? 0 then pen_disconnect;; mret true else mret true
  | None => mret false
  end.

Definition usb_module : kmodule unit usb_device_id :=
  KModule tt pen_init pen_exit (fun d => plug d;; mret 0).

#[global] Instance usb_clean : CleanModule usb_module.
Proof.
  refine (Build_CleanModule _ _ usb_module (fun _ => [RUsb "pen_driver"]) (fun _ => True) _ _ _).
  - intros w L Hwf _ Hh. unfold usb_module, mod_init, pen_init. krun. set (r := kret _ _).
    eexists _, _. split; [done|]. split; [done|].
    destruct (Z.eqb_spec r 0); [split; [done|]|]; ledger_auto.
  - intros w L Hwf _ Hh. unfold usb_module, mod_exit, pen_exit. krun.
    eexists. split; [done|]. split; [done|]. ledger_auto.
  - intros w d r w' L Hwf _ H Hh. cbn [usb_module mod_op] in H. unfold plug, pen_probe, pen_disconnect in H.
    destruct (usb_match_id pen_table d); autorewrite with krun in H; cbn [Z.eqb] in H;
      autorewrite with krun in H; simplify_eq; (split; [done|]; split; [done|]); ledger_auto.
Defined.

Definition plugged_fmt : string := "Pen drive (%04X:%04X) plugged\n".

(** Devices plugged in one after the other. *)
Fixpoint plugs (ds : list usb_device_id) : K unit unit :=
  match ds with [] => mret tt | d :: ds' => plug d;; plugs ds' end.

(** The driver reports exactly the plugged devices with the vendor and
    product of its table, in order, and no others. *)
Theorem usb_reports_its_device ds w :
  exists w', plugs ds w = (Done tt, w') /\
    lines plugged_fmt (log w') = lines plugged_fmt (log w) ++
      map (fun d => [PInt (idVendor d); PInt (idProduct d)])
        (filter (fun d => d = UsbId 0x058F 0x6387) ds).
Proof.
  revert w. induction ds as [|d ds IH]; intros w; cbn [plugs].
  { exists w. by rewrite app_nil_r. }
  unfold plug. destruct (usb_match_id pen_table d) as [id|] eqn:E.
  - apply match_some in E as [Hin ->]. apply list_elem_of_singleton in Hin as ->.
    unfold pen_probe, pen_disconnect. krun. cbn [Z.eqb]. krun.
    match goal with |- context [plugs ds ?w1] => destruct (IH w1) as (w' & Ew & Hl) end.
    exists w'. split; [done|]. rewrite Hl, filter_cons_True by done. kcbn. klines. by rewrite <- app_assoc.
  - apply match_none in E. krun. destruct (IH w) as (w' & Ew & Hl). exists w'. split; [done|].
    rewrite Hl, filter_cons_False; [done|]. intros ->. apply E. by apply list_elem_of_singleton.
Qed.

(** Loads, plugged devices and unloads in any order leave no registration
    behind. *)
Theorem usb_module_lifecycle (w0 : world unit) (L : list resource) s :
  wf_world w0 -> holds (log w0) L -> rtc (mstep usb_module) (Machine false w0) s ->
  (loaded s = false -> holds (log (wld s)) L) /\
  (loaded s = true -> exists w', pen_exit (wld s) = (Done tt, w') /\ holds (log w') L).
Proof. exact (clean_lifecycle usb_module w0 L s). Qed.
End Module.

#[refine, global] Instance usb_first : UsbCore := {|
  usb_match_id t d := if decide (d ∈ t) then Some d else None;
|}.
Proof. all: intros t d *; case_decide; naive_solver. Defined.

Definition no_usb : world unit := World ∅ 1 ∅ [] tt.
Definition usb_loaded : world unit := (pen_init (ENV := calm) no_usb).2.

Lemma usb_module_lifecycle_witness :
  exists w', pen_exit usb_loaded = (Done tt, w') /\ holds (log w') [].
Proof.
  apply (usb_module_lifecycle (ENV := calm) no_usb [] (Machine true usb_loaded)).
  - by apply wf_world_empty.
  - by exists [].
  - apply (rtc_l _ _ (Machine true usb_loaded)); [|apply rtc_refl].
    exact (step_insmod (usb_module (ENV := calm)) no_usb 0 usb_loaded eq_refl).
  - reflexivity.
Defined.
