(* ===== verification/Clients.v ===== *)
(** * The test programs (src/manager.c, src/keyboard_interrupt_misc_device_test.c)

    Two user programs that drive devices.  [Manager] writes to the device node
    /dev/mem and reads it back; which driver the node leads to is the
    machine's choice (no module of the repository makes a node of that name),
    so it is modelled against an interface of device files, with the nodes as
    a parameter.  [KeyTest] reads ten keys from the key logger.  A program runs on the state
    of the driver; its result is the exit code and what it wrote. *)

From stdpp Require Import base gmap list numbers list_numbers strings.
From Stdlib Require Import ZArith Lia.
From S2P Require Import Prelude Kernel Uaccess Lifecycle Chardev KeyLog.

(** What a program writes: formatted lines, and raw bytes. *)
Inductive output := Printf (fmt : string) (args : list parg) | Perror (s : string) | Bytes (bs : list Z).

(** The handlers of a device file; [read] and [write] return the result and
    the new file position. *)
Record char_dev (S : Type) := CharDev {
  d_open : K S Z;
  d_read : Z -> Z -> Z -> K S (Z * Z);
  d_write : Z -> Z -> Z -> K S (Z * Z);
  d_release : K S Z;
}.
Arguments CharDev {S} _ _ _ _.
Arguments d_open {S} _.
Arguments d_read {S} _.
Arguments d_write {S} _.
Arguments d_release {S} _.

(** A system call reports a driver's error as -1. *)
Definition sysret (r : Z) : Z := if r <? 0 then -1 else r.

Module Manager.
Section Program.
Context {S : Type} (node : string -> option (char_dev S)).

(** The file [open] gives, if the node exists and its driver does not refuse;
    calls on -1 fail. *)
Definition sys_open (path : string) : K S (option (char_dev S)) :=
  match node path with
  | None => mret None
  | Some d => r ← d_open d; mret (if r <? 0 then None else Some d)
  end.

Definition fd_of (f : option (char_dev S)) (fd : Z) : Z := if f then fd else -1.

Definition sys_write (f : option (char_dev S)) (buf n pos : Z) : K S (Z * Z) :=
  match f with
  | None => mret (-1, pos)
  | Some d => r ← d_write d buf n pos; mret (sysret r.1, r.2)
  end.

Definition sys_read (f : option (char_dev S)) (buf n pos : Z) : K S (Z * Z) :=
  match f with
  | None => mret (-1, pos)
  | Some d => r ← d_read d buf n pos; mret (sysret r.1, r.2)
  end.

Definition sys_close (f : option (char_dev S)) : K S unit :=
  match f with None => mret tt | Some d => d_release d;; mret tt end.

(** The string in the array [x] of 30 bytes. *)
Definition user_string (x : Z) : K S (list Z) := fun w =>
  match ubytes (user w) x 30 with
  | None => (Oops (BadPointer x), w)
  | Some b => match cstr b with Some s => (Done s, w) | None => (Oops Unterminated, w) end
  end.

(** [fd] is the number an open file gets; [lit] is where the literal "WWWWW"
    lies and [x] the array.  No driver of the repository has an ioctl handler,
    so that call fails, and its result is ignored.  The file is released when
    the program closes it, or else when it exits. *)
Definition main (fd lit x : Z) : K S (Z * list output) :=
  device ← sys_open "/dev/mem";
  let out := [Printf "%d\n" [PInt (fd_of device fd)]] in
  n ← sys_write device lit 5 0;
  if n.1 <? 0 then sys_close device;; mret (-1, out ++ [Perror "write"])
  else
    ret ← sys_read device x 30 n.2;
    if ret.1 <? 0 then sys_close device;; mret (-1, out ++ [Perror "Read"])
    else
      s ← user_string x;
      sys_close device;;
      mret (0, out ++ [Printf "%s -- %d\n" [PStr s; PInt (s32 ret.1)]]).
End Program.

(** The one-byte device behind the interface. *)
Definition memory_dev {UA : Uaccess} : char_dev memory :=
  CharDev memory_open memory_read
    (fun buf n pos => r ← memory_write buf n pos; mret (r, pos)) memory_release.

Section Interface.
Context {S : Type} (node : string -> option (char_dev S)) (d : char_dev S).
Implicit Types w : world S.

Lemma run_user_string x b w :
  ubytes (user w) x 30 = Some b ->
  user_string x w = (match cstr b with Some s => Done s | None => Oops Unterminated end, w).
Proof. intros H. unfold user_string. rewrite H. by destruct (cstr b). Qed.

(** What the program ends with, when its array holds [b] after a read of [n]
    bytes: without a terminator in the array it reads past its end. *)
Definition ends (fd n : Z) (b : list Z) : outcome (Z * list output) :=
  match cstr b with
  | Some s => Done (0, [Printf "%d\n" [PInt fd]; Printf "%s -- %d\n" [PStr s; PInt (s32 n)]])
  | None => Oops Unterminated
  end.

(** The program on any device that serves its three calls, and without one. *)
Lemma main_run fd lit x b r n pos m pos' q w w1 w2 w3 w4 :
  node "/dev/mem" = Some d -> d_open d w = (Done r, w1) -> 0 <= r ->
  d_write d lit 5 0 w1 = (Done (n, pos), w2) -> 0 <= n ->
  d_read d x 30 pos w2 = (Done (m, pos'), w3) -> 0 <= m ->
  ubytes (user w3) x 30 = Some b -> d_release d w3 = (Done q, w4) ->
  exists w', main node fd lit x w = (ends fd m b, w').
Proof.
  intros Hd E1 Hr E2 Hn E3 Hm Hb E4. pose proof (proj2 (Z.ltb_ge _ _) Hr) as Hr'.
  pose proof (proj2 (Z.ltb_ge _ _) Hn) as Hn'. pose proof (proj2 (Z.ltb_ge _ _) Hm) as Hm'.
  unfold main, sys_open, fd_of. rewrite Hd. krun. rewrite (bind_done _ _ _ _ _ E1). krun. rewrite Hr'.
  unfold sys_write, sys_read, sys_close, sysret. krun.
  rewrite (bind_done _ _ _ _ _ E2). krun. rewrite Hn', Hn'.
  rewrite ?bind_assoc, (bind_done _ _ _ _ _ E3). krun. rewrite Hm', Hm'. krun.
  unfold ends. pose proof (run_user_string x b w3 Hb) as Es. destruct (cstr b) as [s|].
  - rewrite (bind_done _ _ _ _ _ Es). krun. rewrite (bind_done _ _ _ _ _ E4). krun. by eexists.
  - rewrite (bind_oops _ _ _ _ _ Es). by eexists.
Qed.

Lemma main_no_node fd lit x w :
  node "/dev/mem" = None ->
  main node fd lit x w = (Done (-1, [Printf "%d\n" [PInt (-1)]; Perror "write"]), w).
Proof. intros Hd. unfold main, sys_open. rewrite Hd. by krun. Qed.
End Interface.

Section Properties.
Context {UA : Uaccess}.

(** Overwriting the first byte of a mapped range. *)
Lemma ubytes_set_first m x n v old :
  ubytes m x (S n) = Some old ->
  exists b, m !! x = Some b /\ ubytes (<[x := v]> m) x (S n) = Some (v :: tail old).
Proof.
  cbn [ubytes]. rewrite lookup_insert_eq. destruct (m !! x) as [b|]; [|done]. cbn.
  rewrite (ubytes_ext (<[x := v]> m) m) by (intros; apply lookup_insert_ne; lia).
  destruct (ubytes m (x + 1) n) as [bs|]; [|done]. cbn. intros [= <-]. by exists b.
Qed.

(** With the one-byte device behind /dev/mem the program reads back one of its
    five letters: its array holds a W followed by what the stack held before,
    and that is printed as a string with the count 1. *)
Theorem manager_on_memory node fd lit x old (w : world memory) :
  node "/dev/mem"%string = Some memory_dev -> memory_inv w ->
  ubytes (user w) lit 5 = Some (str "WWWWW") -> ubytes (user w) x 30 = Some old ->
  exists w', main node fd lit x w = (ends fd 1 (87 :: tail old), w').
Proof.
  intros Hn Hi Hlit Hx. set (w1 := with_event (Printk "<1>Opening memory module\n" [], 0) w).
  destruct (memory_write_run w1 lit 5 0 Hi) as (b & E2 & Hb).
  assert (b = 87) as ->.
  { apply Hb. kcbn. replace (lit + 5 - 1) with (lit + Z.of_nat 4) by lia.
    by rewrite (ubytes_lookup _ _ _ _ Hlit) by lia. }
  destruct (ubytes_set_first _ _ _ 87 _ Hx) as (v & Hv & Hx').
  match type of E2 with _ = (_, ?w2) =>
    destruct (memory_read_run w2 87 x 30 0) as (m & E3 & Hm); [apply Hi|apply lookup_insert_eq|] end.
  rewrite (Hm v Hv) in E3.
  eapply (main_run node memory_dev); [exact Hn|reflexivity|lia| | |exact E3|cbn; lia|exact Hx'|reflexivity].
  - cbn [memory_dev d_write]. rewrite (bind_done _ _ _ _ _ E2). reflexivity.
  - lia.
Qed.

End Properties.

(** *** Concrete runs *)

Definition demo_process : gmap Z Z := uwrite (uwrite ∅ 100 (str "WWWWW")) 200 (replicate 30 0).

Definition demo_mem : world memory := World {[1 := [0]]} 2 demo_process [] (Memory 1).

Lemma manager_on_memory_witness :
  exists w', main (fun _ => Some memory_dev) 3 100 200 demo_mem =
    (Done (0, [Printf "%d\n" [PInt 3]; Printf "%s -- %d\n" [PStr [87]; PInt 1]]), w').
Proof.
  destruct (manager_on_memory (fun _ => Some memory_dev) 3 100 200 (replicate 30 0) demo_mem) as [w' E];
    [done|by split; [|exists 0]|by vm_compute|by vm_compute|]. exists w'. exact E.
Defined.
End Manager.

Module KeyTest.
Section Program.
Context {ENV : Env} {UA : Uaccess} {SLAB : Slab}.

(** The first [n] bytes of the program's buffer. *)
Definition user_bytes (buf n : Z) : K keylog (list Z) := fun w =>
  of_option (BadPointer buf) (ubytes (user w) buf (Z.to_nat n)) w.

(** [fd] is what [open] returns; the driver's open handler never fails.
    [None] while the program sleeps in its read.  The file is released when
    the program closes it, or else when it exits. *)
Definition main (fd buf : Z) (sched : list happening) : K keylog (option (Z * list output)) :=
  if fd =? -1 then mret (Some (-1, [Perror "open"]))
  else
    keylog_open;;
    let out := [Printf "/dev/keylog was opened, fd = %d\n" [PInt fd]] in
    r ← keylog_read sched buf 10 0;
    match r with
    | None => mret None
    | Some r =>
        let nread := sysret r.1 in
        if nread =? -1 then keylog_close;; mret (Some (-1, out ++ [Perror "read"]))
        else
          bs ← user_bytes buf nread;
          keylog_close;;
          mret (Some (0, out ++ [Printf "%d characters were read\n" [PInt nread]; Bytes bs]))
    end.
End Program.

Section Properties.
Context {ENV : Env} {UA : Uaccess} {SLAB : Slab}.
Implicit Types w : world keylog.

(** C19 The test program on the key logger, driver and program together: its
    file is open, its ten-byte buffer mapped, the kernel can allocate a buffer
    and install the handler, and the allocator's rounding hides the write past
    the end of the buffer.  When ten keys have been typed and the program is
    woken, it prints the byte that the memory of the driver's buffer held
    before it was allocated and then the last nine keys, newest first (the
    first key typed is missing), and exits; the driver is left without buffer
    or interrupt handler. *)
Theorem keytest_prints_reversed fd buf old w L :
  fd <> -1 -> 0 < brk w -> 0 <= intr_registered (glob w) < 2 ^ 31 - 1 ->
  (forall tr, kret tr (Kmalloc 10) <> 0) ->
  (forall tr i d, kret tr (RequestIrq i d) = 0) -> 10 < ksize 10 ->
  ubytes (user w) buf 10 = Some old -> holds (log w) L ->
  exists o w1 ks w', keylog_open w = (Done o, w1) /\
    length ks = 10%nat /\ scancodes (log w') = ks ++ scancodes (log w) /\
    main fd buf (replicate 10 Interrupt ++ [Resume]) w =
      (Done (Some (0, [Printf "/dev/keylog was opened, fd = %d\n" [PInt fd];
                       Printf "%d characters were read\n" [PInt 10];
                       Bytes (kjunk (log w1) 0 :: take 9 ks)])), w') /\ holds (log w') L.
Proof.
  intros Hfd Hb Hi Hk Hirq Hroom Hmap HL. unfold main. rewrite (proj2 (Z.eqb_neq _ _) Hfd).
  destruct (open_run w) as (w1 & E1 & Hirq1 & Hreg1 & _ & tr & r & Hr & Hh1); [lia|lia|].
  rewrite Hirq in Hr. subst r. specialize (Hh1 L HL). cbn [Z.eqb app] in Hh1.
  destruct (open_frame _ _ _ E1) as (Hd & Hs & Hb1 & Hu1 & Hsc1).
  rewrite (bind_done _ _ _ _ _ E1).
  destruct (keylog_read_run 10 w1 buf 0 old) as (ks & w2 & E2 & Hn & Hsc2 & Hu2 & _ & _ & _ & Hh2);
    [by rewrite Hb1|done|done|lia|apply Hk|done|by rewrite Hu1|].
  pose proof (read_line _ _ _ _ _ _ _ _ E2 eq_refl) as Hirq2. unfold on_line in Hirq2. change (Z.to_nat 10) with 10%nat in *.
  rewrite (bind_done _ _ _ _ _ E2). cbn [fst sysret Z.ltb Z.compare Z.eqb Pos.eqb].
  erewrite (bind_done _ (user_bytes buf 10)); cycle 1.
  { unfold user_bytes. rewrite Hu2. change (10 - 1)%nat with 9%nat.
    assert (Z.to_nat 10 = length (kjunk (log w1) 0 :: take 9 ks)) as ->
      by (cbn [length]; rewrite length_take; lia).
    rewrite ubytes_uwrite. reflexivity. }
  destruct (close_frame w2) as (w3 & E3 & _ & Hsc3 & Hh3).
  rewrite (bind_done _ _ _ _ _ E3). eexists _, w1, ks, w3. split; [exact E1|]. split; [done|].
  split; [by rewrite Hsc3, Hsc2, Hsc1|]. split; [reflexivity|]. apply Hh3, Hh2. by rewrite Hirq2, Hirq1.
Qed.
End Properties.

(** *** A concrete run: ten keys with the codes 30 to 39 *)

Definition demo_keylog : world keylog :=
  World ∅ 1 (uwrite ∅ 500 (replicate 10 0)) [(MiscRegister "keylog", 0)] keylog_static.

Lemma keytest_prints_reversed_witness :
  exists ks w', length ks = 10%nat /\
    main (ENV := keyboard) (SLAB := slab16) 3 500 (replicate 10 Interrupt ++ [Resume]) demo_keylog =
      (Done (Some (0, [Printf "/dev/keylog was opened, fd = %d\n" [PInt 3];
                       Printf "%d characters were read\n" [PInt 10];
                       Bytes (170 :: take 9 ks)])), w') /\ holds (log w') [RMisc "keylog"].
Proof.
  destruct (keytest_prints_reversed (ENV := keyboard) (SLAB := slab16) 3 500 (replicate 10 0) demo_keylog
              [RMisc "keylog"]) as (o & w1 & ks & w' & _ & Hn & _ & E & H);
    [done|done|by cbn|done|done|done|by vm_compute|by eexists|].
  exists ks, w'. split; [exact Hn|]. split; [exact E|exact H].
Defined.
End KeyTest.
