(* ===== verification/Hooks.v ===== *)
(** * Two modules on one hook (src/network_procfs.c, src/packet_block_protocol.c)

    The packet statistics and the ICMP filter register for the same hook with
    the same priority.  This file puts the two modules on one machine: the
    kernel's part of the state is shared, each module has its own globals,
    and the hooks are called one after the other until one of them drops the
    packet.  In which order they are called is decided by the order in which
    the init functions of the modules registered them, and with it what the
    statistics mean. *)

From stdpp Require Import base gmap list numbers list_numbers strings.
From Stdlib Require Import ZArith Lia.
From S2P Require Import Prelude Kernel Lifecycle Inet NetProc Netfilter.

(** ** Running a module beside another one *)

Section Lift.
Context {S T : Type}.

Definition wfst (w : world (S * T)) : world S := World (heap w) (brk w) (user w) (log w) (glob w).1.
Definition wsnd (w : world (S * T)) : world T := World (heap w) (brk w) (user w) (log w) (glob w).2.
Definition pair_fst (w : world S) (t : T) : world (S * T) :=
  World (heap w) (brk w) (user w) (log w) (glob w, t).
Definition pair_snd (s : S) (w : world T) : world (S * T) :=
  World (heap w) (brk w) (user w) (log w) (s, glob w).

Definition on_fst {A} (c : K S A) : K (S * T) A := fun w =>
  let r := c (wfst w) in (r.1, pair_fst r.2 (glob w).2).
Definition on_snd {A} (c : K T A) : K (S * T) A := fun w =>
  let r := c (wsnd w) in (r.1, pair_snd (glob w).1 r.2).

Lemma run_on_fst {A} (c : K S A) w o w' :
  c (wfst w) = (o, w') -> on_fst c w = (o, pair_fst w' (glob w).2).
Proof. intros H. unfold on_fst. by rewrite H. Qed.

Lemma run_on_snd {A} (c : K T A) w o w' :
  c (wsnd w) = (o, w') -> on_snd c w = (o, pair_snd (glob w).1 w').
Proof. intros H. unfold on_snd. by rewrite H. Qed.

Lemma wfst_pair_fst w t : wfst (pair_fst w t) = w.
Proof. by destruct w. Qed.

Lemma wsnd_pair_snd s w : wsnd (pair_snd s w) = w.
Proof. by destruct w. Qed.
End Lift.

(** ** The netfilter core *)

(** A hook goes behind those of the same or an earlier priority. *)
Fixpoint chain_insert (pr : Z) (o : string) (l : list (Z * string)) : list (Z * string) :=
  match l with
  | [] => [(pr, o)]
  | (q, x) :: l' => if pr <? q then (pr, o) :: l else (q, x) :: chain_insert pr o l'
  end.

(** The kernel's chain of hooks on packets for the machine (hook 1 of
    PF_INET), as it stands after a trace: priorities and owners.  A packet is
    handed to the hooks in order until one of them does not accept it. *)
Class NfCore := {
  nf_chain : trace -> list (Z * string);
  chain_register tr o pr :
    nf_chain ((NfRegisterHook o 1 PF_INET pr, 0) :: tr) = chain_insert pr o (nf_chain tr);
  chain_other e tr :
    (forall o h p q, e.1 <> NfRegisterHook o h p q) -> (forall o, e.1 <> NfUnregisterHook o) ->
    nf_chain (e :: tr) = nf_chain tr;
  nf_hook_slow {S P} : list (P -> K S Z) -> P -> K S Z;
  hook_slow_nil {S P} (p : P) (w : world S) : nf_hook_slow [] p w = (Done NF_ACCEPT, w);
  hook_slow_cons {S P} (h : P -> K S Z) hs (p : P) (w : world S) :
    nf_hook_slow (h :: hs) p w =
    (v ← h p; if v =? NF_ACCEPT then nf_hook_slow hs p else mret v) w;
}.

(** A packet with everything the two hooks look at. *)
Record ip := Ip { ip_proto : Z; ip_source : list Z; ip_len : Z }.

Definition skb_of (p : ip) : sk_buff := SkBuff (ip_source p) (ip_len p).
Definition pkt_of (p : ip) : packet := Pkt (ip_proto p) (ip_source p).

Section Machine.
Context {ENV : Env} {FMT : FormatIPv4} {NF : NfCore}.
Implicit Types w : world (net * nf_hook_ops).

Definition stats (p : ip) : K (net * nf_hook_ops) Z := on_fst (NetProc.hook_func (Some (skb_of p))).
Definition icmp (p : ip) : K (net * nf_hook_ops) Z := on_snd (BlockProtocol.hook_func (Some (pkt_of p))).

(** Loading a module on the machine. *)
Definition load_stats : K (net * nf_hook_ops) Z := on_fst NetProc.init_packet.
Definition load_filter : K (net * nf_hook_ops) Z := on_snd BlockProtocol.init_packet.

(** The hook function a module has registered. *)
Definition handler (o : string) : option (ip -> K (net * nf_hook_ops) Z) :=
  if decide (o = "network_procfs"%string) then Some stats
  else if decide (o = "packet_block_protocol"%string) then Some icmp
  else None.

(** The packets that reach the machine's sockets. *)
Fixpoint deliver (hooks : list (ip -> K (net * nf_hook_ops) Z)) (ps : list ip) :
    K (net * nf_hook_ops) (list ip) :=
  match ps with
  | [] => mret []
  | p :: ps' =>
      v ← nf_hook_slow hooks p;
      rest ← deliver hooks ps';
      mret (if v =? NF_ACCEPT then p :: rest else rest)
  end.

(** Traffic while no module is loaded or unloaded: the hooks called are those
    registered at its beginning. *)
Definition traffic (ps : list ip) : K (net * nf_hook_ops) (list ip) := fun w =>
  deliver (omap (fun x => handler x.2) (nf_chain (log w))) ps w.

(** The table of the statistics module, beside the filter. *)
Definition stats_inv (es : list entry) w : Prop := net_inv es (wfst w).

Lemma stats_run es p w :
  stats_inv es w -> ipv4 (ip_source p) -> (forall tr c, kret tr (KmemCacheAlloc c) <> 0) ->
  exists w', stats p w = (Done NF_ACCEPT, w') /\ stats_inv (account es (skb_of p)) w'.
Proof.
  intros Hi Hp Ha. destruct (hook_run es (skb_of p) (wfst w)) as (w1 & E & Hi1 & _); [done..|].
  eexists. split; [apply run_on_fst; exact E|]. unfold stats_inv. by rewrite wfst_pair_fst.
Qed.

(** The filter does not touch the statistics. *)
Lemma icmp_run es p w :
  stats_inv es w ->
  exists w', icmp p w = (Done (if ip_proto p =? 1 then NF_DROP else NF_ACCEPT), w') /\ stats_inv es w'.
Proof.
  intros Hi. eexists. split; [apply run_on_snd, block_hook_run|].
  unfold stats_inv, block_world. by destruct (_ =? 1).
Qed.

(** One packet through both hooks, in either order. *)
Lemma filter_first_run es p w :
  stats_inv es w -> ipv4 (ip_source p) -> (forall tr c, kret tr (KmemCacheAlloc c) <> 0) ->
  exists w', nf_hook_slow [icmp; stats] p w =
    (Done (if ip_proto p =? 1 then NF_DROP else NF_ACCEPT), w') /\
    stats_inv (if ip_proto p =? 1 then es else account es (skb_of p)) w'.
Proof.
  intros Hi Hp Ha. rewrite hook_slow_cons. destruct (icmp_run es p w Hi) as (w1 & E & Hi1).
  rewrite (bind_done _ _ _ _ _ E). destruct (ip_proto p =? 1); cbn [Z.eqb NF_DROP NF_ACCEPT Pos.eqb].
  - by eexists.
  - rewrite hook_slow_cons. destruct (stats_run es p w1) as (w2 & E2 & Hi2); [done..|].
    rewrite (bind_done _ _ _ _ _ E2). cbn [Z.eqb NF_ACCEPT Pos.eqb]. rewrite hook_slow_nil. by eexists.
Qed.

Lemma stats_first_run es p w :
  stats_inv es w -> ipv4 (ip_source p) -> (forall tr c, kret tr (KmemCacheAlloc c) <> 0) ->
  exists w', nf_hook_slow [stats; icmp] p w =
    (Done (if ip_proto p =? 1 then NF_DROP else NF_ACCEPT), w') /\
    stats_inv (account es (skb_of p)) w'.
Proof.
  intros Hi Hp Ha. rewrite hook_slow_cons. destruct (stats_run es p w) as (w1 & E & Hi1); [done..|].
  rewrite (bind_done _ _ _ _ _ E). cbn [Z.eqb NF_ACCEPT Pos.eqb]. rewrite hook_slow_cons.
  destruct (icmp_run _ p w1 Hi1) as (w2 & E2 & Hi2). rewrite (bind_done _ _ _ _ _ E2).
  destruct (ip_proto p =? 1); cbn [Z.eqb NF_DROP NF_ACCEPT Pos.eqb]; rewrite ?hook_slow_nil; by eexists.
Qed.

(** A chain that decides each packet by its protocol and accounts for the
    packets that satisfy [P]. *)
Lemma deliver_run hooks (P : ip -> Prop) `{!forall p, Decision (P p)} ps es w :
  (forall es p w, stats_inv es w -> ipv4 (ip_source p) ->
    exists w', nf_hook_slow hooks p w = (Done (if ip_proto p =? 1 then NF_DROP else NF_ACCEPT), w') /\
      stats_inv (if decide (P p) then account es (skb_of p) else es) w') ->
  stats_inv es w -> Forall (fun p => ipv4 (ip_source p)) ps ->
  exists w', deliver hooks ps w = (Done (filter (fun p => ip_proto p <> 1) ps), w') /\
    stats_inv (table (map skb_of (filter P ps)) es) w'.
Proof.
  intros Hstep Hi Hps. revert es w Hi. induction Hps as [|p ps Hp Hps IH]; intros es w Hi; [by eexists|].
  cbn [deliver]. destruct (Hstep es p w) as (w1 & E & Hi1); [done..|].
  rewrite (bind_done _ _ _ _ _ E). destruct (IH _ _ Hi1) as (w2 & E2 & Hi2).
  rewrite (bind_done _ _ _ _ _ E2). exists w2. split.
  - rewrite filter_cons. destruct (Z.eqb_spec (ip_proto p) 1), (decide (ip_proto p <> 1)); done.
  - rewrite filter_cons. by destruct (decide (P p)).
Qed.

(** What the two orders of the hooks do to a stream of packets. *)
Lemma filter_first_deliver ps es w :
  stats_inv es w -> Forall (fun p => ipv4 (ip_source p)) ps ->
  (forall tr c, kret tr (KmemCacheAlloc c) <> 0) ->
  let through := filter (fun p => ip_proto p <> 1) ps in
  exists w', deliver [icmp; stats] ps w = (Done through, w') /\
     stats_inv (table (map skb_of through) es) w'.
Proof.
  intros Hi Hps Ha through. apply (deliver_run [icmp; stats] (fun p => ip_proto p <> 1)); [|done|done].
  intros es' p w' Hi' Hp. destruct (filter_first_run es' p w') as (w2 & E & Hi2); [done..|].
  exists w2. split; [done|]. destruct (Z.eqb_spec (ip_proto p) 1); case_decide; done.
Qed.

Lemma stats_first_deliver ps es w :
  stats_inv es w -> Forall (fun p => ipv4 (ip_source p)) ps ->
  (forall tr c, kret tr (KmemCacheAlloc c) <> 0) ->
  exists w', deliver [stats; icmp] ps w = (Done (filter (fun p => ip_proto p <> 1) ps), w') /\
     stats_inv (table (map skb_of ps) es) w'.
Proof.
  intros Hi Hps Ha.
  destruct (deliver_run [stats; icmp] (fun _ => True) ps es w) as (w' & E & Hi'); [|done|done|].
  - intros es' p w' Hi' Hp. destruct (stats_first_run es' p w') as (w2 & E & Hi2); [done..|].
    exists w2. split; [done|]. by rewrite decide_True.
  - exists w'. split; [done|]. replace (filter (fun _ => True) ps) with ps in Hi'; [done|].
    symmetry. clear. induction ps as [|p ps IH]; [done|]. rewrite filter_cons_True by done. by rewrite IH.
Qed.

Lemma from_map_filter (P : ip -> Prop) `{!forall p, Decision (P p)} a ps :
  (length (from a (map skb_of (filter P ps))) <= length (from a (map skb_of ps)))%nat /\
  (forall p, p ∈ ps -> ip_source p = a -> ~ P p ->
   (length (from a (map skb_of (filter P ps))) < length (from a (map skb_of ps)))%nat) /\
  (length (from a (map skb_of ps)) <= length ps)%nat.
Proof.
  unfold from. induction ps as [|q ps (IH1 & IH2 & IH3)]; [set_solver|].
  rewrite filter_cons. cbn [map]. rewrite (filter_cons _ (skb_of q)).
  destruct (decide (P q)) as [Hq|Hq]; cbn [map]; rewrite ?(filter_cons _ (skb_of q));
    destruct (decide (saddr (skb_of q) = a)) as [Ha|Ha]; cbn [length]; split_and!; try lia;
    intros p [->|Hp]%elem_of_cons Hpa HP; try done; try lia; specialize (IH2 p Hp Hpa HP); lia.
Qed.

(** The tables differ as soon as a packet is dropped. *)
Lemma dropped_differs (P : ip -> Prop) `{!forall p, Decision (P p)} ps :
  Z.of_nat (length ps) < 2 ^ 31 -> Forall (fun p => ipv4 (ip_source p)) ps ->
  table (map skb_of ps) empty_table = table (map skb_of (filter P ps)) empty_table <-> Forall P ps.
Proof.
  intros Hlen Hps. split.
  - intros E. apply Forall_forall. intros p Hp. destruct (decide (P p)) as [|HP]; [done|exfalso].
    assert (Hok : forall qs, Forall (fun p => ipv4 (ip_source p)) qs -> Forall ip_packet (map skb_of qs)).
    { intros qs Hqs. by apply Forall_map. }
    pose proof (proj1 (Forall_forall _ _) Hps p Hp) as Ha. cbv beta in Ha.
    destruct (from_map_filter P (ip_source p) ps) as (_ & Hlt & Hle). specialize (Hlt p Hp eq_refl HP).
    assert (Hf : Forall (fun p => ipv4 (ip_source p)) (filter P ps)).
    { apply Forall_forall. intros q [_ Hq]%list_elem_of_filter. by eapply Forall_forall in Hps. }
    pose proof (table_counts (map skb_of ps) (ip_source p) (Hok _ Hps) Ha) as E1.
    pose proof (table_counts (map skb_of (filter P ps)) (ip_source p)
      (Hok _ Hf) Ha) as E2.
    change [Entry [] 0 0] with empty_table in E1, E2. rewrite E, E2 in E1.
    destruct (decide (from _ (map skb_of ps) = [])) as [E0|_]; [rewrite E0 in Hlt; simpl in Hlt; lia|].
    destruct (decide (from _ (map skb_of (filter P ps)) = [])) as [_|_]; [done|].
    injection E1 as E1 _. rewrite !wrapS_small in E1 by lia. lia.
  - intros Hall. f_equal. f_equal. clear Hlen Hps. induction Hall as [|p ps Hp _ IH]; [done|].
    rewrite filter_cons_True by done. by f_equal.
Qed.

(** The chain after the two modules have been loaded, in either order. *)
Lemma load_both w :
  0 < brk w -> (glob w).1 = net_static -> nf_chain (log w) = [] ->
  (forall tr c, kret tr (KmemCacheAlloc c) <> 0) ->
  (forall tr n s, kret tr (KmemCacheCreate n s) <> 0) ->
  (forall tr o hn pf pr, kret tr (NfRegisterHook o hn pf pr) = 0) ->
  (forall tr n m p, kret tr (ProcCreateData n m p) <> 0) ->
  (exists w1, (load_filter;; load_stats) w = (Done 0, w1) /\ stats_inv empty_table w1 /\
     omap (fun x => handler x.2) (nf_chain (log w1)) = [icmp; stats]) /\
  (exists w1, (load_stats;; load_filter) w = (Done 0, w1) /\ stats_inv empty_table w1 /\
     omap (fun x => handler x.2) (nf_chain (log w1)) = [stats; icmp]).
Proof.
  intros Hb Hg Hc Hal Hcr Hhk Hpr.
  assert (Hload : forall w, 0 < brk w -> (glob w).1 = net_static ->
    exists w1, load_stats w = (Done 0, w1) /\ stats_inv empty_table w1 /\
      nf_chain (log w1) = chain_insert NF_IP_PRI_FIRST "network_procfs" (nf_chain (log w))).
  { intros w0 Hb0 Hg0. destruct (init_run (wfst w0) []) as (w1 & f & E & Hi & _ & _ & [tr ->] & c & Hl); [done..|].
    rewrite (proj2 (Z.eqb_neq _ _) (Hpr tr _ _ _)) in E. eexists. split; [apply run_on_fst; exact E|].
    split; [unfold stats_inv; by rewrite wfst_pair_fst|]. cbn [log pair_fst]. rewrite Hl.
    rewrite chain_other, chain_register, !chain_other; done. }
  assert (Hfilter : forall w, exists w1, load_filter w = (Done 0, w1) /\ (glob w1).1 = (glob w).1 /\
      brk w1 = brk w /\ (forall es, stats_inv es w -> stats_inv es w1) /\
      nf_chain (log w1) = chain_insert NF_IP_PRI_FIRST "packet_block_protocol" (nf_chain (log w))).
  { intros w0. eexists. split; [apply run_on_snd; unfold BlockProtocol.init_packet; krun; reflexivity|].
    rewrite Hhk. split_and!; [done..|]. cbn [log pair_snd with_event]. by rewrite chain_register. }
  split.
  - destruct (Hfilter w) as (w1 & E1 & Hg1 & Hb1 & _ & Hc1).
    destruct (Hload w1) as (w2 & E2 & Hi2 & Hc2); [lia|congruence|].
    exists w2. rewrite (bind_done _ _ _ _ _ E1). split_and!; [done..|]. by rewrite Hc2, Hc1, Hc.
  - destruct (Hload w) as (w1 & E1 & Hi1 & Hc1); [done..|].
    destruct (Hfilter w1) as (w2 & E2 & _ & _ & Hi2 & Hc2).
    exists w2. rewrite (bind_done _ _ _ _ _ E1). split_and!; [done|by apply Hi2|]. by rewrite Hc2, Hc1, Hc.
Qed.

(** C12 Both modules on one machine without other hooks, where allocations and
    registrations succeed.  The init functions register both hooks with the
    same priority, so the module loaded first is called first.  The packets
    that get through are the same in either order of loading, all but ICMP;
    but with the filter loaded first the statistics count the packets
    delivered, and with the statistics loaded first every packet, also those
    the filter then drops.  For fewer than 2^31 packets the two tables are the
    same exactly if none of the packets is ICMP. *)
Theorem hooks_order_matters ps w :
  0 < brk w -> (glob w).1 = net_static -> nf_chain (log w) = [] ->
  (forall tr c, kret tr (KmemCacheAlloc c) <> 0) ->
  (forall tr n s, kret tr (KmemCacheCreate n s) <> 0) ->
  (forall tr o hn pf pr, kret tr (NfRegisterHook o hn pf pr) = 0) ->
  (forall tr n m p, kret tr (ProcCreateData n m p) <> 0) ->
  Forall (fun p => ipv4 (ip_source p)) ps ->
  let through := filter (fun p => ip_proto p <> 1) ps in
  (exists w1 w2, (load_filter;; load_stats) w = (Done 0, w1) /\
     traffic ps w1 = (Done through, w2) /\ stats_inv (table (map skb_of through) empty_table) w2) /\
  (exists w1 w2, (load_stats;; load_filter) w = (Done 0, w1) /\
     traffic ps w1 = (Done through, w2) /\ stats_inv (table (map skb_of ps) empty_table) w2) /\
  (Z.of_nat (length ps) < 2 ^ 31 ->
   table (map skb_of ps) empty_table = table (map skb_of through) empty_table <->
   Forall (fun p => ip_proto p <> 1) ps).
Proof.
  intros Hb Hg Hc Hal Hcr Hhk Hpr Hps through.
  destruct (load_both w) as [(w1 & E1 & Hi1 & Hc1) (v1 & F1 & Hj1 & Hd1)]; [done..|].
  split; [|split].
  - destruct (filter_first_deliver ps empty_table w1) as (w2 & E2 & Hi2); [done..|].
    exists w1, w2. unfold traffic. by rewrite Hc1.
  - destruct (stats_first_deliver ps empty_table v1) as (w2 & E2 & Hi2); [done..|].
    exists v1, w2. unfold traffic. by rewrite Hd1.
  - intros Hlen. by apply dropped_differs.
Qed.
End Machine.

(** ** Concrete runs *)

Fixpoint call_hooks {S P} (hs : list (P -> K S Z)) (p : P) : K S Z :=
  match hs with
  | [] => mret NF_ACCEPT
  | h :: hs' => v ← h p; if v =? NF_ACCEPT then call_hooks hs' p else mret v
  end.

(** The chain computed from the trace. *)
Fixpoint chain_of (tr : trace) : list (Z * string) :=
  match tr with
  | [] => []
  | (NfRegisterHook o h p pr, r) :: tr' =>
      if (h =? 1) && (p =? PF_INET) && (r =? 0) then chain_insert pr o (chain_of tr') else chain_of tr'
  | (NfUnregisterHook o, _) :: tr' => filter (fun x => x.2 <> o) (chain_of tr')
  | _ :: tr' => chain_of tr'
  end.

#[refine, global] Instance nf_in_order : NfCore :=
  {| nf_chain := chain_of; nf_hook_slow := @call_hooks |}.
Proof.
  1: done.
  2, 3: done.
  intros [c z] tr H1 H2. destruct c; try done; [by edestruct H1|by edestruct H2].
Defined.

(** A machine on which neither module has been loaded. *)
Definition demo_machine : world (net * nf_hook_ops) := pair_fst idle_net nfho_static.

(** A ping and a TCP packet. *)
Definition demo_ips : list ip := [Ip 1 [8; 8; 8; 8] 84; Ip 6 [10; 0; 0; 1] 100].

Lemma hooks_order_matters_witness :
  (exists w1 w2, (load_filter (ENV := calm);; load_stats (ENV := calm)) demo_machine = (Done 0, w1) /\
     traffic (ENV := calm) demo_ips w1 = (Done [Ip 6 [10; 0; 0; 1] 100], w2) /\
     stats_inv [Entry [] 0 0; Entry (str "10.0.0.1") 1 100] w2) /\
  (exists w1 w2, (load_stats (ENV := calm);; load_filter (ENV := calm)) demo_machine = (Done 0, w1) /\
     traffic (ENV := calm) demo_ips w1 = (Done [Ip 6 [10; 0; 0; 1] 100], w2) /\
     stats_inv [Entry [] 0 0; Entry (str "8.8.8.8") 1 84; Entry (str "10.0.0.1") 1 100] w2).
Proof.
  destruct (hooks_order_matters (ENV := calm) demo_ips demo_machine) as (H1 & H2 & _); try done.
  - repeat constructor; cbn; unfold is_byte; lia.
Defined.
