(* ===== verification/Smp.v ===== *)
(** * The packet hooks on several processors (src/packet_block_protocol.c, src/network_procfs.c)

    Both hooks store the packet and its header in global variables before they
    look at them, and netfilter calls a hook on every processor that receives
    a packet.  Here a hook is a sequence of atomic steps over those shared
    variables, several processors are in it at the same time, and a schedule
    says whose step comes next.  A packet whose verdict has been given may be
    freed at any later time, while the variables still point to it.

    The first part is about any hook that begins this way; the two modules
    follow as instances. *)

From stdpp Require Import base gmap list numbers list_numbers strings.
From Stdlib Require Import ZArith Lia.
From S2P Require Import Prelude Kernel Lifecycle Inet Seqfile NetProc Netfilter Hooks.

(** The global variables: the processor whose packet they point to. *)
Record ptrs := Ptrs { sock_buff : option nat; ip_header : option nat }.

Definition ptrs_static : ptrs := Ptrs None None.

(** Where a processor is: before each of the common statements, somewhere in
    the body that follows, or done, with the packet still there or not. *)
Inductive pc (B : Type) :=
| Enter | HaveSkb | HaveHeader | Body (b : B) | Answer (v : Z) | Freed (v : Z).
Arguments Enter {B}.
Arguments HaveSkb {B}.
Arguments HaveHeader {B}.
Arguments Body {B} _.
Arguments Answer {B} _.
Arguments Freed {B} _.

(** One step of processor [i], or the release of its packet. *)
Inductive smp_event := Step (i : nat) | Free (i : nat).

Section Hook.
Context {G B : Type}.
Notation M := (K (G * ptrs)).

(** The body, one statement at a time: it reads the packets [sock_buff] and
    [ip_header] point to when it is run. *)
Context (b0 : B) (body : M ip -> M ip -> B -> M (B + Z)).

Definition set_ptrs (p : ptrs) : M unit := modify (fun g => (g.1, p)).

(** The packet of a processor, through one of the variables. *)
Definition deref (cs : list (ip * pc B)) (p : option nat) : M ip :=
  match p with
  | None => oops NullDeref
  | Some j =>
      match cs !! j with
      | None | Some (_, Freed _) => oops (BadPointer (Z.of_nat j))
      | Some (q, _) => mret q
      end
  end.

Definition cpu_step (i : nat) (cs : list (ip * pc B)) (c : pc B) : M (pc B) :=
  match c with
  | Enter => g ← get; set_ptrs (Ptrs (Some i) (ip_header g.2));; mret HaveSkb
  | HaveSkb =>
      g ← get; deref cs (sock_buff g.2);;
      set_ptrs (Ptrs (sock_buff g.2) (sock_buff g.2));; mret HaveHeader
  | HaveHeader =>
      g ← get; match sock_buff g.2 with None => mret (Answer NF_ACCEPT) | Some _ => mret (Body b0) end
  | Body b =>
      r ← body (g ← get; deref cs (sock_buff g.2)) (g ← get; deref cs (ip_header g.2)) b;
      mret (match r with inl b' => Body b' | inr v => Answer v end)
  | Answer v => mret (Answer v)
  | Freed v => mret (Freed v)
  end.

Definition smp_step (e : smp_event) (cs : list (ip * pc B)) : M (list (ip * pc B)) :=
  match e with
  | Step i =>
      match cs !! i with
      | None => mret cs
      | Some (q, c) => c' ← cpu_step i cs c; mret (<[i := (q, c')]> cs)
      end
  | Free i =>
      match cs !! i with
      | Some (q, Answer v) => mret (<[i := (q, Freed v)]> cs)
      | _ => mret cs
      end
  end.

Fixpoint smp_run (sched : list smp_event) (cs : list (ip * pc B)) : M (list (ip * pc B)) :=
  match sched with
  | [] => mret cs
  | e :: sched' => cs' ← smp_step e cs; smp_run sched' cs'
  end.

(** All processors have just received a packet. *)
Definition arrived (ps : list ip) : list (ip * pc B) := map (fun p => (p, Enter)) ps.

Definition verdict (c : pc B) : option Z :=
  match c with Answer v | Freed v => Some v | _ => None end.

(** How many verdicts have been given. *)
Fixpoint answered (cs : list (ip * pc B)) : nat :=
  match cs with
  | [] => 0
  | (_, c) :: cs' => (match verdict c with Some _ => 1 | None => 0 end) + answered cs'
  end.

(** ** What holds under every schedule *)

(** The variables point to processors; they are set as soon as a processor
    has passed the statement that sets them. *)
Definition ptrs_ok (cs : list (ip * pc B)) (p : ptrs) : Prop :=
  (forall j, sock_buff p = Some j \/ ip_header p = Some j -> (j < length cs)%nat) /\
  (forall i q c, cs !! i = Some (q, c) -> c <> Enter -> is_Some (sock_buff p)) /\
  (forall i q c, cs !! i = Some (q, c) -> c <> Enter -> c <> HaveSkb -> is_Some (ip_header p)).

Lemma answered_insert cs i q c c' :
  cs !! i = Some (q, c) -> verdict c = None ->
  answered (<[i := (q, c')]> cs) =
  (answered cs + match verdict c' with Some _ => 1 | None => 0 end)%nat.
Proof.
  revert i. induction cs as [|[q0 c0] cs IH]; intros [|i] H Hc; simpl in *; try done.
  - injection H as -> ->. rewrite Hc. lia.
  - rewrite (IH i H Hc). lia.
Qed.

Lemma answered_free cs i q v :
  cs !! i = Some (q, Answer v) -> answered (<[i := (q, Freed v)]> cs) = answered cs.
Proof.
  revert i. induction cs as [|[q0 c0] cs IH]; intros [|i] H; simpl in *; try done.
  - by injection H as -> ->.
  - by rewrite (IH i H).
Qed.

Lemma answered_arrived ps : answered (arrived ps) = 0%nat.
Proof. by induction ps. Qed.
End Hook.

Section Invariant.
Context {G B : Type} (b0 : B) (body : K (G * ptrs) ip -> K (G * ptrs) ip -> B -> K (G * ptrs) (B + Z)).
Implicit Types (w : world (G * ptrs)) (cs : list (ip * pc B)).

(** The packets; whether packets are freed; what the module keeps true when
    [n] verdicts have been given; the verdicts it may give; the statements of
    the body it may be at. *)
Context (ps : list ip) (Fr : Prop) (I : nat -> world (G * ptrs) -> Prop) (V : Z -> Prop) (BI : B -> Prop).

(** Reading a packet through the variables [pt] gives one of the packets, or
    faults because a packet was freed. *)
Definition reader (pt : ptrs) (r : K (G * ptrs) ip) : Prop :=
  forall w, (glob w).2 = pt ->
    (exists q, r w = (Done q, w) /\ q ∈ ps) \/ (exists j, r w = (Oops (BadPointer j), w) /\ Fr).

Context (I_ptrs : forall n w p, I n w -> I n (with_glob ((glob w).1, p) w)) (BI_0 : BI b0).
Context (body_ok : forall pt sock hdr b n w,
  reader pt sock -> reader pt hdr -> (glob w).2 = pt -> BI b -> I n w ->
  match body sock hdr b w with
  | (Done (inl b'), w') => BI b' /\ I n w' /\ (glob w').2 = pt
  | (Done (inr v), w') => V v /\ I (S n) w' /\ (glob w').2 = pt
  | (Oops e, _) => (exists j, e = BadPointer j) /\ Fr
  end).

Definition cpu_ok (c : pc B) : Prop :=
  match c with Body b => BI b | Answer v => V v | Freed v => V v /\ Fr | _ => True end.

Definition smp_ok cs w : Prop :=
  map fst cs = ps /\ ptrs_ok cs (glob w).2 /\ I (answered cs) w /\
  forall i q c, cs !! i = Some (q, c) -> cpu_ok c.

(** How a run may end. *)
Definition smp_end (r : outcome (list (ip * pc B)) * world (G * ptrs)) : Prop :=
  match r with
  | (Done cs, w) => smp_ok cs w
  | (Oops e, _) => (exists j, e = BadPointer j) /\ Fr
  end.

Lemma map_fst_move cs i q c c' : cs !! i = Some (q, c) -> map fst (<[i := (q, c')]> cs) = map fst cs.
Proof.
  intros H. change (map fst) with (fmap (M := list) (@fst ip (pc B))). rewrite list_fmap_insert. apply list_insert_id.
  by rewrite list_lookup_fmap, H.
Qed.

(** Processor [i] goes on to [c'] while the variables become [p']. *)
Lemma ptrs_ok_move cs i q c c' p p' :
  cs !! i = Some (q, c) -> ptrs_ok cs p ->
  (forall j, sock_buff p' = Some j \/ ip_header p' = Some j ->
     j = i \/ sock_buff p = Some j \/ ip_header p = Some j) ->
  (is_Some (sock_buff p) -> is_Some (sock_buff p')) -> (is_Some (ip_header p) -> is_Some (ip_header p')) ->
  (c' <> Enter -> is_Some (sock_buff p')) -> (c' <> Enter -> c' <> HaveSkb -> is_Some (ip_header p')) ->
  ptrs_ok (<[i := (q, c')]> cs) p'.
Proof.
  intros Hi (H1 & H2 & H3) Hin Hs Hh Hs' Hh'. unfold ptrs_ok. rewrite length_insert. split_and!.
  - intros j [->|Hj]%Hin; [by apply lookup_lt_Some in Hi|by apply H1].
  - intros k r d Hk. destruct (decide (k = i)) as [->|Hne].
    + rewrite list_lookup_insert_eq in Hk by (by apply lookup_lt_Some in Hi). by simplify_eq.
    + rewrite list_lookup_insert_ne in Hk by done. eauto.
  - intros k r d Hk. destruct (decide (k = i)) as [->|Hne].
    + rewrite list_lookup_insert_eq in Hk by (by apply lookup_lt_Some in Hi). by simplify_eq.
    + rewrite list_lookup_insert_ne in Hk by done. eauto.
Qed.

Lemma cpus_ok_move cs i q c' :
  (forall k r c, cs !! k = Some (r, c) -> cpu_ok c) -> cpu_ok c' ->
  forall k r c, <[i := (q, c')]> cs !! k = Some (r, c) -> cpu_ok c.
Proof. intros H Hc k r c. rewrite list_lookup_insert. case_decide; naive_solver. Qed.

Lemma deref_reader cs p w :
  map fst cs = ps -> (forall i q c, cs !! i = Some (q, c) -> cpu_ok c) ->
  (exists j, p = Some j /\ (j < length cs)%nat) ->
  (exists q, deref cs p w = (Done q, w) /\ q ∈ ps) \/ (exists j, deref cs p w = (Oops (BadPointer j), w) /\ Fr).
Proof.
  intros Hps Hok (j & -> & Hj). destruct (lookup_lt_is_Some_2 cs j Hj) as [[q c] Hc]. cbn [deref]. rewrite Hc.
  assert (q ∈ ps).
  { rewrite <- Hps. apply list_elem_of_In, in_map_iff. exists (q, c). split; [done|].
    apply list_elem_of_In. by eapply list_elem_of_lookup_2. }
  destruct c; try (left; by exists q). right. eexists. split; [done|]. by destruct (Hok _ _ _ Hc).
Qed.

(** A processor past a statement has the variable it sets. *)
Lemma ptrs_ok_sock cs i q c p :
  ptrs_ok cs p -> cs !! i = Some (q, c) -> c <> Enter -> exists j, sock_buff p = Some j /\ (j < length cs)%nat.
Proof. intros (H1 & H2 & _) Hi Hc. destruct (H2 _ _ _ Hi Hc) as [j Hj]. eauto. Qed.

Lemma ptrs_ok_header cs i q c p :
  ptrs_ok cs p -> cs !! i = Some (q, c) -> c <> Enter -> c <> HaveSkb ->
  exists j, ip_header p = Some j /\ (j < length cs)%nat.
Proof. intros (H1 & _ & H3) Hi Hc Hc'. destruct (H3 _ _ _ Hi Hc Hc') as [j Hj]. eauto. Qed.

(** A processor that has set both variables goes on and leaves them alone. *)
Lemma smp_ok_move cs w i q c c' w' :
  smp_ok cs w -> cs !! i = Some (q, c) -> verdict c = None -> c <> Enter -> c <> HaveSkb ->
  (glob w').2 = (glob w).2 -> cpu_ok c' ->
  I (answered cs + match verdict c' with Some _ => 1 | None => 0 end)%nat w' ->
  smp_ok (<[i := (q, c')]> cs) w'.
Proof.
  intros (Hps & Hp & HI & Hok) Hi Hv Hc1 Hc2 Hpt Hc' HI'. split_and!.
  - by rewrite (map_fst_move _ _ _ _ _ Hi).
  - rewrite Hpt. eapply ptrs_ok_move; [done|done|naive_solver|done|done| |].
    + intros _. destruct (ptrs_ok_sock _ _ _ _ _ Hp Hi) as (j & -> & _); [done|by eexists].
    + intros _ _. destruct (ptrs_ok_header _ _ _ _ _ Hp Hi) as (j & -> & _); [done|done|by eexists].
  - by rewrite (answered_insert _ _ _ _ _ Hi).
  - by apply cpus_ok_move.
Qed.

(** A step of the body. *)
Lemma body_step_ok cs w i q b :
  smp_ok cs w -> cs !! i = Some (q, Body b) -> smp_end (smp_step b0 body (Step i) cs w).
Proof.
  intros Hsmp Hi. pose proof Hsmp as (Hps & Hp & HI & Hok). cbn [smp_step]. rewrite Hi. cbn [cpu_step]. krun.
  assert (Hs : reader (glob w).2 (g ← get; deref cs (sock_buff g.2))).
  { intros w1 E. krun. rewrite E. eapply deref_reader; [done|done|by eapply ptrs_ok_sock]. }
  assert (Hh : reader (glob w).2 (g ← get; deref cs (ip_header g.2))).
  { intros w1 E. krun. rewrite E. eapply deref_reader; [done|done|by eapply ptrs_ok_header]. }
  pose proof (body_ok _ _ _ _ _ _ Hs Hh eq_refl (Hok _ _ _ Hi) HI) as Hb.
  destruct (body _ _ b w) as [[[b'|v]|e] w1] eqn:E.
  - rewrite (bind_done _ _ _ _ _ E). krun. destruct Hb as (Hb & HI' & Hpt).
    eapply smp_ok_move; [done..|]. by rewrite Nat.add_0_r.
  - rewrite (bind_done _ _ _ _ _ E). krun. destruct Hb as (Hb & HI' & Hpt).
    eapply smp_ok_move; [done..|]. by rewrite Nat.add_1_r.
  - rewrite (bind_oops _ _ _ _ _ E). exact Hb.
Qed.

(** The two statements that set the variables. *)
Lemma enter_step_ok cs w i q :
  smp_ok cs w -> cs !! i = Some (q, Enter) -> smp_end (smp_step b0 body (Step i) cs w).
Proof.
  intros (Hps & Hp & HI & Hok) Hi. cbn [smp_step]. rewrite Hi. cbn [cpu_step]. krun.
  unfold set_ptrs. krun. split_and!; kcbn.
  - by rewrite (map_fst_move _ _ _ _ _ Hi).
  - eapply ptrs_ok_move; [done|exact Hp|..]; cbn; naive_solver.
  - rewrite (answered_insert _ _ _ _ _ Hi) by done. cbn [verdict]. rewrite Nat.add_0_r. by apply I_ptrs.
  - by apply cpus_ok_move.
Qed.

Lemma skb_step_ok cs w i q :
  smp_ok cs w -> cs !! i = Some (q, HaveSkb) -> smp_end (smp_step b0 body (Step i) cs w).
Proof.
  intros (Hps & Hp & HI & Hok) Hi. cbn [smp_step]. rewrite Hi. cbn [cpu_step]. krun.
  pose proof (ptrs_ok_sock _ _ _ _ _ Hp Hi ltac:(done)) as Hs.
  destruct (deref_reader cs _ w Hps Hok Hs) as [(q' & E & _)|(j & E & HF)].
  - rewrite (bind_done _ _ _ _ _ E). unfold set_ptrs. krun. destruct Hs as (j & Hj & Hlt). split_and!; kcbn.
    + by rewrite (map_fst_move _ _ _ _ _ Hi).
    + eapply ptrs_ok_move; [done|exact Hp|..]; cbn; rewrite Hj; naive_solver.
    + rewrite (answered_insert _ _ _ _ _ Hi) by done. cbn [verdict]. rewrite Nat.add_0_r. by apply I_ptrs.
    + by apply cpus_ok_move.
  - rewrite (bind_oops _ _ _ _ _ E). split; [by eexists|done].
Qed.

Lemma smp_step_ok e cs w :
  smp_ok cs w -> (forall i, e = Free i -> Fr) -> smp_end (smp_step b0 body e cs w).
Proof.
  intros Hsmp HF. destruct e as [i|i].
  - destruct (cs !! i) as [[q c]|] eqn:Hi; [|cbn [smp_step]; by rewrite Hi].
    destruct c as [| | |b|v|v]; eauto using enter_step_ok, skb_step_ok, body_step_ok.
    + cbn [smp_step]. rewrite Hi. cbn [cpu_step]. krun. pose proof Hsmp as (_ & Hp & HI & _).
      destruct (ptrs_ok_sock _ _ _ _ _ Hp Hi ltac:(done)) as (j & -> & _). krun.
      eapply smp_ok_move; [done..|]. by rewrite Nat.add_0_r.
    + cbn [smp_step]. rewrite Hi. cbn [cpu_step]. krun. by rewrite list_insert_id.
    + cbn [smp_step]. rewrite Hi. cbn [cpu_step]. krun. by rewrite list_insert_id.
  - cbn [smp_step]. destruct (cs !! i) as [[q c]|] eqn:Hi; [|done]. destruct c; try done. krun.
    destruct Hsmp as (Hps & Hp & HI & Hok). split_and!.
    + by rewrite (map_fst_move _ _ _ _ _ Hi).
    + destruct (ptrs_ok_sock _ _ _ _ _ Hp Hi ltac:(done)) as (j & Hj & _).
      destruct (ptrs_ok_header _ _ _ _ _ Hp Hi ltac:(done) ltac:(done)) as (k & Hk & _).
      eapply ptrs_ok_move; [done|exact Hp|naive_solver..].
    + by rewrite (answered_free _ _ _ _ Hi).
    + apply cpus_ok_move; [done|]. split; [exact (Hok _ _ _ Hi)|by eapply HF].
Qed.

(** Every schedule keeps the invariant, or stops at a packet that was freed. *)
Lemma smp_run_ok sched cs w :
  smp_ok cs w -> (forall i, Free i ∈ sched -> Fr) -> smp_end (smp_run b0 body sched cs w).
Proof.
  revert cs w. induction sched as [|e sched IH]; intros cs w H HF; [done|]. cbn [smp_run].
  pose proof (smp_step_ok e cs w H) as Hs. unfold mbind, K_bind.
  destruct (smp_step b0 body e cs w) as [[cs'|f] w'].
  - apply IH; [apply Hs; intros i ->; apply (HF i); set_solver|]. intros i Hi. apply (HF i). set_solver.
  - apply Hs. intros i ->. apply (HF i). set_solver.
Qed.

Lemma arrived_ok w : I 0 w -> (glob w).2 = ptrs_static -> smp_ok (arrived ps) w.
Proof.
  intros HI Hw. assert (Hat : forall i q c, arrived (B := B) ps !! i = Some (q, c) -> c = Enter).
  { intros i q c Hi. unfold arrived in Hi. change (map ?f ps) with (f <$> ps) in Hi.
    rewrite list_lookup_fmap in Hi. destruct (ps !! i); cbn in Hi; by simplify_eq. }
  split_and!.
  - unfold arrived. rewrite map_map. apply map_id.
  - rewrite Hw. split_and!; cbn; [naive_solver|..]; intros i q c Hi%Hat; done.
  - by rewrite answered_arrived.
  - by intros i q c ->%Hat.
Qed.
End Invariant.

(** Runs explicit steps of explicit processors. *)
Tactic Notation "smp_go" reference(body) :=
  unfold arrived; cbn [map replicate app];
  repeat (progress (cbn [smp_run smp_step cpu_step body deref lookup list_lookup nth_error
                         insert list_insert fst snd sock_buff ip_header];
                    unfold set_ptrs; krun)).

(** ** The ICMP filter *)

(** The statements after the test of [sock_buff]: [snprintf] reads the source
    address for a local text that is not used, [pr_info] reads it again;
    [icmp_header] is stored and never read. *)
Inductive block_pc := TestProtocol | Source | Report | Dropping.

Section Filter.
Context {FMT : FormatIPv4}.
Implicit Types w : world (unit * ptrs).

Definition block_body (sock hdr : K (unit * ptrs) ip) (b : block_pc) : K (unit * ptrs) (block_pc + Z) :=
  match b with
  | TestProtocol => h ← hdr; if ip_proto h =? 1 then mret (inl Source) else mret (inr NF_ACCEPT)
  | Source => h ← hdr; mret (inl Report)
  | Report => h ← hdr; printk "SOURCE ADDRESS %pI4\n" [PStr (pI4 (ip_source h))];; mret (inl Dropping)
  | Dropping => sock;; printk "Dropping ping packet\n" [];; mret (inr NF_DROP)
  end.

(** A verdict that is right for some packet of [ps]. *)
Definition some_verdict (ps : list ip) (v : Z) : Prop :=
  (v = NF_DROP /\ exists p, p ∈ ps /\ ip_proto p = 1) \/ (v = NF_ACCEPT /\ exists p, p ∈ ps /\ ip_proto p <> 1).

Definition block_at (ps : list ip) (b : block_pc) : Prop :=
  match b with TestProtocol => True | _ => exists p, p ∈ ps /\ ip_proto p = 1 end.

Lemma block_body_ok ps Fr pt sock hdr b (n : nat) w :
  reader ps Fr pt sock -> reader ps Fr pt hdr -> (glob w).2 = pt -> block_at ps b -> True ->
  match block_body sock hdr b w with
  | (Done (inl b'), w') => block_at ps b' /\ True /\ (glob w').2 = pt
  | (Done (inr v), w') => some_verdict ps v /\ True /\ (glob w').2 = pt
  | (Oops e, _) => (exists j, e = BadPointer j) /\ Fr
  end.
Proof.
  intros Hs Hh Hw Hb _. destruct b; cbn [block_body].
  - destruct (Hh w Hw) as [(q & E & Hq)|(j & E & HF)];
      [rewrite (bind_done _ _ _ _ _ E)|rewrite (bind_oops _ _ _ _ _ E); by eauto].
    destruct (Z.eqb_spec (ip_proto q) 1); krun; split_and!; try done; [by exists q|right; by eauto].
  - destruct (Hh w Hw) as [(q & E & Hq)|(j & E & HF)];
      [rewrite (bind_done _ _ _ _ _ E)|rewrite (bind_oops _ _ _ _ _ E); by eauto]. krun. done.
  - destruct (Hh w Hw) as [(q & E & Hq)|(j & E & HF)];
      [rewrite (bind_done _ _ _ _ _ E)|rewrite (bind_oops _ _ _ _ _ E); by eauto]. krun. done.
  - destruct (Hs w Hw) as [(q & E & Hq)|(j & E & HF)];
      [rewrite (bind_done _ _ _ _ _ E)|rewrite (bind_oops _ _ _ _ _ E); by eauto]. krun.
    split_and!; [left; by eauto|done..].
Qed.

(** C3 The filter with packets on any number of processors, under every
    schedule: each verdict is the right one for some packet in flight, though
    not always for its own; and a fault is the use of a packet that has been
    freed.  So traffic that is all ICMP is dropped, and traffic without ICMP
    let through, however it is spread over the processors. *)
Theorem block_smp_verdicts ps sched w :
  (glob w).2 = ptrs_static ->
  match smp_run TestProtocol block_body sched (arrived ps) w with
  | (Done cs, _) =>
      map fst cs = ps /\
      forall i q c v, cs !! i = Some (q, c) -> verdict c = Some v -> some_verdict ps v
  | (Oops e, _) => (exists j, e = BadPointer j) /\ exists i, Free i ∈ sched
  end.
Proof.
  intros Hw. pose proof (smp_run_ok TestProtocol block_body ps (exists i, Free i ∈ sched) (fun _ _ => True)
    (some_verdict ps) (block_at ps) ltac:(done) ltac:(done) (block_body_ok ps _) sched (arrived ps) w) as H.
  destruct (smp_run _ _ _ _ _) as [[cs|e] w']; cbn [smp_end] in H.
  - destruct H as (Hps & _ & _ & Hok); [by apply arrived_ok|by eauto|]. split; [done|].
    intros i q c v Hi Hv. specialize (Hok _ _ _ Hi). destruct c; simplify_eq/=; [done|by destruct Hok].
  - apply H; [by apply arrived_ok|by eauto].
Qed.

(** A processor alone in the hook behaves as the handler of the sequential
    model: the same verdict and the same messages. *)
Theorem block_smp_alone p w (w0 : world nf_hook_ops) :
  log w0 = log w ->
  exists v w' w0', smp_run TestProtocol block_body (replicate 7 (Step 0)) (arrived [p]) w =
      (Done [(p, Answer v)], w') /\
    BlockProtocol.hook_func (Some (pkt_of p)) w0 = (Done v, w0') /\ log w' = log w0'.
Proof.
  intros Hl. rewrite block_hook_run. unfold block_world. cbn [pkt_of protocol source].
  destruct (ip_proto p =? 1) eqn:E; eexists _, _, _; (split; [|split; [reflexivity|]]).
  - do 2 (smp_go block_body; rewrite ?E). smp_go block_body. reflexivity.
  - cbn. by rewrite Hl.
  - do 2 (smp_go block_body; rewrite ?E). smp_go block_body. reflexivity.
  - done.
Qed.

(** C34 The race.  With a ping and another packet on two processors there are
    schedules under which the ping is let through, under which the other
    packet is dropped, and under which the filter reads the header of a packet
    that has been freed. *)
Theorem block_smp_race ping other w :
  ip_proto ping = 1 -> ip_proto other <> 1 ->
  (exists sched c w', smp_run TestProtocol block_body sched (arrived [ping; other]) w =
     (Done [(ping, Answer NF_ACCEPT); (other, c)], w')) /\
  (exists sched c w', smp_run TestProtocol block_body sched (arrived [ping; other]) w =
     (Done [(ping, c); (other, Answer NF_DROP)], w')) /\
  (exists sched w', smp_run TestProtocol block_body sched (arrived [ping; other]) w =
     (Oops (BadPointer 0), w')).
Proof.
  intros Hp Ho. apply Z.eqb_eq in Hp. apply Z.eqb_neq in Ho. split_and!.
  - exists [Step 0; Step 0; Step 1; Step 1; Step 0; Step 0]%nat. eexists _, _.
    do 2 (smp_go block_body; rewrite ?Ho). smp_go block_body. reflexivity.
  - exists [Step 1; Step 1; Step 0; Step 0; Step 1; Step 1; Step 1; Step 1; Step 1]%nat. eexists _, _.
    do 2 (smp_go block_body; rewrite ?Hp). smp_go block_body. reflexivity.
  - exists ([Step 1; Step 1] ++ replicate 7 (Step 0) ++ [Free 0; Step 1; Step 1])%nat. eexists.
    do 2 (smp_go block_body; rewrite ?Hp). smp_go block_body. reflexivity.
Qed.
End Filter.

(** ** The packet statistics *)

(** The statements after the test; [source] is a local variable. *)
Inductive stats_pc := Format | Print (source : list Z) | Add (source : list Z).

Section Statistics.
Context {ENV : Env} {FMT : FormatIPv4}.
Implicit Types w : world (net * ptrs).

Definition stats_body (sock hdr : K (net * ptrs) ip) (b : stats_pc) : K (net * ptrs) (stats_pc + Z) :=
  match b with
  | Format => h ← hdr; mret (inl (Print (take 15 (pI4 (ip_source h)))))
  | Print s => b ← sock; printk "%s has %u data\n" [PStr s; PInt (ip_len b)];; mret (inl (Add s))
  | Add s => b ← sock; on_fst (add_to_list_network s (s32 (ip_len b)));; mret (inr NF_ACCEPT)
  end.

(** A record that mixes the source of one packet with the length of another. *)
Definition record2 (es : list entry) (r : ip * ip) : list entry :=
  record (pI4 (ip_source r.1)) (s32 (ip_len r.2)) es.

(** [n] packets have been recorded, with sources and lengths from [ps]. *)
Definition recorded (ps : list ip) (es : list entry) (n : nat) w : Prop :=
  exists rs, length rs = n /\ Forall (fun r => r.1 ∈ ps /\ r.2 ∈ ps) rs /\
    net_inv (fold_left record2 rs es) (wfst w).

Definition stats_at (ps : list ip) (b : stats_pc) : Prop :=
  match b with Format => True | Print s | Add s => exists p, p ∈ ps /\ s = pI4 (ip_source p) end.

Context (alloc : forall tr c, kret tr (KmemCacheAlloc c) <> 0).

Lemma stats_body_ok ps es Fr pt sock hdr b n w :
  Forall (fun p => ipv4 (ip_source p)) ps ->
  reader ps Fr pt sock -> reader ps Fr pt hdr -> (glob w).2 = pt -> stats_at ps b -> recorded ps es n w ->
  match stats_body sock hdr b w with
  | (Done (inl b'), w') => stats_at ps b' /\ recorded ps es n w' /\ (glob w').2 = pt
  | (Done (inr v), w') => v = NF_ACCEPT /\ recorded ps es (S n) w' /\ (glob w').2 = pt
  | (Oops e, _) => (exists j, e = BadPointer j) /\ Fr
  end.
Proof.
  intros Hps Hs Hh Hw Hb HI. rewrite Forall_forall in Hps. destruct b as [|s|s]; cbn [stats_body].
  - destruct (Hh w Hw) as [(q & E & Hq)|(j & E & HF)];
      [rewrite (bind_done _ _ _ _ _ E)|rewrite (bind_oops _ _ _ _ _ E); by eauto]. krun.
    split_and!; [|done|done]. exists q. split; [done|]. apply take_ge. by apply pI4_length, Hps.
  - destruct (Hs w Hw) as [(q & E & Hq)|(j & E & HF)];
      [rewrite (bind_done _ _ _ _ _ E)|rewrite (bind_oops _ _ _ _ _ E); by eauto]. krun. done.
  - destruct (Hs w Hw) as [(q & E & Hq)|(j & E & HF)];
      [rewrite (bind_done _ _ _ _ _ E)|rewrite (bind_oops _ _ _ _ _ E); by eauto].
    destruct Hb as (p & Hp & ->), HI as (rs & Hn & Hrs & Hinv).
    destruct (add_run _ (pI4 (ip_source p)) (s32 (ip_len q)) (wfst w) Hinv) as (w' & E' & Hinv' & _);
      [by apply pI4_text, Hps|by apply pI4_length, Hps|done|].
    rewrite (bind_done _ _ _ _ _ (run_on_fst _ _ _ _ E')). krun. split_and!; [done| |done].
    exists (rs ++ [(p, q)]). split_and!.
    + rewrite length_app. simpl. lia.
    + apply Forall_app. split; [done|]. by repeat constructor.
    + rewrite fold_left_app, wfst_pair_fst. exact Hinv'.
Qed.

(** Packets counted in a table. *)
Definition total (es : list entry) : Z := foldr (fun e n => e_count e + n) 0 es.

(** The counters are not negative, and every source has one entry. *)
Definition counting (es : list entry) : Prop :=
  NoDup (keys es) /\ Forall (fun e => 0 <= e_count e) es.

Lemma total_bump s d es :
  counting es -> s ∈ keys es -> total es < 2 ^ 31 - 1 ->
  total (map (bump s d) es) = total es + 1 /\ Forall (fun e => 0 <= e_count e) (map (bump s d) es).
Proof.
  intros [Hnd Hpos]. induction es as [|e es IH]; intros Hin Ht; [by apply elem_of_nil in Hin|].
  cbn [keys map] in Hnd. apply NoDup_cons in Hnd as [Hx Hnd]. apply Forall_cons in Hpos as [He Hpos].
  assert (0 <= total es) by (clear -Hpos; induction Hpos; simpl; lia). cbn [total foldr] in Ht.
  fold (total es) in Ht. cbn [map total foldr]. fold (total (map (bump s d) es)).
  unfold bump at 1 3. case_decide as E.
  - rewrite bump_absent by (by rewrite <- E). cbn [e_count]. rewrite wrapS_small by lia. fold (total es).
    split; [lia|]. constructor; [cbn; lia|done].
  - cbn [keys map] in Hin. apply elem_of_cons in Hin as [->|Hin]; [done|].
    destruct (IH Hnd Hpos Hin) as [E1 E2]; [lia|]. fold (total es). split; [lia|]. by constructor.
Qed.

Lemma total_record s d es :
  counting es -> total es < 2 ^ 31 - 1 -> total (record s d es) = total es + 1 /\ counting (record s d es).
Proof.
  intros Hc Ht. unfold record. case_decide as Hin.
  - destruct (total_bump s d es Hc Hin Ht) as [E1 E2]. split; [done|]. split; [|done].
    rewrite keys_bump. apply Hc.
  - destruct Hc as [Hnd Hpos]. split.
    + clear. induction es as [|e es IH]; simpl; [lia|]. fold (total (es ++ [Entry s 1 d])). fold (total es). lia.
    + split.
      * unfold keys. rewrite map_app. apply NoDup_app. split_and!; [done| |apply NoDup_singleton]. set_solver.
      * apply Forall_app. split; [done|]. repeat constructor. cbn. lia.
Qed.

Lemma total_recorded rs es :
  counting es -> total es + Z.of_nat (length rs) < 2 ^ 31 ->
  total (fold_left record2 rs es) = total es + Z.of_nat (length rs).
Proof.
  revert es. induction rs as [|r rs IH]; intros es Hc Ht; cbn [fold_left length] in *; [lia|].
  destruct (total_record (pI4 (ip_source r.1)) (s32 (ip_len r.2)) es Hc) as [E Hc']; [lia|].
  rewrite IH; unfold record2; [lia|done|lia].
Qed.

Lemma answered_le {B} (cs : list (ip * pc B)) : (answered cs <= length cs)%nat.
Proof. induction cs as [|[q c] cs IH]; simpl; [done|]. destruct (verdict c); lia. Qed.

(** C10 The statistics with packets on any number of processors, under every
    schedule, as long as nodes can be allocated, the counters of the table are
    not negative and the packets counted, old and new, stay below 2^31: no
    packet is lost.  The packets counted in the table are as many
    as have been accepted, all packets are accepted, and a fault is the use of
    a packet that has been freed.  (The sources and lengths recorded are those
    of packets in flight.) *)
Theorem stats_smp_none_lost ps es sched w :
  (glob w).2 = ptrs_static -> net_inv es (wfst w) -> Forall (fun p => ipv4 (ip_source p)) ps ->
  counting es -> total es + Z.of_nat (length ps) < 2 ^ 31 ->
  match smp_run Format stats_body sched (arrived ps) w with
  | (Done cs, w') =>
      (forall i q c v, cs !! i = Some (q, c) -> verdict c = Some v -> v = NF_ACCEPT) /\
      exists rs, Forall (fun r => r.1 ∈ ps /\ r.2 ∈ ps) rs /\
        net_inv (fold_left record2 rs es) (wfst w') /\
        total (fold_left record2 rs es) = total es + Z.of_nat (answered cs)
  | (Oops e, _) => (exists j, e = BadPointer j) /\ exists i, Free i ∈ sched
  end.
Proof.
  intros Hw Hinv Hps Hc Ht.
  pose proof (smp_run_ok Format stats_body ps (exists i, Free i ∈ sched) (recorded ps es)
    (fun v => v = NF_ACCEPT) (stats_at ps) ltac:(done) ltac:(done)
    (fun pt sock hdr b n w => stats_body_ok ps es _ pt sock hdr b n w Hps) sched (arrived ps) w) as H.
  assert (Ha : smp_ok ps (exists i, Free i ∈ sched) (recorded ps es) (fun v => v = NF_ACCEPT) (stats_at ps)
                 (arrived ps) w) by (apply arrived_ok; [exists []; by split_and!|done]).
  destruct (smp_run _ _ _ _ _) as [[cs|e] w']; cbn [smp_end] in H; [|apply H; by eauto].
  destruct H as (Hcs & _ & (rs & Hn & Hrs & Hinv') & Hok); [done|by eauto|]. split.
  - intros i q c v Hi Hv. specialize (Hok _ _ _ Hi). destruct c; simplify_eq/=; [done|by destruct Hok].
  - exists rs. split_and!; [done..|]. rewrite <- Hn. apply total_recorded; [done|].
    pose proof (answered_le cs). apply (f_equal length) in Hcs. rewrite length_map in Hcs. lia.
Qed.
(** One call of [add_to_list_network] beside the variables. *)
Lemma on_fst_add_run es s d w :
  net_inv es (wfst w) -> no_nul s -> (length s <= 15)%nat ->
  exists w', on_fst (add_to_list_network s d) w = (Done tt, w') /\
    net_inv (record s d es) (wfst w') /\ (glob w').2 = (glob w).2.
Proof.
  intros Hi Hs Hl. destruct (add_run es s d (wfst w) Hi Hs Hl) as (w' & E & Hi' & _); [done|].
  eexists. split; [by apply run_on_fst|]. by rewrite wfst_pair_fst.
Qed.

(** The race in the statistics: with packets from two sources on two
    processors there is a schedule under which both are counted for the
    second source and the first one does not appear at all. *)
Theorem stats_smp_race a b w :
  ipv4 (ip_source a) -> ipv4 (ip_source b) -> ip_source a <> ip_source b ->
  net_inv empty_table (wfst w) ->
  exists sched es w', smp_run Format stats_body sched (arrived [a; b]) w =
      (Done [(a, Answer NF_ACCEPT); (b, Answer NF_ACCEPT)], w') /\
    net_inv es (wfst w') /\ lookup_entry (pI4 (ip_source a)) es = None /\
    e_count <$> lookup_entry (pI4 (ip_source b)) es = Some 2.
Proof.
  intros Ha Hb Hne Hi.
  exists ([Step 0; Step 0; Step 1; Step 1] ++ replicate 4 (Step 0) ++ replicate 4 (Step 1))%nat.
  exists (record2 (record2 empty_table (b, b)) (b, b)).
  pose proof (pI4_text _ Hb). pose proof (pI4_length _ Hb).
  smp_go stats_body. rewrite take_ge by done.
  match goal with |- context [(on_fst _ ≫= _) ?w1] =>
    destruct (on_fst_add_run empty_table (pI4 (ip_source b)) (s32 (ip_len b)) w1) as (w2 & E2 & Hi2 & Hg2);
      [done..|] end.
  rewrite (bind_done _ _ _ _ _ E2). smp_go stats_body. do 4 (rewrite ?Hg2; smp_go stats_body).
  rewrite take_ge by done.
  match goal with |- context [(on_fst _ ≫= _) ?w1] =>
    destruct (on_fst_add_run _ (pI4 (ip_source b)) (s32 (ip_len b)) w1 Hi2) as (w3 & E3 & Hi3 & _);
      [done..|] end.
  rewrite (bind_done _ _ _ _ _ E3). smp_go stats_body. eexists. split; [reflexivity|]. split; [exact Hi3|].
  assert (Hk : pI4 (ip_source a) <> pI4 (ip_source b)) by (intros E; apply Hne, (pI4_inj _ _ Ha Hb E)).
  assert (pI4 (ip_source b) <> []) by (by apply pI4_nonempty).
  unfold record2. cbn [fst snd]. rewrite !lookup_record. split.
  - rewrite !decide_False by done. apply lookup_entry_None. cbn. rewrite list_elem_of_singleton. by apply pI4_nonempty.
  - rewrite !decide_True by done. rewrite (proj2 (lookup_entry_None _ _)); [done|].
    cbn. by rewrite list_elem_of_singleton.
Qed.

(** A processor alone in the hook behaves as the sequential handler. *)
Theorem stats_smp_alone p w (w1 : world net) :
  ipv4 (ip_source p) -> NetProc.hook_func (Some (skb_of p)) (wfst w) = (Done NF_ACCEPT, w1) ->
  exists w', smp_run Format stats_body (replicate 6 (Step 0)) (arrived [p]) w =
      (Done [(p, Answer NF_ACCEPT)], w') /\ wfst w' = w1.
Proof.
  intros Hp H. unfold NetProc.hook_func in H. cbn [of_option skb_of saddr data_len] in H.
  autorewrite with krun in H. rewrite take_ge in H by (by apply pI4_length).
  unfold mbind at 1, K_bind at 1 in H.
  destruct (add_to_list_network _ _ _) as [[[]|e] w2] eqn:E; [|done]. autorewrite with krun in H. simplify_eq.
  smp_go stats_body. rewrite take_ge by (by apply pI4_length).
  match goal with |- context [(on_fst ?c ≫= _) ?w0] =>
    assert (E' : on_fst c w0 = (Done tt, pair_fst w1 (glob w0).2)) by (apply run_on_fst; exact E) end.
  rewrite (bind_done _ _ _ _ _ E'). smp_go stats_body. eexists. split; [reflexivity|]. by rewrite wfst_pair_fst.
Qed.
End Statistics.

(** ** Concrete runs *)

Definition demo_ping : ip := Ip 1 [8; 8; 8; 8] 84.
Definition demo_tcp : ip := Ip 6 [10; 0; 0; 1] 100.

Definition demo_filter : world (unit * ptrs) := World ∅ 1 ∅ [] (tt, ptrs_static).

Definition demo_stats : world (net * ptrs) := pair_fst demo_net ptrs_static.

(** Two processors that take turns to the end of the hook. *)
Definition turns : list smp_event := concat (replicate 7 [Step 0; Step 1])%nat.

Lemma block_smp_verdicts_witness :
  match smp_run TestProtocol block_body turns (arrived [demo_ping; demo_tcp]) demo_filter with
  | (Done cs, _) =>
      map fst cs = [demo_ping; demo_tcp] /\
      forall i q c v, cs !! i = Some (q, c) -> verdict c = Some v -> some_verdict [demo_ping; demo_tcp] v
  | (Oops e, _) => (exists j, e = BadPointer j) /\ exists i, Free i ∈ turns
  end.
Proof. exact (block_smp_verdicts [demo_ping; demo_tcp] turns demo_filter eq_refl). Defined.

Lemma block_smp_alone_witness :
  exists v w' w0', smp_run TestProtocol block_body (replicate 7 (Step 0)) (arrived [demo_ping]) demo_filter =
      (Done [(demo_ping, Answer v)], w') /\
    BlockProtocol.hook_func (Some (pkt_of demo_ping)) idle_hooks = (Done v, w0') /\ log w' = log w0'.
Proof. exact (block_smp_alone demo_ping demo_filter idle_hooks eq_refl). Defined.

Lemma block_smp_race_witness :
  exists sched c w', smp_run TestProtocol block_body sched (arrived [demo_ping; demo_tcp]) demo_filter =
    (Done [(demo_ping, Answer NF_ACCEPT); (demo_tcp, c)], w').
Proof. exact (proj1 (block_smp_race demo_ping demo_tcp demo_filter eq_refl ltac:(done))). Defined.

Lemma demo_ipv4 : Forall (fun p => ipv4 (ip_source p)) [demo_ping; demo_tcp].
Proof. repeat constructor; cbn; unfold is_byte; lia. Qed.

Lemma demo_stats_inv : net_inv empty_table (wfst demo_stats).
Proof. unfold demo_stats. rewrite wfst_pair_fst. exact demo_net_inv. Qed.

(** Both packets have been accepted then. *)
Lemma turns_answered :
  exists cs w', smp_run Format (stats_body (ENV := calm)) turns (arrived [demo_ping; demo_tcp]) demo_stats = (Done cs, w') /\
    answered cs = 2%nat.
Proof. eexists _, _. split; [vm_compute; reflexivity|reflexivity]. Qed.

Lemma demo_counting : counting empty_table.
Proof. split; repeat constructor; cbn; [set_solver|lia]. Qed.

Lemma stats_smp_none_lost_witness :
  exists cs w' rs,
    smp_run Format (stats_body (ENV := calm)) turns (arrived [demo_ping; demo_tcp]) demo_stats = (Done cs, w') /\
    net_inv (fold_left record2 rs empty_table) (wfst w') /\ total (fold_left record2 rs empty_table) = 2.
Proof.
  destruct turns_answered as (cs & w' & E & Ha).
  pose proof (stats_smp_none_lost (ENV := calm) ltac:(done) [demo_ping; demo_tcp] empty_table turns demo_stats
    eq_refl demo_stats_inv demo_ipv4) as H.
  rewrite E in H. destruct (H demo_counting ltac:(reflexivity)) as (_ & rs & _ & H1 & H2).
  exists cs, w', rs. split; [exact E|]. split; [exact H1|]. rewrite H2, Ha. reflexivity.
Defined.

Lemma stats_smp_race_witness :
  exists sched es w', smp_run Format (stats_body (ENV := calm)) sched (arrived [demo_ping; demo_tcp]) demo_stats =
      (Done [(demo_ping, Answer NF_ACCEPT); (demo_tcp, Answer NF_ACCEPT)], w') /\
    net_inv es (wfst w') /\ lookup_entry (str "8.8.8.8") es = None.
Proof.
  destruct (stats_smp_race (ENV := calm) ltac:(done) demo_ping demo_tcp demo_stats)
    as (sched & es & w' & E & Hi & Hl & _).
  - split; [done|]. repeat constructor; cbn; unfold is_byte; lia.
  - split; [done|]. repeat constructor; cbn; unfold is_byte; lia.
  - done.
  - exact demo_stats_inv.
  - exists sched, es, w'. split; [exact E|]. split; [exact Hi|exact Hl].
Defined.
