(* ===== verification/NetReaders.v ===== *)
(** * Readers of the packet statistics beside the hook (src/network_procfs.c)

    A reader of /proc/net_proc takes no lock: between two of its steps packets
    arrive, other processes clear the counters or read the file, and on another
    processor the hook may be half-way through adding a node.  The first part
    interleaves whole operations with the steps of one reader and shows that
    the reader still lists every source once.  The second part splits
    [add_to_list_network] at the point where the new node is linked and not
    yet filled, and shows what a reader finds there. *)

From stdpp Require Import base gmap list numbers list_numbers strings.
From Stdlib Require Import ZArith Lia.
From S2P Require Import Prelude Kernel Lifecycle Inet Seqfile NetProc.

(** ** Positions in the list *)

Section Positions.
Implicit Types (m : gmap Z network_list) (w : world net).

Lemma linked_at m ps es i p :
  linked m ps es -> ps !! i = Some p ->
  p <> 0 /\ exists n e, es !! i = Some e /\ m !! p = Some n /\ node_rep n e /\
    next n = default 0 (ps !! S i).
Proof.
  revert es i. induction ps as [|q ps IH]; intros [|e es] i; try done.
  intros (Hq & (n & Hn & Hr & Hx) & Hl) Hi. destruct i as [|i]; simpl in Hi.
  - simplify_eq. split; [done|]. exists n, e. split_and!; try done. rewrite Hx. by destruct ps.
  - destruct (IH es i Hl Hi) as (Hp & n' & e' & He' & Hn' & Hr' & Hx'). split; [done|]. by exists n', e'.
Qed.

(** The last entry of the table is at the last place. *)
Lemma linked_ends m ps es i : linked m ps es -> ps !! i = None -> (i <= length ps)%nat -> i = length es.
Proof. intros Hl%linked_length Hi%lookup_ge_None Hle. lia. Qed.

Lemma keys_lookup es i e : es !! i = Some e -> keys es !! i = Some (e_addr e).
Proof. intros H. transitivity ((e_addr <$> es) !! i); [done|]. by rewrite list_lookup_fmap, H. Qed.
End Positions.

(** Operations keep the sources of the table in their places. *)
Section Growth.
Context {FMT : FormatIPv4}.

Lemma record_prefix s d es : keys es `prefix_of` keys (record s d es).
Proof.
  unfold record. case_decide; [rewrite keys_bump; reflexivity|]. exists [s]. unfold keys. by rewrite map_app.
Qed.

Lemma spec_op_prefix o es : keys es `prefix_of` keys (spec_op o es).1.
Proof. destruct o as [b|len|pos room]; cbn [spec_op fst]; [apply record_prefix|rewrite keys_clear; reflexivity|reflexivity]. Qed.

Lemma spec_ops_cons o os es : (spec_ops (o :: os) es).1 = (spec_ops os (spec_op o es).1).1.
Proof. cbn [spec_ops]. destruct (spec_op o es) as [es1 x]. cbn [fst]. by destruct (spec_ops os es1). Qed.

Lemma spec_ops_prefix os es : keys es `prefix_of` keys (spec_ops os es).1.
Proof.
  revert es. induction os as [|o os IH]; intros es; [reflexivity|]. rewrite spec_ops_cons.
  etrans; [apply (spec_op_prefix o)|apply IH].
Qed.

Lemma spec_op_length o es : (length (spec_op o es).1 <= S (length es))%nat.
Proof.
  destruct o as [b|len|pos room]; cbn [spec_op fst]; [|unfold clear; rewrite length_map; lia|lia].
  unfold account, record. case_decide; [rewrite length_map; lia|]. rewrite length_app. simpl. lia.
Qed.

Lemma spec_ops_length os es : (length (spec_ops os es).1 <= length os + length es)%nat.
Proof.
  revert es. induction os as [|o os IH]; intros es; [reflexivity|]. rewrite spec_ops_cons.
  specialize (IH (spec_op o es).1). pose proof (spec_op_length o es). simpl. lia.
Qed.

Lemma spec_ops_app os os' es : (spec_ops (os ++ os') es).1 = (spec_ops os' (spec_ops os es).1).1.
Proof.
  revert es. induction os as [|o os IH]; intros es; [done|]. cbn [app]. rewrite !spec_ops_cons. apply IH.
Qed.
End Growth.

(** ** A reader interleaved with other operations

    [sched] lists what happens in the gaps between the reader's steps: before
    it shows an element, and between showing it and asking for the next. *)

Section Reader.
Context {ENV : Env} {FMT : FormatIPv4}.
Implicit Types w : world net.

Fixpoint loop_during (sched : list (list net_op)) (room : nat) (pos v : Z) : K net (list (list Z)) :=
  match room with
  | O => mret []
  | S room' =>
      if v =? 0 then mret []
      else
        run_ops (List.hd [] sched);;
        l ← show swaps_op v;
        run_ops (List.hd [] (List.tl sched));;
        v' ← next_elem swaps_op v pos;
        ls ← loop_during (List.tl (List.tl sched)) room' pos v';
        mret (l :: ls)
  end.

Definition read_during (sched : list (list net_op)) (pos : Z) (room : nat) : K net (list (list Z)) :=
  v ← start swaps_op pos; ls ← loop_during sched room pos v; stop swaps_op;; mret ls.

Lemma concat_hd_tl (sched : list (list net_op)) :
  concat sched = List.hd [] sched ++ concat (List.tl sched).
Proof. by destruct sched. Qed.

Lemma my_show_run m w v n e :
  m = nodes (glob w) -> v <> 0 -> m !! v = Some n -> node_rep n e -> my_show v w = (Done (line e), w).
Proof.
  intros -> Hv Hn (_ & Ha & Hc & Hd). unfold my_show. kstep run_node. rewrite Ha. cbn [of_option]. krun.
  by rewrite Hc, Hd.
Qed.

Lemma my_next_run w v pos n :
  v <> 0 -> nodes (glob w) !! v = Some n -> my_next v pos w = (Done (next n), w).
Proof. intros Hv Hn. unfold my_next. by kstep run_node. Qed.

(** The entry [e] was in the table at some moment of the operations [os]. *)
Definition was_there (os : list net_op) (es : list entry) (e : entry) : Prop :=
  exists k, e ∈ (spec_ops (take k os) es).1.

Lemma was_there_after os os' es e :
  was_there os' (spec_ops os es).1 e -> was_there (os ++ os') es e.
Proof.
  intros [k He]. exists (length os + k)%nat. by rewrite take_app_add, spec_ops_app.
Qed.

Lemma loop_during_run room pos sched i ps es w :
  (forall tr c, kret tr (KmemCacheAlloc c) <> 0) -> Forall op_ok (concat sched) ->
  net_at ps es w -> (i <= length ps)%nat ->
  exists n seen w', let final := (spec_ops (take n (concat sched)) es).1 in
    loop_during sched room pos (default 0 (ps !! i)) w = (Done (map line seen), w') /\
    net_inv final w' /\ lock_depth (log w') = lock_depth (log w) /\
    (forall L, net_held L w -> net_held L w') /\
    keys seen = take room (drop i (keys final)) /\ Forall (was_there (concat sched) es) seen.
Proof.
  intros Ha. revert sched i ps es w. induction room as [|room IH]; intros sched i ps es w Hok Hi Hle.
  { exists 0%nat, [], w. split; [done|]. split; [by eexists|]. by split_and!. }
  pose proof Hi as (Hl & _). cbn [loop_during]. destruct (ps !! i) as [v|] eqn:Hv; cbn [from_option id].
  2: { exists 0%nat, [], w. split; [done|]. split; [by eexists|]. split_and!; [done..| |constructor].
       rewrite (linked_ends _ _ _ _ Hl Hv Hle). rewrite drop_ge; [done|]. unfold keys. by rewrite length_map. }
  destruct (linked_at _ _ _ _ _ Hl Hv) as [Hv0 _]. rewrite (proj2 (Z.eqb_neq _ _) Hv0).
  rewrite concat_hd_tl, (concat_hd_tl (List.tl sched)) in Hok |- *.
  set (o1 := List.hd [] sched) in *. set (o2 := List.hd [] (List.tl sched)) in *.
  set (rest := List.tl (List.tl sched)) in *.
  apply Forall_app in Hok as [Hok1 [Hok2 Hok3]%Forall_app].
  destruct (run_ops_at o1 ps es w Hi Hok1 Ha) as (w1 & E1 & [q1 Hi1] & Hk1 & Hh1).
  rewrite (bind_done _ _ _ _ _ E1). set (es1 := (spec_ops o1 es).1) in *.
  pose proof Hi1 as (Hl1 & _).
  destruct (linked_at _ _ _ i v Hl1) as (_ & n1 & e1 & He1 & Hn1 & Hr1 & _); [by apply lookup_app_l_Some|].
  cbn [swaps_op show next_elem]. erewrite bind_done by (by eapply my_show_run).
  destruct (run_ops_at o2 _ es1 w1 Hi1 Hok2 Ha) as (w2 & E2 & [q2 Hi2] & Hk2 & Hh2).
  rewrite (bind_done _ _ _ _ _ E2). set (es2 := (spec_ops o2 es1).1) in *.
  pose proof Hi2 as (Hl2 & _).
  destruct (linked_at _ _ _ i v Hl2) as (_ & n2 & e2 & _ & Hn2 & _ & Hx2);
    [by do 2 apply lookup_app_l_Some|].
  erewrite bind_done by (by apply my_next_run). rewrite Hx2.
  assert (Hi_lt : (i < length ps)%nat) by (by apply lookup_lt_Some in Hv).
  destruct (IH rest (S i) _ es2 w2 Hok3 Hi2) as (n & seen & w3 & E3 & Hi3 & Hk3 & Hh3 & Hkeys & Hthere);
    [rewrite !length_app; lia|].
  rewrite (bind_done _ _ _ _ _ E3). krun.
  exists (length o1 + (length o2 + n))%nat, (e1 :: seen), w3. cbv zeta.
  rewrite take_app_add, take_app_add, !spec_ops_app. fold es1 es2.
  split_and!; [done|done|congruence|eauto| |].
  - cbn [keys map]. fold (keys seen). rewrite Hkeys. rewrite (drop_S _ (e_addr e1) i); [done|].
    eapply prefix_lookup_Some; [by apply keys_lookup|].
    etrans; [apply spec_ops_prefix|]. fold es2. apply spec_ops_prefix.
  - constructor.
    + exists (length o1). rewrite take_app_length. fold es1. by apply list_elem_of_lookup_2 in He1.
    + eapply Forall_impl; [exact Hthere|]. intros e He. by do 2 apply was_there_after.
Qed.

Lemma read_during_run sched pos room e0 es w :
  (forall tr c, kret tr (KmemCacheAlloc c) <> 0) -> Forall op_ok (concat sched) ->
  net_inv (e0 :: es) w ->
  exists n seen w', let final := (spec_ops (take n (concat sched)) (e0 :: es)).1 in
    read_during sched pos room w = (Done (map line seen), w') /\
    net_inv final w' /\ lock_depth (log w') = lock_depth (log w) /\
    (forall L, net_held L w -> net_held L w') /\
    keys seen = take room (List.tl (keys final)) /\ Forall (was_there (concat sched) (e0 :: es)) seen.
Proof.
  intros Ha Hok [ps Hi]. pose proof Hi as (Hl & Hnd & Hhd & _ & Hdom & _).
  destruct ps as [|p ps]; [done|]. simpl in Hhd.
  destruct (linked_at _ _ _ 0%nat p Hl) as (Hp & m & e & _ & Hm & _ & Hx); [done|].
  unfold read_during. cbn [swaps_op start stop]. unfold my_start. krun. rewrite <- Hhd. kstep run_node.
  krun. rewrite Hx. match goal with |- context [(loop_during _ _ _ _ ≫= _) ?w1] =>
    destruct (loop_during_run room pos sched 1 (p :: ps) (e0 :: es) w1)
      as (n & seen & w2 & E & Hi2 & Hk2 & Hh2 & Hkeys & Hthere); [done|done|done|simpl; lia|] end.
  rewrite (bind_done _ _ _ _ _ E). unfold my_stop. krun. exists n, seen. eexists. cbv zeta.
  split_and!; [done|done|done| | |done].
  - intros L HL. apply holds_nothing; [done|]. apply Hh2. by apply holds_nothing.
  - rewrite Hkeys. by destruct (keys _).
Qed.
End Reader.

(** ** A reader beside a half-added source

    [add_to_list_network] takes the spinlock, the reader does not.  The node
    of a new source is linked ([tail->next = kmem_cache_alloc(...)]) before
    its fields are set.  [add_while mid] is [add_to_list_network] with [mid]
    run by another processor right after the link. *)

Section HalfBuilt.
Context {ENV : Env}.
Implicit Types (w : world net) (m : gmap Z network_list).

(** What runs on another processor ends there, faults included. *)
Definition beside {A} (c : K net A) : K net (outcome A) := fun w => let (r, w') := c w in (Done r, w').

(** [None] when the source was known and no node was linked. *)
Definition add_while {A} (mid : K net A) (s : list Z) (data_size : Z) : K net (option (outcome A)) :=
  g ← get;
  docall SpinLock;;
  added ← find_loop (S (size (nodes g))) (root g) s data_size;
  r ← (if negb added then
     printk "%pS\n" [];;
     printk "New node for source %s\n" [PStr s];;
     p ← link_node;
     a ← beside mid;
     fill_node p s data_size;;
     mret (Some a)
   else mret None);
  docall SpinUnlock;;
  mret r.

Lemma bind_ext {A B} (c : K net A) (f g : A -> K net B) w :
  (forall a w', f a w' = g a w') -> (c ≫= f) w = (c ≫= g) w.
Proof. intros H. unfold mbind, K_bind. destruct (c w) as [[a|e] w']; [apply H|done]. Qed.

(** With nothing in between it is [add_to_list_network]. *)
Lemma add_while_nothing s d w :
  (add_while (mret tt) s d;; mret tt) w = add_to_list_network s d w.
Proof.
  unfold add_while, add_to_list_network. krun. apply bind_ext. intros [] w1; cbn [negb]; krun.
  - done.
  - apply bind_ext. intros p w2. rewrite bind_assoc. erewrite bind_done by reflexivity. krun.
    apply bind_ext. intros ? ?. by krun.
Qed.

(** A part of the list whose last node points to [q]. *)
Fixpoint linked_to m (q : Z) (ps : list Z) (es : list entry) : Prop :=
  match ps, es with
  | [], [] => True
  | p :: ps', e :: es' =>
      p <> 0 /\ (exists n, m !! p = Some n /\ node_rep n e /\ next n = hd q ps') /\
      linked_to m q ps' es'
  | _, _ => False
  end.

Lemma linked_redirect m ps es t nt p nj :
  linked m ps es -> NoDup ps -> last ps = Some t -> m !! t = Some nt -> p ∉ ps ->
  linked_to (<[t := set_next p nt]> (<[p := nj]> m)) p ps es.
Proof.
  intros Hl Hnd Ht Hnt Hp. revert es Hl Ht. induction ps as [|q ps IH]; [done|].
  intros [|e es]; [done|]. apply NoDup_cons in Hnd as [Hq Hnd].
  intros (Hq0 & (nq & Hnq & Hr & Hx) & Hl) Ht. simpl. split; [done|]. destruct ps as [|q' ps].
  - destruct es; [|done]. simpl in Ht. simplify_eq. split; [|done].
    exists (set_next p nt). by rewrite lookup_insert_eq.
  - rewrite last_cons_cons in Ht. assert (t ∈ q' :: ps) by (by apply last_Some_elem_of). split.
    + exists nq. rewrite !lookup_insert_ne by set_solver. done.
    + apply IH; [done|set_solver|done|done].
Qed.

Lemma seq_loop_to room pos q ps es w :
  linked_to (nodes (glob w)) q ps es ->
  seq_loop swaps_op (length ps + room) pos (hd q ps) w =
  (ls ← seq_loop swaps_op room pos q; mret (map line es ++ ls)) w.
Proof.
  revert es w. induction ps as [|p ps IH]; intros [|e es] w; try done.
  { intros _. simpl. unfold mbind, K_bind. by destruct (seq_loop swaps_op room pos q w) as [[]]. }
  intros (Hp & (n & Hn & Hr & Hx) & Hl). cbn [seq_loop hd length Nat.add]. rewrite (proj2 (Z.eqb_neq _ _) Hp).
  cbn [swaps_op show next_elem]. erewrite bind_done by (by eapply my_show_run).
  erewrite bind_done by (by apply my_next_run). rewrite Hx.
  assert (E := IH es w Hl). unfold mbind at 1, K_bind at 1. fold swaps_op. rewrite E.
  unfold mbind, K_bind. by destruct (seq_loop swaps_op room pos q w) as [[]].
Qed.

Lemma node_same p w : (node p w).2 = w.
Proof. unfold node. destruct (p =? 0); [done|]. krun. by destruct (nodes (glob w) !! p). Qed.

Lemma bind_same {A B} (c : K net A) (k : A -> K net B) w :
  (c w).2 = w -> (forall a, (k a w).2 = w) -> ((c ≫= k) w).2 = w.
Proof. intros Hc Hk. unfold mbind, K_bind. destruct (c w) as [[a|e] w']; simpl in Hc; subst; [apply Hk|done]. Qed.

Lemma of_option_same {A} e (o : option A) w : (of_option (S := net) e o w).2 = w.
Proof. by destruct o. Qed.

(** Walking the list changes nothing, whatever it finds. *)
Lemma seq_loop_same room pos v w : (seq_loop swaps_op room pos v w).2 = w.
Proof.
  revert v. induction room as [|room IH]; intros v; cbn [seq_loop]; [done|].
  destruct (v =? 0); [done|]. cbn [swaps_op show next_elem]. unfold my_show, my_next.
  repeat first [apply bind_same; [|intros ?] | apply node_same | apply of_option_same | apply IH | done].
Qed.

(** What the reader gets when it meets the linked node: the entries, then
    whatever the memory of the node held before. *)
Lemma loop_half_built room pos p nj ps es w :
  nodes (glob w) !! p = Some nj -> p <> 0 -> linked_to (nodes (glob w)) p ps es ->
  (seq_loop swaps_op (length ps + S room) pos (hd p ps) w).1 =
    match cstr (addr nj) with
    | None => Oops Unterminated
    | Some a =>
        match (seq_loop swaps_op room pos (next nj) w).1 with
        | Done ls => Done (map line es ++ line (Entry a (count nj) (data_used nj)) :: ls)
        | Oops f => Oops f
        end
    end.
Proof.
  intros Hn Hp Hl. rewrite (seq_loop_to (S room) pos p ps es w Hl). set (rest := seq_loop swaps_op room pos) in *.
  change (seq_loop swaps_op (S room) pos p) with
    (if p =? 0 then mret [] else l ← my_show p; v' ← my_next p pos; ls ← rest v'; mret (l :: ls)).
  rewrite (proj2 (Z.eqb_neq _ _) Hp). unfold my_show, my_next. krun. kstep run_node.
  destruct (cstr (addr nj)) as [a|]; cbn [of_option]; [|done]. krun. kstep run_node. krun.
  unfold mbind, K_bind. by destruct (rest (next nj) w) as [[ls|f] w'].
Qed.

Context {FMT : FormatIPv4}.

(** A pass over such a list only adds its two messages to the log. *)
Lemma fill_half_built room pos p nj p0 ps e0 es w :
  nodes (glob w) !! p = Some nj -> p <> 0 -> root (glob w) = p0 ->
  linked_to (nodes (glob w)) p (p0 :: ps) (e0 :: es) ->
  exists r tr, run_op (Read pos (length ps + S room)) w = (r, World (heap w) (brk w) (user w) (tr ++ log w) (glob w)) /\
    r = match cstr (addr nj) with
        | None => Oops Unterminated
        | Some a =>
            match (seq_loop swaps_op room pos (next nj) (with_event (Printk "START\n" [], 0) w)).1 with
            | Done ls => Done (map line es ++ line (Entry a (count nj) (data_used nj)) :: ls)
            | Oops f => Oops f
            end
        end.
Proof.
  intros Hn Hp Hr (Hp0 & (n0 & Hn0 & _ & Hx0) & Hl). cbn [run_op]. unfold my_open. krun.
  unfold seq_fill. cbn [swaps_op start stop]. fold swaps_op.
  unfold my_start. krun. rewrite Hr. kstep run_node. krun. rewrite Hx0.
  set (w1 := with_event (Printk "START\n" [], 0) w).
  pose proof (loop_half_built room pos p nj ps es w1 Hn Hp Hl) as E.
  pose proof (seq_loop_same (length ps + S room) pos (hd p ps) w1) as Ew.
  unfold mbind at 1, K_bind at 1. destruct (seq_loop swaps_op _ _ _ w1) as [[ls|f] w2]; simpl in Ew; subst w2.
  - unfold my_stop. krun. exists (Done ls), [(Printk "STOP\n" [], 0); (Printk "START\n" [], 0)].
    split; [done|exact E].
  - exists (Oops f), [(Printk "START\n" [], 0)]. split; [by destruct w|exact E].
Qed.

Lemma add_while_run room pos e0 es s d w :
  net_inv (e0 :: es) w -> s ∉ keys (e0 :: es) -> no_nul s -> (length s <= 15)%nat ->
  (forall tr c, kret tr (KmemCacheAlloc c) <> 0) ->
  exists r tr w1 w',
    add_while (run_op (Read pos (length es + S room))) s d w = (Done (Some r), w') /\
    net_inv (record s d (e0 :: es)) w' /\
    (forall q, q ∉ dom (nodes (glob w)) -> q <> brk w -> q ∉ dom (nodes (glob w1))) /\
    r = match cstr (addr (junk_node (kjunk tr))) with
        | None => Oops Unterminated
        | Some a =>
            match (seq_loop swaps_op room pos (kjunk tr 18) w1).1 with
            | Done ls => Done (map line es ++ line (Entry a (kjunk tr 16) (kjunk tr 17)) :: ls)
            | Oops f => Oops f
            end
        end.
Proof.
  intros [ps Hi] Hin Hnul Hs Ha. pose proof Hi as (Hl & Hnd & Hhd & Hlast & Hdom & Hk & Hb).
  unfold add_while. krun.
  destruct (find_loop_run (S (size (nodes (glob w)))) ps (e0 :: es) s d (with_event (SpinLock, 0) w))
    as (m & E & Hl' & _ & Hdom'); [done..|rewrite (size_nodes _ ps) by done; lia|].
  rewrite bump_absent in Hl' by done. rewrite bool_decide_eq_false_2 in E by done.
  rewrite Hhd in E. rewrite (bind_done _ _ _ _ _ E). clear E. cbn [negb]. krun. ncbn.
  assert (Ht : tail (glob w) ∈ ps) by (by apply last_Some_elem_of).
  destruct (linked_lookup _ _ _ _ Hl' Ht) as [nt Hnt]. pose proof (Hb _ Ht) as Htb.
  assert (Hfresh : brk w ∉ ps) by (intros H%Hb; lia).
  match goal with |- context [(link_node ≫= _) ?w1] =>
    rewrite (bind_done _ _ _ _ _ (link_run nt w1 (Ha _ _) ltac:(cbn; lia) ltac:(cbn; lia) Hnt)) end.
  krun. ncbn. set (nj := junk_node _). set (m1 := <[tail (glob w) := _]> _).
  destruct ps as [|p0 ps]; [done|]. simpl in Hhd.
  assert (Hm1 : dom m1 = {[brk w]} ∪ list_to_set (p0 :: ps)).
  { unfold m1. rewrite !dom_insert_L, Hdom', Hdom. set_solver. }
  pose proof (linked_length _ _ _ Hl) as Hlen. injection Hlen as Hlen. rewrite <- Hlen.
  match goal with |- context [(beside _ ≫= _) ?w1] =>
    destruct (fill_half_built room pos (brk w) nj p0 ps e0 es w1) as (r & tr & Er & Hr);
    [unfold m1; cbn; by rewrite lookup_insert_ne, lookup_insert_eq by lia|lia|done
    |by apply linked_redirect|] end.
  erewrite bind_done by (unfold beside; rewrite Er; reflexivity). krun. ncbn.
  match goal with |- context [(fill_node _ _ _ ≫= _) ?w2] =>
    destruct (fill_run (brk w) nj s d w2) as (a & Hal & Hac & Ef);
    [lia|unfold m1; cbn; by rewrite lookup_insert_ne, lookup_insert_eq by lia
    |cbn; by rewrite length_map, length_seqZ|done|done|] end.
  rewrite (bind_done _ _ _ _ _ Ef). krun. ncbn. clear Er Ef.
  do 4 eexists. split; [done|]. split; [|split; [|exact Hr]].
  - exists ((p0 :: ps) ++ [brk w]). unfold record. rewrite decide_False by done.
    apply (net_at_snoc _ _ s 1 d w); [done|done|done| | |done|done]; ncbn.
    + apply linked_new; (done || lia).
    + rewrite dom_insert_L, Hm1, Hdom. set_solver.
  - intros q Hq Hqb. ncbn. rewrite Hm1, <- Hdom. set_solver.
Qed.
End HalfBuilt.

(** ** Properties *)

Section Properties.
Context {ENV : Env} {FMT : FormatIPv4}.
Implicit Types w : world net.

(** C4 A reader of /proc/net_proc is not disturbed by what happens between the
    steps of a pass over the list, as long as the allocations of nodes
    succeed: whatever IPv4 packets, clears and other reads come before each
    element is shown and before the next one is asked for, at whatever
    position the pass is and however many lines it has room for, it does not
    fault and delivers the first sources of the table as it is at the end of
    the pass, each once and in order of arrival, as many as there is room for,
    among them the first of those known when it began; every line is that of
    an entry the table held at some moment of the pass.  (The next pass starts
    over.) *)
Theorem net_reader_beside_packets sched pos room e0 es w :
  (forall tr c, kret tr (KmemCacheAlloc c) <> 0) -> Forall op_ok (concat sched) ->
  net_inv (e0 :: es) w ->
  exists n seen w', let final := (spec_ops (take n (concat sched)) (e0 :: es)).1 in
    read_during sched pos room w = (Done (map line seen), w') /\
    net_inv final w' /\ lock_depth (log w') = lock_depth (log w) /\
    keys seen = take room (List.tl (keys final)) /\ take room (keys es) `prefix_of` keys seen /\
    NoDup (keys seen) /\ Forall (was_there (concat sched) (e0 :: es)) seen.
Proof.
  intros Ha Hok Hi.
  destruct (read_during_run sched pos room e0 es w Ha Hok Hi) as (n & seen & w' & E & Hi' & Hk & _ & Hkeys & Hth).
  exists n, seen, w'. cbv zeta. split_and!; [done..| | |done].
  - destruct (spec_ops_prefix (take n (concat sched)) (e0 :: es)) as [k Ek].
    rewrite Hkeys, Ek. change (List.tl (keys (e0 :: es) ++ k)) with (keys es ++ k).
    rewrite take_app. by eexists.
  - rewrite Hkeys. destruct Hi' as (ps & _ & _ & _ & _ & _ & Hnd & _).
    eapply sublist_NoDup; [|apply sublist_take]. destruct (keys _); [done|]. by apply NoDup_cons in Hnd as [_ Hnd].
Qed.

(** C35 A reader can see a source before its node is filled: the node is linked
    first and the reader takes no lock.  The hook completes its update, but
    a pass on another processor at that moment, with room for two lines more
    than there are sources, gets, after the entries, a
    line made of what the memory held before; it runs off the end of the
    address if that has no terminator, and follows a wild pointer if the
    stale next field is one. *)
Theorem net_reader_half_built pos room e0 es s d w j :
  (length es + 2 <= room)%nat -> net_inv (e0 :: es) w -> s ∉ keys (e0 :: es) -> no_nul s -> (length s <= 15)%nat ->
  (forall tr c, kret tr (KmemCacheAlloc c) <> 0) -> (forall tr, kjunk tr = j) ->
  exists r w', add_while (run_op (Read pos room)) s d w = (Done (Some r), w') /\
    net_inv (record s d (e0 :: es)) w' /\
    match cstr (map j (seqZ 0 16)) with
    | None => r = Oops Unterminated
    | Some a =>
        (j 18 = 0 -> r = Done (map line es ++ [line (Entry a (j 16) (j 17))])) /\
        (j 18 <> 0 -> j 18 ∉ dom (nodes (glob w)) -> j 18 <> brk w -> r = Oops (BadPointer (j 18)))
    end.
Proof.
  intros Hroom Hi Hin Hnul Hs Ha Hj.
  replace room with (length es + S (S (room - length es - 2)))%nat by lia.
  destruct (add_while_run (S (room - length es - 2)) pos e0 es s d w Hi Hin Hnul Hs Ha) as (r & tr & w1 & w' & E & Hi' & Hw & Hr).
  exists r, w'. split; [done|]. split; [done|]. rewrite Hj in Hr. cbn [addr junk_node] in Hr.
  destruct (cstr _) as [a|]; [|done]. split; intros Hx.
  - by rewrite Hr, Hx.
  - intros Hd Hb. rewrite Hr. cbn [seq_loop]. rewrite (proj2 (Z.eqb_neq _ _) Hx).
    cbn [swaps_op show]. unfold my_show, node. rewrite (proj2 (Z.eqb_neq _ _) Hx). krun.
    by rewrite (proj1 (not_elem_of_dom _ _) (Hw _ Hd Hb)).
Qed.
End Properties.

(** ** Concrete runs *)

(** While one source is listed, another sends its first packet and the
    counters are cleared. *)
Definition busy : list (list net_op) :=
  [[Packet (SkBuff [10; 0; 0; 1] 1017)]; [Clear 1; Packet (SkBuff [8; 8; 8; 8] 5)]].

Lemma busy_read :
  (read_during (ENV := calm) busy 0 8 seen_net).1 =
  Done [line (Entry (str "10.0.0.1") 2 1024); line (Entry (str "8.8.8.8") 1 5)].
Proof. vm_compute. reflexivity. Qed.

Lemma net_reader_beside_packets_witness :
  exists n seen w', let final := (spec_ops (take n (concat busy)) [Entry [] 0 0; Entry (str "10.0.0.1") 1 7]).1 in
    read_during (ENV := calm) busy 0 6 seen_net = (Done (map line seen), w') /\
    net_inv final w' /\ lock_depth (log w') = 0 /\
    keys seen = take 6 (List.tl (keys final)) /\ [str "10.0.0.1"] `prefix_of` keys seen /\ NoDup (keys seen) /\
    Forall (was_there (concat busy) [Entry [] 0 0; Entry (str "10.0.0.1") 1 7]) seen.
Proof.
  apply (net_reader_beside_packets (ENV := calm) busy 0 6 (Entry [] 0 0) [Entry (str "10.0.0.1") 1 7] seen_net).
  - done.
  - repeat constructor; cbn; unfold is_byte; lia.
  - exact seen_net_inv.
Defined.

(** Memory full of the letter A. *)
Definition dirty : Env := {| kret _ c := calm_ret c; kjunk _ _ := 65 |}.

Lemma net_reader_half_built_witness :
  exists r w', add_while (ENV := dirty) (run_op (ENV := dirty) (Read 0 3)) (str "8.8.8.8") 5 seen_net =
      (Done (Some r), w') /\
    net_inv [Entry [] 0 0; Entry (str "10.0.0.1") 1 7; Entry (str "8.8.8.8") 1 5] w' /\
    r = Oops Unterminated.
Proof.
  refine (net_reader_half_built (ENV := dirty) 0 3 (Entry [] 0 0) [Entry (str "10.0.0.1") 1 7]
    (str "8.8.8.8") 5 seen_net (fun _ => 65) _ seen_net_inv _ _ _ _ _).
  - cbn. lia.
  - vm_compute. set_solver.
  - unfold no_nul. vm_compute. repeat (constructor; [lia|]). constructor.
  - cbn. lia.
  - done.
  - done.
Defined.
