(* ===== verification/Together.v ===== *)
(** * Modules that keep to their own memory

    The modules of the repository do not call each other, but they share the
    kernel: the allocator, the trace of calls and the memory of the processes.
    [LocalModule] is the promise that lets them run beside each other
    (Fleet.v): a module writes only to the blocks it owns, and takes new ones
    only from the allocator.  The modules that keep nothing on the heap make
    the promise by the structure of their code ([heapless]); the one-byte
    device makes it for its block. *)

From stdpp Require Import base gmap list numbers list_numbers strings relations.
From Stdlib Require Import ZArith Lia.
From S2P Require Import Prelude Kernel Lifecycle Uaccess Libfs Chardev SimAcc ProcBuf Sysfs SeqTasks Usb Hooks Input Inet Netfilter Netlink Debugfs.

(** ** What a handler does to the heap *)

(** From [w], where the module owns the blocks [B], to [w'], where it owns
    [B']: other blocks are left alone, and new ones come from the allocator. *)
Definition grows {G} (B : list Z) (w : world G) (B' : list Z) (w' : world G) : Prop :=
  brk w <= brk w' /\
  (forall p, p < brk w -> p ∉ B -> heap w' !! p = heap w !! p) /\
  (forall p, p ∈ B' -> p ∈ B \/ brk w <= p < brk w').

Definition heapless {G A} (c : K G A) : Prop :=
  forall w o w', c w = (o, w') -> heap w' = heap w /\ brk w' = brk w.

Lemma heapless_grows {G A} (c : K G A) w o w' :
  heapless c -> c w = (o, w') -> grows [] w [] w'.
Proof.
  intros Hc E. destruct (Hc _ _ _ E) as [Hh Hb]. unfold grows. rewrite Hh, Hb.
  split; [lia|]. split; [done|]. intros p Hp. by apply not_elem_of_nil in Hp.
Qed.

Section Heapless.
Context {G : Type} {ENV : Env}.

Lemma heapless_bind {A B} (c : K G A) (k : A -> K G B) :
  heapless c -> (forall a, heapless (k a)) -> heapless (c ≫= k).
Proof.
  intros Hc Hk w o w' H. unfold mbind, K_bind in H. destruct (c w) as [[a|e] w1] eqn:E.
  - destruct (Hc _ _ _ E) as [<- <-]. by apply (Hk a _ _ _ H).
  - simplify_eq. by apply (Hc _ _ _ E).
Qed.

Lemma heapless_same {A} (c : K G A) :
  (forall w, heap (c w).2 = heap w /\ brk (c w).2 = brk w) -> heapless c.
Proof. intros H w o w' E. specialize (H w). by rewrite E in H. Qed.

Lemma heapless_of_option {A} e (o : option A) : heapless (of_option (S := G) e o).
Proof. apply heapless_same. by destruct o. Qed.
End Heapless.

Create HintDb heapless.
#[export] Hint Extern 1 (heapless (mret _)) => apply heapless_same; done : heapless.
#[export] Hint Extern 1 (heapless get) => apply heapless_same; done : heapless.
#[export] Hint Extern 1 (heapless (put _)) => apply heapless_same; done : heapless.
#[export] Hint Extern 1 (heapless (modify _)) => apply heapless_same; done : heapless.
#[export] Hint Extern 1 (heapless (call _)) => apply heapless_same; done : heapless.
#[export] Hint Extern 1 (heapless (docall _)) => apply heapless_same; done : heapless.
#[export] Hint Extern 1 (heapless (printk _ _)) => apply heapless_same; done : heapless.
#[export] Hint Extern 1 (heapless (oops _)) => apply heapless_same; done : heapless.
#[export] Hint Extern 1 (heapless (fetch_user _ _)) => apply heapless_same; done : heapless.
#[export] Hint Extern 1 (heapless (read_buffer _ _ _ _)) => apply heapless_same; done : heapless.
#[export] Hint Extern 1 (heapless (write_buffer _ _ _ _ _)) => apply heapless_same; done : heapless.
#[export] Hint Extern 3 (heapless (fun w => (_, w))) => apply heapless_same; done : heapless.
#[export] Hint Extern 2 (heapless (if ?b then _ else _)) => destruct b : heapless.
#[export] Hint Extern 2 (heapless (match ?o with Some _ => _ | None => _ end)) => destruct o : heapless.
#[export] Hint Resolve heapless_bind heapless_of_option : heapless.

(** ** The promise *)

Class LocalModule {G O} (m : kmodule G O) `{!CleanModule m} := {
  owned : G -> list Z;
  local_inv w w' :
    clean_inv w -> glob w' = glob w ->
    (forall p, p ∈ owned (glob w) -> heap w' !! p = heap w !! p) -> clean_inv w';
  local_init w r w' :
    wf_world w -> glob w = mod_static m -> mod_init m w = (Done r, w') ->
    grows [] w (if r =? 0 then owned (glob w') else []) w';
  local_exit w w' :
    wf_world w -> clean_inv w -> mod_exit m w = (Done tt, w') -> grows (owned (glob w)) w [] w';
  local_op w o r w' :
    wf_world w -> clean_inv w -> mod_op m o w = (Done r, w') ->
    grows (owned (glob w)) w (owned (glob w')) w';
}.

Section One.
Context {G O : Type} (m : kmodule G O) `{!CleanModule m, !LocalModule m}.

(** What a module owns, which is nothing while it is not loaded. *)
Definition blocks_of (s : machine G) : list Z := if loaded s then owned (glob (wld s)) else [].

Lemma mstep_grows L s s' :
  clean_state m L s -> mstep m s s' -> grows (blocks_of s) (wld s) (blocks_of s') (wld s').
Proof.
  intros [Hwf Hs] H. destruct H as [w r w' H|w w' H|w o r w' H]; unfold blocks_of; simpl in *.
  - exact (local_init _ _ _ (Hwf : wf_world (with_glob (mod_static m) w)) eq_refl H).
  - destruct Hs. by apply local_exit.
  - destruct Hs. by apply (local_op w o r w').
Qed.
End One.

(** ** The modules that keep the promise *)

Section Instances.
Context {ENV : Env} {UA : Uaccess} {FS : Libfs} {UC : UsbCore}.

(** A module without blocks. *)
Lemma heapless_local {G O} (m : kmodule G O) `{!CleanModule m} :
  (forall w w' : world G, clean_inv w -> glob w' = glob w -> clean_inv w') ->
  heapless (mod_init m) -> heapless (mod_exit m) -> (forall o, heapless (mod_op m o)) ->
  LocalModule m.
Proof.
  intros Hinv Hi He Ho. refine (Build_LocalModule _ _ m _ (fun _ => []) _ _ _ _).
  - intros w w' H Hg _. by apply (Hinv w).
  - intros w r w' _ _ E. destruct (r =? 0); exact (heapless_grows _ _ _ _ Hi E).
  - intros w w' _ _ E. exact (heapless_grows _ _ _ _ He E).
  - intros w o r w' _ _ E. exact (heapless_grows _ _ _ _ (Ho o) E).
Defined.

#[global] Instance procfs_local : LocalModule procfs_module.
Proof.
  apply heapless_local; [done|..]; cbn [procfs_module mod_init mod_exit mod_op].
  - unfold Procfs.procexample_module_init. auto 20 with heapless.
  - unfold Procfs.procexample_module_exit. auto 20 with heapless.
  - intros [|]; cbn [procfs_op]; unfold Procfs.my_read, Procfs.my_write; auto 30 with heapless.
Defined.

#[global] Instance misc_local : LocalModule misc_module.
Proof.
  apply heapless_local; [done|..]; cbn [misc_module mod_init mod_exit mod_op].
  - unfold MiscDev.task1_init. auto 20 with heapless.
  - unfold MiscDev.task1_exit. auto 20 with heapless.
  - intros [|]; cbn [misc_op]; unfold MiscDev.my_read, MiscDev.my_write; auto 30 with heapless.
Defined.

#[global] Instance simacc_local p c : LocalModule (simacc_module p c).
Proof.
  apply heapless_local; [done|..]; cbn [simacc_module mod_init mod_exit mod_op].
  - unfold init_simacc. auto 30 with heapless.
  - unfold cleanup_simacc. auto 20 with heapless.
  - intros [|buffer count]; cbn [simacc_op]; unfold simacc_read, simacc_write; auto 40 with heapless.
Defined.

#[global] Instance usb_local : LocalModule usb_module.
Proof.
  apply heapless_local; [done|..]; cbn [usb_module mod_init mod_exit mod_op].
  - unfold pen_init. auto 20 with heapless.
  - unfold pen_exit. auto 20 with heapless.
  - intros d. unfold plug, pen_probe, pen_disconnect. auto 20 with heapless.
Defined.

#[global] Instance kobjects_local : LocalModule kobjects_module.
Proof.
  apply heapless_local; cbn [kobjects_module mod_init mod_exit mod_op].
  - intros w w' H Hg. cbn in *. unfold kobjects_inv. by rewrite Hg.
  - unfold Kobjects.example_init. auto 20 with heapless.
  - unfold Kobjects.example_exit. auto 20 with heapless.
  - intros [| |name|name buf count]; cbn [kobjects_op];
      unfold Kobjects.foo_show, Kobjects.foo_store, Kobjects.b_show, Kobjects.b_store, show_text;
      auto 30 with heapless.
Defined.

#[global] Instance seq_local hs cur : LocalModule (seq_module hs cur).
Proof.
  apply heapless_local; [done|..]; cbn [seq_module mod_init mod_exit mod_op].
  - unfold procexample_module_init. auto 20 with heapless.
  - unfold procexample_module_exit. auto 20 with heapless.
  - intros []; cbn [seq_op]; unfold my_start, my_next, my_show, my_stop, list_head; auto 30 with heapless.
Defined.

#[global] Instance keyboard_local : LocalModule keyboard_module.
Proof.
  apply heapless_local; [done|..]; cbn [keyboard_module mod_init mod_exit mod_op].
  - unfold Keyboard.keybrd_int_register. auto 20 with heapless.
  - unfold Keyboard.keybrd_int_unregister. auto 20 with heapless.
  - intros o. unfold Keyboard.irq_handler. auto 30 with heapless.
Defined.

#[global] Instance netlink_local {PF : PutFits} : LocalModule netlink_module.
Proof.
  apply heapless_local; [done|..]; cbn [netlink_module mod_init mod_exit mod_op].
  - unfold hello_init. auto 20 with heapless.
  - unfold hello_exit. auto 20 with heapless.
  - intros m. unfold hello_nl_recv_msg. auto 40 with heapless.
Defined.

#[global] Instance filter_local {HR : HooksRegister} : LocalModule filter_module.
Proof.
  apply heapless_local; [done|..]; cbn [filter_module mod_init mod_exit mod_op].
  - unfold PacketFilter.init_module. auto 20 with heapless.
  - unfold PacketFilter.cleanup_module. auto 20 with heapless.
  - intros p. unfold PacketFilter.hook_func. auto 20 with heapless.
Defined.

#[global] Instance block_local {FMT : FormatIPv4} {HR : HooksRegister} : LocalModule block_module.
Proof.
  apply heapless_local; [done|..]; cbn [block_module mod_init mod_exit mod_op].
  - unfold BlockProtocol.init_packet. auto 20 with heapless.
  - unfold BlockProtocol.cleanup_packet. auto 20 with heapless.
  - intros p. unfold BlockProtocol.hook_func. auto 20 with heapless.
Defined.

#[global] Instance hello_local {HR : HooksRegister} : LocalModule hello_module.
Proof.
  apply heapless_local; [done|..]; cbn [hello_module mod_init mod_exit mod_op].
  - unfold HelloPacket.hello_init, HelloPacket.init_filter_if. auto 20 with heapless.
  - unfold HelloPacket.hello_cleanup. auto 20 with heapless.
  - intros p. unfold HelloPacket.my_hook. auto 20 with heapless.
Defined.

#[global] Instance basic_local {ROOM : DebugfsRoom} : LocalModule basic_module.
Proof.
  apply heapless_local; cbn [basic_module mod_init mod_exit mod_op].
  - intros w w' H Hg. cbn in *. by rewrite Hg.
  - unfold Basic.my_debugfs_init. auto 30 with heapless.
  - unfold Basic.module_cleanup. auto 20 with heapless.
  - intros v. unfold Basic.add_write. auto 20 with heapless.
Defined.

#[global] Instance jiffies_local {ROOM : DebugfsRoom} : LocalModule jiffies_module.
Proof.
  apply heapless_local; cbn [jiffies_module mod_init mod_exit mod_op].
  - intros w w' H Hg. cbn in *. by rewrite Hg.
  - unfold Jiffies.jiffies_init. auto 30 with heapless.
  - unfold Jiffies.jiffies_exit. auto 20 with heapless.
  - intros [].
Defined.

(** The device owns its byte. *)
Lemma memory_init_grows w r w' :
  wf_world w -> memory_init w = (Done r, w') ->
  grows [] w (if r =? 0 then [memory_buffer (glob w')] else []) w'.
Proof.
  intros [Hbrk Hwf]. unfold memory_init. krun. set (res := kret (log w) _).
  destruct (Z.ltb_spec res 0) as [Hr|Hr]; krun.
  { intros [= <- <-]. rewrite (proj2 (Z.eqb_neq res 0)) by lia.
    split; [done|]. split; [done|]. intros p Hp. by apply not_elem_of_nil in Hp. }
  destruct (decide (kret (log (with_event (RegisterChrdev memory_major "memory", res) w))
                      (Kmalloc 1) = 0)) as [Hk|Hk].
  { kstep run_kmalloc_null. krun. unfold memory_exit. krun. intros [= <- <-].
    split; [done|]. split; [done|]. intros p Hp. by apply not_elem_of_nil in Hp. }
  kstep run_kmalloc_ok. krun. rewrite (proj2 (Z.eqb_neq (brk w) 0)) by lia.
  erewrite bind_done; [|eapply run_store; [lia|apply lookup_insert_eq|done]]. krun. intros [= <- <-].
  split; [cbn; lia|]. split.
  - intros p Hp _. cbn. by rewrite !lookup_insert_ne by lia.
  - intros p ->%list_elem_of_singleton. cbn. lia.
Qed.

Lemma memory_exit_grows w w' :
  memory_inv w -> memory_exit w = (Done tt, w') -> grows [memory_buffer (glob w)] w [] w'.
Proof.
  intros [Hp [b Hb]]. unfold memory_exit. krun. rewrite (proj2 (Z.eqb_neq _ _) Hp). cbn [negb].
  kstep run_kfree. krun. intros [= <-]. split; [done|]. split.
  - intros p _ Hne. cbn. apply lookup_delete_ne. set_solver.
  - intros p H. by apply not_elem_of_nil in H.
Qed.

Lemma memory_op_grows w o r w' :
  memory_inv w -> memory_op o w = (Done r, w') ->
  grows [memory_buffer (glob w)] w [memory_buffer (glob w')] w'.
Proof.
  intros Hi. destruct o as [| |buf count pos|buf count pos]; cbn [memory_op].
  - intros [= <- <-]. split; [done|]. split; [done|]. by left.
  - intros [= <- <-]. split; [done|]. split; [done|]. by left.
  - destruct Hi as [Hp [b Hb]]. destruct (memory_read_run w b buf count pos Hp Hb) as (m & E & _).
    rewrite (bind_done _ _ _ _ _ E), run_ret. intros [= <- <-].
    split; [done|]. split; [done|]. by left.
  - destruct (memory_write_run w buf count pos Hi) as (b & E & _). rewrite E. intros [= <- <-].
    split; [done|]. split; [|by left]. intros p _ Hne. cbn. apply lookup_insert_ne. set_solver.
Qed.

#[global] Instance memory_local : LocalModule memory_module.
Proof.
  refine (Build_LocalModule _ _ memory_module _ (fun g => [memory_buffer g]) _ _ _ _).
  - intros w w' [Hp [b Hb]] Hg Hh. split; [by rewrite Hg|]. exists b. rewrite Hg, Hh by set_solver. done.
  - intros w r w' Hwf _. by apply memory_init_grows.
  - intros w w' _. apply memory_exit_grows.
  - intros w o r w' _. apply memory_op_grows.
Defined.
End Instances.
