(* ===== verification/SysfsPage.v ===== *)
(** * The life cycle of src/sysfs_example.c

    The module keeps the text of one attribute in a page of its own, taken
    when it is loaded and freed when it is unloaded.  Provided the directory
    and its files can be made (when they cannot, the page is lost, Sysfs.v),
    the module is clean, and it writes to no memory but its page. *)

From stdpp Require Import base gmap list numbers list_numbers strings relations.
From Stdlib Require Import ZArith Lia.
From S2P Require Import Prelude Kernel Lifecycle Sysfs Together.

(** The kernel makes directories and files in sysfs. *)
Class SysfsRoom {ENV : Env} := {
  room_kobj tr n : kret tr (KobjectCreateAndAdd n) <> 0;
  room_group tr k : kret tr (SysfsCreateGroup k) = 0;
}.

#[global] Instance calm_sysfs : SysfsRoom (ENV := calm).
Proof. by split. Qed.

(** The calls sysfs makes for the three attributes. *)
Inductive page_call :=
| IdShow | IdStore (buf : list Z) (count : Z)
| JiffiesShow (jiffies : Z)
| PageShow | PageStore (buf : list Z) (count : Z).

Section Module.
Context {ENV : Env}.
Implicit Types w : world Example.state.

Definition example_op (c : page_call) : K Example.state Z :=
  match c with
  | IdShow => r ← Example.id_show; mret r.1
  | IdStore buf count => Example.id_store buf count
  | JiffiesShow jiffies => r ← Example.jiffies_show jiffies; mret r.1
  | PageShow => r ← Example.foo_show; mret r.1
  | PageStore buf count => Example.foo_store buf count
  end.

Definition example_module : kmodule Example.state page_call :=
  KModule Example.static Example.my_sysfs_init Example.my_sysfs_exit example_op.

Definition example_res (g : Example.state) : list resource :=
  [RMem (Example.my_page_buffer g); RKobj (Example.my_sysfs_kobj g)].

(** The page is there, and the directory. *)
Definition example_inv w : Prop :=
  Example.my_page_buffer (glob w) <> 0 /\ is_Some (heap w !! Example.my_page_buffer (glob w)) /\
  Example.my_sysfs_kobj (glob w) <> 0.

(** What an attribute function may do: change the page's contents and the
    text buffer, and log. *)
Definition page_only w w' : Prop :=
  brk w' = brk w /\ Example.my_page_buffer (glob w') = Example.my_page_buffer (glob w) /\
  Example.my_sysfs_kobj (glob w') = Example.my_sysfs_kobj (glob w) /\
  (is_Some (heap w !! Example.my_page_buffer (glob w)) -> is_Some (heap w' !! Example.my_page_buffer (glob w))) /\
  (forall p, p <> Example.my_page_buffer (glob w) -> heap w' !! p = heap w !! p) /\
  (forall L, holds (log w) L -> holds (log w') L).

#[local] Instance page_only_refl : Reflexive page_only.
Proof. intros w. by split_and!. Qed.

#[local] Instance page_only_trans : Transitive page_only.
Proof.
  intros w1 w2 w3 (Hb & Hp & Hk & Hs & Hf & Hh) (Hb' & Hp' & Hk' & Hs' & Hf' & Hh'). rewrite Hp in *.
  split_and!; [congruence..|auto| |auto]. intros p Hne. by rewrite Hf', Hf.
Qed.

(** A computation all of whose runs do that. *)
Definition gentle {A} (c : K Example.state A) : Prop :=
  forall w a w', c w = (Done a, w') -> page_only w w'.

Lemma gentle_bind {A B} (c : K Example.state A) (k : A -> K Example.state B) :
  gentle c -> (forall a, gentle (k a)) -> gentle (c ≫= k).
Proof.
  intros Hc Hk w b w' H. unfold mbind, K_bind in H. destruct (c w) as [[a|e] w1] eqn:E; [|done].
  transitivity w1; [by apply (Hc _ a)|by apply (Hk a _ b)].
Qed.

Lemma gentle_same {A} (c : K Example.state A) : (forall w, (c w).2 = w) -> gentle c.
Proof. intros H w a w' E. specialize (H w). rewrite E in H. cbn in H. by subst. Qed.

Lemma gentle_of_option {A} e (o : option A) : gentle (of_option e o).
Proof. apply gentle_same. by destruct o. Qed.

Lemma gentle_docall c : effect_of (c, 0) = Nothing -> gentle (docall c).
Proof. intros Hc w a w' [= _ <-]. split_and!; try done. intros L. by apply holds_nothing. Qed.

Lemma gentle_block p : gentle (block p).
Proof. apply gentle_same. intros w. unfold block. destruct (p =? 0); [done|]. by destruct (heap w !! p). Qed.

Lemma gentle_kern_buff b : gentle (modify (Example.set_kern_buff b)).
Proof. intros w a w' [= _ <-]. by split_and!. Qed.

(** Writing the page. *)
Lemma gentle_set_page {A} (k : Example.state -> K Example.state A) vs :
  (forall g, gentle (k g)) -> gentle (g ← get; stores (Example.my_page_buffer g) 0 vs;; k g).
Proof.
  intros Hk w a w' H. rewrite bind_get in H. unfold mbind at 1, K_bind at 1 in H.
  destruct (stores _ 0 vs w) as [[[]|e] w1] eqn:E; [|done]. transitivity w1; [|by apply (Hk (glob w) _ a)].
  unfold stores, mbind, K_bind in E. destruct (block _ w) as [[b|e] w0] eqn:Eb; [|done].
  assert (w0 = w) as -> by (unfold block in Eb; repeat case_match; by simplify_eq).
  destruct (asets b 0 vs) as [b'|]; [|done]. cbn in E. injection E as <-. split_and!; try done.
  - intros _. cbn. rewrite lookup_insert_eq. by eexists.
  - intros p Hne. by apply lookup_insert_ne.
Qed.
End Module.

Create HintDb gentle.
#[local] Hint Extern 1 (gentle (mret _)) => apply gentle_same; done : gentle.
#[local] Hint Extern 1 (gentle get) => apply gentle_same; done : gentle.
#[local] Hint Extern 1 (gentle (oops _)) => apply gentle_same; done : gentle.
#[local] Hint Extern 1 (gentle (docall _)) => apply gentle_docall; done : gentle.
#[local] Hint Extern 1 (gentle (printk _ _)) => apply gentle_docall; done : gentle.
#[local] Hint Extern 2 (gentle (if ?b then _ else _)) => destruct b : gentle.
#[local] Hint Extern 2 (gentle (match ?o with Some _ => _ | None => _ end)) => destruct o : gentle.
#[local] Hint Resolve gentle_bind gentle_of_option gentle_block gentle_kern_buff : gentle.

Section Clean.
Context {ENV : Env} {ROOM : SysfsRoom}.
Implicit Types w : world Example.state.

Lemma example_op_gentle c : gentle (example_op c).
Proof.
  destruct c as [|buf count|j| |buf count]; cbn [example_op].
  - unfold Example.id_show, show_text. auto 20 with gentle.
  - unfold Example.id_store. auto 20 with gentle.
  - unfold Example.jiffies_show, show_text. auto 20 with gentle.
  - unfold Example.foo_show, Example.heap_str, show_text. auto 20 with gentle.
  - unfold Example.foo_store. apply gentle_bind; [auto with gentle|]. intros _. apply gentle_set_page.
    intros g. unfold Example.heap_str. auto 20 with gentle.
Qed.

(** A load either takes nothing or the page and the directory. *)
Lemma example_init_run w :
  wf_world w ->
  exists r w', Example.my_sysfs_init w = (Done r, w') /\ wf_world w' /\
    grows [] w (if r =? 0 then [Example.my_page_buffer (glob w')] else []) w' /\
    if r =? 0 then example_inv w' /\ forall L, holds (log w) L -> holds (log w') (example_res (glob w') ++ L)
    else forall L, holds (log w) L -> holds (log w') L.
Proof.
  intros [Hbrk Hwf]. unfold Example.my_sysfs_init.
  destruct (decide (kret (log w) (Kmalloc PAGE_SIZE) = 0)) as [Hk|Hk].
  { kstep run_kmalloc_null. krun. eexists _, _. split; [reflexivity|]. split; [done|]. cbn [Z.eqb Z.opp ENOMEM].
    split; [|intros L HL; ledger_auto]. split; [done|]. split; [done|]. by intros p ?%not_elem_of_nil. }
  kstep run_kmalloc_ok. krun. rewrite (proj2 (Z.eqb_neq (brk w) 0)) by lia. krun.
  set (k := kret _ (KobjectCreateAndAdd _)). pose proof (room_kobj _ _ : k <> 0) as Hk0.
  rewrite (proj2 (Z.eqb_neq k 0) Hk0). krun. rewrite room_group. cbn [Z.eqb negb]. krun.
  eexists _, _. split; [reflexivity|]. unfold example_inv, example_res, grows.
  cbn [Z.eqb glob with_event with_glob with_heap with_brk heap brk Example.my_page_buffer
    Example.my_sysfs_kobj Example.set_kobj Example.set_page log].
  split_and!; try lia; try done.
  - split; [cbn; lia|]. intros p b. cbn. rewrite lookup_insert_Some. intros [[<- _]|[_ H%Hwf]]; lia.
  - intros p Hp _. by rewrite lookup_insert_ne by lia.
  - intros p ->%list_elem_of_singleton. lia.
  - rewrite lookup_insert_eq. by eexists.
  - intros L HL. cbn [app]. ledger_auto.
Qed.

#[global] Instance example_clean : CleanModule example_module.
Proof.
  refine (Build_CleanModule _ _ example_module example_res example_inv _ _ _).
  - intros w L Hwf _ Hh. destruct (example_init_run w Hwf) as (r & w' & E & Hwf' & _ & H).
    exists r, w'. split; [done|]. split; [done|]. destruct (r =? 0); [|auto]. destruct H. auto.
  - intros w L Hwf (Hp & [b Hb] & Hk) Hh. cbn [example_module mod_exit]. unfold Example.my_sysfs_exit. krun.
    rewrite (bind_done _ _ _ _ _ (run_kfree _ b _ Hp Hb)). krun.
    eexists. split; [reflexivity|]. split.
    + split; [apply Hwf|]. intros p c. cbn. rewrite lookup_delete_Some. intros [_ H]. by apply Hwf in H.
    + unfold example_res in Hh. ledger_auto.
  - intros w c r w' L Hwf (Hp & Hb & Hk) H Hh. apply (example_op_gentle c) in H as (Hbrk & Hpage & Hkobj & Hs & Hf & Hl).
    unfold example_inv, example_res in *. rewrite Hpage, Hkobj. split_and!; auto.
    split; [rewrite Hbrk; apply Hwf|]. intros p c' Hc. rewrite Hbrk.
    destruct (decide (p = Example.my_page_buffer (glob w))) as [->|Hne].
    + destruct Hb as [b Hb]. by apply Hwf in Hb.
    + rewrite Hf in Hc by done. by apply Hwf in Hc.
Defined.

#[global] Instance example_local : LocalModule example_module.
Proof.
  refine (Build_LocalModule _ _ example_module _ (fun g => [Example.my_page_buffer g]) _ _ _ _).
  - intros w w' (Hp & Hb & Hk) Hg Hh. unfold clean_inv, example_clean, example_inv. rewrite Hg.
    rewrite Hh by set_solver. done.
  - intros w r w' Hwf _ H. destruct (example_init_run w Hwf) as (r' & w1 & E & _ & Hg & _).
    cbn [example_module mod_init] in H. rewrite E in H. by simplify_eq.
  - intros w w' _ (Hp & [b Hb] & Hk). cbn [example_module mod_exit]. unfold Example.my_sysfs_exit. krun.
    rewrite (bind_done _ _ _ _ _ (run_kfree _ b _ Hp Hb)). krun. intros [= <-]. split; [done|]. split.
    + intros p _ Hne. cbn. apply lookup_delete_ne. set_solver.
    + by intros p ?%not_elem_of_nil.
  - intros w c r w' _ (Hp & Hb & Hk) H. apply (example_op_gentle c) in H as (Hbrk & Hpage & Hkobj & _ & Hf & _).
    rewrite Hpage. split; [lia|]. split; [|auto]. intros p _ Hne. apply Hf. set_solver.
Defined.
End Clean.
