(* ===== verification/Fleet.v ===== *)
(** * Any number of modules on one machine

    A [system] is a set of modules with the loader's view of which of them
    are loaded.  One module is a system ([alone]), and two systems beside
    each other are one ([beside]): they share the kernel, and a step of the
    whole is a step of one of them.  [CleanSystem] is what a system promises,
    and [beside] keeps the promise, so that what Lifecycle.v shows of one
    module holds of any number of them: the machine holds exactly what the
    loaded modules hold, and each of them can be unloaded at any time. *)

From stdpp Require Import base gmap list numbers list_numbers strings relations.
From Stdlib Require Import ZArith Lia.
From S2P Require Import Prelude Kernel Lifecycle Uaccess Libfs Chardev SimAcc ProcBuf Sysfs SeqTasks Usb Hooks Input Inet Netfilter Netlink Debugfs Together SysfsPage.

(** ** Systems *)

(** [X]: which modules are loaded; [G]: their globals; [I]: their names. *)
Record system (X G I : Type) := System {
  sys_none : X;
  sys_step : X * world G -> X * world G -> Prop;
  sys_loaded : X -> I -> bool;
  sys_without : X -> I -> X;
  sys_exit : I -> K G unit;
}.
Arguments System {X G I} _ _ _ _ _.
Arguments sys_none {X G I} _.
Arguments sys_step {X G I} _ _ _.
Arguments sys_loaded {X G I} _ _ _.
Arguments sys_without {X G I} _ _ _.
Arguments sys_exit {X G I} _ _.

(** A single module, with the loader of Lifecycle.v. *)
Definition alone {G O} (m : kmodule G O) : system bool G unit :=
  System false (fun s s' => mstep m (Machine s.1 s.2) (Machine s'.1 s'.2))
    (fun x _ => x) (fun _ _ => false) (fun _ => mod_exit m).

(** Two systems on one kernel. *)
Inductive beside_step {X1 G1 I1 X2 G2 I2} (Y1 : system X1 G1 I1) (Y2 : system X2 G2 I2) :
    (X1 * X2) * world (G1 * G2) -> (X1 * X2) * world (G1 * G2) -> Prop :=
| step_left x1 x2 w x1' w1 :
    sys_step Y1 (x1, wfst w) (x1', w1) ->
    beside_step Y1 Y2 ((x1, x2), w) ((x1', x2), pair_fst w1 (glob w).2)
| step_right x1 x2 w x2' w2 :
    sys_step Y2 (x2, wsnd w) (x2', w2) ->
    beside_step Y1 Y2 ((x1, x2), w) ((x1, x2'), pair_snd (glob w).1 w2).

Definition beside {X1 G1 I1 X2 G2 I2} (Y1 : system X1 G1 I1) (Y2 : system X2 G2 I2) :
    system (X1 * X2) (G1 * G2) (I1 + I2) :=
  System (sys_none Y1, sys_none Y2) (beside_step Y1 Y2)
    (fun x i => match i with inl i => sys_loaded Y1 x.1 i | inr i => sys_loaded Y2 x.2 i end)
    (fun x i => match i with
                | inl i => (sys_without Y1 x.1 i, x.2)
                | inr i => (x.1, sys_without Y2 x.2 i)
                end)
    (fun i => match i with inl i => on_fst (sys_exit Y1 i) | inr i => on_snd (sys_exit Y2 i) end).

(** ** The promise *)

Section Promise.
Context {X G : Type} (inv : X -> world G -> Prop) (blocks : X -> G -> list Z) (res : X -> G -> list resource).

(** A state in which the system holds its resources besides [L], and its
    blocks come from the allocator. *)
Definition sys_ok (L : list resource) (x : X) (w : world G) : Prop :=
  wf_world w /\ inv x w /\ (forall p, p ∈ blocks x (glob w) -> p < brk w) /\
  holds (log w) (res x (glob w) ++ L).
End Promise.

Class CleanSystem {X G I} (Y : system X G I) := {
  sys_inv : X -> world G -> Prop;
  sys_blocks : X -> G -> list Z;
  sys_res : X -> G -> list resource;
  (** Nothing is loaded: the system owns and holds nothing. *)
  sys_none_inv w : sys_inv (sys_none Y) w;
  sys_none_blocks g : sys_blocks (sys_none Y) g = [];
  sys_none_res g : sys_res (sys_none Y) g = [];
  (** The invariant speaks only of the system's globals and blocks. *)
  sys_local x w w' :
    sys_inv x w -> glob w' = glob w ->
    (forall p, p ∈ sys_blocks x (glob w) -> heap w' !! p = heap w !! p) -> sys_inv x w';
  (** A step keeps it, accounts for what it takes and gives back, and leaves
      other blocks alone. *)
  sys_clean L x w x' w' :
    sys_ok sys_inv sys_blocks sys_res L x w -> sys_step Y (x, w) (x', w') ->
    wf_world w' /\ sys_inv x' w' /\ holds (log w') (sys_res x' (glob w') ++ L) /\
    grows (sys_blocks x (glob w)) w (sys_blocks x' (glob w')) w';
  (** Every loaded module can be unloaded. *)
  sys_unload L x w i :
    sys_ok sys_inv sys_blocks sys_res L x w -> sys_loaded Y x i = true ->
    exists w', sys_exit Y i w = (Done tt, w') /\ sys_step Y (x, w) (sys_without Y x i, w');
}.

Abbreviation good Y := (sys_ok (sys_inv (Y := Y)) (sys_blocks (Y := Y)) (sys_res (Y := Y))).

Section System.
Context {X G I : Type} (Y : system X G I) `{!CleanSystem Y}.

Lemma sys_start L w : wf_world w -> holds (log w) L -> good Y L (sys_none Y) w.
Proof.
  intros Hwf Hh. split_and!; [done|apply sys_none_inv| |by rewrite sys_none_res].
  intros p. rewrite sys_none_blocks. by intros ?%not_elem_of_nil.
Qed.

Lemma sys_clean_good L x w x' w' :
  good Y L x w -> sys_step Y (x, w) (x', w') -> good Y L x' w'.
Proof.
  intros Hok Hs. pose proof Hok as (_ & _ & Hb & _).
  destruct (sys_clean _ _ _ _ _ Hok Hs) as (Hwf & Hi & Hh & Hbrk & _ & Hnew).
  split_and!; [done..| |done]. intros p Hp. destruct (Hnew p Hp) as [Hold%Hb|]; lia.
Qed.

Lemma sys_reachable L s s' : rtc (sys_step Y) s s' -> good Y L s.1 s.2 -> good Y L s'.1 s'.2.
Proof.
  induction 1 as [|s [x1 w1] s2 H _ IH]; [done|]. destruct s as [x w]. intros Hok.
  apply IH. by apply (sys_clean_good _ x w).
Qed.

(** A clean system in every state the loader can reach. *)
Lemma system_lifecycle w0 L x w :
  wf_world w0 -> holds (log w0) L -> rtc (sys_step Y) (sys_none Y, w0) (x, w) ->
  holds (log w) (sys_res x (glob w) ++ L) /\
  forall i, sys_loaded Y x i = true ->
    exists w', sys_exit Y i w = (Done tt, w') /\
      holds (log w') (sys_res (sys_without Y x i) (glob w') ++ L).
Proof.
  intros Hwf Hh Hs. apply (sys_reachable L) in Hs; [|by apply sys_start]. cbn in Hs.
  split; [apply Hs|]. intros i Hi. destruct (sys_unload _ _ _ i Hs Hi) as (w' & E & Hstep).
  exists w'. split; [done|]. by apply (sys_clean_good _ _ _ _ _ Hs Hstep).
Qed.
End System.

(** ** One module *)

Section Alone.
Context {G O : Type} (m : kmodule G O) `{!CleanModule m, !LocalModule m}.

Lemma alone_state L x w :
  sys_ok (fun (x : bool) w => x = true -> clean_inv w)
    (fun (x : bool) g => if x then owned g else []) (fun (x : bool) g => if x then clean_res g else []) L x w ->
  clean_state m L (Machine x w).
Proof. intros (Hwf & Hi & _ & Hh). split; [done|]. cbn in *. destruct x; auto. Qed.

#[global] Instance alone_clean : CleanSystem (alone m).
Proof.
  refine (Build_CleanSystem _ _ _ (alone m) (fun x w => x = true -> clean_inv w)
    (fun x g => if x then owned g else []) (fun x g => if x then clean_res g else []) _ _ _ _ _ _);
    [done..| | |].
  - intros [] w w' Hi Hg Hp; [|done]. intros _. exact (local_inv w w' (Hi eq_refl) Hg Hp).
  - intros L x w x' w' Hok Hs. cbn in Hs. apply alone_state in Hok.
    pose proof (mstep_grows m _ _ _ Hok Hs) as Hg. destruct (mstep_clean m _ _ _ Hs Hok) as [Hwf Hc].
    destruct x'; cbn in Hc; [destruct Hc|]; by split_and!.
  - intros L x w [] Hok Hl. cbn in Hl. subst x. apply alone_state in Hok.
    destruct (clean_unload m _ _ Hok) as (w' & E & _). exists w'. split; [done|]. by apply step_rmmod.
Defined.
End Alone.

(** ** Two systems beside each other *)

Section Beside.
Context {X1 G1 I1 X2 G2 I2 : Type} (Y1 : system X1 G1 I1) (Y2 : system X2 G2 I2).
Context `{!CleanSystem Y1, !CleanSystem Y2}.
Implicit Types (x : X1 * X2) (w : world (G1 * G2)) (g : G1 * G2).

Definition beside_inv x w : Prop :=
  sys_inv x.1 (wfst w) /\ sys_inv x.2 (wsnd w) /\
  forall p, p ∈ sys_blocks x.1 (glob w).1 -> p ∉ sys_blocks x.2 (glob w).2.
Definition beside_blocks x g : list Z := sys_blocks x.1 g.1 ++ sys_blocks x.2 g.2.
Definition beside_res x g : list resource := sys_res x.1 g.1 ++ sys_res x.2 g.2.

Abbreviation good2 := (sys_ok beside_inv beside_blocks beside_res).

Lemma wf_world_any {G H} (v : world G) (v' : world H) :
  heap v' = heap v -> brk v' = brk v -> wf_world v -> wf_world v'.
Proof. unfold wf_world. by intros -> ->. Qed.

(** Each system sees the other's resources as part of what the machine holds. *)
Lemma good2_left L x w : good2 L x w -> good Y1 (sys_res x.2 (glob w).2 ++ L) x.1 (wfst w).
Proof.
  intros (Hwf & (H1 & _) & Hb & Hh). split_and!; [by eapply wf_world_any|done| |].
  - intros p Hp. apply Hb. unfold beside_blocks. set_solver.
  - unfold beside_res in Hh. by rewrite <- app_assoc in Hh.
Qed.

Lemma good2_right L x w : good2 L x w -> good Y2 (sys_res x.1 (glob w).1 ++ L) x.2 (wsnd w).
Proof.
  intros (Hwf & (_ & H2 & _) & Hb & Hh). split_and!; [by eapply wf_world_any|done| |].
  - intros p Hp. apply Hb. unfold beside_blocks. set_solver.
  - unfold beside_res in Hh. rewrite app_assoc, (Permutation_app_comm (sys_res x.2 _)). exact Hh.
Qed.

(** Blocks of the one that move while those of the other, which are below
    [brk], stay. *)
Lemma grows_disjoint {G} (B B' C : list Z) (w0 w1 : world G) :
  grows B w0 B' w1 -> (forall p, p ∈ C -> p < brk w0) -> (forall p, p ∈ B -> p ∉ C) ->
  (forall p, p ∈ B' -> p ∉ C) /\ (forall p, p ∈ C -> heap w1 !! p = heap w0 !! p).
Proof.
  intros (Hbrk & Hframe & Hnew) HC Hd. split.
  - intros p Hp HpC. destruct (Hnew p Hp) as [Hold|Hge]; [by apply (Hd p)|]. specialize (HC p HpC). lia.
  - intros p Hp. apply Hframe; [by apply HC|]. intros Hb. by apply (Hd p).
Qed.

Lemma grows_beside {G} (B B' C : list Z) (w0 w1 : world G) :
  grows B w0 B' w1 -> grows (B ++ C) w0 (B' ++ C) w1 /\ grows (C ++ B) w0 (C ++ B') w1.
Proof.
  intros (Hbrk & Hframe & Hnew).
  split; (split_and!; [done| |]); [intros p ? Hp; apply Hframe; set_solver| |
    intros p ? Hp; apply Hframe; set_solver|];
    intros p [Hp|Hp]%elem_of_app; try (left; set_solver); (destruct (Hnew p Hp); [left; set_solver|by right]).
Qed.

Lemma beside_step_clean L x w x' w' :
  good2 L x w -> beside_step Y1 Y2 (x, w) (x', w') ->
  wf_world w' /\ beside_inv x' w' /\ holds (log w') (beside_res x' (glob w') ++ L) /\
  grows (beside_blocks x (glob w)) w (beside_blocks x' (glob w')) w'.
Proof.
  intros Hok Hs. pose proof (good2_left _ _ _ Hok) as H1. pose proof (good2_right _ _ _ Hok) as H2.
  destruct Hok as (_ & (Hi1 & Hi2 & Hd) & _ & _). unfold beside_inv, beside_res, beside_blocks.
  inversion Hs as [x1 x2 w0 x1' w1 Hstep|x1 x2 w0 x2' w1 Hstep]; simplify_eq; cbn [fst snd] in *.
  - destruct (sys_clean _ _ _ _ _ H1 Hstep) as (Hwf & Hi & Hh & Hg).
    destruct (grows_disjoint _ _ _ _ _ Hg (proj1 (proj2 (proj2 H2))) Hd) as [Hd' Hkeep].
    split_and!.
    + by eapply wf_world_any.
    + by rewrite wfst_pair_fst.
    + by apply (sys_local _ (wsnd w)).
    + exact Hd'.
    + rewrite <- app_assoc. exact Hh.
    + exact (proj1 (grows_beside _ _ _ _ _ Hg)).
  - destruct (sys_clean _ _ _ _ _ H2 Hstep) as (Hwf & Hi & Hh & Hg).
    destruct (grows_disjoint _ _ (sys_blocks x1 (glob w).1) _ _ Hg (proj1 (proj2 (proj2 H1)))) as [Hd' Hkeep];
      [set_solver|].
    split_and!.
    + by eapply wf_world_any.
    + by apply (sys_local _ (wfst w)).
    + by rewrite wsnd_pair_snd.
    + cbn [glob pair_snd fst snd]. set_solver.
    + rewrite (Permutation_app_comm (sys_res x1 _)), <- app_assoc. exact Hh.
    + exact (proj2 (grows_beside _ _ _ _ _ Hg)).
Qed.

#[global] Instance beside_clean : CleanSystem (beside Y1 Y2).
Proof.
  refine (Build_CleanSystem _ _ _ (beside Y1 Y2) beside_inv beside_blocks beside_res _ _ _ _ beside_step_clean _).
  - intros w. split_and!; [apply sys_none_inv..|]. cbn. rewrite sys_none_blocks. by intros p ?%not_elem_of_nil.
  - intros g. unfold beside_blocks. cbn. by rewrite !sys_none_blocks.
  - intros g. unfold beside_res. cbn. by rewrite !sys_none_res.
  - intros x w w' (H1 & H2 & Hd) Hg Hp. split_and!.
    + apply (sys_local _ (wfst w)); [done|cbn; by rewrite Hg|]. intros p Hin. apply Hp. unfold beside_blocks. set_solver.
    + apply (sys_local _ (wsnd w)); [done|cbn; by rewrite Hg|]. intros p Hin. apply Hp. unfold beside_blocks. set_solver.
    + by rewrite Hg.
  - intros L [x1 x2] w [i|i] Hok Hl; cbn in Hl.
    + destruct (sys_unload _ _ _ i (good2_left _ _ _ Hok) Hl) as (w' & E & Hs).
      eexists. split; [apply run_on_fst; exact E|]. by apply step_left.
    + destruct (sys_unload _ _ _ i (good2_right _ _ _ Hok) Hl) as (w' & E & Hs).
      eexists. split; [apply run_on_snd; exact E|]. by apply step_right.
Defined.
End Beside.

(** Whatever the systems beside it do, a system keeps its globals and the
    contents of its blocks. *)
Section Keeps.
Context {X1 G1 I1 X2 G2 I2 : Type} (Y1 : system X1 G1 I1) (Y2 : system X2 G2 I2).
Context `{!CleanSystem Y1, !CleanSystem Y2}.

(** Steps of the second system only. *)
Inductive right_step : (X1 * X2) * world (G1 * G2) -> (X1 * X2) * world (G1 * G2) -> Prop :=
| right_only x1 x2 w x2' w2 :
    sys_step Y2 (x2, wsnd w) (x2', w2) ->
    right_step ((x1, x2), w) ((x1, x2'), pair_snd (glob w).1 w2).

Lemma right_keeps_left L s s' :
  rtc right_step s s' -> good (beside Y1 Y2) L s.1 s.2 ->
  good (beside Y1 Y2) L s'.1 s'.2 /\ s'.1.1 = s.1.1 /\ (glob s'.2).1 = (glob s.2).1 /\
  forall p, p ∈ sys_blocks s.1.1 (glob s.2).1 -> heap s'.2 !! p = heap s.2 !! p.
Proof.
  induction 1 as [s|s s1 s2 H _ IH]; intros Hok; [done|]. destruct H as [x1 x2 w x2' w2 H].
  assert (Hok1 : good (beside Y1 Y2) L (x1, x2') (pair_snd (glob w).1 w2))
    by (eapply (sys_clean_good _ L (x1, x2) w); [exact Hok|by apply step_right]).
  destruct (IH Hok1) as (Hok2 & Hx & Hg & Hp). clear IH. cbn [fst snd] in *.
  destruct (sys_clean _ _ _ _ _ (good2_right _ _ _ _ _ Hok) H) as (_ & _ & _ & Hgr).
  destruct (grows_disjoint _ _ (sys_blocks x1 (glob w).1) _ _ Hgr) as [_ Hkeep].
  - apply (good2_left _ _ _ _ _ Hok).
  - destruct Hok as (_ & (_ & _ & Hd) & _). cbn in Hd. set_solver.
  - split_and!; [done..|]. intros p Hin. rewrite Hp by exact Hin. by apply Hkeep.
Qed.
End Keeps.

Declare Scope fleet_scope.
Infix "⊠" := beside (at level 60, right associativity) : fleet_scope.
Local Open Scope fleet_scope.

(** ** The repository's modules on one machine *)

Section Modules.
Context {ENV : Env} {UA : Uaccess} {FS : Libfs} {UC : UsbCore} {FMT : FormatIPv4}.

(** The kernel's task list, which the sequence file walks, and the process
    that loads modules. *)
Context (hs : gmap Z (Z * task)) (cur : Z) (pid : Z) (comm : list Z).

(** The modules that are clean whatever the kernel answers ... *)
Definition sturdy := alone memory_module ⊠ alone misc_module ⊠ alone kobjects_module ⊠
  alone usb_module ⊠ alone keyboard_module ⊠ alone (simacc_module pid comm).

(** ... and those that rely on a call whose result they ignore, or that
    forget what they have taken when a later call fails. *)
Definition trusting := alone netlink_module ⊠ alone filter_module ⊠ alone block_module ⊠
  alone hello_module ⊠ alone basic_module ⊠ alone jiffies_module ⊠ alone example_module.

Definition fleet := alone procfs_module ⊠ alone (seq_module hs cur) ⊠ sturdy ⊠ trusting.

(** The modules that need no assumption about the kernel. *)
Definition cautious := alone procfs_module ⊠ alone (seq_module hs cur) ⊠ sturdy.

(** What the loaded modules hold. *)
Definition held (b : bool) (L : list resource) : list resource := if b then L else [].

Definition sturdy_res (x : bool * (bool * (bool * (bool * (bool * bool)))))
    (g : memory * (buffers * (Kobjects.state * (unit * (Keyboard.state * simacc))))) : list resource :=
  let '(x1, (x2, (x3, (x4, (x5, x6))))) := x in
  let '(gm, (_, (gk, _))) := g in
  held x1 (memory_res gm) ++ held x2 [RMisc "ritsz"] ++ held x3 (kobjects_res gk) ++
  held x4 [RUsb "pen_driver"] ++ held x5 keyboard_res ++ held x6 [RProc "simacc" 0].

Definition trusting_res (x : bool * (bool * (bool * (bool * (bool * (bool * bool))))))
    (g : nl_state * (nf_hook_ops * (nf_hook_ops * (nf_hook_ops * (Basic.state * (Jiffies.state *
      Example.state)))))) : list resource :=
  let '(x1, (x2, (x3, (x4, (x5, (x6, x7)))))) := x in
  let '(gn, (_, (_, (_, (gb, (gj, ge)))))) := g in
  held x1 [RSock (nl_sk gn)] ++ held x2 [RHook "packet_filter"] ++ held x3 [RHook "packet_block_protocol"] ++
  held x4 [RHook "packet_hello"] ++ held x5 [RDebugDir (Basic.dir gb)] ++ held x6 [RDebugDir (Jiffies.dir gj)] ++
  held x7 (example_res ge).

Definition cautious_res x g : list resource :=
  let '(xp, (xs, x1)) := x in
  let '(gp, (gs, g1)) := g in
  held xp (procfs_res gp) ++ held xs (seq_res gs) ++ sturdy_res x1 g1.

Lemma cautious_res_eq x g : sys_res (Y := cautious) x g = cautious_res x g.
Proof. by destruct x as (?&?&?&?&?&?&?&?), g as (?&?&?&?&?&?&?&?). Qed.

Definition fleet_res x g : list resource :=
  let '(xp, (xs, (x1, x2))) := x in
  let '(gp, (gs, (g1, g2))) := g in
  held xp (procfs_res gp) ++ held xs (seq_res gs) ++ sturdy_res x1 g1 ++ trusting_res x2 g2.

Context {PF : PutFits} {HR : HooksRegister} {ROOM : DebugfsRoom} {SR : SysfsRoom}.

Lemma fleet_res_eq x g : sys_res (Y := fleet) x g = fleet_res x g.
Proof. by destruct x as (?&?&(?&?&?&?&?&?)&(?&?&?&?&?&?&?)), g as (?&?&(?&?&?&?&?&?)&(?&?&?&?&?&?&?)). Qed.
End Modules.

(** ** Two modules that want the same name *)

(** The proc file system has at most one entry of a name in a directory. *)
Class ProcNames {ENV : Env} :=
  proc_mkdir_taken tr n d L : holds tr L -> RProc n d ∈ L -> kret tr (ProcMkdir n d) = 0.

Section Names.
Context {ENV : Env} {FS : Libfs} {PN : ProcNames} (hs : gmap Z (Z * task)) (cur : Z).
Context {X G I : Type} (Y : system X G I) `{!CleanSystem Y}.

Abbreviation both := (alone procfs_module ⊠ alone (seq_module hs cur) ⊠ Y).

(** While the directory is there, neither module can be loaded. *)
Lemma procfs_load_taken w r w' :
  kret (log w) (ProcMkdir "example" 0) = 0 ->
  Procfs.procexample_module_init w = (Done r, w') -> (r =? 0) = false.
Proof. intros H. unfold Procfs.procexample_module_init. krun. rewrite H. krun. by intros [= <- _]. Qed.

Lemma seq_load_taken w r w' :
  kret (log w) (ProcMkdir "example" 0) = 0 ->
  SeqTasks.procexample_module_init w = (Done r, w') -> (r =? 0) = false.
Proof. intros H. unfold SeqTasks.procexample_module_init. krun. rewrite H. krun. by intros [= <- _]. Qed.

(** A loaded one has the directory. *)
Lemma example_taken L x w :
  good both L x w -> x.1 || x.2.1 = true -> kret (log w) (ProcMkdir "example" 0) = 0.
Proof.
  intros (_ & _ & _ & Hh) Hx. apply (proc_mkdir_taken _ _ _ _ Hh). destruct x as (xp & xs & x).
  cbn in *. unfold beside_res. cbn. unfold procfs_res, seq_res.
  destruct xp; [set_solver|]. destruct xs; [set_solver|done].
Qed.

Lemma both_step L x w x' w' :
  good both L x w -> x.1 && x.2.1 = false -> sys_step both (x, w) (x', w') -> x'.1 && x'.2.1 = false.
Proof.
  intros Hok Hx Hs. pose proof (example_taken L x w Hok) as Ht.
  inversion Hs as [x1 x2 w0 x1' w1 Hstep|x1 [xs xy] w0 [xs' xy'] w1 Hstep]; simplify_eq; cbn [fst snd] in *.
  - destruct (x2.1) eqn:E; [|by rewrite andb_false_r]. rewrite orb_true_r in Ht. rewrite andb_true_r in *.
    cbn in Hstep. inversion Hstep as [v r v' Hi| |]; simplify_eq.
    exact (procfs_load_taken (with_glob _ (wfst w)) r _ (Ht eq_refl) Hi).
  - destruct x1; [|done]. cbn [andb orb] in *.
    inversion Hstep as [y1 y2 v y1' v1 Hm|y1 y2 v y2' v1 Hm]; simplify_eq; [|done].
    cbn in Hm. inversion Hm as [v0 r v' Hi| |]; simplify_eq.
    exact (seq_load_taken (with_glob _ (wfst (wsnd w))) r _ (Ht eq_refl) Hi).
Qed.

Lemma both_excluded w0 L x w :
  wf_world w0 -> holds (log w0) L -> rtc (sys_step both) (sys_none both, w0) (x, w) ->
  x.1 && x.2.1 = false.
Proof.
  intros Hwf Hh Hs.
  assert (good both L x w /\ x.1 && x.2.1 = false) as [_ H]; [|done].
  apply (rtc_ind_r (fun s => good both L s.1 s.2 /\ s.1.1 && s.1.2.1 = false)) in Hs; [done| |].
  - split; [by apply sys_start|done].
  - intros [y v] [z u] _ Hstep [Hok Hy]. split; [by apply (sys_clean_good _ L y v)|].
    by apply (both_step L y v z u).
Qed.
End Names.

(** ** Properties *)

Section Properties.
Context {ENV : Env} {UA : Uaccess} {FS : Libfs} {UC : UsbCore} {FMT : FormatIPv4}.

(** C9 Eight of the repository's modules (procfs.c, seq_file_procfs.c,
    chardev_fops.c, misc_char_dev.c, kobjects.c, usb_basic.c,
    keyboard_interrupt.c and file_proc.c) do not disturb each other, whatever the kernel
    answers to their calls, failures included: with all of them on one
    machine, loaded, used and unloaded in any order, as long as no call of
    theirs faults, the machine holds exactly what the loaded ones hold, and
    each loaded one can be unloaded at any time without a fault, after which
    the machine holds what the others do. *)
Theorem cautious_lifecycle hs cur pid comm w0 L x w :
  wf_world w0 -> holds (log w0) L ->
  rtc (sys_step (cautious hs cur pid comm)) (sys_none (cautious hs cur pid comm), w0) (x, w) ->
  holds (log w) (cautious_res x (glob w) ++ L) /\
  forall i, sys_loaded (cautious hs cur pid comm) x i = true ->
    exists w', sys_exit (cautious hs cur pid comm) i w = (Done tt, w') /\
      holds (log w') (cautious_res (sys_without (cautious hs cur pid comm) x i) (glob w') ++ L).
Proof.
  intros Hwf Hh Hs. destruct (system_lifecycle (cautious hs cur pid comm) w0 L x w Hwf Hh Hs) as [H He].
  rewrite (cautious_res_eq hs cur pid comm) in H. split; [done|]. intros i Hi. destruct (He i Hi) as (w' & E & H').
  rewrite (cautious_res_eq hs cur pid comm) in H'. by exists w'.
Qed.

(** C8 Fifteen of the repository's modules do not disturb each other, on a
    kernel that keeps four promises: the header of a netlink answer fits its
    buffer, hooks can always be registered, debugfs has room for files
    (making its directory may fail, but not with an error pointer), and sysfs
    makes directories and files.  With all of the modules on one machine,
    loaded, used and unloaded in any order, as long as no call of theirs
    faults, the machine holds exactly what the loaded ones hold, and each
    loaded one can be unloaded at any time without a fault, after which the
    machine holds what the others do.  (All other calls may fail.  The
    modules that need the promises leak without them.) *)
Theorem fleet_lifecycle {PF : PutFits} {HR : HooksRegister} {ROOM : DebugfsRoom} {SR : SysfsRoom}
    hs cur pid comm w0 L x w :
  wf_world w0 -> holds (log w0) L ->
  rtc (sys_step (fleet hs cur pid comm)) (sys_none (fleet hs cur pid comm), w0) (x, w) ->
  holds (log w) (fleet_res x (glob w) ++ L) /\
  forall i, sys_loaded (fleet hs cur pid comm) x i = true ->
    exists w', sys_exit (fleet hs cur pid comm) i w = (Done tt, w') /\
      holds (log w') (fleet_res (sys_without (fleet hs cur pid comm) x i) (glob w') ++ L).
Proof.
  intros Hwf Hh Hs. destruct (system_lifecycle (fleet hs cur pid comm) w0 L x w Hwf Hh Hs) as [H He].
  rewrite fleet_res_eq in H. split; [done|]. intros i Hi. destruct (He i Hi) as (w' & E & H').
  rewrite fleet_res_eq in H'. by exists w'.
Qed.

(** C33 procfs.c and seq_file_procfs.c both make the directory /proc/example:
    on a kernel that refuses a second entry of the same name they are never
    loaded together, whatever other modules are there; the second load fails
    and takes nothing. *)
Theorem procfs_excludes_seq {PN : ProcNames} {PF : PutFits} {HR : HooksRegister} {ROOM : DebugfsRoom}
    {SR : SysfsRoom} hs cur pid comm w0 L x w :
  wf_world w0 -> holds (log w0) L ->
  rtc (sys_step (fleet hs cur pid comm)) (sys_none (fleet hs cur pid comm), w0) (x, w) ->
  x.1 && x.2.1 = false.
Proof. exact (both_excluded hs cur (sturdy pid comm ⊠ trusting) w0 L x w). Qed.

(** C22 The device keeps its byte whatever the rest of the machine does: a
    process writes to the device, other modules (any system that keeps to its
    own blocks) are loaded, used and unloaded any number of times, and then a
    read still gives the last byte written. *)
Theorem memory_byte_survives {X G I} (Y : system X G I) `{!CleanSystem Y}
    w0 L x w buf bs b pos w1 x' w' dst old n :
  let M := alone memory_module ⊠ Y in
  wf_world w0 -> holds (log w0) L -> rtc (sys_step M) (sys_none M, w0) ((true, x), w) ->
  ubytes (user w) buf (length bs) = Some bs -> last bs = Some b ->
  on_fst (memory_write buf (Z.of_nat (length bs)) pos) w = (Done 1, w1) ->
  rtc (right_step Y) ((true, x), w1) ((true, x'), w') ->
  user w' !! dst = Some old ->
  exists w2, on_fst (memory_read dst n 0) w' = (Done (1, 1), w2) /\ user w2 = <[dst := b]> (user w').
Proof.
  cbv zeta. intros Hwf Hh Hs Hbs Hb Hw Hrun Hdst.
  apply (sys_reachable _ L) in Hs; [|by apply sys_start]. cbn [fst snd] in Hs.
  assert (Hi : memory_inv (wfst w)) by exact (proj1 (proj1 (proj2 Hs)) eq_refl).
  destruct (memory_write_run (wfst w) buf (Z.of_nat (length bs)) pos Hi) as (b' & E & Hb').
  assert (b' = b) as -> by (apply Hb'; by apply memory_inv_ubytes_last).
  rewrite (run_on_fst _ _ _ _ E) in Hw. injection Hw as <-.
  match type of Hrun with rtc _ (_, ?v) _ =>
    assert (Hc : good (alone memory_module ⊠ Y) L (true, x) v) end.
  { eapply (sys_clean_good _ L (true, x) w); [exact Hs|].
    refine (step_left (alone memory_module) Y true x w true _ _).
    exact (step_op memory_module (wfst w) (MWrite buf (Z.of_nat (length bs)) pos) 1 _ E). }
  destruct (right_keeps_left (alone memory_module) Y L _ _ Hrun Hc) as (_ & _ & Hg & Hp). cbn in Hg, Hp.
  destruct (memory_read_run (wfst w') b dst n 0) as (m & Er & Hm).
  - cbn. rewrite Hg. apply Hi.
  - cbn. rewrite Hg, Hp by set_solver. apply lookup_insert_eq.
  - eexists. split; [apply run_on_fst, Er|]. cbn. by apply (Hm old).
Qed.
End Properties.

(** ** Concrete runs *)

(** Nothing fails, except that a directory of /proc is only made once. *)
Definition polite : Env := {|
  kret tr c := match c with
    | ProcMkdir n d => match ledger tr with
                       | Some L => if decide (RProc n d ∈ L) then 0 else 1
                       | None => 0
                       end
    | _ => calm_ret c
    end;
  kjunk _ _ := 0 |}.

#[global] Instance polite_put : PutFits (ENV := polite).
Proof. done. Qed.

#[global] Instance polite_hooks : HooksRegister (ENV := polite).
Proof. done. Qed.

#[global] Instance polite_debugfs : DebugfsRoom (ENV := polite).
Proof. by split. Qed.

#[global] Instance polite_sysfs : SysfsRoom (ENV := polite).
Proof. by split. Qed.

#[global] Instance polite_names : ProcNames (ENV := polite).
Proof.
  intros tr n d L [L' [H HL]] Hin. cbn. rewrite H. rewrite decide_True; [done|]. by rewrite HL.
Qed.

(** The machine before anything is loaded, with a process that has the text abc. *)
Definition port : world (Procfs.state * (tasks *
    ((memory * (buffers * (Kobjects.state * (unit * (Keyboard.state * simacc))))) *
     (nl_state * (nf_hook_ops * (nf_hook_ops * (nf_hook_ops * (Basic.state * (Jiffies.state * Example.state))))))))) :=
  World ∅ 1 (uwrite ∅ 100 [97; 98; 99]) []
    (Procfs.State buffers_static 0 0, (Tasks ∅ 30 0 0,
      ((Memory 0, (buffers_static, (Kobjects.static, (tt, (Keyboard.State 0 0, simacc_static))))),
       (NlState 0, (nfho_static, (nfho_static, (nfho_static, (Basic.static, (Jiffies.State 0, Example.static))))))))).

Definition none1 : bool * (bool * (bool * (bool * (bool * bool)))) :=
  (false, (false, (false, (false, (false, false))))).
Definition none2 : bool * (bool * (bool * (bool * (bool * (bool * bool))))) :=
  (false, (false, (false, (false, (false, (false, false)))))).

(** The password file is loaded, then the device, then the sequence file is tried. *)
Definition port1 := (on_fst (Procfs.procexample_module_init (ENV := polite)) port).2.
Definition port2 := (on_snd (on_snd (on_fst (on_fst (memory_init (ENV := polite))))) port1).2.
Definition port3 := on_snd (on_fst (SeqTasks.procexample_module_init (ENV := polite))) port2.

(** A step deep inside a fleet. *)
Section Deep.
Context {X1 G1 I1 X2 G2 I2 : Type} (Y1 : system X1 G1 I1) (Y2 : system X2 G2 I2).

Lemma deep_left x1 x2 w x1' w1 w' :
  sys_step Y1 (x1, wfst w) (x1', w1) -> w' = pair_fst w1 (glob w).2 ->
  sys_step (Y1 ⊠ Y2) ((x1, x2), w) ((x1', x2), w').
Proof. intros H ->. by apply step_left. Qed.

Lemma deep_right x1 x2 w x2' w2 w' :
  sys_step Y2 (x2, wsnd w) (x2', w2) -> w' = pair_snd (glob w).1 w2 ->
  sys_step (Y1 ⊠ Y2) ((x1, x2), w) ((x1, x2'), w').
Proof. intros H ->. by apply step_right. Qed.
End Deep.

Abbreviation F := (fleet (ENV := polite) ∅ 30 1 (str "insmod")).

(** Which modules are loaded then, depending on the sequence file. *)
Definition afloat (seq : bool) : bool * (bool * ((bool * (bool * (bool * (bool * (bool * bool))))) *
    (bool * (bool * (bool * (bool * (bool * (bool * bool)))))))) :=
  (true, (seq, ((true, (false, (false, (false, (false, false))))), none2))).

Definition seq_up : bool := match port3.1 with Done r => r =? 0 | Oops _ => false end.

Lemma port_loaded : rtc (sys_step F) (sys_none F, port) (afloat false, port2).
Proof.
  apply (rtc_l _ _ ((true, (false, (none1, none2))), port1)).
  - eapply deep_left; [|reflexivity].
    exact (step_insmod (procfs_module (ENV := polite)) (wfst port) 0 _ eq_refl).
  - apply rtc_once. do 2 (eapply deep_right; [|reflexivity]). do 2 (eapply deep_left; [|reflexivity]).
    exact (step_insmod (memory_module (ENV := polite)) (wfst (wfst (wsnd (wsnd port1)))) 0 _ eq_refl).
Qed.

Lemma port_tried : rtc (sys_step F) (sys_none F, port) (afloat seq_up, port3.2).
Proof.
  eapply rtc_r; [exact port_loaded|].
  eapply deep_right; [|reflexivity]. eapply deep_left; [|reflexivity].
  exact (step_insmod (seq_module (ENV := polite) ∅ 30) (wfst (wsnd port2)) (-12) _ eq_refl).
Qed.

(** Nothing at all works except the misc device. *)
Definition stubborn : Env :=
  {| kret _ c := match c with MiscRegister _ => 0 | RequestIrq _ _ => -16 | _ => 0 end; kjunk _ _ := 0 |}.

Definition skiff : world (Procfs.state * (tasks *
    (memory * (buffers * (Kobjects.state * (unit * (Keyboard.state * simacc))))))) :=
  World ∅ 1 ∅ [] (Procfs.State buffers_static 0 0, (Tasks ∅ 30 0 0,
      (Memory 0, (buffers_static, (Kobjects.static, (tt, (Keyboard.State 0 0, simacc_static))))))).

(** The password file cannot be loaded, the misc device can, and is unloaded. *)
Definition skiff1 := (on_fst (Procfs.procexample_module_init (ENV := stubborn)) skiff).2.
Definition skiff2 := (on_snd (on_snd (on_snd (on_fst (MiscDev.task1_init (ENV := stubborn))))) skiff1).2.

Lemma skiff_loaded :
  rtc (sys_step (cautious (ENV := stubborn) ∅ 30 1 (str "insmod")))
    (sys_none (cautious (ENV := stubborn) ∅ 30 1 (str "insmod")), skiff)
    ((false, (false, (false, (true, (false, (false, (false, false))))))), skiff2).
Proof.
  apply (rtc_l _ _ ((false, (false, none1)), skiff1)).
  - eapply deep_left; [|reflexivity].
    exact (step_insmod (procfs_module (ENV := stubborn)) (wfst skiff) (-12) _ eq_refl).
  - apply rtc_once. do 3 (eapply deep_right; [|reflexivity]). eapply deep_left; [|reflexivity].
    exact (step_insmod (misc_module (ENV := stubborn)) (wfst (wsnd (wsnd (wsnd skiff1)))) 0 _ eq_refl).
Qed.

Lemma cautious_lifecycle_witness :
  exists w', sys_exit (cautious (ENV := stubborn) ∅ 30 1 (str "insmod")) (inr (inr (inr (inl tt)))) skiff2 = (Done tt, w') /\
    holds (log w') [].
Proof.
  destruct (cautious_lifecycle (ENV := stubborn) ∅ 30 1 (str "insmod") skiff []
    (false, (false, (false, (true, (false, (false, (false, false))))))) skiff2) as [_ H];
    [by apply wf_world_empty|by exists []|exact skiff_loaded|].
  destruct (H (inr (inr (inr (inl tt)))) eq_refl) as (w' & E & Hh). exists w'. split; [exact E|].
  cbn in Hh. destruct (glob w') as (?&?&?&?&?&?&?&?). exact Hh.
Defined.

(** With the password file and the device loaded, the device is unloaded. *)
Lemma fleet_lifecycle_witness :
  exists w', sys_exit (fleet (ENV := polite) ∅ 30 1 (str "insmod")) (inr (inr (inl (inl tt)))) port2 = (Done tt, w') /\
    holds (log w') (fleet_res (true, (false, (none1, none2))) (glob w') ++ []).
Proof.
  destruct (fleet_lifecycle (ENV := polite) ∅ 30 1 (str "insmod") port []
    (afloat false) port2) as [_ H];
    [by apply wf_world_empty|by exists []|exact port_loaded|].
  exact (H (inr (inr (inl (inl tt)))) eq_refl).
Defined.

(** With the password file loaded, the sequence file is not. *)
Lemma procfs_excludes_seq_witness : (afloat seq_up).1 && (afloat seq_up).2.1 = false.
Proof.
  apply (procfs_excludes_seq (ENV := polite) ∅ 30 1 (str "insmod") port [] (afloat seq_up) port3.2).
  - by apply wf_world_empty.
  - by exists [].
  - exact port_tried.
Defined.

(** The device beside the password file: it is written to, then the file is
    unloaded. *)
Definition bare : world (memory * Procfs.state) :=
  World ∅ 1 (uwrite ∅ 100 [97; 98; 99]) [] (Memory 0, Procfs.State buffers_static 0 0).
Definition bare_mem := (on_fst (memory_init (ENV := calm)) bare).2.
Definition bare_both := (on_snd (Procfs.procexample_module_init (ENV := calm)) bare_mem).2.
Definition bare_written := (on_fst (memory_write 100 3 0) bare_both).2.
Definition bare_alone := (on_snd Procfs.procexample_module_exit bare_written).2.

Lemma memory_byte_survives_witness :
  exists w2, on_fst (memory_read 101 1 0) bare_alone = (Done (1, 1), w2) /\
    user w2 = <[101 := 99]> (user bare_alone).
Proof.
  apply (memory_byte_survives (ENV := calm) (alone (procfs_module (ENV := calm))) bare [] true bare_both
    100 [97; 98; 99] 99 0 bare_written false bare_alone 101 98 1).
  - by apply wf_world_empty.
  - by exists [].
  - apply (rtc_l _ _ ((true, false), bare_mem)).
    + eapply deep_left; [|reflexivity].
      exact (step_insmod (memory_module (ENV := calm)) (wfst bare) 0 _ eq_refl).
    + apply rtc_once. eapply deep_right; [|reflexivity].
      exact (step_insmod (procfs_module (ENV := calm)) (wsnd bare_mem) 0 _ eq_refl).
  - reflexivity.
  - reflexivity.
  - reflexivity.
  - apply rtc_once. refine (right_only _ true true bare_written false _ _).
    exact (step_rmmod (procfs_module (ENV := calm)) (wsnd bare_written) _ eq_refl).
  - reflexivity.
Defined.
