(* ===== verification/KeyReaders.v ===== *)
(** * Two readers of the key logger (src/keyboard_interrupt_misc_device.c)

    The buffer and the number of keys still wanted are global, and the device
    may be open more than once.  This file runs a second reader while the
    first one sleeps, and a reader that a signal interrupts. *)

From stdpp Require Import base gmap list numbers list_numbers strings.
From Stdlib Require Import ZArith Lia.
From S2P Require Import Prelude Kernel Uaccess Lifecycle KeyLog.

Section Readers.
Context {ENV : Env} {UA : Uaccess} {SLAB : Slab}.
Implicit Types w : world keylog.

(** Reader A wants [lenA] keys and sleeps; then reader B wants [lenB] keys and
    sleeps, and [lenB] keys are typed. *)
Definition both_asleep (lenA lenB : Z) : K keylog (option Z) :=
  read_start lenA;;
  wait_event [];;
  read_start lenB;;
  wait_event (replicate (Z.to_nat lenB) Interrupt).

(** A reader that the wake-up reaches looks at the condition again and, if it
    holds, goes on; the wake-up reaches every sleeping reader. *)
Definition awake (buf len off : Z) : K keylog (option (Z * Z)) :=
  g ← get;
  if keys g =? 0 then read_finish buf len off (Some 0) else mret None.

Lemma both_asleep_run lenA lenB w :
  (forall tr n, kret tr (Kmalloc n) <> 0) -> ready lenA w -> 0 < lenB < 2 ^ 31 -> lenB < ksize lenB ->
  exists ks w1, both_asleep lenA lenB w = (Done None, w1) /\ length ks = Z.to_nat lenB /\
    scancodes (log w1) = ks ++ scancodes (log w) /\ keys (glob w1) = 0 /\ kbuf (glob w1) = brk w + 1 /\
    (exists r, heap w1 !! (brk w + 1) = Some (kjunk ((Kmalloc lenA, brk w) :: log w) 0 :: ks ++ r)) /\
    user w1 = user w /\
    (forall L, holds (log w) L -> holds (log w1) (RMem (brk w + 1) :: RMem (brk w) :: L)).
Proof.
  intros Hk (Hb & Hd & Hs & HlenA & HkA) HlenB Hroom.
  destruct (start_run lenA w [] Hb Hd Hs HlenA HkA)
    as (w1 & (_ & _ & Hd1 & Hs1) & _ & _ & _ & Hu1 & Hc1 & Hh1 & Hb1 & Hlog1 & E1).
  destruct (start_run lenB w1 (replicate (Z.to_nat lenB) Interrupt ++ []))
    as (w2 & Hl2 & Hk2 & Hp2 & Hw2 & Hu2 & Hc2 & Hh2 & _ & _ & E2); [lia|done|done|done|done|].
  set (b := map _ _) in Hl2. assert (Hblen : length b = Z.to_nat (ksize lenB)).
  { unfold b. by rewrite length_map, length_seqZ. }
  destruct (keys_run (Z.to_nat lenB) b w2 []) as (ks & w3 & E & Hn & Hl3 & Hc3 & Hk3 & _ & Hp3 & Hu3 & Hh3);
    [done|lia|lia|].
  exists ks, w3. unfold both_asleep. rewrite <- bind_assoc, (bind_done _ _ _ _ _ E1).
  rewrite app_nil_r in E, E2. rewrite E2, E.
  rewrite Hk2 in Hl3, Hk3. replace (Z.to_nat lenB + 1 - Z.to_nat lenB)%nat with 1%nat in Hl3 by lia.
  split_and!; [done|done|congruence|lia|congruence| |congruence|].
  - destruct Hl3 as (_ & Hheap & _). rewrite Hp3, Hp2, Hb1 in Hheap.
    eexists. rewrite Hheap. unfold b. rewrite seqZ_cons by lia. rewrite Hlog1. done.
  - intros L HL. apply Hh3. rewrite <- Hb1. by apply Hh2, Hh1.
Qed.

(** C36 Two readers share one buffer.  When a second reader asks for keys while
    the first one sleeps, the first buffer is lost: the keys typed for the
    second reader go to whichever reader runs first, here the first one,
    which reports success and frees the second reader's buffer; the second
    reader then copies from freed memory.  The buffer of the first is never
    given back. *)
Theorem keylog_two_readers lenA lenB w bufA offA bufB offB old L :
  (forall tr n, kret tr (Kmalloc n) <> 0) -> ready lenA w -> lenA <= lenB < 2 ^ 31 -> lenB < ksize lenB ->
  ubytes (user w) bufA (Z.to_nat lenA) = Some old -> holds (log w) L ->
  exists ks w1 w2, both_asleep lenA lenB w = (Done None, w1) /\
    length ks = Z.to_nat lenB /\ scancodes (log w1) = ks ++ scancodes (log w) /\
    awake bufA lenA offA w1 = (Done (Some (lenA, offA + lenA)), w2) /\
    user w2 = uwrite (user w) bufA
      (kjunk ((Kmalloc lenA, brk w) :: log w) 0 :: take (Z.to_nat lenA - 1) ks) /\
    awake bufB lenB offB w2 = (Oops (BadPointer (brk w + 1)), w2) /\
    holds (log w2) (RMem (brk w) :: L) /\ kbuf (glob w2) <> brk w.
Proof.
  intros Hk Hready Hlen Hroom Hmap HL. pose proof Hready as (Hb & _ & _ & HlenA & _).
  destruct (both_asleep_run lenA lenB w Hk Hready ltac:(lia) Hroom)
    as (ks & w1 & E & Hn & Hc & Hk1 & Hp1 & (r & Hheap) & Hu & Hh).
  set (j := kjunk _ 0) in *. rewrite <- Hp1 in Hheap.
  exists ks, w1. eexists. split_and!; [exact E|done|done|..].
  - unfold awake. krun. rewrite Hk1. cbn [Z.eqb read_finish negb]. krun.
    erewrite bind_done; [|eapply run_loads; [lia|exact Hheap|lia|lia|cbn [length]; rewrite length_app; lia]].
    change (Z.to_nat 0) with 0%nat. rewrite drop_0. krun. rewrite Hu.
    rewrite (copy_to_user_ok (user w) bufA (take (Z.to_nat lenA) (j :: ks ++ r)) old).
    2: { rewrite length_take. cbn [length]. rewrite length_app, <- Hmap. f_equal. lia. }
    cbn [fst snd]. rewrite (wrapS_small 32 0) by lia. krun.
    erewrite bind_done; [|eapply run_kfree; [lia|exact Hheap]]. krun.
    rewrite (wrapS_small 32 lenA) by lia. reflexivity.
  - lcbn. destruct (Z.to_nat lenA) as [|n] eqn:En; [lia|]. cbn [take]. do 2 f_equal.
    rewrite take_app_le by lia. f_equal. lia.
  - unfold awake. krun. lcbn. rewrite Hk1. cbn [Z.eqb read_finish negb]. krun. lcbn.
    unfold loads. krun. unfold block. apply bind_oops. rewrite Hp1, (proj2 (Z.eqb_neq (brk w + 1) 0)) by lia.
    lcbn. by rewrite lookup_delete_eq.
  - lcbn. eapply holds_release; [|exact (Hh _ HL)]. cbn [effect_of].
    rewrite Hp1, (proj2 (Z.eqb_neq (brk w + 1) 0)) by lia. done.
  - lcbn. rewrite Hp1. lia.
Qed.

(** A signal leaves the buffer behind and the handler armed: the interrupted
    call returns -ERESTARTSYS without freeing its buffer, and keys typed
    afterwards are still stored into it.  When the call is started again, as
    the kernel does, a new buffer replaces it. *)
Theorem keylog_signal_leaks len w buf off L n :
  ready len w -> holds (log w) L -> Z.of_nat n < len -> len < ksize len ->
  exists ks w1, keylog_read (replicate n Interrupt ++ [Signal]) buf len off w =
      (Done (Some (- ERESTARTSYS, off)), w1) /\
    length ks = n /\ scancodes (log w1) = ks ++ scancodes (log w) /\
    holds (log w1) (RMem (brk w) :: L) /\ kbuf (glob w1) = brk w /\ user w1 = user w /\
    forall i, exists c w2 b, testirq_handler i w1 = (Done IRQ_HANDLED, w2) /\
      heap w2 !! brk w = Some b /\ b !! Z.to_nat (len - Z.of_nat n) = Some c /\
      scancodes (log w2) = c :: scancodes (log w1).
Proof.
  intros (Hb & Hd & Hs & Hlen & Hk) HL Hnl Hroom.
  destruct (read_begin len w (replicate n Interrupt ++ [Signal]) buf off)
    as (w1 & Hl1 & Hk1 & Hp1 & Hw1 & Hu1 & Hs1 & Hh1 & ->); [done..|].
  set (b := map _ _) in Hl1. assert (Hblen : length b = Z.to_nat (ksize len)).
  { unfold b. by rewrite length_map, length_seqZ. }
  destruct (keys_run n b w1 [Signal]) as (ks & w2 & E & Hn & Hl2 & Hs2 & Hk2 & _ & Hp2 & Hu2 & Hh2);
    [done|lia|lia|].
  exists ks, w2. split_and!.
  - erewrite bind_done by (rewrite E; reflexivity). done.
  - done.
  - congruence.
  - by apply Hh2, Hh1.
  - congruence.
  - congruence.
  - intros i. match type of Hl2 with logging ?b2 _ => destruct (handler_run b2 w2 i Hl2)
      as (c & w3 & E3 & (_ & Hb3 & _) & Hs3 & _ & _ & Hp3 & _);
      [rewrite !length_app, length_take, length_drop; lia|lia|] end.
    exists c, w3. rewrite Hp3, Hp2, Hp1 in Hb3. eexists. split_and!; [done|exact Hb3| |done].
    rewrite Hk2, Hk1. apply list_lookup_insert_eq. rewrite !length_app, length_take, length_drop. lia.
Qed.
End Readers.

(** ** Concrete runs *)

(** A asks for two keys, B for three, and three are typed. *)
Lemma keylog_two_readers_witness :
  exists w1 w2, both_asleep (ENV := keyboard) (SLAB := slab16) 2 3 open_keylog = (Done None, w1) /\
    awake 500 2 0 w1 = (Done (Some (2, 2)), w2) /\
    awake 600 3 0 w2 = (Oops (BadPointer 2), w2) /\ holds (log w2) [RMem 1].
Proof.
  destruct (keylog_two_readers (ENV := keyboard) (SLAB := slab16) 2 3 open_keylog 500 0 600 0 [0; 0] [])
    as (ks & w1 & w2 & E & _ & _ & EA & _ & EB & HL & _);
    [done|by unfold ready|done|done|done|by exists []|].
  exists w1, w2. exact (conj E (conj EA (conj EB HL))).
Defined.

(** A signal after one of three keys. *)
Lemma keylog_signal_leaks_witness :
  exists ks w1, keylog_read (ENV := keyboard) (SLAB := slab16) [Interrupt; Signal] 500 3 0 open_keylog =
      (Done (Some (-512, 0)), w1) /\ length ks = 1%nat /\
    scancodes (log w1) = ks ++ [] /\ holds (log w1) [RMem 1] /\ kbuf (glob w1) = 1.
Proof.
  destruct (keylog_signal_leaks (ENV := keyboard) (SLAB := slab16) 3 open_keylog 500 0 [] 1 open_ready)
    as (ks & w1 & E & Hn & Hs & Hh & Hp & _); [by exists []|done|done|].
  exists ks, w1. exact (conj E (conj Hn (conj Hs (conj Hh Hp)))).
Defined.
