(* ===== verification/KeyOpeners.v ===== *)
(** * Opening, closing and unloading the key logger (src/keyboard_interrupt_misc_device.c)

    Any number of processes open and close /dev/keylog, and then the module
    is unloaded.  Unloading is meant to wait until nobody uses the interrupt
    handler any more; it waits on a completion that every open resets and
    every close signals.  This file computes from the history of opens and
    closes alone what an unload does. *)

From stdpp Require Import base gmap list numbers list_numbers strings.
From Stdlib Require Import ZArith Lia.
From S2P Require Import Prelude Kernel Lifecycle Uaccess KeyLog.

Inductive action := OpenFile | CloseFile.

Section Openers.
Context {ENV : Env}.
Implicit Types w : world keylog.

Definition act (a : action) : K keylog Z :=
  match a with OpenFile => keylog_open | CloseFile => keylog_close end.

Fixpoint acts (l : list action) : K keylog unit :=
  match l with [] => mret tt | a :: l' => act a;; acts l' end.

(** How many processes have the file open, and how many have closed it since
    it was last opened. *)
Record usage := Usage { open : nat; closed_since : nat }.

Definition use (a : action) (u : usage) : usage :=
  match a with
  | OpenFile => Usage (S (open u)) 0
  | CloseFile => Usage (pred (open u)) (S (closed_since u))
  end.

Definition history (l : list action) (u : usage) : usage := foldl (fun u a => use a u) u l.

(** Only open files are closed. *)
Fixpoint sensible (l : list action) (n : nat) : Prop :=
  match l with
  | [] => True
  | OpenFile :: l' => sensible l' (S n)
  | CloseFile :: l' => (0 < n)%nat /\ sensible l' (pred n)
  end.

(** The handlers installed on line [i]. *)
Definition handlers (i : Z) (n : nat) : list resource := replicate n (RIrq i device).

(** The variables and the resources follow the history. *)
Definition follows (i : Z) (L : list resource) (u : usage) w : Prop :=
  irq (glob w) = i /\ intr_registered (glob w) = Z.of_nat (open u) /\
  kbd_complete (glob w) = Z.of_nat (closed_since u) /\ holds (log w) (handlers i (open u) ++ L).

Context (irq_free : forall tr i d, kret tr (RequestIrq i d) = 0).

Lemma act_run i L u a w :
  follows i L u w -> (a = CloseFile -> (0 < open u)%nat) -> Z.of_nat (open u) + 1 < 2 ^ 31 ->
  exists w', act a w = (Done 0, w') /\ follows i L (use a u) w'.
Proof.
  intros (Hq & Hn & Hc & Hh) Hcl Hlt. destruct a; cbn [act use].
  - destruct (open_run w) as (w' & E & Hq' & Hn' & Hc' & tr & r & -> & HL); [lia..|].
    rewrite irq_free in HL. apply HL in Hh. rewrite Hq in *. exists w'. split; [done|].
    unfold follows. cbn [open closed_since]. rewrite Hq', Hn', Hc', Hn. split_and!; [done|lia|done|done].
  - specialize (Hcl eq_refl). destruct (close_run w) as (w' & E & Hn' & Hc' & Hq' & HL & _); [lia|].
    exists w'. split; [done|]. destruct u as [[|n] c]; cbn [open closed_since] in *; [lia|].
    unfold follows. cbn [open closed_since pred]. rewrite Hn', Hc', Hq', Hn, Hc.
    split_and!; [done|lia|lia|]. apply HL. by rewrite Hq.
Qed.

Lemma acts_run i L l u w :
  follows i L u w -> sensible l (open u) -> Z.of_nat (open u + length l) < 2 ^ 31 ->
  exists w', acts l w = (Done tt, w') /\ follows i L (history l u) w'.
Proof.
  revert u w. induction l as [|a l IH]; intros u w Hf Hs Hlt; cbn [acts history foldl length] in *; [by eexists|].
  destruct (act_run i L u a w Hf) as (w1 & E & Hf1); [by intros ->; destruct Hs|lia|].
  rewrite (bind_done _ _ _ _ _ E). apply IH; [done| |];
    destruct a; cbn [use open sensible] in *; [done|by destruct Hs|lia|lia].
Qed.

(** An unload after any history. *)
Lemma exit_run i L u w :
  follows i (RMisc "keylog" :: L) u w ->
  if (0 <? open u)%nat && (closed_since u =? 0)%nat
  then exists w', keylog_driver_exit w = (Done None, w')
  else exists w', keylog_driver_exit w = (Done (Some tt), w') /\ holds (log w') (handlers i (open u) ++ L).
Proof.
  intros (_ & Hn & Hc & Hh). rewrite <- Permutation_middle in Hh. unfold keylog_driver_exit. krun. rewrite Hn, Hc.
  destruct u as [[|n] [|c]]; cbn [open closed_since Nat.ltb Nat.leb Nat.eqb andb].
  1,2: cbn [Z.of_nat Z.eqb negb andb]; krun; eexists; (split; [reflexivity|]); ledger_auto; exact Hh.
  - rewrite (proj2 (Z.eqb_neq (Z.of_nat (S n)) 0)) by lia. cbn [Z.of_nat Z.leb Z.compare negb andb]. krun.
    eexists. reflexivity.
  - rewrite (proj2 (Z.eqb_neq (Z.of_nat (S n)) 0)) by lia. rewrite (proj2 (Z.leb_gt (Z.of_nat (S c)) 0)) by lia.
    cbn [negb andb]. krun. eexists. split; [reflexivity|]. kcbn.
    apply holds_nothing; [done|]. eapply holds_release; [done|]. by apply holds_nothing.
Qed.
End Openers.

(** ** Properties *)

(** C27 What an unload of the key logger does after any sequence of opens and
    closes of its file, from that sequence alone: it waits exactly if the
    file is open and has not been closed since it was last opened; otherwise
    it goes through, and the interrupt handlers of all the processes that
    still have the file open stay installed after the module is gone.  So it
    leaves nothing behind exactly if nobody has the file open. *)
Theorem keylog_unload_exact {ENV : Env} l w L :
  (forall tr i d, kret tr (RequestIrq i d) = 0) ->
  intr_registered (glob w) = 0 -> kbd_complete (glob w) = 0 ->
  holds (log w) (RMisc "keylog" :: L) ->
  sensible l 0 -> Z.of_nat (length l) < 2 ^ 31 ->
  let u := history l (Usage 0 0) in
  exists w1, acts l w = (Done tt, w1) /\
    if (0 <? open u)%nat && (closed_since u =? 0)%nat
    then exists w2, keylog_driver_exit w1 = (Done None, w2)
    else exists w2, keylog_driver_exit w1 = (Done (Some tt), w2) /\
           holds (log w2) (handlers (irq (glob w)) (open u) ++ L).
Proof.
  intros Hirq Hn Hc Hh Hs Hlen u.
  destruct (acts_run Hirq (irq (glob w)) (RMisc "keylog" :: L) l (Usage 0 0) w) as (w1 & E & Hf); [done..|].
  exists w1. split; [done|]. by apply exit_run.
Qed.

(** ** Concrete runs *)

(** Three processes open the file, one closes it: the unload goes through with
    two handlers installed. *)
Lemma keylog_unload_exact_witness :
  exists w1, acts (ENV := calm) [OpenFile; OpenFile; OpenFile; CloseFile] loaded_keylog = (Done tt, w1) /\
    exists w2, keylog_driver_exit w1 = (Done (Some tt), w2) /\ holds (log w2) [RIrq 1 device; RIrq 1 device].
Proof.
  apply (keylog_unload_exact (ENV := calm) [OpenFile; OpenFile; OpenFile; CloseFile] loaded_keylog []).
  - done.
  - done.
  - done.
  - by exists [RMisc "keylog"].
  - cbn. lia.
  - cbn. lia.
Defined.

(** After another open it waits. *)
Example unload_waits :
  (keylog_driver_exit (acts (ENV := calm) [OpenFile; CloseFile; OpenFile] loaded_keylog).2).1 = Done None.
Proof. reflexivity. Qed.
