(* ===== verification/ParamTable.v ===== *)
(** * The table of module parameters (src/parameters.c)

    Params.v has the module's own functions.  This file has the table its
    [module_param] and [module_param_array] lines register, with the types and
    permissions, and what follows from it: which parameters have a file under
    /sys/module while the module is loaded, and who may open it.  How the
    kernel parses a command line is not modelled. *)

From stdpp Require Import base gmap list numbers list_numbers strings.
From Stdlib Require Import ZArith Lia.
From S2P Require Import Prelude Kernel Lifecycle Sysfs Params Attrs.

(** The types of the parameters. *)
Inductive ptype := TShort | TInt | TLong | TCharp | TIntArray.

Record kernel_param := KParam { kp_name : list Z; kp_type : ptype; kp_perm : Z }.

Definition S_IRUSR : Z := 256.
Definition S_IWUSR : Z := 128.
Definition S_IRGRP : Z := 32.
Definition S_IWGRP : Z := 16.

(** The [module_param] lines and the [module_param_array] line. *)
Definition module_params : list kernel_param :=
  [KParam (str "myshort") TShort (Z.lor S_IRUSR (Z.lor S_IWUSR (Z.lor S_IRGRP S_IWGRP)));
   KParam (str "myint") TInt (Z.lor S_IRUSR (Z.lor S_IWUSR (Z.lor S_IRGRP S_IROTH)));
   KParam (str "mylong") TLong S_IRUSR;
   KParam (str "mystring") TCharp 0;
   KParam (str "myintArray") TIntArray 0].

Definition param_named (name : list Z) : option kernel_param :=
  List.find (fun p => bool_decide (kp_name p = name)) module_params.

(** A parameter without permissions has no file; for the others the rules of
    sysfs apply. *)
Definition param_opens {SA : SysfsAccess} (root : bool) (name : list Z) (wr : bool) : bool :=
  match param_named name with
  | None => false
  | Some p => negb (kp_perm p =? 0) && may_open root (kp_perm p) wr
  end.

(** Which parameters can be read and changed while the module is loaded, and
    by whom: the superuser reads the three numbers and may change the short
    and the int; other processes (of another group) read the int; the string
    and the array have no file. *)
Theorem params_files {SA : SysfsAccess} root name wr :
  param_opens root name wr =
  if wr then root && bool_decide (name = str "myshort" \/ name = str "myint")
  else if root then bool_decide (name = str "myshort" \/ name = str "myint" \/ name = str "mylong")
  else bool_decide (name = str "myint").
Proof.
  unfold param_opens, param_named, module_params. cbn [List.find kp_name].
  repeat match goal with |- context [bool_decide (str ?n = name)] =>
    destruct (bool_decide_reflect (str n = name)) as [<-|?];
      [destruct wr, root; cbn [kp_perm]; rewrite ?root_reads, ?root_writes, ?other_reads, ?other_writes; reflexivity|]
  end.
  destruct wr, root; cbn [andb]; try done; symmetry; apply bool_decide_eq_false; naive_solver.
Qed.
