(* ===== verification/Writers.v ===== *)
(** * Several writers of the password files (src/procfs.c, src/misc_char_dev.c)

    Both files keep the text of the last write in one static buffer and
    compare it with the password in a later statement.  procfs.c takes no
    lock; misc_char_dev.c takes one, and gives it back before the comparison.
    Here the two write functions are sequences of statements, any number of
    processes are in them at the same time, and a schedule says who runs next.
    A process waiting for the lock spins.  Every file has just been opened, so
    that its position is 0. *)

From stdpp Require Import base gmap list numbers list_numbers strings.
From Stdlib Require Import ZArith Lia.
From S2P Require Import Prelude Kernel Uaccess Libfs Lifecycle ProcBuf.

(** The statements of the write functions. *)
Inductive stmt := Dump | Lock | Copy | Terminate | Unlock | Compare.

#[global] Instance stmt_eq_dec : EqDecision stmt.
Proof. solve_decision. Defined.

Definition procfs_write : list stmt := [Dump; Copy; Terminate; Compare].
Definition misc_write : list stmt := [Dump; Lock; Copy; Terminate; Unlock; Compare].

(** A process in a write call: its memory, the user buffer and its length,
    the statements still to run, the variable [ret], and what was returned. *)
Record writer := Writer {
  mem : gmap Z Z;
  ubuf : Z;
  ulen : Z;
  todo : list stmt;
  ret : Z;
  result : option Z;
}.

(** [kern_buff], and who holds the lock. *)
Record shared := Shared { kb : list Z; holder : option nat }.

Definition goes_on (t : list stmt) (x : writer) : writer :=
  Writer (mem x) (ubuf x) (ulen x) t (ret x) (result x).

Section Steps.
Context {FS : Libfs}.

(** One statement of process [i]. *)
Definition exec (i : nat) (x : writer) : K shared writer :=
  match todo x with
  | [] => mret x
  | Dump :: t => docall DumpStack;; mret (goes_on t x)
  | Lock :: t =>
      g ← get;
      match holder g with
      | Some _ => mret x
      | None => docall WriteLock;; modify (fun g => Shared (kb g) (Some i));; mret (goes_on t x)
      end
  | Copy :: t =>
      g ← get;
      let r := simple_write_to_buffer (mem x) (kb g) MAXBUFF 0 (ubuf x) (ulen x) in
      modify (fun g => Shared r.2 (holder g));;
      mret (Writer (mem x) (ubuf x) (ulen x) t (s32 r.1.1) (result x))
  | Terminate :: t =>
      g ← get;
      b ← of_option (OutOfBounds (ret x)) (aset (kb g) (ret x) 0);
      modify (fun g => Shared b (holder g));;
      mret (goes_on t x)
  | Unlock :: t => docall WriteUnlock;; modify (fun g => Shared (kb g) None);; mret (goes_on t x)
  | Compare :: t =>
      g ← get;
      s ← of_option Unterminated (cstr (kb g));
      mret (Writer (mem x) (ubuf x) (ulen x) t (ret x)
              (Some (if negb (strcmp s (str "linux") =? 0) then - EINVAL else ret x)))
  end.

Fixpoint run_writers (sched : list nat) (xs : list writer) : K shared (list writer) :=
  match sched with
  | [] => mret xs
  | i :: sched' =>
      match xs !! i with
      | None => run_writers sched' xs
      | Some x => x' ← exec i x; run_writers sched' (<[i := x']> xs)
      end
  end.

(** A process that is about to write the [len] bytes at [buf]. *)
Definition calls (prog : list stmt) (m : gmap Z Z) (buf len : Z) : writer := Writer m buf len prog 0 None.
End Steps.

(** ** What holds under every schedule *)

(** The text a process writes: it fits the buffer with its terminator. *)
Definition has_text (x : writer) (t : list Z) : Prop :=
  ubytes (mem x) (ubuf x) (Z.to_nat (ulen x)) = Some t /\ 0 < ulen x <= 127.

(** Between taking and releasing the lock. *)
Definition inside (x : writer) : bool := bool_decide (Unlock ∈ todo x /\ Lock ∉ todo x).

(** The order of the statements that the functions rely on: the text is copied
    before it is terminated and compared, and the lock is taken and released
    once. *)
Fixpoint well_ordered (p : list stmt) : Prop :=
  match p with
  | [] => True
  | s :: t =>
      match s with
      | Terminate | Compare => Copy ∉ t
      | Lock => Unlock ∈ t /\ Lock ∉ t
      | Unlock => Unlock ∉ t /\ Lock ∉ t
      | _ => True
      end /\ well_ordered t
  end.

(** [ret] is set as soon as the text has been copied. *)
Definition writer_ok (x : writer) (t : list Z) : Prop :=
  has_text x t /\ well_ordered (todo x) /\ (Copy ∉ todo x -> ret x = ulen x).

(** Every byte of the buffer is NUL or comes from one of the texts, at its
    place; the last one is NUL. *)
Definition buffer_ok (ts : list (list Z)) (b : list Z) : Prop :=
  length b = 128%nat /\ b !! 127%nat = Some 0 /\
  forall p c, b !! p = Some c -> c = 0 \/ exists t, t ∈ ts /\ t !! p = Some c.

(** A returned value: the length only if the password can be put together
    from the texts. *)
Definition result_ok (ts : list (list Z)) (x : writer) : Prop :=
  match result x with
  | None => True
  | Some v =>
      v = - EINVAL \/
      v = ulen x /\ forall p c, str "linux" !! p = Some c -> exists t, t ∈ ts /\ t !! p = Some c
  end.

Definition lock_ok (h : option nat) (xs : list writer) : Prop :=
  forall i x, xs !! i = Some x -> inside x = true <-> h = Some i.

Definition writers_ok (ts : list (list Z)) (xs : list writer) (w : world shared) : Prop :=
  buffer_ok ts (kb (glob w)) /\ lock_ok (holder (glob w)) xs /\
  Forall2 (fun x t => writer_ok x t /\ result_ok ts x) xs ts.

Section Invariant.
Context {FS : Libfs}.
Implicit Types w : world shared.

Lemma buffer_copy ts b t len :
  buffer_ok ts b -> t ∈ ts -> length t = Z.to_nat len -> 0 < len <= 127 ->
  buffer_ok ts (t ++ drop (Z.to_nat len) b).
Proof.
  intros (Hl & Hlast & Hb) Ht Hlen Hr. split_and!.
  - rewrite length_app, length_drop. lia.
  - rewrite lookup_app_r, lookup_drop by lia. rewrite <- Hlast. f_equal. lia.
  - intros p c [H|[Hp H]]%lookup_app_Some; [right; by exists t|].
    rewrite lookup_drop in H. apply Hb. rewrite <- H. f_equal. lia.
Qed.

Lemma buffer_terminate ts b n :
  buffer_ok ts b -> 0 < n <= 127 -> exists b', aset b n 0 = Some b' /\ buffer_ok ts b'.
Proof.
  intros (Hl & Hlast & Hb) Hn. exists (<[Z.to_nat n := 0]> b). split; [apply aset_in; lia|]. split_and!.
  - by rewrite length_insert.
  - rewrite list_lookup_insert. case_decide; [done|]. exact Hlast.
  - intros p c H. rewrite list_lookup_insert in H. case_decide; simplify_eq; auto.
Qed.

Lemma buffer_string ts b : buffer_ok ts b -> exists s, cstr b = Some s.
Proof. intros (_ & Hlast & _). by apply (cstr_of_nul b 127). Qed.

(** A string of the buffer takes its characters from the texts. *)
Lemma buffer_chars ts b s :
  buffer_ok ts b -> cstr b = Some s -> forall p c, s !! p = Some c -> exists t, t ∈ ts /\ t !! p = Some c.
Proof.
  intros (_ & _ & Hb) Hs p c Hp. apply cstr_Some in Hs as [Hn [r ->]].
  destruct (Hb p c) as [->|H]; [by apply lookup_app_l_Some| |done].
  by apply (Forall_lookup_1 _ _ _ _ Hn) in Hp.
Qed.

Lemma inside_same s t x : todo x = s :: t -> s <> Lock -> s <> Unlock -> inside (goes_on t x) = inside x.
Proof. intros E H1 H2. unfold inside. rewrite E. cbn [goes_on todo]. apply bool_decide_ext. set_solver. Qed.

Lemma inside_todo x y : todo x = todo y -> inside x = inside y.
Proof. unfold inside. by intros ->. Qed.

(** A step that leaves the lock alone. *)
Lemma lock_ok_same h xs i x x' :
  lock_ok h xs -> xs !! i = Some x -> inside x' = inside x -> lock_ok h (<[i := x']> xs).
Proof.
  intros H Hi Hx j y. rewrite list_lookup_insert. case_decide as E; [|apply H].
  destruct E as [-> _]. intros [= <-]. rewrite Hx. by apply H.
Qed.

Lemma lock_ok_take xs i x x' :
  lock_ok None xs -> xs !! i = Some x -> inside x' = true -> lock_ok (Some i) (<[i := x']> xs).
Proof.
  intros H Hi Hx j y. rewrite list_lookup_insert. case_decide as E.
  - destruct E as [-> _]. intros [= <-]. by rewrite Hx.
  - intros Hj. rewrite (H j y Hj). split; [done|]. intros [= ->]. destruct E. split; [done|].
    by apply lookup_lt_Some in Hj.
Qed.

Lemma lock_ok_release h xs i x x' :
  lock_ok h xs -> xs !! i = Some x -> inside x = true -> inside x' = false -> lock_ok None (<[i := x']> xs).
Proof.
  intros H Hi Hx Hx' j y. rewrite list_lookup_insert. case_decide as E.
  - destruct E as [-> _]. intros [= <-]. by rewrite Hx'.
  - intros Hj. rewrite (H j y Hj). split; [|done]. intros ->.
    apply (H i x Hi) in Hx as [= ->]. destruct E. split; [done|]. by apply lookup_lt_Some in Hj.
Qed.

(** How a step may end. *)
Definition step_ok (ts : list (list Z)) (xs : list writer) (i : nat) (r : outcome writer * world shared) : Prop :=
  match r with
  | (Done x', w') => writers_ok ts (<[i := x']> xs) w'
  | (Oops _, _) => False
  end.

Lemma exec_ok ts xs i x w :
  writers_ok ts xs w -> xs !! i = Some x -> step_ok ts xs i (exec i x w).
Proof.
  intros (Hb & Hl & Hx) Hi. destruct (Forall2_lookup_l _ _ _ _ _ Hx Hi) as (t & Ht & (Htx & Hord & Hret) & Hres).
  assert (Hts : t ∈ ts) by (by eapply list_elem_of_lookup_2).
  assert (Hmove : forall x', writer_ok x' t -> result_ok ts x' ->
    Forall2 (fun x t => writer_ok x t /\ result_ok ts x) (<[i := x']> xs) ts).
  { intros x' H1 H2. pose proof (Forall2_insert _ xs ts x' t i Hx (conj H1 H2)) as H.
    by rewrite (list_insert_id ts i t Ht) in H. }
  pose proof Htx as [Hmem Hlen]. pose proof (ubytes_length _ _ _ _ Hmem) as Htl.
  unfold exec. destruct (todo x) as [|s p] eqn:Et; krun; cbn [step_ok].
  { by rewrite list_insert_id. }
  destruct Hord as [Hs Hp].
  assert (Hsame : s <> Copy -> writer_ok (goes_on p x) t).
  { intros Hn. split; [done|]. split; [done|]. intros Hc. apply Hret. set_solver. }
  destruct s; krun.
  - split_and!; [done| |apply Hmove; [by apply Hsame|done]].
    eapply lock_ok_same; [done..|]. by eapply inside_same.
  - destruct (holder (glob w)) as [h|] eqn:Eh; krun.
    { cbn [step_ok]. rewrite list_insert_id by done. split_and!; [done|by rewrite Eh|done]. }
    split_and!; [done| |apply Hmove; [by apply Hsame|done]].
    eapply lock_ok_take; [done..|]. unfold inside. by rewrite bool_decide_eq_true_2.
  - rewrite (swb_ok _ _ _ _ _ _ (ulen x) t); [|unfold MAXBUFF; lia..|done]. cbn [fst snd].
    rewrite (wrapS_small 32) by lia. cbn [take app Z.add]. rewrite Z.add_0_l.
    split_and!; cbn [glob with_glob kb holder].
    + by apply buffer_copy.
    + eapply lock_ok_same; [done..|]. rewrite <- (inside_same _ _ _ Et) by done. by apply inside_todo.
    + apply Hmove; [|done]. by split_and!.
  - rewrite Hret by set_solver. destruct (buffer_terminate ts _ (ulen x) Hb Hlen) as (b & -> & Hb').
    cbn [of_option]. krun. split_and!; [done| |apply Hmove; [by apply Hsame|done]].
    eapply lock_ok_same; [done..|]. by eapply inside_same.
  - split_and!; [done| |apply Hmove; [by apply Hsame|done]].
    eapply lock_ok_release; [done..| |]; unfold inside; rewrite ?Et.
    + rewrite bool_decide_eq_true_2; [done|]. set_solver.
    + rewrite bool_decide_eq_false_2; [done|]. cbn [goes_on todo]. tauto.
  - destruct (buffer_string ts _ Hb) as [str Hstr]. rewrite Hstr. cbn [of_option]. krun.
    split_and!; [done| |apply Hmove; [by apply Hsame|]].
    + eapply lock_ok_same; [done..|]. rewrite <- (inside_same _ _ _ Et) by done. by apply inside_todo.
    + unfold result_ok. cbn [result]. destruct (Z.eqb_spec (strcmp str (Prelude.str "linux")) 0) as [E|E]; cbn [negb];
        [|by left]. right. split; [apply Hret; set_solver|]. apply strcmp_eq in E as ->. by apply (buffer_chars ts (kb (glob w))).
Qed.

Lemma run_writers_ok ts sched xs w :
  writers_ok ts xs w -> exists xs' w', run_writers sched xs w = (Done xs', w') /\ writers_ok ts xs' w'.
Proof.
  revert xs w. induction sched as [|i sched IH]; intros xs w H; cbn [run_writers]; [by exists xs, w|].
  destruct (xs !! i) as [x|] eqn:Hi; [|by apply IH].
  pose proof (exec_ok ts xs i x w H Hi) as Hs. destruct (exec i x w) as [[x'|e] w1] eqn:E; [|done].
  rewrite (bind_done _ _ _ _ _ E). by apply IH.
Qed.
End Invariant.

(** ** Properties *)

(** The two write functions as sequences of statements. *)
Definition write_function (prog : list stmt) : Prop := prog = procfs_write \/ prog = misc_write.

(** Processes that are about to write; a request is a memory, an address and a
    length. *)
Definition all_call (prog : list stmt) (rs : list (gmap Z Z * Z * Z)) : list writer :=
  map (fun r => calls prog r.1.1 r.1.2 r.2) rs.

Section Properties.
Context {FS : Libfs}.
Implicit Types w : world shared.

Lemma well_ordered_functions prog : write_function prog -> well_ordered prog /\ inside (calls prog ∅ 0 0) = false.
Proof.
  intros [-> | ->]; (split; [cbn; set_solver|]); unfold inside; cbn; rewrite bool_decide_eq_false_2; [done|set_solver|done|set_solver].
Qed.

Lemma all_call_elem prog rs i x :
  all_call prog rs !! i = Some x -> exists r, x = calls prog r.1.1 r.1.2 r.2.
Proof. intros (r & <- & _)%list_elem_of_lookup_2%list_elem_of_In%in_map_iff. by exists r. Qed.

Lemma all_call_ok prog rs ts w :
  write_function prog -> kb (glob w) = replicate 128 0 -> holder (glob w) = None ->
  Forall2 has_text (all_call prog rs) ts -> writers_ok ts (all_call prog rs) w.
Proof.
  intros Hp Hk Hh Ht. destruct (well_ordered_functions prog Hp) as [Ho Hi]. split_and!.
  - rewrite Hk. split_and!; [by rewrite length_replicate|done|].
    intros p c [-> _]%lookup_replicate. by left.
  - rewrite Hh. intros i x Hx. destruct (all_call_elem _ _ _ _ Hx) as [r ->].
    split; [|done]. intros H. by rewrite (inside_todo _ (calls prog ∅ 0 0)), Hi in H.
  - rewrite Forall2_lookup in Ht |- *. intros i. specialize (Ht i).
    destruct (all_call prog rs !! i) as [x|] eqn:Hx; inversion Ht as [? t H E1 E2|]; constructor.
    destruct (all_call_elem _ _ _ _ Hx) as [r ->]. split; [|done]. split_and!; [done..|].
    intros Hc. destruct Hc. destruct Hp as [-> | ->]; cbn; set_solver.
Qed.

(** C11 The password files with any number of writers, each writing a mapped
    text of 1 to 127 bytes at position 0 of the same file, into a buffer that
    is zero at first, under every schedule of their statements: no call faults, a call that returns reports either an
    error or its own length, and the length only if the password can be put
    together from the texts being written, each character at its place.  At
    most one process is between taking and releasing the lock. *)
Theorem writers_safe prog rs ts sched w :
  write_function prog -> kb (glob w) = replicate 128 0 -> holder (glob w) = None ->
  Forall2 has_text (all_call prog rs) ts ->
  exists xs w', run_writers sched (all_call prog rs) w = (Done xs, w') /\
    (forall x v, x ∈ xs -> result x = Some v ->
       v = - EINVAL \/
       v = ulen x /\ forall p c, str "linux" !! p = Some c -> exists t, t ∈ ts /\ t !! p = Some c) /\
    (forall i j x y, xs !! i = Some x -> xs !! j = Some y -> inside x = true -> inside y = true -> i = j).
Proof.
  intros Hp Hk Hh Ht. pose proof (all_call_ok prog rs ts w Hp Hk Hh Ht) as H.
  destruct (run_writers_ok ts sched _ w H) as (xs & w' & E & _ & Hl & Hx).
  exists xs, w'. split_and!; [done| |].
  - intros x v [i Hi]%list_elem_of_lookup_1 Hv. destruct (Forall2_lookup_l _ _ _ _ _ Hx Hi) as (t & _ & _ & Hr).
    unfold result_ok in Hr. by rewrite Hv in Hr.
  - intros i j x y Hi Hj Ix Iy. apply (Hl i x Hi) in Ix. apply (Hl j y Hj) in Iy. congruence.
Qed.

(** The statement that copies, for a text that fits. *)
Lemma copy_run i x t p w :
  todo x = Copy :: p -> has_text x t ->
  exec i x w =
  (Done (Writer (mem x) (ubuf x) (ulen x) p (ulen x) (result x)),
   with_glob (Shared (t ++ drop (Z.to_nat (ulen x)) (kb (glob w))) (holder (glob w))) w).
Proof.
  intros Et [Hm Hl]. unfold exec. rewrite Et. krun.
  rewrite (swb_ok _ _ _ _ _ _ (ulen x) t); [|unfold MAXBUFF; lia..|done]. cbn [fst snd].
  rewrite (wrapS_small 32) by lia. change (Z.to_nat 0) with 0%nat. rewrite Z.add_0_l. done.
Qed.

(** Runs the next statement of the schedule. *)
Ltac wgo H :=
  cbn [run_writers lookup list_lookup insert list_insert];
  erewrite bind_done by (first [eapply copy_run; [reflexivity|exact (H _ _ _)] | reflexivity]).

(** C37 The race.  Two processes that do not know the password can be let in:
    in procfs.c one copies a text of the right length, the other one that
    begins with the password, and the first one cuts it off and compares; in
    misc_char_dev.c the comparison comes after the lock is released, and finds
    the beginning of one text and the end of the other. *)
Theorem writers_break_in m1 b1 m2 b2 w :
  kb (glob w) = replicate 128 0 -> holder (glob w) = None ->
  (ubytes m1 b1 5 = Some (str "abcde") -> ubytes m2 b2 8 = Some (str "linux123") ->
   exists sched A B w', run_writers sched [calls procfs_write m1 b1 5; calls procfs_write m2 b2 8] w =
       (Done [A; B], w') /\ result A = Some 5) /\
  (ubytes m1 b1 5 = Some (str "abcdx") -> ubytes m2 b2 4 = Some (str "linu") ->
   exists sched A B w', run_writers sched [calls misc_write m1 b1 5; calls misc_write m2 b2 4] w =
       (Done [A; B], w') /\ result A = Some 5).
Proof.
  destruct w as [h b u l [k o]]. cbn [glob kb holder]. intros -> ->. split; intros H1 H2.
  - assert (HA : forall t r o, has_text (Writer m1 b1 5 t r o) (str "abcde")) by (by split).
    assert (HB : forall t r o, has_text (Writer m2 b2 8 t r o) (str "linux123")) by (by split).
    exists [0; 0; 1; 1; 0; 0]%nat. wgo HA. wgo HA. wgo HB. wgo HB. wgo HA. wgo HA.
    eexists _, _, _. split; reflexivity.
  - assert (HA : forall t r o, has_text (Writer m1 b1 5 t r o) (str "abcdx")) by (by split).
    assert (HB : forall t r o, has_text (Writer m2 b2 4 t r o) (str "linu")) by (by split).
    exists [0; 0; 0; 0; 0; 1; 1; 1; 0]%nat. do 5 wgo HA. do 3 wgo HB. wgo HA.
    eexists _, _, _. split; reflexivity.
Qed.

(** The next statement of a process alone. *)
Lemma run_alone n x w :
  run_writers (replicate (S n) 0%nat) [x] w = (exec 0 x ≫= fun x' => run_writers (replicate n 0%nat) [x']) w.
Proof. done. Qed.

Lemma copy_any_run i m buf len p r v w :
  exec i (Writer m buf len (Copy :: p) r v) w =
  (let c := simple_write_to_buffer m (kb (glob w)) MAXBUFF 0 buf len in
   (Done (Writer m buf len p (s32 c.1.1) v), with_glob (Shared c.2 (holder (glob w))) w)).
Proof. done. Qed.

Lemma terminate_run i m buf len p r v b w :
  aset (kb (glob w)) r 0 = Some b ->
  exec i (Writer m buf len (Terminate :: p) r v) w =
  (Done (Writer m buf len p r v), with_glob (Shared b (holder (glob w))) w).
Proof. intros H. unfold exec. cbn [todo ret]. krun. by rewrite H. Qed.

Lemma compare_run i m buf len p r v s w :
  cstr (kb (glob w)) = Some s ->
  exec i (Writer m buf len (Compare :: p) r v) w =
  (Done (Writer m buf len p r (Some (if negb (strcmp s (str "linux") =? 0) then - EINVAL else r))), w).
Proof. intros H. unfold exec. cbn [todo ret]. krun. by rewrite H. Qed.

Ltac walone := rewrite run_alone; erewrite bind_done by
  (first [apply copy_any_run | eapply terminate_run; cbn; eassumption | eapply compare_run; cbn; eassumption | reflexivity]).

(** A process alone in a write function gets what the handler of the
    sequential model returns, and leaves the same buffer and the same trace. *)
Theorem writers_alone m buf len w (w1 : world Procfs.state) (w2 : world buffers) :
  user w1 = m -> kern_buff (Procfs.bufs (glob w1)) = kb (glob w) -> log w1 = log w ->
  user w2 = m -> kern_buff (glob w2) = kb (glob w) -> log w2 = log w -> holder (glob w) = None ->
  (forall v pos (u1 : world Procfs.state), Procfs.my_write buf len 0 w1 = (Done (v, pos), u1) ->
     exists x w', run_writers (replicate 4 0%nat) [calls procfs_write m buf len] w = (Done [x], w') /\
       result x = Some v /\ kb (glob w') = kern_buff (Procfs.bufs (glob u1)) /\ log w' = log u1) /\
  (forall v pos (u2 : world buffers), MiscDev.my_write buf len 0 w2 = (Done (v, pos), u2) ->
     exists x w', run_writers (replicate 6 0%nat) [calls misc_write m buf len] w = (Done [x], w') /\
       result x = Some v /\ kb (glob w') = kern_buff (glob u2) /\ log w' = log u2 /\ holder (glob w') = None).
Proof.
  destruct w as [h b0 u l [k o]]. cbn [glob kb holder log].
  intros Hu1 Hk1 Hl1 Hu2 Hk2 Hl2 ->. split; intros v pos w' H.
  - unfold Procfs.my_write in H. autorewrite with krun in H. kcbn. rewrite Hu1, Hk1 in H.
    set (r := simple_write_to_buffer _ _ _ _ _ _) in H.
    destruct (aset r.2 (s32 r.1.1) 0) as [b|] eqn:Ea; cbn [of_option] in H; [|done]. autorewrite with krun in H.
    destruct (cstr b) as [s|] eqn:Es; cbn [of_option] in H; [|done]. autorewrite with krun in H.
    do 2 walone. fold r. do 2 walone. eexists _, _. split; [reflexivity|]. cbn [result].
    destruct (strcmp s (str "linux") =? 0); cbn [negb] in *; autorewrite with krun in H; simplify_eq; done.
  - clear Hu1 Hk1 Hl1 w1. unfold MiscDev.my_write in H. autorewrite with krun in H. kcbn. rewrite Hu2, Hk2 in H.
    set (r := simple_write_to_buffer _ _ _ _ _ _) in H.
    destruct (aset r.2 (s32 r.1.1) 0) as [b|] eqn:Ea; cbn [of_option] in H; [|done]. autorewrite with krun in H.
    destruct (cstr b) as [s|] eqn:Es; cbn [of_option] in H; [|done]. autorewrite with krun in H.
    do 3 walone. fold r. do 3 walone. eexists _, _. split; [reflexivity|]. cbn [result].
    destruct (strcmp s (str "linux") =? 0); cbn [negb] in *; autorewrite with krun in H; simplify_eq; done.
Qed.
End Properties.

(** ** Concrete runs *)

Definition idle_file : world shared := World ∅ 1 ∅ [] (Shared (replicate 128 0) None).

(** Three processes with the password, a prefix of it and another word. *)
Definition three : list (gmap Z Z * Z * Z) :=
  [(uwrite ∅ 0 (str "linux"), 0, 5); (uwrite ∅ 0 (str "linu"), 0, 4); (uwrite ∅ 9 (str "abc"), 9, 3)].

Lemma writers_safe_witness :
  exists xs w', run_writers [0; 1; 0; 2; 1; 1; 0; 0; 2; 0; 0; 2]%nat (all_call misc_write three) idle_file =
      (Done xs, w') /\
    forall i j x y, xs !! i = Some x -> xs !! j = Some y -> inside x = true -> inside y = true -> i = j.
Proof.
  destruct (writers_safe misc_write three [str "linux"; str "linu"; str "abc"]
    [0; 1; 0; 2; 1; 1; 0; 0; 2; 0; 0; 2]%nat idle_file) as (xs & w' & E & _ & H).
  - by right.
  - reflexivity.
  - reflexivity.
  - repeat constructor; cbn; lia.
  - exists xs, w'. exact (conj E H).
Defined.

Lemma writers_break_in_witness :
  exists sched A B w', run_writers sched
      [calls procfs_write (uwrite ∅ 0 (str "abcde")) 0 5; calls procfs_write (uwrite ∅ 0 (str "linux123")) 0 8]
      idle_file = (Done [A; B], w') /\ result A = Some 5.
Proof.
  exact (proj1 (writers_break_in (uwrite ∅ 0 (str "abcde")) 0 (uwrite ∅ 0 (str "linux123")) 0 idle_file
    eq_refl eq_refl) eq_refl eq_refl).
Defined.

Definition alone_proc : world Procfs.state :=
  World ∅ 1 (uwrite ∅ 0 (str "linux")) [] (Procfs.State buffers_static 0 0).
Definition alone_misc : world buffers := World ∅ 1 (uwrite ∅ 0 (str "linux")) [] buffers_static.

Lemma alone_misc_run : exists u, MiscDev.my_write 0 5 0 alone_misc = (Done (5, 5), u).
Proof.
  exists (MiscDev.my_write 0 5 0 alone_misc).2.
  transitivity ((MiscDev.my_write 0 5 0 alone_misc).1, (MiscDev.my_write 0 5 0 alone_misc).2);
    [apply surjective_pairing|]. f_equal; vm_compute; reflexivity.
Qed.

Lemma writers_alone_witness :
  exists x w', run_writers (replicate 6 0%nat) [calls misc_write (uwrite ∅ 0 (str "linux")) 0 5] idle_file =
      (Done [x], w') /\ result x = Some 5.
Proof.
  destruct (writers_alone (uwrite ∅ 0 (str "linux")) 0 5 idle_file alone_proc alone_misc
    eq_refl eq_refl eq_refl eq_refl eq_refl eq_refl eq_refl) as [_ H].
  destruct alone_misc_run as [u Hu]. destruct (H 5 5 u Hu) as (x & w' & E & Hr & _).
  exists x, w'. exact (conj E Hr).
Defined.
