(* ===== verification/KthreadLife.v ===== *)
(** * The life of a kernel thread (src/kernel_thread.c)

    The module starts a thread when it is loaded and stops it when it is
    unloaded; in between, and not when the module wants it, the scheduler lets
    the thread run to its end.  Here loads, unloads and the scheduler come in
    any order, and the functions of Threads.v ([Kthread]) are shown to follow
    a specification with four phases. *)

From stdpp Require Import base gmap list numbers list_numbers strings.
From Stdlib Require Import ZArith Lia.
From S2P Require Import Prelude Kernel Lifecycle Hooks Threads.

(** The steps of the machine: the module is loaded and unloaded, and its
    thread gets to run. *)
Inductive event := LoadThread | UnloadThread | RunThread.

Section Life.
Context {ENV : Env} (wakes : Z -> bool).

(** Whether the module is loaded, and its variables. *)
Abbreviation machine_state := (bool * Kthread.state)%type.
Implicit Types w : world machine_state.

Definition set_loaded (b : bool) : K machine_state unit := modify (fun g => (b, g.2)).

(** The loader loads a module that is not there, with its variables in their
    initial state, and unloads one that is. *)
Definition run_event (e : event) : K machine_state unit :=
  g ← get;
  match e, g.1 with
  | LoadThread, false =>
      set_loaded true;; on_snd (modify (fun s => Kthread.State 0 (Kthread.threads s)));;
      on_snd (Kthread.thread_init wakes);; mret tt
  | UnloadThread, true => on_snd (Kthread.thread_exit wakes);; set_loaded false
  | RunThread, true => on_snd Kthread.run_thread
  | _, _ => mret tt
  end.

Fixpoint run_events (es : list event) : K machine_state unit :=
  match es with
  | [] => mret tt
  | e :: es' => run_event e;; run_events es'
  end.

(** ** The specification *)

(** How far kernel_thread.c has got: not loaded, its thread ready to run,
    stopped where waking does not reach it, or at its end. *)
Inductive phase := Absent | Ready | Stopped | Ended.

(** The phase and how often [thread_fn] has run; [None]: the machine faults
    or hangs. *)
Definition spec_event (e : event) (s : phase * nat) : option (phase * nat) :=
  let (p, n) := s in
  match e, p with
  | LoadThread, Absent => Some (if wakes Kthread.TASK_STOPPED then Ready else Stopped, n)
  | UnloadThread, Ready => Some (Absent, n)
  | UnloadThread, (Stopped | Ended) => None
  | RunThread, Ready => Some (Ended, S n)
  | _, _ => Some (p, n)
  end.

Fixpoint spec_events (es : list event) (s : phase * nat) : option (phase * nat) :=
  match es with
  | [] => Some s
  | e :: es' => s' ← spec_event e s; spec_events es' s'
  end.

(** The variables of kernel_thread.c in a phase. *)
Definition in_phase (p : phase) (g : machine_state) : Prop :=
  let t := Kthread.thread1 g.2 in
  let th := Kthread.threads g.2 !! t in
  match p with
  | Absent => g.1 = false
  | Ready => g.1 = true /\ t <> 0 /\ th = Some None
  | Stopped => g.1 = true /\ t <> 0 /\ th = Some (Some Kthread.TASK_STOPPED) /\
      wakes Kthread.TASK_STOPPED = false
  | Ended => g.1 = true /\ t <> 0 /\ th = None
  end.

(** How often the function has run. *)
Definition ran w : nat := length (lines Kthread.thread_fmt (log w)).

(** The thread of kernel_thread.c, by its scheduling state. *)
Section Thread.
Implicit Types v : world Kthread.state.

Definition mine v : option (option Z) := Kthread.threads (glob v) !! Kthread.thread1 (glob v).

Lemma run_ready v :
  mine v = Some None ->
  exists v', Kthread.run_thread v = (Done tt, v') /\ Kthread.thread1 (glob v') = Kthread.thread1 (glob v) /\
    Kthread.threads (glob v') = delete (Kthread.thread1 (glob v)) (Kthread.threads (glob v)) /\
    lines Kthread.thread_fmt (log v') = lines Kthread.thread_fmt (log v) ++ [[]].
Proof.
  intros H. unfold Kthread.run_thread, Kthread.thread_fn. krun. unfold mine in H. rewrite H. krun.
  eexists. split; [reflexivity|]. kcbn. split_and!; [done..|]. by klines.
Qed.

Lemma run_idle v : mine v <> Some None -> Kthread.run_thread v = (Done tt, v).
Proof.
  intros H. unfold Kthread.run_thread. krun. unfold mine in H.
  by destruct (Kthread.threads _ !! _) as [[]|].
Qed.

Lemma exit_ready v :
  Kthread.thread1 (glob v) <> 0 -> mine v = Some None ->
  exists v', Kthread.thread_exit wakes v = (Done tt, v') /\
    lines Kthread.thread_fmt (log v') = lines Kthread.thread_fmt (log v).
Proof.
  intros Ht H. unfold Kthread.thread_exit, Kthread.kthread_stop. krun.
  rewrite (bind_done _ _ _ _ _ (Kthread.run_thread_ptr _ _ _ Ht H)). krun.
  eexists. split; [reflexivity|]. kcbn. by klines.
Qed.

Lemma exit_stuck v s :
  Kthread.thread1 (glob v) <> 0 -> mine v = Some (Some s) -> wakes s = false ->
  Kthread.thread_exit wakes v = (Oops Diverges, v).
Proof.
  intros Ht H Hs. unfold Kthread.thread_exit, Kthread.kthread_stop. krun.
  rewrite (bind_done _ _ _ _ _ (Kthread.run_thread_ptr _ _ _ Ht H)). by rewrite Hs.
Qed.

Lemma exit_ended v :
  Kthread.thread1 (glob v) <> 0 -> mine v = None ->
  Kthread.thread_exit wakes v = (Oops (BadPointer (Kthread.thread1 (glob v))), v).
Proof.
  intros Ht H. unfold Kthread.thread_exit, Kthread.kthread_stop, Kthread.thread. krun.
  rewrite (proj2 (Z.eqb_neq _ _) Ht). krun. unfold mine in H. by rewrite H.
Qed.
End Thread.

Context (Hcreate : forall tr, let t := kret tr (KthreadCreate "my_thread") in t <> 0 /\ is_err t = false).

Lemma load_thread_run w :
  (glob w).1 = false ->
  exists w', run_event LoadThread w = (Done tt, w') /\
    in_phase (if wakes Kthread.TASK_STOPPED then Ready else Stopped) (glob w') /\ ran w' = ran w.
Proof.
  intros Hl. destruct w as [h b u l [ld g]]. cbn in Hl. subst ld.
  set (w0 := World h b u l (Kthread.State 0 (Kthread.threads g))).
  destruct (Hcreate l) as [Hn He].
  destruct (Kthread.run_thread_init wakes w0 Hn He) as (w1 & E & Ht & Hth & Hlines).
  exists (pair_snd true w1). split.
  - unfold run_event, set_loaded. krun.
    erewrite bind_done by reflexivity. by erewrite bind_done by (apply run_on_snd; exact E).
  - split; [|unfold ran; cbn [log pair_snd]; by rewrite Hlines].
    unfold in_phase. cbn. rewrite Ht, Hth. unfold Kthread.started.
    destruct (wakes Kthread.TASK_STOPPED) eqn:Ew; rewrite lookup_insert_eq; by rewrite ?Ew.
Qed.

Lemma run_thread_step p w :
  in_phase p (glob w) ->
  exists w', run_event RunThread w = (Done tt, w') /\
    in_phase (if p is Ready then Ended else p) (glob w') /\
    ran w' = (ran w + if p is Ready then 1 else 0)%nat.
Proof.
  destruct w as [h b u l [ld g]]. unfold run_event. intros Hp. krun.
  destruct p; cbn in Hp; destruct_and?; subst ld; cbn [fst]; [eexists; split; [reflexivity|]; by rewrite Nat.add_0_r| | |].
  - edestruct (run_ready (World h b u l g)) as (w' & E & Ht & Hth & Hl); [done|].
    eexists. split; [apply run_on_snd, E|]. unfold in_phase, ran. cbn [glob log pair_snd fst snd].
    rewrite Ht, Hth, Hl, lookup_delete_eq, length_app. done.
  - erewrite run_on_snd by (apply run_idle; unfold mine; cbn; congruence).
    eexists. split; [reflexivity|]. by rewrite Nat.add_0_r.
  - erewrite run_on_snd by (apply run_idle; unfold mine; cbn; congruence).
    eexists. split; [reflexivity|]. by rewrite Nat.add_0_r.
Qed.

Lemma unload_step p w :
  in_phase p (glob w) ->
  match p with
  | Absent | Ready => exists w', run_event UnloadThread w = (Done tt, w') /\
      in_phase Absent (glob w') /\ ran w' = ran w
  | Stopped | Ended => exists f w', run_event UnloadThread w = (Oops f, w')
  end.
Proof.
  destruct w as [h b u l [ld g]]. unfold run_event. intros Hp. krun.
  destruct p; cbn in Hp; destruct_and?; subst ld; cbn [fst]; [by eexists; split| | |].
  - edestruct (exit_ready (World h b u l g)) as (w' & E & Hl); [done..|].
    erewrite bind_done by (apply run_on_snd, E). eexists. split; [reflexivity|].
    split; [done|]. unfold ran. cbn [log with_glob pair_snd]. by rewrite Hl.
  - eexists _, _. erewrite bind_oops by (apply run_on_snd; by eapply exit_stuck). reflexivity.
  - eexists _, _. erewrite bind_oops by (apply run_on_snd; by apply exit_ended). reflexivity.
Qed.

(** One event is one event of the specification. *)
Lemma event_step e p n w :
  in_phase p (glob w) ->
  match spec_event e (p, n) with
  | Some (p', n') => exists w', run_event e w = (Done tt, w') /\ in_phase p' (glob w') /\
      (ran w' + n = ran w + n')%nat
  | None => exists f w', run_event e w = (Oops f, w')
  end.
Proof.
  intros Hp. destruct e.
  - destruct p; [edestruct load_thread_run as (w' & E & Hp' & Hr); [exact Hp|];
      exists w'; rewrite Hr; auto| | |];
      cbn; exists w; (split; [|auto]); unfold run_event; krun; by rewrite (proj1 Hp).
  - pose proof (unload_step p w Hp) as H.
    destruct p; cbn; [| |done|done]; destruct H as (w' & E & Hp' & Hr); exists w'; rewrite Hr; auto.
  - destruct (run_thread_step p w Hp) as (w' & E & Hp' & Hr).
    destruct p; exists w'; rewrite Hr; split_and!; try done; lia.
Qed.

Lemma events_run es p n w :
  in_phase p (glob w) ->
  match spec_events es (p, n) with
  | Some (p', n') => exists w', run_events es w = (Done tt, w') /\ in_phase p' (glob w') /\
      (ran w' + n = ran w + n')%nat
  | None => exists f w', run_events es w = (Oops f, w')
  end.
Proof.
  revert p n w. induction es as [|e es IH]; intros p n w Hp; cbn [spec_events run_events].
  { exists w. auto. }
  pose proof (event_step e p n w Hp) as H. destruct (spec_event e (p, n)) as [[p1 n1]|]; cbn.
  - destruct H as (w1 & E & Hp1 & Hr1). rewrite (bind_done _ _ _ _ _ E). specialize (IH p1 n1 w1 Hp1).
    destruct (spec_events es (p1, n1)) as [[p2 n2]|]; [|done].
    destruct IH as (w2 & E2 & Hp2 & Hr2). exists w2. split_and!; [done..|lia].
  - destruct H as (f & w1 & E). exists f, w1. by rewrite (bind_oops _ _ _ _ _ E).
Qed.
End Life.

(** ** Properties *)

(** C17 The module follows its specification when threads can be created: in
    whatever order it is loaded and unloaded and its thread is scheduled, the
    machine does what [spec_events] says.  Where waking reaches a task in the
    state the module puts its thread in, [thread_fn] runs once for each load
    that lets the scheduler get to it before the unload, and never twice;
    elsewhere it never runs.  The machine faults or hangs exactly at an unload
    that comes after the thread's end or while it cannot be woken. *)
Theorem kthread_events {ENV : Env} wakes es w :
  (forall tr, let t := kret tr (KthreadCreate "my_thread") in t <> 0 /\ is_err t = false) ->
  (glob w).1 = false ->
  match spec_events wakes es (Absent, 0%nat) with
  | Some (p, n) => exists w', run_events wakes es w = (Done tt, w') /\
      in_phase wakes p (glob w') /\ ran w' = (ran w + n)%nat
  | None => exists f w', run_events wakes es w = (Oops f, w')
  end.
Proof.
  intros Hc Hl. pose proof (events_run wakes Hc es Absent 0 w Hl) as H.
  destruct (spec_events wakes es (Absent, 0%nat)) as [[p n]|]; [|done].
  destruct H as (w' & E & Hp & Hr). exists w'. by rewrite Nat.add_0_r in Hr.
Qed.

(** ** Concrete runs *)

Definition quiet : world (bool * Kthread.state) := World ∅ 1 ∅ [] (false, Kthread.State 0 ∅).

(** Unloaded in time, loaded again, and left running; and unloaded too late. *)
Lemma kthread_events_witness :
  (exists w', run_events (ENV := calm) Kthread.wakes_all
     [LoadThread; UnloadThread; LoadThread; RunThread; RunThread] quiet = (Done tt, w') /\ ran w' = 1%nat) /\
  exists f w', run_events (ENV := calm) Kthread.wakes_all [LoadThread; RunThread; UnloadThread] quiet = (Oops f, w').
Proof.
  split.
  - destruct (kthread_events (ENV := calm) Kthread.wakes_all
      [LoadThread; UnloadThread; LoadThread; RunThread; RunThread] quiet) as (w' & E & _ & Hr); [done|done|].
    by exists w'.
  - apply (kthread_events (ENV := calm) Kthread.wakes_all [LoadThread; RunThread; UnloadThread] quiet); done.
Defined.

(** Unloading after the thread's end. *)
Example unload_after_end :
  (run_events (ENV := calm) Kthread.wakes_all [LoadThread; RunThread; UnloadThread] quiet).1 = Oops (BadPointer 1).
Proof. reflexivity. Qed.
