(* ===== verification/Kallsyms.v ===== *)
(** * Calling a function by its name (src/kallsyms.c)

    Loading the module looks "thread_fn" up in the kernel's table of symbols
    and calls what it finds.

    The source does not compile: it tests [sym_addr], which is not declared,
    where the address is called [symbol_addr].  The undeclared name is an
    argument of the model, the value it would have once the lookup has
    returned an address; [sym_addr_must_follow] shows that a value that does
    not depend on the lookup will not do.  The lookup is a call of the
    environment, and the code at an address a parameter. *)

From stdpp Require Import base gmap list numbers list_numbers strings.
From Stdlib Require Import ZArith Lia.
From S2P Require Import Prelude Kernel.

Section Module.
Context {ENV : Env} {G : Type} (text : Z -> option (K G Z)).

(** [func_call()] for a [func_call] of type [int ( * )(void)]. *)
Definition function_call (a : Z) : K G Z :=
  if a =? 0 then oops NullDeref else f ← of_option (BadPointer a) (text a); f.

Definition unresolved_fmt : string := "Unresolved Symbol %s".

(** [sym_addr] is what the undeclared name stands for, given the address
    that was found. *)
Definition init_kallsyms (sym_addr : Z -> Z) : K G Z :=
  symbol_addr ← call (KallsymsLookupName "thread_fn");
  (if negb (sym_addr symbol_addr =? 0)
   then function_call symbol_addr;; mret tt
   else printk unresolved_fmt [PStr (str "thread_fn")]);;
  mret 0.

Definition cleanup_kallsyms : K G unit :=
  printk "%s: Module Unloaded.\n" [PStr (str "kallsyms")].

Implicit Types w : world G.

(** A value for the undeclared name that does not depend on the lookup: if it
    is not zero and the symbol is not there (the lookup returns 0), the module
    calls address zero; if it is zero, nothing is ever called. *)
Theorem sym_addr_must_follow c w :
  (c <> 0 -> kret (log w) (KallsymsLookupName "thread_fn") = 0 ->
     exists w', init_kallsyms (fun _ => c) w = (Oops NullDeref, w')) /\
  (c = 0 -> exists w', init_kallsyms (fun _ => c) w = (Done 0, w') /\ glob w' = glob w /\
     lines unresolved_fmt (log w') = lines unresolved_fmt (log w) ++ [[PStr (str "thread_fn")]]).
Proof.
  unfold init_kallsyms. split.
  - intros Hc H. krun. rewrite H, (proj2 (Z.eqb_neq _ _) Hc). krun. by eexists.
  - intros ->. krun. eexists. split; [reflexivity|]. split; [done|]. kcbn. by klines.
Qed.
End Module.
